(* ===== verification/_CoqProject ===== *)
-Q . S2P
Prelude.v
Errors.v
Crc.v
Whiten.v
Sim.v
Channels.v
Timers.v
Addr.v
Ad.v
Pdu.v
Events.v
EventQueue.v
Hci.v
BondStore.v
Crypto.v
Aes.v
Smp.v
SmpSc.v
Vectors.v
Ccm.v
Gatt.v
Conn.v
Att.v
CocChannel.v
SmpChannel.v
L2cap.v
Frame.v
Radio.v
LinkLayer.v
LinkInv.v
LinkEvents.v
LinkTime.v
LinkHistory.v
LinkControl.v
LinkPlain.v
LinkCrypt.v
Ble.v
BleInv.v
Advertiser.v
AdvInv.v
Scanner.v
ScanInv.v
Air.v
Driver.v
DriverInv.v
Stack.v
AdvLive.v
Clock.v
Privacy.v
HwTest.v
Testing.v
TestFormats.v
TestHost.v
TestConn.v
