(* ===== verification/Prelude.v ===== *)
(** * nrf-ble: a verification development

    This library models the Bluetooth Low Energy stack nrf-ble, a Rust crate for
    the nRF5 radio with no operating system under it, and proves what makes it
    correct. Every definition under "The source's definitions" of a file, and
    every one the files' introductions name, follows the code of [src/src/] line
    by line: its guards, its early returns, its order of effects.

    ** The program

    The crate has three layers. At the bottom are formats and arithmetic that
    need no hardware ([ll/], [gap/], [error.rs], [sim.rs]): checksums, whitening,
    channel selection, advertising and data PDUs, addresses. Above them are the
    drivers and the connection ([hw/radio.rs], [hw/timers.rs], [hw/ccm.rs],
    [hw/smp.rs], [hw/conn.rs], [hw/bond_flash.rs]): a connection is one record
    with its link layer, its L2CAP reassembly and fragmentation, its attribute
    server and client, one credit-based channel and the pairing state. On top are
    the stack ([hw/ble.rs]), which advertises, scans, initiates and drives one
    connection, all by polling, and the HCI layer ([hci.rs]), which turns
    commands of a host into calls of the stack and events of the stack into
    packets. Components share no state but the stack's record and the hardware;
    they interact by calls, by the ring of events, and through the buffers the
    hardware fills.

    ** Conventions

    - A function that can panic returns an [outcome]; [Panic] is an index or slice
      out of range, a copy between slices of different lengths, an unwrap of
      nothing, or an overflow of checked arithmetic. [Result] is [result]. [let!]
      and [let?] are sequencing and the question mark.
    - Machine integers are [Z] with the width written out: [u8], [u16], [u32] wrap,
      [add_u32] and [mul_u32] panic on overflow, [wrapping_add32] is what it says.
      [usize] is [nat], and its subtraction is checked. Arrays are lists; their
      lengths are part of the invariants, which also show that no operation
      changes them.
    - A loop that waits for the hardware has fuel and returns a [run]: [Done], a
      [Fault] or [OutOfFuel]. Bounded loops recurse on their bound. Theorems of
      termination say how much fuel is enough: one more than the number of polls
      until the window closes; a loop for which no fuel is enough is a loop that
      never ends, and is stated as such. A [Fault] is a panic, [Panicking], or the
      radio writing past the end of the buffer it was given, [Overrun]: what the
      memory holds after that is not the program's, and nothing is stated of it.
    - The hardware is an environment [Env]: what every read of the timer, the
      compare event, the receiver and the signal strength gives, indexed by how
      often it was read, with the width of the timer and of bytes and the length
      of the longest packet, 257 bytes, as its only laws. [World] is what the
      drivers have written: the radio's registers, the room at its packet pointer,
      the armed compare, and every slice given to the transmitter, with the
      registers it was sent under. What the radio makes of a slice is [aired]: S0,
      the length byte and as many bytes as that says, so that for advertising PDUs,
      whose length byte is the length shifted by one, memory beyond the slice
      follows it on the air. So a theorem about all [Env] is about all hardware and
      all packets, and two devices have two [Env]s.
    - Code that is not in the repository is an interface: [Crypto] for the AES,
      CMAC and P-256 crates (output lengths), [CcmHw] for the cipher peripheral,
      on the registers the driver has programmed and the packet in memory (it
      keeps the packet's length and writes bytes), [Nvmc] for the flash controller
      (pages are erased, aligned words programmed, a byte store is a hard fault;
      nothing is said of power losses). Each has concrete instances:
      [Crypto] a masking one and, in [Aes], AES-128 and CMAC by their standards
      with a small commutative group in the place of the curve, on which the
      specification's sample data and the crate's tests are evaluated.

    ** The files

    - [Prelude]: this file; outcomes, integers, slices, their lemmas and tactics.
    - [Errors] (error.rs), [Crc] (ll/crc.rs), [Whiten] (ll/whiten.rs), [Sim]
      (sim.rs), [Channels] (ll/channels.rs), [Timers] (hw/timers.rs and the
      periodic interval of hw/ble.rs), [Addr] (ll/addr.rs, ll/accept_list.rs),
      [Ad] (gap/ad.rs), [Pdu] (ll/pdu.rs): formats and arithmetic.
    - [Events] and [EventQueue] (hw/ble.rs): parameters and events of the
      application, and the ring that holds them.
    - [Hci] (hci.rs): packets, framing, commands and forwarding, against the class
      [BleHost] of what the layer needs of a stack.
    - [BondStore] (the trait and RAM store of hw/conn.rs, hw/bond_flash.rs): the
      class [BondStore] with the RAM store as its instance, and the flash page
      over the class [Nvmc] of the controller.
    - [Crypto] (ll/priv_.rs), [Smp] (hw/smp.rs), [Ccm] (hw/ccm.rs): private
      addresses, pairing, payload encryption. [Aes]: the cipher's standards;
      [SmpSc]: the key agreement of Secure Connections; [Vectors]: the functions
      against the sample data of the Core Specification.
    - [Gatt], [Conn], [Att], [CocChannel], [SmpChannel], [L2cap] (hw/conn.rs): the
      connection's record, its queues, and its upper layers; [Frame]: what the
      upper layers leave alone.
    - [Radio] (hw/radio.rs, hw/timers.rs): the drivers over [Env].
    - [LinkLayer] (hw/conn.rs): control PDUs, transmission, reception and events;
      [LinkInv], [LinkEvents]: its invariant, and what an event sends; [LinkTime]:
      when events end, and packets too long for the buffer; [LinkHistory]: events
      one after the other with the host's operations in between, anchors and
      updates; [LinkControl]: control PDUs; [LinkPlain], [LinkCrypt]: events
      without and with encryption.
    - [Ble] (hw/ble.rs): the stack's record and API; [Advertiser], [Scanner],
      [Driver]: what [adv_tick], [scan_tick] and [conn_tick] do, and the blocking
      loops over a callback. [BleInv], [AdvInv], [ScanInv], [DriverInv]: the
      stack's invariant and what each part does; [Air]: devices that hear each
      other; [Stack]: the whole, and the HCI layer on top of it; [AdvLive],
      [Clock], [Privacy]: advertising over several events, schedules in
      microseconds, and private addresses on the air.
    - [HwTest] (examples/hwtest): the test application on the stack.
    - [Testing], [TestFormats], [TestHost], [TestConn]: the crate's unit tests and
      its integration test, translated and evaluated on the definitions: every
      [assert] of the source holds of the model.

    ** The theorems

    - Invariants. [wf_conn] and [wf_link] hold of a connection in every state that
      events and the host's calls can reach ([connection_invariant]); [wf_ble] of
      the stack after every sequence of calls and ticks ([stack_invariant]),
      where no call panics and no advertising or scanning tick panics or writes
      past its buffer; credits never go below zero ([coc_credit_safety]). A
      connection event can panic, on the PDUs [handle_l2cap_panics_exactly] and
      [control_answered] name, and a packet longer than a connection's buffer is
      written past its end ([event_overruns]): both end the [run], and invariants
      are of the events that complete.
    - Devices together. An advertiser's event puts the configured PDU on the
      selected channel ([adv_event_on_air]) and a scanner reports exactly it
      ([advertising_reported]); an initiator and an advertiser end up with the
      same parameters and the same channel at every event ([connection_agrees]);
      HCI commands lead to that advertising ([hci_advertises]); a GATT request
      crosses both L2CAP layers and comes back answered ([gatt_end_to_end]); two
      pairing devices agree on a key exactly when their passkeys do
      ([legacy_pairing_agrees]), and with Secure Connections whenever the exchange
      commutes ([sc_pairing_agrees]); the two ends of an encrypted link stay in
      step, and no two events use the same cipher block until encryption is
      restarted ([encryption_in_step]); a rotated private address goes on the air and resolves ([private_advertising]).
    - Liveness. A running advertiser has a connection or has used every enabled
      channel within three events ([advertising_reaches_channels]).
    - Functional behaviour and refinement. Checksums, channel selection, the
      attribute server, reassembly, the event ring, the RAM bond store and the
      HCI layer against reference definitions; every control PDU's effect and
      answer ([control_answered]); any bytes a host sends, served
      ([hci_serves_stack]).
    - Round trips. Every format, and framing of HCI streams.
    - The whole program. The test application's handling of received data is dead
      code, and nothing but a connection event stops it ([hwtest_never_echoes]).
    - Time. Intervals, windows and timeouts last what they say in microseconds on
      the timer as it is started, and fit it ([schedule_exact]). Connection events
      end, but for the wrap ([event_terminates]); over a connection's history
      anchors do not drift and updates happen at their instant
      ([update_at_instant]); what the 24-bit timer
      does to deadlines kept on 32 bits ([adv_event_wraps], [supervision_exact]).
    - What the code does and does not mean to do. Several theorems state exactly a
      behaviour that is a defect: [plain_event_deaf], [supervision_exact],
      [adv_event_wraps], [event_overruns], [flash_save_loses],
      [coc_sdu_reassembled], [h4_stream_roundtrip], [hwtest_never_echoes],
      [encryption_in_step], [private_advertising]; so do the lemmas
      [conn_data_lost], [requeue_mid_message], [smp_reply_framed_twice],
      [event_ring_overflow], [c1_sample], [s1_sample] and [ah_sample].

    ** Bounds

    Nothing bounds the length of a run. Lengths are those of the source's arrays
    and registers: the radio's length field has eight bits and its maximum is 255,
    so a received packet has at most 257 bytes; the stack's receive buffer has as
    many, a connection's has 64; the driver then takes a packet's length from bits
    one to six of the second byte; the event rings have 8 and 16 slots; the busy polls of periodic and auxiliary
    packets turn 40001 and 200001 times. Searches over a channel map take 37
    steps and over the advertising map 3, as in the code.

    ** Not modelled

    - The drivers' constructors, which only take a peripheral, the start of the
      crystal oscillator, and the waits for the cipher, for the radio's ramp-up
      and for its transmission, and for the flash, which are taken to end:
      hardware access without logic.
    - What a device does after a fault: it loops in the panic handler, faults
      hard, or runs on with memory a packet has overwritten.
    - The S1 field that [set_phy] configures for modes the stack never selects:
      packets are modelled as in the mode it uses, without one.
    - The arithmetic of P-256, which is a crate of its own: the one unit test that
      compares with its points is evaluated for any exchange that has the values
      the test was made with ([ecdh_test_passes]).
    - The waiting instruction of the [wfi] feature, which has no effect on the
      state.
    - Interrupts: the crate has none, all of it polls.
    - Module declarations and feature checks; the application's printing, which
      is a log, and its panic handler.
*)

From Stdlib Require Import ZArith Lia.
From stdpp Require Import base numbers list.

#[global] Set Default Goal Selector "!".

(** ** Outcomes: a Rust computation returns or panics *)

(** A panic is an out-of-range index or slice, a [copy_from_slice] between
    slices of different lengths, an [unwrap] of nothing, or an arithmetic
    overflow with overflow checks on. *)
Inductive outcome (A : Type) : Type :=
| Ret (a : A)
| Panic.

Arguments Ret {A} a.
Arguments Panic {A}.

(** Rust's [Result]. *)
Inductive result (T E : Type) : Type :=
| Ok (t : T)
| Err (e : E).

Arguments Ok {T E} t.
Arguments Err {T E} e.

(** Sequencing: a panic ends the computation. *)
Definition obind {A B} (m : outcome A) (f : A -> outcome B) : outcome B :=
  match m with Ret a => f a | Panic => Panic end.

(** The [?] operator: stop with the error, otherwise go on with the value. *)
Definition try_bind {A B E} (m : outcome (result A E))
    (f : A -> outcome (result B E)) : outcome (result B E) :=
  match m with
  | Ret (Ok a) => f a
  | Ret (Err e) => Ret (Err e)
  | Panic => Panic
  end.

(** [Option::ok_or]. *)
Definition ok_or {A E} (o : option A) (e : E) : result A E :=
  match o with Some a => Ok a | None => Err e end.

(** ** Computations with fuel *)

(** What ends a computation before its result: a panic, or the receiver writing
    past the end of the buffer it was given. *)
Inductive fault : Type := Panicking | Overrun.

(** A loop that waits for the hardware may not end: it has fuel. *)
Inductive run (A : Type) : Type :=
| Done (a : A)
| Fault (f : fault)
| OutOfFuel.

Arguments Done {A} a.
Arguments Fault {A} f.
Arguments OutOfFuel {A}.

Definition rbind {A B} (m : run A) (f : A -> run B) : run B :=
  match m with Done a => f a | Fault e => Fault e | OutOfFuel => OutOfFuel end.

Definition lift {A} (m : outcome A) : run A :=
  match m with Ret a => Done a | Panic => Fault Panicking end.

Declare Scope rust_scope.
Delimit Scope rust_scope with rust.

Notation "'let!' x := m 'in' k" := (obind m (fun x => k))
  (at level 10, x pattern, m at level 100, k at level 200) : rust_scope.
Notation "'let?' x := m 'in' k" := (try_bind m (fun x => k))
  (at level 10, x pattern, m at level 100, k at level 200) : rust_scope.

Notation "'let*' x := m 'in' k" := (rbind m (fun x => k))
  (at level 10, x pattern, m at level 100, k at level 200) : rust_scope.
Notation "'do*' x := m 'in' k" := (rbind (lift m) (fun x => k))
  (at level 10, x pattern, m at level 100, k at level 200) : rust_scope.

(** Bit operators, with Rust's relative precedences. *)
Notation "a .<< n" := (Z.shiftl a n) (at level 51, left associativity) : rust_scope.
Notation "a .>> n" := (Z.shiftr a n) (at level 51, left associativity) : rust_scope.
Notation "a .& b" := (Z.land a b) (at level 52, left associativity) : rust_scope.
Notation "a .^ b" := (Z.lxor a b) (at level 53, left associativity) : rust_scope.
Notation "a .| b" := (Z.lor a b) (at level 54, left associativity) : rust_scope.

#[export] Set Warnings "-notation-overridden".
Open Scope rust_scope.
Open Scope Z_scope.

(** [Result::unwrap]. *)
Definition unwrap {A E} (m : outcome (result A E)) : outcome A :=
  let! r := m in match r with Ok a => Ret a | Err _ => Panic end.

(** ** Machine integers: [Z] with the width written out *)

Definition u8 (x : Z) : Z := x mod 256.
Definition u16 (x : Z) : Z := x mod 65536.
Definition u32 (x : Z) : Z := x mod 4294967296.
Definition u64 (x : Z) : Z := x mod 18446744073709551616.

Definition is_u8 (x : Z) : Prop := 0 <= x < 256.
Definition is_u16 (x : Z) : Prop := 0 <= x < 65536.
Definition is_u32 (x : Z) : Prop := 0 <= x < 4294967296.

(** A byte slice all of whose elements are bytes. *)
Definition bytes (l : list Z) : Prop := Forall is_u8 l.

(** The same, as a boolean that evaluates. *)
Definition bytesb (l : list Z) : bool :=
  forallb (fun x => (0 <=? x) && (x <? 256)) l.

(** Checked arithmetic: [+] at a width, and [-] on [usize]. *)
Definition checked_add (bound a b : Z) : outcome Z :=
  if a + b <? bound then Ret (a + b) else Panic.
Definition checked_mul (bound a b : Z) : outcome Z :=
  if a * b <? bound then Ret (a * b) else Panic.
Definition add_u8 := checked_add 256.
Definition add_u32 := checked_add 4294967296.
Definition mul_u32 := checked_mul 4294967296.
Definition sub_usize (a b : nat) : outcome nat :=
  if (b <=? a)%nat then Ret (a - b)%nat else Panic.

(** [wrapping_add] and [wrapping_sub] on [u32]. *)
Definition wrapping_add32 (a b : Z) : Z := u32 (a + b).
Definition wrapping_sub32 (a b : Z) : Z := u32 (a - b).

(** [to_le_bytes] and [from_le_bytes] at the widths the source uses. *)
Definition u16_to_le (v : Z) : list Z := [v mod 256; v / 256 mod 256].
Definition u16_from_le (a b : Z) : Z := a + 256 * b.
Definition u32_to_le (v : Z) : list Z :=
  [v mod 256; v / 256 mod 256; v / 65536 mod 256; v / 16777216 mod 256].
Definition u32_from_le (a b c d : Z) : Z :=
  a + 256 * b + 65536 * c + 16777216 * d.

(** [bool as u8]. *)
Definition bool_u8 (b : bool) : Z := if b then 1 else 0.

(** ** Slices: reads and writes that panic out of range *)

Section slices.
Context {A : Type}.
Implicit Types l src : list A.

(** [l[i]] *)
Definition idx l (i : nat) : outcome A :=
  match l !! i with Some x => Ret x | None => Panic end.

(** [l[i] = x] *)
Definition set_idx l (i : nat) (x : A) : outcome (list A) :=
  if (i <? length l)%nat then Ret (<[i:=x]> l) else Panic.

(** [&l[a..b]] *)
Definition slice l (a b : nat) : outcome (list A) :=
  if (a <=? b)%nat && (b <=? length l)%nat
  then Ret (take (b - a) (drop a l)) else Panic.

(** [&l[..b]] *)
Definition slice_to l (b : nat) : outcome (list A) := slice l 0 b.

(** [&l[a..]] *)
Definition slice_from l (a : nat) : outcome (list A) := slice l a (length l).

(** [l[a..b].copy_from_slice(src)]: [l] with the range replaced. *)
Definition copy_at l (a b : nat) src : outcome (list A) :=
  if (a <=? b)%nat && (b <=? length l)%nat && (length src =? b - a)%nat
  then Ret (take a l ++ src ++ drop b l) else Panic.

(** [l[a..b].fill(x)] *)
Definition fill_at l (a b : nat) (x : A) : outcome (list A) :=
  copy_at l a b (replicate (b - a) x).

End slices.

(** Bytewise exclusive or, the arithmetic of whitening and of channel
    errors. *)
Definition xor_bytes (a b : list Z) : list Z := zip_with Z.lxor a b.

(** The little-endian number a byte string spells. *)
Fixpoint le_val (l : list Z) : Z :=
  match l with
  | [] => 0
  | b :: l => b + 256 * le_val l
  end.

(** Decide a boolean predicate on all of [0 .. n-1] by evaluation. *)
Definition forall_below (n : nat) (p : Z -> bool) : bool :=
  forallb (fun k => p (Z.of_nat k)) (seq 0 n).

(** ** Lemmas on the monad and on slices *)

Lemma obind_Ret {A B} (f : A -> outcome B) a : obind (Ret a) f = f a.
Proof. reflexivity. Qed.

Lemma rbind_Done {A B} (f : A -> run B) a : rbind (Done a) f = f a.
Proof. reflexivity. Qed.

Lemma lift_Ret {A} (a : A) : lift (Ret a) = Done a.
Proof. reflexivity. Qed.

Lemma obind_inv {A B} (f : A -> outcome B) m b :
  obind m f = Ret b -> exists a, m = Ret a /\ f a = Ret b.
Proof. destruct m; [eauto | discriminate]. Qed.

Lemma Ret_inj {A} (a b : A) : Ret a = Ret b -> a = b.
Proof. by injection 1. Qed.

Lemma idx_Some {A} (l : list A) i x : l !! i = Some x -> idx l i = Ret x.
Proof. unfold idx. by intros ->. Qed.

Lemma idx_Ret {A} (l : list A) i x : idx l i = Ret x <-> l !! i = Some x.
Proof. unfold idx. destruct (l !! i); split; congruence. Qed.

Lemma idx_Panic {A} (l : list A) i : idx l i = Panic <-> (length l <= i)%nat.
Proof.
  unfold idx. rewrite <- lookup_ge_None.
  destruct (l !! i); split; congruence.
Qed.

Lemma idx_lt {A} (l : list A) i : (i < length l)%nat -> exists x, idx l i = Ret x.
Proof.
  intros [x Hx]%lookup_lt_is_Some. exists x. by apply idx_Some.
Qed.

Lemma set_idx_Ret {A} (l : list A) i x :
  (i < length l)%nat -> set_idx l i x = Ret (<[i:=x]> l).
Proof. unfold set_idx. intros H%Nat.ltb_lt. by rewrite H. Qed.

Lemma slice_Ret {A} (l : list A) a b :
  (a <= b)%nat -> (b <= length l)%nat ->
  slice l a b = Ret (take (b - a) (drop a l)).
Proof.
  unfold slice. intros Ha%Nat.leb_le Hb%Nat.leb_le. by rewrite Ha, Hb.
Qed.

Lemma slice_inv {A} (l : list A) a b r :
  slice l a b = Ret r ->
  (a <= b <= length l)%nat /\ r = take (b - a) (drop a l).
Proof.
  unfold slice. intros H.
  destruct (Nat.leb_spec a b), (Nat.leb_spec b (length l)); simplify_eq/=.
  split; [lia | congruence].
Qed.

Lemma slice_to_Ret {A} (l : list A) b :
  (b <= length l)%nat -> slice_to l b = Ret (take b l).
Proof.
  intros. unfold slice_to. rewrite slice_Ret by lia.
  by rewrite drop_0, Nat.sub_0_r.
Qed.

Lemma slice_from_Ret {A} (l : list A) a :
  (a <= length l)%nat -> slice_from l a = Ret (drop a l).
Proof.
  intros. unfold slice_from. rewrite slice_Ret by lia.
  rewrite take_ge; [done | rewrite length_drop; lia].
Qed.

Lemma copy_at_Ret {A} (l : list A) a b src :
  (a <= b)%nat -> (b <= length l)%nat -> length src = (b - a)%nat ->
  copy_at l a b src = Ret (take a l ++ src ++ drop b l).
Proof.
  unfold copy_at. intros Ha%Nat.leb_le Hb%Nat.leb_le Hl%Nat.eqb_eq.
  by rewrite Ha, Hb, Hl.
Qed.

Lemma copy_at_inv {A} (l : list A) a b src r :
  copy_at l a b src = Ret r ->
  (a <= b <= length l)%nat /\ length src = (b - a)%nat /\
  r = take a l ++ src ++ drop b l.
Proof.
  unfold copy_at. intros H.
  destruct (Nat.leb_spec a b), (Nat.leb_spec b (length l)),
    (Nat.eqb_spec (length src) (b - a)); simplify_eq/=.
  auto with lia.
Qed.

Lemma copy_at_length {A} (l : list A) a b src r :
  copy_at l a b src = Ret r -> length r = length l.
Proof.
  intros (? & ? & ->)%copy_at_inv.
  rewrite !length_app, length_take, length_drop. lia.
Qed.

(** Writing a prefix and reading it back. *)
Lemma take_copied {A} (l src : list A) b :
  length src = b -> take b (take 0 l ++ src ++ drop b l) = src.
Proof. intros <-. rewrite take_0. simpl. by rewrite take_app_length. Qed.

(** Writing the bytes of a message one field after the other: the written
    part grows, the rest shrinks. *)
Lemma copy_at_first {A} (l src : list A) b :
  length src = b -> (b <= length l)%nat ->
  copy_at l 0 b src = Ret (src ++ drop b l).
Proof. intros. rewrite copy_at_Ret by lia. by rewrite take_0. Qed.

Lemma copy_at_append {A} (pre rest src : list A) a b :
  length pre = a -> length src = (b - a)%nat -> (a <= b)%nat ->
  (b - a <= length rest)%nat ->
  copy_at (pre ++ rest) a b src = Ret ((pre ++ src) ++ drop (b - a) rest).
Proof.
  intros <- Hs Hb Hr. rewrite copy_at_Ret by (rewrite ?length_app; lia).
  rewrite take_app_length, drop_app_ge, app_assoc by lia. done.
Qed.

Lemma set_idx_append {A} (pre rest : list A) i x :
  length pre = i -> (0 < length rest)%nat ->
  set_idx (pre ++ rest) i x = Ret ((pre ++ [x]) ++ drop 1 rest).
Proof.
  intros <- Hr. rewrite set_idx_Ret by (rewrite length_app; lia).
  rewrite (insert_app_r_alt pre), Nat.sub_diag by lia.
  destruct rest; [cbn in Hr; lia|]. by rewrite <- app_assoc.
Qed.

Lemma set_idx_first {A} (l : list A) x :
  (0 < length l)%nat -> set_idx l 0 x = Ret ([x] ++ drop 1 l).
Proof. intros. by apply (set_idx_append [] l). Qed.

(** Reading a field of a message that is a concatenation. *)
Lemma slice_app_r {A} (pre l : list A) a b :
  (length pre <= a)%nat -> (a <= b)%nat ->
  slice (pre ++ l) a b = slice l (a - length pre) (b - length pre).
Proof.
  intros. unfold slice. rewrite length_app, drop_app_ge by lia.
  replace (b - length pre - (a - length pre))%nat with (b - a)%nat by lia.
  destruct (Nat.leb_spec a b), (Nat.leb_spec b (length pre + length l)),
    (Nat.leb_spec (a - length pre) (b - length pre)),
    (Nat.leb_spec (b - length pre) (length l)); cbn [andb]; (done || lia).
Qed.

Lemma slice_app_head {A} (pre l : list A) b :
  length pre = b -> slice (pre ++ l) 0 b = Ret pre.
Proof.
  intros <-. rewrite slice_Ret by (rewrite ?length_app; lia).
  rewrite Nat.sub_0_r, drop_0. by rewrite take_app_length.
Qed.

Lemma slice_from_app {A} (pre l : list A) a :
  length pre = a -> slice_from (pre ++ l) a = Ret l.
Proof.
  intros <-. rewrite slice_from_Ret by (rewrite length_app; lia).
  by rewrite drop_app_length.
Qed.

Lemma idx_app_r {A} (pre l : list A) i :
  (length pre <= i)%nat -> idx (pre ++ l) i = idx l (i - length pre).
Proof. intros. unfold idx. by rewrite lookup_app_r. Qed.

Lemma fold_left_cons {A B} (f : A -> B -> A) x l a :
  fold_left f (x :: l) a = fold_left f l (f a x).
Proof. reflexivity. Qed.

(** ** Lemmas on bytes and machine integers *)

Lemma u8_id x : is_u8 x -> u8 x = x.
Proof. unfold is_u8, u8. intros. by apply Z.mod_small. Qed.

Lemma u16_id x : is_u16 x -> u16 x = x.
Proof. unfold is_u16, u16. intros. by apply Z.mod_small. Qed.

Lemma u32_id x : is_u32 x -> u32 x = x.
Proof. unfold is_u32, u32. intros. by apply Z.mod_small. Qed.

Lemma u8_range x : is_u8 (u8 x).
Proof. unfold is_u8, u8. apply Z.mod_pos_bound. lia. Qed.

Lemma u16_le_roundtrip v : is_u16 v ->
  u16_from_le (v mod 256) (v / 256 mod 256) = v.
Proof. unfold u16_from_le, is_u16. intros. Z.div_mod_to_equations. lia. Qed.

Lemma u16_from_le_range a b : is_u8 a -> is_u8 b -> is_u16 (u16_from_le a b).
Proof. unfold u16_from_le, is_u8, is_u16. lia. Qed.

Lemma u32_le_roundtrip v : is_u32 v ->
  u32_from_le (v mod 256) (v / 256 mod 256) (v / 65536 mod 256)
    (v / 16777216 mod 256) = v.
Proof. unfold u32_from_le, is_u32. intros. Z.div_mod_to_equations. lia. Qed.

Lemma u16_to_le_bytes v : bytes (u16_to_le v).
Proof.
  unfold bytes, u16_to_le, is_u8.
  repeat constructor; apply Z.mod_pos_bound; lia.
Qed.

Lemma u16_to_le_length v : length (u16_to_le v) = 2%nat.
Proof. reflexivity. Qed.

Lemma bytesb_spec l : bytesb l = true -> bytes l.
Proof.
  unfold bytesb, bytes, is_u8. rewrite List.forallb_forall, List.Forall_forall.
  intros H x Hx. specialize (H x Hx). lia.
Qed.

Lemma bytes_app l1 l2 : bytes (l1 ++ l2) <-> bytes l1 /\ bytes l2.
Proof. apply Forall_app. Qed.

Lemma bytes_take n l : bytes l -> bytes (take n l).
Proof. apply Forall_take. Qed.

Lemma bytes_drop n l : bytes l -> bytes (drop n l).
Proof. apply Forall_drop. Qed.

Lemma bytes_lookup l i x : bytes l -> l !! i = Some x -> is_u8 x.
Proof. intros H Hi. by eapply Forall_lookup_1 in Hi. Qed.

Lemma bytes_replicate_0 n : bytes (replicate n 0).
Proof. apply Forall_replicate. unfold is_u8. lia. Qed.

Lemma forall_below_spec n p :
  forall_below n p = true -> forall z, 0 <= z < Z.of_nat n -> p z = true.
Proof.
  unfold forall_below. rewrite List.forallb_forall. intros H z Hz.
  rewrite <- (Z2Nat.id z) by lia. apply H, in_seq. lia.
Qed.

Lemma forall_below2_spec n m (p : Z -> Z -> bool) :
  forall_below n (fun a => forall_below m (p a)) = true ->
  forall a b, 0 <= a < Z.of_nat n -> 0 <= b < Z.of_nat m -> p a b = true.
Proof.
  intros H a b Ha. pose proof (forall_below_spec n _ H a Ha) as Hp.
  by apply forall_below_spec.
Qed.

(** ** Bits *)

(** Numbers below a power of two have no bits above it. *)
Lemma testbit_above x n i : 0 <= x < 2 ^ n -> n <= i -> Z.testbit x i = false.
Proof.
  intros [H0 Hx] Hi. destruct (decide (x = 0)) as [->|]; [apply Z.bits_0|].
  destruct (decide (n < 0)).
  { rewrite Z.pow_neg_r in Hx by lia. lia. }
  apply Z.bits_above_log2; [done|]. apply Z.log2_lt_pow2; [lia|].
  eapply Z.lt_le_trans; [done|]. apply Z.pow_le_mono_r; lia.
Qed.

Lemma lt_pow2_of_bits x n :
  0 <= n -> 0 <= x -> (forall i, n <= i -> Z.testbit x i = false) -> x < 2 ^ n.
Proof.
  intros Hn H0 H. destruct (decide (x = 0)) as [->|]; [lia|].
  apply Z.log2_lt_pow2; [lia|]. apply Z.nle_gt. intros Hle.
  specialize (H _ Hle). rewrite Z.bit_log2 in H by lia. done.
Qed.

Lemma lxor_range a b n :
  0 <= n -> 0 <= a < 2 ^ n -> 0 <= b < 2 ^ n -> 0 <= Z.lxor a b < 2 ^ n.
Proof.
  intros Hn Ha Hb. assert (0 <= Z.lxor a b) by (apply Z.lxor_nonneg; lia).
  split; [done|]. apply lt_pow2_of_bits; [done..|]. intros i Hi.
  rewrite Z.lxor_spec, !testbit_above with (n := n) by lia. done.
Qed.

Lemma lor_range a b n :
  0 <= n -> 0 <= a < 2 ^ n -> 0 <= b < 2 ^ n -> 0 <= Z.lor a b < 2 ^ n.
Proof.
  intros Hn Ha Hb. assert (0 <= Z.lor a b) by (apply Z.lor_nonneg; lia).
  split; [done|]. apply lt_pow2_of_bits; [done..|]. intros i Hi.
  rewrite Z.lor_spec, !testbit_above with (n := n) by lia. done.
Qed.

(** A value and a multiple of [2^n] do not overlap below it. *)
Lemma lor_shiftl_add a b n :
  0 <= n -> 0 <= a < 2 ^ n -> Z.lor a (Z.shiftl b n) = a + 2 ^ n * b.
Proof.
  intros Hn Ha.
  assert (Z.land a (Z.shiftl b n) = 0) as Hd.
  { apply Z.bits_inj'. intros i Hi. rewrite Z.land_spec, Z.bits_0.
    destruct (decide (i < n)).
    - rewrite Z.shiftl_spec_low by done. by rewrite andb_false_r.
    - rewrite testbit_above with (n := n) by lia. done. }
  rewrite <- Z.lxor_lor, <- Z.add_nocarry_lxor by done.
  rewrite Z.shiftl_mul_pow2 by done. lia.
Qed.

Lemma land_1 x : Z.land x 1 = x mod 2.
Proof. apply (Z.land_ones x 1). lia. Qed.

Lemma land_1_range x : 0 <= Z.land x 1 < 2 ^ 1.
Proof. rewrite land_1. apply Z.mod_pos_bound. lia. Qed.

Lemma testbit_half x i : 0 <= i -> Z.testbit (x / 2) i = Z.testbit x (i + 1).
Proof. intros. by rewrite <- Z.div2_div, Z.div2_spec, Z.shiftr_spec. Qed.

Lemma le_val_nonneg l : bytes l -> 0 <= le_val l.
Proof. induction 1; cbn [le_val]; unfold is_u8 in *; lia. Qed.

(** Prepending a byte, as shift and exclusive or. *)
Lemma byte_step_lxor u v : is_u8 u -> u + 256 * v = Z.lxor u (Z.shiftl v 8).
Proof.
  intros Hu. unfold is_u8 in Hu. change 256 with (2 ^ 8).
  rewrite <- (lor_shiftl_add u v 8) by lia.
  symmetry. apply Z.lxor_lor. apply Z.bits_inj'. intros i Hi.
  rewrite Z.land_spec, Z.bits_0. destruct (decide (i < 8)).
  - rewrite Z.shiftl_spec_low by done. by rewrite andb_false_r.
  - rewrite testbit_above with (n := 8) by lia. done.
Qed.

Lemma le_val_lxor a b :
  bytes a -> bytes b -> length a = length b ->
  le_val (xor_bytes a b) = Z.lxor (le_val a) (le_val b).
Proof.
  intros Ha. revert b. induction Ha as [|x a Hx Ha IH]; intros [|y b] Hb Hl;
    try done; inversion Hb; subst.
  cbn [xor_bytes zip_with le_val]. fold (xor_bytes a b).
  rewrite IH by (done || (simpl in Hl; lia)).
  pose proof byte_step_lxor as Hs.
  rewrite !Hs by (done || (unfold is_u8 in *; apply (lxor_range _ _ 8); lia)).
  rewrite Z.shiftl_lxor, <- !Z.lxor_assoc. f_equal.
  rewrite !Z.lxor_assoc. f_equal. apply Z.lxor_comm.
Qed.

(** ** Bytewise exclusive or *)

Lemma xor_bytes_length a b :
  length a = length b -> length (xor_bytes a b) = length a.
Proof. unfold xor_bytes. rewrite length_zip_with. lia. Qed.

Lemma xor_bytes_bytes a b : bytes a -> bytes b -> bytes (xor_bytes a b).
Proof.
  intros Ha. revert b. induction Ha as [|x a Hx Ha IH]; intros [|y b] Hb;
    try constructor; inversion Hb; subst.
  - apply (lxor_range _ _ 8); unfold is_u8 in *; lia.
  - by apply IH.
Qed.

Lemma xor_bytes_cancel a b :
  length a = length b -> xor_bytes (xor_bytes a b) b = a.
Proof.
  revert b. induction a as [|x a IH]; intros [|y b] Hl; try done.
  cbn. f_equal.
  - by rewrite Z.lxor_assoc, Z.lxor_nilpotent, Z.lxor_0_r.
  - apply IH. simpl in Hl. lia.
Qed.

Lemma xor_bytes_assoc a b c :
  xor_bytes (xor_bytes a b) c = xor_bytes a (xor_bytes b c).
Proof.
  revert b c. induction a as [|x a IH]; intros [|y b] [|z c]; try done.
  cbn. f_equal; [apply Z.lxor_assoc | apply IH].
Qed.

Lemma xor_bytes_comm a b : xor_bytes a b = xor_bytes b a.
Proof.
  revert b. induction a as [|x a IH]; intros [|y b]; try done.
  cbn. f_equal; [apply Z.lxor_comm | apply IH].
Qed.

(** ** Hints and tactics *)

Create HintDb ble discriminated.
Create Rewrite HintDb list_length.
#[export] Hint Resolve u8_range u16_to_le_bytes bytes_take bytes_drop
  bytes_replicate_0 xor_bytes_bytes u16_from_le_range : ble.
#[export] Hint Rewrite @length_app @length_take @length_drop @length_replicate
  @length_insert @length_zip_with u16_to_le_length : list_length.

(** Normalise list lengths and finish with [lia]. *)
Ltac len :=
  autorewrite with list_length in *; cbn [length] in *;
  autorewrite with list_length in *; lia.

(** Run slice operations whose bounds follow from lengths. *)
Ltac run :=
  repeat first
    [ rewrite obind_Ret
    | rewrite slice_to_Ret by len
    | rewrite slice_from_Ret by len
    | rewrite slice_Ret by len
    | rewrite copy_at_Ret by len
    | rewrite set_idx_Ret by len ].

(** Run a sequence of writes that fills a buffer from the front. *)
Ltac writes :=
  repeat first
    [ rewrite obind_Ret
    | rewrite copy_at_append by len
    | rewrite set_idx_append by len
    | rewrite copy_at_first by len
    | rewrite set_idx_first by len ].

(** Prove [bytes] of a literal by evaluation. *)
Ltac bytes_eval := apply bytesb_spec; vm_compute; reflexivity.

(** The setter of a record field, from the record's eta expansion: every
    other field keeps its value. *)
Ltac record_setter eta proj :=
  let e := eval red in eta in
  match eval pattern proj in e with
  | ?F _ => let r := eval cbv beta in (fun v s => F (fun _ => v) s) in exact r
  end.

(** Expose a byte fact as an interval. *)
Ltac ranges := unfold is_u8, is_u16, is_u32 in *.
