(* ===== verification/Errors.v ===== *)
(** The error type shared across the stack ([src/error.rs]) and its
    [Display] text. *)

From stdpp Require Import base strings.
From S2P Require Import Prelude.

Inductive Error : Type :=
| BufferTooSmall
| InvalidPdu
| InvalidLength
| InvalidChannel
| InvalidAddress
| InvalidParam
| AlreadyRunning
| NotRunning
| CrcMismatch
| InvalidAd.

#[export] Instance Error_eq_dec : EqDecision Error.
Proof. solve_decision. Defined.

(** [impl fmt::Display for Error]: the string given to [write_str]. *)
Definition Error_fmt (e : Error) : string :=
  match e with
  | BufferTooSmall => "output buffer too small"
  | InvalidPdu => "invalid PDU"
  | InvalidLength => "invalid length"
  | InvalidChannel => "invalid channel"
  | InvalidAddress => "invalid address"
  | InvalidParam => "invalid parameter"
  | AlreadyRunning => "operation already running"
  | NotRunning => "operation not running"
  | CrcMismatch => "CRC check failed"
  | InvalidAd => "invalid advertising data"
  end.

(** Two errors never print the same message. *)
Lemma Error_fmt_inj e1 e2 : Error_fmt e1 = Error_fmt e2 -> e1 = e2.
Proof. destruct e1, e2; done. Qed.
