(* ===== verification/Crc.v ===== *)
(** The BLE CRC-24 ([src/ll/crc.rs]): the table-free reflected algorithm of
    the source, the normal-form shift register it must agree with, and the
    error detection the receive path relies on. *)

From stdpp Require Import base numbers list.
From S2P Require Import Prelude Errors.

(** ** The source's definitions *)

Definition CRC_POLY : Z := 0x65B.
Definition CRC_INIT : Z := 0x555555.
Definition CRC_REFLECTED_POLY : Z := 0xDA6000.

(** The [while] loop of [reflect], with [n] iterations left. The shift of
    the 32-bit accumulator drops its top bit. *)
Fixpoint reflect_loop (n : nat) (v r : Z) : Z :=
  match n with
  | O => r
  | S n => reflect_loop n (v .>> 1) (u32 (r .<< 1) .| (v .& 1))
  end.

Definition reflect (value : Z) (bits : nat) : Z := reflect_loop bits value 0.

(** One iteration of the inner loop over bits. *)
Definition crc24_bit (crc : Z) : Z :=
  if negb (crc .& 1 =? 0) then (crc .>> 1) .^ CRC_REFLECTED_POLY else crc .>> 1.

(** One iteration of the outer loop over bytes. *)
Definition crc24_byte (crc d : Z) : Z :=
  Nat.iter 8 crc24_bit (crc .^ d) .& 0xFFFFFF.

Definition crc24_with_init (data : list Z) (init : Z) : Z :=
  fold_left crc24_byte data (reflect (init .& 0xFFFFFF) 24).

Definition crc24 (data : list Z) : Z := crc24_with_init data CRC_INIT.

(** Returns the output buffer with its first three bytes replaced. *)
Definition append_crc (pdu out : list Z) : outcome (result (list Z) Error) :=
  if (length out <? 3)%nat then Ret (Err BufferTooSmall) else
  let crc := crc24 pdu in
  let! out := set_idx out 0 (u8 crc) in
  let! out := set_idx out 1 (u8 (crc .>> 8)) in
  let! out := set_idx out 2 (u8 (crc .>> 16)) in
  Ret (Ok out).

Definition check (pdu_with_crc : list Z) : bool :=
  if (length pdu_with_crc <? 3)%nat then false
  else crc24 pdu_with_crc =? 0.

(** ** Specification: the normal-form register of the Core Specification *)

(** A 24-bit register shifted left, one data bit at a time. *)
Definition crc_ref_bit (s : Z) (b : bool) : Z :=
  let fb := xorb (Z.testbit s 23) b in
  ((s .<< 1) .& 0xFFFFFF) .^ (if fb then CRC_POLY else 0).

(** Data bits are sent least significant bit first. *)
Definition bits_of_byte (d : Z) : list bool :=
  (fun k => Z.testbit d (Z.of_nat k)) <$> seq 0 8.

Definition crc_ref (data : list Z) (init : Z) : Z :=
  fold_left crc_ref_bit (data ≫= bits_of_byte) init.

(** The three bytes [append_crc] writes. *)
Definition crc_bytes (pdu : list Z) : list Z :=
  let crc := crc24 pdu in [u8 crc; u8 (crc .>> 8); u8 (crc .>> 16)].

(** A burst error: the error pattern, read as one little-endian number, is
    nonzero and its set bits lie within 24 consecutive positions. *)
Definition burst24 (e : list Z) : Prop :=
  exists k f, 0 <= k /\ 0 < f < 2 ^ 24 /\ le_val e = f * 2 ^ k.

(** ** Bit-level facts *)

Lemma reflect_loop_spec n v r i :
  0 <= v -> 0 <= r < 2 ^ 32 -> 0 <= i < 32 ->
  Z.testbit (reflect_loop n v r) i =
  if decide (i < Z.of_nat n) then Z.testbit v (Z.of_nat n - 1 - i)
  else Z.testbit r (i - Z.of_nat n).
Proof.
  revert v r. induction n as [|n IH]; intros v r Hv Hr Hi.
  { cbn [reflect_loop]. rewrite decide_False by lia. f_equal. lia. }
  pose proof (land_1_range v) as Hb.
  cbn [reflect_loop]. rewrite IH; [|by apply Z.shiftr_nonneg| |done].
  2:{ apply lor_range; [lia| |lia]. unfold u32. apply Z.mod_pos_bound. lia. }
  destruct (decide (i < Z.of_nat n)) as [Hn|Hn].
  - rewrite decide_True by lia. rewrite Z.shiftr_spec by lia. f_equal. lia.
  - rewrite Z.lor_spec. unfold u32. change 4294967296 with (2 ^ 32).
    rewrite Z.mod_pow2_bits_low by lia.
    destruct (decide (i = Z.of_nat n)) as [->|Hne].
    + rewrite decide_True by lia.
      rewrite Z.shiftl_spec_low by lia. rewrite Z.sub_diag.
      rewrite Z.land_spec. change (Z.testbit 1 0) with true.
      rewrite andb_true_r. cbn [orb]. f_equal. lia.
    + rewrite decide_False by lia. rewrite Z.shiftl_spec by lia.
      rewrite (testbit_above (v .& 1) 1) by lia.
      rewrite orb_false_r. f_equal. lia.
Qed.

Lemma reflect_loop_range n v r :
  0 <= r < 2 ^ 32 -> 0 <= reflect_loop n v r < 2 ^ 32.
Proof.
  revert v r. induction n as [|n IH]; intros v r Hr; [done|].
  cbn [reflect_loop]. apply IH. apply lor_range; [lia| |].
  - unfold u32. apply Z.mod_pos_bound. lia.
  - pose proof (land_1_range v). lia.
Qed.

Lemma reflect_spec v i :
  0 <= v -> 0 <= i < 24 ->
  Z.testbit (reflect v 24) i = Z.testbit v (23 - i).
Proof.
  intros Hv Hi. unfold reflect. rewrite reflect_loop_spec by lia.
  rewrite decide_True by lia. f_equal.
Qed.

Lemma reflect_range v : 0 <= v -> 0 <= reflect v 24 < 2 ^ 24.
Proof.
  intros Hv. pose proof (reflect_loop_range 24 v 0 ltac:(lia)) as Hr.
  split; [apply Hr|]. apply lt_pow2_of_bits; [lia|apply Hr|].
  intros i Hi. destruct (decide (i < 32)).
  - unfold reflect. rewrite reflect_loop_spec by lia.
    rewrite decide_False by lia. apply Z.bits_0.
  - apply (testbit_above _ 32); [apply Hr | lia].
Qed.

(** Values below [2^24] are equal when their 24 low bits are. *)
Lemma eq24 x y :
  0 <= x < 2 ^ 24 -> 0 <= y < 2 ^ 24 ->
  (forall i, 0 <= i < 24 -> Z.testbit x i = Z.testbit y i) -> x = y.
Proof.
  intros Hx Hy H. apply Z.bits_inj'. intros i Hi.
  destruct (decide (i < 24)); [apply H; lia|].
  rewrite !testbit_above with (n := 24) by lia. done.
Qed.

Lemma testbit_if (b : bool) x y i :
  Z.testbit (if b then x else y) i = if b then Z.testbit x i else Z.testbit y i.
Proof. by destruct b. Qed.

(** The step function bit by bit. *)
Lemma crc24_bit_alt x : 0 <= x ->
  crc24_bit x = (x .>> 1) .^ (if Z.testbit x 0 then CRC_REFLECTED_POLY else 0).
Proof.
  intros Hx. unfold crc24_bit. rewrite land_1, Z.bit0_odd, Zmod_odd.
  destruct (Z.odd x); cbn; [done|]. by rewrite Z.lxor_0_r.
Qed.

(** ** The step function: linear, width-preserving, injective at zero *)

Lemma crc24_bit_nonneg x : 0 <= x -> 0 <= crc24_bit x.
Proof.
  intros Hx. rewrite crc24_bit_alt by done. apply Z.lxor_nonneg.
  rewrite Z.shiftr_nonneg. destruct (Z.testbit x 0); unfold CRC_REFLECTED_POLY; lia.
Qed.

Lemma crc24_bit_lxor a b : 0 <= a -> 0 <= b ->
  crc24_bit (a .^ b) = crc24_bit a .^ crc24_bit b.
Proof.
  intros Ha Hb. rewrite !crc24_bit_alt by (done || by apply Z.lxor_nonneg).
  rewrite Z.shiftr_lxor, Z.lxor_spec.
  apply Z.bits_inj'. intros i Hi. rewrite !Z.lxor_spec, !testbit_if, Z.bits_0.
  destruct (Z.testbit a 0), (Z.testbit b 0),
    (Z.testbit (a .>> 1) i), (Z.testbit (b .>> 1) i),
    (Z.testbit CRC_REFLECTED_POLY i); done.
Qed.

Lemma crc24_bit_range n x : 24 <= n ->
  0 <= x < 2 ^ n -> 0 <= crc24_bit x < 2 ^ Z.max 24 (n - 1).
Proof.
  intros Hn Hx. rewrite crc24_bit_alt by lia.
  apply lxor_range; [lia| |].
  - split; [apply Z.shiftr_nonneg; lia|].
    rewrite Z.shiftr_div_pow2 by lia.
    apply Z.lt_le_trans with (2 ^ (n - 1)); [|apply Z.pow_le_mono_r; lia].
    apply Z.div_lt_upper_bound; [lia|].
    rewrite <- Z.pow_add_r by lia. replace (1 + (n - 1)) with n by lia. lia.
  - assert (0xFFFFFF < 2 ^ Z.max 24 (n - 1)).
    { apply Z.lt_le_trans with (2 ^ 24); [done|]. apply Z.pow_le_mono_r; lia. }
    destruct (Z.testbit x 0); unfold CRC_REFLECTED_POLY; lia.
Qed.

Lemma crc24_bit_double x : 0 <= x -> crc24_bit (2 * x) = x.
Proof.
  intros Hx. rewrite crc24_bit_alt, Z.testbit_even_0 by lia.
  rewrite Z.lxor_0_r, Z.shiftr_div_pow2, Z.mul_comm by lia.
  apply Z.div_mul. lia.
Qed.

Lemma crc24_bit_pos x : 0 < x < 2 ^ 24 -> 0 < crc24_bit x.
Proof.
  intros Hx. pose proof (crc24_bit_nonneg x).
  enough (crc24_bit x <> 0) by lia. intros H0.
  destruct (Z.testbit x 0) eqn:Hb.
  - apply (f_equal (fun y => Z.testbit y 23)) in H0.
    rewrite crc24_bit_alt, Hb, Z.lxor_spec, Z.shiftr_spec in H0 by lia.
    rewrite testbit_above with (n := 24) in H0 by lia. done.
  - rewrite crc24_bit_alt, Hb, Z.lxor_0_r in H0 by lia.
    rewrite Z.bit0_odd, <- Z.negb_even, negb_false_iff, Z.even_spec in Hb.
    destruct Hb as [y ->].
    rewrite Z.shiftr_div_pow2, Z.mul_comm, Z.div_mul in H0 by lia. lia.
Qed.

(** ** Iterated steps *)

Lemma crc24_iter_nonneg n x : 0 <= x -> 0 <= Nat.iter n crc24_bit x.
Proof. intros Hx. induction n; cbn; [done | by apply crc24_bit_nonneg]. Qed.

Lemma crc24_iter_range n x : 0 <= x < 2 ^ 24 ->
  0 <= Nat.iter n crc24_bit x < 2 ^ 24.
Proof.
  intros Hx. induction n as [|n IH]; [done|]. cbn [Nat.iter nat_rect].
  by apply (crc24_bit_range 24).
Qed.

Lemma crc24_iter_lxor n a b : 0 <= a -> 0 <= b ->
  Nat.iter n crc24_bit (a .^ b)
  = Nat.iter n crc24_bit a .^ Nat.iter n crc24_bit b.
Proof.
  intros Ha Hb. induction n as [|n IH]; [done|]. cbn [Nat.iter nat_rect].
  rewrite <- crc24_bit_lxor by by apply crc24_iter_nonneg. by f_equal.
Qed.

Lemma crc24_iter_shift n x : 0 <= x ->
  Nat.iter n crc24_bit (x .<< Z.of_nat n) = x.
Proof.
  intros Hx. induction n as [|n IH]; [by rewrite Z.shiftl_0_r|].
  rewrite Nat.iter_succ_r. rewrite <- IH at 2. f_equal.
  rewrite Nat2Z.inj_succ, !Z.shiftl_mul_pow2, Z.pow_succ_r by lia.
  replace (x * (2 * 2 ^ Z.of_nat n)) with (2 * (x * 2 ^ Z.of_nat n)) by lia.
  apply crc24_bit_double. lia.
Qed.

Lemma crc24_iter_pos n x : 0 < x < 2 ^ 24 -> 0 < Nat.iter n crc24_bit x.
Proof.
  intros Hx. induction n as [|n IH]; [cbn; lia|]. cbn [Nat.iter nat_rect].
  apply crc24_bit_pos. split; [done|]. apply crc24_iter_range. lia.
Qed.

Lemma crc24_byte_alt r d : 0 <= r < 2 ^ 24 -> is_u8 d ->
  crc24_byte r d = Nat.iter 8 crc24_bit (r .^ d).
Proof.
  intros Hr Hd. unfold crc24_byte. change 0xFFFFFF with (Z.ones 24).
  rewrite Z.land_ones by lia. apply Z.mod_small. apply crc24_iter_range.
  apply lxor_range; unfold is_u8 in *; lia.
Qed.

(** The whole computation as one iteration over the little-endian number the
    data spells. *)
Lemma crc24_fold data r : bytes data -> 0 <= r < 2 ^ 24 ->
  fold_left crc24_byte data r
  = Nat.iter (8 * length data) crc24_bit (le_val data .^ r).
Proof.
  intros Hd. revert r. induction Hd as [|d data Hb Hd IH]; intros r Hr.
  { cbn. by destruct r. }
  pose proof (le_val_nonneg _ Hd).
  assert (0 <= r .^ d < 2 ^ 24) by (apply lxor_range; unfold is_u8 in *; lia).
  cbn [fold_left le_val]. rewrite crc24_byte_alt by done.
  rewrite IH by by apply crc24_iter_range.
  replace (8 * length (d :: data))%nat with (8 * length data + 8)%nat
    by (cbn [length]; lia).
  rewrite Nat.iter_add. f_equal.
  rewrite byte_step_lxor by done.
  replace (d .^ (le_val data .<< 8) .^ r) with ((le_val data .<< 8) .^ (r .^ d))
    by (rewrite (Z.lxor_comm d), !Z.lxor_assoc; f_equal; apply Z.lxor_comm).
  rewrite (crc24_iter_lxor 8 (le_val data .<< 8)) by (rewrite ?Z.shiftl_nonneg; lia).
  by rewrite (crc24_iter_shift 8).
Qed.

Lemma crc_init_range init : 0 <= reflect (init .& 0xFFFFFF) 24 < 2 ^ 24.
Proof. apply reflect_range. apply Z.land_nonneg. lia. Qed.

Lemma crc24_with_init_range data init : bytes data ->
  0 <= crc24_with_init data init < 2 ^ 24.
Proof.
  intros Hd. unfold crc24_with_init. pose proof (crc_init_range init) as Hr.
  revert Hr. generalize (reflect (init .& 0xFFFFFF) 24).
  induction Hd as [|d data Hb Hd IH]; intros r Hr; [done|].
  cbn [fold_left]. apply IH. rewrite crc24_byte_alt by done.
  apply crc24_iter_range. apply lxor_range; unfold is_u8 in *; lia.
Qed.

Lemma crc24_range data : bytes data -> 0 <= crc24 data < 2 ^ 24.
Proof. apply crc24_with_init_range. Qed.

(** The CRC of a corrupted string is the CRC of the string, offset by a
    function of the error alone. *)
Lemma crc24_xor d e : bytes d -> bytes e -> length d = length e ->
  crc24 (xor_bytes d e)
  = crc24 d .^ Nat.iter (8 * length d) crc24_bit (le_val e).
Proof.
  intros Hd He Hl. unfold crc24, crc24_with_init.
  pose proof (crc_init_range CRC_INIT) as Hr.
  set (r := reflect (CRC_INIT .& 0xFFFFFF) 24) in *.
  pose proof (le_val_nonneg _ Hd). pose proof (le_val_nonneg _ He).
  rewrite !crc24_fold by auto with ble.
  rewrite xor_bytes_length, le_val_lxor by done.
  replace (le_val d .^ le_val e .^ r) with ((le_val d .^ r) .^ le_val e)
    by (rewrite !Z.lxor_assoc; f_equal; apply Z.lxor_comm).
  apply crc24_iter_lxor; [apply Z.lxor_nonneg; lia | done].
Qed.

(** ** Appending and checking *)

Lemma crc_bytes_le_val pdu : bytes pdu -> le_val (crc_bytes pdu) = crc24 pdu.
Proof.
  intros Hp. pose proof (crc24_range pdu Hp). unfold crc_bytes, u8.
  set (c := crc24 pdu) in *. cbn [le_val].
  rewrite !Z.shiftr_div_pow2 by lia. Z.div_mod_to_equations. lia.
Qed.

Lemma crc_bytes_bytes pdu : bytes (crc_bytes pdu).
Proof. repeat constructor; apply u8_range. Qed.

#[export] Hint Resolve crc_bytes_bytes : ble.

Lemma append_crc_Ok pdu out : (3 <= length out)%nat ->
  append_crc pdu out = Ret (Ok (crc_bytes pdu ++ drop 3 out)).
Proof.
  intros Hl. destruct out as [|a [|b [|c out]]]; try (cbn in Hl; lia). done.
Qed.

Lemma append_crc_short pdu out : (length out < 3)%nat ->
  append_crc pdu out = Ret (Err BufferTooSmall).
Proof. intros Hl%Nat.ltb_lt. unfold append_crc. by rewrite Hl. Qed.

(** The residue of a string followed by its CRC is zero. *)
Lemma crc24_residue pdu : bytes pdu -> crc24 (pdu ++ crc_bytes pdu) = 0.
Proof.
  intros Hp. pose proof (crc24_range pdu Hp) as Hr.
  unfold crc24, crc24_with_init. rewrite fold_left_app.
  change (fold_left crc24_byte pdu _) with (crc24 pdu).
  rewrite crc24_fold by auto with ble.
  by rewrite crc_bytes_le_val, Z.lxor_nilpotent.
Qed.

Lemma check_alt l : (3 <= length l)%nat -> check l = (crc24 l =? 0).
Proof. intros Hl. unfold check. by rewrite (proj2 (Nat.ltb_ge _ _) Hl). Qed.

Lemma check_appended pdu : bytes pdu -> check (pdu ++ crc_bytes pdu) = true.
Proof.
  intros Hp. rewrite check_alt by (rewrite length_app; cbn; lia).
  by rewrite crc24_residue.
Qed.

(** A valid packet with an error passes exactly when the error's own residue
    is zero. *)
Lemma check_corrupted d e : bytes d -> bytes e -> length d = length e ->
  check d = true ->
  check (xor_bytes d e)
  = (Nat.iter (8 * length d) crc24_bit (le_val e) =? 0).
Proof.
  intros Hd He Hl Hc. assert (3 <= length d)%nat as H3.
  { unfold check in Hc. destruct (Nat.ltb_spec (length d) 3); [done | lia]. }
  rewrite check_alt in Hc |- * by (rewrite ?xor_bytes_length; done).
  apply Z.eqb_eq in Hc. rewrite crc24_xor by done. by rewrite Hc, Z.lxor_0_l.
Qed.

Lemma le_val_lt l : bytes l -> le_val l < 2 ^ (8 * Z.of_nat (length l)).
Proof.
  induction 1 as [|x l Hx Hl IH]; [done|]. cbn [le_val length].
  replace (8 * Z.of_nat (S (length l))) with (8 + 8 * Z.of_nat (length l)) by lia.
  rewrite Z.pow_add_r by lia. change (2 ^ 8) with 256. unfold is_u8 in *. lia.
Qed.

(** A burst leaves a nonzero residue. *)
Lemma burst24_residue e : bytes e -> burst24 e ->
  Nat.iter (8 * length e) crc24_bit (le_val e) <> 0.
Proof.
  intros He (k & f & Hk & Hf & Hv).
  assert (k < 8 * Z.of_nat (length e)) as Hkn.
  { apply (Z.pow_lt_mono_r_iff 2); [lia..|].
    pose proof (le_val_lt e He). nia. }
  replace (8 * length e)%nat with ((8 * length e - Z.to_nat k) + Z.to_nat k)%nat
    by lia.
  rewrite Nat.iter_add, Hv, <- Z.shiftl_mul_pow2 by done.
  replace (f .<< k) with (f .<< Z.of_nat (Z.to_nat k)) by (f_equal; lia).
  rewrite crc24_iter_shift by lia.
  pose proof (crc24_iter_pos (8 * length e - Z.to_nat k) f Hf). lia.
Qed.

(** ** Agreement with the normal-form register *)

Lemma crc_ref_bit_range s b : 0 <= crc_ref_bit s b < 2 ^ 24.
Proof.
  unfold crc_ref_bit. change 0xFFFFFF with (Z.ones 24).
  rewrite Z.land_ones by lia. apply lxor_range; [lia| |].
  - apply Z.mod_pos_bound. lia.
  - unfold CRC_POLY. destruct (xorb _ _); lia.
Qed.

(** The two polynomials are reflections of each other. *)
Lemma crc_polys_reflected i : 0 <= i < 24 ->
  Z.testbit CRC_REFLECTED_POLY i = Z.testbit CRC_POLY (23 - i).
Proof.
  intros Hi. apply eqb_prop.
  apply (forall_below_spec 24 (fun i => eqb (Z.testbit CRC_REFLECTED_POLY i)
    (Z.testbit CRC_POLY (23 - i)))); [by vm_compute | done].
Qed.

(** One data bit on the reflected register is one data bit on the normal
    register, reflected. *)
Lemma crc24_bit_reflect s b : 0 <= s < 2 ^ 24 ->
  crc24_bit (reflect s 24 .^ Z.b2z b) = reflect (crc_ref_bit s b) 24.
Proof.
  intros Hs. pose proof (reflect_range s ltac:(lia)) as Hr.
  assert (Hb : 0 <= Z.b2z b < 2 ^ 24) by (destruct b; cbn; lia).
  pose proof (lxor_range _ _ 24 ltac:(lia) Hr Hb) as Hx.
  pose proof (crc_ref_bit_range s b) as Hc.
  apply eq24; [by apply (crc24_bit_range 24) | apply reflect_range; lia |].
  intros i Hi. rewrite reflect_spec, crc24_bit_alt by lia.
  unfold crc_ref_bit. change 0xFFFFFF with (Z.ones 24).
  rewrite !Z.lxor_spec, !testbit_if, Z.shiftr_spec, !Z.bits_0 by lia.
  rewrite Z.land_ones, Z.mod_pow2_bits_low by lia. rewrite Z.lxor_spec.
  rewrite (reflect_spec s 0), Z.b2z_bit0, crc_polys_reflected by lia.
  change (23 - 0) with 23.
  rewrite (testbit_above (Z.b2z b) 1) by (destruct b; cbn; lia).
  rewrite xorb_false_r. f_equal.
  destruct (decide (i = 23)) as [->|].
  - rewrite Z.shiftl_spec_low by lia. apply (testbit_above _ 24); lia.
  - rewrite reflect_spec, Z.shiftl_spec by lia. f_equal. lia.
Qed.

(** Splitting off the lowest data bit. *)
Lemma low_bit_split x : 0 <= x ->
  x = Z.b2z (Z.testbit x 0) .^ ((x / 2) .<< 1).
Proof.
  intros Hx. apply Z.bits_inj'. intros i Hi. rewrite Z.lxor_spec.
  destruct (decide (i = 0)) as [->|].
  - rewrite Z.b2z_bit0, Z.shiftl_spec_low by lia. by rewrite xorb_false_r.
  - rewrite (testbit_above (Z.b2z _) 1) by (destruct (Z.testbit x 0); cbn; lia).
    rewrite Z.shiftl_spec, xorb_false_l by lia.
    rewrite testbit_half by lia. f_equal. lia.
Qed.

Lemma crc24_bits_reflect n x s : 0 <= s < 2 ^ 24 -> 0 <= x < 2 ^ Z.of_nat n ->
  Nat.iter n crc24_bit (reflect s 24 .^ x)
  = reflect (fold_left crc_ref_bit
      ((fun k => Z.testbit x (Z.of_nat k)) <$> seq 0 n) s) 24.
Proof.
  revert x s. induction n as [|n IH]; intros x s Hs Hx.
  { cbn in *. replace x with 0 by lia. by rewrite Z.lxor_0_r. }
  pose proof (reflect_range s ltac:(lia)) as Hr.
  rewrite Nat2Z.inj_succ, Z.pow_succ_r in Hx by lia.
  assert (Hd2 : 0 <= x / 2 < 2 ^ Z.of_nat n).
  { split; [apply Z.div_pos; lia | apply Z.div_lt_upper_bound; lia]. }
  assert (Hsplit : crc24_bit (reflect s 24 .^ x)
    = reflect (crc_ref_bit s (Z.testbit x 0)) 24 .^ (x / 2)).
  { rewrite (low_bit_split x) at 1 by lia. rewrite <- Z.lxor_assoc.
    rewrite crc24_bit_lxor.
    - rewrite crc24_bit_reflect by done. f_equal. apply (crc24_iter_shift 1). lia.
    - apply (lxor_range _ _ 24); [lia | done | destruct (Z.testbit x 0); cbn; lia].
    - apply Z.shiftl_nonneg. lia. }
  rewrite Nat.iter_succ_r, Hsplit, IH by (done || apply crc_ref_bit_range).
  cbn [seq fmap list_fmap fold_left]. f_equal.
  rewrite <- fmap_S_seq, <- list_fmap_compose. f_equal.
  apply list_fmap_ext. intros _ k _. cbn.
  rewrite testbit_half by lia. f_equal. lia.
Qed.

Lemma crc24_byte_reflect s d : 0 <= s < 2 ^ 24 -> is_u8 d ->
  crc24_byte (reflect s 24) d
  = reflect (fold_left crc_ref_bit (bits_of_byte d) s) 24.
Proof.
  intros Hs Hd. pose proof (reflect_range s ltac:(lia)) as Hr.
  rewrite crc24_byte_alt by done. by apply crc24_bits_reflect.
Qed.

Lemma crc_ref_bits_range l s : 0 <= s < 2 ^ 24 ->
  0 <= fold_left crc_ref_bit l s < 2 ^ 24.
Proof.
  revert s. induction l as [|b l IH]; intros s Hs; [done|].
  cbn [fold_left]. apply IH, crc_ref_bit_range.
Qed.

Lemma crc_ref_cons d data s :
  crc_ref (d :: data) s = crc_ref data (fold_left crc_ref_bit (bits_of_byte d) s).
Proof. unfold crc_ref. by rewrite bind_cons, fold_left_app. Qed.

Lemma crc_fold_reflect data s : bytes data -> 0 <= s < 2 ^ 24 ->
  fold_left crc24_byte data (reflect s 24) = reflect (crc_ref data s) 24.
Proof.
  intros Hd. revert s. induction Hd as [|d data Hb Hd IH]; intros s Hs; [done|].
  rewrite crc_ref_cons, <- IH by by apply crc_ref_bits_range.
  by rewrite <- crc24_byte_reflect, fold_left_cons.
Qed.

(** ** Properties *)

(** C34. The reflected, byte-at-a-time [crc24_with_init] computes the normal
    form CRC-24 of the Core Specification (register shifted left, data bits
    least significant first), bit-reversed, for every message and every
    initial value. *)
Theorem crc24_matches_reference data init : bytes data ->
  crc24_with_init data init = reflect (crc_ref data (init .& 0xFFFFFF)) 24.
Proof.
  intros Hd. unfold crc24_with_init. apply crc_fold_reflect; [done|].
  change 0xFFFFFF with (Z.ones 24). rewrite Z.land_ones by lia.
  apply Z.mod_pos_bound. lia.
Qed.

Lemma crc24_matches_reference_witness :
  bytes [0x31; 0x32; 0x33] /\
  crc24_with_init [0x31; 0x32; 0x33] 0x555555
  = reflect (crc_ref [0x31; 0x32; 0x33] (0x555555 .& 0xFFFFFF)) 24.
Proof.
  split; [bytes_eval|].
  apply crc24_matches_reference. bytes_eval.
Defined.

(** C35. [check] rejects every burst error: when a packet that passes the check
    is hit by an error whose flipped bits lie within 24 consecutive
    transmitted bits, it no longer passes. Single-bit and multi-byte bursts
    are instances. *)
Theorem check_detects_bursts d e : bytes d -> bytes e -> length d = length e ->
  check d = true -> burst24 e -> check (xor_bytes d e) = false.
Proof.
  intros Hd He Hl Hc Hb. rewrite check_corrupted by done.
  apply Z.eqb_neq. rewrite Hl. by apply burst24_residue.
Qed.

Lemma check_detects_bursts_witness :
  check (xor_bytes ([0x00; 0x0C; 0x01] ++ crc_bytes [0x00; 0x0C; 0x01])
    [0; 0x3C; 0; 0; 0; 0]) = false.
Proof.
  apply check_detects_bursts.
  - bytes_eval.
  - bytes_eval.
  - done.
  - vm_compute. reflexivity.
  - exists 10, 15. vm_compute. done.
Defined.
