(* ===== verification/Whiten.v ===== *)
(** Data whitening ([src/ll/whiten.rs]): the seven-bit shift register, the
    keystream it produces, and the facts the simulated radio uses. *)

From stdpp Require Import base numbers list.
From S2P Require Import Prelude.

(** ** The source's definitions *)

Definition whitening_init (channel : Z) : Z := 0x40 .| (channel .& 0x3F).

(** The inner [while] loop with [n] iterations left, at bit [i]; returns the
    output byte and the register. *)
Fixpoint whiten_bits (n : nat) (i byte out lfsr : Z) : Z * Z :=
  match n with
  | O => (out, lfsr)
  | S n =>
      let data_bit := (byte .>> i) .& 1 in
      let key_bit := u8 (lfsr .>> 6) .& 1 in
      let out := out .| u8 ((data_bit .^ key_bit) .<< i) in
      let feedback := ((lfsr .>> 6) .^ (lfsr .>> 3)) .& 1 in
      let lfsr := (u16 (lfsr .<< 1) .| feedback) .& 0x7F in
      whiten_bits n (i + 1) byte out lfsr
  end.

(** One byte of the [for] loop. *)
Definition whiten_byte (byte lfsr : Z) : Z * Z := whiten_bits 8 0 byte 0 lfsr.

(** The [for] loop over the buffer. *)
Fixpoint whiten_loop (buf : list Z) (lfsr : Z) : list Z :=
  match buf with
  | [] => []
  | byte :: buf =>
      let '(out, lfsr) := whiten_byte byte lfsr in
      out :: whiten_loop buf lfsr
  end.

Definition whiten (buf : list Z) (channel : Z) : list Z :=
  whiten_loop buf (u16 (whitening_init channel)).

(** ** Specification: a keystream independent of the data *)

Definition key_byte (lfsr : Z) : Z := fst (whiten_byte 0 lfsr).
Definition key_next (lfsr : Z) : Z := snd (whiten_byte 0 lfsr).

Fixpoint keystream (n : nat) (lfsr : Z) : list Z :=
  match n with
  | O => []
  | S n => key_byte lfsr :: keystream n (key_next lfsr)
  end.

(** One step of the register on its own. *)
Definition lfsr_step (lfsr : Z) : Z :=
  (u16 (lfsr .<< 1) .| (((lfsr .>> 6) .^ (lfsr .>> 3)) .& 1)) .& 0x7F.

(** The states met in [n] steps. *)
Fixpoint orbit (n : nat) (x : Z) : list Z :=
  match n with
  | O => []
  | S n => x :: orbit n (lfsr_step x)
  end.

(** The Core Specification's register (Vol 6, Part B, 3.2): x^7 + x^4 + 1 in
    Galois form with position 0 in the register's top bit, so that the
    output, position 6, is bit 0. *)
Definition ble_lfsr_step (r : Z) : Z :=
  let b := r .& 1 in (r .>> 1) .^ (b .<< 6) .^ (b .<< 2).

Fixpoint ble_key_bits (n : nat) (i r : Z) : Z :=
  match n with
  | O => 0
  | S n => ((r .& 1) .<< i) .| ble_key_bits n (i + 1) (ble_lfsr_step r)
  end.

#[global] Arguments whiten_byte : simpl never.
#[global] Arguments key_byte : simpl never.
#[global] Arguments key_next : simpl never.

(** ** The keystream *)

Definition is_lfsr (x : Z) : Prop := 0 <= x < 128.

(** The step, bit by bit: shift up, feed back bits 6 and 3. *)
Lemma lfsr_step_spec l i : 0 <= l -> 0 <= i ->
  Z.testbit (lfsr_step l) i =
  if decide (i = 0) then xorb (Z.testbit l 6) (Z.testbit l 3)
  else if decide (i < 7) then Z.testbit l (i - 1) else false.
Proof.
  intros Hl Hi. unfold lfsr_step. change 0x7F with (Z.ones 7).
  rewrite Z.land_ones by lia. destruct (decide (i < 7)).
  2:{ rewrite decide_False by lia. apply Z.mod_pow2_bits_high. lia. }
  rewrite Z.mod_pow2_bits_low, Z.lor_spec by lia.
  unfold u16. change 65536 with (2 ^ 16). rewrite Z.mod_pow2_bits_low by lia.
  destruct (decide (i = 0)) as [->|].
  - rewrite Z.shiftl_spec_low, Z.land_spec, Z.lxor_spec, !Z.shiftr_spec by lia.
    by rewrite andb_true_r.
  - rewrite Z.shiftl_spec by lia.
    rewrite (testbit_above (_ .& 1) 1) by (lia || apply land_1_range).
    by rewrite orb_false_r.
Qed.

Lemma lfsr_step_range l : is_lfsr (lfsr_step l).
Proof.
  unfold lfsr_step, is_lfsr. change 0x7F with (Z.ones 7).
  rewrite Z.land_ones by lia. by apply Z.mod_pos_bound.
Qed.

Lemma lfsr_iter_range n l : is_lfsr l -> is_lfsr (Nat.iter n lfsr_step l).
Proof. destruct n; [done | intros _; apply lfsr_step_range]. Qed.

Lemma lfsr_step_lxor a b : is_lfsr a -> is_lfsr b ->
  lfsr_step (a .^ b) = lfsr_step a .^ lfsr_step b.
Proof.
  unfold is_lfsr. intros Ha Hb.
  pose proof (lxor_range a b 7 ltac:(lia) Ha Hb).
  apply Z.bits_inj'. intros i Hi. rewrite Z.lxor_spec, !lfsr_step_spec by lia.
  rewrite !Z.lxor_spec. repeat case_decide; [|done..].
  by destruct (Z.testbit a 6), (Z.testbit a 3), (Z.testbit b 6), (Z.testbit b 3).
Qed.

Lemma lfsr_iter_lxor n a b : is_lfsr a -> is_lfsr b ->
  Nat.iter n lfsr_step (a .^ b)
  = Nat.iter n lfsr_step a .^ Nat.iter n lfsr_step b.
Proof.
  intros Ha Hb. induction n as [|n IH]; [done|]. cbn [Nat.iter nat_rect].
  rewrite <- lfsr_step_lxor by by apply lfsr_iter_range. by f_equal.
Qed.

(** The register moves independently of the data. *)
Lemma whiten_bits_snd n i byte out l :
  snd (whiten_bits n i byte out l) = Nat.iter n lfsr_step l.
Proof.
  revert i out l. induction n as [|n IH]; intros i out l; [done|].
  cbn [whiten_bits]. rewrite IH. by rewrite Nat.iter_succ_r.
Qed.

(** Each output bit is the data bit flipped by the register's top bit. *)
Lemma whiten_bits_fst n i byte out l j :
  0 <= i -> i + Z.of_nat n <= 8 -> 0 <= byte -> is_lfsr l ->
  0 <= out < 2 ^ i -> 0 <= j ->
  Z.testbit (fst (whiten_bits n i byte out l)) j =
  if decide (i <= j < i + Z.of_nat n)
  then xorb (Z.testbit byte j)
    (Z.testbit (Nat.iter (Z.to_nat (j - i)) lfsr_step l) 6)
  else Z.testbit out j.
Proof.
  revert i out l. induction n as [|n IH]; intros i out l Hi Hn Hb Hl Ho Hj.
  { cbn [whiten_bits fst]. by rewrite decide_False by lia. }
  set (x := ((byte .>> i) .& 1) .^ (u8 (l .>> 6) .& 1)).
  assert (Hx : 0 <= x < 2 ^ 1) by (apply lxor_range; [lia|apply land_1_range..]).
  assert (Hx0 : Z.testbit x 0 = xorb (Z.testbit byte i) (Z.testbit l 6)).
  { unfold x, u8. change 256 with (2 ^ 8).
    rewrite Z.lxor_spec, !Z.land_spec, !andb_true_r, Z.mod_pow2_bits_low by lia.
    by rewrite !Z.shiftr_spec by lia. }
  assert (Hsh : u8 (x .<< i) = x .<< i).
  { apply u8_id. unfold is_u8. rewrite Z.shiftl_mul_pow2 by done.
    assert (2 ^ i <= 2 ^ 7) by (apply Z.pow_le_mono_r; lia). nia. }
  assert (Ho' : 0 <= out .| u8 (x .<< i) < 2 ^ (i + 1)).
  { rewrite Hsh, lor_shiftl_add, Z.pow_add_r by lia.
    pose proof (Z.pow_pos_nonneg 2 i). nia. }
  cbn [whiten_bits]. fold x. change (_ .& 0x7F) with (lfsr_step l).
  rewrite IH by (lia || apply lfsr_step_range).
  rewrite Z.lor_spec, Hsh. destruct (decide (j < i)).
  { rewrite !decide_False by lia. rewrite Z.shiftl_spec_low by done.
    apply orb_false_r. }
  destruct (decide (j = i)) as [->|Hne].
  { rewrite decide_False, decide_True by lia.
    rewrite (testbit_above out i), Z.shiftl_spec by lia.
    rewrite Z.sub_diag, Hx0. done. }
  destruct (decide (j < i + Z.of_nat (S n))).
  - rewrite !decide_True by lia. f_equal.
    replace (Z.to_nat (j - i)) with (S (Z.to_nat (j - (i + 1)))) by lia.
    by rewrite Nat.iter_succ_r.
  - rewrite !decide_False by lia. rewrite Z.shiftl_spec by lia.
    by rewrite (testbit_above x 1), orb_false_r by lia.
Qed.

Lemma whiten_byte_bit byte l j : is_u8 byte -> is_lfsr l -> 0 <= j ->
  Z.testbit (fst (whiten_byte byte l)) j =
  if decide (j < 8)
  then xorb (Z.testbit byte j)
    (Z.testbit (Nat.iter (Z.to_nat j) lfsr_step l) 6)
  else false.
Proof.
  unfold is_u8. intros Hb Hl Hj. unfold whiten_byte.
  rewrite whiten_bits_fst by (done || lia). rewrite Z.sub_0_r, Z.bits_0.
  destruct (decide (j < 8)); [by rewrite decide_True by lia|].
  by rewrite decide_False by lia.
Qed.

(** Whitening a byte is exclusive or with a key byte. *)
Lemma whiten_byte_spec byte l : is_u8 byte -> is_lfsr l ->
  whiten_byte byte l = (byte .^ key_byte l, key_next l).
Proof.
  intros Hb Hl. apply injective_projections; cbn [fst snd].
  - apply Z.bits_inj'. intros j Hj. unfold key_byte. rewrite Z.lxor_spec.
    rewrite !whiten_byte_bit, Z.bits_0 by (done || unfold is_u8; lia).
    destruct (decide (j < 8)); [done|].
    unfold is_u8 in Hb. by rewrite (testbit_above byte 8) by lia.
  - unfold key_next, whiten_byte. by rewrite !whiten_bits_snd.
Qed.

Lemma key_next_iter l : key_next l = Nat.iter 8 lfsr_step l.
Proof. unfold key_next, whiten_byte. apply whiten_bits_snd. Qed.

Lemma key_byte_bit l j : is_lfsr l -> 0 <= j ->
  Z.testbit (key_byte l) j =
  if decide (j < 8) then Z.testbit (Nat.iter (Z.to_nat j) lfsr_step l) 6 else false.
Proof.
  intros Hl Hj. unfold key_byte.
  rewrite whiten_byte_bit, Z.bits_0 by (done || unfold is_u8; lia).
  destruct (decide (j < 8)); [apply xorb_false_l | done].
Qed.

Lemma whiten_bits_nonneg n i byte out l : 0 <= i -> 0 <= out ->
  0 <= fst (whiten_bits n i byte out l).
Proof.
  revert i out l. induction n as [|n IH]; intros i out l Hi Ho; [done|].
  cbn [whiten_bits]. apply IH; [lia|]. apply Z.lor_nonneg. split; [done|].
  apply u8_range.
Qed.

Lemma key_ranges l : is_lfsr l -> is_u8 (key_byte l) /\ is_lfsr (key_next l).
Proof.
  intros Hl. split.
  - assert (0 <= key_byte l).
    { unfold key_byte, whiten_byte. apply whiten_bits_nonneg; lia. }
    split; [done|]. change 256 with (2 ^ 8). apply lt_pow2_of_bits; [lia|done|].
    intros i Hi. rewrite key_byte_bit by (done || lia). by rewrite decide_False by lia.
  - rewrite key_next_iter. by apply lfsr_iter_range.
Qed.

(** Key byte and next state are linear in the state. *)
Lemma key_lxor a b : is_lfsr a -> is_lfsr b ->
  key_byte (a .^ b) = key_byte a .^ key_byte b /\
  key_next (a .^ b) = key_next a .^ key_next b.
Proof.
  intros Ha Hb. split.
  2:{ rewrite (key_next_iter (a .^ b)), (key_next_iter a), (key_next_iter b).
      by rewrite lfsr_iter_lxor by done. }
  assert (is_lfsr (a .^ b)) by (apply (lxor_range _ _ 7); done).
  apply Z.bits_inj'. intros j Hj. rewrite Z.lxor_spec, !key_byte_bit by done.
  destruct (decide (j < 8)); [|done].
  by rewrite lfsr_iter_lxor, Z.lxor_spec by done.
Qed.

Lemma keystream_length n l : length (keystream n l) = n.
Proof. revert l. induction n as [|n IH]; intros l; cbn [keystream length]; auto. Qed.

Lemma keystream_bytes n l : is_lfsr l -> bytes (keystream n l).
Proof.
  revert l. induction n as [|n IH]; intros l Hl; cbn [keystream]; constructor.
  - by apply key_ranges.
  - apply IH. by apply key_ranges.
Qed.

Lemma keystream_lxor n a b : is_lfsr a -> is_lfsr b ->
  keystream n (a .^ b) = xor_bytes (keystream n a) (keystream n b).
Proof.
  revert a b. induction n as [|n IH]; intros a b Ha Hb; [done|].
  cbn [keystream xor_bytes zip_with].
  destruct (key_lxor a b Ha Hb) as [-> ->]. f_equal.
  apply IH; by apply key_ranges.
Qed.

Lemma whiten_loop_keystream buf lfsr : bytes buf -> is_lfsr lfsr ->
  whiten_loop buf lfsr = xor_bytes buf (keystream (length buf) lfsr).
Proof.
  intros Hb. revert lfsr. induction Hb as [|b buf Hb Hbuf IH]; intros l Hl; [done|].
  cbn [whiten_loop length keystream xor_bytes zip_with].
  rewrite whiten_byte_spec by done. f_equal. apply IH. by apply key_ranges.
Qed.

Lemma whitening_init_range channel : 64 <= whitening_init channel < 128.
Proof.
  unfold whitening_init. change 0x3F with (Z.ones 6). rewrite Z.land_ones by lia.
  pose proof (Z.mod_pos_bound channel (2 ^ 6) ltac:(lia)).
  rewrite Z.lor_comm, (lor_shiftl_add _ 1 6) by lia. lia.
Qed.

Lemma whitening_init_lfsr channel : is_lfsr (u16 (whitening_init channel)).
Proof.
  pose proof (whitening_init_range channel).
  rewrite u16_id by (unfold is_u16; lia). unfold is_lfsr. lia.
Qed.

#[export] Hint Resolve whitening_init_lfsr keystream_bytes : ble.
#[export] Hint Rewrite keystream_length : list_length.

Lemma whiten_keystream buf channel : bytes buf ->
  whiten buf channel
  = xor_bytes buf (keystream (length buf) (u16 (whitening_init channel))).
Proof. intros. apply whiten_loop_keystream; auto with ble. Qed.

Lemma whiten_length buf channel : length (whiten buf channel) = length buf.
Proof.
  unfold whiten. generalize (u16 (whitening_init channel)).
  induction buf as [|b buf IH]; intros l; [done|]. cbn [whiten_loop].
  destruct (whiten_byte b l). cbn [length]. by rewrite IH.
Qed.

Lemma whiten_bytes buf channel : bytes buf -> bytes (whiten buf channel).
Proof. intros. rewrite whiten_keystream by done. auto with ble. Qed.

#[export] Hint Resolve whiten_bytes : ble.
#[export] Hint Rewrite whiten_length : list_length.

(** Errors in the air pass through de-whitening unchanged. *)
Lemma whiten_xor buf e channel : bytes buf -> bytes e -> length buf = length e ->
  whiten (xor_bytes buf e) channel = xor_bytes (whiten buf channel) e.
Proof.
  intros Hb He Hl. rewrite !whiten_keystream by auto with ble.
  rewrite xor_bytes_length by done. rewrite !xor_bytes_assoc. f_equal.
  apply xor_bytes_comm.
Qed.

(** De-whitening on another channel leaves the keystream of the difference of
    the two initial registers. *)
Lemma whiten_twice buf c1 c2 : bytes buf ->
  whiten (whiten buf c1) c2
  = xor_bytes buf (keystream (length buf)
      (u16 (whitening_init c1) .^ u16 (whitening_init c2))).
Proof.
  intros Hb. rewrite (whiten_keystream (whiten _ _)) by auto with ble.
  rewrite whiten_length, whiten_keystream, xor_bytes_assoc by done.
  by rewrite keystream_lxor by auto with ble.
Qed.

Lemma keystream_zero n : keystream n 0 = replicate n 0.
Proof.
  induction n as [|n IH]; [done|]. cbn [keystream replicate].
  change (key_byte 0) with 0. change (key_next 0) with 0. by rewrite IH.
Qed.

Lemma xor_bytes_zero l : xor_bytes l (replicate (length l) 0) = l.
Proof. induction l; cbn; f_equal; [apply Z.lxor_0_r | done]. Qed.

Lemma whiten_involutive buf channel : bytes buf ->
  whiten (whiten buf channel) channel = buf.
Proof.
  intros Hb. rewrite whiten_twice, Z.lxor_nilpotent, keystream_zero by done.
  apply xor_bytes_zero.
Qed.

Lemma orbit_In n x y : y ∈ orbit n x ->
  exists k, (k < n)%nat /\ Nat.iter k lfsr_step x = y.
Proof.
  revert x. induction n as [|n IH]; intros x; cbn [orbit].
  { by intros ?%not_elem_of_nil. }
  intros [->|Hy]%elem_of_cons; [exists 0%nat; split; [lia | done]|].
  destruct (IH _ Hy) as (k & Hk & <-). exists (S k).
  split; [lia | by rewrite Nat.iter_succ_r].
Qed.

Lemma orbit_1_table :
  Nat.iter 127 lfsr_step 1 = 1 /\
  forall_below 127 (fun y => existsb (Z.eqb (y + 1)) (orbit 127 1)) = true.
Proof. vm_compute. done. Qed.

(** Every nonzero state is on the orbit of 1. *)
Lemma orbit_1 b : 0 < b < 128 -> exists k, (k < 127)%nat /\ Nat.iter k lfsr_step 1 = b.
Proof.
  intros Hb. apply orbit_In.
  pose proof (forall_below_spec _ _ (proj2 orbit_1_table) (b - 1) ltac:(lia)) as H.
  apply List.existsb_exists in H as (y & Hy & He%Z.eqb_eq).
  apply list_elem_of_In. by replace b with y by lia.
Qed.

(** ** Properties *)

(** Whitening is an involution on every buffer and channel, and keeps the
    length: it is exclusive or with a keystream that depends on the channel
    only. *)
Lemma whiten_involution buf channel : bytes buf ->
  whiten (whiten buf channel) channel = buf /\
  exists key, length key = length buf /\ whiten buf channel = xor_bytes buf key /\
    forall buf', bytes buf' -> length buf' = length buf ->
      whiten buf' channel = xor_bytes buf' key.
Proof.
  intros Hb. split; [by apply whiten_involutive|].
  exists (keystream (length buf) (u16 (whitening_init channel))).
  split; [apply keystream_length|]. split; [by apply whiten_keystream|].
  intros buf' Hb' <-. by apply whiten_keystream.
Qed.

(** The register has maximal period: from any nonzero state, every nonzero
    state is reached within 127 steps, and 127 steps return to the start. *)
Theorem lfsr_maximal a b : 0 < a < 128 -> 0 < b < 128 ->
  Nat.iter 127 lfsr_step a = a /\
  exists k, (k < 127)%nat /\ Nat.iter k lfsr_step a = b.
Proof.
  intros (j & Hj & <-)%orbit_1 (k & Hk & <-)%orbit_1.
  pose proof (proj1 orbit_1_table) as H1.
  rewrite <- Nat.iter_add, Nat.add_comm, Nat.iter_add, H1. split; [done|].
  destruct (decide (j <= k)%nat).
  - exists (k - j)%nat. split; [lia|]. rewrite <- Nat.iter_add. f_equal. lia.
  - exists (127 - j + k)%nat. split; [lia|]. rewrite <- Nat.iter_add.
    replace (127 - j + k + j)%nat with (k + 127)%nat by lia.
    by rewrite Nat.iter_add, H1.
Qed.
