(* ===== verification/Sim.v ===== *)
(** The host-side virtual radio ([src/sim.rs]): transmit appends the CRC and
    whitens, receive de-whitens and checks. *)

From stdpp Require Import base numbers list.
From S2P Require Import Prelude Errors Crc Whiten.

(** ** The source's definitions *)

Definition MAX_PACKET_LEN : nat := 255 + 2 + 3.

Record Packet := mkPacket {
  pkt_channel : Z;
  pkt_bytes : list Z;    (* [u8; MAX_PACKET_LEN] *)
  pkt_len : nat
}.

Record RxPacket := mkRxPacket {
  rx_pdu : list Z;       (* [u8; MAX_PACKET_LEN] *)
  rx_len : nat
}.

Record VirtualRadio := mkVirtualRadio { vr_channel : Z }.

Definition transmit (self : VirtualRadio) (pdu : list Z)
    : outcome (result Packet Error) :=
  if (MAX_PACKET_LEN <? length pdu + 3)%nat then Ret (Err BufferTooSmall) else
  let bytes := replicate MAX_PACKET_LEN 0 in
  let! bytes := copy_at bytes 0 (length pdu) pdu in
  let! tail := slice_from bytes (length pdu) in
  let? tail := append_crc pdu tail in
  let! bytes := copy_at bytes (length pdu) (length bytes) tail in
  let total := (length pdu + 3)%nat in
  let! head := slice_to bytes total in
  let! bytes := copy_at bytes 0 total (whiten head (vr_channel self)) in
  Ret (Ok (mkPacket (vr_channel self) bytes total)).

Definition receive (self : VirtualRadio) (packet : Packet)
    : outcome (result RxPacket Error) :=
  if (pkt_len packet <? 3)%nat then Ret (Err InvalidLength) else
  let buf := replicate MAX_PACKET_LEN 0 in
  let! src := slice_to (pkt_bytes packet) (pkt_len packet) in
  let! buf := copy_at buf 0 (pkt_len packet) src in
  let! head := slice_to buf (pkt_len packet) in
  let! buf := copy_at buf 0 (pkt_len packet) (whiten head (vr_channel self)) in
  let! head := slice_to buf (pkt_len packet) in
  if negb (check head) then Ret (Err CrcMismatch) else
  let! len := sub_usize (pkt_len packet) 3 in
  Ret (Ok (mkRxPacket buf len)).

Definition loopback (pdu : list Z) (channel : Z) : outcome (result RxPacket Error) :=
  let radio := mkVirtualRadio channel in
  let? packet := transmit radio pdu in
  receive radio packet.

(** ** Specification *)

(** What is on the air: the valid bytes of a packet. *)
Definition on_air (p : Packet) : list Z := take (pkt_len p) (pkt_bytes p).

(** The PDU a receiver hands up. *)
Definition received (r : RxPacket) : list Z := take (rx_len r) (rx_pdu r).

Definition wf_packet (p : Packet) : Prop :=
  length (pkt_bytes p) = MAX_PACKET_LEN /\ (pkt_len p <= MAX_PACKET_LEN)%nat /\
  bytes (pkt_bytes p).

(** A packet hit by an error pattern on its valid bytes. *)
Definition corrupt (p : Packet) (e : list Z) : Packet :=
  mkPacket (pkt_channel p) (xor_bytes (on_air p) e ++ drop (pkt_len p) (pkt_bytes p))
    (pkt_len p).

(** The receive path on the bytes on the air. *)
Definition receive_spec (channel : Z) (air : list Z) : result (list Z) Error :=
  if (length air <? 3)%nat then Err InvalidLength else
  let l := whiten air channel in
  if check l then Ok (take (length air - 3) l) else Err CrcMismatch.

(** The residue that the keystream difference [l] leaves after [n] bytes,
    as a running CRC register with zero initial value. *)
Fixpoint diff_residues (n : nat) (l r : Z) : bool :=
  match n with
  | O => true
  | S n =>
      let r := crc24_byte r (key_byte l) in
      negb (r =? 0) && diff_residues n (key_next l) r
  end.

(** ** Transmit and receive, characterised *)

Lemma transmit_Ok channel pdu : (length pdu <= 257)%nat ->
  exists rest, length rest = (257 - length pdu)%nat /\ bytes rest /\
  transmit (mkVirtualRadio channel) pdu =
  Ret (Ok (mkPacket channel (whiten (pdu ++ crc_bytes pdu) channel ++ rest)
    (length pdu + 3))).
Proof.
  intros Hl. unfold transmit, MAX_PACKET_LEN. cbn [vr_channel].
  rewrite (proj2 (Nat.ltb_ge _ _)) by lia.
  exists (replicate (257 - length pdu) 0).
  split; [by rewrite length_replicate|]. split; [apply bytes_replicate_0|].
  rewrite copy_at_Ret by len. rewrite obind_Ret, take_0, app_nil_l.
  rewrite slice_from_Ret by len.
  rewrite obind_Ret, drop_app_length, drop_replicate.
  rewrite append_crc_Ok by len. cbn [try_bind]. rewrite drop_replicate.
  assert (Hc : length (crc_bytes pdu) = 3%nat) by done.
  rewrite copy_at_Ret by len. rewrite obind_Ret, take_app_length.
  rewrite (drop_ge (pdu ++ replicate _ 0)), app_nil_r by len.
  rewrite slice_to_Ret by len. rewrite obind_Ret, app_assoc.
  replace (length pdu + 3)%nat with (length (pdu ++ crc_bytes pdu)) by len.
  rewrite take_app_length. rewrite copy_at_Ret by len.
  rewrite obind_Ret, take_0, app_nil_l, drop_app_length.
  do 5 f_equal. lia.
Qed.

Lemma transmit_too_long channel pdu : (257 < length pdu)%nat ->
  transmit (mkVirtualRadio channel) pdu = Ret (Err BufferTooSmall).
Proof.
  intros Hl. unfold transmit, MAX_PACKET_LEN.
  by rewrite (proj2 (Nat.ltb_lt _ _)) by lia.
Qed.

(** [receive] depends on the valid bytes only, and never panics on a packet
    within its buffer. *)
Lemma receive_refines channel p :
  length (pkt_bytes p) = MAX_PACKET_LEN -> (pkt_len p <= MAX_PACKET_LEN)%nat ->
  exists r, receive (mkVirtualRadio channel) p = Ret r /\
  match r with
  | Ok rx => receive_spec channel (on_air p) = Ok (received rx) /\
             rx_len rx = (pkt_len p - 3)%nat
  | Err e => receive_spec channel (on_air p) = Err e
  end.
Proof.
  intros Hb Hl. unfold receive, receive_spec. cbn [vr_channel].
  assert (Ho : length (on_air p) = pkt_len p) by (unfold on_air; len).
  rewrite Ho. destruct (Nat.ltb_spec (pkt_len p) 3); [by eexists|].
  rewrite slice_to_Ret by lia. rewrite obind_Ret. fold (on_air p).
  unfold MAX_PACKET_LEN in *.
  rewrite copy_at_Ret by len. rewrite obind_Ret, take_0, app_nil_l, drop_replicate.
  rewrite slice_to_Ret by len. rewrite obind_Ret.
  rewrite <- Ho, take_app_length.
  rewrite copy_at_Ret by len. rewrite obind_Ret, take_0, app_nil_l, drop_app_length.
  rewrite slice_to_Ret by len. rewrite obind_Ret.
  rewrite (take_app_le (whiten _ _)), (take_ge (whiten _ _)) by len.
  destruct (check (whiten (on_air p) channel)); cbn [negb]; [|by eexists].
  unfold sub_usize. rewrite (proj2 (Nat.leb_le _ _)) by lia. rewrite obind_Ret.
  eexists. split; [done|]. unfold received. cbn [rx_len rx_pdu].
  split; [|lia]. by rewrite take_app_le by len.
Qed.

Lemma receive_spec_Ret channel p l : wf_packet p ->
  receive_spec channel (on_air p) = Ok l ->
  exists rx, receive (mkVirtualRadio channel) p = Ret (Ok rx) /\ received rx = l.
Proof.
  intros (Hb & Hl & _) Hs.
  destruct (receive_refines channel p Hb Hl) as ([rx|e] & -> & H).
  - destruct H as [H _]. rewrite Hs in H. simplify_eq. by eexists.
  - congruence.
Qed.

Lemma receive_spec_Err channel p e : wf_packet p ->
  receive_spec channel (on_air p) = Err e ->
  receive (mkVirtualRadio channel) p = Ret (Err e).
Proof.
  intros (Hb & Hl & _) Hs.
  destruct (receive_refines channel p Hb Hl) as ([rx|e'] & -> & H).
  - destruct H as [H _]. congruence.
  - congruence.
Qed.

(** ** What the air does to a packet *)

Lemma air_wf channel pdu rest : bytes pdu -> bytes rest ->
  (length pdu <= 257)%nat -> length rest = (257 - length pdu)%nat ->
  let p := mkPacket channel (whiten (pdu ++ crc_bytes pdu) channel ++ rest)
             (length pdu + 3) in
  wf_packet p /\ on_air p = whiten (pdu ++ crc_bytes pdu) channel.
Proof.
  intros Hp Hr Hl Hrl p. assert (Hc : length (crc_bytes pdu) = 3%nat) by done.
  assert (bytes (pdu ++ crc_bytes pdu)) by (apply bytes_app; auto with ble).
  split.
  - unfold wf_packet, p, MAX_PACKET_LEN. cbn [pkt_bytes pkt_len].
    split; [len|]. split; [lia|]. apply bytes_app. auto with ble.
  - unfold on_air, p. cbn [pkt_bytes pkt_len].
    rewrite take_app_le, take_ge by len. done.
Qed.

(** Transmission succeeds exactly within the packet size, and puts the
    whitened PDU and CRC on the air. *)
Lemma transmit_on_air channel pdu : bytes pdu -> (length pdu <= 257)%nat ->
  exists p, transmit (mkVirtualRadio channel) pdu = Ret (Ok p) /\ wf_packet p /\
    on_air p = whiten (pdu ++ crc_bytes pdu) channel.
Proof.
  intros Hp Hl. destruct (transmit_Ok channel pdu Hl) as (rest & Hrl & Hr & ->).
  eexists. split; [done|]. by apply air_wf.
Qed.

Lemma corrupt_wf p e : wf_packet p -> bytes e -> length e = pkt_len p ->
  wf_packet (corrupt p e) /\ on_air (corrupt p e) = xor_bytes (on_air p) e.
Proof.
  intros (Hb & Hl & Hw) He Hle.
  assert (Ho : length (on_air p) = pkt_len p) by (unfold on_air; len).
  assert (Hx : length (xor_bytes (on_air p) e) = pkt_len p)
    by (rewrite xor_bytes_length; congruence).
  unfold wf_packet, corrupt. cbn [pkt_bytes pkt_len]. split.
  - split; [len|]. split; [done|]. apply bytes_app.
    unfold on_air. auto with ble.
  - unfold on_air at 1. cbn [pkt_bytes pkt_len]. rewrite <- Hx. apply take_app_length.
Qed.

Lemma receive_spec_sent channel pdu : bytes pdu ->
  receive_spec channel (whiten (pdu ++ crc_bytes pdu) channel) = Ok pdu.
Proof.
  intros Hp. assert (Hc : length (crc_bytes pdu) = 3%nat) by done.
  assert (bytes (pdu ++ crc_bytes pdu)) by (apply bytes_app; auto with ble).
  unfold receive_spec. rewrite whiten_involutive, check_appended by done.
  rewrite (proj2 (Nat.ltb_ge _ _)) by len. f_equal.
  rewrite whiten_length, length_app, Hc, Nat.add_sub. apply take_app_length.
Qed.

(** ** The wrong channel *)

(** [diff_residues] decides that no prefix of the keystream difference leaves
    a zero residue. *)
Lemma diff_residues_sound n l r m :
  diff_residues n l r = true -> (0 < m <= n)%nat ->
  fold_left crc24_byte (keystream m l) r <> 0.
Proof.
  revert l r m. induction n as [|n IH]; intros l r m Hd Hm; [lia|].
  cbn [diff_residues] in Hd. apply andb_prop in Hd as [H0 Hd].
  destruct m as [|m]; [lia|]. cbn [keystream]. rewrite fold_left_cons.
  destruct m as [|m].
  - apply negb_true_iff, Z.eqb_neq in H0. exact H0.
  - apply (IH _ _ (S m) Hd). lia.
Qed.

(** Every keystream difference of two channels, at every packet length. *)
Lemma diff_residues_table :
  forallb (fun k => diff_residues 260 (Z.of_nat k) 0) (seq 1 63) = true.
Proof. vm_compute. reflexivity. Qed.

(** The difference of two channels' registers. *)
Lemma channel_difference c1 c2 : 0 <= c1 < 64 -> 0 <= c2 < 64 -> c1 <> c2 ->
  0 < u16 (whitening_init c1) .^ u16 (whitening_init c2) < 64.
Proof.
  intros H1 H2 Hne.
  assert (Hw : forall c, 0 <= c < 64 -> u16 (whitening_init c) = 64 .^ c).
  { intros c Hc. rewrite u16_id by (pose proof (whitening_init_range c); ranges; lia).
    unfold whitening_init. change 0x3F with (Z.ones 6).
    rewrite Z.land_ones, Z.mod_small by lia. symmetry. apply Z.lxor_lor.
    apply Z.bits_inj'. intros i Hi. rewrite Z.land_spec, Z.bits_0.
    destruct (decide (i < 6)).
    - change 64 with (Z.shiftl 1 6). by rewrite Z.shiftl_spec_low by done.
    - rewrite (testbit_above c 6), andb_false_r by lia. done. }
  rewrite !Hw by done.
  replace (64 .^ c1 .^ (64 .^ c2)) with (c1 .^ c2).
  2:{ rewrite (Z.lxor_comm 64 c1), Z.lxor_assoc, <- (Z.lxor_assoc 64 64).
      by rewrite Z.lxor_nilpotent, Z.lxor_0_l. }
  pose proof (lxor_range c1 c2 6 ltac:(lia) H1 H2) as Hr.
  assert (c1 .^ c2 <> 0) by (rewrite Z.lxor_eq_0_iff; done).
  change (2 ^ 6) with 64 in Hr. lia.
Qed.

Lemma wrong_channel_check c1 c2 l :
  0 <= c1 < 64 -> 0 <= c2 < 64 -> c1 <> c2 -> bytes l -> (length l <= 260)%nat ->
  check l = true -> check (whiten (whiten l c1) c2) = false.
Proof.
  intros H1 H2 Hne Hb Hl Hc. rewrite whiten_twice by done.
  pose proof (channel_difference c1 c2 H1 H2 Hne) as Hd.
  set (d := u16 (whitening_init c1) .^ u16 (whitening_init c2)) in *.
  assert (Hk : bytes (keystream (length l) d))
    by (apply keystream_bytes; unfold is_lfsr; lia).
  rewrite check_corrupted by (rewrite ?keystream_length; done).
  apply Z.eqb_neq.
  pose proof (crc24_fold _ 0 Hk ltac:(lia)) as Hf.
  rewrite keystream_length, Z.lxor_0_r in Hf. rewrite <- Hf.
  pose proof diff_residues_table as Ht. rewrite List.forallb_forall in Ht.
  assert (Hin : In (Z.to_nat d) (seq 1 63)) by (apply in_seq; lia).
  apply Ht in Hin. rewrite Z2Nat.id in Hin by lia.
  apply (diff_residues_sound 260 d 0 _ Hin).
  destruct l as [|b l]; [discriminate Hc | cbn [length] in *; lia].
Qed.

(** ** Properties *)

(** Loopback is the identity: for every channel and every PDU of at most
    257 bytes, transmit then receive on the same channel hands up exactly the
    PDU; a longer PDU is refused with [BufferTooSmall]. Nothing panics. *)
Lemma loopback_identity pdu channel : bytes pdu ->
  if (length pdu <=? 257)%nat
  then exists rx, loopback pdu channel = Ret (Ok rx) /\ received rx = pdu
  else loopback pdu channel = Ret (Err BufferTooSmall).
Proof.
  intros Hp. unfold loopback. destruct (Nat.leb_spec (length pdu) 257).
  - destruct (transmit_on_air channel pdu) as (p & -> & Hw & Ho); [done..|].
    cbn [try_bind]. apply receive_spec_Ret; [done|]. rewrite Ho.
    by apply receive_spec_sent.
  - by rewrite transmit_too_long.
Qed.

(** A receiver on another channel never accepts a packet: for any two
    different channels and any PDU that fits, [receive] reports
    [CrcMismatch]. The CRC of the whitening difference is nonzero at every
    packet length, so the rejection does not depend on the data. *)
Theorem wrong_channel_rejected pdu c1 c2 p :
  bytes pdu -> 0 <= c1 < 64 -> 0 <= c2 < 64 -> c1 <> c2 ->
  transmit (mkVirtualRadio c1) pdu = Ret (Ok p) ->
  receive (mkVirtualRadio c2) p = Ret (Err CrcMismatch).
Proof.
  intros Hp H1 H2 Hne Ht.
  assert (Hl : (length pdu <= 257)%nat).
  { destruct (Nat.le_gt_cases (length pdu) 257); [done|].
    by rewrite transmit_too_long in Ht by done. }
  destruct (transmit_on_air c1 pdu Hp Hl) as (p' & Ht' & Hw & Ho).
  rewrite Ht in Ht'. simplify_eq. apply receive_spec_Err; [done|].
  assert (Hc : length (crc_bytes pdu) = 3%nat) by done.
  unfold receive_spec. rewrite Ho, (proj2 (Nat.ltb_ge _ _)) by len.
  rewrite wrong_channel_check; [done..| | |].
  - apply bytes_app. auto with ble.
  - len.
  - by apply check_appended.
Qed.


(** A burst of up to 24 flipped bits on the air is always caught: the
    receiver reports [CrcMismatch]. *)
Theorem burst_on_air_rejected pdu channel p e :
  bytes pdu -> transmit (mkVirtualRadio channel) pdu = Ret (Ok p) ->
  bytes e -> length e = pkt_len p -> burst24 e ->
  receive (mkVirtualRadio channel) (corrupt p e) = Ret (Err CrcMismatch).
Proof.
  intros Hp Ht He Hle Hbu.
  assert (Hl : (length pdu <= 257)%nat).
  { destruct (Nat.le_gt_cases (length pdu) 257); [done|].
    by rewrite transmit_too_long in Ht by done. }
  destruct (transmit_on_air channel pdu Hp Hl) as (p' & Ht' & Hw & Ho).
  rewrite Ht in Ht'. simplify_eq.
  destruct (corrupt_wf p' e Hw He Hle) as [Hwc Hoc].
  apply receive_spec_Err; [done|]. rewrite Hoc, Ho.
  assert (Hpc : bytes (pdu ++ crc_bytes pdu)) by (apply bytes_app; auto with ble).
  assert (Hc : length (crc_bytes pdu) = 3%nat) by done.
  assert (Hel : length e = length (pdu ++ crc_bytes pdu)).
  { destruct Hw as (Hb & Hpl & _). apply (f_equal length) in Ho.
    unfold on_air in Ho. revert Ho. len. }
  unfold receive_spec. rewrite xor_bytes_length by len.
  rewrite (proj2 (Nat.ltb_ge _ _)) by len.
  rewrite whiten_xor, whiten_involutive by (auto with ble; len).
  rewrite check_corrupted by (done || by apply check_appended).
  rewrite <- Hel. by rewrite (proj2 (Z.eqb_neq _ _) (burst24_residue e He Hbu)).
Qed.
