(* ===== verification/Channels.v ===== *)
(** Channels and hopping ([src/ll/channels.rs], and [next_channel] of
    [src/hw/conn.rs]). *)

From stdpp Require Import base numbers list.
From S2P Require Import Prelude Errors.

(** ** The source's definitions *)

Definition ADV_ACCESS_ADDRESS : Z := 0x8E89BED6.
Definition ADV_CHANNELS : list Z := [37; 38; 39].
Definition HOP_INCREMENTS : list Z :=
  [5; 11; 19; 17; 9; 15; 6; 8; 13; 7; 10; 14; 12; 18; 3; 16; 4; 0; 1; 2].

(** The argument is a [u8]. *)
Definition channel_frequency (channel : Z) : result Z Error :=
  if (0 <=? channel) && (channel <=? 36) then Ok (2404 + 2 * channel)
  else if channel =? 37 then Ok 2402
  else if channel =? 38 then Ok 2426
  else if channel =? 39 then Ok 2480
  else Err InvalidChannel.

Definition next_data_channel (current hop : Z) : outcome Z :=
  let! s := add_u8 current hop in Ret (s mod 37).

Definition preamble_for_access_address (aa : Z) : Z :=
  if aa .& 1 =? 0 then 0x55 else 0xAA.

Definition access_address_to_base_prefix (aa : Z) : Z * Z :=
  let base := u32 ((aa .& 0x00FFFFFF) .<< 8) in
  let prefix := u8 (aa .>> 24) in
  (base, prefix).

(** The loop condition's first half: the channel is off in the map. *)
Definition channel_off (map : list Z) (ch : Z) : outcome bool :=
  let! m := idx map (Z.to_nat (ch / 8)) in
  Ret (m .& (1 .<< (ch mod 8)) =? 0).

(** The [while] loop of [next_channel], with [37 - n] the [guard]. *)
Fixpoint next_channel_loop (n : nat) (ch : Z) (map : list Z) : outcome Z :=
  let! off := channel_off map ch in
  match n with
  | O => Ret ch
  | S n => if off then next_channel_loop n ((ch + 1) mod 37) map else Ret ch
  end.

Definition next_channel (current hop : Z) (map : list Z) : outcome Z :=
  let! s := add_u8 current hop in
  next_channel_loop 37 (s mod 37) map.

(** ** Specification *)

(** Bit [ch] of the 37-bit channel map. *)
Definition used (map : list Z) (ch : Z) : bool := Z.testbit (le_val map) ch.

(** The [d]-th channel probed from [start]. *)
Definition probe (start : Z) (d : nat) : Z := (start + Z.of_nat d) mod 37.

(** [k] hops with the same increment. *)
Definition hop_n (k : nat) (hop ch : Z) : Z := (ch + Z.of_nat k * hop) mod 37.

(** ** Lemmas *)

Lemma add_u8_Ret a b : a + b < 256 -> add_u8 a b = Ret (a + b).
Proof. intros H. unfold add_u8, checked_add. by rewrite (proj2 (Z.ltb_lt _ _) H). Qed.

Lemma channel_frequency_Ok ch f : channel_frequency ch = Ok f -> 2402 <= f <= 2480.
Proof.
  unfold channel_frequency.
  destruct (Z.leb_spec 0 ch), (Z.leb_spec ch 36); cbn [andb];
    repeat case_match; intros; simplify_eq; lia.
Qed.

Lemma channel_frequency_total ch : 0 <= ch <= 39 ->
  exists f, channel_frequency ch = Ok f.
Proof.
  intros H. unfold channel_frequency.
  destruct (Z.leb_spec 0 ch), (Z.leb_spec ch 36); cbn [andb]; [by eexists|..];
    repeat case_match; try (by eexists); rewrite ?Z.eqb_neq in *; lia.
Qed.

Lemma next_data_channel_Ret cur hop : 0 <= cur < 37 -> 0 <= hop < 219 ->
  next_data_channel cur hop = Ret (hop_n 1 hop cur).
Proof.
  intros. unfold next_data_channel, hop_n. rewrite add_u8_Ret by lia.
  rewrite obind_Ret. do 2 f_equal. lia.
Qed.

(** Reading bit [ch] of the map through its bytes. *)
Lemma testbit_le_val l ch : bytes l -> 0 <= ch ->
  Z.testbit (le_val l) ch =
  match l !! Z.to_nat (ch / 8) with
  | Some m => Z.testbit m (ch mod 8)
  | None => false
  end.
Proof.
  intros Hl. revert ch. induction Hl as [|x l Hx Hl IH]; intros ch Hch.
  { cbn [le_val]. by rewrite Z.bits_0, lookup_nil. }
  cbn [le_val]. rewrite byte_step_lxor, Z.lxor_spec by done.
  destruct (decide (ch < 8)).
  - rewrite Z.div_small, Z.mod_small by lia. cbn [Z.to_nat lookup list_lookup].
    rewrite Z.shiftl_spec_low by done. apply xorb_false_r.
  - rewrite Z.shiftl_spec, IH by lia.
    unfold is_u8 in Hx. rewrite (testbit_above x 8), xorb_false_l by lia.
    assert (ch / 8 = (ch - 8) / 8 + 1 /\ ch mod 8 = (ch - 8) mod 8 /\ 0 <= (ch - 8) / 8)
      as (Hd & -> & H0) by (Z.div_mod_to_equations; lia).
    rewrite Hd, Z2Nat.inj_add, Nat.add_1_r by lia. done.
Qed.

Lemma land_bit m i : 0 <= i -> (m .& (1 .<< i) =? 0) = negb (Z.testbit m i).
Proof.
  intros Hi.
  assert (H : m .& (1 .<< i) = Z.b2z (Z.testbit m i) .<< i).
  { apply Z.bits_inj'. intros j Hj. rewrite Z.land_spec.
    destruct (decide (j < i)).
    { rewrite !Z.shiftl_spec_low by done. apply andb_false_r. }
    rewrite !Z.shiftl_spec by done. destruct (decide (j = i)) as [->|].
    - rewrite Z.sub_diag, Z.b2z_bit0. apply andb_true_r.
    - rewrite (testbit_above 1 1), (testbit_above (Z.b2z _) 1)
        by (try destruct (Z.testbit m i); cbn; lia).
      apply andb_false_r. }
  rewrite H. destruct (Z.testbit m i); cbn [Z.b2z negb].
  - apply Z.eqb_neq. rewrite Z.shiftl_1_l.
    pose proof (Z.pow_pos_nonneg 2 i). lia.
  - by rewrite Z.shiftl_0_l.
Qed.

Lemma channel_off_Ret map ch : bytes map -> length map = 5%nat -> 0 <= ch < 37 ->
  channel_off map ch = Ret (negb (used map ch)).
Proof.
  intros Hb Hl Hch. unfold channel_off, used.
  rewrite testbit_le_val by (done || lia).
  assert (Hi : (Z.to_nat (ch / 8) < length map)%nat).
  { rewrite Hl. assert (ch / 8 < 5) by (apply Z.div_lt_upper_bound; lia). lia. }
  apply lookup_lt_is_Some in Hi as [m Hm].
  rewrite (idx_Some _ _ _ Hm), obind_Ret, Hm.
  rewrite land_bit; [done|]. by apply Z.mod_pos_bound.
Qed.

Lemma probe_S start d : probe start (S d) = (probe start d + 1) mod 37.
Proof.
  unfold probe. rewrite Zplus_mod_idemp_l. f_equal. lia.
Qed.

Lemma probe_range start d : 0 <= probe start d < 37.
Proof. by apply Z.mod_pos_bound. Qed.

Lemma probe_37 start : 0 <= start < 37 -> probe start 37 = start.
Proof.
  intros. unfold probe. change (Z.of_nat 37) with (1 * 37).
  rewrite Z.mod_add by done. by apply Z.mod_small.
Qed.

(** Every channel is probed. *)
Lemma probe_complete start ch : 0 <= start < 37 -> 0 <= ch < 37 ->
  exists d, (d < 37)%nat /\ probe start d = ch.
Proof.
  intros Hs Hc. exists (Z.to_nat ((ch - start) mod 37)).
  pose proof (Z.mod_pos_bound (ch - start) 37 ltac:(lia)).
  split; [lia|]. unfold probe. rewrite Z2Nat.id by lia.
  rewrite Zplus_mod_idemp_r. replace (start + (ch - start)) with ch by lia.
  by apply Z.mod_small.
Qed.

(** The loop stops at the first used channel it probes, and otherwise after
    the guard. *)
Lemma next_channel_loop_spec n d start map :
  bytes map -> length map = 5%nat -> 0 <= start < 37 ->
  exists k, (k <= n)%nat /\
    next_channel_loop n (probe start d) map = Ret (probe start (d + k)) /\
    (forall i, (i < k)%nat -> used map (probe start (d + i)) = false) /\
    ((k < n)%nat -> used map (probe start (d + k)) = true).
Proof.
  intros Hb Hl Hs. revert d. induction n as [|n IH]; intros d.
  - exists 0%nat. cbn [next_channel_loop].
    rewrite channel_off_Ret by (done || apply probe_range).
    rewrite obind_Ret, Nat.add_0_r. split; [done|]. split; [done|].
    split; intros; lia.
  - cbn [next_channel_loop].
    rewrite channel_off_Ret by (done || apply probe_range). rewrite obind_Ret.
    destruct (used map (probe start d)) eqn:Hu; cbn [negb].
    + exists 0%nat. rewrite Nat.add_0_r. split; [lia|]. split; [done|].
      split; [intros; lia | done].
    + rewrite <- probe_S. destruct (IH (S d)) as (k & Hk & Heq & Hlt & Hgt).
      exists (S k). replace (d + S k)%nat with (S d + k)%nat by lia.
      split; [lia|]. split; [done|]. split; [|intros; apply Hgt; lia].
      intros [|i] Hi; [by rewrite Nat.add_0_r|].
      replace (d + S i)%nat with (S d + i)%nat by lia. apply Hlt. lia.
Qed.

Lemma hop_n_hop k hop ch : (hop_n k hop ch + hop) mod 37 = hop_n (S k) hop ch.
Proof. unfold hop_n. rewrite Zplus_mod_idemp_l. f_equal. lia. Qed.

(** 37 is prime: any nonzero increment generates every channel. *)
Lemma hop_table :
  forallb (fun h => forallb (fun a =>
    existsb (fun k => Z.of_nat k * Z.of_nat h mod 37 =? Z.of_nat a) (seq 0 37))
    (seq 0 37)) (seq 1 36) = true.
Proof. vm_compute. reflexivity. Qed.

Lemma hop_solves h a : 1 <= h <= 36 -> 0 <= a < 37 ->
  exists k, (k < 37)%nat /\ Z.of_nat k * h mod 37 = a.
Proof.
  intros Hh Ha. pose proof hop_table as Ht. rewrite List.forallb_forall in Ht.
  assert (Hin : In (Z.to_nat h) (seq 1 36)) by (apply in_seq; lia).
  apply Ht in Hin. rewrite List.forallb_forall in Hin.
  assert (Hin2 : In (Z.to_nat a) (seq 0 37)) by (apply in_seq; lia).
  apply Hin, List.existsb_exists in Hin2 as (k & Hk%in_seq & He%Z.eqb_eq).
  rewrite !Z2Nat.id in He by lia. exists k. split; [lia | done].
Qed.

(** ** Properties *)

(** C33. Channel selection is total and skips unused channels: with a 37-bit
    map in five bytes, [next_channel] never panics, returns a data channel,
    and when the map has a used channel returns the first used one at or
    after the hop target, cyclically; with an empty map it returns the hop
    target. *)
Theorem next_channel_selects cur hop map :
  0 <= cur -> 0 <= hop -> cur + hop < 256 -> bytes map -> length map = 5%nat ->
  let target := (cur + hop) mod 37 in
  exists k, next_channel cur hop map = Ret (probe target k) /\
    0 <= probe target k < 37 /\
    ((exists ch, 0 <= ch < 37 /\ used map ch = true) ->
       (k < 37)%nat /\ used map (probe target k) = true /\
       forall i, (i < k)%nat -> used map (probe target i) = false) /\
    ((forall ch, 0 <= ch < 37 -> used map ch = false) -> probe target k = target).
Proof.
  intros Hc Hh Hs Hb Hl target.
  assert (Ht : 0 <= target < 37) by (by apply Z.mod_pos_bound).
  assert (H0 : target = probe target 0)
    by (unfold probe; by rewrite Z.add_0_r, Z.mod_small).
  unfold next_channel. rewrite add_u8_Ret by lia. rewrite obind_Ret.
  replace (next_channel_loop 37 ((cur + hop) mod 37) map)
    with (next_channel_loop 37 (probe target 0) map) by (by rewrite <- H0).
  destruct (next_channel_loop_spec 37 0 target map Hb Hl Ht)
    as (k & Hk & -> & Hlt & Hgt). cbn [Nat.add] in *.
  exists k. split; [done|]. split; [apply probe_range|]. split.
  - intros (ch & Hch & Hu). destruct (probe_complete target ch Ht Hch) as (d & Hd & Hp).
    assert (k < 37)%nat.
    { apply Nat.nle_gt. intros Hk37. rewrite <- Hp, Hlt in Hu by lia. done. }
    auto.
  - intros Hall. assert (k = 37)%nat as ->.
    { apply Nat.le_antisymm; [done|]. apply Nat.nlt_ge. intros Hk37%Hgt.
      by rewrite Hall in Hk37 by apply probe_range. }
    by apply probe_37.
Qed.

Lemma next_channel_selects_witness :
  next_channel 0 1 [0xFC; 0xFF; 0xFF; 0xFF; 0xFF] = Ret 2 /\
  exists k, next_channel 0 1 [0xFC; 0xFF; 0xFF; 0xFF; 0xFF] = Ret (probe 1 k).
Proof.
  split; [vm_compute; reflexivity|].
  destruct (next_channel_selects 0 1 [0xFC; 0xFF; 0xFF; 0xFF; 0xFF])
    as (k & Hk & _); [lia|lia|lia|bytes_eval|done|]. by exists k.
Defined.

(** Hopping covers the band: repeating [next_data_channel] with any
    increment from 1 to 36 stays in range, never panics, visits every data
    channel within 37 hops, and is back at the start after 37. *)
Theorem hopping_covers_band hop ch target :
  1 <= hop <= 36 -> 0 <= ch < 37 -> 0 <= target < 37 ->
  (forall k, next_data_channel (hop_n k hop ch) hop = Ret (hop_n (S k) hop ch)) /\
  hop_n 37 hop ch = ch /\
  exists k, (k < 37)%nat /\ hop_n k hop ch = target.
Proof.
  intros Hh Hc Ht. split; [|split].
  - intros k. unfold next_data_channel.
    assert (0 <= hop_n k hop ch < 37) by (by apply Z.mod_pos_bound).
    rewrite add_u8_Ret by lia. by rewrite obind_Ret, hop_n_hop.
  - unfold hop_n. replace (Z.of_nat 37 * hop) with (hop * 37) by lia.
    rewrite Z.mod_add by done. by apply Z.mod_small.
  - destruct (hop_solves hop ((target - ch) mod 37) Hh) as (k & Hk & He).
    { by apply Z.mod_pos_bound. }
    exists k. split; [done|]. unfold hop_n.
    rewrite <- Zplus_mod_idemp_r, He, Zplus_mod_idemp_r.
    replace (ch + (target - ch)) with target by lia. by apply Z.mod_small.
Qed.
