(* ===== verification/Timers.v ===== *)
(** Interval tick arithmetic ([src/hw/timers.rs], and [PeriodicSync] of
    [src/hw/ble.rs]). The TIMER0 register driver is modelled by the world of
    the connection files, not here. *)

From stdpp Require Import base numbers list.
From S2P Require Import Prelude.

(** ** The source's definitions *)

Definition TICKS_PER_UNIT : Z := 625.
Definition TICKS_PER_UNIT_DENOM : Z := 32.

Record IntervalAccum := mkIntervalAccum {
  ia_whole : Z;
  ia_frac_part : Z;
  ia_frac : Z
}.

Definition IntervalAccum_new : IntervalAccum :=
  mkIntervalAccum (TICKS_PER_UNIT / TICKS_PER_UNIT_DENOM)
    (TICKS_PER_UNIT mod TICKS_PER_UNIT_DENOM) 0.

Definition IntervalAccum_new_125ms : IntervalAccum := mkIntervalAccum 39 2 0.

(** [next]: the ticks and the accumulator afterwards; every product and sum
    is a checked [u32]. *)
Definition IntervalAccum_next (self : IntervalAccum) (units : Z)
    : outcome (IntervalAccum * Z) :=
  let! base := mul_u32 units (ia_whole self) in
  let! inc := mul_u32 units (ia_frac_part self) in
  let! frac := add_u32 (ia_frac self) inc in
  let carry := frac / TICKS_PER_UNIT_DENOM in
  let self := mkIntervalAccum (ia_whole self) (ia_frac_part self)
                (frac mod TICKS_PER_UNIT_DENOM) in
  let! ticks := add_u32 base carry in
  Ret (self, ticks).

(** [u32::div_ceil]. *)
Definition div_ceil (a b : Z) : Z :=
  if 0 <? a mod b then a / b + 1 else a / b.

Definition window_ticks (units : Z) : outcome Z :=
  let! p := mul_u32 units TICKS_PER_UNIT in
  Ret (div_ceil p TICKS_PER_UNIT_DENOM).

Definition timeout_ticks (micros : Z) : Z := div_ceil micros 32.

Record PeriodicSync := mkPeriodicSync {
  ps_channel : Z;
  ps_units : Z;
  ps_frac : Z;
  ps_next_event : Z
}.

Definition PeriodicSync_next_interval (self : PeriodicSync)
    : outcome (PeriodicSync * Z) :=
  let! base := mul_u32 (ps_units self) 39 in
  let! inc := mul_u32 (ps_units self) 2 in
  let! frac := add_u32 (ps_frac self) inc in
  let carry := frac / 32 in
  let self := mkPeriodicSync (ps_channel self) (ps_units self) (frac mod 32)
                (ps_next_event self) in
  let! ticks := add_u32 base carry in
  Ret (self, ticks).

(** ** Specification *)

(** 32 us ticks per unit, in 32nds of a tick. *)
Definition rate (a : IntervalAccum) : Z := 32 * ia_whole a + ia_frac_part a.

(** The accumulators the source builds, at any point of their life. *)
Definition wf_accum (a : IntervalAccum) : Prop :=
  0 <= ia_frac a < 32 /\
  (ia_whole a = 19 /\ ia_frac_part a = 17 \/ ia_whole a = 39 /\ ia_frac_part a = 2).

(** The total of successive calls. *)
Fixpoint run_accum (a : IntervalAccum) (us : list Z) : outcome (IntervalAccum * Z) :=
  match us with
  | [] => Ret (a, 0)
  | u :: us =>
      let! (a, t) := IntervalAccum_next a u in
      let! (a, ts) := run_accum a us in
      Ret (a, t + ts)
  end.

Definition sum_list (l : list Z) : Z := foldr Z.add 0 l.

(** ** Lemmas *)

Lemma mul_u32_Ret a b : a * b < 4294967296 -> mul_u32 a b = Ret (a * b).
Proof. intros H. unfold mul_u32, checked_mul. by rewrite (proj2 (Z.ltb_lt _ _) H). Qed.

Lemma add_u32_Ret a b : a + b < 4294967296 -> add_u32 a b = Ret (a + b).
Proof. intros H. unfold add_u32, checked_add. by rewrite (proj2 (Z.ltb_lt _ _) H). Qed.

Lemma wf_accum_new : wf_accum IntervalAccum_new /\ wf_accum IntervalAccum_new_125ms.
Proof.
  split; (split; [split; done|]); [by left | by right].
Qed.

(** One call: the ticks and the remainder make up the exact interval. *)
Lemma IntervalAccum_next_spec a u : wf_accum a -> is_u16 u ->
  exists a' t, IntervalAccum_next a u = Ret (a', t) /\ wf_accum a' /\
    rate a' = rate a /\ 0 <= t < 2 ^ 22 /\
    32 * t + ia_frac a' = ia_frac a + u * rate a.
Proof.
  intros [Hf Hr] Hu. unfold IntervalAccum_next, TICKS_PER_UNIT_DENOM. ranges.
  assert (u * ia_whole a < 4294967296 /\ u * ia_frac_part a < 2000000 /\
    0 <= u * ia_whole a <= 2555865 /\ 0 <= u * ia_frac_part a) as (H1 & H2 & H3 & H4).
  { destruct Hr as [[-> ->]|[-> ->]]; lia. }
  rewrite !mul_u32_Ret by lia. rewrite !obind_Ret.
  rewrite add_u32_Ret by lia. rewrite obind_Ret.
  set (frac := ia_frac a + u * ia_frac_part a) in *.
  pose proof (Z.mod_pos_bound frac 32 ltac:(lia)).
  pose proof (Z.div_mod frac 32 ltac:(lia)).
  rewrite add_u32_Ret by lia. rewrite obind_Ret.
  do 2 eexists. split; [done|]. unfold wf_accum, rate.
  cbn [ia_frac ia_whole ia_frac_part]. lia.
Qed.

Lemma run_accum_spec us a : wf_accum a -> Forall is_u16 us ->
  exists a' t, run_accum a us = Ret (a', t) /\ wf_accum a' /\ rate a' = rate a /\
    32 * t + ia_frac a' = ia_frac a + sum_list us * rate a.
Proof.
  intros Ha Hus. revert a Ha. induction Hus as [|u us Hu Hus IH]; intros a Ha.
  { exists a, 0. cbn [run_accum sum_list foldr]. split; [done|]. auto with lia. }
  destruct (IntervalAccum_next_spec a u Ha Hu) as (a1 & t1 & E1 & W1 & R1 & _ & S1).
  destruct (IH a1 W1) as (a2 & t2 & E2 & W2 & R2 & S2).
  exists a2, (t1 + t2). cbn [run_accum]. rewrite E1, obind_Ret, E2, obind_Ret.
  split; [done|]. split; [done|]. split; [congruence|].
  cbn [sum_list foldr] in *. fold (sum_list us) in *. rewrite R1 in S2. lia.
Qed.

Lemma div_ceil_spec a b : 0 < b -> 0 <= a ->
  b * (div_ceil a b - 1) < a <= b * div_ceil a b.
Proof.
  intros Hb Ha. unfold div_ceil. pose proof (Z.mod_pos_bound a b Hb).
  pose proof (Z.div_mod a b ltac:(lia)). destruct (Z.ltb_spec 0 (a mod b)); nia.
Qed.

(** ** Properties *)

(** The tick accumulator never drifts: over any sequence of [u16]
    interval lengths, starting from a fresh accumulator of either unit, no
    [u32] operation overflows and the total is the floor of the exact time:
    625/32 ticks per 0.625 ms unit, 1250/32 per 1.25 ms unit. *)
Theorem interval_accum_exact us : Forall is_u16 us ->
  (exists a, run_accum IntervalAccum_new us = Ret (a, sum_list us * 625 / 32)) /\
  (exists a, run_accum IntervalAccum_new_125ms us = Ret (a, sum_list us * 1250 / 32)).
Proof.
  intros Hus.
  destruct wf_accum_new as [W1 W2].
  destruct (run_accum_spec us _ W1 Hus) as (a1 & t1 & -> & [F1 _] & _ & S1).
  destruct (run_accum_spec us _ W2 Hus) as (a2 & t2 & -> & [F2 _] & _ & S2).
  change (rate IntervalAccum_new) with 625 in S1.
  change (rate IntervalAccum_new_125ms) with 1250 in S2.
  cbn [ia_frac IntervalAccum_new IntervalAccum_new_125ms] in S1, S2.
  split; [exists a1 | exists a2]; do 2 f_equal.
  - apply Z.div_unique with (ia_frac a1); lia.
  - apply Z.div_unique with (ia_frac a2); lia.
Qed.
