(* ===== verification/Addr.v ===== *)
(** Device addresses ([src/ll/addr.rs]) and the accept list
    ([src/ll/accept_list.rs]). *)

From stdpp Require Import base numbers list.
From S2P Require Import Prelude.

(** ** Addresses *)

Inductive AddrType : Type :=
| Public
| RandomStatic
| RandomPrivateResolvable
| RandomPrivateNonResolvable.

#[export] Instance AddrType_eq_dec : EqDecision AddrType.
Proof. solve_decision. Defined.

Definition is_random (self : AddrType) : bool :=
  match self with Public => false | _ => true end.

Record BtAddr := mkBtAddr {
  ba_addr : list Z;        (* [u8; 6] *)
  ba_addr_type : AddrType
}.

Definition BtAddr_from_bytes (addr : list Z) (addr_type : AddrType) : BtAddr :=
  mkBtAddr addr addr_type.

Definition BtAddr_parse (addr : list Z) : outcome BtAddr :=
  let! b := idx addr 5 in
  let top := b .>> 6 in
  let addr_type :=
    if top =? 3 then RandomStatic
    else if top =? 1 then RandomPrivateResolvable
    else RandomPrivateNonResolvable in
  Ret (mkBtAddr addr addr_type).

Definition BtAddr_as_bytes (self : BtAddr) : list Z := ba_addr self.

Definition BtAddr_tx_add_bit (self : BtAddr) : bool :=
  match ba_addr_type self with Public => false | _ => true end.

(** ** The accept list *)

Definition ACCEPT_LIST_MAX : nat := 8.

Record AcceptList := mkAcceptList {
  al_entries : list (AddrType * list Z);   (* [(AddrType, [u8; 6]); 8] *)
  al_len : nat
}.

Definition AcceptList_new : AcceptList :=
  mkAcceptList (replicate ACCEPT_LIST_MAX (Public, replicate 6 0)) 0.

(** [Default]. *)
Definition AcceptList_default : AcceptList := AcceptList_new.

Definition AcceptList_clear (self : AcceptList) : AcceptList :=
  mkAcceptList (al_entries self) 0.

Definition AcceptList_contains (self : AcceptList) (addr : list Z)
    (addr_type : AddrType) : outcome bool :=
  let! es := slice_to (al_entries self) (al_len self) in
  Ret (existsb (fun '(t, a) => bool_decide (t = addr_type) && bool_decide (a = addr)) es).

(** Returns the list and the [bool] of [add]; [||] does not evaluate
    [contains] on a full list. *)
Definition AcceptList_add (self : AcceptList) (addr : list Z) (addr_type : AddrType)
    : outcome (AcceptList * bool) :=
  if (ACCEPT_LIST_MAX <=? al_len self)%nat then Ret (self, false) else
  let! present := AcceptList_contains self addr addr_type in
  if present then Ret (self, false) else
  let! es := set_idx (al_entries self) (al_len self) (addr_type, addr) in
  Ret (mkAcceptList es (S (al_len self)), true).

Definition AcceptList_len (self : AcceptList) : nat := al_len self.
Definition AcceptList_is_empty (self : AcceptList) : bool := (al_len self =? 0)%nat.
Definition AcceptList_entries (self : AcceptList)
    : outcome (list (AddrType * list Z)) :=
  slice_to (al_entries self) (al_len self).

(** ** Specification: a set of at most eight pairs, in insertion order *)

Definition al_view (self : AcceptList) : list (AddrType * list Z) :=
  take (al_len self) (al_entries self).

Definition al_wf (self : AcceptList) : Prop :=
  length (al_entries self) = ACCEPT_LIST_MAX /\
  (al_len self <= ACCEPT_LIST_MAX)%nat /\ NoDup (al_view self).

(** The specification's operations on the view. *)
Definition al_spec_add (v : list (AddrType * list Z)) (e : AddrType * list Z)
    : list (AddrType * list Z) * bool :=
  if (8 <=? length v)%nat || bool_decide (e ∈ v) then (v, false)
  else (v ++ [e], true).

(** ** Lemmas *)

Lemma BtAddr_parse_Ret addr : length addr = 6%nat -> bytes addr ->
  exists b, BtAddr_parse addr = Ret b /\ ba_addr b = addr /\
    is_random (ba_addr_type b) = true /\ BtAddr_tx_add_bit b = true.
Proof.
  intros Hl Hb. unfold BtAddr_parse.
  destruct (idx_lt addr 5 ltac:(lia)) as [x ->]. rewrite obind_Ret.
  eexists. split; [done|]. unfold BtAddr_tx_add_bit. cbn [ba_addr ba_addr_type].
  by repeat case_match.
Qed.

Lemma tx_add_bit_is_random b : BtAddr_tx_add_bit b = is_random (ba_addr_type b).
Proof. done. Qed.

Lemma al_view_length l : al_wf l -> length (al_view l) = al_len l.
Proof. intros (Hl & Hn & _). unfold al_view. len. Qed.

Lemma AcceptList_new_wf : al_wf AcceptList_new /\ al_view AcceptList_new = [].
Proof. split; [|done]. split; [done|]. split; [cbn; lia | constructor]. Qed.

Lemma AcceptList_clear_spec l : al_wf l ->
  al_wf (AcceptList_clear l) /\ al_view (AcceptList_clear l) = [].
Proof.
  intros (Hl & Hn & _). split; [|done]. split; [done|].
  split; [cbn; lia | constructor].
Qed.

Lemma AcceptList_contains_spec l addr t : al_wf l ->
  AcceptList_contains l addr t = Ret (bool_decide ((t, addr) ∈ al_view l)).
Proof.
  intros (Hl & Hn & _). unfold AcceptList_contains.
  rewrite slice_to_Ret by lia. rewrite obind_Ret. f_equal.
  fold (al_view l). generalize (al_view l). intros v.
  induction v as [|[t' a'] v IH]; [done|]. cbn [existsb]. rewrite IH.
  rewrite <- bool_decide_and, <- bool_decide_or. apply bool_decide_ext.
  rewrite elem_of_cons. split; [intros [[-> ->]|?]; auto|].
  intros [[= -> ->]|?]; auto.
Qed.

Lemma AcceptList_add_spec l addr t : al_wf l ->
  exists l' b, AcceptList_add l addr t = Ret (l', b) /\ al_wf l' /\
    (al_view l', b) = al_spec_add (al_view l) (t, addr).
Proof.
  intros Hwf. pose proof Hwf as (Hl & Hn & Hd).
  unfold AcceptList_add, al_spec_add. rewrite al_view_length by done.
  unfold ACCEPT_LIST_MAX in *.
  destruct (Nat.leb_spec 8 (al_len l)); cbn [orb]; [by do 2 eexists|].
  rewrite AcceptList_contains_spec, obind_Ret by done.
  destruct (bool_decide_reflect ((t, addr) ∈ al_view l)) as [Hin|Hin];
    [by do 2 eexists|].
  rewrite set_idx_Ret, obind_Ret by lia. do 2 eexists. split; [done|].
  assert (Hv : al_view (mkAcceptList (<[al_len l:=(t, addr)]> (al_entries l))
    (S (al_len l))) = al_view l ++ [(t, addr)]).
  { unfold al_view. cbn [al_len al_entries].
    rewrite (take_S_r _ _ (t, addr)) by (apply list_lookup_insert_eq; lia).
    by rewrite take_insert_ge by lia. }
  rewrite Hv. split; [|done]. split; [cbn [al_entries]; by rewrite length_insert|].
  split; [cbn [al_len]; unfold ACCEPT_LIST_MAX; lia|]. rewrite Hv.
  apply NoDup_app. split; [done|]. split.
  - intros x Hx ->%list_elem_of_singleton. done.
  - apply NoDup_singleton.
Qed.

(** ** Properties *)

(** The accept list is a bounded set: on a well-formed list [contains]
    decides membership, and [add] returns [false] and changes nothing
    exactly when the list has eight entries or already has the pair,
    otherwise appends the pair; the result is well formed, without
    duplicates, and nothing panics. *)
Lemma accept_list_refines_set l addr t : al_wf l ->
  AcceptList_contains l addr t = Ret (bool_decide ((t, addr) ∈ al_view l)) /\
  (exists l' b, AcceptList_add l addr t = Ret (l', b) /\ al_wf l' /\
    (al_view l', b) = al_spec_add (al_view l) (t, addr) /\
    (b = true -> AcceptList_contains l' addr t = Ret true)) /\
  al_wf (AcceptList_clear l) /\ al_view (AcceptList_clear l) = [].
Proof.
  intros Hwf. split; [by apply AcceptList_contains_spec|].
  split; [|by apply AcceptList_clear_spec].
  destruct (AcceptList_add_spec l addr t Hwf) as (l' & b & E & Hwf' & Hs).
  exists l', b. split; [done|]. split; [done|]. split; [done|].
  intros ->. rewrite AcceptList_contains_spec by done. f_equal.
  apply bool_decide_eq_true. revert Hs. unfold al_spec_add. case_match; [done|].
  intros [= ->]. apply elem_of_app. right. by apply list_elem_of_singleton.
Qed.

