(* ===== verification/Ad.v ===== *)
(** Advertising data structures ([src/gap/ad.rs]). *)

From stdpp Require Import base numbers list.
From S2P Require Import Prelude Errors.

(** ** The source's definitions *)

Definition AD_TYPE_FLAGS : Z := 0x01.
Definition AD_TYPE_UUID16_INCOMPLETE : Z := 0x02.
Definition AD_TYPE_UUID16_COMPLETE : Z := 0x03.
Definition AD_TYPE_UUID32_INCOMPLETE : Z := 0x04.
Definition AD_TYPE_UUID32_COMPLETE : Z := 0x05.
Definition AD_TYPE_UUID128_INCOMPLETE : Z := 0x06.
Definition AD_TYPE_UUID128_COMPLETE : Z := 0x07.
Definition AD_TYPE_SHORT_NAME : Z := 0x08.
Definition AD_TYPE_COMPLETE_NAME : Z := 0x09.
Definition AD_TYPE_TX_POWER_LEVEL : Z := 0x0A.
Definition AD_TYPE_APPEARANCE : Z := 0x19.
Definition AD_TYPE_MANUFACTURER_SPECIFIC : Z := 0xFF.

Definition AD_FLAG_LE_LIMITED_DISCOVERABLE : Z := 0x01.
Definition AD_FLAG_LE_GENERAL_DISCOVERABLE : Z := 0x02.
Definition AD_FLAG_BR_EDR_NOT_SUPPORTED : Z := 0x04.
Definition AD_FLAG_LE_BR_EDR_CONTROLLER : Z := 0x08.
Definition AD_FLAG_LE_BR_EDR_HOST : Z := 0x10.
Definition LEGACY_AD_DATA_MAX_LEN : nat := 31.

Record AdEntry := mkAdEntry { ad_type : Z; ad_data : list Z }.

Record AdIter := mkAdIter { it_buf : list Z; it_pos : nat }.

Definition AdIter_new (buf : list Z) : AdIter := mkAdIter buf 0.

(** [Iterator::next]: the iterator afterwards and the item. *)
Definition AdIter_next (self : AdIter)
    : outcome (AdIter * option (result AdEntry Error)) :=
  let buf := it_buf self in
  let pos := it_pos self in
  if (length buf <=? pos)%nat then Ret (self, None) else
  let! l := idx buf pos in
  let len := Z.to_nat l in
  if (len =? 0)%nat then Ret (self, Some (Err InvalidAd)) else
  if (length buf <? pos + 1 + len)%nat then Ret (self, Some (Err InvalidAd)) else
  let! t := idx buf (pos + 1) in
  let! d := slice buf (pos + 2) (pos + 1 + len) in
  Ret (mkAdIter buf (pos + (1 + len)), Some (Ok (mkAdEntry t d))).

Definition iter (buf : list Z) : AdIter := AdIter_new buf.

(** The [for] loop of [build], from position [pos]; returns the buffer and
    the number of bytes written. *)
Fixpoint build_loop (entries : list AdEntry) (out : list Z) (pos : nat)
    : outcome (result (list Z * nat) Error) :=
  match entries with
  | [] => Ret (Ok (out, pos))
  | entry :: entries =>
      let len := (length (ad_data entry) + 1)%nat in
      if (255 - 1 <? length (ad_data entry))%nat then Ret (Err InvalidLength) else
      if (length out <? pos + 1 + len)%nat then Ret (Err BufferTooSmall) else
      let! out := set_idx out pos (u8 (Z.of_nat len)) in
      let! out := set_idx out (pos + 1) (ad_type entry) in
      let! out := copy_at out (pos + 2) (pos + 1 + len) (ad_data entry) in
      build_loop entries out (pos + (1 + len))
  end.

Definition build (entries : list AdEntry) (out : list Z)
    : outcome (result (list Z * nat) Error) :=
  build_loop entries out 0.

Definition ad_flags_value (general_discoverable limited_discoverable
    br_edr_not_supported : bool) : Z :=
  let value := 0 in
  let value := if limited_discoverable
    then value .| AD_FLAG_LE_LIMITED_DISCOVERABLE else value in
  let value := if general_discoverable
    then value .| AD_FLAG_LE_GENERAL_DISCOVERABLE else value in
  if br_edr_not_supported
    then value .| AD_FLAG_BR_EDR_NOT_SUPPORTED else value.

(** ** Specification *)

(** The bytes of one structure, and of a list of them. *)
Definition ad_encode1 (e : AdEntry) : list Z :=
  Z.of_nat (length (ad_data e) + 1) :: ad_type e :: ad_data e.

Definition ad_encode (es : list AdEntry) : list Z := es ≫= ad_encode1.

Definition wf_entry (e : AdEntry) : Prop :=
  is_u8 (ad_type e) /\ bytes (ad_data e) /\ (length (ad_data e) <= 254)%nat.

(** [n] calls of [next]: the final iterator and the items. *)
Fixpoint next_n (n : nat) (it : AdIter)
    : outcome (AdIter * list (option (result AdEntry Error))) :=
  match n with
  | O => Ret (it, [])
  | S n =>
      let! (it, x) := AdIter_next it in
      let! (it, xs) := next_n n it in
      Ret (it, x :: xs)
  end.

(** ** Lemmas on the iterator *)

Lemma ad_encode_cons e es : ad_encode (e :: es) = ad_encode1 e ++ ad_encode es.
Proof. done. Qed.

Lemma ad_encode1_length e : length (ad_encode1 e) = (length (ad_data e) + 2)%nat.
Proof. cbn. lia. Qed.

#[export] Hint Rewrite ad_encode1_length : list_length.

(** Reading one structure that is there. *)
Lemma AdIter_next_entry pre e post :
  AdIter_next (mkAdIter (pre ++ ad_encode1 e ++ post) (length pre)) =
  Ret (mkAdIter (pre ++ ad_encode1 e ++ post)
         (length (pre ++ ad_encode1 e)), Some (Ok e)).
Proof.
  unfold AdIter_next. cbn [it_buf it_pos].
  rewrite (proj2 (Nat.leb_gt _ _)) by len.
  erewrite idx_Some by (rewrite lookup_app_r, Nat.sub_diag by done; reflexivity).
  rewrite obind_Ret, Nat2Z.id.
  rewrite (proj2 (Nat.eqb_neq _ _)), (proj2 (Nat.ltb_ge _ _)) by len.
  erewrite idx_Some.
  2:{ rewrite lookup_app_r by lia. rewrite lookup_app_l by len.
      replace (length pre + 1 - length pre)%nat with 1%nat by lia. reflexivity. }
  rewrite obind_Ret, slice_Ret by len. rewrite obind_Ret.
  do 4 f_equal; [len|].
  destruct e as [t d]. f_equal. cbn [ad_data].
  rewrite drop_app_ge by lia.
  replace (length pre + 2 - length pre)%nat with 2%nat by lia.
  cbn [ad_encode1 ad_data ad_type app drop].
  replace (length pre + 1 + (length d + 1) - (length pre + 2))%nat
    with (length d) by lia. apply take_app_length.
Qed.

Lemma AdIter_next_end buf pos : (length buf <= pos)%nat ->
  AdIter_next (mkAdIter buf pos) = Ret (mkAdIter buf pos, None).
Proof.
  intros H. unfold AdIter_next. cbn [it_buf it_pos].
  by rewrite (proj2 (Nat.leb_le _ _) H).
Qed.

(** One call on any position of any buffer: the end, one encoded structure,
    or an error that leaves the iterator where it is. *)
Lemma AdIter_next_cases pre post : bytes post ->
  let it := mkAdIter (pre ++ post) (length pre) in
  post = [] /\ AdIter_next it = Ret (it, None) \/
  (exists e post', post = ad_encode1 e ++ post' /\ wf_entry e) \/
  AdIter_next it = Ret (it, Some (Err InvalidAd)).
Proof.
  intros Hb it. destruct post as [|l post].
  { left. split; [done|]. apply AdIter_next_end. len. }
  right. inversion Hb as [|? ? Hl Hp]; subst. ranges.
  set (n := Z.to_nat l). destruct (decide (n = 0)%nat) as [Hn|Hn].
  { right. unfold AdIter_next, it. cbn [it_buf it_pos].
    rewrite (proj2 (Nat.leb_gt _ _)) by len.
    erewrite idx_Some by (rewrite lookup_app_r, Nat.sub_diag by done; reflexivity).
    rewrite obind_Ret. fold n. by rewrite Hn. }
  destruct (decide (length post < n)%nat) as [Hs|Hs].
  { right. unfold AdIter_next, it. cbn [it_buf it_pos].
    rewrite (proj2 (Nat.leb_gt _ _)) by len.
    erewrite idx_Some by (rewrite lookup_app_r, Nat.sub_diag by done; reflexivity).
    rewrite obind_Ret. fold n. rewrite (proj2 (Nat.eqb_neq _ _)) by done.
    by rewrite (proj2 (Nat.ltb_lt _ _)) by len. }
  left. destruct post as [|t post]; [cbn in *; lia|].
  exists (mkAdEntry t (take (n - 1) post)), (drop (n - 1) post).
  inversion Hp as [|? ? Ht Hq]; subst. cbn [length] in Hs. split.
  - unfold ad_encode1. cbn [ad_type ad_data]. rewrite length_take.
    replace (Z.of_nat (min (n - 1) (length post) + 1)) with l by lia.
    cbn [app]. by rewrite take_drop.
  - split; [done|]. cbn [ad_data]. split; [by apply bytes_take | len].
Qed.

Lemma next_n_S n it it' x it'' xs :
  AdIter_next it = Ret (it', x) -> next_n n it' = Ret (it'', xs) ->
  next_n (S n) it = Ret (it'', x :: xs).
Proof. intros H1 H2. cbn [next_n]. by rewrite H1, obind_Ret, H2, obind_Ret. Qed.

Lemma next_n_stuck n it x :
  AdIter_next it = Ret (it, x) -> next_n n it = Ret (it, replicate n x).
Proof.
  intros H. induction n as [|n IH]; [done|]. by eapply next_n_S.
Qed.

(** Reading a run of structures. *)
Lemma next_n_entries es pre post n it xs :
  next_n n (mkAdIter (pre ++ ad_encode es ++ post) (length (pre ++ ad_encode es)))
    = Ret (it, xs) ->
  next_n (length es + n) (mkAdIter (pre ++ ad_encode es ++ post) (length pre))
    = Ret (it, (Some ∘ Ok <$> es) ++ xs).
Proof.
  revert pre. induction es as [|e es IH]; intros pre H.
  { cbn [ad_encode mbind list_bind] in H. by rewrite app_nil_r in H. }
  rewrite ad_encode_cons in *. cbn [length Nat.add fmap list_fmap app].
  rewrite <- (app_assoc _ _ post) in *. eapply next_n_S; [apply AdIter_next_entry|].
  specialize (IH (pre ++ ad_encode1 e)).
  rewrite <- (app_assoc pre (ad_encode1 e) (ad_encode es ++ post)) in IH.
  rewrite <- (app_assoc pre (ad_encode1 e) (ad_encode es)) in IH. by apply IH.
Qed.

(** ** Lemmas on [build] *)

(** One step of the loop. *)
Lemma build_loop_step e es pre rest :
  wf_entry e ->
  build_loop (e :: es) (pre ++ rest) (length pre) =
  if decide (length rest < length (ad_encode1 e))%nat
  then Ret (Err BufferTooSmall)
  else build_loop es ((pre ++ ad_encode1 e) ++ drop (length (ad_encode1 e)) rest)
         (length (pre ++ ad_encode1 e)).
Proof.
  intros (Ht & Hd & Hl). rewrite ad_encode1_length. cbn [build_loop].
  rewrite (proj2 (Nat.ltb_ge _ _)) by (cbn; lia).
  case_decide as Hs; [by rewrite (proj2 (Nat.ltb_lt _ _)) by len|].
  rewrite (proj2 (Nat.ltb_ge _ _)) by len.
  destruct rest as [|r0 [|r1 rest]]; cbn [length] in *; [lia..|].
  rewrite set_idx_Ret by len. rewrite obind_Ret.
  rewrite set_idx_Ret by len. rewrite obind_Ret.
  rewrite u8_id by (ranges; lia).
  rewrite (insert_app_r_alt pre _ (length pre)), Nat.sub_diag by lia.
  cbn [insert list_insert].
  rewrite (insert_app_r_alt pre _ (length pre + 1)) by lia.
  replace (length pre + 1 - length pre)%nat with 1%nat by lia.
  cbn [insert list_insert].
  rewrite copy_at_Ret by len. rewrite obind_Ret.
  rewrite take_app_ge, drop_app_ge by lia.
  replace (length pre + 2 - length pre)%nat with 2%nat by lia.
  replace (length pre + 1 + (length (ad_data e) + 1) - length pre)%nat
    with (2 + length (ad_data e))%nat by lia. cbn [take drop Nat.add].
  replace (length (ad_data e) + 2)%nat with (2 + length (ad_data e))%nat by lia.
  f_equal; [|len]. unfold ad_encode1. rewrite take_0, <- !app_assoc. done.
Qed.

(** The loop writes the encoding exactly when it fits. *)
Lemma build_loop_spec es pre rest :
  Forall wf_entry es ->
  build_loop es (pre ++ rest) (length pre) =
  if decide (length rest < length (ad_encode es))%nat
  then Ret (Err BufferTooSmall)
  else Ret (Ok (pre ++ ad_encode es ++ drop (length (ad_encode es)) rest,
                length (pre ++ ad_encode es))).
Proof.
  intros Hes. revert pre rest. induction Hes as [|e es He Hes IH]; intros pre rest.
  { cbn [ad_encode mbind list_bind build_loop length drop app].
    rewrite decide_False by lia. by rewrite app_nil_r. }
  rewrite build_loop_step, ad_encode_cons, (length_app (ad_encode1 e)) by done.
  case_decide; [by rewrite decide_True by lia|].
  rewrite IH, length_drop.
  destruct (decide (length rest < length (ad_encode1 e) + length (ad_encode es))%nat);
    [by rewrite decide_True by lia|]. rewrite decide_False by lia.
  rewrite drop_drop, <- !app_assoc. do 3 f_equal.
Qed.

Lemma build_spec es out : Forall wf_entry es ->
  build es out =
  if decide (length out < length (ad_encode es))%nat
  then Ret (Err BufferTooSmall)
  else Ret (Ok (ad_encode es ++ drop (length (ad_encode es)) out,
                length (ad_encode es))).
Proof. intros Hes. exact (build_loop_spec es [] out Hes). Qed.

(** Decoding any buffer: a run of structures, then the end or an error that
    leaves the iterator where it is. *)
Lemma scan pre buf : bytes buf ->
  exists es rest x, buf = ad_encode es ++ rest /\ Forall wf_entry es /\
    let it := mkAdIter (pre ++ buf) (length (pre ++ ad_encode es)) in
    AdIter_next it = Ret (it, x) /\
    (x = None /\ rest = [] \/ x = Some (Err InvalidAd) /\ rest <> []).
Proof.
  remember (length buf) as n eqn:Hn. revert pre buf Hn.
  induction (Nat.lt_wf_0 n) as [n _ IH]. intros pre buf -> Hb.
  destruct (AdIter_next_cases pre buf Hb) as [[-> E]|[(e & post & -> & He)|E]].
  - exists [], [], None. cbn [ad_encode mbind list_bind app] in *.
    rewrite app_nil_r in *. split; [done|]. split; [constructor|].
    split; [exact E | by left].
  - apply bytes_app in Hb as [_ Hp].
    destruct (IH (length post) ltac:(len) (pre ++ ad_encode1 e) post eq_refl Hp)
      as (es & rest & x & -> & Hes & Hx).
    exists (e :: es), rest, x. rewrite ad_encode_cons, <- !app_assoc in *.
    split; [done|]. split; [by constructor|]. exact Hx.
  - destruct (decide (buf = [])) as [->|Hne].
    { rewrite AdIter_next_end in E by len. discriminate E. }
    exists [], buf, (Some (Err InvalidAd)). cbn [ad_encode mbind list_bind app].
    rewrite app_nil_r. split; [done|]. split; [constructor|].
    split; [exact E | by right].
Qed.

(** ** Properties *)

(** C36. Building and iterating round-trip: for structures of bytes with at
    most 254 bytes of data, [build] returns [BufferTooSmall] exactly when
    the encoding does not fit; otherwise it writes the encoding, returns its
    length and leaves the rest of the buffer alone, and iterating the written
    prefix yields the structures in order and then the end. *)
Theorem ad_build_iter_roundtrip es out : Forall wf_entry es ->
  if decide (length out < length (ad_encode es))%nat
  then build es out = Ret (Err BufferTooSmall)
  else exists buf n it, build es out = Ret (Ok (buf, n)) /\
    length buf = length out /\ drop n buf = drop n out /\
    next_n (length es + 1) (iter (take n buf)) =
      Ret (it, (Some ∘ Ok <$> es) ++ [None]).
Proof.
  intros Hes. rewrite build_spec by done. case_decide; [done|].
  do 3 eexists. split; [done|]. split; [len|].
  split; [by rewrite drop_app_length|]. rewrite take_app_length.
  pose proof (next_n_entries es [] [] 1) as Hn.
  cbn [app length] in Hn. rewrite app_nil_r in Hn. apply Hn.
  eapply next_n_S; [by apply AdIter_next_end | reflexivity].
Qed.

Lemma ad_build_iter_roundtrip_witness :
  exists buf n it,
    build [mkAdEntry 1 [6]; mkAdEntry 9 [0x68; 0x69]] (replicate 31 0) = Ret (Ok (buf, n))
    /\ length buf = 31%nat /\ drop n buf = drop n (replicate 31 0) /\
    next_n 3 (iter (take n buf)) =
      Ret (it, [Some (Ok (mkAdEntry 1 [6])); Some (Ok (mkAdEntry 9 [0x68; 0x69])); None]).
Proof.
  refine (ad_build_iter_roundtrip
    [mkAdEntry 1 [6]; mkAdEntry 9 [0x68; 0x69]] (replicate 31 0) _).
  repeat constructor; cbn; lia.
Defined.

(** Iterating arbitrary bytes never panics and decodes a maximal run of
    structures: the buffer is their encoding and a rest, the first calls of
    [next] give the structures, and every later call gives [None] when the
    rest is empty and the error [InvalidAd] when it is not. The error does not
    advance the iterator, so a loop that skips errors never reaches the end. *)
Lemma ad_iter_decodes buf : bytes buf ->
  exists es rest x, buf = ad_encode es ++ rest /\ Forall wf_entry es /\
    (x = None /\ rest = [] \/ x = Some (Err InvalidAd) /\ rest <> []) /\
    forall n, exists it,
      next_n (length es + n) (iter buf) = Ret (it, (Some ∘ Ok <$> es) ++ replicate n x).
Proof.
  intros Hb. destruct (scan [] buf Hb) as (es & rest & x & -> & Hes & Hx & Hc).
  exists es, rest, x. split; [done|]. split; [done|]. split; [done|].
  intros n. eexists. apply (next_n_entries es [] rest n).
  by apply next_n_stuck.
Qed.

(** On a malformed structure [next] returns errors for ever. *)
Example ad_iter_error_repeats n :
  next_n n (iter [0]) = Ret (iter [0], replicate n (Some (Err InvalidAd))).
Proof. by apply next_n_stuck. Qed.
