(* ===== verification/Pdu.v ===== *)
(** Link-layer packet formats ([src/ll/pdu.rs]): advertising PDUs and their
    header, data PDUs, the periodic-advertising and auxiliary-pointer fields,
    and the CONNECT_REQ parameters. *)

From stdpp Require Import base numbers list.
From S2P Require Import Prelude Errors.

(** ** Constants *)

Definition PDU_ADV_IND : Z := 0.
Definition PDU_ADV_DIRECT_IND : Z := 1.
Definition PDU_ADV_NONCONN_IND : Z := 2.
Definition PDU_SCAN_REQ : Z := 3.
Definition PDU_SCAN_RSP : Z := 4.
Definition PDU_CONNECT_REQ : Z := 5.
Definition PDU_ADV_SCAN_IND : Z := 6.
Definition PDU_ADV_EXT_IND : Z := 7.

Definition LLID_DATA_START : Z := 1.
Definition LLID_DATA_CONTINUATION_OR_COMPLETE : Z := 0.
Definition LLID_DATA_COMPLETE : Z := 3.
Definition LLID_CONTROL : Z := 2.

Definition EXT_AD_PERIODIC : Z := 0x20.
Definition CONNECT_LL_DATA_LEN : nat := 22.

(** A bit test [x & mask != 0]. *)
Definition flag (x mask : Z) : bool := negb (x .& mask =? 0).

(** [try_into] of a slice to an array of [n] bytes. *)
Definition try_into (n : nat) (l : list Z) : result (list Z) Error :=
  if (length l =? n)%nat then Ok l else Err InvalidLength.

(** ** The advertising header *)

Record AdvHdr := mkAdvHdr {
  ah_pdu_type : Z;
  ah_ch_sel : bool;
  ah_tx_add : bool;
  ah_rx_add : bool;
  ah_len : Z
}.

Definition AdvHdr_encode (self : AdvHdr) : list Z :=
  [(ah_pdu_type self .& 0x0F) .| u8 (bool_u8 (ah_ch_sel self) .<< 6)
     .| u8 (bool_u8 (ah_tx_add self) .<< 7);
   bool_u8 (ah_rx_add self) .| u8 ((ah_len self .& 0x3F) .<< 1)].

(** The argument is [[bytes[0], bytes[1]]]. *)
Definition AdvHdr_decode (b0 b1 : Z) : result AdvHdr Error :=
  let pdu_type := b0 .& 0x0F in
  if 7 <? pdu_type then Err InvalidPdu else
  Ok (mkAdvHdr pdu_type (flag b0 0x40) (flag b0 0x80) (flag b1 0x01)
        ((b1 .>> 1) .& 0x3F)).

(** ** The periodic-advertising field *)

Record PeriodicAdvInfo := mkPeriodicAdvInfo {
  pi_adi : Z * Z;
  pi_interval : Z;   (* u16 *)
  pi_adva_type : Z
}.

Definition PeriodicAdvInfo_encode (self : PeriodicAdvInfo) : list Z :=
  [fst (pi_adi self); snd (pi_adi self); u8 (pi_interval self .& 0xFF);
   u8 (pi_interval self .>> 8); pi_adva_type self].

Definition PeriodicAdvInfo_decode (bs : list Z) : outcome (option PeriodicAdvInfo) :=
  if (length bs <? 5)%nat then Ret None else
  let! b0 := idx bs 0 in
  let! b1 := idx bs 1 in
  let! b2 := idx bs 2 in
  let! b3 := idx bs 3 in
  let! b4 := idx bs 4 in
  Ret (Some (mkPeriodicAdvInfo (b0, b1) (u16_from_le b2 b3) b4)).

(** ** The auxiliary pointer *)

Record AuxPtr := mkAuxPtr {
  ap_channel : Z;
  ap_offset : Z;   (* u16 *)
  ap_phy : Z
}.

Definition AuxPtr_decode (b0 b1 b2 : Z) : AuxPtr :=
  mkAuxPtr (b0 .& 0x3F) ((b0 .>> 6) .| (b1 .<< 2)) (b2 .& 0x03).

Definition AuxPtr_encode (self : AuxPtr) : list Z :=
  [(ap_channel self .& 0x3F) .| u8 (u8 (ap_offset self .& 0x03) .<< 6);
   u8 ((ap_offset self .>> 2) .& 0xFF);
   ap_phy self .& 0x03].

(** ** Advertising PDUs *)

Inductive AdvPdu : Type :=
| AdvInd (adv_addr data : list Z)
| AdvDirectInd (adv_addr init_addr : list Z)
| AdvNonconnInd (adv_addr data : list Z)
| ScanReq (scan_addr adv_addr : list Z)
| ScanRsp (adv_addr data : list Z)
| ConnectReq (init_addr adv_addr ll_data : list Z)
| AdvScanInd (adv_addr data : list Z)
| AdvExtInd (adv_addr : list Z) (adv_mode : Z) (adi : Z * Z) (aux_ptr : AuxPtr)
| AuxAdvExtInd (adv_addr : list Z) (adi : Z * Z) (ext_type : Z) (data : list Z)
| AuxAdvExtIndWithEh (adv_addr : list Z) (adi : Z * Z) (ehs data : list Z)
| PeriodicAdv (adv_mode : Z) (adi : Z * Z).

Definition adi_bytes (adi : Z * Z) : list Z := [fst adi; snd adi].

Definition pdu_type (self : AdvPdu) : Z :=
  match self with
  | AdvInd _ _ => PDU_ADV_IND
  | AdvDirectInd _ _ => PDU_ADV_DIRECT_IND
  | AdvNonconnInd _ _ => PDU_ADV_NONCONN_IND
  | ScanReq _ _ => PDU_SCAN_REQ
  | ScanRsp _ _ => PDU_SCAN_RSP
  | ConnectReq _ _ _ => PDU_CONNECT_REQ
  | AdvScanInd _ _ => PDU_ADV_SCAN_IND
  | AdvExtInd _ _ _ _ => PDU_ADV_EXT_IND
  | AuxAdvExtInd _ _ _ _ => PDU_ADV_EXT_IND
  | AuxAdvExtIndWithEh _ _ _ _ => PDU_ADV_EXT_IND
  | PeriodicAdv _ _ => PDU_ADV_EXT_IND
  end.

Definition split6 (payload : list Z) : outcome (result (list Z * list Z) Error) :=
  if (length payload <? 6)%nat then Ret (Err InvalidLength) else
  let! h := slice_to payload 6 in
  let? a := Ret (try_into 6 h) in
  let! r := slice_from payload 6 in
  Ret (Ok (a, r)).

(** The [PDU_ADV_EXT_IND] arm of [decode]. *)
Definition decode_ext (payload : list Z) : outcome (result AdvPdu Error) :=
  if (length payload =? 12)%nat then
    let! h := slice_to payload 6 in
    let? addr := Ret (try_into 6 h) in
    let! mode := idx payload 6 in
    let! a0 := idx payload 7 in
    let! a1 := idx payload 8 in
    let! x := slice payload 9 12 in
    let? aux := Ret (try_into 3 x) in
    let! x0 := idx aux 0 in
    let! x1 := idx aux 1 in
    let! x2 := idx aux 2 in
    Ret (Ok (AdvExtInd addr mode (a0, a1) (AuxPtr_decode x0 x1 x2)))
  else if (10 <=? length payload)%nat then
    let! h := slice_to payload 6 in
    let? addr := Ret (try_into 6 h) in
    let! a0 := idx payload 6 in
    let! a1 := idx payload 7 in
    let! el := idx payload 8 in
    let ehs_end := (9 + Z.to_nat el)%nat in
    if (ehs_end <=? length payload)%nat then
      let! ext_type := idx payload 9 in
      let! data := slice_from payload ehs_end in
      Ret (Ok (AuxAdvExtInd addr (a0, a1) ext_type data))
    else Ret (Err InvalidLength)
  else if (length payload =? 3)%nat then
    let! m := idx payload 0 in
    let! a0 := idx payload 1 in
    let! a1 := idx payload 2 in
    Ret (Ok (PeriodicAdv m (a0, a1)))
  else Ret (Err InvalidLength).

(** The [match] on the PDU type. *)
Definition decode_payload (t : Z) (payload : list Z) : outcome (result AdvPdu Error) :=
  if t =? PDU_ADV_IND then
    let? (addr, data) := split6 payload in
    Ret (Ok (AdvInd addr data))
  else if t =? PDU_ADV_DIRECT_IND then
    let? (a, b) := split6 payload in
    if negb (length b =? 6)%nat then Ret (Err InvalidLength) else
    let? b := Ret (try_into 6 b) in
    Ret (Ok (AdvDirectInd a b))
  else if t =? PDU_ADV_NONCONN_IND then
    let? (addr, data) := split6 payload in
    Ret (Ok (AdvNonconnInd addr data))
  else if t =? PDU_SCAN_REQ then
    let? (a, b) := split6 payload in
    if negb (length b =? 6)%nat then Ret (Err InvalidLength) else
    let? b := Ret (try_into 6 b) in
    Ret (Ok (ScanReq a b))
  else if t =? PDU_SCAN_RSP then
    let? (addr, data) := split6 payload in
    Ret (Ok (ScanRsp addr data))
  else if t =? PDU_CONNECT_REQ then
    let? (a, b) := split6 payload in
    if negb (length b =? 28)%nat then Ret (Err InvalidLength) else
    let! b6 := slice_to b 6 in
    let? adv_addr := Ret (try_into 6 b6) in
    let! ll_data := slice_from b 6 in
    Ret (Ok (ConnectReq a adv_addr ll_data))
  else if t =? PDU_ADV_SCAN_IND then
    let? (addr, data) := split6 payload in
    Ret (Ok (AdvScanInd addr data))
  else if t =? PDU_ADV_EXT_IND then decode_ext payload
  else Ret (Err InvalidPdu).

Definition AdvPdu_decode (bs : list Z) : outcome (result AdvPdu Error) :=
  if (length bs <? 2)%nat then Ret (Err InvalidPdu) else
  let! b0 := idx bs 0 in
  let! b1 := idx bs 1 in
  let? header := Ret (AdvHdr_decode b0 b1) in
  let! payload := slice_from bs 2 in
  if negb (Z.of_nat (length payload) =? ah_len header) then Ret (Err InvalidLength)
  else decode_payload (ah_pdu_type header) payload.

(** [encode_with]: the closure gets the payload part of [out] and returns it
    written; the result is the buffer and the number of bytes. *)
Definition encode_with (out : list Z) (pdu_type : Z) (tx_add rx_add : bool)
    (payload_len : nat) (write_payload : list Z -> outcome (list Z))
    : outcome (result (list Z * nat) Error) :=
  if (0x3F <? payload_len)%nat then Ret (Err InvalidLength) else
  let total := (2 + payload_len)%nat in
  if (length out <? total)%nat then Ret (Err BufferTooSmall) else
  let header := mkAdvHdr pdu_type false tx_add rx_add (u8 (Z.of_nat payload_len)) in
  let! out := copy_at out 0 2 (AdvHdr_encode header) in
  let! o := slice out 2 total in
  let! o := write_payload o in
  let! out := copy_at out 2 total o in
  Ret (Ok (out, total)).

(** [o[..6] = adv_addr; o[6..] = data]. *)
Definition write_addr_data (adv_addr data o : list Z) : outcome (list Z) :=
  let! o := copy_at o 0 6 adv_addr in
  copy_at o 6 (length o) data.

(** [o[..6] = a; o[6..12] = b]. *)
Definition write_addr_addr (a b o : list Z) : outcome (list Z) :=
  let! o := copy_at o 0 6 a in
  copy_at o 6 12 b.

(** The closure of the [AuxAdvExtIndWithEh] arm. *)
Definition write_aux_with_eh (adv_addr : list Z) (adi : Z * Z) (ehs data o : list Z)
    : outcome (list Z) :=
  let! o := copy_at o 0 6 adv_addr in
  let! o := copy_at o 6 8 (adi_bytes adi) in
  let! e0 := idx ehs 0 in
  let! o := set_idx o 8 e0 in
  let! data_start := sub_usize (9 + length ehs) 1 in
  let! es := slice_from ehs 1 in
  let! o := copy_at o 9 data_start es in
  copy_at o data_start (data_start + length data) data.

Definition encode_typed (self : AdvPdu) (out : list Z) (tx_add rx_add : bool)
    : outcome (result (list Z * nat) Error) :=
  if (length out <? 2)%nat then Ret (Err BufferTooSmall) else
  match self with
  | AdvInd adv_addr data =>
      encode_with out PDU_ADV_IND tx_add false (6 + length data)
        (write_addr_data adv_addr data)
  | AdvScanInd adv_addr data =>
      encode_with out PDU_ADV_SCAN_IND tx_add false (6 + length data)
        (write_addr_data adv_addr data)
  | AdvNonconnInd adv_addr data =>
      encode_with out PDU_ADV_NONCONN_IND false false (6 + length data)
        (write_addr_data adv_addr data)
  | ScanRsp adv_addr data =>
      encode_with out PDU_SCAN_RSP tx_add false (6 + length data)
        (write_addr_data adv_addr data)
  | AdvDirectInd adv_addr init_addr =>
      encode_with out PDU_ADV_DIRECT_IND tx_add false 12
        (write_addr_addr adv_addr init_addr)
  | ScanReq scan_addr adv_addr =>
      encode_with out PDU_SCAN_REQ tx_add rx_add 12
        (write_addr_addr scan_addr adv_addr)
  | ConnectReq init_addr adv_addr ll_data =>
      encode_with out PDU_CONNECT_REQ tx_add rx_add 34 (fun o =>
        let! o := write_addr_addr init_addr adv_addr o in
        copy_at o 12 34 ll_data)
  | AdvExtInd adv_addr adv_mode adi aux_ptr =>
      encode_with out PDU_ADV_EXT_IND tx_add false 12 (fun o =>
        let! o := copy_at o 0 6 adv_addr in
        let! o := set_idx o 6 adv_mode in
        let! o := copy_at o 7 9 (adi_bytes adi) in
        copy_at o 9 12 (AuxPtr_encode aux_ptr))
  | AuxAdvExtInd adv_addr adi ext_type data =>
      encode_with out PDU_ADV_EXT_IND tx_add false (10 + length data) (fun o =>
        let! o := copy_at o 0 6 adv_addr in
        let! o := copy_at o 6 8 (adi_bytes adi) in
        let! o := set_idx o 8 1 in
        let! o := set_idx o 9 ext_type in
        copy_at o 10 (length o) data)
  | AuxAdvExtIndWithEh adv_addr adi ehs data =>
      encode_with out PDU_ADV_EXT_IND tx_add false (8 + length ehs + length data)
        (write_aux_with_eh adv_addr adi ehs data)
  | PeriodicAdv adv_mode adi =>
      encode_with out PDU_ADV_EXT_IND tx_add false 3 (fun o =>
        let! o := set_idx o 0 adv_mode in
        copy_at o 1 3 (adi_bytes adi))
  end.

Definition AdvPdu_encode (self : AdvPdu) (out : list Z)
    : outcome (result (list Z * nat) Error) :=
  encode_typed self out false false.

(** ** Data PDUs *)

Record DataPdu := mkDataPdu {
  dp_llid : Z;
  dp_nesn : bool;
  dp_sn : bool;
  dp_md : bool;
  dp_payload : list Z
}.

Definition DataPdu_decode (bs : list Z) : outcome (result DataPdu Error) :=
  if (length bs <? 2)%nat then Ret (Err InvalidPdu) else
  let! b0 := idx bs 0 in
  let llid := b0 .& 3 in
  let nesn := flag b0 4 in
  let sn := flag b0 8 in
  let md := flag b0 16 in
  let! b1 := idx bs 1 in
  let len := b1 .& 0x3F in
  let! payload := slice_from bs 2 in
  if negb (Z.of_nat (length payload) =? len) then Ret (Err InvalidLength)
  else Ret (Ok (mkDataPdu llid nesn sn md payload)).

Definition DataPdu_encode (self : DataPdu) (out : list Z)
    : outcome (result (list Z * nat) Error) :=
  if (0x3F <? length (dp_payload self))%nat then Ret (Err InvalidLength) else
  let total := (2 + length (dp_payload self))%nat in
  if (length out <? total)%nat then Ret (Err BufferTooSmall) else
  let! out := set_idx out 0
    ((dp_llid self .& 3) .| u8 (bool_u8 (dp_nesn self) .<< 2)
       .| u8 (bool_u8 (dp_sn self) .<< 3) .| u8 (bool_u8 (dp_md self) .<< 4)) in
  let! out := set_idx out 1 (u8 (Z.of_nat (length (dp_payload self))) .& 0x3F) in
  let! out := copy_at out 2 total (dp_payload self) in
  Ret (Ok (out, total)).

(** ** CONNECT_REQ parameters *)

Record ConnectReqData := mkConnectReqData {
  cr_access_addr : Z;   (* u32 *)
  cr_crc_init : Z;      (* u32 *)
  cr_win_size : Z;
  cr_win_offset : Z;    (* u16 *)
  cr_interval : Z;      (* u16 *)
  cr_latency : Z;       (* u16 *)
  cr_timeout : Z;       (* u16 *)
  cr_channel_map : list Z;   (* [u8; 5] *)
  cr_hop : Z;
  cr_sca : Z
}.

(** [u16::from_le_bytes([l[i], l[i+1]])]. *)
Definition u16_at (l : list Z) (i : nat) : outcome Z :=
  let! a := idx l i in
  let! b := idx l (i + 1) in
  Ret (u16_from_le a b).

Definition ConnectReqData_decode (ll_data : list Z)
    : outcome (result ConnectReqData Error) :=
  if negb (length ll_data =? CONNECT_LL_DATA_LEN)%nat then Ret (Err InvalidLength) else
  let! l0 := idx ll_data 0 in
  let! l1 := idx ll_data 1 in
  let! l2 := idx ll_data 2 in
  let! l3 := idx ll_data 3 in
  let access_addr := u32_from_le l0 l1 l2 l3 in
  let! l4 := idx ll_data 4 in
  let! l5 := idx ll_data 5 in
  let! l6 := idx ll_data 6 in
  let crc_init := l4 .| (l5 .<< 8) .| (l6 .<< 16) in
  let! win_size := idx ll_data 7 in
  let! win_offset := u16_at ll_data 8 in
  let! interval := u16_at ll_data 10 in
  let! latency := u16_at ll_data 12 in
  let! timeout := u16_at ll_data 14 in
  let channel_map := replicate 5 0 in
  let! m := slice ll_data 16 21 in
  let! channel_map := copy_at channel_map 0 5 m in
  let! last := idx ll_data 21 in
  Ret (Ok (mkConnectReqData access_addr crc_init win_size win_offset interval
             latency timeout channel_map (last .& 0x1F) ((last .>> 5) .& 7))).

Definition ConnectReqData_encode (self : ConnectReqData) (out : list Z)
    : outcome (result (list Z * nat) Error) :=
  if (length out <? CONNECT_LL_DATA_LEN)%nat then Ret (Err BufferTooSmall) else
  let aa := u32_to_le (cr_access_addr self) in
  let! out := copy_at out 0 4 aa in
  let! out := set_idx out 4 (u8 (cr_crc_init self)) in
  let! out := set_idx out 5 (u8 (cr_crc_init self .>> 8)) in
  let! out := set_idx out 6 (u8 (cr_crc_init self .>> 16)) in
  let! out := set_idx out 7 (cr_win_size self) in
  let! out := copy_at out 8 10 (u16_to_le (cr_win_offset self)) in
  let! out := copy_at out 10 12 (u16_to_le (cr_interval self)) in
  let! out := copy_at out 12 14 (u16_to_le (cr_latency self)) in
  let! out := copy_at out 14 16 (u16_to_le (cr_timeout self)) in
  let! out := copy_at out 16 21 (cr_channel_map self) in
  let! out := set_idx out 21 ((cr_hop self .& 0x1F) .| u8 ((cr_sca self .& 7) .<< 5)) in
  Ret (Ok (out, CONNECT_LL_DATA_LEN)).

(** ** Specification *)

(** The payload bytes of a PDU, and the address bits its encoder keeps. *)
Definition payload_of (p : AdvPdu) : list Z :=
  match p with
  | AdvInd a d | AdvNonconnInd a d | ScanRsp a d | AdvScanInd a d => a ++ d
  | AdvDirectInd a b | ScanReq a b => a ++ b
  | ConnectReq a b l => a ++ b ++ l
  | AdvExtInd a m adi x => a ++ m :: adi_bytes adi ++ AuxPtr_encode x
  | AuxAdvExtInd a adi t d => a ++ adi_bytes adi ++ 1 :: t :: d
  | AuxAdvExtIndWithEh a adi ehs d => a ++ adi_bytes adi ++ ehs ++ d
  | PeriodicAdv m adi => m :: adi_bytes adi
  end.

Definition sent_tx (p : AdvPdu) (tx : bool) : bool :=
  match p with AdvNonconnInd _ _ => false | _ => tx end.
Definition sent_rx (p : AdvPdu) (rx : bool) : bool :=
  match p with ScanReq _ _ | ConnectReq _ _ _ => rx | _ => false end.

Definition header_of (p : AdvPdu) (tx rx : bool) : AdvHdr :=
  mkAdvHdr (pdu_type p) false (sent_tx p tx) (sent_rx p rx)
    (Z.of_nat (length (payload_of p))).

Definition is_addr (a : list Z) : Prop := length a = 6%nat.

Definition wf_aux_ptr (x : AuxPtr) : Prop :=
  0 <= ap_channel x < 64 /\ 0 <= ap_offset x < 1024 /\ 0 <= ap_phy x < 4.

(** What the types of the fields promise, and for a custom extended header
    that its first octet is its length. *)
Definition wf_pdu (p : AdvPdu) : Prop :=
  match p with
  | AdvInd a d | AdvNonconnInd a d | ScanRsp a d | AdvScanInd a d => is_addr a
  | AdvDirectInd a b | ScanReq a b => is_addr a /\ is_addr b
  | ConnectReq a b l => is_addr a /\ is_addr b /\ length l = CONNECT_LL_DATA_LEN
  | AdvExtInd a m adi x => is_addr a /\ wf_aux_ptr x
  | AuxAdvExtInd a adi t d => is_addr a
  | AuxAdvExtIndWithEh a adi ehs d =>
      is_addr a /\
      exists t fields, ehs = Z.of_nat (length (t :: fields)) :: t :: fields
  | PeriodicAdv m adi => True
  end.

(** How an extended PDU reads back: the decoder tells the primary form from
    the auxiliary one by the payload length alone. *)
Definition reads_ext (a : list Z) (adi : Z * Z) (ehs d : list Z) : AdvPdu :=
  match ehs ++ d with
  | [x; y; z; w] => AdvExtInd a (fst adi) (snd adi, x) (AuxPtr_decode y z w)
  | _ :: t :: _ => AuxAdvExtInd a adi t d
  | _ => AuxAdvExtInd a adi 0 d
  end.

Definition reads_as (p : AdvPdu) : AdvPdu :=
  match p with
  | AuxAdvExtInd a adi t d => reads_ext a adi [1; t] d
  | AuxAdvExtIndWithEh a adi ehs d => reads_ext a adi ehs d
  | p => p
  end.

(** ** Lemmas on headers and fields *)

Lemma AdvHdr_encode_length h : length (AdvHdr_encode h) = 2%nat.
Proof. done. Qed.

Lemma AuxPtr_encode_length x : length (AuxPtr_encode x) = 3%nat.
Proof. done. Qed.

Lemma adi_bytes_length adi : length (adi_bytes adi) = 2%nat.
Proof. done. Qed.

#[export] Hint Rewrite AdvHdr_encode_length AuxPtr_encode_length
  adi_bytes_length : list_length.

Arguments AdvHdr_encode : simpl never.
Arguments AdvHdr_decode : simpl never.
Arguments AuxPtr_encode : simpl never.
Arguments AuxPtr_decode : simpl never.

(** Both header bytes, at every type, flag and length. *)
Definition hdr_eqb (h k : AdvHdr) : bool :=
  (ah_pdu_type h =? ah_pdu_type k) && eqb (ah_ch_sel h) (ah_ch_sel k) &&
  eqb (ah_tx_add h) (ah_tx_add k) && eqb (ah_rx_add h) (ah_rx_add k) &&
  (ah_len h =? ah_len k).

Lemma hdr_eqb_eq h k : hdr_eqb h k = true -> h = k.
Proof.
  destruct h, k. unfold hdr_eqb. cbn [ah_pdu_type ah_ch_sel ah_tx_add ah_rx_add ah_len].
  rewrite !andb_true_iff, !Z.eqb_eq, !eqb_true_iff.
  by intros [[[[-> ->] ->] ->] ->].
Qed.

Definition hdr_ok (t n : Z) (c tx rx : bool) : bool :=
  let h := mkAdvHdr t c tx rx n in
  match AdvHdr_encode h with
  | [b0; b1] =>
      match AdvHdr_decode b0 b1 with Ok k => hdr_eqb h k | Err _ => false end
  | _ => false
  end.

Lemma hdr_table :
  forall_below 8 (fun t => forall_below 64 (fun n =>
    forallb (fun c => forallb (fun tx => forallb (hdr_ok t n c tx) [true; false])
      [true; false]) [true; false])) = true.
Proof. vm_compute. reflexivity. Qed.

(** Encoding and decoding the header round-trips. *)
Lemma AdvHdr_roundtrip h :
  0 <= ah_pdu_type h < 8 -> 0 <= ah_len h < 64 ->
  exists b0 b1, AdvHdr_encode h = [b0; b1] /\ AdvHdr_decode b0 b1 = Ok h.
Proof.
  intros Ht Hn. do 2 eexists. split; [reflexivity|].
  pose proof (forall_below2_spec 8 64 _ hdr_table _ _ Ht Hn) as H.
  assert (Hin : forall b, In b [true; false]) by (intros []; cbn; auto).
  rewrite List.forallb_forall in H. specialize (H (ah_ch_sel h) (Hin _)).
  rewrite List.forallb_forall in H. specialize (H (ah_tx_add h) (Hin _)).
  rewrite List.forallb_forall in H. specialize (H (ah_rx_add h) (Hin _)).
  destruct h as [t c tx rx n]. cbn [ah_pdu_type ah_ch_sel ah_tx_add ah_rx_add ah_len] in *.
  unfold hdr_ok, AdvHdr_encode in H. cbn [ah_pdu_type ah_ch_sel ah_tx_add ah_rx_add ah_len] in *.
  destruct (AdvHdr_decode _ _) as [k|]; [|discriminate].
  by apply hdr_eqb_eq in H as <-.
Qed.

(** The fields of a decoded header. *)
Lemma AdvHdr_decode_Ok b0 b1 h : AdvHdr_decode b0 b1 = Ok h ->
  ah_pdu_type h = b0 .& 0x0F /\ 0 <= ah_pdu_type h < 8 /\ 0 <= ah_len h < 64.
Proof.
  unfold AdvHdr_decode. intros H.
  destruct (Z.ltb_spec 7 (b0 .& 0x0F)); [discriminate|]. simplify_eq/=.
  split; [done|]. change 0x0F with (Z.ones 4). change 0x3F with (Z.ones 6).
  rewrite !Z.land_ones by lia. split; [|by apply Z.mod_pos_bound].
  split; [by apply Z.mod_pos_bound|].
  change (b0 .& 15) with (b0 .& Z.ones 4) in *. rewrite Z.land_ones in * by lia. lia.
Qed.

(** The auxiliary pointer round-trips. *)
Lemma AuxPtr_roundtrip x : wf_aux_ptr x ->
  exists b0 b1 b2, AuxPtr_encode x = [b0; b1; b2] /\ AuxPtr_decode b0 b1 b2 = x.
Proof.
  intros (Hc & Ho & Hp). do 3 eexists. split; [reflexivity|].
  destruct x as [c o p]. unfold AuxPtr_decode. cbn [ap_channel ap_offset ap_phy] in *.
  change 0x3F with (Z.ones 6). change 0x03 with (Z.ones 2). change 0xFF with (Z.ones 8).
  rewrite !Z.land_ones by lia.
  rewrite (Z.mod_small c), (Z.mod_small p) by lia.
  unfold u8. rewrite !Z.shiftr_div_pow2, !Z.shiftl_mul_pow2 by lia.
  rewrite <- (Z.shiftl_mul_pow2 _ 6), <- (Z.shiftl_mul_pow2 _ 2) by lia.
  change (2 ^ 2) with 4. change (2 ^ 6) with 64. change (2 ^ 8) with 256.
  f_equal.
  - rewrite (Z.mod_small (_ .<< 6)) by
      (rewrite Z.shiftl_mul_pow2; Z.div_mod_to_equations; lia).
    rewrite lor_shiftl_add by lia. Z.div_mod_to_equations. lia.
  - rewrite (Z.mod_small (_ .<< 6)) by
      (rewrite Z.shiftl_mul_pow2; Z.div_mod_to_equations; lia).
    rewrite (lor_shiftl_add c) by lia.
    rewrite lor_shiftl_add by (Z.div_mod_to_equations; lia).
    Z.div_mod_to_equations. lia.
  - apply Z.mod_small. lia.
Qed.

(** ** Lemmas on the encoders *)

(** [encode_with] around a closure that writes the payload. *)
Lemma encode_with_Ret out t tx rx n payload write :
  length payload = n ->
  (forall o, length o = n -> write o = Ret payload) ->
  encode_with out t tx rx n write =
  if (63 <? n)%nat then Ret (Err InvalidLength)
  else if (length out <? 2 + n)%nat then Ret (Err BufferTooSmall)
  else Ret (Ok (AdvHdr_encode (mkAdvHdr t false tx rx (Z.of_nat n)) ++ payload ++
                drop (2 + n) out, (2 + n)%nat)).
Proof.
  intros Hl Hw. unfold encode_with. change (Z.to_nat 63) with 63%nat.
  destruct (Nat.ltb_spec 63 n); [done|].
  destruct (Nat.ltb_spec (length out) (2 + n)); [done|].
  rewrite u8_id by (ranges; lia). set (h := mkAdvHdr _ _ _ _ _).
  rewrite copy_at_first by len. rewrite obind_Ret.
  rewrite slice_app_r by len. rewrite slice_Ret by len. rewrite obind_Ret.
  rewrite Hw by len. rewrite obind_Ret.
  rewrite copy_at_append by len. rewrite obind_Ret.
  rewrite drop_drop, <- app_assoc. do 4 f_equal.
  replace (2 + n - 2)%nat with n by lia. done.
Qed.

Lemma filled {A} (l r : list A) : r = [] -> l ++ r = l.
Proof. intros ->. apply app_nil_r. Qed.

(** A buffer written to its end is what was written. *)
Ltac filled := f_equal; rewrite filled by (apply drop_ge; len);
  rewrite <- ?app_assoc; reflexivity.

Lemma write_addr_data_Ret a d o : is_addr a -> length o = (6 + length d)%nat ->
  write_addr_data a d o = Ret (a ++ d).
Proof.
  unfold is_addr, write_addr_data. intros Ha Ho. writes. filled.
Qed.

Lemma write_addr_addr_Ret a b o rest : is_addr a -> is_addr b ->
  length o = (12 + rest)%nat -> write_addr_addr a b o = Ret ((a ++ b) ++ drop 12 o).
Proof.
  unfold is_addr, write_addr_addr. intros Ha Hb Ho. writes.
  f_equal. f_equal. rewrite drop_drop. done.
Qed.

Lemma write_aux_with_eh_Ret a adi e0 es d o : is_addr a ->
  length o = (8 + length (e0 :: es) + length d)%nat ->
  write_aux_with_eh a adi (e0 :: es) d o =
  Ret (a ++ adi_bytes adi ++ (e0 :: es) ++ d).
Proof.
  unfold is_addr, write_aux_with_eh. intros Ha Ho. cbn [length] in *.
  writes. cbn [idx lookup list_lookup]. rewrite obind_Ret. writes.
  unfold sub_usize. rewrite (proj2 (Nat.leb_le _ _)) by lia. rewrite obind_Ret.
  rewrite slice_from_Ret by len. rewrite obind_Ret. cbn [drop].
  writes. filled.
Qed.

(** ** Properties of the encoder *)

(** What the encoder does not panic on: an extended header may have any length
    byte. *)
Definition encodable (p : AdvPdu) : Prop :=
  match p with
  | AuxAdvExtIndWithEh a adi ehs d => is_addr a /\ exists e0 es, ehs = e0 :: es
  | p => wf_pdu p
  end.

Lemma wf_encodable p : wf_pdu p -> encodable p.
Proof. destruct p; cbn; try done. intros (Ha & t & fs & ->). eauto. Qed.

(** The encoder writes the header and the flat payload, and changes nothing
    else; it fails only for want of room. *)
Lemma encode_typed_spec p out tx rx : encodable p ->
  encode_typed p out tx rx =
  if (length out <? 2)%nat then Ret (Err BufferTooSmall)
  else if (63 <? length (payload_of p))%nat then Ret (Err InvalidLength)
  else if (length out <? 2 + length (payload_of p))%nat
  then Ret (Err BufferTooSmall)
  else Ret (Ok (AdvHdr_encode (header_of p tx rx) ++ payload_of p ++
                drop (2 + length (payload_of p)) out,
                (2 + length (payload_of p))%nat)).
Proof.
  intros Hwf. unfold encode_typed. destruct (Nat.ltb_spec (length out) 2); [done|].
  unfold header_of.
  assert (Hn : forall t tx' rx' n write, n = length (payload_of p) ->
    (forall o, length o = n -> write o = Ret (payload_of p)) ->
    t = pdu_type p -> tx' = sent_tx p tx -> rx' = sent_rx p rx ->
    encode_with out t tx' rx' n write =
    if (63 <? length (payload_of p))%nat then Ret (Err InvalidLength)
    else if (length out <? 2 + length (payload_of p))%nat
    then Ret (Err BufferTooSmall)
    else Ret (Ok (AdvHdr_encode (mkAdvHdr (pdu_type p) false (sent_tx p tx)
                (sent_rx p rx) (Z.of_nat (length (payload_of p)))) ++ payload_of p ++
                drop (2 + length (payload_of p)) out,
                (2 + length (payload_of p))%nat))).
  { intros t tx' rx' n write -> Hw -> -> ->. by apply encode_with_Ret. }
  destruct p as [a d|a b|a d|a b|a d|a b l|a d|a m adi x|a adi t d|a adi ehs d|m adi];
    cbn [encodable wf_pdu] in Hwf; unfold is_addr, CONNECT_LL_DATA_LEN in Hwf;
    repeat match goal with H : _ /\ _ |- _ => destruct H end; apply Hn; try reflexivity; cbn [payload_of] in *;
    try (by len); intros o Ho; clear Hn.
  1,3,5,7: by apply write_addr_data_Ret.
  1,2: rewrite (write_addr_addr_Ret _ _ _ 0) by done; f_equal; apply filled;
    apply drop_ge; lia.
  - rewrite (write_addr_addr_Ret _ _ _ 22) by done. writes. filled.
  - writes. filled.
  - writes. filled.
  - match goal with H : exists _, _ |- _ => destruct H as (e0 & es & ->) end.
    by apply write_aux_with_eh_Ret.
  - writes. filled.
Qed.

(** ** Lemmas on the decoders *)

Lemma split6_app a d : is_addr a -> split6 (a ++ d) = Ret (Ok (a, d)).
Proof.
  unfold is_addr, split6. intros Ha.
  rewrite (proj2 (Nat.ltb_ge _ _)) by len. unfold slice_to.
  rewrite slice_app_head, obind_Ret by done. unfold try_into.
  rewrite Ha, Nat.eqb_refl. cbn [try_bind].
  by rewrite slice_from_app, obind_Ret.
Qed.

Lemma split6_total p :
  (length p < 6)%nat /\ split6 p = Ret (Err InvalidLength) \/
  exists a d, p = a ++ d /\ is_addr a /\ split6 p = Ret (Ok (a, d)).
Proof.
  destruct (decide (length p < 6)%nat) as [H|H].
  - left. split; [done|]. unfold split6. by rewrite (proj2 (Nat.ltb_lt _ _) H).
  - right. exists (take 6 p), (drop 6 p). rewrite take_drop.
    assert (Ha : is_addr (take 6 p)) by (unfold is_addr; len).
    split; [done|]. split; [done|].
    rewrite <- (take_drop 6 p) at 1. by apply split6_app.
Qed.

Lemma try_into_Ok n l : length l = n -> try_into n l = Ok l.
Proof. unfold try_into. intros <-. by rewrite Nat.eqb_refl. Qed.

(** The auxiliary form, whose length is not that of the primary one. *)
Lemma decode_ext_aux a adi ehs d : is_addr a ->
  (exists t fields, ehs = Z.of_nat (length (t :: fields)) :: t :: fields) ->
  decode_ext (a ++ adi_bytes adi ++ ehs ++ d) = Ret (Ok (reads_ext a adi ehs d)).
Proof.
  intros Ha (t & fs & ->). unfold is_addr in Ha. destruct adi as [a0 a1].
  unfold decode_ext, adi_bytes, reads_ext. cbn [fst snd app].
  set (l := Z.of_nat _).
  assert (Hl : Z.to_nat l = S (length fs)) by (unfold l; cbn [length]; lia).
  clearbody l.
  assert (Hlen : length (a ++ a0 :: a1 :: l :: t :: fs ++ d)
    = (10 + length (fs ++ d))%nat) by len.
  rewrite Hlen. unfold slice_to.
  destruct (Nat.eqb_spec (10 + length (fs ++ d)) 12) as [He|He].
  - rewrite slice_app_head, obind_Ret, try_into_Ok by done. cbn [try_bind].
    rewrite !idx_app_r by lia. rewrite slice_app_r by lia. rewrite Ha.
    cbn [Nat.sub idx lookup list_lookup]. rewrite !obind_Ret.
    destruct (fs ++ d) as [|z [|w [|]]]; cbn [length] in He; try lia.
    rewrite slice_Ret by (cbn; lia). cbn [drop take Nat.sub]. rewrite obind_Ret.
    rewrite try_into_Ok by done. cbn [try_bind idx lookup list_lookup].
    by rewrite !obind_Ret.
  - rewrite (proj2 (Nat.leb_le 10 _)) by lia.
    rewrite slice_app_head, obind_Ret, try_into_Ok by done. cbn [try_bind].
    rewrite !idx_app_r by lia. rewrite Ha.
    cbn [Nat.sub idx lookup list_lookup]. rewrite !obind_Ret, Hl.
    rewrite (proj2 (Nat.leb_le _ _)) by len.
    replace (a ++ a0 :: a1 :: l :: t :: fs ++ d)
      with ((a ++ a0 :: a1 :: l :: t :: fs) ++ d)
      by (rewrite <- app_assoc; reflexivity).
    rewrite slice_from_app, obind_Ret by len.
    do 2 f_equal. destruct (fs ++ d) as [|z [|w [|]]]; cbn [length] in He; (done || lia).
Qed.

Lemma decode_ext_primary a m adi x : is_addr a -> wf_aux_ptr x ->
  decode_ext (a ++ m :: adi_bytes adi ++ AuxPtr_encode x) =
  Ret (Ok (AdvExtInd a m adi x)).
Proof.
  intros Ha Hx. destruct adi as [a0 a1]. unfold is_addr in Ha.
  destruct (AuxPtr_roundtrip x Hx) as (b0 & b1 & b2 & -> & Hd).
  unfold decode_ext, adi_bytes. cbn [fst snd app].
  rewrite (proj2 (Nat.eqb_eq _ _)) by len. unfold slice_to.
  rewrite slice_app_head, obind_Ret, try_into_Ok by done. cbn [try_bind].
  rewrite !idx_app_r by lia. rewrite slice_app_r by lia. rewrite Ha.
  cbn [Nat.sub idx lookup list_lookup]. rewrite !obind_Ret.
  rewrite slice_Ret by (cbn; lia). cbn [drop take Nat.sub]. rewrite obind_Ret.
  rewrite try_into_Ok by done. cbn [try_bind idx lookup list_lookup].
  by rewrite !obind_Ret, Hd.
Qed.

Lemma decode_payload_of p : wf_pdu p ->
  decode_payload (pdu_type p) (payload_of p) = Ret (Ok (reads_as p)).
Proof.
  destruct p as [a d|a b|a d|a b|a d|a b l|a d|a m adi x|a adi t d|a adi ehs d|m adi];
    cbn [wf_pdu payload_of reads_as pdu_type]; intros Hwf; unfold decode_payload;
    cbn [Z.eqb PDU_ADV_IND PDU_ADV_DIRECT_IND PDU_ADV_NONCONN_IND PDU_SCAN_REQ
      PDU_SCAN_RSP PDU_CONNECT_REQ PDU_ADV_SCAN_IND PDU_ADV_EXT_IND Pos.eqb].
  1,3,5,7: by rewrite split6_app.
  1,2: destruct Hwf as [Ha Hb]; rewrite split6_app by done; cbn [try_bind];
    unfold is_addr in Hb; rewrite Hb; cbn [negb Nat.eqb];
    by rewrite try_into_Ok by done.
  - destruct Hwf as (Ha & Hb & Hl). rewrite split6_app by done. cbn [try_bind].
    unfold is_addr, CONNECT_LL_DATA_LEN in *.
    rewrite (proj2 (Nat.eqb_eq _ 28)) by len. cbn [negb]. unfold slice_to.
    rewrite slice_app_head, obind_Ret, try_into_Ok by done. cbn [try_bind].
    by rewrite slice_from_app, obind_Ret.
  - destruct Hwf. by apply decode_ext_primary.
  - apply (decode_ext_aux a adi [1; t] d Hwf). by exists t, [].
  - destruct Hwf. by apply decode_ext_aux.
  - destruct adi as [a0 a1]. reflexivity.
Qed.

(** Decoding splits at the header. *)
Lemma AdvPdu_decode_header b0 b1 payload :
  AdvPdu_decode (b0 :: b1 :: payload) =
  match AdvHdr_decode b0 b1 with
  | Err e => Ret (Err e)
  | Ok h => if Z.of_nat (length payload) =? ah_len h
            then decode_payload (ah_pdu_type h) payload
            else Ret (Err InvalidLength)
  end.
Proof.
  unfold AdvPdu_decode. cbn [length Nat.ltb Nat.leb idx lookup list_lookup].
  rewrite !obind_Ret. destruct (AdvHdr_decode b0 b1); [|done]. cbn [try_bind].
  rewrite slice_from_Ret, obind_Ret by (cbn; lia). cbn [drop].
  by destruct (_ =? _).
Qed.

Lemma pdu_type_range p : 0 <= pdu_type p < 8.
Proof. destruct p; vm_compute; split; congruence. Qed.

(** The PDUs whose payload is exactly their fields. *)
Definition is_legacy (p : AdvPdu) : bool :=
  match p with
  | AdvExtInd _ _ _ _ | AuxAdvExtInd _ _ _ _ | AuxAdvExtIndWithEh _ _ _ _ => false
  | _ => true
  end.

(** What a decoder of [payload] may return. *)
Definition decodes_to (t : Z) (payload : list Z) (r : result AdvPdu Error) : Prop :=
  match r with
  | Ok p => wf_pdu p /\ pdu_type p = t /\ (is_legacy p = true -> payload_of p = payload)
  | Err e => e = InvalidLength \/ e = InvalidPdu
  end.

Lemma AuxPtr_decode_wf b0 b1 b2 : is_u8 b0 -> is_u8 b1 -> is_u8 b2 ->
  wf_aux_ptr (AuxPtr_decode b0 b1 b2).
Proof.
  unfold wf_aux_ptr, AuxPtr_decode. cbn [ap_channel ap_offset ap_phy]. ranges.
  intros H0 H1 H2. change 0x3F with (Z.ones 6). change 0x03 with (Z.ones 2).
  rewrite !Z.land_ones by lia. split; [by apply Z.mod_pos_bound|].
  split; [|by apply Z.mod_pos_bound].
  rewrite Z.shiftr_div_pow2 by lia. change (2 ^ 6) with 64.
  rewrite lor_shiftl_add by (Z.div_mod_to_equations; lia).
  change (2 ^ 2) with 4. Z.div_mod_to_equations. lia.
Qed.

Lemma decode_ext_total payload : bytes payload ->
  exists r, decode_ext payload = Ret r /\ decodes_to PDU_ADV_EXT_IND payload r.
Proof.
  intros Hb. unfold decode_ext.
  destruct (Nat.eqb_spec (length payload) 12) as [H|H].
  { do 12 (destruct payload as [|? payload]; [cbn in H; lia|]).
    destruct payload; [|cbn in H; lia]. eexists. split; [reflexivity|].
    cbn [decodes_to wf_pdu]. split; [|done]. split; [done|].
    repeat (inversion Hb as [|? ? ? Hb']; subst; clear Hb; rename Hb' into Hb).
    by apply AuxPtr_decode_wf. }
  destruct (Nat.leb_spec 10 (length payload)) as [H'|H'].
  { do 10 (destruct payload as [|? payload]; [cbn in H'; lia|]).
    unfold slice_to. rewrite slice_Ret by (cbn; lia). rewrite obind_Ret.
    cbn [drop take Nat.sub idx lookup list_lookup]. rewrite try_into_Ok by done.
    cbn [try_bind]. rewrite !obind_Ret. case_match eqn:E.
    - apply Nat.leb_le in E. rewrite slice_from_Ret, obind_Ret by done.
      eexists. split; [done|]. cbn [decodes_to wf_pdu]. done.
    - eexists. split; [done|]. by left. }
  destruct (Nat.eqb_spec (length payload) 3) as [H3|H3].
  { do 3 (destruct payload as [|? payload]; [cbn in H3; lia|]).
    destruct payload; [|cbn in H3; lia]. eexists. split; [reflexivity|]. done. }
  eexists. split; [done|]. by left.
Qed.

Lemma decode_payload_total t payload : bytes payload ->
  exists r, decode_payload t payload = Ret r /\ decodes_to t payload r.
Proof.
  intros Hb. unfold decode_payload.
  destruct (split6_total payload) as [[Hs E]|(a & d & -> & Ha & E)].
  - rewrite E. cbn [try_bind].
    do 7 (case_match; [eexists; split; [done | by left]|]).
    case_match eqn:Et; [|eexists; split; [done | by right]].
    apply Z.eqb_eq in Et as ->. by apply decode_ext_total.
  - rewrite E. cbn [try_bind].
    repeat (let Et := fresh "Et" in case_match eqn:Et;
      [ apply Z.eqb_eq in Et as -> || apply negb_true_iff, Nat.eqb_neq in Et
      | apply Z.eqb_neq in Et || apply negb_false_iff, Nat.eqb_eq in Et ]);
    try (by apply decode_ext_total); try (eexists; split; [done|]; cbn; auto; fail).
    + rewrite try_into_Ok by done. eexists; split; [done|]. done.
    + rewrite try_into_Ok by done. eexists; split; [done|]. done.
    + unfold slice_to. rewrite slice_Ret by lia. rewrite obind_Ret.
      cbn [Nat.sub drop]. rewrite try_into_Ok by len. cbn [try_bind].
      rewrite slice_from_Ret, obind_Ret by lia. eexists. split; [done|].
      cbn [decodes_to wf_pdu payload_of]. rewrite take_drop. split; [|done].
      unfold is_addr, CONNECT_LL_DATA_LEN. split; [done|]. split; len.
Qed.

(** ** Lemmas on data PDUs and connection parameters *)

Definition data_hdr (p : DataPdu) : Z :=
  (dp_llid p .& 3) .| u8 (bool_u8 (dp_nesn p) .<< 2)
    .| u8 (bool_u8 (dp_sn p) .<< 3) .| u8 (bool_u8 (dp_md p) .<< 4).

Lemma DataPdu_encode_Ret p out :
  DataPdu_encode p out =
  if (63 <? length (dp_payload p))%nat then Ret (Err InvalidLength)
  else if (length out <? 2 + length (dp_payload p))%nat
  then Ret (Err BufferTooSmall)
  else Ret (Ok (data_hdr p :: Z.of_nat (length (dp_payload p)) :: dp_payload p ++
                drop (2 + length (dp_payload p)) out, (2 + length (dp_payload p))%nat)).
Proof.
  unfold DataPdu_encode. change (Z.to_nat 63) with 63%nat.
  destruct (Nat.ltb_spec 63 (length (dp_payload p))); [done|].
  destruct (Nat.ltb_spec (length out) (2 + length (dp_payload p))); [done|].
  fold (data_hdr p). rewrite u8_id by (ranges; lia).
  change 0x3F with (Z.ones 6). rewrite Z.land_ones, Z.mod_small by lia.
  destruct out as [|x [|y out]]; cbn [length] in *; [lia..|].
  writes. rewrite !drop_drop. cbn [drop app Nat.sub Nat.add].
  rewrite <- ?app_assoc, ?Nat.sub_0_r. reflexivity.
Qed.

Lemma DataPdu_decode_cons b0 b1 payload :
  DataPdu_decode (b0 :: b1 :: payload) =
  if Z.of_nat (length payload) =? b1 .& 0x3F
  then Ret (Ok (mkDataPdu (b0 .& 3) (flag b0 4) (flag b0 8) (flag b0 16) payload))
  else Ret (Err InvalidLength).
Proof.
  unfold DataPdu_decode. cbn [length Nat.ltb Nat.leb idx lookup list_lookup].
  rewrite !obind_Ret, slice_from_Ret, obind_Ret by (cbn; lia). cbn [drop].
  by destruct (_ =? _).
Qed.

(** The first header byte, for every LLID and flag. *)
Lemma data_hdr_flags p : 0 <= dp_llid p < 4 ->
  data_hdr p .& 3 = dp_llid p /\ flag (data_hdr p) 4 = dp_nesn p /\
  flag (data_hdr p) 8 = dp_sn p /\ flag (data_hdr p) 16 = dp_md p.
Proof.
  destruct p as [l n s m payload]. unfold data_hdr.
  cbn [dp_llid dp_nesn dp_sn dp_md]. intros Hl.
  assert (l = 0 \/ l = 1 \/ l = 2 \/ l = 3) as [->|[->|[->| ->]]] by lia;
    by destruct n, s, m.
Qed.

(** Conversely the header byte is rebuilt from its fields. *)
Lemma data_hdr_table : forall_below 32 (fun b =>
  data_hdr (mkDataPdu (b .& 3) (flag b 4) (flag b 8) (flag b 16) []) =? b) = true.
Proof. vm_compute. reflexivity. Qed.

Lemma data_hdr_rebuild b payload : 0 <= b < 32 ->
  data_hdr (mkDataPdu (b .& 3) (flag b 4) (flag b 8) (flag b 16) payload) = b.
Proof. intros Hb. exact (proj1 (Z.eqb_eq _ _) (forall_below_spec 32 _ data_hdr_table b Hb)). Qed.

Definition wf_connect (d : ConnectReqData) : Prop :=
  is_u32 (cr_access_addr d) /\ 0 <= cr_crc_init d < 16777216 /\
  is_u8 (cr_win_size d) /\ is_u16 (cr_win_offset d) /\ is_u16 (cr_interval d) /\
  is_u16 (cr_latency d) /\ is_u16 (cr_timeout d) /\
  bytes (cr_channel_map d) /\ length (cr_channel_map d) = 5%nat /\
  0 <= cr_hop d < 32 /\ 0 <= cr_sca d < 8.

(** The 22 bytes of LLData. *)
Definition connect_bytes (d : ConnectReqData) : list Z :=
  u32_to_le (cr_access_addr d) ++
  [u8 (cr_crc_init d); u8 (cr_crc_init d .>> 8); u8 (cr_crc_init d .>> 16)] ++
  [cr_win_size d] ++ u16_to_le (cr_win_offset d) ++ u16_to_le (cr_interval d) ++
  u16_to_le (cr_latency d) ++ u16_to_le (cr_timeout d) ++ cr_channel_map d ++
  [(cr_hop d .& 0x1F) .| u8 ((cr_sca d .& 7) .<< 5)].

Lemma ConnectReqData_encode_Ret d out : length (cr_channel_map d) = 5%nat ->
  ConnectReqData_encode d out =
  if (length out <? 22)%nat then Ret (Err BufferTooSmall)
  else Ret (Ok (connect_bytes d ++ drop 22 out, 22%nat)).
Proof.
  intros Hm. unfold ConnectReqData_encode, CONNECT_LL_DATA_LEN.
  destruct (Nat.ltb_spec (length out) 22); [done|].
  unfold u16_to_le, u32_to_le. writes. do 3 f_equal.
  rewrite !drop_drop. unfold connect_bytes, u16_to_le, u32_to_le.
  rewrite <- !app_assoc. reflexivity.
Qed.

(** Decoding 22 bytes, field by field. *)
Lemma ConnectReqData_decode_Ret a0 a1 a2 a3 c0 c1 c2 w o0 o1 i0 i1 l0 l1 t0 t1
    m0 m1 m2 m3 m4 z :
  ConnectReqData_decode [a0; a1; a2; a3; c0; c1; c2; w; o0; o1; i0; i1; l0; l1;
    t0; t1; m0; m1; m2; m3; m4; z] =
  Ret (Ok (mkConnectReqData (u32_from_le a0 a1 a2 a3) (c0 .| (c1 .<< 8) .| (c2 .<< 16))
    w (u16_from_le o0 o1) (u16_from_le i0 i1) (u16_from_le l0 l1) (u16_from_le t0 t1)
    [m0; m1; m2; m3; m4] (z .& 0x1F) ((z .>> 5) .& 7))).
Proof. reflexivity. Qed.

Lemma u24_join a b c : is_u8 a -> is_u8 b -> is_u8 c ->
  a .| (b .<< 8) .| (c .<< 16) = a + 256 * b + 65536 * c.
Proof.
  ranges. intros. rewrite (lor_shiftl_add a b 8) by lia.
  rewrite lor_shiftl_add by lia. lia.
Qed.

Lemma hop_sca_join h s : 0 <= h < 32 -> 0 <= s < 8 ->
  (h .& 0x1F) .| u8 ((s .& 7) .<< 5) = h + 32 * s.
Proof.
  intros. change 0x1F with (Z.ones 5). change 7 with (Z.ones 3).
  rewrite !Z.land_ones, !Z.mod_small by lia.
  rewrite u8_id by (ranges; rewrite Z.shiftl_mul_pow2; lia).
  by apply lor_shiftl_add.
Qed.

Lemma hop_sca_split z : is_u8 z ->
  z .& 0x1F = z mod 32 /\ (z .>> 5) .& 7 = z / 32.
Proof.
  ranges. intros. change 0x1F with (Z.ones 5). change 7 with (Z.ones 3).
  rewrite !Z.land_ones, Z.shiftr_div_pow2 by lia. change (2 ^ 5) with 32.
  change (2 ^ 3) with 8. split; [done|]. apply Z.mod_small.
  Z.div_mod_to_equations. lia.
Qed.

(** ** Properties *)

(** C37. Advertising PDUs round-trip: for a well-formed PDU and any address
    bits, [encode_typed] fails exactly when the payload exceeds 63 bytes or
    the buffer is short; otherwise it writes only the prefix it reports, the
    written header decodes to the PDU's type, bits and length, and [decode]
    of the prefix returns the PDU, where the extended forms read back as
    [reads_as] says. *)
Theorem adv_pdu_roundtrip p out tx rx : wf_pdu p ->
  let n := (2 + length (payload_of p))%nat in
  if (length out <? 2)%nat then encode_typed p out tx rx = Ret (Err BufferTooSmall)
  else if (65 <? n)%nat then encode_typed p out tx rx = Ret (Err InvalidLength)
  else if (length out <? n)%nat
  then encode_typed p out tx rx = Ret (Err BufferTooSmall)
  else exists b0 b1, let bs := b0 :: b1 :: payload_of p in
    encode_typed p out tx rx = Ret (Ok (bs ++ drop n out, n)) /\
    AdvHdr_decode b0 b1 = Ok (header_of p tx rx) /\
    AdvPdu_decode bs = Ret (Ok (reads_as p)).
Proof.
  intros Hwf n. rewrite (encode_typed_spec p out tx rx (wf_encodable p Hwf)). fold n.
  destruct (Nat.ltb_spec (length out) 2); [done|].
  destruct (Nat.ltb_spec 65 n), (Nat.ltb_spec 63 (length (payload_of p)));
    try (unfold n in *; lia); [done|].
  destruct (Nat.ltb_spec (length out) n); [done|].
  destruct (AdvHdr_roundtrip (header_of p tx rx)) as (b0 & b1 & Ee & Ed).
  { apply pdu_type_range. }
  { cbn [header_of ah_len]. lia. }
  exists b0, b1. cbn zeta. rewrite Ee. split; [done|]. split; [done|].
  rewrite AdvPdu_decode_header, Ed. cbn [header_of ah_len ah_pdu_type].
  rewrite Z.eqb_refl. by apply decode_payload_of.
Qed.

Lemma adv_pdu_roundtrip_witness :
  exists b0 b1, let bs := [b0; b1; 1; 2; 3; 4; 5; 6; 2; 1; 6] in
    encode_typed (AdvInd [1; 2; 3; 4; 5; 6] [2; 1; 6]) (replicate 12 0) true false =
      Ret (Ok (bs ++ [0], 11%nat)) /\
    AdvHdr_decode b0 b1 = Ok (mkAdvHdr 0 false true false 9) /\
    AdvPdu_decode bs = Ret (Ok (AdvInd [1; 2; 3; 4; 5; 6] [2; 1; 6])).
Proof.
  apply (adv_pdu_roundtrip (AdvInd [1; 2; 3; 4; 5; 6] [2; 1; 6]) (replicate 12 0)
    true false). reflexivity.
Defined.

(** Decoding an advertising PDU is total and faithful: on any bytes
    [decode] returns without a panic; an error is [InvalidPdu] or
    [InvalidLength]; a decoded PDU is well formed, its type and payload
    length are the header's, and unless it is an extended one its payload is
    exactly the bytes received. *)
Lemma adv_decode_total bs : bytes bs ->
  exists r, AdvPdu_decode bs = Ret r /\
  match r with
  | Err e => e = InvalidLength \/ e = InvalidPdu
  | Ok p => exists b0 b1 payload h, bs = b0 :: b1 :: payload /\
      AdvHdr_decode b0 b1 = Ok h /\ ah_len h = Z.of_nat (length payload) /\
      ah_pdu_type h = pdu_type p /\ wf_pdu p /\
      (is_legacy p = true -> payload_of p = payload)
  end.
Proof.
  intros Hb. destruct bs as [|b0 [|b1 payload]];
    [eexists; split; [done | by right]..|].
  rewrite AdvPdu_decode_header. destruct (AdvHdr_decode b0 b1) as [h|e] eqn:E.
  - destruct (Z.eqb_spec (Z.of_nat (length payload)) (ah_len h)) as [El|El].
    + destruct (decode_payload_total (ah_pdu_type h) payload) as (r & -> & Hr).
      { by inversion_clear Hb as [|? ? ? Hb']; inversion_clear Hb'. }
      exists r. split; [done|]. destruct r as [p|e]; [|done].
      destruct Hr as (Hwf & Ht & Hl). exists b0, b1, payload, h. by rewrite Ht.
    + eexists. split; [done|]. by left.
  - eexists. split; [done|]. right. revert E. unfold AdvHdr_decode.
    case_match; naive_solver.
Qed.

(** C38. Data PDUs round-trip both ways: [encode] refuses a payload over 63
    bytes and a short buffer, and otherwise writes a prefix that [decode]
    returns as the PDU; and a PDU that [decode] returns from bytes without
    reserved header bits encodes to those bytes. *)
Theorem data_pdu_roundtrip p out : 0 <= dp_llid p < 4 ->
  let n := (2 + length (dp_payload p))%nat in
  if (65 <? n)%nat then DataPdu_encode p out = Ret (Err InvalidLength)
  else if (length out <? n)%nat then DataPdu_encode p out = Ret (Err BufferTooSmall)
  else exists b0 b1, let bs := b0 :: b1 :: dp_payload p in
    DataPdu_encode p out = Ret (Ok (bs ++ drop n out, n)) /\
    DataPdu_decode bs = Ret (Ok p) /\
    forall c0 c1 pl q, 0 <= c0 < 32 -> 0 <= c1 < 64 ->
      DataPdu_decode (c0 :: c1 :: pl) = Ret (Ok q) ->
      DataPdu_encode q (replicate (2 + length pl) 0) =
        Ret (Ok (c0 :: c1 :: pl, (2 + length pl)%nat)).
Proof.
  intros Hl n. rewrite DataPdu_encode_Ret. fold n.
  destruct (Nat.ltb_spec 65 n), (Nat.ltb_spec 63 (length (dp_payload p)));
    try (unfold n in *; lia); [done|].
  destruct (Nat.ltb_spec (length out) n); [done|].
  assert (Hm : forall k, (k <= 63)%nat -> Z.of_nat k .& 0x3F = Z.of_nat k).
  { intros k Hk. change 0x3F with (Z.ones 6).
    rewrite Z.land_ones by lia. apply Z.mod_small. lia. }
  do 2 eexists. split; [reflexivity|]. split.
  - rewrite DataPdu_decode_cons, Hm, Z.eqb_refl by done.
    destruct (data_hdr_flags p Hl) as (-> & -> & -> & ->). by destruct p.
  - intros c0 c1 pl q Hc0 Hc1. rewrite DataPdu_decode_cons.
    case_match eqn:E; [|done]. intros [= <-].
    apply Z.eqb_eq in E. change 0x3F with (Z.ones 6) in E.
    rewrite Z.land_ones, Z.mod_small in E by lia.
    rewrite DataPdu_encode_Ret. cbn [dp_payload].
    rewrite (proj2 (Nat.ltb_ge 63 _)), (proj2 (Nat.ltb_ge _ _)) by len.
    rewrite data_hdr_rebuild, drop_ge, app_nil_r, E by (done || len). done.
Qed.

Lemma data_pdu_roundtrip_witness :
  exists b0 b1, let bs := [b0; b1; 7; 8] in
    DataPdu_encode (mkDataPdu 2 true false true [7; 8]) (replicate 5 0) =
      Ret (Ok (bs ++ [0], 4%nat)) /\
    DataPdu_decode bs = Ret (Ok (mkDataPdu 2 true false true [7; 8])).
Proof.
  destruct (data_pdu_roundtrip (mkDataPdu 2 true false true [7; 8]) (replicate 5 0))
    as (b0 & b1 & He & Hd & _); [cbn; lia|].
  by exists b0, b1.
Defined.

(** Parameters encode into 22 bytes that decode to them. *)
Lemma connect_data_roundtrip d out : wf_connect d ->
  if (length out <? 22)%nat
  then ConnectReqData_encode d out = Ret (Err BufferTooSmall)
  else ConnectReqData_encode d out = Ret (Ok (connect_bytes d ++ drop 22 out, 22%nat)) /\
    length (connect_bytes d) = 22%nat /\ ConnectReqData_decode (connect_bytes d) = Ret (Ok d).
Proof.
  intros (Ha & Hc & Hw & Ho & Hi & Hla & Ht & Hmb & Hm & Hh & Hs).
  rewrite ConnectReqData_encode_Ret by done.
  destruct (Nat.ltb_spec (length out) 22); [done|]. split; [done|].
  destruct d as [a c w o i la t m h s]. cbn in Ha, Hc, Hw, Ho, Hi, Hla, Ht, Hmb, Hm, Hh, Hs.
  do 5 (destruct m as [|? m]; [discriminate Hm|]). destruct m; [|discriminate Hm].
  split; [reflexivity|]. unfold connect_bytes, u32_to_le, u16_to_le.
  cbn [app cr_access_addr cr_crc_init cr_win_size cr_win_offset cr_interval
    cr_latency cr_timeout cr_channel_map cr_hop cr_sca].
  rewrite ConnectReqData_decode_Ret.
  rewrite u32_le_roundtrip, !u16_le_roundtrip, hop_sca_join by done.
  rewrite u24_join by apply u8_range.
  destruct (hop_sca_split (h + 32 * s)) as [-> ->]; [ranges; lia|].
  unfold u8. rewrite !Z.shiftr_div_pow2 by lia.
  change (2 ^ 8) with 256. change (2 ^ 16) with 65536.
  do 3 f_equal; Z.div_mod_to_equations; lia.
Qed.

(** Any 22 bytes decode to parameters that encode to them. *)
Lemma connect_data_total ll : bytes ll ->
  if (length ll =? 22)%nat
  then exists d', ConnectReqData_decode ll = Ret (Ok d') /\ wf_connect d' /\
    ConnectReqData_encode d' (replicate 22 0) = Ret (Ok (ll, 22%nat))
  else ConnectReqData_decode ll = Ret (Err InvalidLength).
Proof.
  intros Hll.
  destruct (Nat.eqb_spec (length ll) 22) as [Hl|Hl].
  2:{ unfold ConnectReqData_decode, CONNECT_LL_DATA_LEN.
      by rewrite (proj2 (Nat.eqb_neq _ _) Hl). }
  do 22 (destruct ll as [|? ll]; [discriminate Hl|]). destruct ll; [|discriminate Hl].
  do 22 (apply Forall_cons_1 in Hll as [? Hll]).
  rewrite ConnectReqData_decode_Ret, u24_join by done.
  eexists. split; [reflexivity|].
  match goal with |- context [?z .& 0x1F] =>
    destruct (hop_sca_split z) as [-> ->]; [done|] end.
  split.
  + unfold wf_connect, u32_from_le.
    cbn [app cr_access_addr cr_crc_init cr_win_size cr_win_offset cr_interval
      cr_latency cr_timeout cr_channel_map cr_hop cr_sca].
    do 3 (split; [ranges; lia|]).
    do 4 (split; [by apply u16_from_le_range|]).
    split; [repeat (apply Forall_cons_2; [done|]); apply Forall_nil_2|].
    split; [done|]. ranges.
    split; Z.div_mod_to_equations; lia.
  + rewrite ConnectReqData_encode_Ret by done.
    unfold connect_bytes, u32_to_le, u16_to_le, u32_from_le, u16_from_le.
    cbn [app cr_access_addr cr_crc_init cr_win_size cr_win_offset cr_interval
      cr_latency cr_timeout cr_channel_map cr_hop cr_sca length replicate Nat.ltb Nat.leb drop].
    rewrite hop_sca_join by (ranges; Z.div_mod_to_equations; lia).
    unfold u8. rewrite !Z.shiftr_div_pow2 by lia.
    change (2 ^ 8) with 256. change (2 ^ 16) with 65536. ranges.
    apply f_equal, f_equal. apply f_equal2; [|reflexivity].
    repeat (apply (f_equal2 cons); [Z.div_mod_to_equations; lia|]). reflexivity.
Qed.

(** C39. The CONNECT_REQ parameters are in bijection with 22-byte strings:
    [encode] of in-range parameters writes 22 bytes that [decode] maps back to
    them; [decode] of any 22 bytes returns in-range parameters whose encoding
    is those bytes; any other length is [InvalidLength], and a short buffer
    [BufferTooSmall]. *)
Theorem connect_req_bijection d out ll : wf_connect d -> bytes ll ->
  (if (length out <? 22)%nat
   then ConnectReqData_encode d out = Ret (Err BufferTooSmall)
   else exists bs, ConnectReqData_encode d out = Ret (Ok (bs ++ drop 22 out, 22%nat)) /\
     length bs = 22%nat /\ ConnectReqData_decode bs = Ret (Ok d)) /\
  (if (length ll =? 22)%nat
   then exists d', ConnectReqData_decode ll = Ret (Ok d') /\ wf_connect d' /\
     ConnectReqData_encode d' (replicate 22 0) = Ret (Ok (ll, 22%nat))
   else ConnectReqData_decode ll = Ret (Err InvalidLength)).
Proof.
  intros Hd Hll. split; [|by apply connect_data_total].
  pose proof (connect_data_roundtrip d out Hd) as H.
  destruct (length out <? 22)%nat; [done|]. by exists (connect_bytes d).
Qed.

Lemma connect_req_bijection_witness :
  exists d', ConnectReqData_decode (replicate 22 0xA5) = Ret (Ok d') /\ wf_connect d' /\
    ConnectReqData_encode d' (replicate 22 0) = Ret (Ok (replicate 22 0xA5, 22%nat)).
Proof.
  refine (proj2 (connect_req_bijection
    (mkConnectReqData 1 2 3 4 5 6 7 [8; 9; 10; 11; 12] 13 1) [] (replicate 22 0xA5) _ _)).
  - repeat split; ranges; cbn; try lia. bytes_eval.
  - bytes_eval.
Defined.

(** An auxiliary PDU with two bytes of data has the length of the primary
    form and reads back as that. *)
Example aux_two_bytes_reads_as_primary :
  reads_as (AuxAdvExtInd [1; 2; 3; 4; 5; 6] (0x34, 0x12) 0x20 [0xAA; 0xBB]) =
  AdvExtInd [1; 2; 3; 4; 5; 6] 0x34 (0x12, 1) (mkAuxPtr 32 680 3).
Proof. reflexivity. Qed.
