(* ===== verification/Events.v ===== *)
(** Parameters and events the application sees: the enumerations and
    parameter records of [src/hw/ble.rs] and [src/hw/conn.rs]. *)

From stdpp Require Import base numbers list.
From S2P Require Import Prelude Addr Pdu.

Inductive AdvType : Type :=
| ConnectableUndirected
| ConnectableDirected
| ScannableUndirected
| NonConnectableUndirected.

#[export] Instance AdvType_eq_dec : EqDecision AdvType.
Proof. solve_decision. Defined.

Inductive FilterPolicy : Type :=
| AcceptAll
| AcceptListPolicy.

#[export] Instance FilterPolicy_eq_dec : EqDecision FilterPolicy.
Proof. solve_decision. Defined.

Record AdvParams := mkAdvParams {
  adp_interval_min : Z;
  adp_interval_max : Z;
  adp_adv_type : AdvType;
  adp_own_addr_type : AddrType;
  adp_peer_addr : option (list Z);
  adp_channel_map : Z;
  adp_extended : bool;
  adp_periodic : bool;
  adp_periodic_interval : Z
}.

Definition AdvParams_default : AdvParams :=
  mkAdvParams 160 160 ConnectableUndirected Public None 7 false false 100.

Record ScanParams := mkScanParams {
  scp_active : bool;
  scp_interval : Z;
  scp_window : Z;
  scp_own_addr_type : AddrType;
  scp_filter_policy : FilterPolicy
}.

Definition ScanParams_default : ScanParams :=
  mkScanParams false 80 40 Public AcceptAll.

(** The role of the device in a connection, and why one ended. *)
Inductive ConnRole : Type := Master | Slave.

#[export] Instance ConnRole_eq_dec : EqDecision ConnRole.
Proof. solve_decision. Defined.

Inductive DisconnectReason : Type :=
| RemoteTerminate
| HostTerminate
| SupervisionTimeout
| LocalError.

#[export] Instance DisconnectReason_eq_dec : EqDecision DisconnectReason.
Proof. solve_decision. Defined.

(** [reason as u8]: the discriminants in declaration order. *)
Definition DisconnectReason_u8 (r : DisconnectReason) : Z :=
  match r with
  | RemoteTerminate => 0 | HostTerminate => 1
  | SupervisionTimeout => 2 | LocalError => 3
  end.

(** The outcome of one connection event. *)
Inductive ConnEvent : Type :=
| EvIdle
| EvData
| EvControl (op : Z)
| EvL2cap (cid : Z)
| EvDisconnected (reason : DisconnectReason).

Inductive BleEvent : Type :=
| AdvStarted
| AdvStopped
| ScanStarted
| ScanStopped
| ScanReqReceived (addr : list Z)
| ConnectReqReceived (init_addr : list Z) (conn : ConnectReqData)
| Connected (conn : ConnectReqData)
| Disconnected (reason : DisconnectReason)
| ConnData
| LlControl (op : Z)
| L2cap (cid : Z)
| PeriodicAdvReceived (adi : Z * Z) (rssi : Z)
| PeriodicSynced (channel interval : Z)
| ScanReport (addr : list Z) (addr_type : AddrType) (adv_type rssi : Z)
    (data : list Z) (data_len : nat).
