(* ===== verification/EventQueue.v ===== *)
(** The event ring shared by the stack ([Ble::push_event], [Ble::next_event]
    in [src/hw/ble.rs]) and the HCI layer ([src/hci.rs]): the same code at two
    lengths, eight and sixteen. *)

From stdpp Require Import base numbers list.
From S2P Require Import Prelude.

(** ** The ring *)

Section ring.
Context {A : Type}.

Record EventRing := mkEventRing {
  events : list (option A);
  event_head : nat;
  event_tail : nat
}.

(** [[None; n]] with both indices zero. *)
Definition ring_new (n : nat) : EventRing := mkEventRing (replicate n None) 0 0.

(** [push_event], for a ring of length [n]. *)
Definition ring_push (n : nat) (self : EventRing) (evt : A) : outcome EventRing :=
  let next := ((event_head self + 1) mod n)%nat in
  let tail := if (next =? event_tail self)%nat
    then ((event_tail self + 1) mod n)%nat else event_tail self in
  let! es := set_idx (events self) (event_head self) (Some evt) in
  Ret (mkEventRing es next tail).

(** [next_event]: [take] leaves [None] behind. *)
Definition ring_next (n : nat) (self : EventRing) : outcome (EventRing * option A) :=
  let! evt := idx (events self) (event_tail self) in
  let! es := set_idx (events self) (event_tail self) None in
  let tail := match evt with
    | Some _ => ((event_tail self + 1) mod n)%nat
    | None => event_tail self
    end in
  Ret (mkEventRing es (event_head self) tail, evt).

(** ** Specification: a queue of at most [n - 1] events *)

(** The slot [i] places after the tail. *)
Definition slot (n : nat) (r : EventRing) (i : nat) : option (option A) :=
  events r !! ((event_tail r + i) mod n)%nat.

(** [r] holds the queue [q] and, when [stale] is there, one event that an
    overflow left behind at the head. *)
Record ring_rep (n : nat) (r : EventRing) (q : list A) (stale : option A) : Prop := {
  rep_len : length (events r) = n;
  rep_tail : (event_tail r < n)%nat;
  rep_size : (length q < n)%nat;
  rep_head : event_head r = ((event_tail r + length q) mod n)%nat;
  rep_in i x : q !! i = Some x -> slot n r i = Some (Some x);
  rep_next : slot n r (length q) = Some stale;
  rep_out i : (length q < i < n)%nat -> slot n r i = Some None
}.

(** The operations a client performs. *)
Inductive qop := Push (x : A) | Pop.

Fixpoint ring_run (n : nat) (r : EventRing) (ops : list qop)
    : outcome (EventRing * list (option A)) :=
  match ops with
  | [] => Ret (r, [])
  | Push x :: ops => let! r := ring_push n r x in ring_run n r ops
  | Pop :: ops =>
      let! (r, x) := ring_next n r in
      let! (r, xs) := ring_run n r ops in
      Ret (r, x :: xs)
  end.

(** A first-in first-out queue, and whether it ever holds more than [k]. *)
Fixpoint fifo_run (q : list A) (ops : list qop) : list A * list (option A) :=
  match ops with
  | [] => (q, [])
  | Push x :: ops => fifo_run (q ++ [x]) ops
  | Pop :: ops =>
      match q with
      | [] => let '(q, xs) := fifo_run [] ops in (q, None :: xs)
      | x :: q => let '(q, xs) := fifo_run q ops in (q, Some x :: xs)
      end
  end.

Fixpoint fifo_fits (k : nat) (len : nat) (ops : list qop) : bool :=
  match ops with
  | [] => true
  | Push _ :: ops => (len <? k)%nat && fifo_fits k (S len) ops
  | Pop :: ops => fifo_fits k (pred len) ops
  end.

(** [k] calls of [next_event]. *)
Definition ring_drain (n k : nat) (r : EventRing) : outcome (EventRing * list (option A)) :=
  ring_run n r (replicate k Pop).

End ring.

Arguments EventRing : clear implicits.
Arguments qop : clear implicits.

(** ** Lemmas *)

Section lemmas.
Context {A : Type} (n : nat) (Hn : (2 <= n)%nat).
Implicit Types (r : EventRing A) (q : list A).

Lemma mod_step a i : (a < n)%nat -> (i < n)%nat ->
  ((a + i) mod n = if decide (a + i < n) then a + i else a + i - n)%nat.
Proof.
  intros Ha Hi. case_decide.
  - by apply Nat.mod_small.
  - replace (a + i)%nat with (a + i - n + 1 * n)%nat by lia.
    rewrite Nat.Div0.mod_add. rewrite Nat.mod_small by lia. lia.
Qed.

Lemma slot_inj a i j : (a < n)%nat -> (i < n)%nat -> (j < n)%nat ->
  ((a + i) mod n = (a + j) mod n)%nat -> i = j.
Proof. intros Ha Hi Hj. rewrite !mod_step by done. repeat case_decide; lia. Qed.

Lemma slot_lt r i : (event_tail r < n)%nat -> ((event_tail r + i) mod n < n)%nat.
Proof using Hn. intros. apply Nat.mod_upper_bound. lia. Qed.

(** A slot after a write. *)
Lemma slot_write r h i j x : length (events r) = n -> (event_tail r < n)%nat ->
  (i < n)%nat -> (j < n)%nat ->
  slot n (mkEventRing (<[((event_tail r + j) mod n)%nat:=x]> (events r))
    h (event_tail r)) i =
  if decide (i = j) then Some x else slot n r i.
Proof.
  intros Hl Ht Hi Hj. unfold slot. cbn [events event_tail].
  case_decide as Hd.
  - subst j. apply list_lookup_insert_eq. rewrite Hl. by apply slot_lt.
  - apply list_lookup_insert_ne. intros E. apply Hd. symmetry.
    by apply (slot_inj (event_tail r) j i).
Qed.

(** Moving the tail renumbers the slots. *)
Lemma slot_shift r (es : list (option A)) h i : (event_tail r < n)%nat -> (i < n)%nat ->
  slot n (mkEventRing es h ((event_tail r + 1) mod n)) i =
  es !! ((event_tail r + S i) mod n)%nat.
Proof.
  intros Ht Hi. unfold slot. cbn [events event_tail]. f_equal.
  rewrite Nat.Div0.add_mod_idemp_l. f_equal. lia.
Qed.

Lemma rep_new : ring_rep n (ring_new n) ([] : list A) None.
Proof using Hn.
  assert (Hs : forall i, (i < n)%nat -> slot n (ring_new (A:=A) n) i = Some None).
  { intros i Hi. unfold slot, ring_new. cbn [events event_tail].
    apply lookup_replicate_2, Nat.mod_upper_bound. lia. }
  split; cbn [ring_new events event_head event_tail length]; try lia.
  - by rewrite length_replicate.
  - by rewrite Nat.Div0.mod_0_l.
  - intros i x. by rewrite lookup_nil.
  - apply Hs. lia.
  - intros i Hi. apply Hs. lia.
Qed.

(** Writing at the head puts the event after the queue. *)
Lemma push_set r q s x : ring_rep n r q s ->
  set_idx (events r) (event_head r) (Some x) =
  Ret (<[((event_tail r + length q) mod n)%nat:=Some x]> (events r)).
Proof using Hn.
  intros []. rewrite set_idx_Ret; [by rewrite rep_head0|].
  rewrite rep_head0, rep_len0. by apply slot_lt.
Qed.

Lemma push_room r q s x : ring_rep n r q s -> (length q + 1 < n)%nat ->
  exists r', ring_push n r x = Ret r' /\ ring_rep n r' (q ++ [x]) None.
Proof using Hn.
  intros Hr Hq. unfold ring_push. rewrite (push_set _ _ _ _ Hr), obind_Ret.
  destruct Hr.
  assert (Hnx : ((event_head r + 1) mod n)%nat = ((event_tail r + (length q + 1)) mod n)%nat).
  { rewrite rep_head0. rewrite Nat.Div0.add_mod_idemp_l. f_equal. lia. }
  rewrite Hnx, (proj2 (Nat.eqb_neq _ _)).
  2:{ intros E. assert (length q + 1 = 0)%nat; [|lia].
      apply (slot_inj (event_tail r)); [lia..|]. rewrite E, Nat.add_0_r.
      symmetry. by apply Nat.mod_small. }
  eexists. split; [done|].
  pose proof (fun i j => slot_write r ((event_tail r + (length q + 1)) mod n)%nat i j (Some x)) as Hw.
  split; cbn [events event_head event_tail]; rewrite ?length_app; cbn [length]; try lia.
  - by rewrite length_insert.
  - intros i y Hi. apply lookup_app_Some in Hi as [Hi|[Hge Hi]].
    + pose proof (lookup_lt_Some _ _ _ Hi).
      rewrite (Hw i (length q)) by (done || lia). rewrite decide_False by lia. auto.
    + apply list_lookup_singleton_Some in Hi as [Hi <-].
      rewrite (Hw i (length q)) by (done || lia). by rewrite decide_True by lia.
  - rewrite (Hw _ (length q)) by (done || lia). rewrite decide_False by lia. apply rep_out0. lia.
  - intros i Hi. rewrite (Hw i (length q)) by (done || lia).
    rewrite decide_False by lia. apply rep_out0. lia.
Qed.

(** On a full ring the oldest event is dropped from the queue, but its slot
    is not cleared. *)
Lemma push_full r y q s x : ring_rep n r (y :: q) s -> (length q + 2 = n)%nat ->
  exists r', ring_push n r x = Ret r' /\ ring_rep n r' (q ++ [x]) (Some y).
Proof using Hn.
  intros Hr Hq. unfold ring_push. rewrite (push_set _ _ _ _ Hr), obind_Ret.
  destruct Hr. cbn [length] in *.
  assert (Hnx : ((event_head r + 1) mod n)%nat = event_tail r).
  { rewrite rep_head0, Nat.Div0.add_mod_idemp_l.
    replace (event_tail r + S (length q) + 1)%nat with (event_tail r + 1 * n)%nat by lia.
    rewrite Nat.Div0.mod_add. by apply Nat.mod_small. }
  rewrite Hnx, Nat.eqb_refl. eexists. split; [done|].
  set (es := <[_:=Some x]> (events r)).
  assert (Hs : forall i, (i < n)%nat ->
    es !! ((event_tail r + i) mod n)%nat = if decide (i = S (length q))
      then Some (Some x) else slot n r i).
  { intros i Hi. apply (slot_write r 0 i (S (length q))); (done || lia). }
  assert (Hsh : forall h i, (i < n)%nat ->
    slot n (mkEventRing es h ((event_tail r + 1) mod n)%nat) i =
    es !! ((event_tail r + S i) mod n)%nat).
  { intros h i Hi. apply slot_shift; (done || lia). }
  split; cbn [events event_head event_tail]; rewrite ?length_app; cbn [length]; try lia.
  - unfold es. by rewrite length_insert.
  - apply Nat.mod_upper_bound. lia.
  - rewrite Nat.Div0.add_mod_idemp_l.
    replace (event_tail r + 1 + (length q + 1))%nat with (event_tail r + 1 * n)%nat by lia.
    rewrite Nat.Div0.mod_add. symmetry. by apply Nat.mod_small.
  - intros i z Hi. apply lookup_app_Some in Hi as [Hi|[Hge Hi]].
    + pose proof (lookup_lt_Some _ _ _ Hi).
      rewrite Hsh, Hs, decide_False by lia. apply rep_in0. exact Hi.
    + apply list_lookup_singleton_Some in Hi as [Hi <-].
      by rewrite Hsh, Hs, decide_True by lia.
  - rewrite Hsh by lia.
    replace ((event_tail r + S (length q + 1)) mod n)%nat with ((event_tail r + 0) mod n)%nat.
    + rewrite Hs by lia. rewrite decide_False by lia. by apply rep_in0.
    + replace (event_tail r + S (length q + 1))%nat
        with (event_tail r + 0 + 1 * n)%nat by lia. by rewrite Nat.Div0.mod_add.
Qed.

(** Reading the slot at the tail. *)
Lemma next_at r x : (event_tail r < n)%nat -> length (events r) = n ->
  slot n r 0 = Some x ->
  ring_next n r = Ret (mkEventRing (<[event_tail r:=None]> (events r)) (event_head r)
    (match x with Some _ => ((event_tail r + 1) mod n)%nat | None => event_tail r end), x).
Proof using Hn.
  intros Ht Hl Hx. unfold slot in Hx. rewrite Nat.add_0_r, Nat.mod_small in Hx by done.
  unfold ring_next. rewrite (idx_Some _ _ _ Hx), obind_Ret, set_idx_Ret, obind_Ret by lia.
  done.
Qed.

Lemma pop_cons r x q s : ring_rep n r (x :: q) s ->
  exists r', ring_next n r = Ret (r', Some x) /\ ring_rep n r' q s.
Proof using Hn.
  intros []. cbn [length] in *. rewrite (next_at r (Some x)) by (try done; by apply rep_in0).
  eexists. split; [done|].
  set (es := <[event_tail r:=None]> (events r)).
  assert (Hs : forall i, (i < n)%nat ->
    es !! ((event_tail r + i) mod n)%nat = if decide (i = 0)%nat
      then Some None else slot n r i).
  { intros i Hi. pose proof (slot_write r 0 i 0 None rep_len0 rep_tail0 Hi ltac:(lia)) as E.
    unfold slot in E at 1. cbn [events event_tail] in E.
    rewrite Nat.add_0_r, (Nat.mod_small (event_tail r)) in E by done. exact E. }
  assert (Hsh : forall h i, (i < n)%nat ->
    slot n (mkEventRing es h ((event_tail r + 1) mod n)%nat) i =
    es !! ((event_tail r + S i) mod n)%nat).
  { intros h i Hi. apply slot_shift; (done || lia). }
  split; cbn [events event_head event_tail]; try lia.
  - unfold es. by rewrite length_insert.
  - apply Nat.mod_upper_bound. lia.
  - rewrite rep_head0, Nat.Div0.add_mod_idemp_l. f_equal. lia.
  - intros i z Hi. pose proof (lookup_lt_Some _ _ _ Hi).
    rewrite Hsh, Hs, decide_False by lia. by apply rep_in0.
  - rewrite Hsh, Hs, decide_False by lia. done.
  - intros i Hi. rewrite Hsh by lia. destruct (decide (S i = n)) as [E|E].
    + replace ((event_tail r + S i) mod n)%nat with ((event_tail r + 0) mod n)%nat.
      * rewrite Hs by lia. by rewrite decide_True by lia.
      * replace (event_tail r + S i)%nat with (event_tail r + 0 + 1 * n)%nat by lia.
        by rewrite Nat.Div0.mod_add.
    + rewrite Hs, decide_False by lia. apply rep_out0. lia.
Qed.

Lemma pop_nil r : ring_rep n r [] None ->
  exists r', ring_next n r = Ret (r', None) /\ ring_rep n r' [] None.
Proof using Hn.
  intros Hr. pose proof Hr as []. cbn [length] in *.
  rewrite (next_at r None) by done. eexists. split; [done|].
  unfold slot in rep_next0. rewrite Nat.add_0_r, Nat.mod_small in rep_next0 by done.
  rewrite list_insert_id by done. by destruct r.
Qed.

(** The stale event comes back after the queue is drained, and leaves the
    tail past the head. *)
Definition desynced r : Prop :=
  length (events r) = n /\ (event_head r < n)%nat /\
  event_tail r = ((event_head r + 1) mod n)%nat /\
  forall i, (i < n)%nat -> events r !! i = Some None.

Lemma all_slots r i : length (events r) = n -> (event_tail r < n)%nat -> (i < n)%nat ->
  exists j, (j < n)%nat /\ ((event_tail r + j) mod n)%nat = i.
Proof using Hn.
  intros Hl Ht Hi. destruct (decide (event_tail r <= i)%nat).
  - exists (i - event_tail r)%nat. split; [lia|]. rewrite Nat.mod_small; lia.
  - exists (n + i - event_tail r)%nat. split; [lia|].
    replace (event_tail r + (n + i - event_tail r))%nat with (i + 1 * n)%nat by lia.
    rewrite Nat.Div0.mod_add. by apply Nat.mod_small.
Qed.

Lemma pop_stale r y : ring_rep n r [] (Some y) ->
  exists r', ring_next n r = Ret (r', Some y) /\ desynced r'.
Proof using Hn.
  intros []. cbn [length] in *. rewrite (next_at r (Some y)) by done.
  eexists. split; [done|]. rewrite Nat.add_0_r, Nat.mod_small in rep_head0 by done.
  unfold desynced. cbn [events event_head event_tail].
  split; [by rewrite length_insert|]. split; [lia|]. split; [by rewrite rep_head0|].
  intros i Hi. destruct (all_slots r i) as (j & Hj & <-); [done..|].
  destruct (decide (j = 0)%nat) as [->|Hj0].
  - rewrite Nat.add_0_r, Nat.mod_small by done. apply list_lookup_insert_eq. lia.
  - rewrite list_lookup_insert_ne.
    + apply rep_out0. lia.
    + intros E. apply Hj0, (slot_inj (event_tail r)); [lia..|].
      rewrite <- E, Nat.add_0_r. symmetry. by apply Nat.mod_small.
Qed.

(** A desynchronised ring hides what is pushed into it. *)
Lemma desynced_push r x : desynced r -> (3 <= n)%nat ->
  exists r1 r2, ring_push n r x = Ret r1 /\ ring_next n r1 = Ret (r2, None).
Proof using Hn.
  intros (Hl & Hh & Ht & Hall) H3. unfold ring_push.
  rewrite set_idx_Ret, obind_Ret by lia.
  rewrite (proj2 (Nat.eqb_eq _ _)) by done. eexists. eexists. split; [done|].
  set (t := ((event_tail r + 1) mod n)%nat).
  assert (Htl : (t < n)%nat) by (apply Nat.mod_upper_bound; lia).
  assert (Hne : t <> event_head r).
  { unfold t. rewrite Ht, Nat.Div0.add_mod_idemp_l. intros E.
    assert (1 + 1 = 0)%nat; [|lia]. apply (slot_inj (event_head r)); [lia..|].
    rewrite Nat.add_0_r, (Nat.mod_small (event_head r)) by done.
    by rewrite Nat.add_assoc. }
  rewrite (next_at _ None).
  - reflexivity.
  - done.
  - cbn [events]. by rewrite length_insert.
  - unfold slot. cbn [events event_tail]. rewrite Nat.add_0_r, Nat.mod_small by done.
    rewrite list_lookup_insert_ne by done. by apply Hall.
Qed.

(** Running a whole trace. *)
Lemma ring_run_fifo ops r q : ring_rep n r q None ->
  fifo_fits (n - 1) (length q) ops = true ->
  exists r', ring_run n r ops = Ret (r', snd (fifo_run q ops)) /\
    ring_rep n r' (fst (fifo_run q ops)) None.
Proof using Hn.
  revert r q. induction ops as [|[x|] ops IH]; intros r q Hr Hf.
  - by exists r.
  - cbn [fifo_fits] in Hf. apply andb_prop in Hf as [Hlt%Nat.ltb_lt Hf].
    destruct (push_room r q None x Hr ltac:(lia)) as (r1 & E & Hr1).
    destruct (IH r1 (q ++ [x]) Hr1) as (r2 & E2 & Hr2).
    { rewrite length_app. cbn [length]. by rewrite Nat.add_1_r. }
    exists r2. cbn [ring_run fifo_run]. by rewrite E, obind_Ret.
  - cbn [fifo_fits ring_run fifo_run] in *. destruct q as [|x q].
    + destruct (pop_nil r Hr) as (r1 & E & Hr1).
      destruct (IH r1 [] Hr1 Hf) as (r2 & E2 & Hr2). exists r2.
      rewrite E, obind_Ret, E2, obind_Ret. by destruct (fifo_run [] ops).
    + destruct (pop_cons r x q None Hr) as (r1 & E & Hr1).
      destruct (IH r1 q Hr1 Hf) as (r2 & E2 & Hr2). exists r2.
      rewrite E, obind_Ret, E2, obind_Ret. by destruct (fifo_run q ops).
Qed.

(** Draining a queue with a stale event behind it. *)
Lemma drain_stale r q y : ring_rep n r q (Some y) ->
  exists r', ring_drain n (length q + 1) r = Ret (r', (Some <$> q) ++ [Some y]) /\
    desynced r'.
Proof using Hn.
  revert r. unfold ring_drain. induction q as [|x q IH]; intros r Hr.
  - cbn [length Nat.add replicate ring_run fmap list_fmap app].
    destruct (pop_stale r y Hr) as (r' & E & Hd). exists r'. by rewrite E.
  - cbn [length Nat.add replicate ring_run fmap list_fmap app].
    destruct (pop_cons r x q _ Hr) as (r1 & E & Hr1).
    destruct (IH r1 Hr1) as (r2 & E2 & Hd). exists r2.
    by rewrite E, obind_Ret, E2, obind_Ret.
Qed.

End lemmas.

Lemma fill_fits {A} (q : list A) k len : (len + length q <= k)%nat ->
  fifo_fits k len (Push <$> q) = true.
Proof.
  revert len. induction q as [|x q IH]; intros len H; [done|].
  cbn [length] in H. cbn [fmap list_fmap fifo_fits].
  rewrite (proj2 (Nat.ltb_lt _ _)) by lia. apply IH. lia.
Qed.

Lemma fill_run {A} (q p : list A) : fifo_run p (Push <$> q) = (p ++ q, []).
Proof.
  revert p. induction q as [|x q IH]; intros p; cbn [fmap list_fmap fifo_run].
  - by rewrite app_nil_r.
  - by rewrite IH, <- app_assoc.
Qed.

(** ** Properties *)

(** C32. The event ring is a first-in first-out queue as long as it never
    holds more than [n - 1] events: any sequence of [push_event] and
    [next_event] from the empty ring of length [n] returns what an unbounded
    queue returns, and nothing panics. *)
Theorem event_ring_fifo {A} (n : nat) (ops : list (qop A)) :
  (2 <= n)%nat -> fifo_fits (n - 1) 0 ops = true ->
  exists r, ring_run n (ring_new n) ops = Ret (r, snd (fifo_run [] ops)).
Proof.
  intros Hn Hf. destruct (ring_run_fifo n Hn ops (ring_new n) []) as (r & E & _);
    [by apply rep_new | done | by exists r].
Qed.

Lemma event_ring_fifo_witness :
  exists r, ring_run 8 (ring_new 8) [Push 1; Push 2; Pop; Push 3; Pop; Pop; Pop] =
    Ret (r, [Some 1; Some 2; Some 3; None]).
Proof.
  apply (event_ring_fifo 8 [Push 1; Push 2; Pop; Push 3; Pop; Pop; Pop]);
    [lia | reflexivity].
Defined.

(** Overflow loses the order: pushing [n] events into an empty ring of
    length [n] and draining it returns the newest [n - 1] in order and then
    the oldest one, which was meant to be dropped; and the drained ring hides
    the next event pushed, because its tail has passed its head. *)
Theorem event_ring_overflow {A} (n : nat) (y : A) (q : list A) (x z : A) :
  (3 <= n)%nat -> (length q + 2 = n)%nat ->
  exists r1 r2 r3 r4,
    ring_run n (ring_new n) (Push <$> (y :: q ++ [x])) = Ret (r1, []) /\
    ring_drain n n r1 = Ret (r2, (Some <$> (q ++ [x])) ++ [Some y]) /\
    ring_push n r2 z = Ret r3 /\ ring_next n r3 = Ret (r4, None).
Proof.
  intros H3 Hq. assert (Hn : (2 <= n)%nat) by lia.
  destruct (ring_run_fifo n Hn (Push <$> (y :: q)) (ring_new n) []) as (r0 & E0 & Hr0).
  { by apply rep_new. }
  { apply fill_fits. cbn [length]. lia. }
  rewrite fill_run in E0, Hr0. cbn [fst snd app] in E0, Hr0.
  destruct (push_full n Hn r0 y q None x Hr0 Hq) as (r1 & E1 & Hr1).
  destruct (drain_stale n Hn r1 _ y Hr1) as (r2 & E2 & Hd).
  destruct (desynced_push n Hn r2 z Hd H3) as (r3 & r4 & E3 & E4).
  exists r1, r2, r3, r4. split; [|split; [|done]].
  - revert E0 E1. generalize (ring_new (A:=A) n). change (y :: q ++ [x]) with ((y :: q) ++ [x]).
    generalize (y :: q). intros l. induction l as [|a l IH]; intros r E0 E1.
    + cbn [fmap list_fmap ring_run app] in *. simplify_eq. by rewrite E1.
    + cbn [fmap list_fmap ring_run app] in *.
      destruct (ring_push n r a) as [r'|]; [|discriminate]. rewrite obind_Ret in *. auto.
  - replace n with (length (q ++ [x]) + 1)%nat at 2 by (rewrite length_app; cbn; lia). done.
Qed.

Lemma event_ring_overflow_witness :
  exists r1 r2 r3 r4,
    ring_run 4 (ring_new 4) (Push <$> [1; 2; 3; 4]) = Ret (r1, []) /\
    ring_drain 4 4 r1 = Ret (r2, [Some 2; Some 3; Some 4; Some 1]) /\
    ring_push 4 r2 5 = Ret r3 /\ ring_next 4 r3 = Ret (r4, None).
Proof. apply (event_ring_overflow 4 1 [2; 3] 4 5); [lia | reflexivity]. Defined.
