(* ===== verification/Hci.v ===== *)
(** The HCI layer ([src/hci.rs]): packets, H4 framing, command handling and
    the forwarding of stack events, against an interface of the stack. *)

From stdpp Require Import base numbers list.
From S2P Require Import Prelude Errors Addr Pdu Events EventQueue.

(** ** Constants *)

Definition HCI_COMMAND : Z := 0x01.
Definition HCI_ACL_DATA : Z := 0x02.
Definition HCI_SCO_DATA : Z := 0x03.
Definition HCI_EVENT : Z := 0x04.
Definition HCI_EVT_COMMAND_COMPLETE : Z := 0x0E.
Definition HCI_EVT_COMMAND_STATUS : Z := 0x0F.
Definition HCI_EVT_DISCONNECTION_COMPLETE : Z := 0x05.
Definition HCI_EVT_LE_META : Z := 0x3E.
Definition HCI_LE_ADVERTISING_REPORT : Z := 0x02.
Definition HCI_LE_CONNECTION_COMPLETE : Z := 0x01.
Definition HCI_LE_CONNECTION_UPDATE_COMPLETE : Z := 0x03.

Definition OGF_HOST : Z := 0x03.
Definition OGF_LE : Z := 0x08.
Definition OCF_READ_LOCAL_VERSION : Z := 0x0001.
Definition OCF_READ_BD_ADDR : Z := 0x0009.
Definition OCF_READ_BUFFER_SIZE : Z := 0x0005.
Definition OCF_LE_SET_ADV_PARAMS : Z := 0x0006.
Definition OCF_LE_SET_ADV_DATA : Z := 0x0008.
Definition OCF_LE_SET_ADV_ENABLE : Z := 0x000A.
Definition OCF_LE_SET_SCAN_PARAMS : Z := 0x000B.
Definition OCF_LE_SET_SCAN_ENABLE : Z := 0x000C.
Definition OCF_LE_CREATE_CONNECTION : Z := 0x000D.
Definition OCF_LE_SET_RANDOM_ADDRESS : Z := 0x0005.

(** ** Packets *)

Record HciPacket := mkHciPacket {
  hp_packet_type : Z;
  hp_payload : list Z;   (* [u8; 260] *)
  hp_len : nat
}.

Definition HciPacket_command (ogf ocf : Z) (params : list Z) : outcome HciPacket :=
  let payload := replicate 260 0 in
  let! payload := set_idx payload 0 (u8 (ocf .& 0xFF)) in
  let! payload := set_idx payload 1
    (u8 ((ocf .>> 8) .& 0x03) .| u8 ((ogf .& 0x3F) .<< 2)) in
  let! payload := set_idx payload 2 (u8 (Z.of_nat (length params))) in
  let! payload := copy_at payload 3 (3 + length params) params in
  Ret (mkHciPacket HCI_COMMAND payload (3 + length params)).

Definition HciPacket_event (code : Z) (data : list Z) : outcome HciPacket :=
  let payload := replicate 260 0 in
  let! payload := set_idx payload 0 code in
  let! payload := set_idx payload 1 (u8 (Z.of_nat (length data))) in
  let! payload := copy_at payload 2 (2 + length data) data in
  Ret (mkHciPacket HCI_EVENT payload (2 + length data)).

Definition HciPacket_acl (handle : Z) (data : list Z) : outcome HciPacket :=
  let payload := replicate 260 0 in
  let n := Z.of_nat (length data) in
  let! payload := set_idx payload 0 (u8 (handle .& 0x0FFF)) in
  let! payload := set_idx payload 1 (u8 (handle .>> 8)) in
  let! payload := set_idx payload 2 (u8 (n .& 0xFF)) in
  let! payload := set_idx payload 3 (u8 (n .>> 8)) in
  let! payload := copy_at payload 4 (4 + length data) data in
  Ret (mkHciPacket HCI_ACL_DATA payload (4 + length data)).

(** ** H4 framing *)

Record H4Framer := mkH4Framer {
  fr_packet_type : option Z;
  fr_expected : nat;
  fr_buf : list Z;   (* [u8; 260] *)
  fr_buf_len : nat
}.

Definition H4Framer_new : H4Framer := mkH4Framer None 0 (replicate 260 0) 0.

(** [Default]. *)
Definition H4Framer_default : H4Framer := H4Framer_new.

Definition H4Framer_reset (self : H4Framer) : H4Framer :=
  mkH4Framer None 0 (fr_buf self) (fr_buf_len self).

(** The three arms that collect a frame of type [t] differ in the length
    [hdr] of its header and in how the header gives the frame's length. *)
Definition feed_arm (self : H4Framer) (byte t : Z) (hdr : nat)
    (expected : list Z -> outcome nat) : outcome (H4Framer * option HciPacket) :=
  let! buf := set_idx (fr_buf self) (fr_buf_len self) byte in
  let self := mkH4Framer (fr_packet_type self) (fr_expected self) buf
                (fr_buf_len self + 1) in
  let! self :=
    if (fr_buf_len self =? hdr)%nat then
      let! e := expected (fr_buf self) in
      Ret (mkH4Framer (fr_packet_type self) e (fr_buf self) (fr_buf_len self))
    else Ret self in
  if (fr_buf_len self =? fr_expected self)%nat && (hdr <=? fr_expected self)%nat then
    let self := H4Framer_reset self in
    Ret (self, Some (mkHciPacket t (fr_buf self) (fr_buf_len self)))
  else Ret (self, None).

Definition command_expected (buf : list Z) : outcome nat :=
  let! b := idx buf 2 in Ret (3 + Z.to_nat b)%nat.
Definition event_expected (buf : list Z) : outcome nat :=
  let! b := idx buf 1 in Ret (2 + Z.to_nat b)%nat.
Definition acl_expected (buf : list Z) : outcome nat :=
  let! a := idx buf 2 in
  let! b := idx buf 3 in
  Ret (4 + Z.to_nat (u16_from_le a b))%nat.

Definition H4Framer_feed (self : H4Framer) (byte : Z)
    : outcome (H4Framer * option HciPacket) :=
  match fr_packet_type self with
  | None =>
      if (byte =? HCI_COMMAND) || (byte =? HCI_ACL_DATA) || (byte =? HCI_EVENT)
      then Ret (mkH4Framer (Some byte) (fr_expected self) (fr_buf self) 0, None)
      else Ret (self, None)
  | Some t =>
      if t =? HCI_COMMAND then feed_arm self byte HCI_COMMAND 3 command_expected
      else if t =? HCI_EVENT then feed_arm self byte HCI_EVENT 2 event_expected
      else if t =? HCI_ACL_DATA then feed_arm self byte HCI_ACL_DATA 4 acl_expected
      else Ret (self, None)
  end.

(** ** What the HCI layer uses of the stack *)

(** The well-formedness of a report the stack produces: array lengths. *)
Definition event_wf (e : BleEvent) : Prop :=
  match e with
  | ScanReport addr _ _ _ data data_len =>
      length addr = 6%nat /\ length data = 31%nat /\ (data_len <= 31)%nat
  | _ => True
  end.

(** The operations of [Ble] it calls, and what it relies on: an invariant
    under which they return and which they preserve, and a finite queue of
    well-formed events. *)
Class BleHost (B : Type) := {
  host_next_event : B -> outcome (B * option BleEvent);
  host_conn_is_master : B -> bool;
  host_adv_set_configure : B -> list Z -> list Z -> outcome (B * result unit Error);
  host_adv_start : B -> AdvParams -> outcome (B * result unit Error);
  host_adv_stop : B -> B * result unit Error;
  host_scan_start : B -> ScanParams -> outcome (B * result unit Error);
  host_scan_stop : B -> B * result unit Error;
  host_connect : B -> list Z -> AddrType -> outcome (B * result unit Error);
  host_inv : B -> Prop;
  host_pending : B -> nat;
  host_next_event_ok b : host_inv b ->
    exists b' e, host_next_event b = Ret (b', e) /\ host_inv b' /\
    match e with
    | Some e => event_wf e /\ (host_pending b' < host_pending b)%nat
    | None => b' = b
    end;
  host_adv_set_configure_ok b d : host_inv b -> (length d <= 31)%nat ->
    exists b' r, host_adv_set_configure b d [] = Ret (b', r) /\ host_inv b';
  host_adv_start_ok b : host_inv b ->
    exists b' r, host_adv_start b AdvParams_default = Ret (b', r) /\ host_inv b';
  host_adv_stop_ok b : host_inv b -> host_inv (fst (host_adv_stop b));
  host_scan_start_ok b : host_inv b ->
    exists b' r, host_scan_start b ScanParams_default = Ret (b', r) /\ host_inv b';
  host_scan_stop_ok b : host_inv b -> host_inv (fst (host_scan_stop b));
  host_connect_ok b a t : host_inv b -> length a = 6%nat ->
    exists b' r, host_connect b a t = Ret (b', r) /\ host_inv b'
}.

(** ** The controller layer *)

Definition HCI_QUEUE_LEN : nat := 16.

Record Hci := mkHci {
  hci_framer : H4Framer;
  hci_events : EventRing HciPacket;
  hci_own_addr : list Z;
  hci_adv_enabled : bool;
  hci_scan_enabled : bool;
  hci_conn_handle : Z;
  hci_connection_open : bool
}.

Definition Hci_new : Hci :=
  mkHci H4Framer_new (ring_new HCI_QUEUE_LEN) (replicate 6 0) false false 0 false.

(** [Default]. *)
Definition Hci_default : Hci := Hci_new.

Definition set_hci_events (es : EventRing HciPacket) (self : Hci) : Hci :=
  mkHci (hci_framer self) es (hci_own_addr self) (hci_adv_enabled self)
    (hci_scan_enabled self) (hci_conn_handle self) (hci_connection_open self).
Definition set_hci_own_addr (a : list Z) (self : Hci) : Hci :=
  mkHci (hci_framer self) (hci_events self) a (hci_adv_enabled self)
    (hci_scan_enabled self) (hci_conn_handle self) (hci_connection_open self).
Definition set_hci_adv_enabled (b : bool) (self : Hci) : Hci :=
  mkHci (hci_framer self) (hci_events self) (hci_own_addr self) b
    (hci_scan_enabled self) (hci_conn_handle self) (hci_connection_open self).
Definition set_hci_scan_enabled (b : bool) (self : Hci) : Hci :=
  mkHci (hci_framer self) (hci_events self) (hci_own_addr self)
    (hci_adv_enabled self) b (hci_conn_handle self) (hci_connection_open self).
Definition set_hci_connection (open : bool) (h : Z) (self : Hci) : Hci :=
  mkHci (hci_framer self) (hci_events self) (hci_own_addr self)
    (hci_adv_enabled self) (hci_scan_enabled self) h open.

Definition Hci_feed (self : Hci) (byte : Z) : outcome (Hci * option HciPacket) :=
  let! (f, p) := H4Framer_feed (hci_framer self) byte in
  Ret (mkHci f (hci_events self) (hci_own_addr self) (hci_adv_enabled self)
         (hci_scan_enabled self) (hci_conn_handle self) (hci_connection_open self), p).

Definition Hci_next_event (self : Hci) : outcome (Hci * option HciPacket) :=
  let! (es, e) := ring_next HCI_QUEUE_LEN (hci_events self) in
  Ret (set_hci_events es self, e).

Definition Hci_push_event (self : Hci) (evt : HciPacket) : outcome Hci :=
  let! es := ring_push HCI_QUEUE_LEN (hci_events self) evt in
  Ret (set_hci_events es self).

Definition command_complete (self : Hci) (op : Z * Z) (status : Z) (params : list Z)
    : outcome Hci :=
  let payload := replicate 260 0 in
  let! payload := set_idx payload 0 1 in
  let! payload := set_idx payload 1 (fst op) in
  let! payload := set_idx payload 2 (snd op) in
  let! payload := set_idx payload 3 status in
  let! payload := copy_at payload 4 (4 + length params) params in
  let! s := slice_to payload (4 + length params) in
  let! e := HciPacket_event HCI_EVT_COMMAND_COMPLETE s in
  Hci_push_event self e.

Definition command_status (self : Hci) (op : Z * Z) (status : Z) : outcome Hci :=
  let! e := HciPacket_event HCI_EVT_COMMAND_STATUS [status; 1; fst op; snd op; 0] in
  Hci_push_event self e.

Section host.
Context {B : Type} `{!BleHost B}.

(** [OCF_LE_SET_ADV_DATA]; the result of the configuration is ignored. *)
Definition le_set_adv_data (ble : B) (params : list Z) : outcome B :=
  if (32 <=? length params)%nat then
    let! p0 := idx params 0 in
    let n := Nat.min (Z.to_nat p0) 31 in
    let! src := slice params 1 (1 + n) in
    let! buf := copy_at (replicate 31 0) 0 n src in
    let! data := slice_to buf n in
    let! (ble, _) := host_adv_set_configure ble data [] in
    Ret ble
  else Ret ble.

(** [params.first() == Some(&1)]. *)
Definition first_is_1 (params : list Z) : bool :=
  match params with p :: _ => p =? 1 | [] => false end.

Definition le_set_adv_enable (self : Hci) (ble : B) (params : list Z)
    : outcome (Hci * B) :=
  if first_is_1 params then
    let! (ble, _) := host_adv_start ble AdvParams_default in
    Ret (set_hci_adv_enabled true self, ble)
  else
    let (ble, _) := host_adv_stop ble in
    Ret (set_hci_adv_enabled false self, ble).

Definition le_set_scan_enable (self : Hci) (ble : B) (params : list Z)
    : outcome (Hci * B) :=
  if first_is_1 params then
    let! (ble, _) := host_scan_start ble ScanParams_default in
    Ret (set_hci_scan_enabled true self, ble)
  else
    let (ble, _) := host_scan_stop ble in
    Ret (set_hci_scan_enabled false self, ble).

Definition le_create_connection (ble : B) (params : list Z) : outcome B :=
  if (25 <=? length params)%nat then
    let! s := slice params 14 20 in
    let! target := copy_at (replicate 6 0) 0 6 s in
    let! (ble, _) := host_connect ble target Public in
    Ret ble
  else Ret ble.

Definition le_set_random_address (self : Hci) (params : list Z) : outcome Hci :=
  if (6 <=? length params)%nat then
    let! s := slice_to params 6 in
    let! a := copy_at (replicate 6 0) 0 6 s in
    Ret (set_hci_own_addr a self)
  else Ret self.

Definition handle_command (self : Hci) (ble : B) (packet : HciPacket)
    : outcome (Hci * B) :=
  let! b0 := idx (hp_payload packet) 0 in
  let! b1 := idx (hp_payload packet) 1 in
  let opcode := b0 .| (b1 .<< 8) in
  let ocf := opcode .& 0x03FF in
  let ogf := u8 ((opcode .>> 10) .& 0x3F) in
  let! params := slice (hp_payload packet) 3 (hp_len packet) in
  let op := (b0, b1) in
  if ogf =? OGF_HOST then
    let! self :=
      if ocf =? OCF_READ_LOCAL_VERSION then
        command_complete self op 0 [0x0C; 0x00; 0x00; 0x00; 0x00; 0x00; 0x00; 0x00]
      else if ocf =? OCF_READ_BD_ADDR then
        let! p := copy_at (replicate 6 0) 0 6 (hci_own_addr self) in
        command_complete self op 0 p
      else if ocf =? OCF_READ_BUFFER_SIZE then
        command_complete self op 0 [0x00; 0x00; 0x00; 0x00; 0x00; 0x00; 0x00; 0x00]
      else command_complete self op 0 [] in
    Ret (self, ble)
  else if ogf =? OGF_LE then
    if ocf =? OCF_LE_SET_ADV_DATA then
      let! ble := le_set_adv_data ble params in
      let! self := command_complete self op 0 [] in Ret (self, ble)
    else if ocf =? OCF_LE_SET_ADV_PARAMS then
      let! self := command_complete self op 0 [] in Ret (self, ble)
    else if ocf =? OCF_LE_SET_ADV_ENABLE then
      let! (self, ble) := le_set_adv_enable self ble params in
      let! self := command_complete self op 0 [] in Ret (self, ble)
    else if ocf =? OCF_LE_SET_SCAN_PARAMS then
      let! self := command_complete self op 0 [] in Ret (self, ble)
    else if ocf =? OCF_LE_SET_SCAN_ENABLE then
      let! (self, ble) := le_set_scan_enable self ble params in
      let! self := command_complete self op 0 [] in Ret (self, ble)
    else if ocf =? OCF_LE_CREATE_CONNECTION then
      let! ble := le_create_connection ble params in
      let! self := command_status self op 0 in Ret (self, ble)
    else if ocf =? OCF_LE_SET_RANDOM_ADDRESS then
      let! self := le_set_random_address self params in
      let! self := command_complete self op 0 [] in Ret (self, ble)
    else
      let! self := command_complete self op 0 [] in Ret (self, ble)
  else
    let! self := command_complete self op 0 [] in Ret (self, ble).

Definition handle_acl (self : Hci) (ble : B) (packet : HciPacket) : outcome (Hci * B) :=
  Ret (self, ble).

Definition on_packet (self : Hci) (ble : B) (packet : HciPacket) : outcome (Hci * B) :=
  if hp_packet_type packet =? HCI_COMMAND then handle_command self ble packet
  else if hp_packet_type packet =? HCI_ACL_DATA then handle_acl self ble packet
  else Ret (self, ble).

(** The [ScanReport] arm of [tick]: the payload of the LE meta event. *)
Definition report_payload (addr : list Z) (addr_type : AddrType) (adv_type rssi : Z)
    (data : list Z) (data_len : nat) : outcome (list Z) :=
  let n := Nat.min data_len 27 in
  let total := (11 + n + 1)%nat in
  let payload := replicate 260 0 in
  let! payload := set_idx payload 0 HCI_LE_ADVERTISING_REPORT in
  let! payload := set_idx payload 1 1 in
  let! payload := set_idx payload 2 adv_type in
  let! payload := set_idx payload 3 (if is_random addr_type then 0x01 else 0x00) in
  let! payload := copy_at payload 4 10 addr in
  let! payload := set_idx payload 10 (u8 (Z.of_nat n)) in
  let! d := slice_to data n in
  let! payload := copy_at payload 11 (11 + n) d in
  let! payload := set_idx payload (11 + n) (u8 rssi) in
  slice_to payload total.

(** The [Connected] arm: the payload of the LE meta event. *)
Definition connected_payload (master : bool) (conn : ConnectReqData) : outcome (list Z) :=
  let p := replicate 19 0 in
  let! p := set_idx p 0 0 in
  let! p := set_idx p 1 0 in
  let! p := set_idx p 2 0 in
  let! p := set_idx p 3 (if master then 0x01 else 0x00) in
  let! p := set_idx p 4 0 in
  let! p := fill_at p 5 11 0 in
  let! p := set_idx p 11 (u8 (cr_interval conn)) in
  let! p := set_idx p 12 (u8 (cr_interval conn .>> 8)) in
  let! p := set_idx p 13 0 in
  let! p := set_idx p 14 0 in
  let! p := set_idx p 15 (u8 (cr_timeout conn)) in
  let! p := set_idx p 16 (u8 (cr_timeout conn .>> 8)) in
  let! p := set_idx p 17 0 in
  let! p := set_idx p 18 0 in
  let payload := replicate 260 0 in
  let! payload := set_idx payload 0 HCI_LE_CONNECTION_COMPLETE in
  let! payload := set_idx payload 1 0 in
  let! payload := copy_at payload 2 21 p in
  slice_to payload 21.

(** One iteration of [tick]. *)
Definition tick_event (self : Hci) (ble : B) (evt : BleEvent) : outcome Hci :=
  match evt with
  | ScanReport addr addr_type adv_type rssi data data_len =>
      let! p := report_payload addr addr_type adv_type rssi data data_len in
      let! e := HciPacket_event HCI_EVT_LE_META p in
      Hci_push_event self e
  | Connected conn =>
      let self := set_hci_connection true 0 self in
      let! p := connected_payload (host_conn_is_master ble) conn in
      let! e := HciPacket_event HCI_EVT_LE_META p in
      Hci_push_event self e
  | Disconnected reason =>
      let! e := HciPacket_event HCI_EVT_DISCONNECTION_COMPLETE
                  [0; 0; 0; DisconnectReason_u8 reason] in
      let! self := Hci_push_event self e in
      Ret (set_hci_connection false (hci_conn_handle self) self)
  | _ => Ret self
  end.

(** The [while let] loop, with fuel. *)
Fixpoint tick_loop (fuel : nat) (self : Hci) (ble : B) : run (Hci * B) :=
  match fuel with
  | O => OutOfFuel
  | S fuel =>
      do* (ble, evt) := host_next_event ble in
      match evt with
      | None => Done (self, ble)
      | Some evt =>
          do* self := tick_event self ble evt in
          tick_loop fuel self ble
      end
  end.

(** The loop drains the stack's queue: its length is enough fuel. *)
Definition tick (self : Hci) (ble : B) : run (Hci * B) :=
  tick_loop (S (host_pending ble)) self ble.

End host.

(** ** Specification of framing *)

(** Feeding a string of bytes: the framer afterwards and each call's result. *)
Fixpoint feed_all (f : H4Framer) (bs : list Z)
    : outcome (H4Framer * list (option HciPacket)) :=
  match bs with
  | [] => Ret (f, [])
  | b :: bs =>
      let! (f, o) := H4Framer_feed f b in
      let! (f, os) := feed_all f bs in
      Ret (f, o :: os)
  end.

(** The bytes of a packet on the wire. *)
Definition wire (p : HciPacket) : list Z :=
  hp_packet_type p :: take (hp_len p) (hp_payload p).

Definition same_packet (p q : HciPacket) : Prop :=
  hp_packet_type p = hp_packet_type q /\ hp_len p = hp_len q /\
  take (hp_len p) (hp_payload p) = take (hp_len q) (hp_payload q).

(** The packets that fit the buffer, as the constructors build them. *)
Definition built (p : HciPacket) : Prop :=
  (exists ogf ocf params, (length params <= 255)%nat /\
     HciPacket_command ogf ocf params = Ret p) \/
  (exists code data, (length data <= 255)%nat /\ HciPacket_event code data = Ret p) \/
  (exists handle data, (length data <= 256)%nat /\ HciPacket_acl handle data = Ret p).

Definition idle (f : H4Framer) : Prop :=
  fr_packet_type f = None /\ fr_expected f = 0%nat /\ length (fr_buf f) = 260%nat.

(** The arm of a packet type. *)
Definition arm_of (t : Z) : option (nat * (list Z -> outcome nat)) :=
  if t =? HCI_COMMAND then Some (3%nat, command_expected)
  else if t =? HCI_EVENT then Some (2%nat, event_expected)
  else if t =? HCI_ACL_DATA then Some (4%nat, acl_expected)
  else None.

(** A packet whose header announces its length. *)
Definition framed (p : HciPacket) : Prop :=
  length (hp_payload p) = 260%nat /\ (hp_len p <= 260)%nat /\
  exists hdr ex, arm_of (hp_packet_type p) = Some (hdr, ex) /\
    (hdr <= hp_len p)%nat /\ ex (hp_payload p) = Ret (hp_len p).

(** ** Lemmas on framing *)

Lemma feed_all_app f bs1 bs2 :
  feed_all f (bs1 ++ bs2) =
  let! (f, os1) := feed_all f bs1 in
  let! (f, os2) := feed_all f bs2 in
  Ret (f, os1 ++ os2).
Proof.
  revert f. induction bs1 as [|b bs1 IH]; intros f.
  - cbn [app feed_all]. rewrite obind_Ret.
    by destruct (feed_all f bs2) as [[]|].
  - cbn [app feed_all]. destruct (H4Framer_feed f b) as [[f1 o]|]; [|done].
    cbn [obind]. rewrite IH. destruct (feed_all f1 bs1) as [[f2 os]|]; [|done].
    cbn [obind]. by destruct (feed_all f2 bs2) as [[]|].
Qed.

(** A header's length is read from its own bytes. *)
Lemma idx_take (l k : list Z) i n : (i < n)%nat -> take n l = take n k -> idx l i = idx k i.
Proof.
  intros Hi E. unfold idx. rewrite <- (lookup_take_lt l n) by done.
  by rewrite E, lookup_take_lt.
Qed.

Lemma arm_reads_header t hdr ex l k : arm_of t = Some (hdr, ex) ->
  take hdr l = take hdr k -> ex l = ex k.
Proof.
  unfold arm_of. intros H E. repeat case_match; simplify_eq;
    unfold command_expected, event_expected, acl_expected.
  - by rewrite (idx_take l k 2 3) by (done || lia).
  - by rewrite (idx_take l k 1 2) by (done || lia).
  - by rewrite (idx_take l k 2 4), (idx_take l k 3 4) by (done || lia).
Qed.

Lemma arm_feed t hdr ex f b : arm_of t = Some (hdr, ex) ->
  fr_packet_type f = Some t -> H4Framer_feed f b = feed_arm f b t hdr ex.
Proof.
  unfold arm_of, H4Framer_feed. intros H ->.
  destruct (Z.eqb_spec t HCI_COMMAND) as [->|]; [by simplify_eq|].
  destruct (Z.eqb_spec t HCI_EVENT) as [->|]; [by simplify_eq|].
  destruct (Z.eqb_spec t HCI_ACL_DATA) as [->|]; [by simplify_eq|]. done.
Qed.

Lemma arm_start t hdr ex f : arm_of t = Some (hdr, ex) -> idle f ->
  (1 < hdr <= 4)%nat /\
  H4Framer_feed f t = Ret (mkH4Framer (Some t) 0 (fr_buf f) 0, None).
Proof.
  unfold arm_of, H4Framer_feed. intros H (-> & -> & Hb).
  destruct (Z.eqb_spec t HCI_COMMAND) as [->|]; [simplify_eq; split; [lia|done]|].
  destruct (Z.eqb_spec t HCI_EVENT) as [->|]; [simplify_eq; split; [lia|done]|].
  destruct (Z.eqb_spec t HCI_ACL_DATA) as [->|]; [simplify_eq; split; [lia|done]|]. done.
Qed.

Section collect.
Context (t : Z) (hdr tot : nat) (ex : list Z -> outcome nat) (full : list Z).
Context (Harm : arm_of t = Some (hdr, ex)) (Hhdr : (1 < hdr <= tot)%nat).
Context (Hfull : (hdr <= length full)%nat) (Hex : ex full = Ret tot).

(** [k] bytes of [full] have been collected. *)
Definition collected (f : H4Framer) (k : nat) : Prop :=
  fr_packet_type f = Some t /\ fr_buf_len f = k /\ length (fr_buf f) = 260%nat /\
  take k (fr_buf f) = take k full /\
  fr_expected f = if decide (k < hdr)%nat then 0%nat else tot.

Lemma collect_step f k b : collected f k -> full !! k = Some b ->
  (k < 260)%nat -> (k < tot)%nat ->
  exists f' o, H4Framer_feed f b = Ret (f', o) /\
  if decide (S k = tot) then idle f' /\
    exists q, o = Some q /\ hp_packet_type q = t /\ hp_len q = tot /\
      take tot (hp_payload q) = take tot full
  else o = None /\ collected f' (S k).
Proof using Harm Hhdr Hfull Hex.
  intros (Ht & Hk & Hl & Hp & He) Hb H260 Htot.
  rewrite (arm_feed t hdr ex) by done. unfold feed_arm. rewrite Hk.
  rewrite set_idx_Ret, obind_Ret by lia. cbn [fr_buf fr_buf_len fr_packet_type fr_expected].
  set (buf := <[k:=b]> (fr_buf f)).
  assert (Hbuf : take (S k) buf = take (S k) full).
  { rewrite (take_S_r _ _ b) by (apply list_lookup_insert_eq; lia).
    unfold buf. rewrite take_insert_ge, Hp by lia. symmetry. by apply take_S_r. }
  assert (Hbl : length buf = 260%nat) by (unfold buf; by rewrite length_insert).
  rewrite Nat.add_1_r. set (e' := if decide (S k < hdr)%nat then 0%nat else tot).
  assert (E : (if (S k =? hdr)%nat
    then let! e := ex buf in Ret (mkH4Framer (fr_packet_type f) e buf (S k))
    else Ret (mkH4Framer (fr_packet_type f) (fr_expected f) buf (S k))) =
    Ret (mkH4Framer (Some t) e' buf (S k))).
  { rewrite Ht, He. unfold e'. destruct (Nat.eqb_spec (S k) hdr) as [Heq|Hne].
    - rewrite decide_False by lia.
      rewrite (arm_reads_header t hdr ex buf full Harm), Hex by (by rewrite <- Heq).
      by rewrite obind_Ret.
    - do 2 f_equal. repeat case_decide; lia. }
  rewrite E, obind_Ret. cbn [fr_buf fr_buf_len fr_packet_type fr_expected].
  assert (Hc : (S k =? e')%nat && (hdr <=? e')%nat = bool_decide (S k = tot)).
  { unfold e'. case_bool_decide; (apply andb_true_iff || apply andb_false_iff);
      rewrite ?Nat.eqb_eq, ?Nat.leb_le, ?Nat.eqb_neq, ?Nat.leb_gt; repeat case_decide; lia. }
  rewrite Hc. case_bool_decide as Hd; cbn [H4Framer_reset fr_buf fr_buf_len].
  - do 2 eexists. split; [done|]. rewrite decide_True by done. split; [done|].
    eexists. split; [done|]. cbn [hp_packet_type hp_len hp_payload]. by rewrite <- Hd.
  - do 2 eexists. split; [done|]. rewrite decide_False by done. done.
Qed.

Lemma collect_some f k n : collected f k -> (k + n <= length full)%nat ->
  (k + n <= 260)%nat -> (k + n < tot)%nat ->
  exists f', feed_all f (take n (drop k full)) = Ret (f', replicate n None) /\
    collected f' (k + n).
Proof using Harm Hhdr Hfull Hex.
  revert f k. induction n as [|n IH]; intros f k Hc Hn H260 Htot.
  { exists f. rewrite Nat.add_0_r. done. }
  destruct (lookup_lt_is_Some_2 full k ltac:(lia)) as [b Hb].
  rewrite (drop_S _ _ _ Hb). cbn [take feed_all replicate].
  destruct (collect_step f k b Hc Hb ltac:(lia) ltac:(lia)) as (f1 & o & -> & Hr).
  rewrite obind_Ret, decide_False in * by lia. destruct Hr as [-> Hc1].
  destruct (IH f1 (S k) Hc1 ltac:(lia) ltac:(lia) ltac:(lia)) as (f2 & -> & Hc2).
  exists f2. rewrite obind_Ret. by rewrite <- Nat.add_succ_comm.
Qed.

(** A whole frame. *)
Lemma collect_all f : idle f -> length full = tot -> (tot <= 260)%nat ->
  exists f' q, feed_all f (t :: full) = Ret (f', replicate tot None ++ [Some q]) /\
    idle f' /\ hp_packet_type q = t /\ hp_len q = tot /\
    take tot (hp_payload q) = take tot full.
Proof using Harm Hhdr Hfull Hex.
  intros Hi Htot H260. pose proof (arm_start t hdr ex f Harm Hi) as [_ Hs].
  cbn [feed_all]. rewrite Hs, obind_Ret. set (f0 := mkH4Framer _ _ _ _).
  assert (Hc0 : collected f0 0).
  { split; [done|]. split; [done|]. split; [apply Hi|]. split; [done|].
    by rewrite decide_True by lia. }
  destruct (collect_some f0 0 (tot - 1) Hc0 ltac:(lia) ltac:(lia) ltac:(lia))
    as (f1 & E1 & Hc1). cbn [Nat.add] in Hc1.
  destruct (lookup_lt_is_Some_2 full (tot - 1) ltac:(lia)) as [b Hb].
  destruct (collect_step f1 _ b Hc1 Hb ltac:(lia) ltac:(lia)) as (f2 & o & E2 & Hr).
  rewrite decide_True in Hr by lia. destruct Hr as (Hi2 & q & -> & Hq).
  exists f2, q. split; [|by split].
  assert (Hsplit : full = take (tot - 1) full ++ [b]).
  { rewrite <- (take_S_r _ _ _ Hb). symmetry. apply take_ge. lia. }
  rewrite drop_0 in E1. rewrite Hsplit, feed_all_app, E1, obind_Ret.
  cbn [feed_all]. rewrite E2, !obind_Ret.
  do 2 f_equal. replace tot with (S (tot - 1)) at 2 by lia. done.
Qed.

End collect.

Lemma framed_feed f p : idle f -> framed p ->
  exists f' q, feed_all f (wire p) = Ret (f', replicate (hp_len p) None ++ [Some q]) /\
    idle f' /\ same_packet q p.
Proof.
  intros Hi (Hl & H260 & hdr & ex & Harm & Hh & Hex). unfold wire.
  pose proof (arm_start _ _ _ f Harm Hi) as [Hr _].
  destruct (collect_all (hp_packet_type p) hdr (hp_len p) ex
    (take (hp_len p) (hp_payload p)) Harm) with (f := f)
    as (f' & q & -> & Hi' & Ht & Hq & Hp); [lia|len|..].
  - rewrite <- Hex. eapply arm_reads_header; [exact Harm|]. rewrite take_take. f_equal. lia.
  - done.
  - len.
  - done.
  - exists f', q. split; [done|]. split; [done|]. unfold same_packet.
    rewrite Hq, Hp, take_take. split; [done|]. split; [done|]. f_equal. lia.
Qed.

(** ** Lemmas on the constructors *)

Definition zeros (n : nat) : list Z := replicate n 0.

Lemma command_Ret ogf ocf params : (length params <= 257)%nat ->
  HciPacket_command ogf ocf params =
  Ret (mkHciPacket HCI_COMMAND
    ([u8 (ocf .& 0xFF); u8 ((ocf .>> 8) .& 0x03) .| u8 ((ogf .& 0x3F) .<< 2);
      u8 (Z.of_nat (length params))] ++ params ++ zeros (257 - length params))
    (3 + length params)).
Proof.
  intros H. unfold HciPacket_command. writes. do 2 f_equal.
  rewrite !drop_drop, drop_replicate, <- !app_assoc. unfold zeros. cbn [app].
  do 5 f_equal. lia.
Qed.

Lemma event_Ret code data : (length data <= 258)%nat ->
  HciPacket_event code data =
  Ret (mkHciPacket HCI_EVENT
    ([code; u8 (Z.of_nat (length data))] ++ data ++ zeros (258 - length data))
    (2 + length data)).
Proof.
  intros H. unfold HciPacket_event. writes. do 2 f_equal.
  rewrite !drop_drop, drop_replicate, <- !app_assoc. unfold zeros. cbn [app].
  do 4 f_equal. lia.
Qed.

Lemma acl_Ret handle data : (length data <= 256)%nat ->
  HciPacket_acl handle data =
  Ret (mkHciPacket HCI_ACL_DATA
    ([u8 (handle .& 0x0FFF); u8 (handle .>> 8); u8 (Z.of_nat (length data) .& 0xFF);
      u8 (Z.of_nat (length data) .>> 8)] ++ data ++ zeros (256 - length data))
    (4 + length data)).
Proof.
  intros H. unfold HciPacket_acl. writes. do 2 f_equal.
  rewrite !drop_drop, drop_replicate, <- !app_assoc. unfold zeros. cbn [app].
  do 6 f_equal. lia.
Qed.

Lemma zeros_length n : length (zeros n) = n.
Proof. apply length_replicate. Qed.

#[export] Hint Rewrite zeros_length : list_length.

Lemma built_framed p : built p -> framed p.
Proof.
  intros [(ogf & ocf & ps & Hl & E)|[(c & d & Hl & E)|(h & d & Hl & E)]].
  - rewrite command_Ret in E by lia. injection E as <-. unfold framed.
    cbn [hp_payload hp_len hp_packet_type]. split; [len|]. split; [lia|].
    exists 3%nat, command_expected. split; [done|]. split; [lia|].
    unfold command_expected. cbn [app idx lookup list_lookup]. rewrite obind_Ret.
    rewrite u8_id by (ranges; lia). by rewrite Nat2Z.id.
  - rewrite event_Ret in E by lia. injection E as <-. unfold framed.
    cbn [hp_payload hp_len hp_packet_type]. split; [len|]. split; [lia|].
    exists 2%nat, event_expected. split; [done|]. split; [lia|].
    unfold event_expected. cbn [app idx lookup list_lookup]. rewrite obind_Ret.
    rewrite u8_id by (ranges; lia). by rewrite Nat2Z.id.
  - rewrite acl_Ret in E by lia. injection E as <-. unfold framed.
    cbn [hp_payload hp_len hp_packet_type]. split; [len|]. split; [lia|].
    exists 4%nat, acl_expected. split; [done|]. split; [lia|].
    unfold acl_expected. cbn [app idx lookup list_lookup]. rewrite !obind_Ret.
    f_equal. f_equal. change 0xFF with (Z.ones 8). rewrite Z.land_ones by lia.
    rewrite Z.shiftr_div_pow2 by lia. change (2 ^ 8) with 256.
    unfold u8, u16_from_le. rewrite Z.mod_mod by lia.
    rewrite (Z.mod_small (_ / 256)) by (Z.div_mod_to_equations; lia).
    rewrite Z.add_comm, <- Z.div_mod by lia. by rewrite Nat2Z.id.
Qed.

(** A command or an event with more parameters than its length byte can say, as
    its constructor builds it. *)
Definition oversized (p : HciPacket) : Prop :=
  (exists ogf ocf params, (256 <= length params)%nat /\
     HciPacket_command ogf ocf params = Ret p) \/
  (exists code data, (256 <= length data)%nat /\ HciPacket_event code data = Ret p).

(** What its length byte says it is. *)
Definition shortened (p : HciPacket) : HciPacket :=
  mkHciPacket (hp_packet_type p) (hp_payload p) (hp_len p - 256).

Lemma copy_at_Ret_inv {A} (l : list A) a b src r : copy_at l a b src = Ret r ->
  (b <= length l)%nat.
Proof.
  unfold copy_at. destruct (_ && _) eqn:E; [|done]. intros _.
  rewrite !andb_true_iff, !Nat.leb_le in E. lia.
Qed.

Lemma command_inv ogf ocf params p : HciPacket_command ogf ocf params = Ret p ->
  (length params <= 257)%nat.
Proof.
  unfold HciPacket_command. do 3 (rewrite set_idx_Ret, obind_Ret by len). intros E.
  apply obind_inv in E as (l & E%copy_at_Ret_inv & _). revert E. len.
Qed.

Lemma event_inv code data p : HciPacket_event code data = Ret p -> (length data <= 258)%nat.
Proof.
  unfold HciPacket_event. do 2 (rewrite set_idx_Ret, obind_Ret by len). intros E.
  apply obind_inv in E as (l & E%copy_at_Ret_inv & _). revert E. len.
Qed.

Lemma oversized_shortened p : oversized p ->
  framed (shortened p) /\ (256 < hp_len p)%nat.
Proof.
  intros [(ogf & ocf & ps & Hl & E)|(c & d & Hl & E)].
  - pose proof (command_inv _ _ _ _ E) as Hn. rewrite command_Ret in E by lia.
    injection E as <-. unfold framed, shortened. cbn [hp_payload hp_len hp_packet_type].
    split; [|lia]. split; [len|]. split; [lia|]. exists 3%nat, command_expected.
    split; [done|]. split; [lia|].
    unfold command_expected. cbn [app idx lookup list_lookup]. rewrite obind_Ret.
    f_equal. unfold u8. rewrite <- (Nat2Z.inj_mod _ 256), Nat2Z.id.
    rewrite <- (Nat.mod_unique (length ps) 256 1 (length ps - 256)) by lia. lia.
  - pose proof (event_inv _ _ _ E) as Hn. rewrite event_Ret in E by lia.
    injection E as <-. unfold framed, shortened. cbn [hp_payload hp_len hp_packet_type].
    split; [|lia]. split; [len|]. split; [lia|]. exists 2%nat, event_expected.
    split; [done|]. split; [lia|].
    unfold event_expected. cbn [app idx lookup list_lookup]. rewrite obind_Ret.
    f_equal. unfold u8. rewrite <- (Nat2Z.inj_mod _ 256), Nat2Z.id.
    rewrite <- (Nat.mod_unique (length d) 256 1 (length d - 256)) by lia. lia.
Qed.

(** ** Lemmas on the controller *)

(** The indices of the ring are in range: its operations do not panic. *)
Definition ring_ok {A} (n : nat) (r : EventRing A) : Prop :=
  length (events r) = n /\ (event_head r < n)%nat /\ (event_tail r < n)%nat.

Lemma ring_push_ok {A} n (r : EventRing A) x : ring_ok n r ->
  exists r', ring_push n r x = Ret r' /\ ring_ok n r'.
Proof.
  intros (Hl & Hh & Ht). unfold ring_push. rewrite set_idx_Ret, obind_Ret by lia.
  eexists. split; [done|]. unfold ring_ok. cbn [events event_head event_tail].
  rewrite length_insert. split; [done|].
  split; [apply Nat.mod_upper_bound; lia|].
  case_match; [apply Nat.mod_upper_bound; lia | done].
Qed.

Lemma ring_new_ok {A} n : (0 < n)%nat -> ring_ok (A:=A) n (ring_new n).
Proof. intros. unfold ring_ok, ring_new. cbn [events event_head event_tail]. len. Qed.

Definition hci_ok (h : Hci) : Prop :=
  ring_ok HCI_QUEUE_LEN (hci_events h) /\ length (hci_own_addr h) = 6%nat.

(** What a handler does to the ring: it pushes [e] and nothing else. *)
Definition pushes (h h' : Hci) (e : HciPacket) : Prop :=
  ring_push HCI_QUEUE_LEN (hci_events h) e = Ret (hci_events h').

Lemma Hci_push_event_Ret h e : hci_ok h ->
  exists h', Hci_push_event h e = Ret h' /\ pushes h h' e /\ hci_ok h' /\
    hci_own_addr h' = hci_own_addr h.
Proof.
  intros [Hr Ha]. unfold Hci_push_event.
  destruct (ring_push_ok _ _ e Hr) as (r' & E & Hr'). rewrite E, obind_Ret.
  eexists. split; [done|]. done.
Qed.

(** The event a Command Complete or a Command Status is. *)
Definition is_complete (e : HciPacket) (b0 b1 : Z) (params : list Z) : Prop :=
  hp_packet_type e = HCI_EVENT /\
  take (hp_len e) (hp_payload e) =
    [HCI_EVT_COMMAND_COMPLETE; Z.of_nat (4 + length params); 1; b0; b1; 0] ++ params.

Definition is_status (e : HciPacket) (b0 b1 : Z) : Prop :=
  hp_packet_type e = HCI_EVENT /\
  take (hp_len e) (hp_payload e) = [HCI_EVT_COMMAND_STATUS; 5; 0; 1; b0; b1; 0].

Lemma command_complete_Ret h b0 b1 params : hci_ok h -> (length params <= 251)%nat ->
  exists h' e, command_complete h (b0, b1) 0 params = Ret h' /\ pushes h h' e /\
    hci_ok h' /\ is_complete e b0 b1 params.
Proof.
  intros Hok Hl. unfold command_complete. cbn [fst snd]. writes.
  rewrite slice_to_Ret by len. rewrite obind_Ret.
  assert (Ht : forall l, take (4 + length params)
    (((((([1] ++ [b0]) ++ [b1]) ++ [0]) ++ params) ++ l)) = [1; b0; b1; 0] ++ params).
  { intros l. rewrite <- !app_assoc. cbn [app take Nat.add]. by rewrite take_app_length. }
  rewrite Ht, event_Ret, obind_Ret by len.
  match goal with |- context [Hci_push_event h ?e] => set (pkt := e) end.
  destruct (Hci_push_event_Ret h pkt Hok) as (h' & -> & Hp & Hok' & _).
  exists h', pkt. split; [done|]. split; [done|]. split; [done|].
  split; [done|]. unfold pkt. cbn [hp_len hp_payload app length Nat.add take].
  rewrite u8_id by (ranges; lia). by rewrite take_app_length.
Qed.

Lemma command_status_Ret h b0 b1 : hci_ok h ->
  exists h' e, command_status h (b0, b1) 0 = Ret h' /\ pushes h h' e /\
    hci_ok h' /\ is_status e b0 b1.
Proof.
  intros Hok. unfold command_status. cbn [fst snd].
  rewrite event_Ret, obind_Ret by (cbn; lia).
  match goal with |- context [Hci_push_event h ?e] => set (pkt := e) end.
  destruct (Hci_push_event_Ret h pkt Hok) as (h' & -> & Hp & Hok' & _).
  exists h', pkt. done.
Qed.

(** The two opcode bytes, and the fields the handler takes from them. *)
Definition ocf_of (b0 b1 : Z) : Z := (b0 .| (b1 .<< 8)) .& 0x03FF.
Definition ogf_of (b0 b1 : Z) : Z := u8 (((b0 .| (b1 .<< 8)) .>> 10) .& 0x3F).

Arguments ocf_of : simpl never.
Arguments ogf_of : simpl never.

(** The reply to the command with opcode bytes [b0] and [b1]. *)
Definition answers (own : list Z) (b0 b1 : Z) (e : HciPacket) : Prop :=
  if (ogf_of b0 b1 =? OGF_LE) && (ocf_of b0 b1 =? OCF_LE_CREATE_CONNECTION)
  then is_status e b0 b1
  else is_complete e b0 b1
    (if ogf_of b0 b1 =? OGF_HOST then
       if ocf_of b0 b1 =? OCF_READ_LOCAL_VERSION then [0x0C; 0; 0; 0; 0; 0; 0; 0]
       else if ocf_of b0 b1 =? OCF_READ_BD_ADDR then own
       else if ocf_of b0 b1 =? OCF_READ_BUFFER_SIZE then [0; 0; 0; 0; 0; 0; 0; 0]
       else []
     else []).

Section host_lemmas.
Context {B : Type} `{!BleHost B}.
Implicit Types (h : Hci) (ble : B).

(** The sub-handlers return and keep the invariants. *)
Lemma le_set_adv_data_ok ble params : host_inv ble ->
  exists ble', le_set_adv_data ble params = Ret ble' /\ host_inv ble'.
Proof.
  intros Hb. unfold le_set_adv_data. destruct (Nat.leb_spec 32 (length params));
    [|by exists ble].
  destruct (idx_lt params 0 ltac:(lia)) as [p0 ->]. rewrite obind_Ret.
  set (n := Nat.min (Z.to_nat p0) 31). assert (n <= 31)%nat by lia.
  rewrite slice_Ret by lia. rewrite obind_Ret.
  rewrite copy_at_first by len. rewrite obind_Ret.
  rewrite slice_to_Ret by len. rewrite obind_Ret.
  match goal with |- context [host_adv_set_configure ble ?d []] =>
    destruct (host_adv_set_configure_ok ble d Hb) as (b' & r & -> & Hb'); [len|] end.
  by exists b'.
Qed.

Lemma le_set_adv_enable_ok h ble params : host_inv ble ->
  exists en ble', le_set_adv_enable h ble params = Ret (set_hci_adv_enabled en h, ble') /\
    host_inv ble'.
Proof.
  intros Hb. unfold le_set_adv_enable. destruct (first_is_1 params).
  - destruct (host_adv_start_ok ble Hb) as (b' & r & -> & Hb'). by exists true, b'.
  - pose proof (host_adv_stop_ok ble Hb). destruct (host_adv_stop ble) as [b' r].
    by exists false, b'.
Qed.

Lemma le_set_scan_enable_ok h ble params : host_inv ble ->
  exists en ble', le_set_scan_enable h ble params = Ret (set_hci_scan_enabled en h, ble') /\
    host_inv ble'.
Proof.
  intros Hb. unfold le_set_scan_enable. destruct (first_is_1 params).
  - destruct (host_scan_start_ok ble Hb) as (b' & r & -> & Hb'). by exists true, b'.
  - pose proof (host_scan_stop_ok ble Hb). destruct (host_scan_stop ble) as [b' r].
    by exists false, b'.
Qed.

Lemma le_create_connection_ok ble params : host_inv ble ->
  exists ble', le_create_connection ble params = Ret ble' /\ host_inv ble'.
Proof.
  intros Hb. unfold le_create_connection. destruct (Nat.leb_spec 25 (length params));
    [|by exists ble].
  rewrite slice_Ret by lia. rewrite obind_Ret.
  rewrite copy_at_first by len. rewrite obind_Ret.
  match goal with |- context [host_connect ble ?a Public] =>
    destruct (host_connect_ok ble a Public Hb) as (b' & r & -> & Hb'); [len|] end.
  by exists b'.
Qed.

Lemma le_set_random_address_ok h params : hci_ok h ->
  exists a, le_set_random_address h params = Ret (set_hci_own_addr a h) /\
    length a = 6%nat.
Proof.
  intros [_ Ha]. unfold le_set_random_address.
  destruct (Nat.leb_spec 6 (length params)); [|exists (hci_own_addr h); by destruct h].
  rewrite slice_to_Ret, obind_Ret by lia. rewrite copy_at_first, obind_Ret by len.
  eexists. split; [done|]. len.
Qed.

(** A Command Complete with the stack as it is. *)
Lemma complete_with h ble b0 b1 params : hci_ok h -> (length params <= 251)%nat ->
  exists h' e, (let! h := command_complete h (b0, b1) 0 params in Ret (h, ble)) =
    Ret (h', ble) /\ pushes h h' e /\ hci_ok h' /\ is_complete e b0 b1 params.
Proof.
  intros Hok Hl. destruct (command_complete_Ret h b0 b1 params Hok Hl) as (h' & e & -> & H).
  by exists h', e.
Qed.

(** The layer leaves its framer to [feed]. *)
Definition keeps_framer {A} (p : A -> Hci) h (m : outcome A) : Prop :=
  match m with Ret a => hci_framer (p a) = hci_framer h | Panic => True end.

Lemma keeps_framer_bind {A C} (p : C -> Hci) h (m : outcome A) (f : A -> outcome C) :
  (forall a, keeps_framer p h (f a)) -> keeps_framer p h (obind m f).
Proof. destruct m as [a|]; [|done]. intros H. apply H. Qed.

Lemma keeps_framer_seq {A C} (q : A -> Hci) (p : C -> Hci) h (m : outcome A)
    (f : A -> outcome C) :
  keeps_framer q h m -> (forall a, hci_framer (q a) = hci_framer h -> keeps_framer p h (f a)) ->
  keeps_framer p h (obind m f).
Proof. destruct m as [a|]; [|done]. intros H1 H2. by apply H2. Qed.

Lemma keeps_framer_from {A} (p : A -> Hci) h h1 (m : outcome A) :
  keeps_framer p h1 m -> hci_framer h1 = hci_framer h -> keeps_framer p h m.
Proof. destruct m as [a|]; [|done]. cbn. by intros -> . Qed.

Lemma push_framer h e : keeps_framer id h (Hci_push_event h e).
Proof. by apply keeps_framer_bind. Qed.

Lemma complete_framer h op st params : keeps_framer id h (command_complete h op st params).
Proof. by repeat (apply keeps_framer_bind; intros ?). Qed.

Lemma status_framer h op st : keeps_framer id h (command_status h op st).
Proof. by repeat (apply keeps_framer_bind; intros ?). Qed.

Lemma answer_framer h h1 op st params ble : hci_framer h1 = hci_framer h ->
  keeps_framer fst h (let! h := command_complete h1 op st params in Ret (h, ble)).
Proof.
  intros E. eapply (keeps_framer_seq id); [|by intros h2].
  eapply keeps_framer_from; [apply complete_framer|exact E].
Qed.

Lemma le_set_adv_enable_framer h ble params :
  keeps_framer fst h (le_set_adv_enable h ble params).
Proof.
  unfold le_set_adv_enable. destruct (first_is_1 params).
  - by apply keeps_framer_bind; intros [].
  - by destruct (host_adv_stop ble).
Qed.

Lemma le_set_scan_enable_framer h ble params :
  keeps_framer fst h (le_set_scan_enable h ble params).
Proof.
  unfold le_set_scan_enable. destruct (first_is_1 params).
  - by apply keeps_framer_bind; intros [].
  - by destruct (host_scan_stop ble).
Qed.

Lemma le_set_random_address_framer h params :
  keeps_framer id h (le_set_random_address h params).
Proof.
  unfold le_set_random_address. destruct (_ <=? _)%nat; [|done].
  by repeat (apply keeps_framer_bind; intros ?).
Qed.

Lemma handle_command_framer h ble packet : keeps_framer fst h (handle_command h ble packet).
Proof.
  unfold handle_command. do 2 (apply keeps_framer_bind; intros ?).
  cbv zeta. apply keeps_framer_bind; intros params.
  destruct (_ =? OGF_HOST).
  { eapply (keeps_framer_seq id); [|by intros h2].
    destruct (_ =? _); [apply complete_framer|].
    destruct (_ =? _); [apply keeps_framer_bind; intros ?; apply complete_framer|].
    destruct (_ =? _); apply complete_framer. }
  destruct (_ =? OGF_LE); [|by apply answer_framer].
  destruct (_ =? _); [apply keeps_framer_bind; intros ?; by apply answer_framer|].
  destruct (_ =? _); [by apply answer_framer|].
  destruct (_ =? _).
  { eapply keeps_framer_seq; [apply le_set_adv_enable_framer|]. intros [h1 b1] E.
    by apply answer_framer. }
  destruct (_ =? _); [by apply answer_framer|].
  destruct (_ =? _).
  { eapply keeps_framer_seq; [apply le_set_scan_enable_framer|]. intros [h1 b1] E.
    by apply answer_framer. }
  destruct (_ =? _).
  { apply keeps_framer_bind; intros b1.
    eapply (keeps_framer_seq id); [apply status_framer|by intros h2]. }
  destruct (_ =? _); [|by apply answer_framer].
  eapply (keeps_framer_seq id); [apply le_set_random_address_framer|]. intros h1 E.
  by apply answer_framer.
Qed.

Lemma tick_event_framer h ble e : keeps_framer id h (tick_event h ble e).
Proof.
  destruct e; try done; cbn [tick_event].
  - do 2 (apply keeps_framer_bind; intros ?).
    eapply keeps_framer_from; [apply push_framer|done].
  - apply keeps_framer_bind; intros ?.
    eapply (keeps_framer_seq id); [apply push_framer|by intros h2].
  - do 2 (apply keeps_framer_bind; intros ?). apply push_framer.
Qed.

(** One event of the stack is forwarded without a panic. *)
Lemma tick_event_ok h ble e : hci_ok h -> event_wf e ->
  exists h', tick_event h ble e = Ret h' /\ hci_ok h'.
Proof.
  intros Hok Hwf. destruct e; cbn [tick_event event_wf] in *; try (by exists h).
  - unfold connected_payload. writes. unfold fill_at. writes.
    rewrite slice_to_Ret by len. rewrite obind_Ret.
    rewrite event_Ret, obind_Ret by len.
    match goal with |- context [Hci_push_event ?h ?e] =>
      destruct (Hci_push_event_Ret h e) as (h' & -> & _ & Hok' & _); [exact Hok|] end.
    by exists h'.
  - rewrite event_Ret, obind_Ret by (cbn; lia).
    match goal with |- context [Hci_push_event ?h ?e] =>
      destruct (Hci_push_event_Ret h e Hok) as (h' & -> & _ & Hok' & _) end.
    eexists. split; [done|]. exact Hok'.
  - destruct Hwf as (Ha & Hd & Hn). unfold report_payload. writes.
    rewrite slice_to_Ret by lia. writes.
    rewrite slice_to_Ret by len. rewrite obind_Ret.
    rewrite event_Ret, obind_Ret by len.
    match goal with |- context [Hci_push_event ?h ?e] =>
      destruct (Hci_push_event_Ret h e Hok) as (h' & -> & _ & Hok' & _) end.
    by exists h'.
Qed.

(** The stack has no event to give. *)
Definition drained ble : Prop := host_next_event ble = Ret (ble, None).

Lemma tick_loop_ok fuel h ble : host_inv ble -> hci_ok h ->
  (host_pending ble < fuel)%nat ->
  exists h' ble', tick_loop fuel h ble = Done (h', ble') /\
    drained ble' /\ host_inv ble' /\ hci_ok h' /\ hci_framer h' = hci_framer h.
Proof.
  revert h ble. induction fuel as [|fuel IH]; intros h ble Hb Hh Hf; [lia|].
  cbn [tick_loop]. destruct (host_next_event_ok ble Hb) as (b' & e & E & Hb' & He).
  rewrite E, lift_Ret, rbind_Done. destruct e as [e|]; [|subst b'; by exists h, ble].
  destruct He as [Hwf Hlt]. destruct (tick_event_ok h b' e Hh Hwf) as (h1 & Et & Hh1).
  pose proof (tick_event_framer h b' e) as Hf1. rewrite Et in Hf1 |- *.
  rewrite lift_Ret, rbind_Done.
  destruct (IH h1 b' Hb' Hh1) as (h2 & b2 & -> & H1 & H2 & H3 & H4); [lia|].
  exists h2, b2. repeat (split; [done|]). by rewrite H4.
Qed.

End host_lemmas.

(** ** Properties *)

(** C30. H4 framing round-trips on streams: feeding the bytes of any sequence of
    packets built by [command] and [event] from at most 255 bytes and by [acl]
    from at most 256 to an idle framer yields exactly those packets in order,
    each on its last byte, and leaves the framer idle. A command of 256 or 257
    bytes or an event of 256 to 258, which fit the buffer, is built too, with a
    length byte that has wrapped: the framer ends it 256 bytes early. *)
Theorem h4_stream_roundtrip f : idle f ->
  (forall ps, Forall built ps -> exists f' qs,
     feed_all f (ps ≫= wire) =
       Ret (f', qs ≫= (fun q => replicate (hp_len q) None ++ [Some q])) /\
     idle f' /\ Forall2 same_packet qs ps) /\
  (forall p, oversized p -> exists f' q rest,
     wire p = wire (shortened p) ++ rest /\ length rest = 256%nat /\
     feed_all f (wire (shortened p)) =
       Ret (f', replicate (hp_len p - 256) None ++ [Some q]) /\
     idle f' /\ same_packet q (shortened p)).
Proof.
  intros Hi. split.
  - intros ps Hps. revert f Hi. induction Hps as [|p ps Hp Hps IH]; intros f Hi.
    { exists f, []. split; [done|]. by split. }
    destruct (framed_feed f p Hi (built_framed p Hp)) as (f1 & q & E1 & Hi1 & Hq).
    destruct (IH f1 Hi1) as (f2 & qs & E2 & Hi2 & Hqs).
    exists f2, (q :: qs). cbn [mbind list_bind]. rewrite feed_all_app, E1, obind_Ret.
    change (list_bind HciPacket Z wire ps) with (ps ≫= wire). rewrite E2, obind_Ret.
    pose proof Hq as (_ & Hlen & _). rewrite Hlen. split; [done|].
    split; [done|]. by constructor.
  - intros p Hp. destruct (oversized_shortened p Hp) as [Hf Hl].
    destruct (framed_feed f _ Hi Hf) as (f1 & q & E & Hi1 & Hq). pose proof Hf as (H1 & H2 & _).
    cbn [shortened hp_payload hp_len] in H1, H2.
    exists f1, q, (drop (hp_len p - 256) (take (hp_len p) (hp_payload p))). split.
    { unfold wire. cbn [shortened hp_packet_type hp_len hp_payload app]. f_equal.
      rewrite <- (take_drop (hp_len p - 256) (take (hp_len p) _)) at 1. f_equal.
      rewrite take_take. f_equal. lia. }
    split; [|done]. assert (hp_len p <= 260)%nat; [|len].
    destruct Hp as [(ogf & ocf & ps & _ & E1)|(c & d & _ & E1)].
    + pose proof (command_inv _ _ _ _ E1). rewrite command_Ret in E1 by lia.
      injection E1 as <-. cbn [hp_len]. lia.
    + pose proof (event_inv _ _ _ E1). rewrite event_Ret in E1 by lia.
      injection E1 as <-. cbn [hp_len]. lia.
Qed.

Lemma h4_stream_roundtrip_witness :
  exists f' qs, feed_all H4Framer_new [1; 0x0A; 0x20; 1; 1; 4; 0x0E; 0] =
    Ret (f', qs ≫= (fun q => replicate (hp_len q) None ++ [Some q])) /\ idle f' /\
    length qs = 2%nat /\
  exists p f2 q, HciPacket_command 8 10 (zeros 256) = Ret p /\ hp_len p = 259%nat /\
    feed_all H4Framer_new (wire (shortened p)) = Ret (f2, [None; None; None; Some q]).
Proof.
  assert (Hi0 : idle H4Framer_new) by (split; [reflexivity|split; reflexivity]).
  destruct (proj2 (h4_stream_roundtrip H4Framer_new Hi0)
    (mkHciPacket 1 ([10; 32; 0] ++ zeros 256 ++ zeros 1) 259))
    as (f2 & q & rest & _ & _ & E2 & _).
  { left. exists 8, 10, (zeros 256). split; [cbn; lia | vm_compute; reflexivity]. }
  destruct (proj1 (h4_stream_roundtrip H4Framer_new Hi0)
    [mkHciPacket 1 ([0x0A; 0x20; 1; 1] ++ zeros 256) 4;
     mkHciPacket 4 ([0x0E; 0] ++ zeros 258) 2])
    as (f' & qs & E & Hi & Hq).
  - constructor; [|constructor; [|constructor]].
    + left. exists 8, 10, [1]. split; [cbn; lia | vm_compute; reflexivity].
    + right. left. exists 0x0E, []. split; [cbn; lia | vm_compute; reflexivity].
  - exists f', qs. split; [exact E|]. split; [exact Hi|].
    split; [apply Forall2_length in Hq; exact Hq|].
    eexists _, f2, q. split; [|split; [|exact E2]]; vm_compute; reflexivity.
Defined.

(** An ACL header that announces more than 256 bytes makes the framer
    panic: the 260-byte buffer overflows when the 257th data byte arrives. *)
Lemma h4_acl_overflow h0 h1 l0 l1 body :
  256 < u16_from_le l0 l1 -> length body = 257%nat ->
  feed_all H4Framer_new (HCI_ACL_DATA :: h0 :: h1 :: l0 :: l1 :: body) = Panic.
Proof.
  intros Hl Hb. set (full := h0 :: h1 :: l0 :: l1 :: body).
  set (tot := (4 + Z.to_nat (u16_from_le l0 l1))%nat).
  assert (Harm : arm_of HCI_ACL_DATA = Some (4%nat, acl_expected)) by reflexivity.
  assert (Hex : acl_expected full = Ret tot) by reflexivity.
  assert (Hfl : length full = 261%nat) by (unfold full; cbn [length]; lia).
  assert (Htot : (260 < tot)%nat) by (unfold tot; lia).
  set (f0 := mkH4Framer (Some HCI_ACL_DATA) 0 (fr_buf H4Framer_new) 0).
  assert (Hc0 : collected HCI_ACL_DATA 4 tot full f0 0).
  { repeat split. }
  destruct (collect_some HCI_ACL_DATA 4 tot acl_expected full Harm ltac:(lia)
    ltac:(lia) Hex f0 0 260 Hc0) as (f1 & E1 & Hc1); [lia..|].
  destruct (lookup_lt_is_Some_2 full 260 ltac:(lia)) as [b Hlast].
  assert (Hsplit : full = take 260 full ++ [b]).
  { rewrite <- (take_S_r _ _ _ Hlast). symmetry. apply take_ge. lia. }
  cbn [feed_all]. change (H4Framer_feed H4Framer_new HCI_ACL_DATA)
    with (@Ret (H4Framer * option HciPacket) (f0, None)).
  rewrite obind_Ret. fold full. rewrite drop_0 in E1.
  rewrite Hsplit, feed_all_app, E1, obind_Ret. cbn [feed_all].
  destruct Hc1 as (Ht & Hk & Hbl & _ & _).
  rewrite (arm_feed _ _ _ f1 b Harm Ht). unfold feed_arm, set_idx.
  rewrite Hk, Hbl. reflexivity.
Qed.

(** The commands of the host group. *)
Lemma host_command_Ret {B} `{!BleHost B} h (ble : B) b0 b1 : hci_ok h -> ogf_of b0 b1 = OGF_HOST ->
  exists h' e,
    (let! h :=
       if ocf_of b0 b1 =? OCF_READ_LOCAL_VERSION then
         command_complete h (b0, b1) 0 [0x0C; 0x00; 0x00; 0x00; 0x00; 0x00; 0x00; 0x00]
       else if ocf_of b0 b1 =? OCF_READ_BD_ADDR then
         let! p := copy_at (replicate 6 0) 0 6 (hci_own_addr h) in
         command_complete h (b0, b1) 0 p
       else if ocf_of b0 b1 =? OCF_READ_BUFFER_SIZE then
         command_complete h (b0, b1) 0 [0x00; 0x00; 0x00; 0x00; 0x00; 0x00; 0x00; 0x00]
       else command_complete h (b0, b1) 0 [] in
     Ret (h, ble)) = Ret (h', ble) /\
    pushes h h' e /\ hci_ok h' /\ answers (hci_own_addr h) b0 b1 e.
Proof.
  intros Hh E. pose proof Hh as [_ Ha]. unfold answers. rewrite E, Z.eqb_refl.
  change (OGF_HOST =? OGF_LE) with false. cbn [andb].
  repeat case_match; try (apply complete_with; [done|cbn; lia]).
  rewrite copy_at_first, obind_Ret by len. rewrite filled by (apply drop_ge; len).
  apply complete_with; [done|lia].
Qed.

(** A command of the controller group whose work is done completes empty. *)
Lemma le_completes {B} `{!BleHost B} h h1 (ble1 : B) b0 b1 : hci_ok h1 -> host_inv ble1 ->
  hci_events h1 = hci_events h ->
  exists h' ble' e, (let! h := command_complete h1 (b0, b1) 0 [] in Ret (h, ble1)) =
    Ret (h', ble') /\ pushes h h' e /\ is_complete e b0 b1 [] /\ hci_ok h' /\
    host_inv ble'.
Proof.
  intros Hh1 Hb1 He.
  destruct (complete_with h1 ble1 b0 b1 [] Hh1) as (h' & e & -> & Hpu & ? & ?);
    [cbn; lia|]. unfold pushes in *. rewrite He in Hpu. by exists h', ble1, e.
Qed.

(** A framed command returns and pushes its one answer. *)
Lemma handle_command_Ret {B} `{!BleHost B} h (ble : B) packet b0 b1 rest :
  hci_ok h -> host_inv ble -> hp_payload packet = b0 :: b1 :: rest ->
  (3 <= hp_len packet <= length (hp_payload packet))%nat ->
  exists h' ble' e, handle_command h ble packet = Ret (h', ble') /\
    pushes h h' e /\ answers (hci_own_addr h) b0 b1 e /\ hci_ok h' /\ host_inv ble'.
Proof.
  intros Hh Hb Hp Hl. unfold handle_command, answers.
  rewrite (idx_Some (hp_payload packet) 0 b0), (idx_Some (hp_payload packet) 1 b1)
    by (by rewrite Hp).
  rewrite !obind_Ret, slice_Ret, obind_Ret by lia.
  fold (ocf_of b0 b1) (ogf_of b0 b1). set (params := take _ _).
  destruct (Z.eqb_spec (ogf_of b0 b1) OGF_HOST) as [E|E].
  - pose proof (host_command_Ret h ble b0 b1 Hh E) as (h' & e & -> & ? & ? & Hans).
    unfold answers in Hans. rewrite E, Z.eqb_refl in Hans. rewrite E.
    by exists h', ble, e.
  - destruct (ogf_of b0 b1 =? OGF_LE); cbn [andb].
    2:{ destruct (complete_with h ble b0 b1 [] Hh) as (h' & e & -> & ? & ? & ?);
          [cbn; lia|]. by exists h', ble, e. }
    pose proof (fun h1 ble1 => le_completes h h1 ble1 b0 b1) as Hdone.
    destruct (Z.eqb_spec (ocf_of b0 b1) OCF_LE_SET_ADV_DATA) as [Eo|_].
    { rewrite Eo. cbn [Z.eqb]. destruct (le_set_adv_data_ok ble params Hb) as (b' & -> & ?).
      rewrite obind_Ret. by apply Hdone. }
    destruct (Z.eqb_spec (ocf_of b0 b1) OCF_LE_SET_ADV_PARAMS) as [Eo|_].
    { rewrite Eo. by apply Hdone. }
    destruct (Z.eqb_spec (ocf_of b0 b1) OCF_LE_SET_ADV_ENABLE) as [Eo|_].
    { rewrite Eo. destruct (le_set_adv_enable_ok h ble params Hb) as (en & b' & -> & ?).
      rewrite obind_Ret. by apply Hdone. }
    destruct (Z.eqb_spec (ocf_of b0 b1) OCF_LE_SET_SCAN_PARAMS) as [Eo|_].
    { rewrite Eo. by apply Hdone. }
    destruct (Z.eqb_spec (ocf_of b0 b1) OCF_LE_SET_SCAN_ENABLE) as [Eo|_].
    { rewrite Eo. destruct (le_set_scan_enable_ok h ble params Hb) as (en & b' & -> & ?).
      rewrite obind_Ret. by apply Hdone. }
    destruct (Z.eqb_spec (ocf_of b0 b1) OCF_LE_CREATE_CONNECTION) as [Eo|_].
    { destruct (le_create_connection_ok ble params Hb) as (b' & -> & ?).
      destruct (command_status_Ret h b0 b1 Hh) as (h' & e & E1 & ? & ? & ?).
      rewrite obind_Ret, E1, obind_Ret. by exists h', b', e. }
    destruct (ocf_of b0 b1 =? OCF_LE_SET_RANDOM_ADDRESS).
    { destruct (le_set_random_address_ok h params Hh) as (a & -> & ?).
      rewrite obind_Ret. apply Hdone; [|done|done]. destruct Hh. by split. }
    by apply Hdone.
Qed.

(** C31. Every command is answered exactly once: on any framed command packet
    of at least three bytes [handle_command] returns, pushes exactly one event
    whose opcode is the command's - a Command Status for LE Create Connection,
    a Command Complete with status zero for everything else, carrying the
    version, the device address or the buffer sizes when they were asked for -
    and keeps the layer's and the stack's invariants. *)
Theorem hci_command_answered {B} `{!BleHost B} h (ble : B) packet b0 b1 rest :
  hci_ok h -> host_inv ble -> hp_payload packet = b0 :: b1 :: rest ->
  (3 <= hp_len packet <= length (hp_payload packet))%nat ->
  exists h' ble' e, handle_command h ble packet = Ret (h', ble') /\
    pushes h h' e /\ answers (hci_own_addr h) b0 b1 e /\ hci_ok h' /\ host_inv ble'.
Proof. apply handle_command_Ret. Qed.

(** A stack that is only its queue of events: the interface can hold. *)
#[export] Program Instance queue_host : BleHost (list BleEvent) := {
  host_next_event q := Ret (match q with e :: q => (q, Some e) | [] => ([], None) end);
  host_conn_is_master _ := false;
  host_adv_set_configure q _ _ := Ret (q, Ok tt);
  host_adv_start q _ := Ret (q ++ [AdvStarted], Ok tt);
  host_adv_stop q := (q, Err NotRunning);
  host_scan_start q _ := Ret (q ++ [ScanStarted], Ok tt);
  host_scan_stop q := (q, Err NotRunning);
  host_connect q _ _ := Ret (q, Ok tt);
  host_inv q := Forall event_wf q;
  host_pending q := length q
}.
Next Obligation.
  intros [|e q] Hq; do 2 eexists; (split; [done|]); [by split|].
  apply Forall_cons in Hq as [He Hq]. cbn [length]. auto with lia.
Qed.
Next Obligation. intros. by do 2 eexists. Qed.
Next Obligation.
  intros. do 2 eexists. split; [done|]. apply Forall_app. by repeat constructor.
Qed.
Next Obligation. done. Qed.
Next Obligation.
  intros. do 2 eexists. split; [done|]. apply Forall_app. by repeat constructor.
Qed.
Next Obligation. done. Qed.
Next Obligation. intros. by do 2 eexists. Qed.

Lemma Hci_new_ok : hci_ok Hci_new.
Proof. split; [|done]. apply ring_new_ok. cbv. lia. Qed.

Lemma hci_command_answered_witness :
  let packet := mkHciPacket HCI_COMMAND ([0x0A; 0x20; 1; 1] ++ zeros 256) 4 in
  exists h' ble' e, handle_command Hci_new ([] : list BleEvent) packet = Ret (h', ble') /\
    answers (zeros 6) 0x0A 0x20 e.
Proof.
  intros packet.
  destruct (hci_command_answered Hci_new ([] : list BleEvent) packet 0x0A 0x20
    ([1; 1] ++ zeros 256)) as (h' & ble' & e & E & _ & Ha & _).
  - apply Hci_new_ok.
  - constructor.
  - reflexivity.
  - vm_compute. split; repeat constructor.
  - exists h', ble', e. split; [exact E | exact Ha].
Defined.

(** [tick] terminates and forwards every pending event: with the length
    of the stack's queue as fuel the loop ends because the queue is empty,
    nothing panics, and both invariants are kept. *)
Lemma hci_tick_drains {B} `{!BleHost B} h (ble : B) :
  hci_ok h -> host_inv ble ->
  exists h' ble', tick h ble = Done (h', ble') /\ drained ble' /\ host_inv ble' /\
    hci_ok h' /\ hci_framer h' = hci_framer h.
Proof. intros Hh Hb. apply tick_loop_ok; [done..|lia]. Qed.

