(* ===== verification/BondStore.v ===== *)
(** Bond storage: the [BondStore] trait and its RAM implementation
    ([src/hw/conn.rs]), and the flash page implementation
    ([src/hw/bond_flash.rs]), over an interface of the flash controller with the
    behaviour its documentation states. *)

From stdpp Require Import base numbers list.
From S2P Require Import Prelude.

(** ** Bonds and the trait *)

Record BondInfo := mkBondInfo {
  bi_addr : list Z;          (* [u8; 6] *)
  bi_ltk : list Z;           (* [u8; 16] *)
  bi_irk : option (list Z)   (* Option<[u8; 16]> *)
}.

#[export] Instance BondInfo_eq_dec : EqDecision BondInfo.
Proof. solve_decision. Defined.

(** The array types of the fields. *)
Definition wf_bond (b : BondInfo) : Prop :=
  length (bi_addr b) = 6%nat /\ length (bi_ltk b) = 16%nat /\
  (forall k, bi_irk b = Some k -> length k = 16%nat) /\
  bytes (bi_addr b) /\ bytes (bi_ltk b) /\ (forall k, bi_irk b = Some k -> bytes k).

(** The trait, with what its implementations promise: [save] stores or
    replaces, other peers keep their bonds, and a store without room for a new
    peer is left alone. *)
Class BondStore (S : Type) := {
  bs_inv : S -> Prop;
  bs_room : S -> bool;
  bs_save : S -> list Z -> list Z -> option (list Z) -> outcome S;
  bs_find : S -> list Z -> option BondInfo;
  bs_save_ok s p l i : bs_inv s ->
    wf_bond (mkBondInfo p l i) ->
    exists s', bs_save s p l i = Ret s' /\ bs_inv s' /\
    forall q, bs_find s' q =
      if decide (q = p) then
        if bs_room s || bool_decide (is_Some (bs_find s p))
        then Some (mkBondInfo p l i) else None
      else bs_find s q
}.

(** ** The slots both implementations keep *)

Definition BOND_MAX : nat := 8.

(** The first loop of [save]: replace the bond of [peer]. *)
Fixpoint replace_bond (slots : list (option BondInfo)) (peer : list Z)
    (info : BondInfo) : option (list (option BondInfo)) :=
  match slots with
  | [] => None
  | Some b :: slots =>
      if decide (bi_addr b = peer) then Some (Some info :: slots)
      else (fun s => Some b :: s) <$> replace_bond slots peer info
  | None :: slots => (fun s => None :: s) <$> replace_bond slots peer info
  end.

(** The second loop: fill the first empty slot. *)
Fixpoint insert_bond (slots : list (option BondInfo)) (info : BondInfo)
    : option (list (option BondInfo)) :=
  match slots with
  | [] => None
  | None :: slots => Some (Some info :: slots)
  | Some b :: slots => (fun s => Some b :: s) <$> insert_bond slots info
  end.

(** [.iter().flatten().copied().find(|b| &b.addr == peer)]. *)
Fixpoint find_bond (slots : list (option BondInfo)) (peer : list Z) : option BondInfo :=
  match slots with
  | [] => None
  | Some b :: slots =>
      if decide (bi_addr b = peer) then Some b else find_bond slots peer
  | None :: slots => find_bond slots peer
  end.

(** Both loops; [None] when neither found a slot. *)
Definition save_slots (slots : list (option BondInfo)) (peer : list Z)
    (info : BondInfo) : option (list (option BondInfo)) :=
  match replace_bond slots peer info with
  | Some s => Some s
  | None => insert_bond slots info
  end.

(** ** The RAM store *)

Record RamBondStore := mkRamBondStore { rbs_bonds : list (option BondInfo) }.

Definition RamBondStore_new : RamBondStore := mkRamBondStore (replicate BOND_MAX None).

(** [Default]. *)
Definition RamBondStore_default : RamBondStore := RamBondStore_new.

Definition RamBondStore_save (self : RamBondStore) (peer ltk : list Z)
    (irk : option (list Z)) : RamBondStore :=
  let info := mkBondInfo peer ltk irk in
  match save_slots (rbs_bonds self) peer info with
  | Some s => mkRamBondStore s
  | None => self
  end.

Definition RamBondStore_find (self : RamBondStore) (peer : list Z) : option BondInfo :=
  find_bond (rbs_bonds self) peer.

(** ** Bond records *)

Definition BOND_PAGE_MAGIC : Z := 0x4E423144.
Definition BOND_PAGE_SIZE : nat := 4096.
Definition BOND_RECORD_LEN : nat := 44.
Definition BOND_RECORD_MARK : Z := 0xA5A55A5A.

Definition encode_record (bond : BondInfo) : outcome (list Z) :=
  let rec := replicate BOND_RECORD_LEN 0 in
  let! a0 := idx (bi_addr bond) 0 in
  let! rec := set_idx rec 0 a0 in
  let! a1 := idx (bi_addr bond) 1 in
  let! rec := set_idx rec 1 a1 in
  let! a2 := idx (bi_addr bond) 2 in
  let! rec := set_idx rec 2 a2 in
  let! a3 := idx (bi_addr bond) 3 in
  let! rec := set_idx rec 3 a3 in
  let! a4 := idx (bi_addr bond) 4 in
  let! rec := set_idx rec 4 a4 in
  let! a5 := idx (bi_addr bond) 5 in
  let! rec := set_idx rec 5 a5 in
  let! rec := set_idx rec 6 0 in
  let! rec := copy_at rec 7 23 (bi_ltk bond) in
  let! rec := set_idx rec 23 (bool_u8 (bool_decide (is_Some (bi_irk bond)))) in
  let! rec :=
    match bi_irk bond with
    | Some irk => copy_at rec 24 40 irk
    | None => Ret rec
    end in
  copy_at rec 40 44 (u32_to_le BOND_RECORD_MARK).

Definition decode_record (rec : list Z) : outcome (option BondInfo) :=
  let! mark := slice rec 40 44 in
  if negb (bool_decide (mark = u32_to_le BOND_RECORD_MARK)) then Ret None else
  let! s := slice_to rec 6 in
  let! addr := copy_at (replicate 6 0) 0 6 s in
  let! s := slice rec 7 23 in
  let! ltk := copy_at (replicate 16 0) 0 16 s in
  let! f := idx rec 23 in
  let! irk :=
    if negb (f =? 0) then
      let! s := slice rec 24 40 in
      let! irk := copy_at (replicate 16 0) 0 16 s in
      Ret (Some irk)
    else Ret None in
  Ret (Some (mkBondInfo addr ltk irk)).

(** ** The flash controller *)

(** The write-enable register of the controller. *)
Inductive NvmcMode := Ren | Wen | Een.

(** A store to flash is done, or refused with a hard fault. *)
Inductive flashed (D : Type) : Type :=
| Flashed (d : D)
| HardFault (d : D).

Arguments Flashed {D} d.
Arguments HardFault {D} d.

Definition fbind {D} (m : flashed D) (f : D -> flashed D) : flashed D :=
  match m with Flashed d => f d | HardFault d => HardFault d end.

(** Programming can clear bits only. *)
Definition program (page : list Z) (off : nat) (b : Z) : list Z :=
  alter (fun x => x .& b) off page.
Definition program32 (page : list Z) (off : nat) (v : Z) : list Z :=
  program (program (program (program page off (v mod 256)) (off + 1) (v / 256 mod 256))
    (off + 2) (v / 65536 mod 256)) (off + 3) (v / 16777216 mod 256).

(** The controller with the reserved page, at offsets in the page, and what its
    documentation says of what the driver does: the mode is configured, a page is
    erased in the erase mode, aligned words are programmed in the write mode, and
    a store of a byte is a hard fault. *)
Class Nvmc (D : Type) := {
  nv_mode : D -> NvmcMode;
  nv_page : D -> list Z;
  nv_config : NvmcMode -> D -> D;
  nv_erasepage : D -> D;
  nv_store32 : nat -> Z -> D -> flashed D;
  nv_store8 : nat -> Z -> D -> flashed D;
  nv_config_ok m d : nv_mode (nv_config m d) = m /\ nv_page (nv_config m d) = nv_page d;
  nv_erasepage_ok d : nv_mode d = Een -> nv_mode (nv_erasepage d) = Een /\
    nv_page (nv_erasepage d) = replicate BOND_PAGE_SIZE 0xFF;
  nv_store32_ok off v d : nv_mode d = Wen -> (off mod 4 = 0)%nat ->
    (off + 4 <= BOND_PAGE_SIZE)%nat -> exists d', nv_store32 off v d = Flashed d' /\
    nv_mode d' = Wen /\ nv_page d' = program32 (nv_page d) off v;
  nv_store8_faults off b d : nv_store8 off b d = HardFault d
}.

(** ** The flash store *)

Record FlashBondStore := mkFlashBondStore {
  fbs_base : Z;
  fbs_cache : list (option BondInfo)
}.

Section flash.
Context `{!Nvmc D}.

(** The polls of the ready flag are taken to end. *)
Definition read_ready (d : D) : D := d.

(** The writes of one record at [off]: each byte, then the ready poll. *)
Fixpoint write_record (off : nat) (rec : list Z) (d : D) : flashed D :=
  match rec with
  | [] => Flashed d
  | b :: rec => fbind (nv_store8 off b d) (fun d => write_record (S off) rec (read_ready d))
  end.

(** The loop of [flush] over the cache, from slot [i]. *)
Fixpoint write_cache (i : nat) (cache : list (option BondInfo)) (d : D)
    : outcome (flashed D) :=
  match cache with
  | [] => Ret (Flashed d)
  | Some b :: cache =>
      let! rec := encode_record b in
      match write_record (4 + i * BOND_RECORD_LEN) rec d with
      | Flashed d => write_cache (S i) cache d
      | HardFault d => Ret (HardFault d)
      end
  | None :: cache => write_cache (S i) cache d
  end.

Definition flush (self : FlashBondStore) (d : D) : outcome (flashed D) :=
  let d := read_ready (nv_config Een d) in
  let d := read_ready (nv_erasepage d) in
  let d := read_ready (nv_config Wen d) in
  match nv_store32 0 BOND_PAGE_MAGIC d with
  | HardFault d => Ret (HardFault d)
  | Flashed d =>
      let! r := write_cache 0 (fbs_cache self) (read_ready d) in
      Ret (fbind r (fun d => Flashed (read_ready (nv_config Ren d))))
  end.

(** The loop of [load_page] from slot [i]. *)
Fixpoint load_slots (n i : nat) (page : list Z) (cache : list (option BondInfo))
    : outcome (list (option BondInfo)) :=
  match n with
  | O => Ret cache
  | S n =>
      let off := (4 + i * BOND_RECORD_LEN)%nat in
      let! rec := slice page off (off + BOND_RECORD_LEN) in
      let! b := decode_record rec in
      let! cache := set_idx cache i b in
      load_slots n (S i) page cache
  end.

(** [load_page], with the [debug_assert] on the base. *)
Definition load_page (self : FlashBondStore) (d : D) : outcome FlashBondStore :=
  if negb (fbs_base self mod Z.of_nat BOND_PAGE_SIZE =? 0) then Panic else
  let! m := slice_to (nv_page d) 4 in
  if negb (le_val m =? BOND_PAGE_MAGIC) then Ret self else
  let! cache := load_slots BOND_MAX 0 (nv_page d) (fbs_cache self) in
  Ret (mkFlashBondStore (fbs_base self) cache).

Definition FlashBondStore_open (d : D) (base : Z) : outcome FlashBondStore :=
  load_page (mkFlashBondStore base (replicate BOND_MAX None)) d.

Definition FlashBondStore_new (d : D) (base : Z) : outcome FlashBondStore :=
  FlashBondStore_open d base.

Definition FlashBondStore_save (self : FlashBondStore) (d : D)
    (peer ltk : list Z) (irk : option (list Z)) : outcome (FlashBondStore * flashed D) :=
  let info := mkBondInfo peer ltk irk in
  match save_slots (fbs_cache self) peer info with
  | Some s =>
      let self := mkFlashBondStore (fbs_base self) s in
      let! d := flush self d in
      Ret (self, d)
  | None => Ret (self, Flashed d)
  end.

End flash.

Definition FlashBondStore_find (self : FlashBondStore) (peer : list Z) : option BondInfo :=
  find_bond (fbs_cache self) peer.

(** ** Lemmas on slots *)

Lemma replace_bond_spec slots p info : bi_addr info = p ->
  match replace_bond slots p info with
  | Some s => is_Some (find_bond slots p) /\ length s = length slots /\
      (forall q, find_bond s q = if decide (q = p) then Some info else find_bond slots q)
  | None => find_bond slots p = None
  end.
Proof.
  intros Hi. induction slots as [|[b|] slots IH]; cbn [replace_bond find_bond]; [done|..].
  - case_decide as Hb.
    + split; [by eexists|]. split; [done|]. intros q. cbn [find_bond].
      rewrite Hi. repeat case_decide; congruence.
    + destruct (replace_bond slots p info) as [s|]; cbn [fmap option_fmap option_map];
        [|done].
      destruct IH as (Hs & Hl & Hf). split; [done|]. split; [cbn [length]; congruence|].
      intros q. cbn [find_bond]. rewrite Hf. repeat case_decide; congruence.
  - destruct (replace_bond slots p info) as [s|]; cbn [fmap option_fmap option_map];
      [|done].
    destruct IH as (Hs & Hl & Hf). split; [done|]. split; [cbn [length]; congruence|].
    intros q. cbn [find_bond]. apply Hf.
Qed.

(** An empty slot. *)
Definition has_room (slots : list (option BondInfo)) : bool :=
  existsb (fun b => bool_decide (b = None)) slots.

Lemma insert_bond_spec slots p info : bi_addr info = p -> find_bond slots p = None ->
  match insert_bond slots info with
  | Some s => has_room slots = true /\ length s = length slots /\
      (forall q, find_bond s q = if decide (q = p) then Some info else find_bond slots q)
  | None => has_room slots = false
  end.
Proof.
  intros Hi. induction slots as [|[b|] slots IH];
    cbn [insert_bond find_bond has_room existsb]; [done|..].
  - case_decide as Hb; [done|]. intros Hn. specialize (IH Hn). fold (has_room slots).
    rewrite bool_decide_eq_false_2 by done. cbn [orb].
    destruct (insert_bond slots info) as [s|]; cbn [fmap option_fmap option_map]; [|done].
    destruct IH as (Hs & Hl & Hf). split; [done|]. split; [cbn [length]; congruence|].
    intros q. cbn [find_bond]. rewrite Hf. repeat case_decide; congruence.
  - intros Hn. split; [done|]. split; [done|]. intros q. cbn [find_bond].
    rewrite Hi. repeat case_decide; congruence.
Qed.

(** The two loops together: a finite map with room for some peers. *)
Lemma save_slots_spec slots p info : bi_addr info = p ->
  let s := default slots (save_slots slots p info) in
  length s = length slots /\
  (forall q, find_bond s q =
    if decide (q = p) then
      if has_room slots || bool_decide (is_Some (find_bond slots p))
      then Some info else None
    else find_bond slots q) /\
  (save_slots slots p info = None <->
   has_room slots = false /\ find_bond slots p = None).
Proof.
  intros Hi s. unfold s, save_slots. pose proof (replace_bond_spec slots p info Hi) as Hr.
  destruct (replace_bond slots p info) as [s1|]; cbn [default].
  - destruct Hr as (Hs & Hl & Hf). split; [done|]. split.
    + intros q. rewrite Hf, bool_decide_eq_true_2, orb_true_r by done. done.
    + split; [done|]. intros [_ E]. rewrite E in Hs. by destruct Hs.
  - pose proof (insert_bond_spec slots p info Hi Hr) as Hn.
    destruct (insert_bond slots info) as [s2|]; cbn [default].
    + destruct Hn as (Hs & Hl & Hf). split; [done|]. split.
      * intros q. rewrite Hf, Hs. done.
      * split; [done|]. intros [E _]. by rewrite E in Hs.
    + split; [done|]. split; [|by split].
      intros q. rewrite Hn, Hr, bool_decide_eq_false_2 by (by intros []).
      cbn [orb]. case_decide; congruence.
Qed.

(** Saving keeps every bond well formed. *)
Definition wf_slots (slots : list (option BondInfo)) : Prop :=
  Forall (fun b => forall i, b = Some i -> wf_bond i) slots.

Lemma replace_bond_wf slots p info s : wf_slots slots -> wf_bond info ->
  replace_bond slots p info = Some s -> wf_slots s.
Proof.
  intros Hw Hi. revert s. induction Hw as [|[b|] slots Hb Hw IH]; intros s;
    cbn [replace_bond]; [done|..].
  - case_decide.
    + intros [= <-]. constructor; [|done]. by intros ? [= <-].
    + intros (s' & E & ->)%fmap_Some. constructor; [done|]. by apply IH.
  - intros (s' & E & ->)%fmap_Some. constructor; [done|]. by apply IH.
Qed.

Lemma insert_bond_wf slots info s : wf_slots slots -> wf_bond info ->
  insert_bond slots info = Some s -> wf_slots s.
Proof.
  intros Hw Hi. revert s. induction Hw as [|[b|] slots Hb Hw IH]; intros s;
    cbn [insert_bond]; [done|..].
  - intros (s' & E & ->)%fmap_Some. constructor; [done|]. by apply IH.
  - intros [= <-]. constructor; [|done]. by intros ? [= <-].
Qed.

Lemma save_slots_wf slots p info s : wf_slots slots -> wf_bond info ->
  save_slots slots p info = Some s -> wf_slots s.
Proof.
  intros Hw Hi. unfold save_slots.
  destruct (replace_bond slots p info) as [s1|] eqn:E.
  - intros [= <-]. by eapply replace_bond_wf.
  - by apply insert_bond_wf.
Qed.

(** The RAM store implements the interface. *)
#[export] Program Instance ram_store : BondStore RamBondStore := {
  bs_inv s := length (rbs_bonds s) = BOND_MAX;
  bs_room s := has_room (rbs_bonds s);
  bs_save s p l i := Ret (RamBondStore_save s p l i);
  bs_find := RamBondStore_find
}.
Next Obligation.
  intros s p l i Hl Hwf. eexists. split; [done|].
  destruct (save_slots_spec (rbs_bonds s) p (mkBondInfo p l i) eq_refl) as (H1 & H2 & _).
  unfold RamBondStore_save, RamBondStore_find.
  destruct (save_slots (rbs_bonds s) p (mkBondInfo p l i)) as [s'|];
    cbn [default rbs_bonds] in *; unfold id in *; (split; [congruence|]); exact H2.
Qed.

(** ** Lemmas on records *)

(** The 44 bytes of a record. *)
Definition record_bytes (b : BondInfo) : list Z :=
  bi_addr b ++ [0] ++ bi_ltk b ++
  [bool_u8 (bool_decide (is_Some (bi_irk b)))] ++
  default (replicate 16 0) (bi_irk b) ++ u32_to_le BOND_RECORD_MARK.

Lemma record_bytes_length b : wf_bond b -> length (record_bytes b) = BOND_RECORD_LEN.
Proof.
  intros (Ha & Hl & Hi & _). unfold record_bytes, BOND_RECORD_LEN.
  rewrite !length_app, Ha, Hl. cbn [length].
  destruct (bi_irk b) as [k|]; cbn [default]; unfold id; [by rewrite (Hi k)|done].
Qed.

Lemma record_bytes_bytes b : wf_bond b -> bytes (record_bytes b).
Proof.
  intros (_ & _ & _ & Ha & Hl & Hi). unfold record_bytes. rewrite !bytes_app.
  split; [done|]. split; [bytes_eval|]. split; [done|].
  split; [case_bool_decide; bytes_eval|]. split; [|bytes_eval].
  destruct (bi_irk b) as [k|]; cbn [default]; [by apply Hi | bytes_eval].
Qed.

(** A list of six elements, and of sixteen. *)
Ltac destruct_list l H :=
  repeat (destruct l as [|? l]; [discriminate H || (cbn in H; lia)|]);
  destruct l; [|discriminate H].

Lemma encode_record_Ret b : wf_bond b -> encode_record b = Ret (record_bytes b).
Proof.
  intros (Ha & Hl & Hi & _). destruct b as [a l i].
  cbn [bi_addr bi_ltk bi_irk] in *. unfold encode_record, record_bytes.
  cbn [bi_addr bi_ltk bi_irk].
  do 6 (destruct a as [|? a]; [discriminate Ha|]). destruct a; [|discriminate Ha].
  do 16 (destruct l as [|? l]; [discriminate Hl|]). destruct l; [|discriminate Hl].
  destruct i as [k|]; [|reflexivity]. specialize (Hi k eq_refl).
  do 16 (destruct k as [|? k]; [discriminate Hi|]). destruct k; [|discriminate Hi].
  reflexivity.
Qed.

(** Decoding any 44 bytes. *)
Lemma decode_record_cases rec : length rec = BOND_RECORD_LEN ->
  decode_record rec = Ret (
    if decide (drop 40 rec = u32_to_le BOND_RECORD_MARK) then
      Some (mkBondInfo (take 6 rec) (take 16 (drop 7 rec))
        (if nth 23 rec 0 =? 0 then None else Some (take 16 (drop 24 rec))))
    else None).
Proof.
  unfold BOND_RECORD_LEN. intros Hl. unfold decode_record.
  rewrite slice_Ret by lia. rewrite obind_Ret. cbn [Nat.sub].
  rewrite (take_ge (drop 40 rec)) by len.
  case_decide as Hm.
  2:{ by rewrite bool_decide_eq_false_2. }
  rewrite bool_decide_eq_true_2 by done. cbn [negb].
  do 44 (destruct rec as [|? rec]; [discriminate Hl|]). destruct rec; [|discriminate Hl].
  cbn [nth take drop]. unfold slice_to.
  rewrite slice_Ret by (cbn; lia). rewrite obind_Ret.
  cbn [Nat.sub drop take]. rewrite copy_at_first by done. rewrite obind_Ret.
  rewrite slice_Ret by (cbn; lia). rewrite obind_Ret.
  cbn [Nat.sub drop take]. rewrite copy_at_first by done. rewrite obind_Ret.
  cbn [idx lookup list_lookup]. rewrite obind_Ret.
  match goal with |- context [?f =? 0] => destruct (f =? 0) end; cbn [negb];
    rewrite ?obind_Ret; [done|].
  rewrite slice_Ret by (cbn; lia). rewrite obind_Ret.
  cbn [Nat.sub drop take]. rewrite copy_at_first by done. rewrite !obind_Ret. done.
Qed.

Lemma decode_record_bytes b : wf_bond b -> decode_record (record_bytes b) = Ret (Some b).
Proof.
  intros Hwf. rewrite decode_record_cases by by apply record_bytes_length.
  destruct Hwf as (Ha & Hl & Hi & _). destruct b as [a l i].
  cbn [bi_addr bi_ltk bi_irk] in *. unfold record_bytes. cbn [bi_addr bi_ltk bi_irk].
  do 6 (destruct a as [|? a]; [discriminate Ha|]). destruct a; [|discriminate Ha].
  do 16 (destruct l as [|? l]; [discriminate Hl|]). destruct l; [|discriminate Hl].
  destruct i as [k|].
  - specialize (Hi k eq_refl).
    do 16 (destruct k as [|? k]; [discriminate Hi|]). destruct k; [|discriminate Hi].
    by rewrite decide_True by reflexivity.
  - by rewrite decide_True by reflexivity.
Qed.

(** ** Lemmas on the flash page *)

(** What the bytes of a slot decode to. *)
Definition slot_done (c : option BondInfo) (s : list Z) : Prop :=
  length s = BOND_RECORD_LEN /\ decode_record s = Ret c.

Definition erased : list Z := replicate BOND_RECORD_LEN 0xFF.

Lemma decode_erased : decode_record erased = Ret None.
Proof. reflexivity. Qed.

(** Reading the slots back. *)
Lemma load_slots_spec slots cs i pre post cache :
  Forall2 slot_done cs slots -> length pre = (4 + i * BOND_RECORD_LEN)%nat ->
  length cache = (i + length cs)%nat ->
  load_slots (length cs) i (pre ++ concat slots ++ post) cache = Ret (take i cache ++ cs).
Proof.
  intros H. revert i pre cache. induction H as [|c s cs slots [Hl Hd] H IH];
    intros i pre cache Hpre Hcl.
  { cbn [length load_slots]. rewrite app_nil_r, take_ge by (cbn [length] in *; lia). done. }
  cbn [length load_slots concat]. rewrite <- Hpre, <- app_assoc.
  rewrite slice_app_r, Nat.sub_diag by lia.
  replace (length pre + BOND_RECORD_LEN - length pre)%nat with BOND_RECORD_LEN by lia.
  rewrite slice_app_head, obind_Ret by done.
  rewrite Hd, obind_Ret, set_idx_Ret, obind_Ret by (cbn [length] in *; lia).
  rewrite (app_assoc pre s). rewrite IH; [|rewrite length_app; lia|cbn [length] in *; len].
  rewrite (take_S_r _ _ c) by (apply list_lookup_insert_eq; cbn [length] in *; lia).
  rewrite take_insert_ge by lia. by rewrite <- app_assoc.
Qed.

Definition magic_bytes : list Z := u32_to_le BOND_PAGE_MAGIC.

Definition rest_len : nat := BOND_PAGE_SIZE - 4 - BOND_MAX * BOND_RECORD_LEN.

Lemma page_split :
  replicate BOND_PAGE_SIZE 0xFF =
  [0xFF; 0xFF; 0xFF; 0xFF] ++ replicate (BOND_MAX * BOND_RECORD_LEN) 0xFF ++
  replicate rest_len 0xFF.
Proof.
  rewrite <- replicate_add. change [0xFF; 0xFF; 0xFF; 0xFF] with (replicate 4 0xFF).
  rewrite <- replicate_add. reflexivity.
Qed.

(** The page once the magic is on it. *)
Definition magic_page : list Z := magic_bytes ++
  concat (replicate BOND_MAX erased) ++ replicate rest_len 0xFF.

Lemma program_magic : program32 (replicate BOND_PAGE_SIZE 0xFF) 0 BOND_PAGE_MAGIC = magic_page.
Proof. unfold magic_page. rewrite page_split. reflexivity. Qed.

(** Opening a page that carries the magic. *)
Section flash_page.
Context `{!Nvmc D}.
Implicit Types (d : D).

Lemma open_slots cs slots post base d : Forall2 slot_done cs slots ->
  length cs = BOND_MAX -> base mod Z.of_nat BOND_PAGE_SIZE = 0 ->
  nv_page d = magic_bytes ++ concat slots ++ post ->
  FlashBondStore_open d base = Ret (mkFlashBondStore base cs).
Proof.
  intros Hs Hl Hb Hp. unfold FlashBondStore_open, load_page. cbn [fbs_base fbs_cache].
  rewrite Hp, Hb, Z.eqb_refl. cbn [negb]. unfold slice_to.
  rewrite slice_app_head, obind_Ret by done.
  change (le_val magic_bytes =? BOND_PAGE_MAGIC) with true. cbn [negb].
  rewrite <- Hl, (load_slots_spec slots cs 0); [by rewrite obind_Ret|done|done|].
  by rewrite length_replicate.
Qed.

(** The layout [flush] means to write is the one [load_page] reads: every slot
    of a cache comes back from its record, or from erased bytes. *)
Lemma open_layout cache base d : length cache = BOND_MAX -> wf_slots cache ->
  base mod Z.of_nat BOND_PAGE_SIZE = 0 ->
  nv_page d = magic_bytes ++
    concat (map (fun c => from_option record_bytes erased c) cache) ++ replicate rest_len 0xFF ->
  FlashBondStore_open d base = Ret (mkFlashBondStore base cache).
Proof.
  intros Hl Hw Hb Hp. eapply open_slots; [|done|done|exact Hp]. clear -Hw.
  induction Hw as [|[b|] cache Hc Hw IH]; cbn [map]; constructor; try done.
  split; [by apply record_bytes_length, Hc|by apply decode_record_bytes, Hc].
Qed.

(** A page with the magic and nothing else holds no bond. *)
Lemma open_magic_page base d : base mod Z.of_nat BOND_PAGE_SIZE = 0 ->
  nv_page d = magic_page ->
  FlashBondStore_open d base = Ret (mkFlashBondStore base (replicate BOND_MAX None)).
Proof.
  intros Hb Hp. apply (open_layout (replicate BOND_MAX None)); [done| |done|exact Hp].
  by apply Forall_replicate.
Qed.

(** The first record of a cache that holds one faults at its first byte. *)
Lemma write_record_faults off b rec d : write_record off (b :: rec) d = HardFault d.
Proof. cbn [write_record]. by rewrite nv_store8_faults. Qed.

Lemma write_cache_faults i cache d : wf_slots cache -> (exists b, Some b ∈ cache) ->
  write_cache i cache d = Ret (HardFault d).
Proof.
  intros Hw. revert i. induction Hw as [|[b|] cache Hc Hw IH]; intros i [x Hx].
  - by apply not_elem_of_nil in Hx.
  - cbn [write_cache]. rewrite encode_record_Ret, obind_Ret by by apply Hc.
    pose proof (record_bytes_length b (Hc b eq_refl)) as Hl.
    destruct (record_bytes b) as [|y rec]; [done|]. by rewrite write_record_faults.
  - cbn [write_cache]. apply IH. apply elem_of_cons in Hx as [Hx|Hx]; [done|by exists x].
Qed.

(** A flush of any bond erases the page, writes the magic, and faults. *)
Lemma flush_faults self d : wf_slots (fbs_cache self) ->
  (exists b, Some b ∈ fbs_cache self) ->
  exists d', flush self d = Ret (HardFault d') /\ nv_page d' = magic_page.
Proof.
  intros Hw Hb. unfold flush, read_ready.
  destruct (nv_config_ok Een d) as [M1 _].
  destruct (nv_erasepage_ok _ M1) as [_ P2]. set (d2 := nv_erasepage _) in *.
  destruct (nv_config_ok Wen d2) as [M3 P3].
  destruct (nv_store32_ok 0 BOND_PAGE_MAGIC (nv_config Wen d2) M3 eq_refl)
    as (d4 & -> & _ & P4); [unfold BOND_PAGE_SIZE; lia|].
  exists d4. rewrite write_cache_faults, obind_Ret by done. split; [done|].
  by rewrite P4, P3, P2, program_magic.
Qed.

End flash_page.

(** A bond that was saved is in a slot. *)
Lemma find_bond_elem slots p b : find_bond slots p = Some b -> Some b ∈ slots.
Proof.
  induction slots as [|[x|] slots IH]; cbn [find_bond]; [done| |].
  - case_decide; [intros [= ->]; by apply elem_of_cons; left|].
    intros E. apply elem_of_cons. right. by apply IH.
  - intros E. apply elem_of_cons. right. by apply IH.
Qed.

Definition flash_inv (s : FlashBondStore) : Prop :=
  length (fbs_cache s) = BOND_MAX /\ wf_slots (fbs_cache s) /\
  fbs_base s mod Z.of_nat BOND_PAGE_SIZE = 0.

(** ** Properties *)

(** A bond is found again: through the interface, for any
    implementation, saving a bond for a peer the store knows or has room for
    makes [find] return exactly that bond, a second save replaces it, and no
    other peer's bond changes. *)
Theorem bond_save_find {S} `{!BondStore S} s p l i l2 i2 :
  bs_inv s -> wf_bond (mkBondInfo p l i) -> wf_bond (mkBondInfo p l2 i2) ->
  bs_room s || bool_decide (is_Some (bs_find s p)) = true ->
  exists s1 s2, bs_save s p l i = Ret s1 /\ bs_find s1 p = Some (mkBondInfo p l i) /\
    bs_save s1 p l2 i2 = Ret s2 /\ bs_find s2 p = Some (mkBondInfo p l2 i2) /\
    forall q, q <> p -> bs_find s2 q = bs_find s q.
Proof.
  intros Hs Hb Hb2 Hroom.
  destruct (bs_save_ok s p l i Hs Hb) as (s1 & E1 & Hs1 & Hf1).
  destruct (bs_save_ok s1 p l2 i2 Hs1 Hb2) as (s2 & E2 & Hs2 & Hf2).
  assert (H1 : bs_find s1 p = Some (mkBondInfo p l i))
    by (rewrite Hf1, Hroom; by case_decide).
  exists s1, s2. split; [done|]. split; [done|]. split; [done|]. split.
  - rewrite Hf2, H1, bool_decide_eq_true_2, orb_true_r by by eexists.
    by case_decide.
  - intros q Hq. rewrite (Hf2 q), (Hf1 q). repeat case_decide; congruence.
Qed.

Definition zero_key (n : nat) : list Z := replicate n 0.

Lemma wf_zero_key n : wf_bond (mkBondInfo (zero_key 6) (replicate 16 (Z.of_nat n mod 256)) None).
Proof.
  repeat split; try done; [bytes_eval|].
  apply Forall_replicate. unfold is_u8. cbn. apply Z.mod_pos_bound. lia.
Qed.

(** C22. A save to flash loses every bond: on a flash controller as its
    documentation describes it, which programs aligned words and refuses bytes,
    a save that has a slot for the bond erases the page that held all of them,
    writes the magic, and is a hard fault at the first byte of the first record,
    for records are written byte by byte; opening the page afterwards finds a
    valid page without a bond. A save that finds no slot, for a new peer in a full
    store, changes nothing and says nothing. *)
Theorem flash_save_loses `{!Nvmc D} self (d : D) p l i :
  flash_inv self -> wf_bond (mkBondInfo p l i) ->
  let slots := save_slots (fbs_cache self) p (mkBondInfo p l i) in
  (is_Some slots <->
     has_room (fbs_cache self) = true \/ is_Some (FlashBondStore_find self p)) /\
  match slots with
  | Some cache => exists d',
      FlashBondStore_save self d p l i =
        Ret (mkFlashBondStore (fbs_base self) cache, HardFault d') /\
      FlashBondStore_open d' (fbs_base self) =
        Ret (mkFlashBondStore (fbs_base self) (replicate BOND_MAX None))
  | None => FlashBondStore_save self d p l i = Ret (self, Flashed d)
  end.
Proof.
  intros (Hl & Hw & Hb) Hbond slots. unfold slots, FlashBondStore_save, FlashBondStore_find.
  destruct (save_slots_spec (fbs_cache self) p (mkBondInfo p l i) eq_refl) as (_ & Hf & Hn).
  destruct (save_slots (fbs_cache self) p _) as [s|] eqn:E; cbn [default] in Hf; unfold id in Hf.
  - split.
    { split; [intros _|by eexists]. destruct (has_room _); [by left|right].
      destruct (find_bond (fbs_cache self) p) eqn:Ef; [by eexists|].
      destruct Hn as [_ Hn]. by discriminate Hn. }
    destruct (flush_faults (mkFlashBondStore (fbs_base self) s) d) as (d' & -> & Hp).
    + by eapply save_slots_wf.
    + destruct (has_room (fbs_cache self) || bool_decide (is_Some (find_bond (fbs_cache self) p)))
        eqn:Er.
      * exists (mkBondInfo p l i). apply find_bond_elem with p. by rewrite Hf, decide_True.
      * apply orb_false_iff in Er as [Er Ef]. apply bool_decide_eq_false in Ef.
        destruct (find_bond (fbs_cache self) p) eqn:Ed; [by destruct Ef; eexists|].
        destruct Hn as [_ Hn]. by discriminate Hn.
    + exists d'. split; [done|]. by apply open_magic_page.
  - split; [|done]. destruct Hn as [Hn _]. destruct (Hn eq_refl) as [Hr Hd].
    rewrite Hr, Hd. split; [by intros []|by intros [|[]]].
Qed.

(** A controller like that: a mode and a page. *)
Definition page_erase (d : NvmcMode * list Z) : NvmcMode * list Z :=
  match d with (Een, _) => (Een, replicate BOND_PAGE_SIZE 0xFF) | _ => d end.
Definition page_store32 (off : nat) (v : Z) (d : NvmcMode * list Z)
    : flashed (NvmcMode * list Z) :=
  match d with
  | (Wen, page) =>
      if (off mod 4 =? 0)%nat then Flashed (Wen, program32 page off v) else HardFault d
  | _ => HardFault d
  end.

#[export, refine] Instance nvmc_page : Nvmc (NvmcMode * list Z) := {
  nv_mode := fst;
  nv_page := snd;
  nv_config m d := (m, snd d);
  nv_erasepage := page_erase;
  nv_store32 := page_store32;
  nv_store8 off b d := HardFault d
}.
Proof.
  - done.
  - intros [m page] E. cbn [fst] in E. by subst m.
  - intros off v [m page] E Ho _. cbn [fst] in E. subst m. cbn [page_store32]. rewrite Ho.
    by eexists.
  - done.
Defined.

(** A store that held one bond saves another, and both are gone. *)
Lemma flash_save_loses_witness :
  exists self' d',
    FlashBondStore_save (mkFlashBondStore 0x7F000
      (Some (mkBondInfo (replicate 6 1) (replicate 16 2) None) :: replicate 7 None))
      (Ren, []) (zero_key 6) (replicate 16 1) None = Ret (self', HardFault d') /\
    FlashBondStore_open d' 0x7F000 = Ret (mkFlashBondStore 0x7F000 (replicate 8 None)).
Proof.
  destruct (flash_save_loses (mkFlashBondStore 0x7F000
      (Some (mkBondInfo (replicate 6 1) (replicate 16 2) None) :: replicate 7 None))
      (Ren, []) (zero_key 6) (replicate 16 1) None) as [_ (d' & E & H)].
  - split; [reflexivity|]. split; [|reflexivity]. constructor; [|by repeat constructor].
    intros i [= <-]. repeat split; try done; bytes_eval.
  - exact (wf_zero_key 1).
  - eexists _, d'. split; [exact E|exact H].
Defined.
