(* ===== verification/Crypto.v ===== *)
(** The cryptographic libraries the stack calls (the aes, cmac and p256
    crates), as an interface, and the address privacy built on them
    ([src/ll/priv_.rs]). *)

From stdpp Require Import base numbers list.
From S2P Require Import Prelude Addr.

(** ** The interface *)

(** AES-128 of a block, AES-CMAC of a message, and P-256: the public point of
    a secret, the validity of a secret and of a point, and the shared secret.
    Only the lengths of the results are relied on. *)
Class Crypto := {
  aes128 : list Z -> list Z -> list Z;
  cmac : list Z -> list Z -> list Z;
  p256_secret_ok : list Z -> bool;
  p256_public : list Z -> list Z;
  p256_point_ok : list Z -> bool;
  p256_ecdh : list Z -> list Z -> list Z;
  aes128_length k b : length (aes128 k b) = 16%nat;
  aes128_bytes k b : bytes (aes128 k b);
  cmac_length k m : length (cmac k m) = 16%nat;
  p256_public_length s : length (p256_public s) = 64%nat;
  p256_ecdh_length s p : length (p256_ecdh s p) = 32%nat
}.

#[export] Hint Rewrite @aes128_length @cmac_length @p256_public_length
  @p256_ecdh_length : list_length.

(** A concrete instance, to evaluate the definitions on: the block masked by
    the key. *)
Definition mask_block (k b : list Z) : list Z :=
  take 16 (zip_with (fun x y => (x .^ y) mod 256) k b ++ replicate 16 0).

#[export] Program Instance mask_crypto : Crypto := {
  aes128 := mask_block;
  cmac := mask_block;
  p256_secret_ok _ := true;
  p256_public _ := replicate 64 0;
  p256_point_ok _ := true;
  p256_ecdh _ _ := replicate 32 0
}.
Next Obligation. intros. unfold mask_block. len. Qed.
Next Obligation.
  intros. unfold mask_block. apply bytes_take, bytes_app. split; [|bytes_eval].
  apply Forall_zip_with_fst with (P := fun _ => True); [by apply Forall_true|].
  apply Forall_true. intros y x _. apply Z.mod_pos_bound. lia.
Qed.
Next Obligation. intros. unfold mask_block. len. Qed.
Next Obligation. done. Qed.
Next Obligation. done. Qed.

(** ** Resolvable private addresses *)

Section privacy.
Context `{!Crypto}.

Definition ah (irk prand : list Z) : outcome (list Z) :=
  let block := replicate 16 0 in
  let! block := copy_at block 0 3 prand in
  let out := aes128 irk block in
  let! s := slice_to out 3 in
  copy_at (replicate 3 0) 0 3 s.

Definition generate_rpa (irk : list Z) (prand : Z) : outcome (list Z) :=
  let prand := prand .& 0x00FFFFFF in
  let prand_bytes := [u8 (prand .& 0xFF); u8 ((prand .>> 8) .& 0xFF);
                      u8 ((prand .>> 16) .& 0xFF)] in
  let! b2 := idx prand_bytes 2 in
  let! prand_bytes := set_idx prand_bytes 2 ((b2 .& 0x3F) .| 0x40) in
  let! hash := ah irk prand_bytes in
  let addr := replicate 6 0 in
  let! addr := copy_at addr 0 3 hash in
  copy_at addr 3 6 prand_bytes.

Definition resolve_rpa (irk addr : list Z) : outcome bool :=
  let! b5 := idx addr 5 in
  if negb (b5 .>> 6 =? 1) then Ret false else
  let! s := slice addr 3 6 in
  let! prand := copy_at (replicate 3 0) 0 3 s in
  let! expected := ah irk prand in
  let! h := slice_to addr 3 in
  Ret (bool_decide (expected = h)).

(** ** Lemmas *)

(** The hash of an address, as bytes. *)
Definition ah_hash (irk prand : list Z) : list Z :=
  take 3 (aes128 irk (prand ++ replicate 13 0)).

Lemma ah_hash_length irk prand : length (ah_hash irk prand) = 3%nat.
Proof. unfold ah_hash. len. Qed.

#[local] Hint Rewrite ah_hash_length : list_length.

Lemma ah_Ret irk prand : length prand = 3%nat ->
  ah irk prand = Ret (ah_hash irk prand).
Proof.
  intros Hp. unfold ah. writes. cbn [drop replicate].
  rewrite slice_to_Ret by len. rewrite obind_Ret.
  rewrite copy_at_first by len. f_equal. unfold ah_hash.
  cbn [drop replicate]. apply app_nil_r.
Qed.

(** The random part of an address: its top bits are set to 01. *)
Lemma rpa_top_table : forall_below 256 (fun b =>
  (((b .& 0x3F) .| 0x40) .>> 6 =? 1) && (0 <=? (b .& 0x3F) .| 0x40) &&
  ((b .& 0x3F) .| 0x40 <? 256)) = true.
Proof. vm_compute. reflexivity. Qed.

Lemma generate_rpa_Ret irk prand : exists p0 p1 p2,
  generate_rpa irk prand = Ret (ah_hash irk [p0; p1; p2] ++ [p0; p1; p2]) /\
  is_u8 p0 /\ is_u8 p1 /\ is_u8 p2 /\ p2 .>> 6 = 1.
Proof.
  unfold generate_rpa. cbn [idx lookup list_lookup].
  set (r := prand .& 0x00FFFFFF). set (b2 := u8 ((r .>> 16) .& 0xFF)).
  rewrite obind_Ret. rewrite set_idx_Ret by (cbn; lia). rewrite obind_Ret.
  cbn [insert list_insert]. exists (u8 (r .& 0xFF)), (u8 ((r .>> 8) .& 0xFF)),
    ((b2 .& 0x3F) .| 0x40).
  rewrite ah_Ret, obind_Ret by done.
  rewrite copy_at_first by len. rewrite obind_Ret.
  rewrite copy_at_append by len. rewrite (drop_ge (drop _ _)) by len.
  rewrite app_nil_r. split; [done|].
  split; [apply u8_range|]. split; [apply u8_range|].
  pose proof (u8_range ((r .>> 16) .& 0xFF)) as Hb. fold b2 in Hb.
  pose proof (forall_below_spec 256 _ rpa_top_table b2 Hb) as Ht.
  apply andb_prop in Ht as [[H1%Z.eqb_eq H2%Z.leb_le]%andb_prop H3%Z.ltb_lt].
  unfold is_u8. lia.
Qed.

Lemma resolve_rpa_Ret irk h p0 p1 p2 : length h = 3%nat ->
  resolve_rpa irk (h ++ [p0; p1; p2]) =
  Ret ((p2 .>> 6 =? 1) && bool_decide (ah_hash irk [p0; p1; p2] = h)).
Proof.
  intros Hh. unfold resolve_rpa. rewrite idx_app_r by lia. rewrite Hh.
  cbn [Nat.sub idx lookup list_lookup]. rewrite obind_Ret.
  destruct (p2 .>> 6 =? 1); cbn [negb andb]; [|done].
  rewrite slice_app_r, Hh by lia. rewrite slice_Ret by (cbn; lia). rewrite obind_Ret.
  cbn [Nat.sub drop take]. rewrite copy_at_first by (done || cbn; lia).
  rewrite obind_Ret. cbn [drop replicate app]. rewrite ah_Ret, obind_Ret by done.
  unfold slice_to. by rewrite slice_app_head, obind_Ret.
Qed.

End privacy.

(** ** Properties *)

(** A generated private address resolves with its key: whatever AES
    computes, [generate_rpa] returns a six-byte address that [resolve_rpa]
    accepts with the same key, that the address parser classifies as
    resolvable, and that another key accepts only if its hash of the random
    part is the same. *)
Theorem rpa_resolves `{!Crypto} irk prand other :
  exists addr, generate_rpa irk prand = Ret addr /\ length addr = 6%nat /\
    resolve_rpa irk addr = Ret true /\
    BtAddr_parse addr = Ret (mkBtAddr addr RandomPrivateResolvable) /\
    resolve_rpa other addr =
      Ret (bool_decide (ah_hash other (drop 3 addr) = ah_hash irk (drop 3 addr))).
Proof.
  destruct (generate_rpa_Ret irk prand) as (p0 & p1 & p2 & E & H0 & H1 & H2 & Ht).
  pose proof (ah_hash_length irk [p0; p1; p2]) as Hl.
  eexists. split; [exact E|]. split; [len|].
  rewrite !resolve_rpa_Ret, Ht by done. cbn [Z.eqb Pos.eqb andb].
  split; [by rewrite bool_decide_eq_true_2|]. split.
  - unfold BtAddr_parse. rewrite idx_app_r by lia. rewrite Hl.
    cbn [Nat.sub idx lookup list_lookup]. by rewrite obind_Ret, Ht.
  - by rewrite !drop_app_length'.
Qed.
