(* ===== verification/Aes.v ===== *)
(** A concrete [Crypto]: AES-128 as FIPS 197 defines it and AES-CMAC as RFC 4493
    does, so that the crate's test vectors can be evaluated. The aes and cmac
    crates the stack calls are not under [src/]; these are the standards they
    implement, checked on the standards' own examples. For the elliptic curve
    there is only a small commutative group in its place, enough to show that
    two sides of an exchange can agree. *)

From Stdlib Require Import Zdiv.
From stdpp Require Import base numbers list.
From S2P Require Import Prelude Crypto.

#[local] Open Scope Z_scope.
#[local] Open Scope rust_scope.

(** ** The field of bytes *)

(** Multiplication by x modulo x^8 + x^4 + x^3 + x + 1. *)
Definition xtime (b : Z) : Z :=
  ((b .<< 1) .& 0xFF) .^ (if Z.testbit b 7 then 0x1B else 0).

Fixpoint gf_mul_loop (n : nat) (a b acc : Z) : Z :=
  match n with
  | O => acc
  | S n => gf_mul_loop n (xtime a) (b .>> 1) (if Z.testbit b 0 then acc .^ a else acc)
  end.

Definition gf_mul (a b : Z) : Z := gf_mul_loop 8 a b 0.

(** The inverse is the 254th power. *)
Fixpoint gf_pow (n : nat) (a : Z) : Z :=
  match n with O => 1 | S n => gf_mul a (gf_pow n a) end.

Definition gf_inv (a : Z) : Z := gf_pow 254 a.

Definition rotl8 (b n : Z) : Z := ((b .<< n) .| (b .>> (8 - n))) .& 0xFF.

Definition sbox (a : Z) : Z :=
  let b := gf_inv a in
  b .^ rotl8 b 1 .^ rotl8 b 2 .^ rotl8 b 3 .^ rotl8 b 4 .^ 0x63.

Definition sbox_table : list Z :=
  Eval vm_compute in map (fun i => sbox (Z.of_nat i)) (seq 0 256).

Definition sub_byte (b : Z) : Z := nth (Z.to_nat b) sbox_table 0.

(** ** The cipher *)

(** A state is sixteen bytes, column by column. *)
Definition shift_rows (s : list Z) : list Z :=
  map (fun i => nth ((i + 4 * (i mod 4)) mod 16)%nat s 0) (seq 0 16).

Definition mix_column (c : list Z) : list Z :=
  map (fun i => let at_ k := nth ((i + k) mod 4)%nat c 0 in
    xtime (at_ 0%nat) .^ (xtime (at_ 1%nat) .^ at_ 1%nat) .^ at_ 2%nat .^ at_ 3%nat)
    (seq 0 4).

Definition column (s : list Z) (i : nat) : list Z := take 4 (drop (4 * i) s).

Definition mix_columns (s : list Z) : list Z :=
  mix_column (column s 0) ++ mix_column (column s 1) ++
  mix_column (column s 2) ++ mix_column (column s 3).

(** The next round key. *)
Definition next_key (k : list Z) (rcon : Z) : list Z :=
  let w3 := column k 3 in
  let t := xor_bytes (map sub_byte (drop 1 w3 ++ take 1 w3)) [rcon; 0; 0; 0] in
  let w0 := xor_bytes (column k 0) t in
  let w1 := xor_bytes (column k 1) w0 in
  let w2 := xor_bytes (column k 2) w1 in
  w0 ++ w1 ++ w2 ++ xor_bytes (column k 3) w2.

Fixpoint aes_rounds (n : nat) (k : list Z) (rcon : Z) (s : list Z) : list Z :=
  let k := next_key k rcon in
  let s := shift_rows (map sub_byte s) in
  match n with
  | O => xor_bytes s k
  | S n => aes_rounds n k (xtime rcon) (xor_bytes (mix_columns s) k)
  end.

Definition aes_block (k s : list Z) : list Z := aes_rounds 9 k 1 (xor_bytes s k).

(** ** The message authentication code *)

(** Doubling of a block, most significant byte first. *)
Fixpoint shl_bits (l : list Z) : list Z :=
  match l with
  | [] => []
  | b :: l => (((b .<< 1) .& 0xFF) .| (nth 0 l 0 .>> 7)) :: shl_bits l
  end.

Definition dbl (l : list Z) : list Z :=
  xor_bytes (shl_bits l) (replicate 15 0 ++ [if Z.testbit (nth 0 l 0) 7 then 0x87 else 0]).

(** [n] blocks more at most; the last one is masked. *)
Fixpoint cmac_loop (n : nat) (k k1 k2 x m : list Z) : list Z :=
  if (length m <=? 16)%nat then
    let last :=
      if (length m =? 16)%nat then xor_bytes m k1
      else xor_bytes (take 16 (m ++ [0x80] ++ replicate 16 0)) k2 in
    aes_block k (xor_bytes x last)
  else
    match n with
    | O => x
    | S n => cmac_loop n k k1 k2 (aes_block k (xor_bytes x (take 16 m))) (drop 16 m)
    end.

Definition aes_cmac_value (k m : list Z) : list Z :=
  let k1 := dbl (aes_block k (replicate 16 0)) in
  cmac_loop (length m) k k1 (dbl k1) (replicate 16 0) m.

(** ** A group for the exchange *)

(** Powers of 3 modulo 65537, written at the end of a point's 64 bytes. *)
Definition group_exp (base s : Z) : Z := base ^ (s mod 256) mod 65537.

Definition secret_value (s : list Z) : Z := le_val s.
Definition point_value (p : list Z) : Z := le_val (take 3 p).
Definition point_bytes (n : nat) (v : Z) : list Z :=
  [v mod 256; v / 256 mod 256; v / 65536 mod 256] ++ replicate (n - 3) 0.

(** ** The instance *)

(** Sixteen bytes, whatever the argument; the identity on a block. *)
Definition fit (l : list Z) : list Z := map u8 (take 16 (l ++ replicate 16 0)).

Lemma fit_length l : length (fit l) = 16%nat.
Proof. unfold fit. rewrite length_map. len. Qed.

Lemma fit_bytes l : bytes (fit l).
Proof. unfold fit. apply Forall_map, Forall_true. intros x. apply u8_range. Qed.

Lemma fit_block l : length l = 16%nat -> bytes l -> fit l = l.
Proof.
  intros Hl Hb. unfold fit. rewrite take_app_length' by done.
  transitivity (map id l); [|apply map_id]. clear Hl.
  induction Hb as [|x l Hx Hb IH]; [done|]. cbn [map]. rewrite IH, u8_id by done. done.
Qed.

#[export] Program Instance aes_crypto : Crypto := {
  aes128 k b := fit (aes_block (fit k) (fit b));
  cmac k m := fit (aes_cmac_value (fit k) m);
  p256_secret_ok _ := true;
  p256_public s := point_bytes 64 (group_exp 3 (secret_value s));
  p256_point_ok _ := true;
  p256_ecdh s p := point_bytes 32 (group_exp (point_value p) (secret_value s))
}.
Next Obligation. intros. apply fit_length. Qed.
Next Obligation. intros. apply fit_bytes. Qed.
Next Obligation. intros. apply fit_length. Qed.
Next Obligation. done. Qed.
Next Obligation. done. Qed.

(** The two sides of an exchange compute the same point. *)
Lemma point_bytes_value n v : 0 <= v < 65537 -> point_value (point_bytes n v) = v.
Proof.
  intros Hv. unfold point_value, point_bytes. cbn [app]. rewrite !firstn_cons, firstn_O. cbn [le_val].
  change 65536 with (256 * 256). rewrite <- Z.div_div by lia.
  assert (Hq : 0 <= v / 256 / 256 < 256).
  { split; [repeat apply Z.div_pos; lia|]. rewrite Z.div_div by lia.
    apply Z.div_lt_upper_bound; lia. }
  rewrite (Z.mod_small (v / 256 / 256)) by done.
  pose proof (Z.div_mod v 256 ltac:(lia)). pose proof (Z.div_mod (v / 256) 256 ltac:(lia)).
  lia.
Qed.

Lemma group_exp_range b s : 0 <= group_exp b s < 65537.
Proof. apply Z.mod_pos_bound. lia. Qed.

Lemma group_exp_comm b s t : 0 <= b ->
  group_exp (group_exp b s) t = group_exp (group_exp b t) s.
Proof.
  intros Hb. unfold group_exp.
  pose proof (Z.mod_pos_bound s 256 ltac:(lia)). pose proof (Z.mod_pos_bound t 256 ltac:(lia)).
  rewrite !Z.mod_pow_l, <- !Z.pow_mul_r by lia. by rewrite Z.mul_comm.
Qed.

Lemma group_agrees a b :
  @p256_ecdh aes_crypto a (@p256_public aes_crypto b) =
  @p256_ecdh aes_crypto b (@p256_public aes_crypto a).
Proof.
  cbn [p256_ecdh p256_public aes_crypto]. rewrite !point_bytes_value by apply group_exp_range.
  by rewrite group_exp_comm by lia.
Qed.

(** ** The standards' examples *)

Definition count_up (n : nat) : list Z := Z.of_nat <$> seq 0 n.

(** FIPS 197, appendix C.1. *)
Example aes_fips197 :
  aes128 (Crypto := aes_crypto) (count_up 16) ((fun x => 17 * x) <$> count_up 16) =
  [0x69; 0xC4; 0xE0; 0xD8; 0x6A; 0x7B; 0x04; 0x30;
   0xD8; 0xCD; 0xB7; 0x80; 0x70; 0xB4; 0xC5; 0x5A].
Proof. vm_compute. reflexivity. Qed.

(** RFC 4493, section 4: the empty message and one of 40 bytes. *)
Definition rfc4493_key : list Z :=
  [0x2B; 0x7E; 0x15; 0x16; 0x28; 0xAE; 0xD2; 0xA6;
   0xAB; 0xF7; 0x15; 0x88; 0x09; 0xCF; 0x4F; 0x3C].
Definition rfc4493_message : list Z :=
  [0x6B; 0xC1; 0xBE; 0xE2; 0x2E; 0x40; 0x9F; 0x96; 0xE9; 0x3D; 0x7E; 0x11; 0x73; 0x93;
   0x17; 0x2A; 0xAE; 0x2D; 0x8A; 0x57; 0x1E; 0x03; 0xAC; 0x9C; 0x9E; 0xB7; 0x6F; 0xAC;
   0x45; 0xAF; 0x8E; 0x51; 0x30; 0xC8; 0x1C; 0x46; 0xA3; 0x5C; 0xE4; 0x11].

Example cmac_rfc4493 :
  cmac (Crypto := aes_crypto) rfc4493_key [] =
    [0xBB; 0x1D; 0x69; 0x29; 0xE9; 0x59; 0x37; 0x28;
     0x7F; 0xA3; 0x7D; 0x12; 0x9B; 0x75; 0x67; 0x46] /\
  cmac (Crypto := aes_crypto) rfc4493_key rfc4493_message =
    [0xDF; 0xA6; 0x67; 0x47; 0xDE; 0x9A; 0xE6; 0x30;
     0x30; 0xCA; 0x32; 0x61; 0x14; 0x97; 0xC8; 0x27].
Proof. vm_compute. by split. Qed.
