(* ===== verification/Smp.v ===== *)
(** The Security Manager ([src/hw/smp.rs]): the legacy pairing functions and
    state machine, and the Secure Connections key derivation, over the
    cryptographic interface. *)

From stdpp Require Import base numbers list.
From S2P Require Import Prelude Crypto.

(** ** Constants *)

Definition SMP_PUBLIC_KEY : Z := 0x0C.
Definition TK_JUST_WORKS : list Z := replicate 16 0.
Definition L2CAP_SMP_CID : Z := 0x0006.
Definition SMP_PAIRING_REQUEST : Z := 0x01.
Definition SMP_PAIRING_RESPONSE : Z := 0x02.
Definition SMP_PAIRING_CONFIRM : Z := 0x03.
Definition SMP_PAIRING_RANDOM : Z := 0x04.
Definition SMP_PAIRING_FAILED : Z := 0x05.
Definition SMP_ENCRYPTION_INFORMATION : Z := 0x06.
Definition SMP_MASTER_IDENTIFICATION : Z := 0x07.
Definition SMP_SECURITY_REQUEST : Z := 0x0B.
Definition SMP_PAIRING_FAILED_UNSPECIFIED : Z := 0x08.
Definition SMP_REASON_OOB : Z := 0x02.
Definition SMP_REASON_AUTH : Z := 0x05.
Definition SMP_REASON_CONFIRM : Z := 0x06.
Definition IO_NO_INPUT_NO_OUTPUT : Z := 0x03.

(** ** State *)

Inductive SmpError : Type := SmpInvalidPdu | ConfirmMismatch.

Inductive SmpState : Type :=
| Idle
| WaitPairingResponse
| WaitConfirm
| WaitRandom
| WaitingStartEnc
| Encrypted.

#[export] Instance SmpState_eq_dec : EqDecision SmpState.
Proof. solve_decision. Defined.

(** [SmpState::pairing]. *)
Definition pairing (self : SmpState) : bool :=
  match self with Idle | Encrypted => false | _ => true end.

(** The inputs of the confirm function. *)
Record C1Inputs := mkC1Inputs {
  c1_r : list Z;
  c1_preq : list Z;
  c1_pres : list Z;
  c1_iat : Z;
  c1_rat : Z;
  c1_ia : list Z;
  c1_ra : list Z
}.

Record Smp := mkSmp {
  smp_state : SmpState;
  smp_own_random : list Z;
  smp_peer_random : list Z;
  smp_own_confirm : list Z;
  smp_peer_confirm : list Z;
  smp_preq : list Z;
  smp_pres : list Z;
  smp_iat : Z;
  smp_rat : Z;
  smp_ia : list Z;
  smp_ra : list Z;
  smp_stk : list Z;
  smp_responder : bool;
  smp_pairing_failed : Z;
  smp_passkey : option Z;
  smp_sc : bool;
  smp_own_private : list Z;
  smp_peer_public : list Z;
  smp_dhkey : list Z;
  smp_sc_nonce : list Z;
  smp_peer_nonce : list Z
}.

Definition Smp_new : Smp :=
  mkSmp Idle (replicate 16 0) (replicate 16 0) (replicate 16 0) (replicate 16 0)
    (replicate 7 0) (replicate 7 0) 0 0 (replicate 6 0) (replicate 6 0) (replicate 16 0)
    false 0 None false (replicate 32 0) (replicate 64 0) (replicate 32 0) (replicate 16
    0) (replicate 16 0).

(** [Default]. *)
Definition Smp_default : Smp := Smp_new.

(** The record's eta expansion, and a setter per field. *)
Definition Smp_eta (s : Smp) : Smp :=
  mkSmp (smp_state s) (smp_own_random s) (smp_peer_random s) (smp_own_confirm s)
    (smp_peer_confirm s) (smp_preq s) (smp_pres s) (smp_iat s) (smp_rat s) (smp_ia s)
    (smp_ra s) (smp_stk s) (smp_responder s) (smp_pairing_failed s) (smp_passkey s)
    (smp_sc s) (smp_own_private s) (smp_peer_public s) (smp_dhkey s) (smp_sc_nonce s)
    (smp_peer_nonce s).

Definition set_smp_state : SmpState -> Smp -> Smp :=
  ltac:(record_setter Smp_eta smp_state).
Definition set_smp_own_random : list Z -> Smp -> Smp :=
  ltac:(record_setter Smp_eta smp_own_random).
Definition set_smp_peer_random : list Z -> Smp -> Smp :=
  ltac:(record_setter Smp_eta smp_peer_random).
Definition set_smp_own_confirm : list Z -> Smp -> Smp :=
  ltac:(record_setter Smp_eta smp_own_confirm).
Definition set_smp_peer_confirm : list Z -> Smp -> Smp :=
  ltac:(record_setter Smp_eta smp_peer_confirm).
Definition set_smp_preq : list Z -> Smp -> Smp :=
  ltac:(record_setter Smp_eta smp_preq).
Definition set_smp_pres : list Z -> Smp -> Smp :=
  ltac:(record_setter Smp_eta smp_pres).
Definition set_smp_iat : Z -> Smp -> Smp :=
  ltac:(record_setter Smp_eta smp_iat).
Definition set_smp_rat : Z -> Smp -> Smp :=
  ltac:(record_setter Smp_eta smp_rat).
Definition set_smp_ia : list Z -> Smp -> Smp :=
  ltac:(record_setter Smp_eta smp_ia).
Definition set_smp_ra : list Z -> Smp -> Smp :=
  ltac:(record_setter Smp_eta smp_ra).
Definition set_smp_stk : list Z -> Smp -> Smp :=
  ltac:(record_setter Smp_eta smp_stk).
Definition set_smp_responder : bool -> Smp -> Smp :=
  ltac:(record_setter Smp_eta smp_responder).
Definition set_smp_pairing_failed : Z -> Smp -> Smp :=
  ltac:(record_setter Smp_eta smp_pairing_failed).
Definition set_smp_passkey : option Z -> Smp -> Smp :=
  ltac:(record_setter Smp_eta smp_passkey).
Definition set_smp_sc : bool -> Smp -> Smp :=
  ltac:(record_setter Smp_eta smp_sc).
Definition set_smp_own_private : list Z -> Smp -> Smp :=
  ltac:(record_setter Smp_eta smp_own_private).
Definition set_smp_peer_public : list Z -> Smp -> Smp :=
  ltac:(record_setter Smp_eta smp_peer_public).
Definition set_smp_dhkey : list Z -> Smp -> Smp :=
  ltac:(record_setter Smp_eta smp_dhkey).
Definition set_smp_sc_nonce : list Z -> Smp -> Smp :=
  ltac:(record_setter Smp_eta smp_sc_nonce).
Definition set_smp_peer_nonce : list Z -> Smp -> Smp :=
  ltac:(record_setter Smp_eta smp_peer_nonce).

(** ** Operations *)

Section smp.
Context `{!Crypto}.

Definition aes_cmac (key data : list Z) : outcome (list Z) :=
  copy_at (replicate 16 0) 0 16 (cmac key data).

(** In place: the block afterwards. *)
Definition aes_encrypt (key block : list Z) : list Z := aes128 key block.

Definition c1 (tk : list Z) (inputs : C1Inputs) : outcome (list Z) :=
  let p1 := replicate 16 0 in
  let! p1 := set_idx p1 0 (c1_iat inputs) in
  let! p1 := set_idx p1 1 (c1_rat inputs) in
  let! p1 := copy_at p1 2 9 (c1_preq inputs) in
  let! p1 := copy_at p1 9 16 (c1_pres inputs) in
  let res := xor_bytes (c1_r inputs) p1 in
  let res := aes_encrypt tk res in
  let p2 := replicate 16 0 in
  let! p2 := copy_at p2 0 6 (c1_ra inputs) in
  let! p2 := copy_at p2 6 12 (c1_ia inputs) in
  let! p2 := fill_at p2 12 16 0 in
  let res := xor_bytes res p2 in
  Ret (aes_encrypt tk res).

Definition s1 (k r1 r2 : list Z) : outcome (list Z) :=
  let block := replicate 16 0 in
  let! h2 := slice_to r2 8 in
  let! block := copy_at block 0 8 h2 in
  let! h1 := slice_to r1 8 in
  let! block := copy_at block 8 16 h1 in
  Ret (aes_encrypt k block).

Definition set_passkey (self : Smp) (passkey : option Z) : Smp :=
  set_smp_passkey passkey self.

Definition enable_sc (self : Smp) : Smp := set_smp_sc true self.

Definition tk (self : Smp) : outcome (list Z) :=
  match smp_passkey self with
  | Some pk => copy_at (replicate 16 0) 0 4 (u32_to_le pk)
  | None => Ret TK_JUST_WORKS
  end.

Definition build_pairing_request (self : Smp) : Smp * list Z :=
  let p := [SMP_PAIRING_REQUEST;
    if bool_decide (is_Some (smp_passkey self)) then 0x02 else IO_NO_INPUT_NO_OUTPUT;
    0; 0x01 .| (if smp_sc self then 0x08 else 0); 16; 0x01; 0x01] in
  (set_smp_preq p self, p).

Definition handle_pairing_request (self : Smp) (data : list Z)
    : outcome (Smp * result (list Z) SmpError) :=
  if (length data <? 7)%nat then Ret (self, Err SmpInvalidPdu) else
  let! d := slice_to data 7 in
  let! preq := copy_at (smp_preq self) 0 7 d in
  let self := set_smp_preq preq self in
  let self := set_smp_rat 0 self in
  let self := set_smp_responder true self in
  let self := set_smp_state WaitConfirm self in
  let rsp := [SMP_PAIRING_RESPONSE; IO_NO_INPUT_NO_OUTPUT; 0; 0x01; 16; 0x01; 0x01] in
  let self := set_smp_pres rsp self in
  Ret (self, Ok rsp).

Definition handle_pairing_response (self : Smp) (data : list Z)
    : outcome (Smp * result unit SmpError) :=
  if (length data <? 7)%nat then Ret (self, Err SmpInvalidPdu) else
  let! d := slice_to data 7 in
  let! pres := copy_at (smp_pres self) 0 7 d in
  let self := set_smp_pres pres self in
  let self := set_smp_state WaitConfirm self in
  Ret (self, Ok tt).

(** [SecretKey::from_bytes(..).unwrap()] panics on an invalid secret. *)
Definition build_public_key (self : Smp) : outcome (list Z) :=
  if negb (p256_secret_ok (smp_own_private self)) then Panic else
  let out := replicate 65 0 in
  let! out := set_idx out 0 SMP_PUBLIC_KEY in
  copy_at out 1 65 (p256_public (smp_own_private self)).

Definition handle_public_key (self : Smp) (data : list Z)
    : outcome (Smp * result unit SmpError) :=
  if (length data <? 65)%nat then Ret (self, Err SmpInvalidPdu) else
  let! d := slice data 1 65 in
  let! pub := copy_at (smp_peer_public self) 0 64 d in
  let self := set_smp_peer_public pub self in
  if negb (p256_point_ok d) then Ret (self, Err SmpInvalidPdu) else
  if negb (p256_secret_ok (smp_own_private self)) then Ret (self, Err SmpInvalidPdu)
  else
  let raw := p256_ecdh (smp_own_private self) d in
  let! dh := copy_at (smp_dhkey self) 0 32 raw in
  let self := set_smp_dhkey dh self in
  let self := set_smp_sc true self in
  Ret (self, Ok tt).

(** The salt of f5, and the key identifier. *)
Definition f5_salt : list Z :=
  [0xbe; 0x83; 0x60; 0x5a; 0xdb; 0x0b; 0x37; 0x60; 0x38; 0xa5; 0xf5; 0xaa; 0x91; 0x83;
   0x88; 0x6c].
Definition f5_btle : list Z := [0x65; 0x6c; 0x74; 0x62].

Definition compute_ltk_sc (self : Smp) (n1 n2 a1 a2 : list Z) : outcome (list Z) :=
  let len := [0x00; 0x01] in
  let! t := aes_cmac f5_salt (smp_dhkey self) in
  let m := replicate 53 0 in
  let! m := copy_at m 0 2 len in
  let! m := copy_at m 2 9 a2 in
  let! m := copy_at m 9 16 a1 in
  let! m := copy_at m 16 32 n2 in
  let! m := copy_at m 32 48 n1 in
  let! m := copy_at m 48 52 f5_btle in
  let! m := set_idx m 52 0 in
  let! mackey := aes_cmac t m in
  let! m := set_idx m 52 1 in
  aes_cmac mackey m.

Definition build_failed (reason : Z) : list Z := [SMP_PAIRING_FAILED; reason].

Definition fail_unspecified (self : Smp) : Smp * list Z :=
  (set_smp_pairing_failed SMP_PAIRING_FAILED_UNSPECIFIED self,
   build_failed SMP_PAIRING_FAILED_UNSPECIFIED).
Definition fail_oob (self : Smp) : Smp * list Z :=
  (set_smp_pairing_failed SMP_REASON_OOB self, build_failed SMP_REASON_OOB).
Definition fail_auth (self : Smp) : Smp * list Z :=
  (set_smp_pairing_failed SMP_REASON_AUTH self, build_failed SMP_REASON_AUTH).

(** [C1Inputs] with the pairing of [self] and the random value [r]. *)
Definition c1_inputs (self : Smp) (r : list Z) : C1Inputs :=
  mkC1Inputs r (smp_preq self) (smp_pres self) (smp_iat self) (smp_rat self)
    (smp_ia self) (smp_ra self).

Definition build_confirm (self : Smp) (iat : Z) (ia ra : list Z)
    : outcome (Smp * list Z) :=
  let self := set_smp_iat iat self in
  let self := set_smp_ia ia self in
  let self := set_smp_ra ra self in
  let self := set_smp_own_random (map (fun _ => 0x5A) (smp_own_random self)) self in
  let! tk := tk self in
  let! c := c1 tk (c1_inputs self (smp_own_random self)) in
  let self := set_smp_own_confirm c self in
  let out := replicate 17 0 in
  let! out := set_idx out 0 SMP_PAIRING_CONFIRM in
  let! out := copy_at out 1 17 (smp_own_confirm self) in
  Ret (self, out).

Definition handle_confirm (self : Smp) (data : list Z)
    : outcome (Smp * result unit SmpError) :=
  if (length data <? 17)%nat then Ret (self, Err SmpInvalidPdu) else
  let! d := slice data 1 17 in
  let! c := copy_at (smp_peer_confirm self) 0 16 d in
  let self := set_smp_peer_confirm c self in
  let self := set_smp_state WaitRandom self in
  Ret (self, Ok tt).

Definition build_random (self : Smp) : outcome (list Z) :=
  let out := replicate 17 0 in
  let! out := set_idx out 0 SMP_PAIRING_RANDOM in
  copy_at out 1 17 (smp_own_random self).

Definition handle_random (self : Smp) (data : list Z)
    : outcome (Smp * result (list Z) SmpError) :=
  if (length data <? 17)%nat then Ret (self, Err SmpInvalidPdu) else
  let! d := slice data 1 17 in
  let! r := copy_at (smp_peer_random self) 0 16 d in
  let self := set_smp_peer_random r self in
  let! t := tk self in
  let! expected := c1 t (c1_inputs self (smp_peer_random self)) in
  if negb (bool_decide (expected = smp_peer_confirm self)) then
    let self := set_smp_pairing_failed SMP_REASON_CONFIRM self in
    Ret (self, Err ConfirmMismatch)
  else
  let! t := tk self in
  let! stk := s1 t (smp_own_random self) (smp_peer_random self) in
  let self := set_smp_stk stk self in
  let self := set_smp_state WaitingStartEnc self in
  let self := set_smp_pairing_failed 0 self in
  let! out := build_random self in
  Ret (self, Ok out).

(** ** Specification *)

(** The array types of the fields. *)
Definition wf_smp (s : Smp) : Prop :=
  length (smp_own_random s) = 16%nat /\ length (smp_peer_random s) = 16%nat /\
  length (smp_own_confirm s) = 16%nat /\ length (smp_peer_confirm s) = 16%nat /\
  length (smp_preq s) = 7%nat /\ length (smp_pres s) = 7%nat /\
  length (smp_ia s) = 6%nat /\ length (smp_ra s) = 6%nat /\
  length (smp_stk s) = 16%nat /\ length (smp_own_private s) = 32%nat /\
  length (smp_peer_public s) = 64%nat /\ length (smp_dhkey s) = 32%nat.

(** The temporary key, the confirm value and the session key as values. *)
Definition tk_of (s : Smp) : list Z :=
  match smp_passkey s with
  | Some pk => u32_to_le pk ++ replicate 12 0
  | None => TK_JUST_WORKS
  end.

Definition c1_val (k : list Z) (i : C1Inputs) : list Z :=
  aes128 k (xor_bytes
    (aes128 k (xor_bytes (c1_r i)
      ([c1_iat i; c1_rat i] ++ c1_preq i ++ c1_pres i)))
    (c1_ra i ++ c1_ia i ++ replicate 4 0)).

Definition s1_val (k r1 r2 : list Z) : list Z := aes128 k (take 8 r2 ++ take 8 r1).

(** ** Lemmas *)

Lemma tk_Ret s : tk s = Ret (tk_of s).
Proof.
  unfold tk, tk_of. destruct (smp_passkey s) as [pk|]; [|done].
  by rewrite copy_at_first by (done || cbn; lia).
Qed.

Definition wf_c1 (i : C1Inputs) : Prop :=
  length (c1_preq i) = 7%nat /\ length (c1_pres i) = 7%nat /\
  length (c1_ia i) = 6%nat /\ length (c1_ra i) = 6%nat.

Lemma c1_Ret k i : wf_c1 i -> c1 k i = Ret (c1_val k i).
Proof.
  intros (Hq & Hs & Ha & Hr). unfold c1, c1_val, aes_encrypt. writes.
  unfold fill_at. writes. do 2 f_equal. f_equal.
  - do 2 f_equal. rewrite (drop_ge (drop _ _)), app_nil_r by len.
    by rewrite <- !app_assoc.
  - rewrite (drop_ge (drop _ _)), app_nil_r by len. by rewrite <- !app_assoc.
Qed.

Lemma s1_Ret k r1 r2 : (8 <= length r1)%nat -> (8 <= length r2)%nat ->
  s1 k r1 r2 = Ret (s1_val k r1 r2).
Proof.
  intros H1 H2. unfold s1, s1_val, aes_encrypt.
  rewrite slice_to_Ret, obind_Ret by lia. writes.
  rewrite slice_to_Ret, obind_Ret by lia. writes.
  do 2 f_equal. by rewrite (drop_ge (drop _ _)), app_nil_r by len.
Qed.

(** Copying over a whole array. *)
Lemma copy_all {A} (l src : list A) n : length l = n -> length src = n ->
  copy_at l 0 n src = Ret src.
Proof.
  intros Hl Hs. rewrite copy_at_first by lia. by rewrite drop_ge, app_nil_r by lia.
Qed.

Lemma build_random_Ret s : length (smp_own_random s) = 16%nat ->
  build_random s = Ret (SMP_PAIRING_RANDOM :: smp_own_random s).
Proof.
  intros Ho. unfold build_random. writes.
  by rewrite (drop_ge (drop _ _)), app_nil_r by len.
Qed.

Lemma handle_confirm_Ret s op c : length c = 16%nat ->
  length (smp_peer_confirm s) = 16%nat ->
  handle_confirm s (op :: c) =
  Ret (set_smp_state WaitRandom (set_smp_peer_confirm c s), Ok tt).
Proof.
  intros Hc Hp. unfold handle_confirm. cbn [length]. rewrite Hc.
  change (17 <? 17)%nat with false. rewrite slice_Ret, obind_Ret by (cbn [length]; lia).
  cbn [drop Nat.sub]. rewrite (take_ge c) by lia. by rewrite copy_all, obind_Ret.
Qed.

Lemma handle_confirm_short s data : (length data < 17)%nat ->
  handle_confirm s data = Ret (s, Err SmpInvalidPdu).
Proof. intros Hd. unfold handle_confirm. by rewrite (proj2 (Nat.ltb_lt _ _)) by lia. Qed.

(** The state [build_confirm] leaves. *)
Definition confirmed (s : Smp) (iat : Z) (ia ra : list Z) : Smp :=
  let s := set_smp_iat iat s in
  let s := set_smp_ia ia s in
  let s := set_smp_ra ra s in
  let s := set_smp_own_random (replicate 16 0x5A) s in
  set_smp_own_confirm (c1_val (tk_of s) (c1_inputs s (replicate 16 0x5A))) s.

Lemma build_confirm_Ret s iat ia ra : wf_smp s -> length ia = 6%nat -> length ra = 6%nat ->
  build_confirm s iat ia ra =
  Ret (confirmed s iat ia ra,
       SMP_PAIRING_CONFIRM :: smp_own_confirm (confirmed s iat ia ra)).
Proof.
  intros (Ho & _ & _ & _ & Hq & Hs & _) Hia Hra. unfold build_confirm.
  replace (map (fun _ => 0x5A) (smp_own_random _)) with (replicate 16 0x5A).
  2:{ cbn [smp_own_random set_smp_ra set_smp_ia set_smp_iat]. rewrite <- Ho.
      clear. induction (smp_own_random s) as [|x l IH]; [done|].
      cbn [length replicate map]. by rewrite IH. }
  rewrite tk_Ret, obind_Ret, c1_Ret, obind_Ret by (by repeat split). writes.
  unfold confirmed. cbn zeta. set (t := set_smp_own_confirm _ _).
  assert (length (smp_own_confirm t) = 16%nat) by apply aes128_length.
  change (smp_own_random (set_smp_own_random (replicate 16 90) ?s))
    with (replicate 16 90). fold t.
  rewrite copy_at_append by len. rewrite obind_Ret.
  by rewrite (drop_ge (drop _ _)), app_nil_r by len.
Qed.

Lemma confirmed_wf s iat ia ra : wf_smp s -> length ia = 6%nat -> length ra = 6%nat ->
  wf_smp (confirmed s iat ia ra).
Proof.
  intros (?&?&?&?&?&?&?&?&?&?&?&?) Hia Hra. repeat split; try done.
  apply aes128_length.
Qed.

(** [handle_random] on any long enough PDU. *)
Lemma handle_random_Ret s data : wf_smp s -> (17 <= length data)%nat ->
  let r := take 16 (drop 1 data) in
  handle_random s data = Ret (
    if bool_decide (c1_val (tk_of s) (c1_inputs s r) = smp_peer_confirm s) then
      (set_smp_pairing_failed 0 (set_smp_state WaitingStartEnc
         (set_smp_stk (s1_val (tk_of s) (smp_own_random s) r)
           (set_smp_peer_random r s))),
       Ok (SMP_PAIRING_RANDOM :: smp_own_random s))
    else (set_smp_pairing_failed SMP_REASON_CONFIRM (set_smp_peer_random r s),
          Err ConfirmMismatch)).
Proof.
  intros (Ho & Hp & _ & Hc & Hq & Hs & Hia & Hra & _) Hd r.
  assert (Hr : length r = 16%nat) by (unfold r; len).
  unfold handle_random. rewrite (proj2 (Nat.ltb_ge _ _)) by lia.
  rewrite slice_Ret, obind_Ret by lia. fold r. cbn [Nat.sub]. fold r.
  rewrite copy_all, obind_Ret by done. rewrite tk_Ret, obind_Ret.
  rewrite c1_Ret, obind_Ret by (by repeat split).
  change (tk_of (set_smp_peer_random r s)) with (tk_of s).
  change (c1_inputs (set_smp_peer_random r s) (smp_peer_random (set_smp_peer_random r s)))
    with (c1_inputs s r).
  change (smp_peer_confirm (set_smp_peer_random r s)) with (smp_peer_confirm s).
  case_bool_decide; cbn [negb]; [|done].
  change (smp_own_random (set_smp_peer_random r s)) with (smp_own_random s).
  change (smp_peer_random (set_smp_peer_random r s)) with r.
  rewrite obind_Ret, s1_Ret, obind_Ret by lia.
  rewrite build_random_Ret by done. done.
Qed.

Lemma handle_pairing_request_Ret s data : wf_smp s -> (7 <= length data)%nat ->
  exists s' rsp, handle_pairing_request s data = Ret (s', Ok rsp) /\ wf_smp s' /\
    s' = set_smp_pres rsp (set_smp_state WaitConfirm (set_smp_responder true
           (set_smp_rat 0 (set_smp_preq (take 7 data) s)))) /\
    rsp = [SMP_PAIRING_RESPONSE; IO_NO_INPUT_NO_OUTPUT; 0; 0x01; 16; 0x01; 0x01].
Proof.
  intros (?&?&?&?&Hq&?&?&?&?&?&?&?) Hd. unfold handle_pairing_request.
  rewrite (proj2 (Nat.ltb_ge _ _)), slice_to_Ret, obind_Ret by lia.
  rewrite copy_all, obind_Ret by len. do 2 eexists. split; [done|].
  split; [|done]. repeat split; try done.
  cbn [smp_preq set_smp_pres set_smp_state set_smp_responder set_smp_rat set_smp_preq].
  len.
Qed.

Lemma handle_pairing_response_Ret s data : wf_smp s -> (7 <= length data)%nat ->
  handle_pairing_response s data =
    Ret (set_smp_state WaitConfirm (set_smp_pres (take 7 data) s), Ok tt) /\
  wf_smp (set_smp_state WaitConfirm (set_smp_pres (take 7 data) s)).
Proof.
  intros (?&?&?&?&?&Hs&?&?&?&?&?&?) Hd. unfold handle_pairing_response.
  rewrite (proj2 (Nat.ltb_ge _ _)), slice_to_Ret, obind_Ret by lia.
  rewrite copy_all, obind_Ret by len. split; [done|]. repeat split; try done.
  cbn [smp_pres set_smp_pres set_smp_state]. len.
Qed.

(** ** The legacy exchange *)

(** The messages of a legacy pairing between an initiator [a] and a responder
    [b] that agree on the addresses; the flag says both accepted. *)
Definition legacy_pairing (a b : Smp) (iat : Z) (ia ra : list Z)
    : outcome (Smp * Smp * bool) :=
  let '(a, req) := build_pairing_request a in
  let! (b, r) := handle_pairing_request b req in
  match r with
  | Err _ => Ret (a, b, false)
  | Ok rsp =>
      let! (a, _) := handle_pairing_response a rsp in
      let! (a, ca) := build_confirm a iat ia ra in
      let! (b, _) := handle_confirm b ca in
      let! (b, cb) := build_confirm b iat ia ra in
      let! (a, _) := handle_confirm a cb in
      let! rnd := build_random a in
      let! (b, r) := handle_random b rnd in
      match r with
      | Err _ => Ret (a, b, false)
      | Ok rb =>
          let! (a, r) := handle_random a rb in
          Ret (a, b, match r with Ok _ => true | Err _ => false end)
      end
  end.

(** What both sides feed to the confirm function: the random values of the
    exchange, the request, the response and the addresses. *)
Definition legacy_inputs (a : Smp) (iat : Z) (ia ra : list Z) : C1Inputs :=
  mkC1Inputs (replicate 16 0x5A) (snd (build_pairing_request a))
    [SMP_PAIRING_RESPONSE; IO_NO_INPUT_NO_OUTPUT; 0; 0x01; 16; 0x01; 0x01] iat 0 ia ra.

Lemma set_smp_preq_wf s p : wf_smp s -> length p = 7%nat -> wf_smp (set_smp_preq p s).
Proof. intros (?&?&?&?&?&?&?&?&?&?&?&?) Hp. by repeat split. Qed.

Lemma heard_confirm_wf s c : wf_smp s -> length c = 16%nat ->
  wf_smp (set_smp_state WaitRandom (set_smp_peer_confirm c s)).
Proof. intros (?&?&?&?&?&?&?&?&?&?&?&?) Hc. by repeat split. Qed.

(** The state of a side that has sent its confirm value and heard the peer's. *)
Definition committed (s : Smp) (I : C1Inputs) (peer : list Z) : Prop :=
  wf_smp s /\ smp_own_random s = replicate 16 0x5A /\
  c1_inputs s (replicate 16 0x5A) = I /\ smp_peer_confirm s = peer.

(** The random values of two committed sides: both accept exactly when their
    confirm functions agree. *)
Lemma randoms_exchanged a b I :
  committed a I (c1_val (tk_of b) I) -> committed b I (c1_val (tk_of a) I) ->
  exists a' b' ok,
    (let! rnd := build_random a in
     let! (b, r) := handle_random b rnd in
     match r with
     | Err _ => Ret (a, b, false)
     | Ok rb =>
         let! (a, r) := handle_random a rb in
         Ret (a, b, match r with Ok _ => true | Err _ => false end)
     end) = Ret (a', b', ok) /\
    ok = bool_decide (c1_val (tk_of b) I = c1_val (tk_of a) I) /\
    (ok = true -> smp_state a' = WaitingStartEnc /\ smp_state b' = WaitingStartEnc) /\
    (ok = true -> tk_of a = tk_of b -> smp_stk a' = smp_stk b').
Proof.
  intros (Ha & Ra & Ia & Pa) (Hb & Rb & Ib & Pb).
  assert (HR : length (replicate 16 0x5A) = 16%nat) by reflexivity.
  rewrite build_random_Ret, obind_Ret by apply Ha. rewrite Ra.
  rewrite handle_random_Ret, obind_Ret by (done || cbn [length]; lia).
  cbn [drop]. rewrite (take_ge (replicate 16 0x5A)), Ib, Pb by lia.
  case_bool_decide as Ec.
  - rewrite Rb, handle_random_Ret, obind_Ret by (done || cbn [length]; lia).
    cbn [drop]. rewrite (take_ge (replicate 16 0x5A)), Ia, Pa by lia.
    rewrite bool_decide_eq_true_2, Ra by done. do 3 eexists. split; [done|].
    do 2 (split; [done|]). intros _ ->. reflexivity.
  - do 3 eexists. done.
Qed.

Lemma Smp_new_wf : wf_smp Smp_new.
Proof. repeat split. Qed.

Lemma set_passkey_wf s p : wf_smp s -> wf_smp (set_passkey s p).
Proof. done. Qed.

End smp.

(** ** Properties *)

(** C18. The responder's commitment is checked: on any PDU of at least 17
    bytes [handle_random] returns; it accepts exactly when the confirm value
    received earlier is the confirm function of the random value now received,
    the pairing exchange and the addresses, and then stores the session key
    and moves to the start of encryption; otherwise it records the failure and
    leaves the key and the state. Shorter PDUs change nothing. *)
Theorem smp_random_commits `{!Crypto} s data : wf_smp s ->
  let r := take 16 (drop 1 data) in
  exists s' res, handle_random s data = Ret (s', res) /\
  if (length data <? 17)%nat then s' = s /\ res = Err SmpInvalidPdu
  else if bool_decide (c1_val (tk_of s) (c1_inputs s r) = smp_peer_confirm s)
  then smp_state s' = WaitingStartEnc /\ smp_pairing_failed s' = 0 /\
       smp_stk s' = s1_val (tk_of s) (smp_own_random s) r /\
       res = Ok (SMP_PAIRING_RANDOM :: smp_own_random s)
  else smp_state s' = smp_state s /\ smp_stk s' = smp_stk s /\
       smp_pairing_failed s' = SMP_REASON_CONFIRM /\ res = Err ConfirmMismatch.
Proof.
  intros Hwf r. destruct (Nat.ltb_spec (length data) 17) as [Hd|Hd].
  - exists s, (Err SmpInvalidPdu). unfold handle_random.
    by rewrite (proj2 (Nat.ltb_lt _ _)) by lia.
  - rewrite handle_random_Ret by done. fold r. case_bool_decide; by do 2 eexists.
Qed.

Lemma smp_random_commits_witness :
  exists s' res, handle_random Smp_new (replicate 17 1) = Ret (s', res) /\
    smp_state s' = Idle /\ smp_stk s' = smp_stk Smp_new /\
    smp_pairing_failed s' = SMP_REASON_CONFIRM /\ res = Err ConfirmMismatch.
Proof. exact (smp_random_commits Smp_new (replicate 17 1) Smp_new_wf). Defined.

(** C16. Legacy pairing agrees on the key: for any two devices, the exchange of
    request, response, confirms and randoms never panics, and both accept
    exactly when their temporary keys give the same confirm value, reaching
    the same state - in particular when they hold the same passkey, and then
    both compute the same session key. *)
Theorem legacy_pairing_agrees `{!Crypto} a b iat ia ra :
  wf_smp a -> wf_smp b -> length ia = 6%nat -> length ra = 6%nat -> smp_rat a = 0 ->
  let I := legacy_inputs a iat ia ra in
  exists a' b' ok, legacy_pairing a b iat ia ra = Ret (a', b', ok) /\
    ok = bool_decide (c1_val (tk_of b) I = c1_val (tk_of a) I) /\
    (ok = true -> smp_state a' = WaitingStartEnc /\ smp_state b' = WaitingStartEnc) /\
    (smp_passkey a = smp_passkey b -> ok = true /\ smp_stk a' = smp_stk b').
Proof.
  intros Ha Hb Hia Hra Hrat I. unfold legacy_pairing, build_pairing_request.
  set (req := [SMP_PAIRING_REQUEST; _; _; _; _; _; _]).
  pose proof (set_smp_preq_wf a req Ha eq_refl) as Ha1.
  destruct (handle_pairing_request_Ret b req Hb ltac:(cbn; lia))
    as (b1 & rsp & -> & Hb1 & Eb1 & Ersp). rewrite obind_Ret.
  destruct (handle_pairing_response_Ret (set_smp_preq req a) rsp Ha1) as [-> Ha2];
    [subst rsp; cbn; lia|]. rewrite obind_Ret.
  set (a2 := set_smp_state WaitConfirm
    (set_smp_pres (take 7 rsp) (set_smp_preq req a))) in *.
  rewrite build_confirm_Ret, obind_Ret by done.
  pose proof (confirmed_wf a2 iat ia ra Ha2 Hia Hra) as Ha3.
  rewrite handle_confirm_Ret, obind_Ret; [|apply Ha3|apply Hb1].
  set (b2 := set_smp_state _ _).
  assert (Hb2 : wf_smp b2) by (apply heard_confirm_wf; [done|apply Ha3]).
  rewrite build_confirm_Ret, obind_Ret by done.
  pose proof (confirmed_wf b2 iat ia ra Hb2 Hia Hra) as Hb3.
  rewrite handle_confirm_Ret, obind_Ret; [|apply Hb3|apply Ha3].
  set (b3 := confirmed b2 iat ia ra) in *. set (a4 := set_smp_state _ _).
  assert (EIb : c1_inputs b3 (replicate 16 0x5A) = I).
  { unfold b3, confirmed, b2, I, c1_inputs. rewrite Eb1, Ersp. reflexivity. }
  assert (EIa : c1_inputs a4 (replicate 16 0x5A) = I).
  { unfold I, legacy_inputs, c1_inputs. cbn. by rewrite Ersp, Hrat. }
  assert (Etb : tk_of b3 = tk_of b) by (unfold b3, b2; by rewrite Eb1).
  destruct (randoms_exchanged a4 b3 I) as (a' & b' & ok & E & Eok & Hst & Hk).
  - split; [apply heard_confirm_wf; [done|apply Hb3]|]. do 2 (split; [done|]).
    by rewrite <- EIb.
  - do 3 (split; [done|]). by rewrite <- EIa.
  - change (tk_of a4) with (tk_of a) in *. rewrite Etb in *.
    exists a', b', ok. do 3 (split; [done|]). intros Hpk.
    assert (Ht : tk_of a = tk_of b) by (unfold tk_of; by rewrite Hpk).
    assert (ok = true) as ->; [|by auto]. rewrite Eok. apply bool_decide_eq_true_2. by rewrite Ht.
Qed.

Lemma legacy_pairing_agrees_witness :
  exists a' b' ok, legacy_pairing Smp_new (set_passkey Smp_new None) 1
      (replicate 6 0xAA) (replicate 6 0xBB) = Ret (a', b', ok) /\
    ok = true /\ smp_stk a' = smp_stk b'.
Proof.
  destruct (legacy_pairing_agrees Smp_new (set_passkey Smp_new None) 1
    (replicate 6 0xAA) (replicate 6 0xBB)) as (a' & b' & ok & E & _ & _ & Hk);
    [repeat split..|].
  exists a', b', ok. split; [exact E | exact (Hk eq_refl)].
Defined.
