(* ===== verification/SmpSc.v ===== *)
(** The key agreement of Secure Connections ([src/hw/smp.rs]): the public key
    messages, the shared secret and the key derived from it, as values, and what
    they promise to the two sides. The definitions of the code are in [Smp.v];
    the exchange itself is over the interface [Crypto]. *)

From stdpp Require Import base numbers list.
From S2P Require Import Prelude Crypto Aes Smp.
Section sc.
Context `{!Crypto}.

(** The announcement of a public key. *)
Definition announced (s : Smp) : list Z := SMP_PUBLIC_KEY :: p256_public (smp_own_private s).

Lemma build_public_key_Ret s : p256_secret_ok (smp_own_private s) = true ->
  build_public_key s = Ret (announced s).
Proof.
  intros Hs. unfold build_public_key. rewrite Hs. cbn [negb].
  writes. rewrite drop_ge, app_nil_r by len. done.
Qed.

(** The state that has taken over a peer's point. *)
Definition paired_dh (s : Smp) (point : list Z) : Smp :=
  set_smp_sc true (set_smp_dhkey (p256_ecdh (smp_own_private s) point)
    (set_smp_peer_public point s)).

Lemma handle_public_key_Ret s data : wf_smp s ->
  handle_public_key s data =
  Ret (if (length data <? 65)%nat then (s, Err SmpInvalidPdu) else
       let point := take 64 (drop 1 data) in
       if p256_point_ok point && p256_secret_ok (smp_own_private s)
       then (paired_dh s point, Ok tt)
       else (set_smp_peer_public point s, Err SmpInvalidPdu)).
Proof.
  intros (_&_&_&_&_&_&_&_&_&_&Hp&Hd). unfold handle_public_key.
  destruct (Nat.ltb_spec (length data) 65) as [Hl|Hl]; [done|].
  rewrite slice_Ret, obind_Ret by lia. cbn [Nat.sub]. set (point := take _ _).
  rewrite copy_all, obind_Ret by (unfold point; len).
  destruct (p256_point_ok point); cbn [negb andb]; [|done].
  change (smp_own_private (set_smp_peer_public point s)) with (smp_own_private s).
  destruct (p256_secret_ok _); cbn [negb andb]; [|done].
  change (smp_dhkey (set_smp_peer_public point s)) with (smp_dhkey s).
  by rewrite copy_all, obind_Ret by len.
Qed.

Lemma paired_dh_wf s point : wf_smp s -> length point = 64%nat -> wf_smp (paired_dh s point).
Proof.
  intros (?&?&?&?&?&?&?&?&?&?&?&?) Hp. repeat split; try done. apply p256_ecdh_length.
Qed.

(** The peer's announcement is accepted when its point is valid. *)
Lemma exchange_accepted a b : wf_smp a -> p256_secret_ok (smp_own_private a) = true ->
  p256_point_ok (p256_public (smp_own_private b)) = true ->
  handle_public_key a (announced b) =
  Ret (paired_dh a (p256_public (smp_own_private b)), Ok tt).
Proof.
  intros Ha Sa Pb. rewrite handle_public_key_Ret by done. unfold announced.
  cbn [length drop]. rewrite p256_public_length. change (65 <? 65)%nat with false. cbv zeta iota.
  change (drop 0 ?l) with l. rewrite (take_ge (p256_public _)) by len. by rewrite Pb, Sa.
Qed.

(** The message of f5 with its counter, and the key the code derives. *)
Definition f5_message (n1 n2 a1 a2 : list Z) (counter : Z) : list Z :=
  [0x00; 0x01] ++ a2 ++ a1 ++ n2 ++ n1 ++ f5_btle ++ [counter].

Definition ltk_of (dhkey n1 n2 a1 a2 : list Z) : list Z :=
  cmac (cmac (cmac f5_salt dhkey) (f5_message n1 n2 a1 a2 0)) (f5_message n1 n2 a1 a2 1).

Lemma aes_cmac_Ret k m : aes_cmac k m = Ret (cmac k m).
Proof. unfold aes_cmac. apply copy_all; len. Qed.

Lemma compute_ltk_sc_Ret s n1 n2 a1 a2 :
  length n1 = 16%nat -> length n2 = 16%nat -> length a1 = 7%nat -> length a2 = 7%nat ->
  compute_ltk_sc s n1 n2 a1 a2 = Ret (ltk_of (smp_dhkey s) n1 n2 a1 a2).
Proof.
  intros H1 H2 H3 H4. unfold compute_ltk_sc. rewrite aes_cmac_Ret.
  assert (Hb : length f5_btle = 4%nat) by done. set (bt := f5_btle) in *. writes.
  rewrite aes_cmac_Ret. writes.
  match goal with |- context [_ ++ drop 1 ?t] => change (drop 1 t) with (@nil Z) end.
  rewrite app_nil_r, set_idx_append, obind_Ret by len. cbn [drop].
  rewrite aes_cmac_Ret, app_nil_r. unfold ltk_of, f5_message. fold bt.
  by rewrite <- !app_assoc.
Qed.

(** A message that is not a valid announcement is refused and changes neither
    the shared secret nor the mode. *)
Definition refuses (s : Smp) (data : list Z) : Prop :=
  exists s', handle_public_key s data = Ret (s', Err SmpInvalidPdu) /\
    smp_dhkey s' = smp_dhkey s /\ smp_sc s' = smp_sc s.

Lemma invalid_refused s data : wf_smp s ->
  (length data < 65)%nat \/ p256_point_ok (take 64 (drop 1 data)) = false -> refuses s data.
Proof.
  intros Hs Hd. unfold refuses. rewrite handle_public_key_Ret by done. cbv zeta.
  destruct (Nat.ltb_spec (length data) 65) as [Hl|Hl]; [by exists s|].
  destruct Hd as [Hd|Hd]; [lia|]. rewrite Hd. by eexists.
Qed.

End sc.

(** ** Property *)

(** C17. Secure Connections agree on the key: when the exchange is commutative and
    accepts the points it produces, two devices with valid secrets that hear each
    other's announcement both accept it, and whatever the nonces and addresses,
    both derive the same key of sixteen bytes; a shorter message or one whose
    point is not on the curve is refused and changes neither the shared secret
    nor the mode. *)
Theorem sc_pairing_agrees `{!Crypto} a b n1 n2 a1 a2 :
  wf_smp a -> wf_smp b ->
  (forall s t, p256_ecdh s (p256_public t) = p256_ecdh t (p256_public s)) ->
  (forall s, p256_secret_ok s = true -> p256_point_ok (p256_public s) = true) ->
  p256_secret_ok (smp_own_private a) = true -> p256_secret_ok (smp_own_private b) = true ->
  length n1 = 16%nat -> length n2 = 16%nat -> length a1 = 7%nat -> length a2 = 7%nat ->
  (exists pka pkb a' b' key,
    build_public_key a = Ret pka /\ build_public_key b = Ret pkb /\
    handle_public_key a pkb = Ret (a', Ok tt) /\
    handle_public_key b pka = Ret (b', Ok tt) /\
    wf_smp a' /\ wf_smp b' /\ smp_sc a' = true /\ smp_sc b' = true /\
    compute_ltk_sc a' n1 n2 a1 a2 = Ret key /\ compute_ltk_sc b' n1 n2 a1 a2 = Ret key /\
    length key = 16%nat) /\
  forall data, (length data < 65)%nat \/ p256_point_ok (take 64 (drop 1 data)) = false ->
    refuses a data.
Proof.
  intros Ha Hb Hc Hv Sa Sb H1 H2 H3 H4. split; [|by intros; apply invalid_refused].
  exists (announced a), (announced b), (paired_dh a (p256_public (smp_own_private b))),
    (paired_dh b (p256_public (smp_own_private a))),
    (ltk_of (p256_ecdh (smp_own_private a) (p256_public (smp_own_private b))) n1 n2 a1 a2).
  split; [by apply build_public_key_Ret|]. split; [by apply build_public_key_Ret|].
  split; [by apply exchange_accepted; auto|]. split; [by apply exchange_accepted; auto|].
  split; [by apply paired_dh_wf; [|len]|]. split; [by apply paired_dh_wf; [|len]|].
  do 2 (split; [done|]). split; [by rewrite compute_ltk_sc_Ret|].
  split; [by rewrite compute_ltk_sc_Ret, Hc|]. apply cmac_length.
Qed.

(** A device with a secret. *)
Definition with_secret (x : Z) : Smp := set_smp_own_private (replicate 32 x) Smp_new.

Lemma sc_pairing_agrees_witness :
  exists pka pkb a' b' key,
    @build_public_key aes_crypto (with_secret 0x12) = Ret pka /\
    @build_public_key aes_crypto (with_secret 0xAB) = Ret pkb /\
    @handle_public_key aes_crypto (with_secret 0x12) pkb = Ret (a', Ok tt) /\
    @handle_public_key aes_crypto (with_secret 0xAB) pka = Ret (b', Ok tt) /\
    smp_dhkey a' <> replicate 32 0 /\
    @compute_ltk_sc aes_crypto a' (replicate 16 1) (replicate 16 2) (replicate 7 3)
      (replicate 7 4) = Ret key /\
    @compute_ltk_sc aes_crypto b' (replicate 16 1) (replicate 16 2) (replicate 7 3)
      (replicate 7 4) = Ret key.
Proof.
  destruct (@sc_pairing_agrees aes_crypto (with_secret 0x12) (with_secret 0xAB)
    (replicate 16 1) (replicate 16 2) (replicate 7 3) (replicate 7 4))
    as [(pka & pkb & a' & b' & key & H1 & H2 & H3 & H4 & _ & _ & _ & _ & H5 & H6 & _) _];
    [by repeat split|by repeat split|apply group_agrees|done|done|done|done|done|done|done|].
  exists pka, pkb, a', b', key.
  assert (Hd : smp_dhkey a' <> replicate 32 0).
  { apply Ret_inj in H2 as <-. apply Ret_inj, pair_eq in H3 as [<- _].
    vm_compute. discriminate. }
  by repeat split.
Defined.
