(* ===== verification/Vectors.v ===== *)
(** The cryptographic functions against the Core Specification: [ah]
    ([src/ll/priv_.rs]), [c1] and [s1] ([src/hw/smp.rs]) compute what Vol 3,
    Part H, section 2.2 defines, but for the order of the bytes that AES is
    given, and so miss the specification's sample data. *)

From stdpp Require Import base numbers list.
From S2P Require Import Prelude Crypto Aes Smp.

(** ** The specification *)

(** Its functions over a block cipher [e]; as on the air and in the source,
    the first byte of a list is the least significant. *)
Definition spec_ah (e : list Z -> list Z -> list Z) (k r : list Z) : list Z :=
  take 3 (e k (r ++ replicate 13 0)).
Definition spec_c1 (e : list Z -> list Z -> list Z) (k : list Z) (i : C1Inputs) : list Z :=
  let p1 := [c1_iat i; c1_rat i] ++ c1_preq i ++ c1_pres i in
  let p2 := c1_ra i ++ c1_ia i ++ replicate 4 0 in
  e k (xor_bytes (e k (xor_bytes (c1_r i) p1)) p2).
Definition spec_s1 (e : list Z -> list Z -> list Z) (k r1 r2 : list Z) : list Z :=
  e k (take 8 r2 ++ take 8 r1).

(** Its security function [e]: AES-128, whose standard puts the most significant
    byte first. *)
Definition spec_e `{!Crypto} (k b : list Z) : list Z := rev (aes128 (rev k) (rev b)).

(** ** The source's functions *)

Lemma ah_unswapped `{!Crypto} k r : length r = 3%nat -> ah k r = Ret (spec_ah aes128 k r).
Proof. intros Hr. rewrite ah_Ret by done. done. Qed.

Lemma c1_unswapped `{!Crypto} k i : wf_c1 i -> c1 k i = Ret (spec_c1 aes128 k i).
Proof. intros Hi. rewrite c1_Ret by done. done. Qed.

Lemma s1_unswapped `{!Crypto} k r1 r2 : (8 <= length r1)%nat -> (8 <= length r2)%nat ->
  s1 k r1 r2 = Ret (spec_s1 aes128 k r1 r2).
Proof. intros H1 H2. rewrite s1_Ret by done. done. Qed.

(** ** The sample data *)

(** Values as the specification prints them. *)
Definition sample_c1 : C1Inputs := mkC1Inputs
  (rev [0x57; 0x83; 0xD5; 0x21; 0x56; 0xAD; 0x6F; 0x0E; 0x63; 0x88; 0x27; 0x4E; 0xC6; 0x70; 0x2E; 0xE0])
  (rev [0x07; 0x07; 0x10; 0x00; 0x00; 0x01; 0x01])
  (rev [0x05; 0x00; 0x08; 0x00; 0x00; 0x03; 0x02]) 1 0
  (rev [0xA1; 0xA2; 0xA3; 0xA4; 0xA5; 0xA6]) (rev [0xB1; 0xB2; 0xB3; 0xB4; 0xB5; 0xB6]).

Definition sample_c1_value : list Z :=
  rev [0x1E; 0x1E; 0x3F; 0xEF; 0x87; 0x89; 0x88; 0xEA; 0xD2; 0xA7; 0x4D; 0xC5; 0xBE; 0xF1; 0x3B; 0x86].

Lemma c1_sample :
  spec_c1 (@spec_e aes_crypto) (replicate 16 0) sample_c1 = sample_c1_value /\
  @c1 aes_crypto (replicate 16 0) sample_c1 <> Ret sample_c1_value.
Proof. split; [vm_compute; reflexivity|vm_compute; discriminate]. Qed.

Definition sample_s1_r1 : list Z :=
  rev [0x00; 0x0F; 0x0E; 0x0D; 0x0C; 0x0B; 0x0A; 0x09; 0x11; 0x22; 0x33; 0x44; 0x55; 0x66; 0x77; 0x88].
Definition sample_s1_r2 : list Z :=
  rev [0x01; 0x02; 0x03; 0x04; 0x05; 0x06; 0x07; 0x08; 0x99; 0xAA; 0xBB; 0xCC; 0xDD; 0xEE; 0xFF; 0x00].
Definition sample_s1_value : list Z :=
  rev [0x9A; 0x1F; 0xE1; 0xF0; 0xE8; 0xB0; 0xF4; 0x9B; 0x5B; 0x42; 0x16; 0xAE; 0x79; 0x6D; 0xA0; 0x62].

Lemma s1_sample :
  spec_s1 (@spec_e aes_crypto) (replicate 16 0) sample_s1_r1 sample_s1_r2 =
    sample_s1_value /\
  @s1 aes_crypto (replicate 16 0) sample_s1_r1 sample_s1_r2 <> Ret sample_s1_value.
Proof. split; [vm_compute; reflexivity|vm_compute; discriminate]. Qed.

Definition sample_irk : list Z :=
  rev [0xEC; 0x02; 0x34; 0xA3; 0x57; 0xC8; 0xAD; 0x05; 0x34; 0x10; 0x10; 0xA6; 0x0A; 0x39; 0x7D; 0x9B].
Definition sample_prand : list Z := rev [0x70; 0x81; 0x94].
Definition sample_hash : list Z := rev [0x0D; 0xFB; 0xAA].

(** With the key in either order. *)
Lemma ah_sample :
  spec_ah (@spec_e aes_crypto) sample_irk sample_prand = sample_hash /\
  @ah aes_crypto sample_irk sample_prand <> Ret sample_hash /\
  @ah aes_crypto (rev sample_irk) sample_prand <> Ret sample_hash.
Proof. split; [vm_compute; reflexivity|]. split; vm_compute; discriminate. Qed.

(** The source's own reference value of [c1] is of the unswapped function. *)
Lemma c1_reference_unswapped :
  let i := mkC1Inputs (replicate 16 1) (replicate 7 2) (replicate 7 3) 1 0 (replicate 6 4)
             (replicate 6 5) in
  @c1 aes_crypto (replicate 16 0) i <>
  Ret (spec_c1 (@spec_e aes_crypto) (replicate 16 0) i).
Proof. vm_compute. discriminate. Qed.
