(* ===== verification/Ccm.v ===== *)
(** The CCM block of the radio ([src/hw/ccm.rs]): the configuration block the
    driver writes, the registers it programs, and a packet run through the cipher
    hardware. The cipher itself is not under [src/]: it is the interface [CcmHw]. *)

From stdpp Require Import base numbers list.
From S2P Require Import Prelude.

Definition LL_NONCE_MASTER_TO_SLAVE : Z := 0x01.
Definition LL_NONCE_SLAVE_TO_MASTER : Z := 0x00.
Definition LL_MIC_LEN : nat := 4.

(** ** The peripheral *)

Inductive CcmMode : Type := Encryption | Decryption.

(** Its registers, as far as the driver writes them; pointers are the areas
    they point to. *)
Record CcmRegs := mkCcmRegs {
  cg_mode : CcmMode;
  cg_datarate_1mbit : bool;
  cg_length_default : bool;
  cg_enable : Z;
  cg_cnfptr : list Z
}.

(** The reset values. *)
Definition CcmRegs_reset : CcmRegs := mkCcmRegs Decryption true true 0 [].

Definition CcmRegs_eta (r : CcmRegs) : CcmRegs :=
  mkCcmRegs (cg_mode r) (cg_datarate_1mbit r) (cg_length_default r) (cg_enable r)
    (cg_cnfptr r).

Definition set_cg_enable : Z -> CcmRegs -> CcmRegs :=
  ltac:(record_setter CcmRegs_eta cg_enable).
Definition set_cg_cnfptr : list Z -> CcmRegs -> CcmRegs :=
  ltac:(record_setter CcmRegs_eta cg_cnfptr).

(** The hardware: the registers and the packet buffer it works on in place; the
    buffer after key generation and encryption have ended, and whether it raised
    the error event. It never writes outside the buffer it is given, and writes
    bytes. *)
Class CcmHw := {
  ccm_crypt : CcmRegs -> list Z -> list Z * bool;
  ccm_crypt_length r p : length (fst (ccm_crypt r p)) = length p;
  ccm_crypt_bytes r p : bytes p -> bytes (fst (ccm_crypt r p))
}.

(** A concrete cipher: exclusive or with the key's first byte, no error. *)
#[export, refine] Instance xor_ccm : CcmHw := {
  ccm_crypt r p := (map (Z.lxor (u8 (default 0 (cg_cnfptr r !! 0%nat)))) p, false)
}.
Proof.
  - intros. apply length_map.
  - intros r p Hp. apply Forall_map. eapply Forall_impl; [exact Hp|]. intros x Hx.
    apply (lxor_range _ _ 8); [lia| |exact Hx]. apply u8_range.
Defined.

(** ** The driver *)

(** The configuration block, the scratch area, and the peripheral. *)
Record Ccm := mkCcm { ccm_cfg : list Z; ccm_scratch : list Z; ccm_regs : CcmRegs }.

Definition Ccm_new : Ccm := mkCcm (replicate 45 0) (replicate 32 0) CcmRegs_reset.

(** [u64::to_le_bytes]. *)
Definition u64_to_le (v : Z) : list Z :=
  u32_to_le (v mod 4294967296) ++ u32_to_le (v / 4294967296).

Definition Ccm_setup (self : Ccm) (key : list Z) (packet_counter direction : Z)
    : outcome Ccm :=
  let cfg := ccm_cfg self in
  let! cfg := copy_at cfg 0 16 key in
  let! cfg := set_idx cfg 16 0x01 in
  let! cfg := copy_at cfg 17 22 (take 5 (u64_to_le packet_counter)) in
  let! cfg := set_idx cfg 22 direction in
  let! cfg := fill_at cfg 23 29 0 in
  let! cfg := set_idx cfg 29 0 in
  let! cfg := set_idx cfg 30 0 in
  let! cfg := fill_at cfg 31 45 0 in
  Ret (mkCcm cfg (ccm_scratch self) (ccm_regs self)).

(** [run]: the mode register is written as a whole; the two busy waits for the
    end of key generation and of encryption are taken to end. The state, the
    packet buffer and [is_ok]. *)
Definition Ccm_run `{!CcmHw} (self : Ccm) (decrypt : bool) (packet : list Z)
    : Ccm * list Z * bool :=
  let r := ccm_regs self in
  let r := mkCcmRegs (if decrypt then Decryption else Encryption) true true
             (cg_enable r) (cg_cnfptr r) in
  let r := set_cg_enable 1 r in
  let r := set_cg_cnfptr (ccm_cfg self) r in
  let '(packet, err) := ccm_crypt r packet in
  let r := set_cg_enable 0 r in
  (mkCcm (ccm_cfg self) (ccm_scratch self) r, packet, negb err).

(** [process]: header bytes into the block, then [run]. *)
Definition Ccm_process `{!CcmHw} (self : Ccm) (decrypt : bool) (pdu : list Z)
    (_len : nat) : outcome (Ccm * list Z * bool) :=
  let cfg := ccm_cfg self in
  let! b0 := idx pdu 0 in
  let! cfg := set_idx cfg 29 b0 in
  let! b1 := idx pdu 1 in
  let! cfg := set_idx cfg 30 b1 in
  let! cfg := fill_at cfg 31 45 0 in
  Ret (Ccm_run (mkCcm cfg (ccm_scratch self) (ccm_regs self)) decrypt pdu).

(** ** Specification and lemmas *)

Definition wf_ccm (c : Ccm) : Prop := length (ccm_cfg c) = 45%nat.

(** The registers when the cipher runs, and after it: nothing of an earlier
    packet is left in them, and the peripheral is off again. *)
Definition ccm_on (decrypt : bool) (block : list Z) : CcmRegs :=
  mkCcmRegs (if decrypt then Decryption else Encryption) true true 1 block.
Definition ccm_off (decrypt : bool) (block : list Z) : CcmRegs :=
  set_cg_enable 0 (ccm_on decrypt block).

Definition ccm_run `{!CcmHw} (decrypt : bool) (block packet : list Z) : list Z * bool :=
  ccm_crypt (ccm_on decrypt block) packet.

Lemma ccm_run_length `{!CcmHw} d k p : length (fst (ccm_run d k p)) = length p.
Proof. apply ccm_crypt_length. Qed.

Lemma ccm_run_bytes `{!CcmHw} d k p : bytes p -> bytes (fst (ccm_run d k p)).
Proof. apply ccm_crypt_bytes. Qed.

Lemma Ccm_run_eq `{!CcmHw} c d p :
  Ccm_run c d p = (mkCcm (ccm_cfg c) (ccm_scratch c) (ccm_off d (ccm_cfg c)),
                   fst (ccm_run d (ccm_cfg c) p), negb (snd (ccm_run d (ccm_cfg c) p))).
Proof.
  unfold Ccm_run, ccm_run. cbv zeta. cbn [set_cg_enable set_cg_cnfptr].
  change (set_cg_cnfptr _ _) with (ccm_on d (ccm_cfg c)). by destruct (ccm_crypt _ p).
Qed.

(** The configuration block for a key, a counter, a direction and a header. *)
Definition ccm_block (key : list Z) (counter direction b0 b1 : Z) : list Z :=
  key ++ [0x01] ++ take 5 (u64_to_le counter) ++ [direction] ++ replicate 6 0 ++
  [b0; b1] ++ replicate 14 0.

Lemma Ccm_setup_Ret c key n d : wf_ccm c -> length key = 16%nat ->
  Ccm_setup c key n d = Ret (mkCcm (ccm_block key n d 0 0) (ccm_scratch c) (ccm_regs c)).
Proof.
  unfold wf_ccm. intros Hc Hk. unfold Ccm_setup, fill_at.
  assert (length (take 5 (u64_to_le n)) = 5%nat) by done.
  set (t := take 5 (u64_to_le n)) in *. writes.
  rewrite (drop_ge (drop _ _)), app_nil_r by len.
  unfold ccm_block. fold t. by rewrite <- !app_assoc.
Qed.

Lemma Ccm_process_Ret `{!CcmHw} c key n d dec b0 b1 pdu len :
  ccm_cfg c = ccm_block key n d 0 0 -> length key = 16%nat ->
  pdu !! 0%nat = Some b0 -> pdu !! 1%nat = Some b1 ->
  Ccm_process c dec pdu len =
    Ret (mkCcm (ccm_block key n d b0 b1) (ccm_scratch c) (ccm_off dec (ccm_block key n d b0 b1)),
         fst (ccm_run dec (ccm_block key n d b0 b1) pdu),
         negb (snd (ccm_run dec (ccm_block key n d b0 b1) pdu))).
Proof.
  intros Ec Hk H0 H1. unfold Ccm_process, idx. rewrite H0, H1, obind_Ret, Ec.
  unfold ccm_block.
  assert (Ht : length (take 5 (u64_to_le n)) = 5%nat) by done.
  set (t := take 5 (u64_to_le n)) in *.
  set (pre := key ++ [1] ++ t ++ [d] ++ replicate 6 0).
  assert (Hp : length pre = 29%nat) by (unfold pre; rewrite !length_app, Ht, Hk; done).
  assert (E : forall x y, key ++ [1] ++ t ++ [d] ++ replicate 6 0 ++ [x; y] ++ replicate 14 0
    = pre ++ [x; y] ++ replicate 14 0).
  { intros. unfold pre. by rewrite <- !app_assoc. }
  rewrite !E. rewrite set_idx_append, !obind_Ret by (done || cbn; lia).
  rewrite set_idx_append, obind_Ret by (len || (cbn; lia)).
  unfold fill_at. rewrite copy_at_append, obind_Ret by (len || (cbn; lia)).
  cbn [drop app replicate Nat.sub]. rewrite <- !app_assoc. cbn [app].
  by rewrite Ccm_run_eq.
Qed.
