(* ===== verification/Gatt.v ===== *)
(** The attribute table of the server ([src/hw/conn.rs]): the Nordic UART
    Service, its handles and UUIDs, and the lookups the ATT handlers use. *)

From stdpp Require Import base numbers list.
From S2P Require Import Prelude.

(** ** Constants *)

Definition ATT_MTU_DEFAULT : nat := 23.
Definition ATT_MTU_MAX : nat := 247.
Definition ATT_PAYLOAD_MAX : nat := ATT_MTU_MAX - 3.
Definition L2CAP_PAYLOAD_MAX : nat := ATT_MTU_MAX + 4.
Definition LL_PDU_PAYLOAD_DEFAULT : nat := 27.
Definition LL_PDU_PAYLOAD_MAX : nat := 251.

Definition GATT_UUID_PRIMARY_SERVICE : Z := 0x2800.
Definition GATT_UUID_CHARACTERISTIC : Z := 0x2803.
Definition GATT_UUID_CLIENT_CHAR_CFG : Z := 0x2902.

Definition NUS_SERVICE_UUID : list Z :=
  [0x9E; 0xCA; 0xDC; 0x24; 0x0E; 0xE5; 0xA9; 0xE0; 0x93; 0xF3; 0xA3; 0xB5; 0x01; 0x00;
   0x40; 0x6E].
Definition NUS_TX_CHAR_UUID : list Z :=
  [0x9E; 0xCA; 0xDC; 0x24; 0x0E; 0xE5; 0xA9; 0xE0; 0x93; 0xF3; 0xA3; 0xB5; 0x03; 0x00;
   0x40; 0x6E].
Definition NUS_RX_CHAR_UUID : list Z :=
  [0x9E; 0xCA; 0xDC; 0x24; 0x0E; 0xE5; 0xA9; 0xE0; 0x93; 0xF3; 0xA3; 0xB5; 0x02; 0x00;
   0x40; 0x6E].

Definition HANDLE_PRIMARY_SERVICE : Z := 0x0001.
Definition HANDLE_RX_CHAR_DECL : Z := 0x0002.
Definition HANDLE_RX_VALUE : Z := 0x0003.
Definition HANDLE_TX_CHAR_DECL : Z := 0x0004.
Definition HANDLE_TX_VALUE : Z := 0x0005.
Definition HANDLE_TX_CCCD : Z := 0x0006.

(** ** UUIDs *)

Inductive GattUuid : Type :=
| Uuid16 (u : Z)
| Uuid128 (u : list Z).   (* [u8; 16] *)

Definition as_u16 (self : GattUuid) : option Z :=
  match self with Uuid16 u => Some u | _ => None end.

Definition to_128 (self : GattUuid) : list Z :=
  match self with Uuid128 u => u | _ => replicate 16 0 end.

(** ** Lookups *)

(** The table [entries] runs over. *)
Definition all_entries : list (Z * GattUuid) :=
  [(HANDLE_PRIMARY_SERVICE, Uuid128 NUS_SERVICE_UUID);
   (HANDLE_RX_CHAR_DECL, Uuid16 GATT_UUID_CHARACTERISTIC);
   (HANDLE_RX_VALUE, Uuid128 NUS_RX_CHAR_UUID);
   (HANDLE_TX_CHAR_DECL, Uuid16 GATT_UUID_CHARACTERISTIC);
   (HANDLE_TX_VALUE, Uuid128 NUS_TX_CHAR_UUID);
   (HANDLE_TX_CCCD, Uuid16 GATT_UUID_CLIENT_CHAR_CFG)].

Definition in_range (start last h : Z) : bool := (start <=? h) && (h <=? last).

(** The loop of [entries]: the array so far and the count. *)
Fixpoint entries_loop (all : list (Z * GattUuid)) (start last : Z)
    (out : list (Z * GattUuid)) (n : nat) : outcome (list (Z * GattUuid) * nat) :=
  match all with
  | [] => Ret (out, n)
  | (h, u) :: all =>
      if in_range start last h then
        let! out := set_idx out n (h, u) in
        entries_loop all start last out (n + 1)
      else entries_loop all start last out n
  end.

Definition entries (start last : Z) : outcome (list (Z * GattUuid) * nat) :=
  entries_loop all_entries start last (replicate 6 (0, Uuid16 0)) 0.

(** One entry of [by_type]: handle, 19 payload bytes, payload length. *)
Definition type_entry : Type := Z * list Z * nat.

Definition by_type (start last uuid : Z) : outcome (list type_entry * nat) :=
  let out : list type_entry := replicate 4 (0, replicate 19 0, 0%nat) in
  let n := 0%nat in
  let! (out, n) :=
    if (uuid =? GATT_UUID_PRIMARY_SERVICE) && in_range start last HANDLE_PRIMARY_SERVICE
    then
      let! p := copy_at (replicate 19 0) 0 16 NUS_SERVICE_UUID in
      let! out := set_idx out n (HANDLE_PRIMARY_SERVICE, p, 16%nat) in
      Ret (out, (n + 1)%nat)
    else Ret (out, n) in
  let! (out, n) :=
    if uuid =? GATT_UUID_CHARACTERISTIC then
      let! (out, n) :=
        if in_range start last HANDLE_RX_CHAR_DECL then
          let! p := set_idx (replicate 19 0) 0 0x08 in
          let! p := copy_at p 1 3 (u16_to_le HANDLE_RX_VALUE) in
          let! p := copy_at p 3 19 NUS_RX_CHAR_UUID in
          let! out := set_idx out n (HANDLE_RX_CHAR_DECL, p, 19%nat) in
          Ret (out, (n + 1)%nat)
        else Ret (out, n) in
      if in_range start last HANDLE_TX_CHAR_DECL then
        let! p := set_idx (replicate 19 0) 0 0x20 in
        let! p := copy_at p 1 3 (u16_to_le HANDLE_TX_VALUE) in
        let! p := copy_at p 3 19 NUS_TX_CHAR_UUID in
        let! out := set_idx out n (HANDLE_TX_CHAR_DECL, p, 19%nat) in
        Ret (out, (n + 1)%nat)
      else Ret (out, n)
    else Ret (out, n) in
  if (uuid =? GATT_UUID_CLIENT_CHAR_CFG) && in_range start last HANDLE_TX_CCCD then
    let! out := set_idx out n (HANDLE_TX_CCCD, replicate 19 0, 2%nat) in
    Ret (out, (n + 1)%nat)
  else Ret (out, n).

Definition primary_services (start last : Z) : outcome (list (Z * list Z) * nat) :=
  let out := replicate 1 (0, replicate 16 0) in
  if in_range start last HANDLE_PRIMARY_SERVICE then
    let! out := set_idx out 0 (HANDLE_PRIMARY_SERVICE, NUS_SERVICE_UUID) in
    Ret (out, 1%nat)
  else Ret (out, 0%nat).

(** ** Specification *)

(** The attributes of a type, as a table: handle, type, value. *)
Definition typed_attrs : list (Z * Z * list Z) :=
  [(HANDLE_PRIMARY_SERVICE, GATT_UUID_PRIMARY_SERVICE, NUS_SERVICE_UUID);
   (HANDLE_RX_CHAR_DECL, GATT_UUID_CHARACTERISTIC,
    0x08 :: u16_to_le HANDLE_RX_VALUE ++ NUS_RX_CHAR_UUID);
   (HANDLE_TX_CHAR_DECL, GATT_UUID_CHARACTERISTIC,
    0x20 :: u16_to_le HANDLE_TX_VALUE ++ NUS_TX_CHAR_UUID);
   (HANDLE_TX_CCCD, GATT_UUID_CLIENT_CHAR_CFG, [0; 0])].

(** The ones a request selects, in handle order. *)
Definition select_type (start last uuid : Z) : list (Z * list Z) :=
  omap (fun '(h, u, v) =>
    if (u =? uuid) && in_range start last h then Some (h, v) else None) typed_attrs.

(** ** Lemmas *)

Lemma entries_loop_spec all start last pre rest n :
  length pre = n -> (length all <= length rest)%nat ->
  exists tail, entries_loop all start last (pre ++ rest) n =
    Ret (pre ++ filter (fun e => in_range start last (fst e) = true) all ++ tail,
         (n + length (filter (fun e => in_range start last (fst e) = true) all))%nat).
Proof.
  intros Hn. revert pre rest n Hn. induction all as [|[h u] all IH];
    intros pre rest n Hn Hl; cbn [entries_loop length] in *.
  { exists rest. rewrite filter_nil, Nat.add_0_r. done. }
  rewrite filter_cons. cbn [fst]. destruct (in_range start last h) eqn:E.
  - rewrite decide_True by done. rewrite set_idx_append, obind_Ret by lia.
    destruct (IH (pre ++ [(h, u)]) (drop 1 rest) (n + 1)%nat) as [tail ->]; [len|len|].
    exists tail. rewrite <- app_assoc. cbn [length app]. do 2 f_equal. lia.
  - rewrite decide_False by done. apply IH; lia.
Qed.

Lemma entries_spec start last : exists out, entries start last =
  Ret (out, length (filter (fun e => in_range start last (fst e) = true) all_entries)) /\
  take (length (filter (fun e => in_range start last (fst e) = true) all_entries)) out =
  filter (fun e => in_range start last (fst e) = true) all_entries.
Proof.
  unfold entries.
  destruct (entries_loop_spec all_entries start last [] (replicate 6 (0, Uuid16 0)) 0)
    as [tail E]; [done|done|]. cbn [app] in E. eexists. split; [exact E|].
  apply take_app_length.
Qed.

(** What the handler reads of a [by_type] entry. *)
Definition entry_value (e : type_entry) : Z * list Z :=
  let '(h, p, n) := e in (h, take n p).

Lemma by_type_spec start last uuid :
  exists out, by_type start last uuid = Ret (out, length (select_type start last uuid)) /\
    entry_value <$> take (length (select_type start last uuid)) out =
      select_type start last uuid.
Proof.
  unfold by_type, select_type, typed_attrs. cbn [omap list_omap].
  destruct (Z.eqb_spec uuid GATT_UUID_PRIMARY_SERVICE) as [->|H1].
  { destruct (in_range start last HANDLE_PRIMARY_SERVICE); cbn; by eexists. }
  rewrite (proj2 (Z.eqb_neq GATT_UUID_PRIMARY_SERVICE uuid)) by congruence.
  destruct (Z.eqb_spec uuid GATT_UUID_CHARACTERISTIC) as [->|H2].
  { destruct (in_range start last HANDLE_RX_CHAR_DECL),
      (in_range start last HANDLE_TX_CHAR_DECL); cbn; by eexists. }
  rewrite (proj2 (Z.eqb_neq GATT_UUID_CHARACTERISTIC uuid)) by congruence.
  destruct (Z.eqb_spec uuid GATT_UUID_CLIENT_CHAR_CFG) as [->|H3].
  { destruct (in_range start last HANDLE_TX_CCCD); cbn; by eexists. }
  rewrite (proj2 (Z.eqb_neq GATT_UUID_CLIENT_CHAR_CFG uuid)) by congruence.
  cbn. by eexists.
Qed.

Lemma primary_services_spec start last :
  primary_services start last = Ret (
    if in_range start last HANDLE_PRIMARY_SERVICE
    then ([(HANDLE_PRIMARY_SERVICE, NUS_SERVICE_UUID)], 1%nat)
    else ([(0, replicate 16 0)], 0%nat)).
Proof. unfold primary_services. by destruct (in_range start last _). Qed.
