(* ===== verification/Conn.v ===== *)
(** The connection ([src/hw/conn.rs]): its state, the queues for outgoing
    messages, credit-based channels opened by the host, and the GATT client's
    requests. The message handlers are in [Att.v] and [L2cap.v], the link
    layer in [LinkLayer.v]. *)

From stdpp Require Import base numbers list.
From S2P Require Import Prelude Errors Timers Pdu Events BondStore Crypto Smp Ccm Gatt.

(** ** Constants *)

Definition LL_CONTROL_CONNECTION_UPDATE_REQ : Z := 0x00.
Definition LL_CONTROL_TERMINATE_IND : Z := 0x02.
Definition LL_CONTROL_ENCRYPT_REQ : Z := 0x03.
Definition LL_CONTROL_ENCRYPT_RSP : Z := 0x04.
Definition LL_CONTROL_START_ENC_REQ : Z := 0x05.
Definition LL_CONTROL_START_ENC_RSP : Z := 0x06.
Definition LL_CONTROL_UNKNOWN_RSP : Z := 0x07.
Definition LL_CONTROL_FEATURE_REQ : Z := 0x08.
Definition LL_CONTROL_FEATURE_RSP : Z := 0x09.
Definition LL_CONTROL_VERSION_IND : Z := 0x0C.
Definition LL_CONTROL_PING_REQ : Z := 0x12.
Definition LL_CONTROL_PING_RSP : Z := 0x13.
Definition LL_CONTROL_LENGTH_REQ : Z := 0x14.
Definition LL_CONTROL_LENGTH_RSP : Z := 0x15.
Definition LL_CONTROL_PHY_REQ : Z := 0x16.
Definition LL_CONTROL_PHY_RSP : Z := 0x17.

Definition L2CAP_ATT_CID : Z := 0x0004.
Definition L2CAP_SIGNALING_CID : Z := 0x0005.
Definition L2CAP_SMP_CID_LOCAL : Z := 0x0006.

Definition LE_CREDIT_BASED_CONNECTION_REQ : Z := 0x14.
Definition LE_CREDIT_BASED_CONNECTION_RSP : Z := 0x15.
Definition LE_FLOW_CONTROL_CREDIT : Z := 0x16.
Definition LE_CREDIT_BASED_CONNECTION_END : Z := 0x17.

Definition COC_LOCAL_CID : Z := 0x0040.
Definition COC_CREDITS : Z := 8.
Definition COC_MTU : Z := 247.
Definition COC_MPS : Z := 251.

(** ** State *)

Record Coc := mkCoc {
  coc_psm : Z;
  coc_local_cid : Z;
  coc_peer_cid : Z;
  coc_credits : Z;
  coc_peer_credits : Z;
  coc_mtu : Z;
  coc_mps : Z;
  coc_rx_sdu : list Z;      (* [u8; 256] *)
  coc_rx_sdu_len : nat;
  coc_rx_sdu_total : nat;
  coc_tx_sdu : list Z;      (* [u8; 256] *)
  coc_tx_sdu_len : nat;
  coc_tx_sdu_offset : nat
}.

Definition Coc_new (psm : Z) : Coc :=
  mkCoc psm COC_LOCAL_CID 0 0 0 COC_MTU COC_MPS (replicate 256 0) 0 0
    (replicate 256 0) 0 0.

Definition Coc_eta (s : Coc) : Coc :=
  mkCoc (coc_psm s) (coc_local_cid s) (coc_peer_cid s) (coc_credits s)
    (coc_peer_credits s) (coc_mtu s) (coc_mps s) (coc_rx_sdu s) (coc_rx_sdu_len s)
    (coc_rx_sdu_total s) (coc_tx_sdu s) (coc_tx_sdu_len s) (coc_tx_sdu_offset s).

Definition set_coc_peer_cid : Z -> Coc -> Coc :=
  ltac:(record_setter Coc_eta coc_peer_cid).
Definition set_coc_credits : Z -> Coc -> Coc :=
  ltac:(record_setter Coc_eta coc_credits).
Definition set_coc_peer_credits : Z -> Coc -> Coc :=
  ltac:(record_setter Coc_eta coc_peer_credits).
Definition set_coc_mtu : Z -> Coc -> Coc := ltac:(record_setter Coc_eta coc_mtu).
Definition set_coc_mps : Z -> Coc -> Coc := ltac:(record_setter Coc_eta coc_mps).
Definition set_coc_rx_sdu : list Z -> Coc -> Coc :=
  ltac:(record_setter Coc_eta coc_rx_sdu).
Definition set_coc_rx_sdu_len : nat -> Coc -> Coc :=
  ltac:(record_setter Coc_eta coc_rx_sdu_len).
Definition set_coc_rx_sdu_total : nat -> Coc -> Coc :=
  ltac:(record_setter Coc_eta coc_rx_sdu_total).

Record Conn := mkConn {
  cn_role : ConnRole;
  cn_access_addr : Z;
  cn_crc_init : Z;
  cn_interval : Z;
  cn_timeout : Z;
  cn_channel_map : list Z;
  cn_hop : Z;
  cn_channel : Z;
  cn_sn : bool;
  cn_nesn : bool;
  cn_anchor : Z;
  cn_accum : IntervalAccum;
  cn_rx_l2cap : list Z;
  cn_rx_l2cap_len : nat;
  cn_rx_l2cap_msg_len : nat;
  cn_rx_l2cap_cid : Z;
  cn_tx_att : list Z;
  cn_tx_att_len : nat;
  cn_tx_frag_offset : nat;
  cn_tx_pending : bool;
  cn_tx_cid : Z;
  cn_att_mtu : Z;
  cn_tx_pdu_max : nat;
  cn_rx_pdu_max : nat;
  cn_coc : option Coc;
  cn_bond_store : RamBondStore;
  cn_peer_addr : list Z;
  cn_peer_version_ok : bool;
  cn_last_rx : Z;
  cn_terminate_pending : bool;
  cn_nus_cccd : Z;
  cn_rx_data : list Z;
  cn_rx_data_len : nat;
  cn_tx_buf : list Z;
  cn_rx_buf : list Z;
  cn_event_counter : Z;
  cn_pending_update : option (Z * Z);
  cn_pending_update_instant : Z;
  cn_pending_request : bool;
  cn_smp : Smp;
  cn_encrypted : bool;
  cn_packet_counter : Z;
  cn_ccm : Ccm;
  cn_want_encrypt : bool;
  cn_pairing_in_progress : bool;
  cn_pending_control : option (list Z);
  cn_gatt_result : list Z;
  cn_gatt_result_len : nat
}.

(** The record's eta expansion, and a setter per field. *)
Definition Conn_eta (s : Conn) : Conn :=
  mkConn (cn_role s) (cn_access_addr s) (cn_crc_init s) (cn_interval s) (cn_timeout s)
    (cn_channel_map s) (cn_hop s) (cn_channel s) (cn_sn s) (cn_nesn s)
    (cn_anchor s) (cn_accum s) (cn_rx_l2cap s) (cn_rx_l2cap_len s)
    (cn_rx_l2cap_msg_len s) (cn_rx_l2cap_cid s) (cn_tx_att s) (cn_tx_att_len s)
    (cn_tx_frag_offset s) (cn_tx_pending s) (cn_tx_cid s) (cn_att_mtu s)
    (cn_tx_pdu_max s) (cn_rx_pdu_max s) (cn_coc s) (cn_bond_store s)
    (cn_peer_addr s) (cn_peer_version_ok s) (cn_last_rx s) (cn_terminate_pending s)
    (cn_nus_cccd s) (cn_rx_data s) (cn_rx_data_len s) (cn_tx_buf s) (cn_rx_buf s)
    (cn_event_counter s) (cn_pending_update s) (cn_pending_update_instant s)
    (cn_pending_request s) (cn_smp s) (cn_encrypted s) (cn_packet_counter s)
    (cn_ccm s) (cn_want_encrypt s) (cn_pairing_in_progress s)
    (cn_pending_control s) (cn_gatt_result s) (cn_gatt_result_len s).

Definition set_role : ConnRole -> Conn -> Conn :=
  ltac:(record_setter Conn_eta cn_role).
Definition set_access_addr : Z -> Conn -> Conn :=
  ltac:(record_setter Conn_eta cn_access_addr).
Definition set_crc_init : Z -> Conn -> Conn :=
  ltac:(record_setter Conn_eta cn_crc_init).
Definition set_interval : Z -> Conn -> Conn :=
  ltac:(record_setter Conn_eta cn_interval).
Definition set_timeout : Z -> Conn -> Conn :=
  ltac:(record_setter Conn_eta cn_timeout).
Definition set_channel_map : list Z -> Conn -> Conn :=
  ltac:(record_setter Conn_eta cn_channel_map).
Definition set_hop : Z -> Conn -> Conn :=
  ltac:(record_setter Conn_eta cn_hop).
Definition set_channel : Z -> Conn -> Conn :=
  ltac:(record_setter Conn_eta cn_channel).
Definition set_sn : bool -> Conn -> Conn :=
  ltac:(record_setter Conn_eta cn_sn).
Definition set_nesn : bool -> Conn -> Conn :=
  ltac:(record_setter Conn_eta cn_nesn).
Definition set_anchor : Z -> Conn -> Conn :=
  ltac:(record_setter Conn_eta cn_anchor).
Definition set_accum : IntervalAccum -> Conn -> Conn :=
  ltac:(record_setter Conn_eta cn_accum).
Definition set_rx_l2cap : list Z -> Conn -> Conn :=
  ltac:(record_setter Conn_eta cn_rx_l2cap).
Definition set_rx_l2cap_len : nat -> Conn -> Conn :=
  ltac:(record_setter Conn_eta cn_rx_l2cap_len).
Definition set_rx_l2cap_msg_len : nat -> Conn -> Conn :=
  ltac:(record_setter Conn_eta cn_rx_l2cap_msg_len).
Definition set_rx_l2cap_cid : Z -> Conn -> Conn :=
  ltac:(record_setter Conn_eta cn_rx_l2cap_cid).
Definition set_tx_att : list Z -> Conn -> Conn :=
  ltac:(record_setter Conn_eta cn_tx_att).
Definition set_tx_att_len : nat -> Conn -> Conn :=
  ltac:(record_setter Conn_eta cn_tx_att_len).
Definition set_tx_frag_offset : nat -> Conn -> Conn :=
  ltac:(record_setter Conn_eta cn_tx_frag_offset).
Definition set_tx_pending : bool -> Conn -> Conn :=
  ltac:(record_setter Conn_eta cn_tx_pending).
Definition set_tx_cid : Z -> Conn -> Conn :=
  ltac:(record_setter Conn_eta cn_tx_cid).
Definition set_att_mtu : Z -> Conn -> Conn :=
  ltac:(record_setter Conn_eta cn_att_mtu).
Definition set_tx_pdu_max : nat -> Conn -> Conn :=
  ltac:(record_setter Conn_eta cn_tx_pdu_max).
Definition set_rx_pdu_max : nat -> Conn -> Conn :=
  ltac:(record_setter Conn_eta cn_rx_pdu_max).
Definition set_coc : option Coc -> Conn -> Conn :=
  ltac:(record_setter Conn_eta cn_coc).
Definition set_bond_store : RamBondStore -> Conn -> Conn :=
  ltac:(record_setter Conn_eta cn_bond_store).
Definition set_peer_addr : list Z -> Conn -> Conn :=
  ltac:(record_setter Conn_eta cn_peer_addr).
Definition set_peer_version_ok : bool -> Conn -> Conn :=
  ltac:(record_setter Conn_eta cn_peer_version_ok).
Definition set_last_rx : Z -> Conn -> Conn :=
  ltac:(record_setter Conn_eta cn_last_rx).
Definition set_terminate_pending : bool -> Conn -> Conn :=
  ltac:(record_setter Conn_eta cn_terminate_pending).
Definition set_nus_cccd : Z -> Conn -> Conn :=
  ltac:(record_setter Conn_eta cn_nus_cccd).
Definition set_rx_data : list Z -> Conn -> Conn :=
  ltac:(record_setter Conn_eta cn_rx_data).
Definition set_rx_data_len : nat -> Conn -> Conn :=
  ltac:(record_setter Conn_eta cn_rx_data_len).
Definition set_tx_buf : list Z -> Conn -> Conn :=
  ltac:(record_setter Conn_eta cn_tx_buf).
Definition set_rx_buf : list Z -> Conn -> Conn :=
  ltac:(record_setter Conn_eta cn_rx_buf).
Definition set_event_counter : Z -> Conn -> Conn :=
  ltac:(record_setter Conn_eta cn_event_counter).
Definition set_pending_update : option (Z * Z) -> Conn -> Conn :=
  ltac:(record_setter Conn_eta cn_pending_update).
Definition set_pending_update_instant : Z -> Conn -> Conn :=
  ltac:(record_setter Conn_eta cn_pending_update_instant).
Definition set_pending_request : bool -> Conn -> Conn :=
  ltac:(record_setter Conn_eta cn_pending_request).
Definition set_smp : Smp -> Conn -> Conn :=
  ltac:(record_setter Conn_eta cn_smp).
Definition set_encrypted : bool -> Conn -> Conn :=
  ltac:(record_setter Conn_eta cn_encrypted).
Definition set_packet_counter : Z -> Conn -> Conn :=
  ltac:(record_setter Conn_eta cn_packet_counter).
Definition set_ccm : Ccm -> Conn -> Conn :=
  ltac:(record_setter Conn_eta cn_ccm).
Definition set_want_encrypt : bool -> Conn -> Conn :=
  ltac:(record_setter Conn_eta cn_want_encrypt).
Definition set_pairing_in_progress : bool -> Conn -> Conn :=
  ltac:(record_setter Conn_eta cn_pairing_in_progress).
Definition set_pending_control : option (list Z) -> Conn -> Conn :=
  ltac:(record_setter Conn_eta cn_pending_control).
Definition set_gatt_result : list Z -> Conn -> Conn :=
  ltac:(record_setter Conn_eta cn_gatt_result).
Definition set_gatt_result_len : nat -> Conn -> Conn :=
  ltac:(record_setter Conn_eta cn_gatt_result_len).

(** ** Operations *)

Definition Conn_new (params : ConnectReqData) (first_channel now : Z)
    (role : ConnRole) : Conn :=
  let anchor := match role with
    | Master => wrapping_add32 now (timeout_ticks 200)
    | Slave => now
    end in
  mkConn role (cr_access_addr params) (cr_crc_init params) (cr_interval params)
    (cr_timeout params) (cr_channel_map params) (cr_hop params) first_channel
    false false anchor IntervalAccum_new_125ms (replicate 256 0) 0 0 L2CAP_ATT_CID
    (replicate L2CAP_PAYLOAD_MAX 0) 0 0 false L2CAP_ATT_CID (Z.of_nat ATT_MTU_DEFAULT)
    LL_PDU_PAYLOAD_DEFAULT LL_PDU_PAYLOAD_DEFAULT None RamBondStore_new
    (replicate 6 0) false now false 0 (replicate ATT_PAYLOAD_MAX 0) 0
    (replicate 64 0) (replicate 64 0) 0 None 0 false Smp_new false 0 Ccm_new false
    false None (replicate 64 0) 0.

Definition queue_notify (self : Conn) (data : list Z) : outcome Conn :=
  let len := Nat.min (length data) ATT_PAYLOAD_MAX in
  let! b := set_idx (cn_tx_att self) 0 0x1B in
  let! b := copy_at b 1 3 (u16_to_le HANDLE_TX_VALUE) in
  let! d := slice_to data len in
  let! b := copy_at b 3 (3 + len) d in
  let self := set_tx_att b self in
  let self := set_tx_att_len (3 + len) self in
  Ret (set_tx_pending true self).

Definition terminate (self : Conn) : Conn := set_terminate_pending true self.

Definition queue_att (self : Conn) (att : list Z) : outcome Conn :=
  let len := Nat.min (length att) (length (cn_tx_att self)) in
  let! d := slice_to att len in
  let! b := copy_at (cn_tx_att self) 0 len d in
  let self := set_tx_att b self in
  let self := set_tx_att_len len self in
  Ret (set_tx_pending true self).

Definition queue_signaling (self : Conn) (msg : list Z) : outcome Conn :=
  let! room := sub_usize (length (cn_tx_att self)) 4 in
  let n := Nat.min (length msg) room in
  let! d := slice_to msg n in
  let! b := copy_at (cn_tx_att self) 0 n d in
  let self := set_tx_att b self in
  let self := set_tx_att_len n self in
  let self := set_tx_cid L2CAP_SIGNALING_CID self in
  let self := set_tx_frag_offset 0 self in
  Ret (set_tx_pending true self).

Definition queue_l2cap (self : Conn) (l2 : list Z) (cid : Z) : outcome Conn :=
  let n := Nat.min (length l2) (length (cn_tx_att self)) in
  let! d := slice_to l2 n in
  let! b := copy_at (cn_tx_att self) 0 n d in
  let self := set_tx_att b self in
  let self := set_tx_att_len n self in
  let self := set_tx_cid cid self in
  let self := set_tx_frag_offset 0 self in
  Ret (set_tx_pending true self).

Definition set_peer (self : Conn) (peer : list Z) : Conn := set_peer_addr peer self.

Definition queue_encrypt_req (self : Conn) : outcome Conn :=
  let ctrl := replicate 19 0 in
  let! ctrl := set_idx ctrl 0 LL_CONTROL_ENCRYPT_REQ in
  let! ctrl := fill_at ctrl 1 9 0 in
  let! ctrl := fill_at ctrl 9 11 0 in
  let! ctrl := fill_at ctrl 11 19 0 in
  let self := set_pending_control (Some ctrl) self in
  Ret (set_want_encrypt true self).

Definition l2cap_connect (self : Conn) (psm : Z) : outcome Conn :=
  match cn_coc self with
  | Some _ => Ret self
  | None =>
      let self := set_coc (Some (Coc_new psm)) self in
      let req := replicate 12 0 in
      let! req := set_idx req 0 LE_CREDIT_BASED_CONNECTION_REQ in
      let! req := set_idx req 1 0 in
      let! req := copy_at req 2 4 (u16_to_le psm) in
      let! req := copy_at req 4 6 (u16_to_le COC_LOCAL_CID) in
      let! req := copy_at req 6 8 (u16_to_le COC_MTU) in
      let! req := copy_at req 8 10 (u16_to_le COC_MPS) in
      let! req := copy_at req 10 12 (u16_to_le COC_CREDITS) in
      queue_signaling self req
  end.

Definition l2cap_send (self : Conn) (data : list Z)
    : outcome (Conn * result unit Error) :=
  match cn_coc self with
  | None => Ret (self, Err NotRunning)
  | Some coc =>
      if (Z.to_nat (coc_mtu coc) <? length data)%nat
         || (length (cn_tx_att self) <? length data + 2)%nat
      then Ret (self, Err InvalidLength)
      else if coc_credits coc =? 0 then Ret (self, Err NotRunning)
      else
      let coc := set_coc_credits (coc_credits coc - 1) coc in
      let self := set_coc (Some coc) self in
      let total := (length data + 2)%nat in
      let! b := copy_at (cn_tx_att self) 0 2 (u16_to_le (Z.of_nat (length data))) in
      let! b := copy_at b 2 total data in
      let self := set_tx_att b self in
      let self := set_tx_att_len total self in
      let self := set_tx_cid (coc_local_cid coc) self in
      let self := set_tx_frag_offset 0 self in
      Ret (set_tx_pending true self, Ok tt)
  end.

Definition gatt_send_request (self : Conn) (att : list Z) : outcome Conn :=
  let! self := queue_att self att in
  Ret (set_pending_request true self).

Definition att_response_last_handle (buf : list Z) : outcome (option Z) :=
  if (length buf <? 2)%nat then Ret None else
  let! w := idx buf 1 in
  let width := Z.to_nat w in
  if (width <? 2)%nat then Ret None else
  let entries := ((length buf - 2) / width)%nat in
  if (entries =? 0)%nat then Ret None else
  let pos := (2 + (entries - 1) * width)%nat in
  let! b0 := idx buf pos in
  let! b1 := idx buf (pos + 1) in
  Ret (Some (u16_from_le b0 b1)).

(** The opcode, a copy of the buffer, and the length. *)
Definition gatt_take_result (self : Conn) : outcome (Conn * (Z * list Z * nat)) :=
  let! op := idx (cn_gatt_result self) 0 in
  let len := cn_gatt_result_len self in
  let buf := cn_gatt_result self in
  let self := set_gatt_result_len 0 self in
  let! g := set_idx (cn_gatt_result self) 0 0 in
  let self := set_gatt_result g self in
  let! buf := set_idx buf 0 op in
  Ret (self, (op, buf, len)).

(** ** Specification *)

(** The array types of the fields, and what the lengths and offsets are
    bounded by. *)
Record wf_conn (c : Conn) : Prop := {
  wf_rx_l2cap : length (cn_rx_l2cap c) = 256%nat;
  wf_rx_l2cap_len : (cn_rx_l2cap_len c <= 256)%nat;
  wf_tx_att : length (cn_tx_att c) = 251%nat;
  wf_tx_att_len : (cn_tx_att_len c <= 251)%nat;
  wf_rx_data : length (cn_rx_data c) = 244%nat;
  wf_rx_data_len : (cn_rx_data_len c <= 244)%nat;
  wf_tx_buf : length (cn_tx_buf c) = 64%nat;
  wf_rx_buf : length (cn_rx_buf c) = 64%nat;
  wf_gatt_result : length (cn_gatt_result c) = 64%nat;
  wf_gatt_result_len : (cn_gatt_result_len c <= 64)%nat;
  wf_pending_control : forall p, cn_pending_control c = Some p -> length p = 19%nat;
  wf_coc : forall k, cn_coc c = Some k ->
    length (coc_rx_sdu k) = 256%nat /\ (coc_rx_sdu_len k <= 256)%nat;
  wf_conn_smp : wf_smp (cn_smp c);
  wf_conn_ccm : wf_ccm (cn_ccm c);
  wf_bonds : wf_slots (rbs_bonds (cn_bond_store c));
  wf_att_mtu : 23 <= cn_att_mtu c < 65536
}.

(** The queued message: what the fragmenter will send. *)
Definition queued (c : Conn) : list Z := take (cn_tx_att_len c) (cn_tx_att c).

(** [c] with [msg] queued on channel [cid]. *)
Definition with_message (msg : list Z) (cid : Z) (c : Conn) : Conn :=
  set_tx_pending true (set_tx_frag_offset 0 (set_tx_cid cid
    (set_tx_att_len (length msg)
      (set_tx_att (msg ++ drop (length msg) (cn_tx_att c)) c)))).

(** [c] with [msg] queued as the attribute handlers do: the channel and the
    fragment offset stay. *)
Definition with_att (msg : list Z) (c : Conn) : Conn :=
  set_tx_pending true
    (set_tx_att_len (length msg)
      (set_tx_att (msg ++ drop (length msg) (cn_tx_att c)) c)).

(** ** Lemmas *)

Lemma queued_with_message msg cid c : queued (with_message msg cid c) = msg.
Proof. apply take_app_length. Qed.

Lemma queued_with_att msg c : queued (with_att msg c) = msg.
Proof. apply take_app_length. Qed.

Lemma queue_att_Ret c msg : length (cn_tx_att c) = 251%nat -> (length msg <= 251)%nat ->
  queue_att c msg = Ret (with_att msg c).
Proof.
  intros Ha Hm. unfold queue_att. cbv zeta. rewrite Nat.min_l by lia.
  rewrite slice_to_Ret, obind_Ret, take_ge, copy_at_first, obind_Ret by lia. done.
Qed.

Lemma queue_signaling_Ret c msg :
  length (cn_tx_att c) = 251%nat -> (length msg <= 247)%nat ->
  queue_signaling c msg = Ret (with_message msg L2CAP_SIGNALING_CID c).
Proof.
  intros Ha Hm. unfold queue_signaling, sub_usize. cbv zeta. rewrite Ha.
  change (4 <=? 251)%nat with true. cbv iota. rewrite obind_Ret, Nat.min_l by lia.
  rewrite slice_to_Ret, obind_Ret, take_ge, copy_at_first, obind_Ret by lia. done.
Qed.

Lemma queue_l2cap_Ret c msg cid :
  length (cn_tx_att c) = 251%nat -> (length msg <= 251)%nat ->
  queue_l2cap c msg cid = Ret (with_message msg cid c).
Proof.
  intros Ha Hm. unfold queue_l2cap. cbv zeta. rewrite Nat.min_l by lia.
  rewrite slice_to_Ret, obind_Ret, take_ge, copy_at_first, obind_Ret by lia. done.
Qed.

(** Rebuild the invariant of an updated connection: the untouched fields come
    from the old one, [t] does the others. *)
Ltac wf_conn_by t :=
  match goal with
  | H : wf_conn ?c |- wf_conn _ =>
      destruct H; constructor; first [eassumption | t]
  end.

Lemma with_message_wf msg cid c : wf_conn c -> (length msg <= 251)%nat ->
  wf_conn (with_message msg cid c).
Proof. intros Hc Hm. wf_conn_by ltac:(cbn; len). Qed.

Lemma with_att_wf msg c : wf_conn c -> (length msg <= 251)%nat ->
  wf_conn (with_att msg c).
Proof. intros Hc Hm. wf_conn_by ltac:(cbn; len). Qed.
#[export] Hint Resolve with_message_wf with_att_wf : ble.

Lemma Conn_new_wf p ch now r : wf_conn (Conn_new p ch now r).
Proof.
  constructor; try done; cbn; try lia. repeat constructor; done.
Qed.

Lemma set_smp_conn_wf s c : wf_conn c -> wf_smp s -> wf_conn (set_smp s c).
Proof. intros Hc Hs. wf_conn_by ltac:(exact Hs). Qed.

Lemma queue_encrypt_req_Ret c : queue_encrypt_req c =
  Ret (set_want_encrypt true
    (set_pending_control (Some (LL_CONTROL_ENCRYPT_REQ :: replicate 18 0)) c)).
Proof. reflexivity. Qed.

(** Sending on a credit-based channel: it fails, changing nothing, without a
    channel, without a credit, or with more data than the channel or the buffer
    takes; otherwise it takes exactly one credit and queues the data, preceded
    by their length, on the channel's local identifier. *)
Lemma l2cap_send_Ret c data : wf_conn c ->
  l2cap_send c data = Ret (
    match cn_coc c with
    | None => (c, Err NotRunning)
    | Some k =>
        if (Z.to_nat (coc_mtu k) <? length data)%nat || (249 <? length data)%nat
        then (c, Err InvalidLength)
        else if coc_credits k =? 0 then (c, Err NotRunning)
        else (with_message (u16_to_le (Z.of_nat (length data)) ++ data)
                (coc_local_cid k)
                (set_coc (Some (set_coc_credits (coc_credits k - 1) k)) c), Ok tt)
    end).
Proof.
  intros Hc. unfold l2cap_send. destruct (cn_coc c) as [k|]; [|done].
  rewrite (wf_tx_att _ Hc).
  replace (251 <? length data + 2)%nat with (249 <? length data)%nat
    by (destruct (Nat.ltb_spec 249 (length data)), (Nat.ltb_spec 251 (length data + 2));
        done || lia).
  destruct (_ <? length data)%nat; [done|]. cbn [orb].
  destruct (Nat.ltb_spec 249 (length data)) as [Hd|Hd]; [done|].
  destruct (coc_credits k =? 0); [done|]. cbv zeta.
  pose proof (wf_tx_att _ Hc). change (cn_tx_att (set_coc _ c)) with (cn_tx_att c).
  writes. rewrite drop_drop. unfold with_message.
  replace (length (u16_to_le _ ++ data)) with (length data + 2)%nat by (cbn; lia).
  replace (2 + (length data + 2 - 2))%nat with (length data + 2)%nat by lia.
  done.
Qed.
