(* ===== verification/Att.v ===== *)
(** The attribute protocol ([src/hw/conn.rs]): the server's answers, the
    client's responses and notifications. *)

From stdpp Require Import base numbers list.
From S2P Require Import Prelude Errors Pdu Events Smp Ccm Gatt Conn.

(** ** The source's definitions *)

(** [read]: the value buffer and the length. *)
Definition read (self : Conn) (handle : Z) (out : list Z)
    : outcome (list Z * option nat) :=
  if handle =? HANDLE_TX_VALUE then Ret (out, Some 0%nat)
  else if handle =? HANDLE_TX_CCCD then
    let! out := set_idx out 0 (cn_nus_cccd self) in
    let! out := set_idx out 1 0 in
    Ret (out, Some 2%nat)
  else Ret (out, None).

(** [write]: the state, the event and the result. *)
Definition write (self : Conn) (handle : Z) (value : list Z) (ev : ConnEvent)
    : outcome (Conn * ConnEvent * result unit Error) :=
  if handle =? HANDLE_RX_VALUE then
    let len := Nat.min (length value) (length (cn_rx_data self)) in
    let! v := slice_to value len in
    let! d := copy_at (cn_rx_data self) 0 len v in
    let self := set_rx_data d self in
    let self := set_rx_data_len len self in
    Ret (self, EvData, Ok tt)
  else if handle =? HANDLE_TX_CCCD then
    let! on :=
      if (2 <=? length value)%nat then let! v0 := idx value 0 in Ret (flag v0 0x01)
      else Ret false in
    Ret (set_nus_cccd (if on : bool then 0x01 else 0) self, ev, Ok tt)
  else Ret (self, ev, Err InvalidPdu).

(** The opcodes a pending request is answered with. *)
Definition is_response (op : Z) : bool :=
  existsb (Z.eqb op) [0x01; 0x03; 0x09; 0x0B; 0x11; 0x13; 0x15; 0x17].

(** The body of the loop of Find Information: the response and the position. *)
Definition info_entry (uuid16 : bool) (e : Z * GattUuid) (rsp : list Z) (pos : nat)
    : outcome (list Z * nat) :=
  let '(handle, uuid) := e in
  let uuid16_val := as_u16 uuid in
  let as128 := replicate 16 0 in
  match uuid16_val with
  | Some u =>
      if uuid16 then
        if (pos + 4 <=? length rsp)%nat then
          let! rsp := copy_at rsp pos (pos + 2) (u16_to_le handle) in
          let! rsp := copy_at rsp (pos + 2) (pos + 4) (u16_to_le u) in
          Ret (rsp, (pos + 4)%nat)
        else Ret (rsp, pos)
      else
        let! as128 := copy_at as128 2 4 (u16_to_le u) in
        if (pos + 18 <=? length rsp)%nat then
          let! rsp := copy_at rsp pos (pos + 2) (u16_to_le handle) in
          let! rsp := copy_at rsp (pos + 2) (pos + 18) as128 in
          Ret (rsp, (pos + 18)%nat)
        else Ret (rsp, pos)
  | None =>
      if (pos + 18 <=? length rsp)%nat then
        let! rsp := copy_at rsp pos (pos + 2) (u16_to_le handle) in
        let! rsp := copy_at rsp (pos + 2) (pos + 18) (to_128 uuid) in
        Ret (rsp, (pos + 18)%nat)
      else Ret (rsp, pos)
  end.

Fixpoint info_loop (uuid16 : bool) (es : list (Z * GattUuid)) (rsp : list Z)
    (pos : nat) : outcome (list Z * nat) :=
  match es with
  | [] => Ret (rsp, pos)
  | e :: es =>
      let! (rsp, pos) := info_entry uuid16 e rsp pos in
      info_loop uuid16 es rsp pos
  end.

(** Find Information (0x04). *)
Definition find_information (att : list Z) : outcome (list Z) :=
  let rsp := replicate 64 0 in
  let! rsp := set_idx rsp 0 0x05 in
  let! start := u16_at att 1 in
  let! last := u16_at att 3 in
  let! (es, count) := entries start last in
  let! es := slice_to es count in
  let uuid16 := forallb (fun e => bool_decide (is_Some (as_u16 (snd e)))) es in
  let! rsp := set_idx rsp 1 (if uuid16 then 0x01 else 0x02) in
  let! (rsp, pos) := info_loop uuid16 es rsp 2 in
  slice_to rsp pos.

(** The loops of Read By Type and Read By Group Type: each entry is a handle
    and the payload it has; [width] is fixed by the first, [2 + plen as u8]
    being a checked [u8] sum. *)
Definition value_entry (h : Z) (payload : list Z) (plen : nat)
    (rsp : list Z) (pos : nat) (width : Z) : outcome (list Z * nat * Z) :=
  let! (rsp, width) :=
    if width =? 0 then
      let! width := add_u8 2 (u8 (Z.of_nat plen)) in
      let! rsp := set_idx rsp 1 width in
      Ret (rsp, width)
    else Ret (rsp, width) in
  if (pos + Z.to_nat width <=? length rsp)%nat then
    let! rsp := copy_at rsp pos (pos + 2) (u16_to_le h) in
    let! p := slice_to payload plen in
    let! rsp := copy_at rsp (pos + 2) (pos + 2 + plen) p in
    Ret (rsp, (pos + Z.to_nat width)%nat, width)
  else Ret (rsp, pos, width).

Fixpoint value_loop (es : list type_entry) (rsp : list Z) (pos : nat) (width : Z)
    : outcome (list Z * nat) :=
  match es with
  | [] => Ret (rsp, pos)
  | (h, payload, plen) :: es =>
      let! (rsp, pos, width) := value_entry h payload plen rsp pos width in
      value_loop es rsp pos width
  end.

(** Read By Type (0x08). *)
Definition read_by_type (att : list Z) : outcome (list Z) :=
  let! uuid := u16_at att 1 in
  let! start := u16_at att 3 in
  let! last := u16_at att 5 in
  let rsp := replicate 64 0 in
  let! rsp := set_idx rsp 0 0x09 in
  let! (es, count) := by_type start last uuid in
  let! es := slice_to es count in
  let! (rsp, pos) := value_loop es rsp 2 0 in
  if (pos =? 1)%nat then Ret [0x01; 0x0A; 0x00; 0x00; 0x08]
  else slice_to rsp pos.

(** Read (0x0A). *)
Definition read_value (self : Conn) (att : list Z) : outcome (list Z) :=
  let! handle := u16_at att 1 in
  let! (value, r) := read self handle (replicate 32 0) in
  match r with
  | Some vlen =>
      let rsp := replicate 32 0 in
      let! rsp := set_idx rsp 0 0x0B in
      let! v := slice_to value vlen in
      let! rsp := copy_at rsp 1 (1 + vlen) v in
      slice_to rsp (1 + vlen)
  | None => Ret [0x01; 0x0A; 0x00; 0x00; 0x0A]
  end.

(** Read Blob (0x0C). *)
Definition read_blob (self : Conn) (att : list Z) : outcome (list Z) :=
  let! handle := u16_at att 1 in
  let! offset := u16_at att 3 in
  let offset := Z.to_nat offset in
  let! (value, r) := read self handle (replicate 32 0) in
  match r with
  | Some vlen =>
      if (offset <? vlen)%nat then
        let! chunk := slice value offset vlen in
        let rsp := replicate 32 0 in
        let! rsp := set_idx rsp 0 0x0D in
        let! rsp := copy_at rsp 1 (1 + length chunk) chunk in
        slice_to rsp (1 + length chunk)
      else Ret [0x01; 0x0C; 0x00; 0x00; 0x0A]
  | None => Ret [0x01; 0x0C; 0x00; 0x00; 0x0A]
  end.

(** Read By Group Type (0x10). *)
Definition read_by_group_type (att : list Z) : outcome (list Z) :=
  let! uuid := u16_at att 1 in
  let! start := u16_at att 3 in
  let! last := u16_at att 5 in
  if uuid =? GATT_UUID_PRIMARY_SERVICE then
    let rsp := replicate 32 0 in
    let! rsp := set_idx rsp 0 0x11 in
    let! (services, count) := primary_services start last in
    let! services := slice_to services count in
    let! (rsp, pos) :=
      value_loop (map (fun '(h, svc) => (h, svc, length svc)) services) rsp 2 0 in
    if (pos =? 1)%nat then Ret [0x01; 0x10; 0x00; 0x00; 0x10]
    else slice_to rsp pos
  else Ret [0x01; 0x10; 0x00; 0x00; 0x10].

(** A notification (0x1B). *)
Definition notification (self : Conn) (att : list Z) : outcome (Conn * ConnEvent) :=
  let buf := replicate 20 0 in
  let! _ := u16_at att 1 in
  let! m := sub_usize (length att) 3 in
  let n := Nat.min m 20 in
  let! d := slice att 3 (3 + n) in
  let! buf := copy_at buf 0 n d in
  let! d := slice_to buf n in
  let! rx := copy_at (cn_rx_data self) 0 n d in
  let self := set_rx_data rx self in
  let self := set_rx_data_len n self in
  Ret (self, EvData).

(** The answer to a request of ours. *)
Definition response (self : Conn) (op : Z) (att : list Z) : outcome Conn :=
  let! self :=
    if (op =? 0x03) && (3 <=? length att)%nat then
      let! peer := u16_at att 1 in
      Ret (set_att_mtu (Z.max (Z.min (cn_att_mtu self) peer)
             (Z.of_nat ATT_MTU_DEFAULT)) self)
    else Ret self in
  let self := set_pending_request false self in
  let n := Nat.min (length att) (length (cn_gatt_result self)) in
  let! d := slice_to att n in
  let! g := copy_at (cn_gatt_result self) 0 n d in
  let self := set_gatt_result g self in
  Ret (set_gatt_result_len n self).

(** The arms of a write with an answer, and without. *)
Definition write_request (self : Conn) (att : list Z) (ev : ConnEvent)
    : outcome (Conn * ConnEvent) :=
  let! handle := u16_at att 1 in
  let! value := slice_from att 3 in
  let! (self, ev, r) := write self handle value ev in
  match r with
  | Ok _ => let! self := queue_att self [0x13] in Ret (self, ev)
  | Err _ =>
      let! self := queue_att self [0x01; 0x12; 0x00; 0x00; 0x12] in Ret (self, ev)
  end.

Definition write_command (self : Conn) (att : list Z) (ev : ConnEvent)
    : outcome (Conn * ConnEvent) :=
  let! handle := u16_at att 1 in
  let! value := slice_from att 3 in
  let! (self, ev, _) := write self handle value ev in
  Ret (self, ev).

Definition handle_att (self : Conn) (att : list Z) (ev : ConnEvent)
    : outcome (Conn * ConnEvent) :=
  if (length att =? 0)%nat then Ret (self, ev) else
  let! op := idx att 0 in
  if cn_pending_request self && is_response op then
    let! self := response self op att in Ret (self, ev)
  else if op =? 0x1B then notification self att
  else if op =? 0x02 then
    let rsp := replicate 5 0 in
    let! rsp := set_idx rsp 0 0x03 in
    let! rsp := copy_at rsp 1 3 (u16_to_le (cn_att_mtu self)) in
    let! self := queue_att self rsp in Ret (self, ev)
  else if op =? 0x04 then
    let! rsp := find_information att in
    let! self := queue_att self rsp in Ret (self, ev)
  else if op =? 0x08 then
    let! rsp := read_by_type att in
    let! self := queue_att self rsp in Ret (self, ev)
  else if op =? 0x0A then
    let! rsp := read_value self att in
    let! self := queue_att self rsp in Ret (self, ev)
  else if op =? 0x0C then
    let! rsp := read_blob self att in
    let! self := queue_att self rsp in Ret (self, ev)
  else if op =? 0x10 then
    let! rsp := read_by_group_type att in
    let! self := queue_att self rsp in Ret (self, ev)
  else if op =? 0x12 then
    write_request self att ev
  else if op =? 0x52 then
    write_command self att ev
  else
    let! self := queue_att self [0x01; op; 0x00; 0x00; 0x06] in
    Ret (self, ev).

(** ** Specification *)

(** The number at bytes [i] and [i + 1] of a long enough message. *)
Definition le16 (l : list Z) (i : nat) : Z := u16_from_le (nth i l 0) (nth (i + 1) l 0).

Definition att_op (att : list Z) : Z := nth 0 att 0.

(** The bytes a handler reads of a PDU with this opcode. *)
Definition att_min (op : Z) : nat :=
  if op =? 0x04 then 5 else if op =? 0x08 then 7 else if op =? 0x0A then 3
  else if op =? 0x0C then 5 else if op =? 0x10 then 7 else if op =? 0x12 then 3
  else if op =? 0x52 then 3 else if op =? 0x1B then 3 else 1.

(** The value of a readable attribute. *)
Definition attr_value (c : Conn) (h : Z) : option (list Z) :=
  if h =? HANDLE_TX_VALUE then Some []
  else if h =? HANDLE_TX_CCCD then Some [cn_nus_cccd c; 0]
  else None.

(** The attributes of a handle range, with 16-bit types if all have one. *)
Definition info_answer (start last : Z) : list Z :=
  let es := filter (fun e => in_range start last (fst e) = true) all_entries in
  if forallb (fun e => bool_decide (is_Some (as_u16 (snd e)))) es then
    [0x05; 0x01] ++
      flat_map (fun '(h, u) => u16_to_le h ++ u16_to_le (default 0 (as_u16 u))) es
  else
    [0x05; 0x02] ++
      flat_map (fun '(h, u) => u16_to_le h ++
        match u with
        | Uuid16 u => [0; 0] ++ u16_to_le u ++ replicate 12 0
        | Uuid128 u => u
        end) (take 3 es).

(** Handles and values, preceded by their common length. *)
Definition values_answer (op : Z) (es : list (Z * list Z)) : list Z :=
  [op; match es with [] => 0 | (_, v) :: _ => 2 + Z.of_nat (length v) end] ++
  flat_map (fun '(h, v) => u16_to_le h ++ v) es.

(** What the server answers; [None] for a command. *)
Definition att_answer (c : Conn) (att : list Z) : option (list Z) :=
  let op := att_op att in
  if op =? 0x02 then Some ([0x03] ++ u16_to_le (cn_att_mtu c) ++ [0; 0])
  else if op =? 0x04 then Some (info_answer (le16 att 1) (le16 att 3))
  else if op =? 0x08 then
    Some (values_answer 0x09 (select_type (le16 att 3) (le16 att 5) (le16 att 1)))
  else if op =? 0x0A then
    Some (match attr_value c (le16 att 1) with
          | Some v => 0x0B :: v
          | None => [0x01; 0x0A; 0; 0; 0x0A]
          end)
  else if op =? 0x0C then
    Some (match attr_value c (le16 att 1) with
          | Some v => if (Z.to_nat (le16 att 3) <? length v)%nat
                      then 0x0D :: drop (Z.to_nat (le16 att 3)) v
                      else [0x01; 0x0C; 0; 0; 0x0A]
          | None => [0x01; 0x0C; 0; 0; 0x0A]
          end)
  else if op =? 0x10 then
    Some (if le16 att 1 =? GATT_UUID_PRIMARY_SERVICE
          then values_answer 0x11
                 (select_type (le16 att 3) (le16 att 5) GATT_UUID_PRIMARY_SERVICE)
          else [0x01; 0x10; 0; 0; 0x10])
  else if op =? 0x12 then
    Some (if (le16 att 1 =? HANDLE_RX_VALUE) || (le16 att 1 =? HANDLE_TX_CCCD)
          then [0x13] else [0x01; 0x12; 0; 0; 0x12])
  else if op =? 0x52 then None
  else Some [0x01; op; 0; 0; 0x06].

(** The state and the event after a write of [value] to [h]. *)
Definition written (c : Conn) (h : Z) (value : list Z) : Conn :=
  if h =? HANDLE_RX_VALUE then
    let v := take 244 value in
    set_rx_data_len (length v) (set_rx_data (v ++ drop (length v) (cn_rx_data c)) c)
  else if h =? HANDLE_TX_CCCD then
    set_nus_cccd
      (if (2 <=? length value)%nat && flag (nth 0 value 0) 0x01 then 1 else 0) c
  else c.

Definition write_event (h : Z) (ev : ConnEvent) : ConnEvent :=
  if h =? HANDLE_RX_VALUE then EvData else ev.

(** The server on a whole PDU: the state and the event. *)
Definition is_write (op : Z) : bool := (op =? 0x12) || (op =? 0x52).

Definition att_serve (c : Conn) (att : list Z) (ev : ConnEvent) : Conn * ConnEvent :=
  let '(c1, ev1) :=
    if is_write (att_op att)
    then (written c (le16 att 1) (drop 3 att), write_event (le16 att 1) ev)
    else (c, ev) in
  (match att_answer c att with Some r => with_att r c1 | None => c1 end, ev1).

(** ** Lemmas *)

Lemma idx_nth l i : (i < length l)%nat -> idx l i = Ret (nth i l 0).
Proof. intros Hi. apply idx_Some. rewrite nth_lookup.
  destruct (lookup_lt_is_Some_2 l i Hi) as [x E]. by rewrite E. Qed.

Lemma u16_at_Ret l i : (i + 1 < length l)%nat -> u16_at l i = Ret (le16 l i).
Proof. intros. unfold u16_at. rewrite !idx_nth by lia. done. Qed.

Lemma u16_at_Panic l i : (length l <= i + 1)%nat -> u16_at l i = Panic.
Proof.
  intros. unfold u16_at. rewrite (proj2 (idx_Panic l (i + 1))) by done.
  by destruct (idx l i).
Qed.

Lemma nth_range l i : bytes l -> is_u8 (nth i l 0).
Proof.
  intros H. rewrite nth_lookup. destruct (l !! i) as [x|] eqn:E; [|by ranges].
  by apply (bytes_lookup l i).
Qed.

Lemma le16_range l i : bytes l -> is_u16 (le16 l i).
Proof. intros H. apply u16_from_le_range; by apply nth_range. Qed.

Lemma find_information_Ret att : (5 <= length att)%nat ->
  find_information att = Ret (info_answer (le16 att 1) (le16 att 3)).
Proof.
  intros Hl. unfold find_information, info_answer. cbv zeta.
  rewrite !u16_at_Ret, set_idx_Ret, !obind_Ret by (done || cbn; lia).
  destruct (entries_spec (le16 att 1) (le16 att 3)) as (out & -> & E).
  rewrite obind_Ret. unfold slice_to at 1. rewrite slice_Ret, obind_Ret.
  2:{ lia. }
  2:{ rewrite <- E at 1. len. }
  rewrite drop_0, Nat.sub_0_r, E. clear E. unfold all_entries.
  repeat (rewrite filter_cons; cbn [fst]). rewrite filter_nil.
  repeat case_decide; reflexivity.
Qed.

(** The answers that list values: every entry fits. *)
Lemma read_by_type_Ret att : (7 <= length att)%nat ->
  read_by_type att =
  Ret (values_answer 0x09 (select_type (le16 att 3) (le16 att 5) (le16 att 1))).
Proof.
  intros Hl. unfold read_by_type. cbv zeta.
  rewrite !u16_at_Ret, set_idx_Ret, !obind_Ret by (done || cbn; lia).
  unfold by_type, select_type, typed_attrs. cbn [omap list_omap].
  generalize (le16 att 3) (le16 att 5) (le16 att 1). clear. intros start last uuid.
  destruct (Z.eqb_spec uuid GATT_UUID_PRIMARY_SERVICE) as [->|H1].
  { destruct (in_range start last HANDLE_PRIMARY_SERVICE); reflexivity. }
  rewrite (proj2 (Z.eqb_neq GATT_UUID_PRIMARY_SERVICE uuid)) by congruence.
  destruct (Z.eqb_spec uuid GATT_UUID_CHARACTERISTIC) as [->|H2].
  { destruct (in_range start last HANDLE_RX_CHAR_DECL),
      (in_range start last HANDLE_TX_CHAR_DECL); reflexivity. }
  rewrite (proj2 (Z.eqb_neq GATT_UUID_CHARACTERISTIC uuid)) by congruence.
  destruct (Z.eqb_spec uuid GATT_UUID_CLIENT_CHAR_CFG) as [->|H3].
  { destruct (in_range start last HANDLE_TX_CCCD); reflexivity. }
  rewrite (proj2 (Z.eqb_neq GATT_UUID_CLIENT_CHAR_CFG uuid)) by congruence.
  reflexivity.
Qed.

Lemma read_by_group_type_Ret att : (7 <= length att)%nat ->
  read_by_group_type att = Ret (
    if le16 att 1 =? GATT_UUID_PRIMARY_SERVICE
    then values_answer 0x11
           (select_type (le16 att 3) (le16 att 5) GATT_UUID_PRIMARY_SERVICE)
    else [0x01; 0x10; 0; 0; 0x10]).
Proof.
  intros Hl. unfold read_by_group_type. cbv zeta.
  rewrite !u16_at_Ret, !obind_Ret by lia.
  destruct (_ =? _); [|done]. rewrite primary_services_spec.
  unfold select_type, typed_attrs. cbn [omap list_omap].
  destruct (in_range _ _ HANDLE_PRIMARY_SERVICE); reflexivity.
Qed.

Lemma read_Ret c h : read c h (replicate 32 0) =
  Ret (match attr_value c h with
       | Some v => (v ++ replicate (32 - length v) 0, Some (length v))
       | None => (replicate 32 0, None)
       end).
Proof.
  unfold read, attr_value. destruct (h =? HANDLE_TX_VALUE); [done|].
  by destruct (h =? HANDLE_TX_CCCD).
Qed.

Lemma attr_value_length c h v : attr_value c h = Some v -> (length v <= 2)%nat.
Proof.
  unfold attr_value. intros E. destruct (h =? _); [simplify_eq/=; lia|].
  destruct (h =? _); simplify_eq/=; lia.
Qed.

Lemma read_value_Ret c att : (3 <= length att)%nat ->
  read_value c att = Ret (match attr_value c (le16 att 1) with
    | Some v => 0x0B :: v | None => [0x01; 0x0A; 0; 0; 0x0A] end).
Proof.
  intros Hl. unfold read_value. rewrite u16_at_Ret, obind_Ret, read_Ret, obind_Ret by lia.
  unfold attr_value. destruct (_ =? HANDLE_TX_VALUE); [done|].
  by destruct (_ =? HANDLE_TX_CCCD).
Qed.

Lemma read_blob_Ret c att : (5 <= length att)%nat ->
  read_blob c att = Ret (match attr_value c (le16 att 1) with
    | Some v => if (Z.to_nat (le16 att 3) <? length v)%nat
                then 0x0D :: drop (Z.to_nat (le16 att 3)) v
                else [0x01; 0x0C; 0; 0; 0x0A]
    | None => [0x01; 0x0C; 0; 0; 0x0A] end).
Proof.
  intros Hl. unfold read_blob. cbv zeta.
  rewrite !u16_at_Ret, !obind_Ret, read_Ret, obind_Ret by lia.
  generalize (Z.to_nat (le16 att 3)). intros o. unfold attr_value.
  destruct (_ =? HANDLE_TX_VALUE); [by destruct o|].
  destruct (_ =? HANDLE_TX_CCCD); [|done]. by destruct o as [|[|o]].
Qed.

Lemma take_length_take {A} n (l : list A) : take (length (take n l)) l = take n l.
Proof. rewrite length_take. destruct (Nat.le_ge_cases n (length l)).
  - by rewrite Nat.min_l.
  - by rewrite Nat.min_r, !take_ge by lia.
Qed.

Lemma write_Ret c h value ev : length (cn_rx_data c) = 244%nat ->
  write c h value ev = Ret (written c h value, write_event h ev,
    if (h =? HANDLE_RX_VALUE) || (h =? HANDLE_TX_CCCD) then Ok tt else Err InvalidPdu).
Proof.
  intros Hc. unfold write, written, write_event.
  destruct (h =? HANDLE_RX_VALUE); cbn [orb].
  - cbv zeta. rewrite Hc, slice_to_Ret, obind_Ret by lia.
    rewrite copy_at_first, obind_Ret by len.
    replace (Nat.min (length value) 244) with (length (take 244 value)) by len.
    by rewrite take_length_take.
  - destruct (h =? HANDLE_TX_CCCD); [|done].
    destruct (Nat.leb_spec 2 (length value)); [|done].
    by rewrite idx_nth, obind_Ret by lia.
Qed.

Lemma written_wf c h v : wf_conn c -> wf_conn (written c h v).
Proof.
  intros Hc. unfold written. cbv zeta. destruct (_ =? HANDLE_RX_VALUE).
  { assert (Hw : (length (take 244 v) <= 244)%nat) by len.
    generalize dependent (take 244 v). intros w Hw. wf_conn_by ltac:(cbn; len). }
  destruct (_ =? HANDLE_TX_CCCD); [|done]. wf_conn_by ltac:(cbn; len).
Qed.

Lemma info_answer_length start last : (length (info_answer start last) <= 64)%nat.
Proof.
  unfold info_answer, all_entries.
  repeat (rewrite filter_cons; cbn [fst]). rewrite filter_nil.
  repeat case_decide; cbn; lia.
Qed.

Lemma values_answer_length op start last uuid :
  (length (values_answer op (select_type start last uuid)) <= 64)%nat.
Proof.
  unfold select_type, typed_attrs. cbn [omap list_omap].
  destruct (Z.eqb_spec GATT_UUID_PRIMARY_SERVICE uuid) as [<-|H1].
  { destruct (in_range _ _ _); cbn; lia. }
  destruct (Z.eqb_spec GATT_UUID_CHARACTERISTIC uuid) as [<-|H2].
  { destruct (in_range _ _ HANDLE_RX_CHAR_DECL), (in_range _ _ HANDLE_TX_CHAR_DECL);
      cbn; lia. }
  destruct (GATT_UUID_CLIENT_CHAR_CFG =? uuid), (in_range _ _ HANDLE_TX_CCCD); cbn; lia.
Qed.

Lemma att_answer_length c att r : att_answer c att = Some r -> (length r <= 64)%nat.
Proof.
  unfold att_answer. cbv zeta. intros E.
  repeat match type of E with
  | (if ?b then _ else _) = _ => destruct b
  end; try discriminate; apply (inj Some) in E; subst r;
  rewrite ?length_app; try (cbn; lia); try apply info_answer_length;
  try apply values_answer_length.
  - destruct (attr_value _ _) eqn:E; [|cbn; lia]. apply attr_value_length in E. cbn. lia.
  - destruct (attr_value _ _) eqn:E; [|cbn; lia]. apply attr_value_length in E.
    destruct (_ <? _)%nat; cbn; len.
  - destruct (_ =? _); [apply values_answer_length | cbn; lia].
  - destruct (_ || _); cbn; lia.
Qed.

(** The server on every PDU that is not a notification or a response to us. *)
Lemma handle_att_serve c att ev : wf_conn c -> (0 < length att)%nat ->
  cn_pending_request c && is_response (att_op att) = false -> att_op att <> 0x1B ->
  (att_min (att_op att) <= length att)%nat ->
  handle_att c att ev = Ret (att_serve c att ev).
Proof.
  intros Hc Hl Hp Hn Hm. unfold handle_att, write_request, write_command.
  rewrite (proj2 (Nat.eqb_neq _ _)), idx_nth, obind_Ret by lia. fold (att_op att).
  rewrite Hp, (proj2 (Z.eqb_neq _ 0x1B)) by done.
  assert (HA : forall c' r, att_answer c att = Some r ->
    length (cn_tx_att c') = 251%nat -> queue_att c' r = Ret (with_att r c')).
  { intros c' r E E'. apply queue_att_Ret; [done|]. apply att_answer_length in E. lia. }
  unfold att_serve, att_answer, is_write in *. cbv zeta in *. unfold att_min in Hm.
  pose proof (wf_tx_att c Hc) as Ha. pose proof (wf_rx_data c Hc) as Hr.
  assert (HL : forall h v, length (cn_tx_att (written c h v)) = 251%nat).
  { intros. by apply wf_tx_att, written_wf. }
  destruct (Z.eqb_spec (att_op att) 0x02) as [->|H02].
  { rewrite set_idx_first, obind_Ret, copy_at_append, obind_Ret by (done || cbn; lia).
    by rewrite HA, obind_Ret. }
  destruct (Z.eqb_spec (att_op att) 0x04) as [->|H04].
  { by rewrite find_information_Ret, obind_Ret, HA. }
  destruct (Z.eqb_spec (att_op att) 0x08) as [->|H08].
  { by rewrite read_by_type_Ret, obind_Ret, HA. }
  destruct (Z.eqb_spec (att_op att) 0x0A) as [->|H0A].
  { by rewrite read_value_Ret, obind_Ret, HA. }
  destruct (Z.eqb_spec (att_op att) 0x0C) as [->|H0C].
  { by rewrite read_blob_Ret, obind_Ret, HA. }
  destruct (Z.eqb_spec (att_op att) 0x10) as [->|H10].
  { by rewrite read_by_group_type_Ret, obind_Ret, HA. }
  destruct (Z.eqb_spec (att_op att) 0x12) as [->|H12].
  { cbn [orb]. rewrite u16_at_Ret, slice_from_Ret, !obind_Ret, write_Ret, obind_Ret
      by (done || lia).
    destruct (_ || _); by rewrite HA, obind_Ret. }
  destruct (Z.eqb_spec (att_op att) 0x52) as [H52|H52].
  { cbn [orb]. by rewrite u16_at_Ret, slice_from_Ret, !obind_Ret, write_Ret, obind_Ret
      by (done || lia). }
  cbn [orb]. by rewrite HA.
Qed.

Lemma att_serve_wf c att ev : wf_conn c -> wf_conn (fst (att_serve c att ev)).
Proof.
  intros Hc. unfold att_serve.
  destruct (is_write _); destruct (att_answer c att) eqn:E; cbn [fst];
    try apply with_att_wf; try apply att_answer_length in E; try lia;
    auto using written_wf.
Qed.

(** Too short: some byte it reads is missing. *)
Lemma handle_att_short c att ev : (0 < length att)%nat ->
  cn_pending_request c && is_response (att_op att) = false ->
  (length att < att_min (att_op att))%nat -> handle_att c att ev = Panic.
Proof.
  intros Hl Hp Hm. unfold handle_att, write_request, write_command.
  rewrite (proj2 (Nat.eqb_neq _ _)), idx_nth, obind_Ret by lia. fold (att_op att).
  rewrite Hp. unfold att_min in Hm.
  assert (P1 : (length att < 3)%nat -> u16_at att 1 = Panic)
    by (intros; apply u16_at_Panic; lia).
  assert (P3 : (length att < 5)%nat -> u16_at att 3 = Panic)
    by (intros; apply u16_at_Panic; lia).
  assert (P5 : (length att < 7)%nat -> u16_at att 5 = Panic)
    by (intros; apply u16_at_Panic; lia).
  destruct (Z.eqb_spec (att_op att) 0x1B) as [E|H1B]; 
    [try rewrite E in Hm; cbn in Hm|].
  { unfold notification. cbv zeta. by rewrite P1. }
  destruct (Z.eqb_spec (att_op att) 0x02) as [E|H02]; 
    [try rewrite E in Hm; cbn in Hm; lia|].
  destruct (Z.eqb_spec (att_op att) 0x04) as [E|H04]; 
    [try rewrite E in Hm; cbn in Hm|].
  { unfold find_information. rewrite set_idx_Ret, obind_Ret, P3 by (cbn; lia).
    by destruct (u16_at att 1). }
  destruct (Z.eqb_spec (att_op att) 0x08) as [E|H08]; 
    [try rewrite E in Hm; cbn in Hm|].
  { unfold read_by_type. rewrite P5 by done.
    by destruct (u16_at att 1), (u16_at att 3). }
  destruct (Z.eqb_spec (att_op att) 0x0A) as [E|H0A]; 
    [try rewrite E in Hm; cbn in Hm|].
  { unfold read_value. by rewrite P1. }
  destruct (Z.eqb_spec (att_op att) 0x0C) as [E|H0C]; 
    [try rewrite E in Hm; cbn in Hm|].
  { unfold read_blob. rewrite P3 by done. by destruct (u16_at att 1). }
  destruct (Z.eqb_spec (att_op att) 0x10) as [E|H10]; 
    [try rewrite E in Hm; cbn in Hm|].
  { unfold read_by_group_type. rewrite P5 by done.
    by destruct (u16_at att 1), (u16_at att 3). }
  destruct (Z.eqb_spec (att_op att) 0x12) as [E|H12]; 
    [try rewrite E in Hm; cbn in Hm; by rewrite P1|].
  destruct (Z.eqb_spec (att_op att) 0x52) as [E|H52]; 
    [try rewrite E in Hm; cbn in Hm; by rewrite P1|].
  lia.
Qed.

(** ** The client side *)

(** A notification's first 20 bytes become the received data. *)
Definition notified (c : Conn) (att : list Z) : Conn :=
  let v := take 20 (drop 3 att) in
  set_rx_data_len (length v) (set_rx_data (v ++ drop (length v) (cn_rx_data c)) c).

Lemma notification_Ret c att : length (cn_rx_data c) = 244%nat ->
  (3 <= length att)%nat -> notification c att = Ret (notified c att, EvData).
Proof.
  intros Hc Hl. unfold notification, notified, sub_usize. cbv zeta.
  rewrite u16_at_Ret, (proj2 (Nat.leb_le _ _)), !obind_Ret by lia.
  set (n := Nat.min (length att - 3) 20).
  rewrite slice_Ret, obind_Ret by lia.
  replace (3 + n - 3)%nat with n by lia.
  assert (E : take 20 (drop 3 att) = take n (drop 3 att)).
  { rewrite <- (take_length_take 20). f_equal. len. }
  rewrite E. assert (El : length (take n (drop 3 att)) = n) by len.
  rewrite copy_at_first, obind_Ret by (done || len).
  rewrite slice_to_Ret, obind_Ret, take_app_le, (take_ge (take _ _)) by len.
  rewrite copy_at_first, obind_Ret by (done || lia). by rewrite El.
Qed.

(** A response is stored for the host, and settles the request. *)
Definition new_mtu (c : Conn) (att : list Z) : Z :=
  if (att_op att =? 0x03) && (3 <=? length att)%nat
  then Z.max (Z.min (cn_att_mtu c) (le16 att 1)) 23 else cn_att_mtu c.

Definition answered (c : Conn) (att : list Z) : Conn :=
  let v := take 64 att in
  set_gatt_result_len (length v)
    (set_gatt_result (v ++ drop (length v) (cn_gatt_result c))
      (set_pending_request false (set_att_mtu (new_mtu c att) c))).

Lemma response_Ret c att : length (cn_gatt_result c) = 64%nat ->
  response c (att_op att) att = Ret (answered c att).
Proof.
  intros Hc. unfold response, answered, new_mtu.
  assert (E : take 64 att = take (Nat.min (length att) 64) att).
  { rewrite <- (take_length_take 64). f_equal. len. }
  rewrite E. set (n := Nat.min (length att) 64).
  assert (El : length (take n att) = n) by len.
  destruct (_ && _) eqn:Eb.
  - apply andb_prop in Eb as [_ Eb%Nat.leb_le].
    rewrite u16_at_Ret, !obind_Ret by lia. cbv zeta.
    change (cn_gatt_result (set_pending_request _ (set_att_mtu _ c))) with (cn_gatt_result c).
    rewrite Hc. fold n. rewrite slice_to_Ret, obind_Ret by lia.
    rewrite copy_at_first, obind_Ret by (done || lia). by rewrite El.
  - rewrite obind_Ret. cbv zeta.
    change (cn_gatt_result (set_pending_request _ c)) with (cn_gatt_result c).
    rewrite Hc. fold n. rewrite slice_to_Ret, obind_Ret by lia.
    rewrite copy_at_first, obind_Ret by (done || lia). rewrite El. by destruct c.
Qed.

Lemma notified_wf c att : wf_conn c -> wf_conn (notified c att).
Proof.
  intros Hc. unfold notified. cbv zeta.
  assert (Hw : (length (take 20 (drop 3 att)) <= 20)%nat) by len.
  generalize dependent (take 20 (drop 3 att)). intros w Hw. wf_conn_by ltac:(cbn; len).
Qed.

Lemma answered_wf c att : wf_conn c -> wf_conn (answered c att).
Proof.
  intros Hc. unfold answered. cbv zeta.
  assert (Hw : (length (take 64 att) <= 64)%nat) by len.
  assert (Hm : 23 <= new_mtu c att < 65536).
  { pose proof (wf_att_mtu c Hc). unfold new_mtu. destruct (_ && _); lia. }
  generalize dependent (take 64 att). intros w Hw.
  wf_conn_by ltac:(first [exact Hm | cbn; len]).
Qed.

(** Every PDU: what [handle_att] does. *)
Definition att_pdu (c : Conn) (att : list Z) (ev : ConnEvent) : Conn * ConnEvent :=
  if cn_pending_request c && is_response (att_op att) then (answered c att, ev)
  else if att_op att =? 0x1B then (notified c att, EvData)
  else att_serve c att ev.

(** It is complete enough for its opcode. *)
Definition att_ok (c : Conn) (att : list Z) : bool :=
  (cn_pending_request c && is_response (att_op att)) ||
  (att_min (att_op att) <=? length att)%nat.

Lemma handle_att_pdu c att ev : wf_conn c -> att <> [] ->
  handle_att c att ev = if att_ok c att then Ret (att_pdu c att ev) else Panic.
Proof.
  intros Hc Hn. assert (Hl : (0 < length att)%nat).
  { destruct att; [done | cbn; lia]. }
  unfold att_ok, att_pdu. destruct (_ && _) eqn:Ep; cbn [orb].
  { unfold handle_att, write_request, write_command.
    rewrite (proj2 (Nat.eqb_neq _ _)), idx_nth, obind_Ret by lia. fold (att_op att).
    rewrite Ep, response_Ret, obind_Ret; [done|]. apply Hc. }
  destruct (Nat.leb_spec (att_min (att_op att)) (length att)) as [Hm|Hm].
  2:{ by apply handle_att_short. }
  destruct (Z.eqb_spec (att_op att) 0x1B) as [E|E]; [|by apply handle_att_serve].
  unfold handle_att, write_request, write_command.
  rewrite (proj2 (Nat.eqb_neq _ _)), idx_nth, obind_Ret by lia. fold (att_op att).
  rewrite Ep, (proj2 (Z.eqb_eq _ 0x1B)) by done.
  apply notification_Ret; [apply Hc|]. rewrite E in Hm. exact Hm.
Qed.

Lemma att_pdu_wf c att ev : wf_conn c -> wf_conn (fst (att_pdu c att ev)).
Proof.
  intros Hc. unfold att_pdu. repeat case_match; cbn [fst];
    auto using answered_wf, notified_wf, att_serve_wf.
Qed.

Lemma handle_att_wf c att ev c' ev' : wf_conn c ->
  handle_att c att ev = Ret (c', ev') -> wf_conn c'.
Proof.
  intros Hc. destruct (decide (att = [])) as [->|Hn].
  { cbn. by intros [= <- <-]. }
  rewrite handle_att_pdu by done. destruct (att_ok c att); [|done]. intros E.
  assert (att_pdu c att ev = (c', ev')) as E' by congruence.
  pose proof (att_pdu_wf c att ev Hc) as Hw. by rewrite E' in Hw.
Qed.

Lemma answered_result c att : cn_gatt_result (answered c att) =
  take 64 att ++ drop (length (take 64 att)) (cn_gatt_result c).
Proof. unfold answered. generalize (take 64 att). reflexivity. Qed.

Lemma answered_fields c att :
  queued (answered c att) = queued c /\ cn_att_mtu (answered c att) = new_mtu c att /\
  cn_pending_request (answered c att) = false /\
  cn_gatt_result_len (answered c att) = length (take 64 att).
Proof. unfold answered. generalize (take 64 att). by repeat split. Qed.

(** Taking the result: it is emptied, and the copy keeps its first byte. *)
Lemma gatt_take_result_Ret c x : cn_gatt_result c !! 0%nat = Some x ->
  gatt_take_result c = Ret (set_gatt_result (<[0%nat:=0]> (cn_gatt_result c))
    (set_gatt_result_len 0 c), (x, cn_gatt_result c, cn_gatt_result_len c)).
Proof.
  intros Hx. unfold gatt_take_result. cbv zeta.
  change (cn_gatt_result (set_gatt_result_len _ ?x)) with (cn_gatt_result x).
  assert (0 < length (cn_gatt_result c))%nat by (by eapply lookup_lt_Some).
  rewrite (idx_Some _ _ _ Hx), obind_Ret, set_idx_Ret, obind_Ret, set_idx_Ret, obind_Ret
    by done.
  by rewrite (list_insert_id (cn_gatt_result c) 0 x).
Qed.

(** ** Properties *)

(** C11. The attribute server: a request that is long enough for its opcode is
    answered with exactly the specified response, queued whole - the MTU, the
    attribute handles and types of the range, the values of a type or group,
    the value of a handle or its rest from an offset, the acknowledgement of a
    write, or an error for an unknown handle, group or opcode - a command is
    not answered, and a write updates exactly the received data or the
    notification flag; a request that is too short for its opcode panics. *)
Theorem att_server_complete c att ev : wf_conn c -> att <> [] ->
  cn_pending_request c && is_response (att_op att) = false -> att_op att <> 0x1B ->
  if (length att <? att_min (att_op att))%nat then handle_att c att ev = Panic
  else exists c' ev', handle_att c att ev = Ret (c', ev') /\ wf_conn c' /\
    (c', ev') = att_serve c att ev /\
    match att_answer c att with
    | Some r => queued c' = r /\ cn_tx_pending c' = true
    | None => queued c' = queued c /\ cn_tx_pending c' = cn_tx_pending c
    end.
Proof.
  intros Hc Hn Hp Hno. pose proof (handle_att_pdu c att ev Hc Hn) as E.
  unfold att_ok, att_pdu in E. rewrite Hp, (proj2 (Z.eqb_neq _ _) Hno) in E.
  cbn [orb] in E. rewrite Nat.ltb_antisym.
  destruct (_ <=? length att)%nat; cbn [negb]; [|done].
  pose proof (att_serve_wf c att ev Hc) as Hw.
  destruct (att_serve c att ev) as [c' ev'] eqn:Es. exists c', ev'.
  split; [done|]. split; [done|]. split; [done|]. unfold att_serve in Es.
  destruct (att_answer c att) as [r|]; destruct (is_write _); simplify_eq;
    rewrite ?queued_with_att; try done.
  unfold written. destruct (_ =? HANDLE_RX_VALUE); [done|].
  by destruct (_ =? HANDLE_TX_CCCD).
Qed.

Lemma att_server_complete_witness :
  exists c' ev', handle_att (Conn_new (mkConnectReqData 0 0 1 0 24 0 200
      [255; 255; 255; 255; 31] 13 2) 0 0 Slave) [0x0A; 0x06; 0x00] EvIdle = Ret (c', ev') /\
    queued c' = [0x0B; 0; 0].
Proof.
  destruct (att_server_complete (Conn_new (mkConnectReqData 0 0 1 0 24 0 200
      [255; 255; 255; 255; 31] 13 2) 0 0 Slave) [0x0A; 0x06; 0x00] EvIdle)
    as (c' & ev' & E & _ & _ & Q & _); [apply Conn_new_wf|done|done|done|].
  exists c', ev'. split; [exact E|]. exact Q.
Defined.

(** A client request and its response: the request is queued whole; while
    it is pending, a response opcode of any length never panics, leaves the
    event alone, clears the pending flag and updates the MTU only for an MTU
    response; [gatt_take_result] then gives its opcode, its first 64 bytes and
    their number, and empties the result. *)
Lemma gatt_client_exchange c req rsp ev : wf_conn c -> (length req <= 251)%nat ->
  rsp <> [] -> is_response (att_op rsp) = true ->
  exists c1 c2 c3 buf,
    gatt_send_request c req = Ret c1 /\ queued c1 = req /\ cn_tx_pending c1 = true /\
    handle_att c1 rsp ev = Ret (c2, ev) /\ wf_conn c2 /\
    cn_pending_request c2 = false /\ queued c2 = req /\
    cn_att_mtu c2 = new_mtu c rsp /\
    gatt_take_result c2 = Ret (c3, (att_op rsp, buf, Nat.min 64 (length rsp))) /\
    take (Nat.min 64 (length rsp)) buf = take 64 rsp /\ length buf = 64%nat /\
    cn_gatt_result_len c3 = 0%nat.
Proof.
  intros Hc Hr Hn Ho. unfold gatt_send_request.
  rewrite queue_att_Ret, obind_Ret by (done || apply Hc).
  set (c1 := set_pending_request true (with_att req c)).
  assert (Hc1 : wf_conn c1).
  { assert (H1 : wf_conn (with_att req c)) by auto with ble. wf_conn_by fail. }
  assert (Eq1 : queued c1 = req) by apply queued_with_att.
  assert (Em1 : new_mtu c1 rsp = new_mtu c rsp) by reflexivity.
  assert (Ep1 : cn_pending_request c1 = true /\ cn_tx_pending c1 = true) by done.
  clearbody c1. destruct Ep1 as [Ep1 Et1].
  pose proof (handle_att_pdu c1 rsp ev Hc1 Hn) as E. unfold att_ok, att_pdu in E.
  rewrite Ep1, Ho in E. cbn [orb andb] in E.
  pose proof (answered_wf c1 rsp Hc1) as Hw.
  destruct (answered_fields c1 rsp) as (F1 & F2 & F3 & F4).
  pose proof (answered_result c1 rsp) as F5.
  generalize dependent (answered c1 rsp). intros c2 E Hw F1 F2 F3 F4 F5.
  exists c1, c2. rewrite (gatt_take_result_Ret c2 (att_op rsp)).
  2:{ rewrite F5. destruct rsp; [congruence | reflexivity]. }
  rewrite F4, length_take. do 2 eexists.
  do 8 (split; [congruence || done|]). split; [reflexivity|].
  split; [rewrite F5, <- length_take; apply take_app_length|].
  split; [apply Hw | reflexivity].
Qed.

(** Discovery can go on from where the server stopped: the last handle the
    client reads off a Read By Type or Read By Group Type answer is the last
    handle the server selected in the range, and there is none exactly when it
    selected none. *)
Theorem discovery_continues op start last uuid :
  att_response_last_handle (values_answer op (select_type start last uuid)) =
  Ret (list.last (fst <$> select_type start last uuid)).
Proof.
  unfold select_type, typed_attrs. cbn [omap list_omap].
  destruct (Z.eqb_spec GATT_UUID_PRIMARY_SERVICE uuid) as [<-|H1].
  { by destruct (in_range _ _ _). }
  destruct (Z.eqb_spec GATT_UUID_CHARACTERISTIC uuid) as [<-|H2].
  { by destruct (in_range _ _ HANDLE_RX_CHAR_DECL), (in_range _ _ HANDLE_TX_CHAR_DECL). }
  by destruct (GATT_UUID_CLIENT_CHAR_CFG =? uuid), (in_range _ _ HANDLE_TX_CCCD).
Qed.
