(* ===== verification/CocChannel.v ===== *)
(** Credit-based channels ([src/hw/conn.rs]): the LE signaling messages and the
    reassembly of incoming SDUs. *)

From stdpp Require Import base numbers list.
From S2P Require Import Prelude Errors Timers Pdu Events Smp Ccm Gatt Conn Att.

(** ** The source's definitions *)

(** [handle_le_signaling] *)
Definition handle_le_signaling (self : Conn) (body : list Z) : outcome Conn :=
  if (length body <? 4)%nat then Ret self else
  let! code := idx body 0 in
  if code =? LE_CREDIT_BASED_CONNECTION_REQ then
    if (length body <? 12)%nat then Ret self else
    let! psm := u16_at body 2 in
    let! peer_cid := u16_at body 4 in
    let! mtu := u16_at body 6 in
    let! mps := u16_at body 8 in
    let! credits := u16_at body 10 in
    let coc := Coc_new psm in
    let coc := set_coc_peer_cid peer_cid coc in
    let coc := set_coc_mtu (Z.min mtu COC_MTU) coc in
    let coc := set_coc_mps (Z.min mps COC_MPS) coc in
    let coc := set_coc_credits credits coc in
    let self := set_coc (Some coc) self in
    let rsp := replicate 16 0 in
    let! rsp := set_idx rsp 0 LE_CREDIT_BASED_CONNECTION_RSP in
    let! rsp := set_idx rsp 1 0 in
    let! rsp := copy_at rsp 2 4 (u16_to_le peer_cid) in
    let! rsp := copy_at rsp 4 6 (u16_to_le COC_MTU) in
    let! rsp := copy_at rsp 6 8 (u16_to_le COC_MPS) in
    let! rsp := copy_at rsp 8 10 (u16_to_le COC_CREDITS) in
    let! rsp := copy_at rsp 10 12 (u16_to_le 0) in
    let! msg := slice_to rsp 12 in
    queue_signaling self msg
  else if code =? LE_CREDIT_BASED_CONNECTION_RSP then
    match cn_coc self with
    | None => Ret self
    | Some coc =>
        let! peer_cid := u16_at body 2 in
        let! mtu := u16_at body 4 in
        let! mps := u16_at body 6 in
        let! credits := u16_at body 8 in
        let! result := u16_at body 10 in
        if result =? 0 then
          let coc := set_coc_peer_cid peer_cid coc in
          let coc := set_coc_mtu (Z.min (coc_mtu coc) mtu) coc in
          let coc := set_coc_mps (Z.min (coc_mps coc) mps) coc in
          let coc := set_coc_peer_credits credits coc in
          Ret (set_coc (Some coc) self)
        else Ret (set_coc None self)
    end
  else if code =? LE_FLOW_CONTROL_CREDIT then
    match cn_coc self with
    | None => Ret self
    | Some coc =>
        if (6 <=? length body)%nat then
          let! cid := u16_at body 2 in
          let! credits := u16_at body 4 in
          if (cid =? coc_local_cid coc) || (cid =? coc_peer_cid coc) then
            Ret (set_coc (Some
              (set_coc_credits (Z.min (coc_credits coc + credits) 65535) coc)) self)
          else Ret self
        else Ret self
    end
  else if code =? LE_CREDIT_BASED_CONNECTION_END then
    match cn_coc self with
    | None => Ret self
    | Some coc =>
        let! cid := u16_at body 2 in
        if (cid =? coc_local_cid coc) || (cid =? coc_peer_cid coc)
        then Ret (set_coc None self) else Ret self
    end
  else Ret self.

(** Both arms of [rx_coc_sdu]: as much of [chunk] as fits goes behind what is
    there. *)
Definition coc_append (coc : Coc) (chunk : list Z) : outcome Coc :=
  let! room := sub_usize (length (coc_rx_sdu coc)) (coc_rx_sdu_len coc) in
  let n := Nat.min (length chunk) room in
  let! d := slice_to chunk n in
  let! b := copy_at (coc_rx_sdu coc) (coc_rx_sdu_len coc) (coc_rx_sdu_len coc + n) d in
  let coc := set_coc_rx_sdu b coc in
  Ret (set_coc_rx_sdu_len (coc_rx_sdu_len coc + n) coc).

(** The completion check: the SDU buffer and its length, if complete. *)
Definition coc_complete (coc : Coc) : outcome (Coc * option (list Z * nat)) :=
  if (coc_rx_sdu_total coc <=? coc_rx_sdu_len coc)%nat then
    let sdu := replicate 256 0 in
    let total := Nat.min (coc_rx_sdu_total coc) (length sdu) in
    let! d := slice_to (coc_rx_sdu coc) total in
    let! sdu := copy_at sdu 0 total d in
    let coc := set_coc_rx_sdu_len 0 coc in
    let coc := set_coc_rx_sdu_total 0 coc in
    Ret (coc, Some (sdu, total))
  else Ret (coc, None).

(** The block of [rx_coc_sdu] that works on the channel: [None] for the early
    return. *)
Definition coc_receive (coc : Coc) (body : list Z)
    : outcome (option (Coc * option (list Z * nat))) :=
  if (coc_rx_sdu_len coc =? 0)%nat then
    if (length body <? 2)%nat then Ret None else
    let! t := u16_at body 0 in
    let coc := set_coc_rx_sdu_total (Z.to_nat t) coc in
    let coc := set_coc_rx_sdu_len 0 coc in
    let! chunk := slice_from body 2 in
    let! coc := coc_append coc chunk in
    let! r := coc_complete coc in
    Ret (Some r)
  else
    let! coc := coc_append coc body in
    let! r := coc_complete coc in
    Ret (Some r).

Definition rx_coc_sdu (self : Conn) (body : list Z) (ev : ConnEvent)
    : outcome (Conn * ConnEvent) :=
  match cn_coc self with
  | None => Ret (self, ev)
  | Some coc =>
      let! r := coc_receive coc body in
      match r with
      | None => Ret (self, ev)
      | Some (coc, done) =>
          let self := set_coc (Some coc) self in
          match done with
          | None => Ret (self, ev)
          | Some (sdu, total) =>
              let credit := replicate 6 0 in
              let! credit := set_idx credit 0 LE_FLOW_CONTROL_CREDIT in
              let! credit := set_idx credit 1 0 in
              let! credit := copy_at credit 2 4 (u16_to_le (coc_peer_cid coc)) in
              let! credit := copy_at credit 4 6 (u16_to_le 1) in
              let! self := queue_signaling self credit in
              let n := Nat.min total (length (cn_rx_data self)) in
              let! d := slice_to sdu n in
              let! b := copy_at (cn_rx_data self) 0 n d in
              let self := set_rx_data b self in
              let self := set_rx_data_len n self in
              Ret (self, EvData)
          end
      end
  end.

(** ** Receiving: specification and lemmas *)

Definition wf_chan (k : Coc) : Prop :=
  length (coc_rx_sdu k) = 256%nat /\ (coc_rx_sdu_len k <= 256)%nat.

(** The bytes a frame adds, as far as the buffer has room. *)
Definition coc_fill (k : Coc) (x : list Z) : Coc :=
  let x := take (256 - coc_rx_sdu_len k) x in
  let o := (coc_rx_sdu_len k + length x)%nat in
  set_coc_rx_sdu_len o
    (set_coc_rx_sdu (take (coc_rx_sdu_len k) (coc_rx_sdu k) ++ x ++ drop o (coc_rx_sdu k)) k).

(** The SDU, when it is complete. *)
Definition coc_take (k : Coc) : Coc * option (list Z) :=
  if (coc_rx_sdu_total k <=? coc_rx_sdu_len k)%nat
  then (set_coc_rx_sdu_total 0 (set_coc_rx_sdu_len 0 k),
        Some (take (coc_rx_sdu_total k) (coc_rx_sdu k)))
  else (k, None).

(** The channel a frame is added to. *)
Definition coc_start (k : Coc) (body : list Z) : Coc * list Z :=
  if (coc_rx_sdu_len k =? 0)%nat
  then (set_coc_rx_sdu_total (Z.to_nat (le16 body 0)) k, drop 2 body)
  else (k, body).

(** A fragment that is only a header byte, or nothing, is dropped. *)
Definition coc_frame (k : Coc) (body : list Z) : option (Coc * option (list Z)) :=
  if (coc_rx_sdu_len k =? 0)%nat && (length body <? 2)%nat then None
  else let '(k, x) := coc_start k body in Some (coc_take (coc_fill k x)).

Lemma take_min_length {A} (l : list A) n :
  take (Nat.min (length l) n) l = take n l.
Proof.
  destruct (Nat.le_ge_cases (length l) n).
  - by rewrite Nat.min_l, !take_ge by lia.
  - by rewrite Nat.min_r by lia.
Qed.

Lemma coc_append_Ret k x : wf_chan k -> coc_append k x = Ret (coc_fill k x).
Proof.
  intros [Hs Hl]. unfold coc_append, sub_usize, coc_fill.
  rewrite Hs, (proj2 (Nat.leb_le _ _)) by done.
  rewrite obind_Ret. cbv zeta. rewrite slice_to_Ret, obind_Ret, take_min_length by lia.
  assert (Hx : length (take (256 - coc_rx_sdu_len k) x) =
    Nat.min (length x) (256 - coc_rx_sdu_len k)) by len.
  rewrite copy_at_Ret, obind_Ret by lia. by rewrite Hx.
Qed.

(** An SDU in a 256 byte buffer. *)
Definition in_buffer (d : list Z) : list Z * nat :=
  (d ++ replicate (256 - length d) 0, length d).

Lemma coc_complete_Ret k : wf_chan k ->
  coc_complete k = Ret (fst (coc_take k), option_map in_buffer (snd (coc_take k))).
Proof.
  intros [Hs Hl]. unfold coc_complete, coc_take. destruct (_ <=? _)%nat; [|done].
  cbv zeta. rewrite length_replicate, slice_to_Ret, obind_Ret by lia.
  assert (Hd : length (take (coc_rx_sdu_total k) (coc_rx_sdu k)) =
    Nat.min (coc_rx_sdu_total k) 256) by len.
  rewrite <- Hd, take_length_take.
  rewrite copy_at_first, obind_Ret by (rewrite ?length_replicate; lia).
  unfold in_buffer. cbn [fst snd option_map]. by rewrite drop_replicate.
Qed.

Lemma coc_fill_wf k x : wf_chan k -> wf_chan (coc_fill k x).
Proof.
  intros [Hs Hl]. unfold coc_fill. cbv zeta.
  assert (Hx : (length (take (256 - coc_rx_sdu_len k) x) <= 256 - coc_rx_sdu_len k)%nat)
    by len.
  generalize dependent (take (256 - coc_rx_sdu_len k) x). intros y Hy.
  split; cbn [coc_rx_sdu coc_rx_sdu_len set_coc_rx_sdu_len set_coc_rx_sdu]; len.
Qed.

Lemma coc_start_wf k body : wf_chan k -> wf_chan (fst (coc_start k body)).
Proof. intros Hk. unfold coc_start. by destruct (_ =? 0)%nat. Qed.

Definition buffered (r : option (Coc * option (list Z)))
    : option (Coc * option (list Z * nat)) :=
  option_map (fun '(k, d) => (k, option_map in_buffer d)) r.

Lemma coc_receive_Ret k body : wf_chan k ->
  coc_receive k body = Ret (buffered (coc_frame k body)).
Proof.
  intros Hk. pose proof Hk as [Hs Hl]. unfold coc_receive, coc_frame, coc_start.
  destruct (Nat.eqb_spec (coc_rx_sdu_len k) 0) as [E0|E0]; cbn [andb].
  - destruct (Nat.ltb_spec (length body) 2) as [H2|H2]; [done|].
    rewrite u16_at_Ret, obind_Ret by lia. cbv zeta. rewrite slice_from_Ret, obind_Ret by lia.
    set (k1 := set_coc_rx_sdu_total (Z.to_nat (le16 body 0)) k).
    replace (set_coc_rx_sdu_len 0 k1) with k1 by (destruct k; cbn in E0; by subst).
    rewrite coc_append_Ret, obind_Ret by done.
    rewrite coc_complete_Ret, obind_Ret by (by apply coc_fill_wf).
    by destruct (coc_take _).
  - rewrite coc_append_Ret, obind_Ret by done.
    rewrite coc_complete_Ret, obind_Ret by (by apply coc_fill_wf).
    by destruct (coc_take _).
Qed.

Lemma coc_take_wf k : wf_chan k ->
  wf_chan (fst (coc_take k)) /\ forall d, snd (coc_take k) = Some d -> (length d <= 256)%nat.
Proof.
  intros [Hs Hl]. unfold coc_take. destruct (_ <=? _)%nat; cbn [fst snd].
  - split; [split; [done|cbn; lia]|]. intros d [= <-]. len.
  - split; [done|congruence].
Qed.

(** A credit for the peer. *)
Definition credit_msg (cid : Z) : list Z :=
  [LE_FLOW_CONTROL_CREDIT; 0] ++ u16_to_le cid ++ [1; 0].

(** A whole frame: the channel, and on completion the received data and a
    credit. *)
Definition coc_received (c : Conn) (body : list Z) (ev : ConnEvent) : Conn * ConnEvent :=
  match cn_coc c with
  | None => (c, ev)
  | Some k =>
      match coc_frame k body with
      | None => (c, ev)
      | Some (k', None) => (set_coc (Some k') c, ev)
      | Some (k', Some d) =>
          let v := take 244 d in
          (set_rx_data_len (length v) (set_rx_data (v ++ drop (length v) (cn_rx_data c))
             (with_message (credit_msg (coc_peer_cid k')) L2CAP_SIGNALING_CID
               (set_coc (Some k') c))), EvData)
      end
  end.

Lemma coc_frame_wf k body k' d : wf_chan k -> coc_frame k body = Some (k', d) ->
  wf_chan k' /\ forall x, d = Some x -> (length x <= 256)%nat.
Proof.
  intros Hk. unfold coc_frame. destruct (_ && _); [done|].
  pose proof (coc_start_wf k body Hk) as Hw. destruct (coc_start k body) as [k1 x].
  cbn [fst] in Hw. pose proof (coc_take_wf _ (coc_fill_wf k1 x Hw)) as [H1 H2].
  destruct (coc_take _) as [k2 o]. cbn [fst snd] in *. intros [= <- <-]. done.
Qed.

Lemma wf_conn_chan c k : wf_conn c -> cn_coc c = Some k -> wf_chan k.
Proof. intros Hc E. exact (wf_coc c Hc k E). Qed.

Lemma rx_coc_sdu_Ret c body ev : wf_conn c ->
  rx_coc_sdu c body ev = Ret (coc_received c body ev).
Proof.
  intros Hc. unfold rx_coc_sdu, coc_received. destruct (cn_coc c) as [k|] eqn:Ek; [|done].
  pose proof (wf_conn_chan c k Hc Ek) as Hk. rewrite coc_receive_Ret, obind_Ret by done.
  destruct (coc_frame k body) as [[k' [d|]]|] eqn:Ef; [|done..].
  destruct (coc_frame_wf k body k' (Some d) Hk Ef) as [_ Hd]. specialize (Hd d eq_refl).
  cbn [buffered option_map]. unfold in_buffer. cbv zeta.
  cbn [fst snd].
  rewrite set_idx_first, obind_Ret, set_idx_append, obind_Ret by (cbn; lia).
  rewrite copy_at_append, obind_Ret, copy_at_append, obind_Ret by (done || (cbn; lia)).
  rewrite (queue_signaling_Ret (set_coc (Some k') c)) by (apply Hc || (cbn; lia)).
  rewrite obind_Ret. set (w := with_message _ _ _).
  change (cn_rx_data w) with (cn_rx_data c). rewrite (wf_rx_data c Hc).
  rewrite slice_to_Ret, obind_Ret by (rewrite length_app, length_replicate; lia).
  rewrite take_app_le, take_min_length by lia.
  pose proof (wf_rx_data c Hc).
  rewrite copy_at_first, obind_Ret by (rewrite ?length_take; lia).
  rewrite length_take, Nat.min_comm. done.
Qed.

Lemma set_coc_wf c k : wf_conn c -> (forall k', k = Some k' -> wf_chan k') ->
  wf_conn (set_coc k c).
Proof. intros Hc Hk. wf_conn_by ltac:(exact Hk). Qed.

Lemma set_rx_data_wf c v : wf_conn c -> (length v <= 244)%nat ->
  wf_conn (set_rx_data_len (length v) (set_rx_data (v ++ drop (length v) (cn_rx_data c)) c)).
Proof. intros Hc Hv. wf_conn_by ltac:(cbn; len). Qed.

Lemma coc_received_wf c body ev : wf_conn c -> wf_conn (fst (coc_received c body ev)).
Proof.
  intros Hc. unfold coc_received. destruct (cn_coc c) as [k|] eqn:Ek; [|done].
  pose proof (wf_conn_chan c k Hc Ek) as Hk.
  destruct (coc_frame k body) as [[k' o]|] eqn:Ef; [|done].
  destruct (coc_frame_wf k body k' o Hk Ef) as [Hk' _].
  assert (H1 : wf_conn (set_coc (Some k') c)).
  { apply set_coc_wf; [done|]. by intros ? [= <-]. }
  destruct o as [d|]; [|done]. cbv zeta. cbn [fst].
  change (cn_rx_data c) with (cn_rx_data (with_message (credit_msg (coc_peer_cid k'))
    L2CAP_SIGNALING_CID (set_coc (Some k') c))).
  apply set_rx_data_wf; [|len]. apply with_message_wf; [done|cbn; lia].
Qed.

(** ** Signaling: specification and lemmas *)

(** The channel the peer's request opens, and the answer. *)
Definition opened (body : list Z) : Coc :=
  set_coc_credits (le16 body 10) (set_coc_mps (Z.min (le16 body 8) COC_MPS)
    (set_coc_mtu (Z.min (le16 body 6) COC_MTU)
      (set_coc_peer_cid (le16 body 4) (Coc_new (le16 body 2))))).

Definition open_answer (body : list Z) : list Z :=
  [LE_CREDIT_BASED_CONNECTION_RSP; 0] ++ u16_to_le (le16 body 4) ++ u16_to_le COC_MTU ++
  u16_to_le COC_MPS ++ u16_to_le COC_CREDITS ++ [0; 0].

(** The channel after a response, a credit or an end for it. *)
Definition opened_by_peer (k : Coc) (body : list Z) : option Coc :=
  if le16 body 10 =? 0 then
    Some (set_coc_peer_credits (le16 body 8) (set_coc_mps (Z.min (coc_mps k) (le16 body 6))
      (set_coc_mtu (Z.min (coc_mtu k) (le16 body 4))
        (set_coc_peer_cid (le16 body 2) k))))
  else None.

Definition for_channel (k : Coc) (cid : Z) : bool :=
  (cid =? coc_local_cid k) || (cid =? coc_peer_cid k).

Definition signaled_coc (k : Coc) (body : list Z) : option Coc :=
  let code := nth 0 body 0 in
  if code =? LE_CREDIT_BASED_CONNECTION_RSP then opened_by_peer k body
  else if code =? LE_FLOW_CONTROL_CREDIT then
    if (6 <=? length body)%nat && for_channel k (le16 body 2)
    then Some (set_coc_credits (Z.min (coc_credits k + le16 body 4) 65535) k) else Some k
  else if code =? LE_CREDIT_BASED_CONNECTION_END then
    if for_channel k (le16 body 2) then None else Some k
  else Some k.

(** The connection after a signaling message. *)
Definition signaled (c : Conn) (body : list Z) : Conn :=
  if (length body <? 4)%nat then c
  else if nth 0 body 0 =? LE_CREDIT_BASED_CONNECTION_REQ then
    if (length body <? 12)%nat then c
    else with_message (open_answer body) L2CAP_SIGNALING_CID (set_coc (Some (opened body)) c)
  else set_coc (match cn_coc c with Some k => signaled_coc k body | None => None end) c.

(** A connection response is read to its twelfth byte, whatever its length. *)
Definition signal_bad (c : Conn) (body : list Z) : bool :=
  (4 <=? length body)%nat && (length body <? 12)%nat &&
  (nth 0 body 0 =? LE_CREDIT_BASED_CONNECTION_RSP) && bool_decide (is_Some (cn_coc c)).

Lemma set_coc_same c : set_coc (cn_coc c) c = c.
Proof. by destruct c. Qed.

Lemma signaling_open c body : length (cn_tx_att c) = 251%nat -> (12 <= length body)%nat ->
  nth 0 body 0 = LE_CREDIT_BASED_CONNECTION_REQ ->
  handle_le_signaling c body =
  Ret (with_message (open_answer body) L2CAP_SIGNALING_CID (set_coc (Some (opened body)) c)).
Proof.
  intros Hc Hl E0. unfold handle_le_signaling.
  rewrite (proj2 (Nat.ltb_ge _ 4)), idx_nth, obind_Ret, E0 by lia.
  change (LE_CREDIT_BASED_CONNECTION_REQ =? LE_CREDIT_BASED_CONNECTION_REQ) with true.
  cbv iota. rewrite (proj2 (Nat.ltb_ge _ 12)) by lia.
  do 5 rewrite u16_at_Ret, obind_Ret by lia. cbv zeta. fold (opened body).
  rewrite set_idx_first, obind_Ret, set_idx_append, obind_Ret by (cbn; lia).
  do 5 rewrite copy_at_append, obind_Ret by (done || (cbn; lia)).
  rewrite slice_to_Ret, obind_Ret by (cbn; lia).
  change (take 12 _) with (open_answer body).
  apply queue_signaling_Ret; [exact Hc | cbn; lia].
Qed.

Lemma handle_le_signaling_Ret c body : wf_conn c ->
  handle_le_signaling c body =
  if signal_bad c body then Panic else Ret (signaled c body).
Proof.
  intros Hc. unfold signal_bad, signaled.
  destruct (Nat.ltb_spec (length body) 4) as [H4|H4].
  { rewrite (proj2 (Nat.leb_gt 4 _)) by lia. unfold handle_le_signaling.
    by rewrite (proj2 (Nat.ltb_lt _ _)). }
  rewrite (proj2 (Nat.leb_le 4 _)) by lia. cbn [andb].
  destruct (Z.eqb_spec (nth 0 body 0) LE_CREDIT_BASED_CONNECTION_REQ) as [E0|E0].
  { rewrite E0. change (_ =? LE_CREDIT_BASED_CONNECTION_RSP) with false.
    rewrite andb_false_r. cbn [andb].
    destruct (Nat.ltb_spec (length body) 12) as [H12|H12]; [|apply signaling_open; auto;
      apply Hc].
    unfold handle_le_signaling. rewrite (proj2 (Nat.ltb_ge _ 4)), idx_nth, obind_Ret, E0
      by lia. cbn -[Nat.ltb]. by rewrite (proj2 (Nat.ltb_lt _ 12)). }
  unfold handle_le_signaling, signaled_coc, opened_by_peer, for_channel.
  rewrite (proj2 (Nat.ltb_ge _ 4)), idx_nth, obind_Ret, (proj2 (Z.eqb_neq _ _) E0) by lia.
  destruct (cn_coc c) as [k|] eqn:Ek.
  2:{ rewrite !andb_false_r, <- Ek, set_coc_same. by repeat case_match. }
  rewrite bool_decide_true, andb_true_r by done. cbv zeta.
  destruct (nth 0 body 0 =? LE_CREDIT_BASED_CONNECTION_RSP).
  { rewrite andb_true_r. destruct (Nat.ltb_spec (length body) 12) as [H12|H12].
    - rewrite (u16_at_Panic body 10) by lia.
      by destruct (u16_at body 2), (u16_at body 4), (u16_at body 6), (u16_at body 8).
    - do 5 rewrite u16_at_Ret, obind_Ret by lia. by destruct (_ =? 0). }
  rewrite andb_false_r. destruct (nth 0 body 0 =? LE_FLOW_CONTROL_CREDIT).
  { destruct (Nat.leb_spec 6 (length body)) as [H6|H6]; cbn [andb].
    - do 2 rewrite u16_at_Ret, obind_Ret by lia. destruct (_ || _); [done|].
      by rewrite <- Ek, set_coc_same.
    - by rewrite <- Ek, set_coc_same. }
  destruct (nth 0 body 0 =? LE_CREDIT_BASED_CONNECTION_END).
  { rewrite u16_at_Ret, obind_Ret by lia. destruct (_ || _); [done|].
    by rewrite <- Ek, set_coc_same. }
  by rewrite <- Ek, set_coc_same.
Qed.

Lemma signaled_wf c body : wf_conn c -> wf_conn (signaled c body).
Proof.
  intros Hc. unfold signaled. destruct (_ <? 4)%nat; [done|].
  destruct (_ =? LE_CREDIT_BASED_CONNECTION_REQ).
  - destruct (_ <? 12)%nat; [done|]. apply with_message_wf; [|cbn; lia].
    apply set_coc_wf; [done|]. intros k' [= <-]. split; [done|cbn; lia].
  - apply set_coc_wf; [done|]. intros k' Ek'. destruct (cn_coc c) as [k|] eqn:Ek; [|done].
    pose proof (wf_conn_chan c k Hc Ek) as Hk.
    unfold signaled_coc, opened_by_peer in Ek'. repeat case_match; simplify_eq; done.
Qed.

(** ** Histories of a channel *)

(** What the host and the peer do with a channel. *)
Inductive CocOp : Type :=
| OpConnect (psm : Z)
| OpSend (data : list Z)
| OpSignal (body : list Z)
| OpFrame (body : list Z).

(** One step: the connection, and the number of SDUs sent. *)
Definition coc_step (c : Conn) (op : CocOp) : outcome (Conn * Z) :=
  match op with
  | OpConnect psm => let! c := l2cap_connect c psm in Ret (c, 0)
  | OpSend data =>
      let! (c, r) := l2cap_send c data in
      Ret (c, match r with Ok _ => 1 | Err _ => 0 end)
  | OpSignal body => let! c := handle_le_signaling c body in Ret (c, 0)
  | OpFrame body => let! (c, _) := rx_coc_sdu c body EvIdle in Ret (c, 0)
  end.

Fixpoint coc_run (c : Conn) (ops : list CocOp) : outcome (Conn * Z) :=
  match ops with
  | [] => Ret (c, 0)
  | op :: ops =>
      let! (c, n) := coc_step c op in
      let! (c, m) := coc_run c ops in
      Ret (c, n + m)
  end.

(** The credits a step can add, and those in hand. *)
Definition granted (op : CocOp) : Z :=
  match op with
  | OpSignal body =>
      if (nth 0 body 0 =? LE_CREDIT_BASED_CONNECTION_REQ) && (12 <=? length body)%nat
      then le16 body 10
      else if (nth 0 body 0 =? LE_FLOW_CONTROL_CREDIT) && (6 <=? length body)%nat
      then le16 body 4 else 0
  | _ => 0
  end.

Definition in_hand (c : Conn) : Z :=
  match cn_coc c with Some k => coc_credits k | None => 0 end.

Definition op_bytes (op : CocOp) : Prop :=
  match op with OpSignal body => bytes body | _ => True end.

Lemma l2cap_connect_Ret c psm : wf_conn c ->
  exists c', l2cap_connect c psm = Ret c' /\ wf_conn c' /\
    cn_coc c' = (match cn_coc c with Some k => Some k | None => Some (Coc_new psm) end).
Proof.
  intros Hc. unfold l2cap_connect. destruct (cn_coc c) as [k|] eqn:Ek; [by exists c|].
  cbv zeta. rewrite set_idx_first, obind_Ret, set_idx_append, obind_Ret by (cbn; lia).
  do 5 rewrite copy_at_append, obind_Ret by (done || (cbn; lia)).
  rewrite queue_signaling_Ret by (apply Hc || (cbn; lia)). eexists. split; [reflexivity|].
  split; [|reflexivity]. apply with_message_wf; [|cbn; lia].
  apply set_coc_wf; [done|]. intros k' [= <-]. split; [done|cbn; lia].
Qed.

Lemma coc_frame_credits k body k' d : coc_frame k body = Some (k', d) ->
  coc_credits k' = coc_credits k.
Proof.
  unfold coc_frame, coc_start, coc_take. intros E.
  repeat case_match; simplify_eq; done.
Qed.

(** A signalling message adds at most the credits it grants. *)
Lemma signaled_in_hand c body : bytes body -> 0 <= in_hand c ->
  0 <= in_hand (signaled c body) <= in_hand c + granted (OpSignal body).
Proof.
  intros Hb H0. cbn [granted].
  pose proof (le16_range body 10 Hb). pose proof (le16_range body 4 Hb). ranges.
  unfold in_hand, signaled in *. destruct (Nat.ltb_spec (length body) 4) as [H4|H4].
  { rewrite (proj2 (Nat.leb_gt 12 _)), (proj2 (Nat.leb_gt 6 _)), !andb_false_r by lia. lia. }
  destruct (Z.eqb_spec (nth 0 body 0) LE_CREDIT_BASED_CONNECTION_REQ) as [E0|E0];
    cbn [andb].
  { rewrite Nat.ltb_antisym. destruct (12 <=? length body)%nat; cbn [negb].
    - change (0 <= le16 body 10 <= in_hand c + le16 body 10). unfold in_hand. lia.
    - rewrite E0. change (_ =? LE_FLOW_CONTROL_CREDIT) with false. cbn [andb]. lia. }
  change (cn_coc (set_coc ?x c)) with x. destruct (cn_coc c) as [k|].
  2:{ destruct (_ && _); lia. }
  unfold signaled_coc, opened_by_peer. cbv zeta.
  destruct (Z.eqb_spec (nth 0 body 0) LE_CREDIT_BASED_CONNECTION_RSP) as [E1|E1].
  { rewrite E1. change (_ =? LE_FLOW_CONTROL_CREDIT) with false. cbn [andb].
    destruct (_ =? 0); cbn; lia. }
  destruct (_ =? LE_FLOW_CONTROL_CREDIT), (6 <=? length body)%nat; cbn [andb];
    repeat case_match; simplify_eq; cbn in *; lia.
Qed.

(** A frame of the channel leaves the credits alone. *)
Lemma coc_received_in_hand c body ev : in_hand (fst (coc_received c body ev)) = in_hand c.
Proof.
  unfold in_hand, coc_received. destruct (cn_coc c) as [k|] eqn:Ek; [|cbn; by rewrite Ek].
  destruct (coc_frame k body) as [[k' [d|]]|] eqn:Ef; cbn [fst]; [| |by rewrite Ek];
    by apply (coc_frame_credits k body k' _ Ef).
Qed.

(** One step: what is sent and what is left is paid for. *)
Lemma coc_step_credits c op c' n : wf_conn c -> op_bytes op -> 0 <= in_hand c ->
  coc_step c op = Ret (c', n) ->
  wf_conn c' /\ 0 <= in_hand c' /\ 0 <= n /\ n + in_hand c' <= in_hand c + granted op.
Proof.
  intros Hc Hb H0. destruct op as [psm|data|body|body]; cbn [coc_step granted].
  - destruct (l2cap_connect_Ret c psm Hc) as (c1 & -> & Hw & E1). rewrite obind_Ret.
    intros [= <- <-]. unfold in_hand in *. rewrite E1.
    destruct (cn_coc c); cbn; auto with lia.
  - rewrite l2cap_send_Ret, obind_Ret by done. unfold in_hand in *.
    destruct (cn_coc c) as [k|] eqn:Ek; [|intros [= <- <-]; rewrite Ek; auto with lia].
    destruct (_ || _) eqn:Eb; [intros [= <- <-]; rewrite Ek; auto with lia|].
    destruct (Z.eqb_spec (coc_credits k) 0); [intros [= <- <-]; rewrite Ek; auto with lia|].
    apply orb_false_iff in Eb as [_ Hd%Nat.ltb_ge].
    intros [<- <-]%Ret_inj%pair_eq. split.
    { apply with_message_wf; [|len]. apply set_coc_wf; [done|].
      intros k' [= <-]. exact (wf_conn_chan c k Hc Ek). }
    change (0 <= coc_credits k - 1 /\ 0 <= 1 /\ 1 + (coc_credits k - 1) <= coc_credits k + 0).
    lia.
  - rewrite handle_le_signaling_Ret by done. destruct (signal_bad c body); [done|].
    rewrite obind_Ret. intros [<- <-]%Ret_inj%pair_eq. split; [by apply signaled_wf|].
    pose proof (signaled_in_hand c body Hb H0). cbn [granted] in *. lia.
  - rewrite rx_coc_sdu_Ret, obind_Ret by done.
    pose proof (coc_received_wf c body EvIdle Hc) as Hw.
    pose proof (coc_received_in_hand c body EvIdle) as E.
    destruct (coc_received c body EvIdle) as [c1 ev1]. cbn [fst] in *.
    intros [<- <-]%Ret_inj%pair_eq. split; [done|]. rewrite E. lia.
Qed.

(** ** An SDU in several frames *)

Fixpoint recv_frames (c : Conn) (frames : list (list Z)) (ev : ConnEvent)
    : outcome (Conn * ConnEvent) :=
  match frames with
  | [] => Ret (c, ev)
  | f :: frames => let! (c, ev) := rx_coc_sdu c f ev in recv_frames c frames ev
  end.

(** The first bytes of an SDU have arrived. *)
Definition partial (k0 k : Coc) (p data : list Z) : Prop :=
  wf_chan k /\ coc_rx_sdu_total k = length data /\ coc_rx_sdu_len k = length p /\
  take (length p) (coc_rx_sdu k) = p /\ coc_credits k = coc_credits k0 /\
  coc_peer_cid k = coc_peer_cid k0.

(** The SDU is complete. *)
Definition sdu_done (k0 : Coc) (c' : Conn) (data : list Z) : Prop :=
  wf_conn c' /\
  (exists k', cn_coc c' = Some k' /\ coc_rx_sdu_len k' = 0%nat /\
    coc_credits k' = coc_credits k0) /\
  cn_rx_data_len c' = Nat.min 244 (length data) /\
  take (cn_rx_data_len c') (cn_rx_data c') = take 244 data /\
  queued c' = credit_msg (coc_peer_cid k0) /\ cn_tx_cid c' = L2CAP_SIGNALING_CID.

Lemma coc_fill_partial k0 k p x data : partial k0 k p data -> (length data <= 256)%nat ->
  (length p + length x <= length data)%nat -> partial k0 (coc_fill k x) (p ++ x) data.
Proof.
  intros (Hw & Ht & Hl & Hp & Hc & Hpc) Hd Hx. pose proof (coc_fill_wf k x Hw) as Hw'.
  split; [done|]. clear Hw'. destruct Hw as [Hs _]. unfold coc_fill.
  rewrite (take_ge x) by lia. cbv zeta. split; [done|].
  rewrite length_app, <- Hl. split; [done|].
  split; [|by split].
  change (coc_rx_sdu (set_coc_rx_sdu_len _ (set_coc_rx_sdu ?b k))) with b.
  rewrite Hl, Hp, app_assoc. rewrite <- length_app. apply take_app_length.
Qed.

(** The frame's body on a partial SDU: still partial, or delivered. *)
Lemma coc_take_partial k0 k c data p : wf_conn c -> partial k0 k p data ->
  (length data <= 256)%nat ->
  let '(k', o) := coc_take k in
  ((length p < length data)%nat -> k' = k /\ o = None) /\
  (p = data -> o = Some data /\ sdu_done k0
    (let v := take 244 data in
     set_rx_data_len (length v) (set_rx_data (v ++ drop (length v) (cn_rx_data c))
       (with_message (credit_msg (coc_peer_cid k')) L2CAP_SIGNALING_CID
         (set_coc (Some k') c)))) data).
Proof.
  intros Hc (Hw & Ht & Hl & Hp & Hcr & Hpc) Hd. unfold coc_take. rewrite Ht, Hl.
  destruct (Nat.leb_spec (length data) (length p)) as [Hle|Hlt].
  2:{ split; [done|]. intros ->. lia. }
  split; [lia|]. intros ->. split; [by rewrite Hp|]. cbv zeta.
  set (k' := set_coc_rx_sdu_total 0 (set_coc_rx_sdu_len 0 k)).
  change (coc_peer_cid k') with (coc_peer_cid k). rewrite Hpc.
  assert (H1 : wf_conn (set_coc (Some k') c)).
  { apply set_coc_wf; [done|]. intros ? [= <-]. split; [apply Hw|cbn; lia]. }
  pose proof (with_message_wf (credit_msg (coc_peer_cid k0)) L2CAP_SIGNALING_CID _ H1
    ltac:(cbn; lia)) as H2.
  assert (Q : queued (with_message (credit_msg (coc_peer_cid k0)) L2CAP_SIGNALING_CID
    (set_coc (Some k') c)) = credit_msg (coc_peer_cid k0)) by apply queued_with_message.
  assert (F : let w := with_message (credit_msg (coc_peer_cid k0)) L2CAP_SIGNALING_CID
    (set_coc (Some k') c) in cn_coc w = Some k' /\ cn_rx_data w = cn_rx_data c /\
    cn_tx_cid w = L2CAP_SIGNALING_CID) by done.
  generalize dependent (with_message (credit_msg (coc_peer_cid k0)) L2CAP_SIGNALING_CID
    (set_coc (Some k') c)). intros w H2 Q (F1 & F2 & F3).
  assert (Hv : (length (take 244 data) <= 244)%nat) by len.
  rewrite <- F2. split; [by apply set_rx_data_wf|].
  split; [exists k'; split; [exact F1|]; by split|].
  change (cn_rx_data_len (set_rx_data_len ?n _)) with n.
  split; [apply length_take|]. split; [|by split]. apply take_app_length.
Qed.

Lemma recv_frames_rest xs c k0 k p data ev : wf_conn c -> cn_coc c = Some k ->
  partial k0 k p data -> (length data <= 256)%nat ->
  p <> [] -> (length p < length data)%nat -> Forall (fun x => x <> []) xs ->
  p ++ concat xs = data ->
  exists c', recv_frames c xs ev = Ret (c', EvData) /\ sdu_done k0 c' data.
Proof.
  revert c k p ev. induction xs as [|x xs IH]; intros c k p ev Hc Ek Hk Hd Hp Hlt Hxs E.
  { cbn [concat] in E. rewrite app_nil_r in E. subst. lia. }
  apply Forall_cons in Hxs as [Hx Hxs]. cbn [concat] in E. cbn [recv_frames].
  rewrite rx_coc_sdu_Ret, obind_Ret by done. unfold coc_received. rewrite Ek.
  assert (Hl : coc_rx_sdu_len k = length p) by apply Hk.
  assert (Hp0 : (length p <> 0)%nat) by (by destruct p).
  assert (Hx0 : (length x <> 0)%nat) by (by destruct x).
  assert (HL : (length p + (length x + length (concat xs)))%nat = length data).
  { rewrite <- E. by rewrite !length_app. }
  unfold coc_frame, coc_start. rewrite Hl, (proj2 (Nat.eqb_neq _ 0)) by done. cbn [andb].
  pose proof (coc_fill_partial k0 k p x data Hk Hd ltac:(lia)) as Hk'.
  pose proof (coc_take_partial k0 (coc_fill k x) c data (p ++ x) Hc Hk' Hd) as T.
  destruct (coc_take (coc_fill k x)) as [k1 o]. destruct T as [T1 T2].
  assert (Hpx : length (p ++ x) = (length p + length x)%nat) by apply length_app.
  destruct (decide (concat xs = [])) as [E0|E0].
  - destruct T2 as [-> T2]; [rewrite <- E, E0, app_nil_r; done|].
    assert (xs = []) as ->.
    { destruct xs as [|y xs]; [done|]. apply Forall_cons in Hxs as [Hy _].
      cbn [concat] in E0. by apply app_eq_nil in E0 as [-> _]. }
    eexists. split; [reflexivity|]. exact T2.
  - assert ((length (concat xs) <> 0)%nat) by (by destruct (concat xs)).
    destruct T1 as [-> ->]; [lia|].
    apply (IH _ (coc_fill k x) (p ++ x)); try done; [| |lia|].
    + apply set_coc_wf; [done|]. intros ? [= <-]. apply Hk'.
    + intros E1. apply app_eq_nil in E1 as [-> _]. done.
    + by rewrite <- app_assoc.
Qed.

(** Frames that make up an SDU the buffer can hold. *)
Lemma recv_frames_sdu c k data x xs ev : wf_conn c -> cn_coc c = Some k ->
  coc_rx_sdu_len k = 0%nat -> (length data <= 256)%nat -> x ++ concat xs = data ->
  x <> [] \/ xs = [] -> Forall (fun x => x <> []) xs ->
  exists c', recv_frames c ((u16_to_le (Z.of_nat (length data)) ++ x) :: xs) ev =
    Ret (c', EvData) /\ sdu_done k c' data.
Proof.
  intros Hc Ek H0 Hd E Hx Hxs. cbn [recv_frames].
  rewrite rx_coc_sdu_Ret, obind_Ret by done. unfold coc_received. rewrite Ek.
  unfold coc_frame, coc_start. rewrite H0. cbn [Nat.eqb andb].
  rewrite (proj2 (Nat.ltb_ge _ 2)) by (cbn; lia).
  change (drop 2 (u16_to_le (Z.of_nat (length data)) ++ x)) with x.
  replace (le16 (u16_to_le (Z.of_nat (length data)) ++ x) 0) with (Z.of_nat (length data)).
  2:{ symmetry. apply u16_le_roundtrip. ranges. lia. }
  rewrite Nat2Z.id. set (k1 := set_coc_rx_sdu_total (length data) k).
  assert (Hk1 : partial k k1 [] data).
  { split; [exact (wf_conn_chan c k Hc Ek)|]. by repeat split. }
  assert (HL : (length x + length (concat xs))%nat = length data).
  { rewrite <- E. by rewrite length_app. }
  pose proof (coc_fill_partial k k1 [] x data Hk1 Hd ltac:(cbn; lia)) as Hk'.
  cbn [app] in Hk'.
  pose proof (coc_take_partial k (coc_fill k1 x) c data x Hc Hk' Hd) as T.
  destruct (coc_take (coc_fill k1 x)) as [k2 o]. destruct T as [T1 T2].
  destruct (decide (concat xs = [])) as [E0|E0].
  - destruct T2 as [-> T2]; [rewrite <- E, E0, app_nil_r; done|].
    assert (xs = []) as ->.
    { destruct xs as [|y xs]; [done|]. apply Forall_cons in Hxs as [Hy _].
      cbn [concat] in E0. by apply app_eq_nil in E0 as [-> _]. }
    eexists. split; [reflexivity|]. exact T2.
  - assert ((length (concat xs) <> 0)%nat) by (by destruct (concat xs)).
    destruct T1 as [-> ->]; [lia|].
    apply (recv_frames_rest xs _ k (coc_fill k1 x) x data); try done; [|by destruct Hx; subst|lia].
    apply set_coc_wf; [done|]. intros ? [= <-]. apply Hk'.
Qed.

(** An SDU longer than the buffer has begun. *)
Definition wedged (n : nat) (k : Coc) : Prop :=
  wf_chan k /\ (0 < coc_rx_sdu_len k)%nat /\ coc_rx_sdu_total k = n /\ (256 < n)%nat.

Lemma wedged_fill n k x : wf_chan k -> coc_rx_sdu_total k = n -> (256 < n)%nat ->
  (0 < coc_rx_sdu_len k + length x)%nat ->
  wedged n (coc_fill k x) /\ coc_take (coc_fill k x) = (coc_fill k x, None).
Proof.
  intros Hk Ht Hn Hx. pose proof (coc_fill_wf k x Hk) as Hw.
  assert (Hl : coc_rx_sdu_len (coc_fill k x) =
    (coc_rx_sdu_len k + Nat.min (length x) (256 - coc_rx_sdu_len k))%nat).
  { unfold coc_fill. cbn [coc_rx_sdu_len set_coc_rx_sdu_len]. len. }
  assert (Htot : coc_rx_sdu_total (coc_fill k x) = n) by exact Ht.
  destruct Hk as [_ Hb]. split.
  - split; [done|]. split; [rewrite Hl; lia|done].
  - unfold coc_take. by rewrite Htot, (proj2 (Nat.leb_gt _ _)) by (destruct Hw; lia).
Qed.

Lemma wedged_frames n xs c k ev : wf_conn c -> cn_coc c = Some k -> wedged n k ->
  exists k', recv_frames c xs ev = Ret (set_coc (Some k') c, ev) /\ wedged n k'.
Proof.
  revert c k. induction xs as [|x xs IH]; intros c k Hc Ek Hk.
  { exists k. split; [|done]. by rewrite <- Ek; destruct c. }
  pose proof Hk as (Hw & Hl & Ht & Hn).
  destruct (wedged_fill n k x Hw Ht Hn ltac:(lia)) as [Hk' E]. cbn [recv_frames].
  rewrite rx_coc_sdu_Ret, obind_Ret by done. unfold coc_received. rewrite Ek.
  unfold coc_frame, coc_start. rewrite (proj2 (Nat.eqb_neq _ 0)) by lia. cbn [andb].
  rewrite E. destruct (IH (set_coc (Some (coc_fill k x)) c) (coc_fill k x)) as (k' & -> & H');
    [|done|done|by exists k'].
  apply set_coc_wf; [done|]. intros ? [= <-]. apply Hk'.
Qed.

(** ** Properties *)

(** C20. Flow control is safe: over any history of opening a channel, sending,
    signaling messages and received frames that does not panic, the SDUs sent
    plus the credits left never exceed the credits there were plus those the
    peer's messages granted. *)
Theorem coc_credit_safety c ops c' n : wf_conn c -> 0 <= in_hand c ->
  Forall op_bytes ops -> coc_run c ops = Ret (c', n) ->
  wf_conn c' /\ 0 <= in_hand c' /\
  n + in_hand c' <= in_hand c + sum_list (map granted ops).
Proof.
  intros Hc H0 Hops. revert c c' n Hc H0.
  induction Hops as [|op ops Hop Hops IH]; intros c c' n Hc H0; cbn [coc_run].
  { intros [<- <-]%Ret_inj%pair_eq. cbn. auto with lia. }
  intros ([c1 n1] & E1 & E)%obind_inv. apply obind_inv in E as ([c2 n2] & E2 & E).
  apply Ret_inj, pair_eq in E as [<- <-].
  destruct (coc_step_credits c op c1 n1 Hc Hop H0 E1) as (Hc1 & H1 & _ & Hs1).
  destruct (IH c1 c2 n2 Hc1 H1 E2) as (Hc2 & H2 & Hs2).
  split; [done|]. split; [done|]. cbn [map sum_list foldr] in *.
  fold (sum_list (map granted ops)) in *. lia.
Qed.

Lemma coc_credit_safety_witness :
  exists c', coc_run (Conn_new (mkConnectReqData 0 0 1 0 24 0 200 [255; 255; 255; 255; 31]
      13 2) 0 0 Slave)
    [OpSignal [0x14; 0; 0x34; 0x12; 0x41; 0; 0xF7; 0; 0xFB; 0; 1; 0]; OpSend [1];
     OpSend [2]; OpSignal [0x16; 0; 0x40; 0; 1; 0]; OpSend [3]] = Ret (c', 2) /\
    2 + in_hand c' <= 0 + 2.
Proof.
  eexists. split; [vm_compute; reflexivity|].
  eapply (coc_credit_safety (Conn_new (mkConnectReqData 0 0 1 0 24 0 200
      [255; 255; 255; 255; 31] 13 2) 0 0 Slave)
    [OpSignal [0x14; 0; 0x34; 0x12; 0x41; 0; 0xF7; 0; 0xFB; 0; 1; 0]; OpSend [1];
     OpSend [2]; OpSignal [0x16; 0; 0x40; 0; 1; 0]; OpSend [3]]).
  - apply Conn_new_wf.
  - cbn. lia.
  - repeat constructor; cbn; lia.
  - vm_compute. reflexivity.
Defined.

(** C21. SDUs of up to 256 bytes, the size of the buffer, are reassembled from
    frames: however the length and the data are cut after the first data byte,
    receiving the frames in order ends with the data event, the first 244 bytes of
    the data stored, the channel ready for the next SDU and one credit queued for
    the peer. But a frame that announces a longer SDU and begins it stops the
    channel while it is open: whatever frames follow, nothing is delivered, no
    credit is returned, and the SDU is still the same one. *)
Theorem coc_sdu_reassembled c k x xs ev : wf_conn c -> cn_coc c = Some k ->
  coc_rx_sdu_len k = 0%nat ->
  (forall data, (length data <= 256)%nat -> x ++ concat xs = data ->
     x <> [] \/ xs = [] -> Forall (fun x => x <> []) xs ->
     exists c', recv_frames c ((u16_to_le (Z.of_nat (length data)) ++ x) :: xs) ev =
       Ret (c', EvData) /\ sdu_done k c' data) /\
  (forall n, 256 < n < 65536 -> x <> [] ->
     exists k', recv_frames c ((u16_to_le n ++ x) :: xs) ev =
       Ret (set_coc (Some k') c, ev) /\
       coc_rx_sdu_total k' = Z.to_nat n /\ (0 < coc_rx_sdu_len k')%nat).
Proof.
  intros Hc Ek H0. split; [intros data; by apply recv_frames_sdu|].
  intros n Hn Hx. cbn [recv_frames]. rewrite rx_coc_sdu_Ret, obind_Ret by done.
  unfold coc_received. rewrite Ek. unfold coc_frame, coc_start. rewrite H0.
  cbn [Nat.eqb andb]. rewrite (proj2 (Nat.ltb_ge _ 2)) by (cbn; lia).
  change (drop 2 (u16_to_le n ++ x)) with x.
  replace (le16 (u16_to_le n ++ x) 0) with n by (symmetry; apply u16_le_roundtrip; ranges; lia).
  assert (Hx0 : (0 < length x)%nat) by (destruct x; [done|cbn; lia]).
  set (k1 := set_coc_rx_sdu_total (Z.to_nat n) k).
  destruct (wedged_fill (Z.to_nat n) k1 x) as [Hk E];
    [exact (wf_conn_chan c k Hc Ek)|done|lia|cbn; lia|].
  rewrite E. destruct (wedged_frames (Z.to_nat n) xs (set_coc (Some (coc_fill k1 x)) c)
    (coc_fill k1 x) ev) as (k' & -> & _ & H1 & H2 & _); [|done|done|by exists k'].
  apply set_coc_wf; [done|]. intros ? [= <-]. apply Hk.
Qed.

Lemma coc_sdu_reassembled_witness :
  let c := set_coc (Some (Coc_new 5)) (Conn_new (mkConnectReqData 0 0 1 0 24 0 200
    [255; 255; 255; 255; 31] 13 2) 0 0 Slave) in
  (exists c', recv_frames c [[4; 0; 1; 2]; [3]; [4]] EvIdle = Ret (c', EvData) /\
    sdu_done (Coc_new 5) c' [1; 2; 3; 4]) /\
  exists k', recv_frames c [[44; 1; 1; 2]; [3]; [4]] EvIdle = Ret (set_coc (Some k') c, EvIdle) /\
    coc_rx_sdu_total k' = 300%nat.
Proof.
  intros c. assert (Hc : wf_conn c).
  { apply set_coc_wf; [apply Conn_new_wf|]. intros ? [= <-]. split; [done|cbn; lia]. }
  destruct (coc_sdu_reassembled c (Coc_new 5) [1; 2] [[3]; [4]] EvIdle Hc eq_refl eq_refl)
    as [H1 H2]. split.
  - apply (H1 [1; 2; 3; 4]); [cbn; lia|done|by left|by repeat constructor].
  - destruct (H2 300) as (k' & E & Et & _); [lia|done|]. exists k'. split; [exact E|exact Et].
Defined.
