(* ===== verification/SmpChannel.v ===== *)
(** The security manager's channel ([src/hw/conn.rs], [handle_smp]): how pairing
    messages reach the security manager of [Smp.v] and are answered; and what
    the host does to a connection to pair and to encrypt ([src/hw/ble.rs],
    [gap_pair], [gap_encrypt]). *)

From stdpp Require Import base numbers list.
From S2P Require Import Prelude Errors Pdu Events BondStore Crypto Smp Ccm Gatt Conn Att.

(** ** The source's definitions *)

Section handlers.
Context `{!Crypto}.

(** An L2CAP header before the security manager's message. *)
Definition smp_frame (room : nat) (n : nat) (out : list Z) : outcome (list Z) :=
  let l2 := replicate room 0 in
  let! l2 := copy_at l2 0 2 (u16_to_le (u16 (Z.of_nat n))) in
  let! l2 := copy_at l2 2 4 (u16_to_le L2CAP_SMP_CID) in
  copy_at l2 4 (4 + n) out.

(** The end of [handle_smp]: queue the first [out_len] bytes of [out]. *)
Definition smp_finish (self : Conn) (out : list Z) (out_len : nat) (complete : bool)
    : outcome Conn :=
  let! self :=
    if (0 <? out_len)%nat then
      let! o := slice_to out out_len in
      let! l2 := smp_frame 21 out_len o in
      let! m := slice_to l2 (4 + out_len) in
      queue_l2cap self m L2CAP_SMP_CID
    else Ret self in
  if complete then
    let self := set_pairing_in_progress false self in
    if decide (cn_role self = Master) then queue_encrypt_req self else Ret self
  else Ret self.

(** The arms of [handle_smp] that have more than one step. *)
Definition smp_security_request (self : Conn) : outcome Conn :=
  let '(smp, req) := build_pairing_request (cn_smp self) in
  let self := set_smp smp self in
  let! l2 := smp_frame 11 7 req in
  queue_l2cap self l2 L2CAP_SMP_CID.

Definition smp_pairing_request (self : Conn) (body : list Z) : outcome Conn :=
  let out := replicate 17 0 in
  let! d := slice_to body (Nat.min (length body) 7) in
  let! (smp, r) := handle_pairing_request (cn_smp self) d in
  let self := set_smp smp self in
  match r with
  | Ok rsp =>
      let! out := copy_at out 0 7 rsp in
      smp_finish (set_pairing_in_progress true self) out 7 false
  | Err _ => smp_finish self out 0 false
  end.

Definition smp_pairing_response (self : Conn) (body : list Z) : outcome Conn :=
  let out := replicate 17 0 in
  let! d := slice_to body (Nat.min (length body) 7) in
  let! (smp, r) := handle_pairing_response (cn_smp self) d in
  let self := set_smp smp self in
  match r with
  | Ok _ => smp_finish (set_pairing_in_progress true self) out 0 false
  | Err _ => smp_finish self out 0 false
  end.

Definition smp_pairing_confirm (self : Conn) (body : list Z) : outcome Conn :=
  let out := replicate 17 0 in
  let! d := slice_to body (Nat.min (length body) 17) in
  let! (smp, r) := handle_confirm (cn_smp self) d in
  let self := set_smp smp self in
  match r with
  | Ok _ =>
      let! (smp, out) := build_confirm (cn_smp self) (smp_iat (cn_smp self))
        (smp_ia (cn_smp self)) (smp_ra (cn_smp self)) in
      smp_finish (set_smp smp self) out 17 false
  | Err _ => smp_finish self out 0 false
  end.

Definition smp_pairing_random (self : Conn) (body : list Z) : outcome Conn :=
  let out := replicate 17 0 in
  let! d := slice_to body (Nat.min (length body) 17) in
  let! (smp, r) := handle_random (cn_smp self) d in
  let self := set_smp smp self in
  match r with
  | Ok rnd =>
      let! out := copy_at out 0 17 rnd in
      smp_finish self out 17 true
  | Err _ =>
      let failed := build_failed (smp_pairing_failed (cn_smp self)) in
      let! l2 := smp_frame 6 2 failed in
      let! self := queue_l2cap self l2 L2CAP_SMP_CID in
      Ret (set_pairing_in_progress false self)
  end.

Definition handle_smp (self : Conn) (body : list Z) : outcome Conn :=
  if (length body =? 0)%nat then Ret self else
  let! op := idx body 0 in
  if op =? SMP_PAIRING_FAILED then Ret (set_pairing_in_progress false self)
  else if (op =? SMP_ENCRYPTION_INFORMATION) || (op =? SMP_MASTER_IDENTIFICATION)
  then smp_finish self (replicate 17 0) 0 false
  else if op =? SMP_SECURITY_REQUEST then smp_security_request self
  else if op =? SMP_PAIRING_REQUEST then smp_pairing_request self body
  else if op =? SMP_PAIRING_RESPONSE then smp_pairing_response self body
  else if op =? SMP_PAIRING_CONFIRM then smp_pairing_confirm self body
  else if op =? SMP_PAIRING_RANDOM then smp_pairing_random self body
  else smp_finish self (replicate 17 0) 0 false.

End handlers.

(** What the stack's [gap_pair] does with its connection ([src/hw/ble.rs]): a
    master starts pairing, a slave goes back to waiting. *)
Definition pair_conn (conn : Conn) : outcome Conn :=
  if decide (cn_role conn = Master) then
    let '(smp, p) := build_pairing_request (cn_smp conn) in
    let conn := set_smp smp conn in
    let! req := copy_at (replicate 7 0) 0 7 p in
    let l2 := replicate 11 0 in
    let! l2 := copy_at l2 0 2 (u16_to_le 7) in
    let! l2 := copy_at l2 2 4 (u16_to_le L2CAP_SMP_CID) in
    let! l2 := copy_at l2 4 11 req in
    queue_l2cap conn l2 L2CAP_SMP_CID
  else Ret (set_smp (set_smp_state Idle (cn_smp conn)) conn).

(** And its [gap_encrypt]: the key saved for the peer, and the request. *)
Definition encrypt_conn (conn : Conn) : outcome (Conn * result unit Error) :=
  if negb (bool_decide (cn_role conn = Master)) then Ret (conn, Err InvalidParam) else
  match bi_ltk <$> RamBondStore_find (cn_bond_store conn) (cn_peer_addr conn) with
  | None => Ret (conn, Err NotRunning)
  | Some ltk =>
      let conn := set_smp (set_smp_stk ltk (cn_smp conn)) conn in
      let! conn := queue_encrypt_req conn in
      Ret (conn, Ok tt)
  end.

(** ** Specification and lemmas *)

Section specification.
Context `{!Crypto}.

(** A message with the header [handle_smp] puts in front of it. *)
Definition smp_framed (m : list Z) : list Z :=
  u16_to_le (Z.of_nat (length m)) ++ u16_to_le L2CAP_SMP_CID ++ m.

Lemma smp_frame_Ret room n m : length m = n -> (4 + n <= room)%nat -> (n <= 17)%nat ->
  smp_frame room n m = Ret (smp_framed m ++ replicate (room - (4 + n)) 0).
Proof.
  intros Hm Hr Hn. unfold smp_frame. cbv zeta. rewrite u16_id by (ranges; lia).
  assert (Hx : length (replicate room 0) = room) by apply length_replicate.
  rewrite copy_at_first, obind_Ret by (done || len).
  rewrite copy_at_append, obind_Ret by (done || len).
  rewrite copy_at_append by (done || len). rewrite !drop_drop, drop_replicate.
  unfold smp_framed. rewrite <- !app_assoc, Hm. do 5 f_equal. lia.
Qed.

Lemma smp_framed_length m : length (smp_framed m) = (4 + length m)%nat.
Proof. unfold smp_framed. len. Qed.

(** [c] with its security manager's state and pairing flag replaced. *)
Definition smp_next (s : Smp) (p : bool) (c : Conn) : Conn :=
  set_pairing_in_progress p (set_smp s c).

Lemma smp_next_wf s p c : wf_conn c -> wf_smp s -> wf_conn (smp_next s p c).
Proof. intros Hc Hs. wf_conn_by ltac:(exact Hs). Qed.

Lemma set_pairing_wf p c : wf_conn c -> wf_conn (set_pairing_in_progress p c).
Proof. intros Hc. wf_conn_by fail. Qed.

(** What [smp_finish] leaves. *)
Definition smp_finished (c : Conn) (m : list Z) (complete : bool) : Conn :=
  let c := match m with [] => c | _ => with_message (smp_framed m) L2CAP_SMP_CID c end in
  if complete then
    let c := set_pairing_in_progress false c in
    if decide (cn_role c = Master) then
      set_want_encrypt true
        (set_pending_control (Some (LL_CONTROL_ENCRYPT_REQ :: replicate 18 0)) c)
    else c
  else c.

Lemma smp_finish_Ret c out n complete : length (cn_tx_att c) = 251%nat ->
  (n <= length out)%nat -> (n <= 17)%nat ->
  smp_finish c out n complete = Ret (smp_finished c (take n out) complete).
Proof.
  intros Hc Hl Hn. unfold smp_finish, smp_finished.
  assert (Hm : length (take n out) = n) by len.
  set (c1 := match take n out with [] => c | _ => _ end).
  assert (E : (if (0 <? n)%nat then
      let! o := slice_to out n in let! l2 := smp_frame 21 n o in
      let! m := slice_to l2 (4 + n) in queue_l2cap c m L2CAP_SMP_CID
    else Ret c) = Ret c1).
  { unfold c1. destruct (Nat.ltb_spec 0 n) as [H0|H0].
    - rewrite slice_to_Ret, obind_Ret, smp_frame_Ret, obind_Ret by len.
      rewrite slice_to_Ret, obind_Ret by (rewrite length_app, smp_framed_length; len).
      rewrite take_app_le, take_ge by (rewrite smp_framed_length; len).
      rewrite queue_l2cap_Ret by (done || (rewrite smp_framed_length; len)).
      by destruct (take n out); [cbn in Hm; lia|].
    - by replace n with 0%nat by lia. }
  rewrite E, obind_Ret. clearbody c1. destruct complete; [|done].
  rewrite queue_encrypt_req_Ret. cbv zeta. by case_decide.
Qed.

Lemma smp_finished_wf c m complete : wf_conn c -> (length m <= 17)%nat ->
  wf_conn (smp_finished c m complete).
Proof.
  intros Hc Hm. unfold smp_finished. cbv zeta.
  set (c1 := match m with [] => c | _ => _ end).
  assert (H1 : wf_conn c1).
  { unfold c1. destruct m; [done|]. apply with_message_wf; [done|].
    rewrite smp_framed_length. lia. }
  destruct complete; [|done]. case_decide.
  - wf_conn_by ltac:(cbn; intros ? [= <-]; done).
  - wf_conn_by fail.
Qed.

(** Nothing queued, or one message of the security manager, framed. *)
Definition smp_sent (c c' : Conn) : Prop :=
  cn_tx_pdu_max c' = cn_tx_pdu_max c /\
  (queued c' = queued c /\ cn_tx_pending c' = cn_tx_pending c \/
   exists m, (length m = 2 \/ length m = 7 \/ length m = 17)%nat /\
     queued c' = smp_framed m /\ cn_tx_cid c' = L2CAP_SMP_CID /\
     cn_tx_frag_offset c' = 0%nat /\ cn_tx_pending c' = true).

Lemma smp_sent_refl c : smp_sent c c.
Proof. split; [done|]. by left. Qed.

Lemma smp_sent_message c0 c m : (length m = 2 \/ length m = 7 \/ length m = 17)%nat ->
  cn_tx_pdu_max c = cn_tx_pdu_max c0 ->
  smp_sent c0 (with_message (smp_framed m) L2CAP_SMP_CID c).
Proof.
  intros Hm Hp. split; [exact Hp|]. right. exists m. split; [done|].
  split; [apply queued_with_message|done].
Qed.

Lemma smp_sent_pairing p c0 c : smp_sent c0 c ->
  smp_sent c0 (set_pairing_in_progress p c).
Proof. intros H1. exact H1. Qed.

Lemma smp_finished_sent c s p m complete :
  (length m = 0 \/ length m = 7 \/ length m = 17)%nat ->
  smp_sent c (smp_finished (smp_next s p c) m complete).
Proof.
  intros Hm. unfold smp_finished. cbv zeta.
  assert (H1 : smp_sent c (match m with [] => smp_next s p c | _ =>
    with_message (smp_framed m) L2CAP_SMP_CID (smp_next s p c) end)).
  { destruct m as [|b m]; [exact (smp_sent_refl c)|].
    apply smp_sent_message; [cbn [length] in *; lia|done]. }
  generalize dependent (match m with [] => smp_next s p c | _ =>
    with_message (smp_framed m) L2CAP_SMP_CID (smp_next s p c) end).
  intros c1 H1. destruct complete; [|done]. case_decide; exact H1.
Qed.

(** What every arm promises: it returns, in good shape, having sent at most one
    message. *)
Definition smp_ok (c : Conn) (r : outcome Conn) : Prop :=
  exists c', r = Ret c' /\ wf_conn c' /\ smp_sent c c'.

Lemma smp_finish_ok c s p m n complete : wf_conn c -> wf_smp s -> (n <= length m)%nat ->
  (n = 0 \/ n = 7 \/ n = 17)%nat ->
  smp_ok c (smp_finish (smp_next s p c) m n complete).
Proof.
  intros Hc Hs Hl Hn. rewrite smp_finish_Ret by (apply Hc || lia).
  eexists. split; [reflexivity|].
  split; [apply smp_finished_wf; [by apply smp_next_wf | len]|].
  apply smp_finished_sent; len.
Qed.

Lemma set_smp_next s c : set_smp s c = smp_next s (cn_pairing_in_progress c) c.
Proof. by destruct c. Qed.

Lemma smp_finish_same c m : wf_conn c -> smp_ok c (smp_finish c m 0 false).
Proof.
  intros Hc. rewrite smp_finish_Ret by (apply Hc || lia). exists c.
  split; [done|]. split; [done|apply smp_sent_refl].
Qed.

Lemma smp_queue_ok c s m : wf_conn c -> wf_smp s -> (length m = 2 \/ length m = 7)%nat ->
  exists c', (let! l2 := smp_frame (4 + length m) (length m) m in
              queue_l2cap (set_smp s c) l2 L2CAP_SMP_CID) = Ret c' /\
    wf_conn c' /\ smp_sent c c'.
Proof.
  intros Hc Hs Hm. rewrite smp_frame_Ret, obind_Ret by lia.
  rewrite Nat.sub_diag. cbn [replicate]. rewrite app_nil_r.
  assert (Hl : (length (smp_framed m) <= 21)%nat) by (rewrite smp_framed_length; lia).
  rewrite queue_l2cap_Ret by (apply Hc || lia). eexists. split; [reflexivity|].
  split; [|apply smp_sent_message; [lia|done]].
  apply with_message_wf; [by apply set_smp_conn_wf|lia].
Qed.

Lemma slice_min (body : list Z) n : exists d,
  slice_to body (Nat.min (length body) n) = Ret d /\ length d = Nat.min (length body) n.
Proof. eexists. split; [apply slice_to_Ret; lia | len]. Qed.

Lemma smp_security_request_ok c : wf_conn c -> smp_ok c (smp_security_request c).
Proof.
  intros Hc. unfold smp_security_request, build_pairing_request.
  set (req := [SMP_PAIRING_REQUEST; _; _; _; _; _; _]).
  apply (smp_queue_ok c (set_smp_preq req (cn_smp c)) req Hc); [|by right].
  destruct (wf_conn_smp c Hc) as (?&?&?&?&?&?&?&?&?&?&?&?). by repeat split.
Qed.

Lemma smp_pairing_request_ok c body : wf_conn c -> smp_ok c (smp_pairing_request c body).
Proof.
  intros Hc. pose proof (wf_conn_smp c Hc) as Hs. unfold smp_pairing_request.
  destruct (slice_min body 7) as (d & -> & Hd). rewrite obind_Ret.
  destruct (Nat.le_gt_cases 7 (length d)) as [H7|H7].
  - destruct (handle_pairing_request_Ret (cn_smp c) d Hs H7)
      as (s' & rsp & -> & Hs' & _ & Er).
    rewrite obind_Ret, copy_at_first, obind_Ret by (subst rsp; cbn; lia).
    apply (smp_finish_ok c s' true); [done|done|subst rsp; len|lia].
  - unfold handle_pairing_request. rewrite (proj2 (Nat.ltb_lt _ _)), obind_Ret by lia.
    rewrite set_smp_next. apply smp_finish_ok; [done|done|len|lia].
Qed.

Lemma smp_pairing_response_ok c body :
  wf_conn c -> smp_ok c (smp_pairing_response c body).
Proof.
  intros Hc. pose proof (wf_conn_smp c Hc) as Hs. unfold smp_pairing_response.
  destruct (slice_min body 7) as (d & -> & Hd). rewrite obind_Ret.
  destruct (Nat.le_gt_cases 7 (length d)) as [H7|H7].
  - destruct (handle_pairing_response_Ret (cn_smp c) d Hs H7) as [-> Hs'].
    rewrite obind_Ret. apply (smp_finish_ok c _ true); [done|done|len|lia].
  - unfold handle_pairing_response. rewrite (proj2 (Nat.ltb_lt _ _)), obind_Ret by lia.
    rewrite set_smp_next. apply smp_finish_ok; [done|done|len|lia].
Qed.

Lemma smp_pairing_confirm_ok c body : wf_conn c -> smp_ok c (smp_pairing_confirm c body).
Proof.
  intros Hc. pose proof (wf_conn_smp c Hc) as Hs. unfold smp_pairing_confirm.
  destruct (slice_min body 17) as (d & -> & Hd). rewrite obind_Ret.
  destruct (Nat.le_gt_cases 17 (length d)) as [H7|H7].
  - destruct d as [|b d]; [cbn in H7; lia|]. cbn [length] in Hd, H7.
    rewrite handle_confirm_Ret, obind_Ret by (apply Hs || lia).
    set (s' := set_smp_state _ _).
    assert (Hs' : wf_smp s').
    { destruct Hs as (?&?&?&?&?&?&?&?&?&?&?&?). repeat split; try done. cbn. lia. }
    change (cn_smp (set_smp s' c)) with s'.
    rewrite build_confirm_Ret, obind_Ret by (done || apply Hs').
    pose proof (confirmed_wf s' (smp_iat s') (smp_ia s') (smp_ra s') Hs'
      ltac:(apply Hs') ltac:(apply Hs')) as Hs2.
    set (s2 := confirmed _ _ _ _) in *.
    change (set_smp s2 (set_smp s' c)) with (set_smp s2 c).
    rewrite set_smp_next. apply smp_finish_ok; [done|done| |lia]. cbn [length].
    assert (length (smp_own_confirm s2) = 16%nat) as -> by apply Hs2. done.
  - unfold handle_confirm. rewrite (proj2 (Nat.ltb_lt _ _)), obind_Ret by lia.
    rewrite set_smp_next. apply smp_finish_ok; [done|done|len|lia].
Qed.

(** The answer to a random value that does not match. *)
Lemma smp_mismatch_ok c s : wf_conn c -> wf_smp s -> smp_ok c
  (let! l2 := smp_frame 6 2 (build_failed (smp_pairing_failed s)) in
   let! c1 := queue_l2cap (set_smp s c) l2 L2CAP_SMP_CID in
   Ret (set_pairing_in_progress false c1)).
Proof.
  intros Hc Hs.
  destruct (smp_queue_ok c s (build_failed (smp_pairing_failed s)) Hc Hs)
    as (c' & E & Hw & Hq); [by left|].
  cbn [length build_failed Nat.add] in E. fold (build_failed (smp_pairing_failed s)) in E.
  destruct (smp_frame 6 2 _) as [l2|]; [|done]. rewrite obind_Ret in E |- *.
  rewrite E, obind_Ret. eexists. split; [reflexivity|].
  split; [by apply set_pairing_wf | by apply smp_sent_pairing].
Qed.

Lemma smp_pairing_random_ok c body : wf_conn c -> smp_ok c (smp_pairing_random c body).
Proof.
  intros Hc. pose proof (wf_conn_smp c Hc) as Hs. unfold smp_pairing_random.
  destruct (slice_min body 17) as (d & -> & Hd). rewrite obind_Ret.
  destruct (Nat.le_gt_cases 17 (length d)) as [H7|H7].
  - rewrite (handle_random_Ret (cn_smp c) d Hs H7). cbv zeta.
    assert (Hr : length (take 16 (drop 1 d)) = 16%nat) by len.
    generalize dependent (take 16 (drop 1 d)). intros r Hr.
    case_bool_decide; rewrite obind_Ret.
    + rewrite copy_all by (cbn [length]; rewrite ?length_replicate; f_equal; apply Hs).
      rewrite obind_Ret, set_smp_next. apply smp_finish_ok; [done| | |lia].
      { destruct Hs as (?&?&?&?&?&?&?&?&?&?&?&?). repeat split; try done.
        apply aes128_length. }
      cbn [length]. assert (length (smp_own_random (cn_smp c)) = 16%nat) as -> by apply Hs.
      done.
    + apply (smp_mismatch_ok c (set_smp_pairing_failed _ _)); [done|].
      destruct Hs as (?&?&?&?&?&?&?&?&?&?&?&?). by repeat split.
  - unfold handle_random. rewrite (proj2 (Nat.ltb_lt _ _)), obind_Ret by lia.
    by apply (smp_mismatch_ok c (cn_smp c)).
Qed.

Lemma handle_smp_ok c body : wf_conn c -> smp_ok c (handle_smp c body).
Proof.
  intros Hc. unfold handle_smp. destruct (Nat.eqb_spec (length body) 0) as [H0|H0].
  { exists c. split; [done|]. split; [done|apply smp_sent_refl]. }
  rewrite idx_nth, obind_Ret by lia.
  repeat match goal with |- smp_ok _ (if ?b then _ else _) => destruct b end;
    auto using smp_finish_same, smp_security_request_ok, smp_pairing_request_ok,
      smp_pairing_response_ok, smp_pairing_confirm_ok, smp_pairing_random_ok.
  eexists. split; [reflexivity|]. split; [by apply set_pairing_wf | exact (smp_sent_refl c)].
Qed.

(** A framed message, handled: the first byte is its length, and no length is
    an opcode that does anything. *)
Lemma handle_smp_framed c m : length (cn_tx_att c) = 251%nat ->
  (length m = 2 \/ length m = 7 \/ length m = 17)%nat ->
  handle_smp c (smp_framed m) = Ret c.
Proof.
  intros Hc Hm. unfold handle_smp. rewrite smp_framed_length.
  rewrite (proj2 (Nat.eqb_neq _ 0)) by lia.
  rewrite idx_nth, obind_Ret by (rewrite smp_framed_length; lia).
  replace (nth 0 (smp_framed m) 0) with (Z.of_nat (length m) mod 256) by reflexivity.
  destruct Hm as [E|[-> | ->]];
    [|cbn -[smp_finish]; by rewrite smp_finish_Ret by (done || cbn; lia)..].
  rewrite E. change (smp_pairing_response c (smp_framed m) = Ret c).
  unfold smp_pairing_response. rewrite smp_framed_length, E.
  rewrite slice_to_Ret, obind_Ret by (rewrite smp_framed_length; lia).
  unfold handle_pairing_response. rewrite length_take, smp_framed_length, E.
  cbn -[smp_finish set_smp]. rewrite smp_finish_Ret by (done || cbn; lia). by destruct c.
Qed.

(** The end of a completed exchange. *)
Lemma smp_finished_complete c m : m <> [] ->
  let c' := smp_finished c m true in
  queued c' = smp_framed m /\ cn_tx_cid c' = L2CAP_SMP_CID /\ cn_tx_pending c' = true /\
  cn_smp c' = cn_smp c /\ cn_pairing_in_progress c' = false /\
  cn_want_encrypt c' = bool_decide (cn_role c = Master) || cn_want_encrypt c.
Proof.
  intros Hm. unfold smp_finished. destruct m as [|b m]; [done|].
  pose proof (queued_with_message (smp_framed (b :: m)) L2CAP_SMP_CID c) as Q.
  assert (F : let w := with_message (smp_framed (b :: m)) L2CAP_SMP_CID c in
    cn_tx_cid w = L2CAP_SMP_CID /\ cn_tx_pending w = true /\ cn_smp w = cn_smp c /\
    cn_role w = cn_role c /\ cn_want_encrypt w = cn_want_encrypt c) by done.
  generalize dependent (with_message (smp_framed (b :: m)) L2CAP_SMP_CID c).
  intros w Q (F1 & F2 & F3 & F4 & F5). cbv zeta.
  change (cn_role (set_pairing_in_progress false w)) with (cn_role w). rewrite F4, <- F5.
  case_decide as E; [rewrite bool_decide_true by done|rewrite bool_decide_false by done];
    by repeat split.
Qed.

(** The random value's arm. *)
Lemma smp_pairing_random_Ret c body : wf_conn c -> (17 <= length body)%nat ->
  let s := cn_smp c in
  let r := take 16 (drop 1 body) in
  let ok := bool_decide (c1_val (tk_of s) (c1_inputs s r) = smp_peer_confirm s) in
  exists c', smp_pairing_random c body = Ret c' /\ wf_conn c' /\
    cn_tx_cid c' = L2CAP_SMP_CID /\ cn_tx_pending c' = true /\
    cn_pairing_in_progress c' = false /\
    if ok then
      queued c' = smp_framed (SMP_PAIRING_RANDOM :: smp_own_random s) /\
      smp_state (cn_smp c') = WaitingStartEnc /\
      smp_stk (cn_smp c') = s1_val (tk_of s) (smp_own_random s) r /\
      cn_want_encrypt c' = bool_decide (cn_role c = Master) || cn_want_encrypt c
    else
      queued c' = smp_framed [SMP_PAIRING_FAILED; SMP_REASON_CONFIRM] /\
      smp_state (cn_smp c') = smp_state s /\ smp_stk (cn_smp c') = smp_stk s /\
      cn_want_encrypt c' = cn_want_encrypt c.
Proof.
  intros Hc Hl s r ok. pose proof (wf_conn_smp c Hc) as Hs. fold s in Hs.
  destruct (smp_pairing_random_ok c body Hc) as (c1 & E1 & Hw & _).
  exists c1. split; [done|]. split; [done|]. clear Hw. revert E1.
  unfold smp_pairing_random. rewrite slice_to_Ret, obind_Ret by lia. fold s.
  rewrite handle_random_Ret by (done || len).
  replace (take 16 (drop 1 (take (Nat.min (length body) 17) body))) with r.
  2:{ unfold r. rewrite Nat.min_r, skipn_firstn_comm, firstn_firstn by lia. done. }
  assert (Hr : length r = 16%nat) by (unfold r; len).
  assert (Ho : length (smp_own_random s) = 16%nat) by apply Hs.
  cbv zeta. fold ok. unfold ok. clear ok. clearbody r. case_bool_decide; rewrite obind_Ret.
  - rewrite copy_all, obind_Ret by (cbn [length]; rewrite ?length_replicate; lia).
    rewrite smp_finish_Ret by (apply Hc || (cbn [length]; lia)).
    rewrite take_ge by (cbn [length]; lia).
    intros <-%Ret_inj.
    edestruct smp_finished_complete as (Q & F1 & F2 & F3 & F4 & F5);
      [|split; [exact F1|]; split; [exact F2|]; split; [exact F4|];
        split; [exact Q|]; rewrite F3; split; [done|]; split; [done|exact F5]].
    done.
  - change (smp_pairing_failed (cn_smp (set_smp ?a c))) with (smp_pairing_failed a).
    change (smp_pairing_failed (set_smp_pairing_failed SMP_REASON_CONFIRM ?a))
      with SMP_REASON_CONFIRM.
    set (m := build_failed SMP_REASON_CONFIRM).
    rewrite (smp_frame_Ret 6 2 m), obind_Ret by (done || cbn; lia). cbn [replicate Nat.sub].
    rewrite app_nil_r, queue_l2cap_Ret by (apply Hc || (rewrite smp_framed_length; cbn; lia)).
    rewrite obind_Ret. intros <-%Ret_inj.
    set (c0 := set_smp _ c).
    pose proof (queued_with_message (smp_framed m) L2CAP_SMP_CID c0) as Q.
    assert (F : let w := with_message (smp_framed m) L2CAP_SMP_CID c0 in
      cn_tx_cid w = L2CAP_SMP_CID /\ cn_tx_pending w = true /\
      smp_state (cn_smp w) = smp_state s /\ smp_stk (cn_smp w) = smp_stk s /\
      cn_want_encrypt w = cn_want_encrypt c) by (by repeat split).
    generalize dependent (with_message (smp_framed m) L2CAP_SMP_CID c0).
    intros w Q (F1 & F2 & F3 & F4 & F5). auto 10.
Qed.

End specification.

(** ** Properties *)

(** The pairing random over the channel: for a random PDU of at least 17
    bytes the answer is one message on the security manager's channel and
    pairing is over; if the random value opens the peer's commitment the answer
    is our random value, the session key is stored, and the master alone asks
    for encryption; otherwise the answer is Pairing Failed and neither the key,
    the state nor the encryption request changes. *)
Theorem smp_random_starts_encryption `{!Crypto} c body : wf_conn c ->
  (17 <= length body)%nat -> nth 0 body 0 = SMP_PAIRING_RANDOM ->
  let s := cn_smp c in
  let r := take 16 (drop 1 body) in
  let ok := bool_decide (c1_val (tk_of s) (c1_inputs s r) = smp_peer_confirm s) in
  exists c', handle_smp c body = Ret c' /\ wf_conn c' /\
    cn_tx_cid c' = L2CAP_SMP_CID /\ cn_tx_pending c' = true /\
    cn_pairing_in_progress c' = false /\
    if ok then
      queued c' = smp_framed (SMP_PAIRING_RANDOM :: smp_own_random s) /\
      smp_state (cn_smp c') = WaitingStartEnc /\
      smp_stk (cn_smp c') = s1_val (tk_of s) (smp_own_random s) r /\
      cn_want_encrypt c' = bool_decide (cn_role c = Master) || cn_want_encrypt c
    else
      queued c' = smp_framed [SMP_PAIRING_FAILED; SMP_REASON_CONFIRM] /\
      smp_state (cn_smp c') = smp_state s /\ smp_stk (cn_smp c') = smp_stk s /\
      cn_want_encrypt c' = cn_want_encrypt c.
Proof.
  intros Hc Hl E0 s r ok.
  assert (E : handle_smp c body = smp_pairing_random c body).
  { unfold handle_smp. rewrite (proj2 (Nat.eqb_neq _ 0)), idx_nth, obind_Ret, E0 by lia.
    reflexivity. }
  rewrite E. exact (smp_pairing_random_Ret c body Hc Hl).
Qed.

