(* ===== verification/L2cap.v ===== *)
(** L2CAP ([src/hw/conn.rs]): fragmentation of the queued message, reassembly
    of incoming fragments, and the dispatch to the channels of [Att.v],
    [CocChannel.v] and [SmpChannel.v]. *)

From stdpp Require Import base numbers list.
From S2P Require Import Prelude Errors Timers Pdu Events BondStore Crypto Smp Ccm Gatt.
From S2P Require Import Conn Att CocChannel SmpChannel.

(** ** The source's definitions *)

(** The header byte every outgoing data packet starts with. *)
Definition ll_header (self : Conn) (llid : Z) : Z :=
  (llid .& 3) .| u8 (bool_u8 (negb (cn_nesn self)) .<< 2)
    .| u8 (bool_u8 (cn_sn self) .<< 3).

(** [tx_fragment]: the state and the packet length. *)
Definition tx_fragment (self : Conn) : outcome (Conn * nat) :=
  let att_len := cn_tx_att_len self in
  let! remaining := sub_usize att_len (cn_tx_frag_offset self) in
  let first := (cn_tx_frag_offset self =? 0)%nat in
  let avail := if first then (cn_tx_pdu_max self - 4)%nat else cn_tx_pdu_max self in
  let chunk := Nat.min remaining avail in
  let complete := first && (chunk =? att_len)%nat in
  let llid := if complete then LLID_DATA_COMPLETE
              else if first then LLID_DATA_START
              else LLID_DATA_CONTINUATION_OR_COMPLETE in
  let payload_len := if first then (4 + chunk)%nat else chunk in
  let! b := set_idx (cn_tx_buf self) 0 (ll_header self llid) in
  let! b := set_idx b 1 (u8 (Z.of_nat payload_len)) in
  let! d := slice (cn_tx_att self) (cn_tx_frag_offset self)
              (cn_tx_frag_offset self + chunk) in
  let! b :=
    if first then
      let! b := copy_at b 2 4 (u16_to_le (u16 (Z.of_nat att_len))) in
      let! b := copy_at b 4 6 (u16_to_le (cn_tx_cid self)) in
      copy_at b 6 (6 + chunk) d
    else copy_at b 2 (2 + chunk) d in
  let self := set_tx_buf b self in
  let self := set_tx_frag_offset (cn_tx_frag_offset self + chunk) self in
  let self :=
    if (att_len <=? cn_tx_frag_offset self)%nat
    then set_tx_frag_offset 0 (set_tx_pending false self) else self in
  Ret (self, (2 + payload_len)%nat).

Section handlers.
Context `{!Crypto}.

(** The reassembly buffer takes a fragment's body; a complete message goes to
    the attribute protocol. *)
Definition l2cap_append (self : Conn) (body : list Z) (ev : ConnEvent)
    : outcome (Conn * ConnEvent) :=
  let cap := length (cn_rx_l2cap self) in
  let! room := sub_usize cap (cn_rx_l2cap_len self) in
  let n := Nat.min (length body) room in
  let! d := slice_to body n in
  let! b := copy_at (cn_rx_l2cap self) (cn_rx_l2cap_len self)
              (cn_rx_l2cap_len self + n) d in
  let self := set_rx_l2cap b self in
  let self := set_rx_l2cap_len (cn_rx_l2cap_len self + n) self in
  let msg_len := Nat.min (cn_rx_l2cap_msg_len self) cap in
  if (msg_len <=? cn_rx_l2cap_len self)%nat then
    let att := replicate 256 0 in
    let! d := slice_to (cn_rx_l2cap self) msg_len in
    let! att := copy_at att 0 msg_len d in
    let! att := slice_to att msg_len in
    let! (self, ev) := handle_att self att ev in
    Ret (set_rx_l2cap_len 0 self, ev)
  else Ret (self, ev).

Definition handle_l2cap (self : Conn) (payload : list Z) (llid : Z) (ev : ConnEvent)
    : outcome (Conn * ConnEvent) :=
  let is_first := negb (llid =? LLID_DATA_CONTINUATION_OR_COMPLETE)
                  || (cn_rx_l2cap_len self =? 0)%nat in
  if is_first then
    if (length payload <? 4)%nat then Ret (self, ev) else
    let self := set_rx_l2cap_len 0 self in
    let! m := u16_at payload 0 in
    let self := set_rx_l2cap_msg_len (Z.to_nat m) self in
    let! cid := u16_at payload 2 in
    let self := set_rx_l2cap_cid cid self in
    let! body := slice_from payload 4 in
    if cid =? L2CAP_SMP_CID_LOCAL then
      let! self := handle_smp self body in
      Ret (set_rx_l2cap_len 0 self, ev)
    else if cid =? L2CAP_SIGNALING_CID then
      let! self := handle_le_signaling self body in
      Ret (set_rx_l2cap_len 0 self, ev)
    else if negb (cid =? L2CAP_ATT_CID) then
      let is_coc := match cn_coc self with
        | Some c => (coc_peer_cid c =? cid) || (coc_local_cid c =? cid)
        | None => false
        end in
      let self := set_rx_l2cap_len 0 self in
      if is_coc then rx_coc_sdu self body ev else Ret (self, EvL2cap cid)
    else l2cap_append self body ev
  else l2cap_append self payload ev.

End handlers.

(** ** Fragmentation: specification and lemmas *)

(** The fragment [tx_fragment] sends next. *)
Definition frag_chunk (c : Conn) : nat :=
  Nat.min (cn_tx_att_len c - cn_tx_frag_offset c)
    (if (cn_tx_frag_offset c =? 0)%nat then cn_tx_pdu_max c - 4 else cn_tx_pdu_max c).

Definition frag_llid (c : Conn) : Z :=
  if (cn_tx_frag_offset c =? 0)%nat then
    if (frag_chunk c =? cn_tx_att_len c)%nat then LLID_DATA_COMPLETE else LLID_DATA_START
  else LLID_DATA_CONTINUATION_OR_COMPLETE.

Definition frag_payload (c : Conn) : list Z :=
  (if (cn_tx_frag_offset c =? 0)%nat
   then u16_to_le (Z.of_nat (cn_tx_att_len c)) ++ u16_to_le (cn_tx_cid c) else []) ++
  take (frag_chunk c) (drop (cn_tx_frag_offset c) (queued c)).

(** The state after it, with the packet in the transmit buffer. *)
Definition frag_sent (b : list Z) (c : Conn) : Conn :=
  let o := (cn_tx_frag_offset c + frag_chunk c)%nat in
  let c' := set_tx_frag_offset o (set_tx_buf b c) in
  if (cn_tx_att_len c <=? o)%nat
  then set_tx_frag_offset 0 (set_tx_pending false c') else c'.

Lemma ll_header_llid c l : l = 0 \/ l = 1 \/ l = 2 \/ l = 3 ->
  is_u8 (ll_header c l) /\ ll_header c l .& 3 = l.
Proof.
  intros Hl. unfold ll_header. destruct (cn_nesn c), (cn_sn c);
    destruct Hl as [->|[->|[->| ->]]]; by repeat split.
Qed.

Lemma frag_payload_length c : wf_conn c -> (cn_tx_frag_offset c <= cn_tx_att_len c)%nat ->
  length (frag_payload c) =
  ((if (cn_tx_frag_offset c =? 0)%nat then 4 else 0) + frag_chunk c)%nat.
Proof.
  intros Hc Ho. pose proof (wf_tx_att c Hc). pose proof (wf_tx_att_len c Hc).
  assert (frag_chunk c <= cn_tx_att_len c - cn_tx_frag_offset c)%nat
    by (unfold frag_chunk; lia).
  unfold frag_payload, queued. destruct (_ =? 0)%nat; len.
Qed.

(** The fragment fits the 64 byte buffer. *)
Definition frag_len (c : Conn) : nat :=
  (frag_chunk c + if (cn_tx_frag_offset c =? 0)%nat then 4 else 0)%nat.

Lemma frag_len_max c : (4 <= cn_tx_pdu_max c <= 62)%nat -> (frag_len c <= 62)%nat.
Proof. intros Hm. unfold frag_len, frag_chunk. destruct (_ =? 0)%nat; lia. Qed.

(** A fragment: it fits the buffer, and the packet is header, length, payload. *)
Lemma tx_fragment_Ret c : wf_conn c -> (cn_tx_frag_offset c <= cn_tx_att_len c)%nat ->
  (frag_len c <= 62)%nat ->
  exists b, tx_fragment c = Ret (frag_sent b c, (2 + length (frag_payload c))%nat) /\
    length b = 64%nat /\
    take (2 + length (frag_payload c)) b =
      ll_header c (frag_llid c) :: Z.of_nat (length (frag_payload c)) :: frag_payload c.
Proof.
  intros Hc Ho Hm. pose proof (wf_tx_att c Hc) as Ha. pose proof (wf_tx_att_len c Hc) as Hl.
  pose proof (wf_tx_buf c Hc) as Hb. rewrite (frag_payload_length c Hc Ho).
  assert (Hk : (frag_chunk c <= cn_tx_att_len c - cn_tx_frag_offset c)%nat)
    by (unfold frag_chunk; lia).
  unfold frag_len in Hm.
  assert (Ed : slice (cn_tx_att c) (cn_tx_frag_offset c) (cn_tx_frag_offset c + frag_chunk c) =
    Ret (take (frag_chunk c) (drop (cn_tx_frag_offset c) (queued c)))).
  { rewrite slice_Ret by lia. unfold queued. rewrite skipn_firstn_comm, firstn_firstn.
    f_equal. f_equal. lia. }
  assert (El : length (take (frag_chunk c) (drop (cn_tx_frag_offset c) (queued c))) =
    frag_chunk c) by (unfold queued; len).
  unfold tx_fragment, sub_usize. rewrite (proj2 (Nat.leb_le _ _)), obind_Ret by done.
  cbv zeta. fold (frag_chunk c). rewrite set_idx_first, obind_Ret by lia.
  rewrite set_idx_append, obind_Ret, Ed, obind_Ret by len.
  unfold frag_payload, frag_llid.
  generalize dependent (take (frag_chunk c) (drop (cn_tx_frag_offset c) (queued c))).
  intros d _ El. rewrite u16_id by (ranges; lia).
  destruct (Nat.eqb_spec (cn_tx_frag_offset c) 0) as [E0|E0]; cbn [andb].
  - rewrite copy_at_append, obind_Ret, copy_at_append, obind_Ret by len.
    rewrite copy_at_append, obind_Ret by len. eexists. split; [reflexivity|].
    rewrite u8_id by (ranges; lia).
    split; [len|]. rewrite take_app_le, take_ge by len. by rewrite <- !app_assoc.
  - rewrite copy_at_append, obind_Ret by len. eexists. split; [reflexivity|].
    rewrite u8_id by (ranges; lia).
    split; [len|]. rewrite take_app_le, take_ge by len. by rewrite <- !app_assoc.
Qed.

(** The packet decodes to the fragment. *)
Lemma fragment_decode c : wf_conn c -> (cn_tx_frag_offset c <= cn_tx_att_len c)%nat ->
  (frag_len c <= 62)%nat ->
  DataPdu_decode (ll_header c (frag_llid c) :: Z.of_nat (length (frag_payload c)) ::
    frag_payload c) =
  Ret (Ok (mkDataPdu (frag_llid c) (flag (ll_header c (frag_llid c)) 4)
    (flag (ll_header c (frag_llid c)) 8) (flag (ll_header c (frag_llid c)) 16)
    (frag_payload c))).
Proof.
  intros Hc Ho Hm. rewrite DataPdu_decode_cons.
  destruct (ll_header_llid c (frag_llid c)) as [_ ->].
  { unfold frag_llid. destruct (_ =? 0)%nat; [destruct (_ =? _)%nat|]; auto. }
  change 0x3F with (Z.ones 6). rewrite Z.land_ones by lia.
  assert ((length (frag_payload c) <= 62)%nat).
  { rewrite frag_payload_length by done. unfold frag_len in Hm. lia. }
  rewrite Z.mod_small by lia. by rewrite Z.eqb_refl.
Qed.

Lemma frag_sent_wf b c : wf_conn c -> length b = 64%nat -> wf_conn (frag_sent b c).
Proof.
  intros Hc Hb. unfold frag_sent. cbv zeta.
  destruct (_ <=? _)%nat; wf_conn_by ltac:(exact Hb).
Qed.

(** ** Reassembly: specification and lemmas *)

(** The receiver after [o] bytes of a message of [n]. *)
Definition receiving (d : Conn) (n o : nat) (rx : list Z) : Conn :=
  set_rx_l2cap_len o (set_rx_l2cap rx
    (set_rx_l2cap_cid L2CAP_ATT_CID (set_rx_l2cap_msg_len n d))).

Section reassembly.
Context `{!Crypto}.

Lemma l2cap_append_Ret d body ev : length (cn_rx_l2cap d) = 256%nat ->
  (cn_rx_l2cap_len d + length body <= 256)%nat ->
  let o := (cn_rx_l2cap_len d + length body)%nat in
  let n := Nat.min (cn_rx_l2cap_msg_len d) 256 in
  let rx := take (cn_rx_l2cap_len d) (cn_rx_l2cap d) ++ body ++ drop o (cn_rx_l2cap d) in
  let d1 := set_rx_l2cap_len o (set_rx_l2cap rx d) in
  l2cap_append d body ev =
  if (n <=? o)%nat then
    let! (d2, ev) := handle_att d1 (take n rx) ev in Ret (set_rx_l2cap_len 0 d2, ev)
  else Ret (d1, ev).
Proof.
  intros Hr Hl o n rx d1. assert (Hx : length rx = 256%nat) by (unfold rx, o; len).
  unfold l2cap_append, sub_usize. rewrite Hr.
  rewrite (proj2 (Nat.leb_le _ _)), obind_Ret by lia. cbv zeta.
  rewrite Nat.min_l, slice_to_Ret, obind_Ret, take_ge by lia.
  fold o. rewrite copy_at_Ret, obind_Ret by (unfold o; lia). fold rx.
  change (cn_rx_l2cap_len (set_rx_l2cap rx d)) with (cn_rx_l2cap_len d). fold o. fold d1.
  change (cn_rx_l2cap_msg_len d1) with (cn_rx_l2cap_msg_len d). fold n.
  change (cn_rx_l2cap_len d1) with o. destruct (Nat.leb_spec n o) as [Hn|Hn]; [|done].
  change (cn_rx_l2cap d1) with rx. rewrite slice_to_Ret, obind_Ret by lia.
  rewrite copy_at_first, obind_Ret by len.
  rewrite slice_to_Ret, obind_Ret, take_app_le, take_ge by len. done.
Qed.

(** One fragment of the attribute channel. *)
Lemma handle_l2cap_first d n body llid ev : length (cn_rx_l2cap d) = 256%nat ->
  llid <> LLID_DATA_CONTINUATION_OR_COMPLETE -> Z.of_nat n < 65536 ->
  (length body <= 256)%nat ->
  handle_l2cap d (u16_to_le (Z.of_nat n) ++ u16_to_le L2CAP_ATT_CID ++ body) llid ev =
  l2cap_append (receiving d n 0 (cn_rx_l2cap d)) body ev.
Proof.
  intros Hr Hll Hn Hb. unfold handle_l2cap. rewrite (proj2 (Z.eqb_neq _ _)) by done.
  cbn [negb orb]. set (p := u16_to_le (Z.of_nat n) ++ _).
  assert (Hp : length p = (4 + length body)%nat) by (unfold p; len).
  assert (E0 : le16 p 0 = u16_from_le (Z.of_nat n mod 256) (Z.of_nat n / 256 mod 256))
    by reflexivity.
  assert (E2 : le16 p 2 = L2CAP_ATT_CID) by reflexivity.
  rewrite (proj2 (Nat.ltb_ge _ 4)) by lia. cbv zeta.
  rewrite u16_at_Ret, obind_Ret, u16_at_Ret, obind_Ret by lia.
  rewrite slice_from_Ret, obind_Ret, E0, E2 by lia. change (drop 4 p) with body.
  rewrite u16_le_roundtrip, Nat2Z.id by (ranges; lia).
  change (L2CAP_ATT_CID =? L2CAP_SMP_CID_LOCAL) with false.
  change (L2CAP_ATT_CID =? L2CAP_SIGNALING_CID) with false.
  change (L2CAP_ATT_CID =? L2CAP_ATT_CID) with true. by destruct d.
Qed.

Lemma handle_l2cap_cont d payload ev : cn_rx_l2cap_len d <> 0%nat ->
  handle_l2cap d payload LLID_DATA_CONTINUATION_OR_COMPLETE ev = l2cap_append d payload ev.
Proof.
  intros Hr. unfold handle_l2cap. rewrite (proj2 (Nat.eqb_neq _ _)) by done. done.
Qed.

(** ** Sending a whole message *)

(** Packets until nothing is pending: [tx_fragment], [DataPdu::decode] on the
    other side, [handle_l2cap]. *)
Fixpoint transfer (fuel : nat) (c d : Conn) (ev : ConnEvent)
    : outcome (Conn * Conn * ConnEvent) :=
  match fuel with
  | O => Ret (c, d, ev)
  | S fuel =>
      if cn_tx_pending c then
        let! (c, n) := tx_fragment c in
        let! packet := slice_to (cn_tx_buf c) n in
        let! r := DataPdu_decode packet in
        match r with
        | Ok p =>
            let! (d, ev) := handle_l2cap d (dp_payload p) (dp_llid p) ev in
            transfer fuel c d ev
        | Err _ => Ret (c, d, ev)
        end
      else Ret (c, d, ev)
  end.

Lemma transfer_S fuel c d ev : wf_conn c -> cn_tx_pending c = true ->
  (cn_tx_frag_offset c <= cn_tx_att_len c)%nat -> (frag_len c <= 62)%nat ->
  exists b, length b = 64%nat /\
  transfer (S fuel) c d ev =
    let! (d, ev) := handle_l2cap d (frag_payload c) (frag_llid c) ev in
    transfer fuel (frag_sent b c) d ev.
Proof.
  intros Hc Hp Ho Hm. destruct (tx_fragment_Ret c Hc Ho Hm) as (b & E & Hb & Et).
  exists b. split; [done|]. cbn [transfer]. rewrite Hp, E, obind_Ret.
  replace (cn_tx_buf (frag_sent b c)) with b
    by (unfold frag_sent; cbv zeta; by destruct (_ <=? _)%nat).
  assert (2 + length (frag_payload c) <= 64)%nat.
  { rewrite frag_payload_length by done. unfold frag_len in Hm. lia. }
  rewrite slice_to_Ret, obind_Ret, Et, fragment_decode, obind_Ret by (done || lia).
  done.
Qed.

(** What a transfer comes to: the whole message handled once. *)
Definition delivered (c' : Conn) (d : Conn) (q : list Z) (ev : ConnEvent)
    : outcome (Conn * Conn * ConnEvent) :=
  let! (d, ev) :=
    handle_att (receiving d (length q) (length q) (q ++ drop (length q) (cn_rx_l2cap d)))
      q ev in
  Ret (c', set_rx_l2cap_len 0 d, ev).

(** The sender when it is done. *)
Definition sent_all (c c' : Conn) : Prop :=
  wf_conn c' /\ cn_tx_pending c' = false /\ cn_tx_frag_offset c' = 0%nat /\
  cn_sn c' = cn_sn c /\ queued c' = queued c /\
  cn_pending_request c' = cn_pending_request c.

Lemma transfer_done fuel c d ev : cn_tx_pending c = false ->
  transfer fuel c d ev = Ret (c, d, ev).
Proof. intros Hp. destruct fuel; [done|]. cbn [transfer]. by rewrite Hp. Qed.

Lemma queued_length c : wf_conn c -> length (queued c) = cn_tx_att_len c.
Proof.
  intros Hc. pose proof (wf_tx_att c Hc). pose proof (wf_tx_att_len c Hc).
  unfold queued. len.
Qed.

(** The next stretch of a buffer being filled from [q]. *)
Lemma fill_step (q rx : list Z) o k : (o + k <= length q)%nat ->
  take o (take o q ++ drop o rx) ++ take k (drop o q) ++
    drop (o + k) (take o q ++ drop o rx) = take (o + k) q ++ drop (o + k) rx.
Proof.
  intros Hk. rewrite take_app_le, (take_ge (take o q)), drop_app_ge, drop_drop by len.
  rewrite length_take, Nat.min_l by lia.
  replace (o + (o + k - o))%nat with (o + k)%nat by lia.
  rewrite app_assoc. f_equal. by rewrite take_take_drop.
Qed.

(** The two outcomes of a fragment's body, on the receiver. *)
Lemma append_step d (q rx : list Z) o k ev :
  length rx = 256%nat -> (length q <= 251)%nat -> (o + k <= length q)%nat ->
  l2cap_append (receiving d (length q) o (take o q ++ drop o rx)) (take k (drop o q)) ev =
  let d1 := receiving d (length q) (o + k) (take (o + k) q ++ drop (o + k) rx) in
  if (length q <=? o + k)%nat then
    let! (d2, ev) := handle_att d1 q ev in Ret (set_rx_l2cap_len 0 d2, ev)
  else Ret (d1, ev).
Proof.
  intros Hr Hq Hk. set (r := receiving d _ o _).
  change (cn_rx_l2cap r) with (take o q ++ drop o rx) in *.
  assert (Ekl : length (take k (drop o q)) = k) by len.
  assert (Er : length (take o q ++ drop o rx) = 256%nat) by len.
  rewrite (l2cap_append_Ret r) by (exact Er || (change (cn_rx_l2cap_len r) with o; lia)).
  change (cn_rx_l2cap_len r) with o. change (cn_rx_l2cap_msg_len r) with (length q).
  change (cn_rx_l2cap r) with (take o q ++ drop o rx).
  rewrite Ekl, fill_step, Nat.min_l by lia. cbv zeta.
  destruct (Nat.leb_spec (length q) (o + k)) as [Hn|Hn]; [|done].
  rewrite (take_app_le (take (o + k) q)), !take_ge by len. done.
Qed.

Lemma transfer_cont fuel c d rx ev : wf_conn c -> length rx = 256%nat ->
  cn_tx_pending c = true -> (1 <= cn_tx_pdu_max c <= 62)%nat ->
  (0 < cn_tx_frag_offset c < cn_tx_att_len c)%nat ->
  (cn_tx_att_len c - cn_tx_frag_offset c <= fuel)%nat ->
  let q := queued c in let o := cn_tx_frag_offset c in
  exists c', sent_all c c' /\
  transfer fuel c (receiving d (length q) o (take o q ++ drop o rx)) ev =
  let! (d, ev) :=
    handle_att (receiving d (length q) (length q) (q ++ drop (length q) rx)) q ev in
  Ret (c', set_rx_l2cap_len 0 d, ev).
Proof.
  revert c ev. induction fuel as [|fuel IH]; intros c ev Hc Hr Hp Hm Ho Hf q o; [lia|].
  pose proof (queued_length c Hc) as Hq. fold q in Hq.
  pose proof (wf_tx_att_len c Hc) as Hl.
  assert (Hfl : (frag_len c <= 62)%nat).
  { unfold frag_len, frag_chunk. rewrite (proj2 (Nat.eqb_neq _ _)) by lia. lia. }
  destruct (transfer_S fuel c (receiving d (length q) o (take o q ++ drop o rx)) ev Hc Hp
    ltac:(lia) Hfl) as (b & Hb & ->).
  assert (Hk : (1 <= frag_chunk c /\ o + frag_chunk c <= length q)%nat).
  { unfold frag_chunk. rewrite (proj2 (Nat.eqb_neq _ _)) by lia. fold o in Ho |- *. lia. }
  pose proof (frag_sent_wf b c Hc Hb) as Hw. fold o in Ho, Hf.
  unfold frag_payload, frag_llid. fold o. fold q.
  rewrite (proj2 (Nat.eqb_neq o 0)) by lia. cbn [app].
  rewrite handle_l2cap_cont by (cbn [cn_rx_l2cap_len receiving set_rx_l2cap_len]; lia).
  rewrite append_step by lia. cbv zeta.
  unfold frag_sent in *. cbv zeta in *. fold o in Hw |- *. rewrite <- Hq in *.
  destruct (Nat.leb_spec (length q) (o + frag_chunk c)) as [Hn|Hn].
  - eexists. split; [split; [exact Hw|by repeat split]|].
    replace (o + frag_chunk c)%nat with (length q) by lia. rewrite (take_ge q) by lia.
    destruct (handle_att _ q ev) as [[d2 ev2]|]; [|done].
    rewrite !obind_Ret. by rewrite transfer_done.
  - rewrite obind_Ret. set (c1 := set_tx_frag_offset _ _) in *.
    destruct (IH c1 ev) as (c' & Hs & E); [done|done|done|done| | |].
    { change (cn_tx_frag_offset c1) with (o + frag_chunk c)%nat.
      change (cn_tx_att_len c1) with (cn_tx_att_len c). lia. }
    { change (cn_tx_frag_offset c1) with (o + frag_chunk c)%nat.
      change (cn_tx_att_len c1) with (cn_tx_att_len c). lia. }
    exists c'. split; [exact Hs|]. exact E.
Qed.

Lemma transfer_all fuel c d ev : wf_conn c -> wf_conn d ->
  cn_tx_pending c = true -> cn_tx_frag_offset c = 0%nat -> cn_tx_cid c = L2CAP_ATT_CID ->
  (5 <= cn_tx_pdu_max c <= 62)%nat -> (cn_tx_att_len c < fuel)%nat ->
  exists c', sent_all c c' /\ transfer fuel c d ev = delivered c' d (queued c) ev.
Proof.
  intros Hc Hd Hp H0 Hcid Hm Hf. destruct fuel as [|fuel]; [lia|].
  set (q := queued c). pose proof (queued_length c Hc) as Hq. fold q in Hq.
  pose proof (wf_tx_att_len c Hc) as Hl. pose proof (wf_rx_l2cap d Hd) as Hr.
  destruct (transfer_S fuel c d ev Hc Hp ltac:(lia) (frag_len_max c ltac:(lia))) as (b & Hb & ->).
  pose proof (frag_sent_wf b c Hc Hb) as Hw.
  assert (Hk : (frag_chunk c <= length q)%nat /\
    ((frag_chunk c < length q)%nat -> (1 <= frag_chunk c)%nat)).
  { unfold frag_chunk. rewrite H0. cbn [Nat.eqb]. lia. }
  unfold frag_payload. rewrite H0, Hcid. cbn [Nat.eqb]. rewrite drop_0. fold q.
  rewrite <- app_assoc. rewrite handle_l2cap_first; [|done| |lia|len].
  2:{ unfold frag_llid. rewrite H0. cbn [Nat.eqb]. by destruct (_ =? _)%nat. }
  pose proof (append_step d q (cn_rx_l2cap d) 0 (frag_chunk c) ev Hr
    ltac:(lia) ltac:(lia)) as E.
  rewrite take_0, !drop_0, Nat.add_0_l, Hq in E. cbn [app] in E. rewrite E. clear E.
  cbv zeta. unfold frag_sent in *. cbv zeta in *. rewrite H0, Nat.add_0_l in *.
  rewrite <- Hq in *. unfold delivered.
  destruct (Nat.leb_spec (length q) (frag_chunk c)) as [Hn|Hn].
  - eexists. split; [split; [exact Hw|by repeat split]|].
    replace (frag_chunk c) with (length q) by lia. rewrite (take_ge q) by lia.
    destruct (handle_att _ q ev) as [[d2 ev2]|]; [|done].
    rewrite !obind_Ret. by rewrite transfer_done.
  - rewrite obind_Ret. set (c1 := set_tx_frag_offset _ _) in *.
    apply (transfer_cont fuel c1 d (cn_rx_l2cap d) ev); try done.
    + change (cn_tx_pdu_max c1) with (cn_tx_pdu_max c). lia.
    + change (cn_tx_frag_offset c1) with (frag_chunk c).
      change (cn_tx_att_len c1) with (cn_tx_att_len c). lia.
    + change (cn_tx_frag_offset c1) with (frag_chunk c).
      change (cn_tx_att_len c1) with (cn_tx_att_len c). lia.
Qed.

Lemma receiving_wf d n o rx : wf_conn d -> length rx = 256%nat -> (o <= 256)%nat ->
  wf_conn (receiving d n o rx).
Proof. intros Hd Hx Ho. wf_conn_by ltac:(cbn; done). Qed.

(** The server's answer does not depend on the reassembly buffer. *)
Lemma att_answer_receiving d n o rx att :
  att_answer (receiving d n o rx) att = att_answer d att.
Proof. reflexivity. Qed.

(** What serving a request leaves alone. *)
Lemma att_serve_fields c att ev :
  let c' := fst (att_serve c att ev) in
  cn_tx_frag_offset c' = cn_tx_frag_offset c /\ cn_tx_cid c' = cn_tx_cid c /\
  cn_tx_pdu_max c' = cn_tx_pdu_max c.
Proof.
  unfold att_serve. assert (W : forall h v, let c' := written c h v in
    cn_tx_frag_offset c' = cn_tx_frag_offset c /\ cn_tx_cid c' = cn_tx_cid c /\
    cn_tx_pdu_max c' = cn_tx_pdu_max c).
  { intros h v. unfold written. cbv zeta. destruct (h =? HANDLE_RX_VALUE); [done|].
    by destruct (h =? HANDLE_TX_CCCD). }
  destruct (is_write _), (att_answer c att); cbn [fst]; (apply W || done).
Qed.

(** A connection ready to send or answer on the attribute channel. *)
Definition att_ready (c : Conn) : Prop :=
  wf_conn c /\ cn_tx_frag_offset c = 0%nat /\ cn_tx_cid c = L2CAP_ATT_CID /\
  (5 <= cn_tx_pdu_max c <= 62)%nat.

(** The request's way: the server has answered. *)
Lemma request_served fuel c d req r ev : att_ready c -> wf_conn d ->
  (length req <= 251)%nat -> (251 < fuel)%nat ->
  cn_pending_request d = false -> att_op req <> 0x1B ->
  (att_min (att_op req) <= length req)%nat -> att_answer d req = Some r ->
  exists c1 c2 d1 ev',
    gatt_send_request c req = Ret c1 /\
    transfer fuel c1 d ev = Ret (c2, d1, ev') /\
    wf_conn c2 /\ cn_pending_request c2 = true /\
    wf_conn d1 /\ queued d1 = r /\ cn_tx_pending d1 = true /\
    cn_tx_frag_offset d1 = cn_tx_frag_offset d /\ cn_tx_cid d1 = cn_tx_cid d /\
    cn_tx_pdu_max d1 = cn_tx_pdu_max d.
Proof.
  intros (Hc & H0 & Hcid & Hm) Hd Hl Hf Hpd Hno Hmin Hr. unfold gatt_send_request.
  rewrite queue_att_Ret, obind_Ret by (done || apply Hc).
  set (c1 := set_pending_request true (with_att req c)).
  assert (Hc1 : wf_conn c1).
  { assert (H1 : wf_conn (with_att req c)) by auto with ble. wf_conn_by fail. }
  assert (Hq1 : queued c1 = req) by apply (queued_with_att req c).
  assert (Hl1 : (cn_tx_att_len c1 < fuel)%nat) by (pose proof (wf_tx_att_len c1 Hc1); lia).
  destruct (transfer_all fuel c1 d ev Hc1 Hd eq_refl H0 Hcid Hm Hl1)
    as (c2 & (Hw2 & _ & _ & _ & _ & Hp2) & E).
  rewrite Hq1 in E. unfold delivered in E. set (d0 := receiving _ _ _ _) in E.
  assert (Hd0 : wf_conn d0).
  { apply receiving_wf; [done| |lia]. pose proof (wf_rx_l2cap d Hd). len. }
  assert (Hne : req <> []).
  { intros ->. assert (1 <= att_min (att_op []))%nat by (cbn; lia). cbn in *. lia. }
  rewrite (handle_att_pdu d0 req ev Hd0 Hne) in E. unfold att_ok, att_pdu in E.
  change (cn_pending_request d0) with (cn_pending_request d) in E. rewrite Hpd in E.
  cbn [andb orb] in E. rewrite (proj2 (Nat.leb_le _ _) Hmin) in E.
  rewrite (proj2 (Z.eqb_neq _ _) Hno) in E.
  pose proof (att_serve_fields d0 req ev) as (F1 & F2 & F3).
  pose proof (att_serve_wf d0 req ev Hd0) as Hw.
  assert (Hq : queued (fst (att_serve d0 req ev)) = r /\
    cn_tx_pending (fst (att_serve d0 req ev)) = true).
  { unfold att_serve. replace (att_answer d0 req) with (Some r)
      by (rewrite <- Hr; symmetry; apply att_answer_receiving).
    destruct (is_write _); (split; [apply queued_with_att|done]). }
  destruct (att_serve d0 req ev) as [d1 ev']. cbn [fst] in *. rewrite obind_Ret in E.
  exists c1, c2, (set_rx_l2cap_len 0 d1), ev'.
  split; [done|]. split; [exact E|]. split; [done|]. split; [exact Hp2|].
  split; [wf_conn_by ltac:(cbn; lia)|]. split; [apply Hq|]. split; [apply Hq|].
  split; [exact F1|]. split; [exact F2|exact F3].
Qed.

(** The answer's way: the client holds the result. *)
Lemma answer_taken fuel d c r ev : att_ready d -> wf_conn c ->
  cn_tx_pending d = true -> queued d = r -> r <> [] -> (length r <= 64)%nat ->
  (251 < fuel)%nat -> cn_pending_request c = true -> is_response (att_op r) = true ->
  exists d' c1 c2 buf, transfer fuel d c ev = Ret (d', c1, ev) /\
    cn_pending_request c1 = false /\
    gatt_take_result c1 = Ret (c2, (att_op r, buf, length r)) /\
    take (length r) buf = r.
Proof.
  intros (Hd & H0 & Hcid & Hm) Hc Hp Hq Hne Hl Hf Hpc Hr.
  assert (Hlen : (cn_tx_att_len d < fuel)%nat) by (pose proof (wf_tx_att_len d Hd); lia).
  destruct (transfer_all fuel d c ev Hd Hc Hp H0 Hcid Hm Hlen) as (d' & _ & E).
  rewrite Hq in E. unfold delivered in E. set (c0 := receiving _ _ _ _) in E.
  assert (Hc0 : wf_conn c0).
  { apply receiving_wf; [done| |lia]. pose proof (wf_rx_l2cap c Hc). len. }
  rewrite (handle_att_pdu c0 r ev Hc0 Hne) in E. unfold att_ok, att_pdu in E.
  change (cn_pending_request c0) with (cn_pending_request c) in E.
  rewrite Hpc, Hr in E. cbn [andb orb] in E. rewrite obind_Ret in E.
  pose proof (answered_result c0 r) as F5. rewrite (take_ge r 64) in F5 by lia.
  destruct (answered_fields c0 r) as (_ & _ & F3 & F4). rewrite (take_ge r 64) in F4 by lia.
  assert (Hop : r !! 0%nat = Some (att_op r)) by (destruct r; [congruence | reflexivity]).
  generalize dependent (answered c0 r). intros a E F5 F3 F4.
  pose proof (gatt_take_result_Ret (set_rx_l2cap_len 0 a) (att_op r)) as G.
  cbn [cn_gatt_result cn_gatt_result_len set_rx_l2cap_len] in G. rewrite F5, F4 in G.
  exists d', (set_rx_l2cap_len 0 a). do 2 eexists. split; [exact E|]. split; [exact F3|].
  split; [apply G|apply take_app_length].
  rewrite lookup_app_l; [done|]. by eapply lookup_lt_Some.
Qed.

(** ** Every fragment: when it panics, and the invariant *)

Lemma l2cap_append_trunc d body ev : length (cn_rx_l2cap d) = 256%nat ->
  (cn_rx_l2cap_len d <= 256)%nat ->
  l2cap_append d body ev = l2cap_append d (take (256 - cn_rx_l2cap_len d) body) ev.
Proof.
  intros Hr Hl. unfold l2cap_append, sub_usize. rewrite Hr, (proj2 (Nat.leb_le _ _)) by done.
  rewrite !obind_Ret. cbv zeta. rewrite !slice_to_Ret, !obind_Ret by lia.
  rewrite !take_min_length, firstn_firstn, Nat.min_id, length_take.
  by replace (Nat.min (Nat.min (256 - cn_rx_l2cap_len d) (length body)) (256 - cn_rx_l2cap_len d))
    with (Nat.min (length body) (256 - cn_rx_l2cap_len d)) by lia.
Qed.

(** The reassembly buffer and the message length after a fragment's body. *)
Definition appended (d : Conn) (body : list Z) : Conn :=
  let x := take (256 - cn_rx_l2cap_len d) body in
  let o := (cn_rx_l2cap_len d + length x)%nat in
  set_rx_l2cap_len o
    (set_rx_l2cap (take (cn_rx_l2cap_len d) (cn_rx_l2cap d) ++ x ++ drop o (cn_rx_l2cap d)) d).

(** The message a body completes, if it does. *)
Definition completes (d : Conn) (body : list Z) : option (list Z) :=
  let n := Nat.min (cn_rx_l2cap_msg_len d) 256 in
  if (n <=? cn_rx_l2cap_len (appended d body))%nat
  then Some (take n (cn_rx_l2cap (appended d body))) else None.

Definition append_bad (d : Conn) (body : list Z) : bool :=
  match completes d body with
  | Some [] | None => false
  | Some att => negb (att_ok d att)
  end.

Lemma appended_wf d body : wf_conn d -> wf_conn (appended d body).
Proof.
  intros Hd. pose proof (wf_rx_l2cap d Hd). pose proof (wf_rx_l2cap_len d Hd).
  unfold appended. cbv zeta.
  assert (Hx : (length (take (256 - cn_rx_l2cap_len d) body) <= 256 - cn_rx_l2cap_len d)%nat)
    by len.
  generalize dependent (take (256 - cn_rx_l2cap_len d) body). intros x Hx.
  wf_conn_by ltac:(cbn; len).
Qed.

Lemma set_rx_l2cap_len_wf n d : wf_conn d -> (n <= 256)%nat -> wf_conn (set_rx_l2cap_len n d).
Proof. intros Hd Hn. wf_conn_by ltac:(exact Hn). Qed.

Lemma l2cap_append_total d body ev : wf_conn d ->
  if append_bad d body then l2cap_append d body ev = Panic
  else exists d' ev', l2cap_append d body ev = Ret (d', ev') /\ wf_conn d'.
Proof.
  intros Hd. pose proof (wf_rx_l2cap d Hd) as Hr. pose proof (wf_rx_l2cap_len d Hd) as Hl.
  pose proof (appended_wf d body Hd) as Hw. unfold append_bad, completes. cbv zeta.
  rewrite l2cap_append_trunc by done. set (x := take (256 - cn_rx_l2cap_len d) body).
  assert (Hx : (length x <= 256 - cn_rx_l2cap_len d)%nat) by (unfold x; len).
  rewrite l2cap_append_Ret by (done || lia). cbv zeta.
  change (set_rx_l2cap_len _ (set_rx_l2cap _ d)) with (appended d body).
  change (cn_rx_l2cap_len (appended d body)) with (cn_rx_l2cap_len d + length x)%nat.
  destruct (_ <=? _)%nat; [|by do 2 eexists].
  change (take (cn_rx_l2cap_len d) (cn_rx_l2cap d) ++ x ++ _)
    with (cn_rx_l2cap (appended d body)).
  set (att := take _ (cn_rx_l2cap (appended d body))).
  destruct (decide (att = [])) as [E|E].
  { rewrite E. do 2 eexists. split; [reflexivity|]. by apply set_rx_l2cap_len_wf; [|lia]. }
  pose proof (handle_att_pdu (appended d body) att ev Hw E) as EA.
  change (att_ok (appended d body) att) with (att_ok d att) in EA.
  pose proof (att_pdu_wf (appended d body) att ev Hw) as W.
  rewrite EA. destruct att as [|b att]; [done|].
  destruct (att_ok d (b :: att)); cbn [negb]; [|done]. rewrite obind_Ret.
  destruct (att_pdu _ _ _) as [d2 ev2]. cbn [fst] in W. do 2 eexists.
  split; [reflexivity|]. by apply set_rx_l2cap_len_wf; [|lia].
Qed.

(** The receiver with a fresh header. *)
Definition headed (d : Conn) (payload : list Z) : Conn :=
  set_rx_l2cap_cid (le16 payload 2)
    (set_rx_l2cap_msg_len (Z.to_nat (le16 payload 0)) (set_rx_l2cap_len 0 d)).

Definition starts (d : Conn) (llid : Z) : bool :=
  negb (llid =? LLID_DATA_CONTINUATION_OR_COMPLETE) || (cn_rx_l2cap_len d =? 0)%nat.

(** Exactly when a fragment panics: a signaling response too short, or a
    completed attribute PDU too short for its opcode. *)
Definition l2cap_bad (d : Conn) (payload : list Z) (llid : Z) : bool :=
  if starts d llid then
    (4 <=? length payload)%nat &&
    (((le16 payload 2 =? L2CAP_SIGNALING_CID) && signal_bad d (drop 4 payload)) ||
     ((le16 payload 2 =? L2CAP_ATT_CID) && append_bad (headed d payload) (drop 4 payload)))
  else append_bad d payload.

Lemma headed_wf d payload : wf_conn d -> wf_conn (headed d payload).
Proof. intros Hd. wf_conn_by ltac:(cbn; lia). Qed.

Lemma handle_l2cap_total d payload llid ev : wf_conn d ->
  if l2cap_bad d payload llid then handle_l2cap d payload llid ev = Panic
  else exists d' ev', handle_l2cap d payload llid ev = Ret (d', ev') /\ wf_conn d'.
Proof.
  intros Hd. unfold l2cap_bad, handle_l2cap. fold (starts d llid).
  destruct (starts d llid); [|by apply l2cap_append_total].
  destruct (Nat.ltb_spec (length payload) 4) as [H4|H4].
  { rewrite (proj2 (Nat.leb_gt 4 _)) by done. cbn [andb]. by do 2 eexists. }
  rewrite (proj2 (Nat.leb_le 4 _)) by done. cbn [andb]. cbv zeta.
  do 2 rewrite u16_at_Ret, obind_Ret by lia. rewrite slice_from_Ret, obind_Ret by lia.
  fold (headed d payload). pose proof (headed_wf d payload Hd) as Hh.
  destruct (Z.eqb_spec (le16 payload 2) L2CAP_SMP_CID_LOCAL) as [E6|E6].
  { rewrite E6. change (_ =? L2CAP_SIGNALING_CID) with false.
    change (_ =? L2CAP_ATT_CID) with false. cbn [andb orb].
    destruct (handle_smp_ok (headed d payload) (drop 4 payload) Hh) as (d' & -> & Hw & _).
    rewrite obind_Ret. do 2 eexists. split; [reflexivity|].
    by apply set_rx_l2cap_len_wf; [|lia]. }
  destruct (Z.eqb_spec (le16 payload 2) L2CAP_SIGNALING_CID) as [E5|E5].
  { rewrite E5. change (_ =? L2CAP_ATT_CID) with false. cbn [andb]. rewrite orb_false_r.
    rewrite handle_le_signaling_Ret by done.
    change (signal_bad (headed d payload)) with (signal_bad d).
    destruct (signal_bad d (drop 4 payload)); [done|]. rewrite obind_Ret. do 2 eexists.
    split; [reflexivity|]. apply set_rx_l2cap_len_wf; [by apply signaled_wf|lia]. }
  cbn [andb orb]. destruct (le16 payload 2 =? L2CAP_ATT_CID); cbn [negb andb].
  { by apply l2cap_append_total. }
  assert (H0 : wf_conn (set_rx_l2cap_len 0 (headed d payload)))
    by (apply set_rx_l2cap_len_wf; [done|lia]).
  destruct (match cn_coc _ with Some _ => _ | None => false end); [|by do 2 eexists].
  rewrite rx_coc_sdu_Ret by done.
  pose proof (coc_received_wf _ (drop 4 payload) ev H0) as W.
  destruct (coc_received _ _ _) as [d' ev']. by do 2 eexists.
Qed.

(** A fragment that does not fit the buffer. *)
Lemma tx_fragment_Panic c : wf_conn c -> (cn_tx_frag_offset c <= cn_tx_att_len c)%nat ->
  (62 < frag_len c)%nat -> tx_fragment c = Panic.
Proof.
  intros Hc Ho Hm. pose proof (wf_tx_att c Hc). pose proof (wf_tx_att_len c Hc).
  pose proof (wf_tx_buf c Hc) as Hb.
  assert (Hk : (frag_chunk c <= cn_tx_att_len c - cn_tx_frag_offset c)%nat)
    by (unfold frag_chunk; lia).
  unfold tx_fragment, sub_usize. rewrite (proj2 (Nat.leb_le _ _)), obind_Ret by done.
  cbv zeta. fold (frag_chunk c). rewrite set_idx_first, obind_Ret by lia.
  rewrite set_idx_append, obind_Ret, slice_Ret, obind_Ret by len.
  unfold frag_len in Hm.
  assert (P : forall l a b (src : list Z), length l = 64%nat -> (64 < b)%nat ->
    copy_at l a b src = Panic).
  { intros l a b src Hl Hb'. unfold copy_at.
    rewrite (proj2 (Nat.leb_gt b _)), andb_false_r by lia. done. }
  destruct (cn_tx_frag_offset c =? 0)%nat.
  - rewrite copy_at_append, obind_Ret, copy_at_append, obind_Ret by len.
    by rewrite P by len.
  - by rewrite P by len.
Qed.

(** A message of the security manager that fits one fragment, transferred: the
    peer's security manager is handed the header as an opcode. *)
Lemma smp_transfer c d m fuel ev : wf_conn c -> wf_conn d ->
  queued c = smp_framed m -> (length m = 2 \/ length m = 7 \/ length m = 17)%nat ->
  cn_tx_cid c = L2CAP_SMP_CID -> cn_tx_frag_offset c = 0%nat -> cn_tx_pending c = true ->
  (25 <= cn_tx_pdu_max c <= 62)%nat ->
  exists c' p, transfer (S fuel) c d ev = Ret (c', set_rx_l2cap_len 0 (headed d p), ev) /\
    cn_tx_pending c' = false.
Proof.
  intros Hc Hd Hq Hm Hcid H0 Hp Hmax. pose proof (queued_length c Hc) as Hl.
  rewrite Hq, smp_framed_length in Hl.
  destruct (transfer_S fuel c d ev Hc Hp ltac:(lia) (frag_len_max c ltac:(lia)))
    as (b & Hb & ->).
  assert (Hk : frag_chunk c = cn_tx_att_len c).
  { unfold frag_chunk. rewrite H0. cbn [Nat.eqb]. lia. }
  assert (Ep : frag_payload c = u16_to_le (Z.of_nat (cn_tx_att_len c)) ++
    u16_to_le L2CAP_SMP_CID ++ smp_framed m).
  { unfold frag_payload. rewrite H0, Hcid, Hk, drop_0, Hq. cbn [Nat.eqb].
    rewrite (take_ge (smp_framed m)) by (rewrite smp_framed_length; lia).
    by rewrite <- app_assoc. }
  exists (frag_sent b c), (frag_payload c). rewrite Ep.
  unfold handle_l2cap, frag_llid. rewrite H0, Hk, !Nat.eqb_refl.
  change (LLID_DATA_COMPLETE =? LLID_DATA_CONTINUATION_OR_COMPLETE) with false.
  cbn [negb orb]. set (p := u16_to_le _ ++ _).
  assert (Hp4 : length p = (4 + (4 + length m))%nat).
  { unfold p. rewrite !length_app, smp_framed_length. len. }
  rewrite (proj2 (Nat.ltb_ge _ 4)) by lia. cbv zeta.
  do 2 rewrite u16_at_Ret, obind_Ret by lia. rewrite slice_from_Ret, obind_Ret by lia.
  change (drop 4 p) with (smp_framed m). change (le16 p 2) with L2CAP_SMP_CID.
  change (L2CAP_SMP_CID =? L2CAP_SMP_CID_LOCAL) with true. cbv iota.
  rewrite handle_smp_framed, !obind_Ret by (apply Hd || done).
  assert (Hpe : cn_tx_pending (frag_sent b c) = false).
  { unfold frag_sent. rewrite H0, Hk, Nat.add_0_l, Nat.leb_refl. done. }
  split; [|done]. rewrite transfer_done by done. done.
Qed.

End reassembly.

Lemma Conn_new_ready p ch now r : att_ready (Conn_new p ch now r).
Proof.
  split; [apply Conn_new_wf|]. split; [done|]. split; [done|].
  cbn [cn_tx_pdu_max Conn_new]. unfold LL_PDU_PAYLOAD_DEFAULT. lia.
Qed.

Lemma set_tx_pdu_max_wf n c : wf_conn c -> wf_conn (set_tx_pdu_max n c).
Proof. intros Hc. wf_conn_by fail. Qed.

Lemma with_att_ready m c : att_ready c -> (length m <= 251)%nat -> att_ready (with_att m c).
Proof. intros (Hc & H) Hm. split; [by apply with_att_wf | exact H]. Qed.

(** ** Properties *)

(** C9. A message survives fragmentation: for any queued attribute message and
    any fragment size from 5 to 62, sending the fragments until none is pending
    and feeding each decoded packet to the peer hands the peer's attribute
    protocol exactly the message, once, whatever the peer was reassembling
    before; the sender ends idle with its message and sequence bit unchanged,
    and one fragment per message byte is fuel enough. *)
Theorem att_message_delivered `{!Crypto} fuel c d ev : att_ready c -> wf_conn d ->
  cn_tx_pending c = true -> (cn_tx_att_len c < fuel)%nat ->
  exists c', wf_conn c' /\ cn_tx_pending c' = false /\ cn_tx_frag_offset c' = 0%nat /\
    queued c' = queued c /\ cn_sn c' = cn_sn c /\
    let q := queued c in
    let d0 := receiving d (length q) (length q) (q ++ drop (length q) (cn_rx_l2cap d)) in
    transfer fuel c d ev =
      let! (d', ev') := handle_att d0 q ev in Ret (c', set_rx_l2cap_len 0 d', ev').
Proof.
  intros (Hc & H0 & Hcid & Hm) Hd Hp Hf.
  destruct (transfer_all fuel c d ev Hc Hd Hp H0 Hcid Hm Hf)
    as (c' & (Hw & H1 & H2 & H3 & H4 & _) & E).
  exists c'. auto 10.
Qed.

Lemma att_message_delivered_witness :
  exists c' d' ev', transfer 61 (with_att (replicate 60 0x42)
      (Conn_new (mkConnectReqData 0 0 1 0 24 0 200 [255; 255; 255; 255; 31] 13 2)
        0 0 Master))
    (Conn_new (mkConnectReqData 0 0 1 0 24 0 200 [255; 255; 255; 255; 31] 13 2) 0 0 Slave)
    EvIdle = Ret (c', d', ev').
Proof.
  set (c := with_att _ _).
  destruct (att_message_delivered 61 c (Conn_new (mkConnectReqData 0 0 1 0 24 0 200
    [255; 255; 255; 255; 31] 13 2) 0 0 Slave) EvIdle) as (c' & _ & _ & _ & _ & _ & E).
  - apply with_att_ready; [apply Conn_new_ready | cbn; lia].
  - apply Conn_new_wf.
  - reflexivity.
  - cbn. lia.
  - cbv zeta in E. rewrite E. vm_compute. by do 3 eexists.
Defined.

(** C10. A GATT request end to end: the client queues a request, its fragments
    reach the server, the server's fragments come back, and the client then
    takes a result that is exactly the server's specified answer, with its
    opcode and length - for every request the server answers with an opcode the
    client accepts, any fragment sizes from 5 to 62 on either side, and both
    ends otherwise idle on the attribute channel. *)
Theorem gatt_end_to_end `{!Crypto} fuel c d req r ev ev2 : att_ready c -> att_ready d ->
  (length req <= 251)%nat -> (251 < fuel)%nat -> cn_pending_request d = false ->
  att_op req <> 0x1B -> (att_min (att_op req) <= length req)%nat ->
  att_answer d req = Some r -> is_response (att_op r) = true ->
  exists c1 c2 c3 c4 d1 d2 ev' buf,
    gatt_send_request c req = Ret c1 /\
    transfer fuel c1 d ev = Ret (c2, d1, ev') /\
    transfer fuel d1 c2 ev2 = Ret (d2, c3, ev2) /\
    cn_pending_request c3 = false /\
    gatt_take_result c3 = Ret (c4, (att_op r, buf, length r)) /\
    take (length r) buf = r.
Proof.
  intros Hc (Hd & H0 & Hcid & Hm) Hl Hf Hpd Hno Hmin Hr Ho.
  destruct (request_served fuel c d req r ev Hc Hd Hl Hf Hpd Hno Hmin Hr)
    as (c1 & c2 & d1 & ev' & E1 & E2 & Hw2 & Hp2 & Hwd & Hq & Hpe & F1 & F2 & F3).
  assert (Hd1 : att_ready d1).
  { split; [done|]. split; [congruence|]. split; [congruence|]. lia. }
  assert (Hne : r <> []) by (intros ->; discriminate Ho).
  destruct (answer_taken fuel d1 c2 r ev2 Hd1 Hw2 Hpe Hq Hne
    (att_answer_length _ _ _ Hr) Hf Hp2 Ho) as (d2 & c3 & c4 & buf & E3 & E4 & E5 & E6).
  exists c1, c2, c3, c4, d1, d2, ev', buf. auto 10.
Qed.

Lemma gatt_end_to_end_witness :
  exists c1 c2 c3 c4 d1 d2 ev' buf,
    gatt_send_request (Conn_new (mkConnectReqData 0 0 1 0 24 0 200
      [255; 255; 255; 255; 31] 13 2) 0 0 Master) [0x08; 0x03; 0x28; 1; 0; 255; 255] =
      Ret c1 /\
    transfer 252 c1 (Conn_new (mkConnectReqData 0 0 1 0 24 0 200
      [255; 255; 255; 255; 31] 13 2) 0 0 Slave) EvIdle = Ret (c2, d1, ev') /\
    transfer 252 d1 c2 EvIdle = Ret (d2, c3, EvIdle) /\
    cn_pending_request c3 = false /\
    gatt_take_result c3 = Ret (c4, (0x09, buf, 44%nat)) /\
    take 44 buf = values_answer 9 (select_type 1 65535 GATT_UUID_CHARACTERISTIC).
Proof.
  apply (gatt_end_to_end 252 _ _ [0x08; 0x03; 0x28; 1; 0; 255; 255]
    (values_answer 9 (select_type 1 65535 GATT_UUID_CHARACTERISTIC))).
  - apply Conn_new_ready.
  - apply Conn_new_ready.
  - cbn; lia.
  - lia.
  - reflexivity.
  - discriminate.
  - cbn; lia.
  - reflexivity.
  - reflexivity.
Defined.

(** Fragment bounds: with the offset within the message, [tx_fragment]
    returns exactly when the fragment, with the header of a first one, is at
    most 62 bytes, and panics otherwise - a peer that negotiates a data length
    above 62 makes any longer message panic; when it returns, the packet in the
    transmit buffer decodes to the fragment. *)
Theorem tx_fragment_bounds c : wf_conn c -> (cn_tx_frag_offset c <= cn_tx_att_len c)%nat ->
  if (frag_len c <=? 62)%nat then
    exists c' n p, tx_fragment c = Ret (c', n) /\ wf_conn c' /\ n = (2 + frag_len c)%nat /\
      DataPdu_decode (take n (cn_tx_buf c')) = Ret (Ok p) /\
      dp_llid p = frag_llid c /\ dp_payload p = frag_payload c /\
      dp_nesn p = negb (cn_nesn c) /\ dp_sn p = cn_sn c
  else tx_fragment c = Panic.
Proof.
  intros Hc Ho. destruct (Nat.leb_spec (frag_len c) 62) as [Hf|Hf];
    [|by apply tx_fragment_Panic].
  destruct (tx_fragment_Ret c Hc Ho Hf) as (b & E & Hb & Et).
  exists (frag_sent b c), (2 + length (frag_payload c))%nat. eexists. split; [exact E|].
  split; [by apply frag_sent_wf|].
  split; [rewrite frag_payload_length by done; unfold frag_len; lia|].
  replace (cn_tx_buf (frag_sent b c)) with b
    by (unfold frag_sent; cbv zeta; by destruct (_ <=? _)%nat).
  rewrite Et. split; [by apply fragment_decode|]. cbn [dp_llid dp_payload dp_nesn dp_sn].
  split; [done|]. split; [done|]. unfold ll_header, frag_llid.
  by destruct (cn_tx_frag_offset c =? 0)%nat, (frag_chunk c =? cn_tx_att_len c)%nat,
    (cn_nesn c), (cn_sn c).
Qed.


(** C40. Incoming fragments: [handle_l2cap] panics exactly on a connection
    response shorter than twelve bytes for an open channel and on a completed
    attribute PDU too short for its opcode; otherwise it returns and the
    connection's invariant holds - for every payload, link-layer identifier and
    reassembly state. *)
Theorem handle_l2cap_panics_exactly `{!Crypto} d payload llid ev : wf_conn d ->
  (handle_l2cap d payload llid ev = Panic <-> l2cap_bad d payload llid = true) /\
  (forall d' ev', handle_l2cap d payload llid ev = Ret (d', ev') -> wf_conn d').
Proof.
  intros Hd. pose proof (handle_l2cap_total d payload llid ev Hd) as T.
  destruct (l2cap_bad d payload llid).
  - rewrite T. split; [done|congruence].
  - destruct T as (d' & ev' & -> & Hw). split; [done|].
    intros d1 ev1 E. apply Ret_inj, pair_eq in E as [<- _]. done.
Qed.

Lemma handle_l2cap_panics_exactly_witness :
  handle_l2cap (Conn_new (mkConnectReqData 0 0 1 0 24 0 200 [255; 255; 255; 255; 31] 13 2)
    0 0 Slave) [1; 0; 4; 0; 0x0A] 3 EvIdle = Panic.
Proof.
  apply (handle_l2cap_panics_exactly (Conn_new (mkConnectReqData 0 0 1 0 24 0 200
    [255; 255; 255; 255; 31] 13 2) 0 0 Slave) [1; 0; 4; 0; 0x0A] 3 EvIdle).
  - apply Conn_new_wf.
  - reflexivity.
Defined.

(** Pairing messages are framed twice: whatever security manager message a
    device queues in answer to a PDU, sending it to a peer that runs the same
    code leaves the peer's pairing state, queue and event as they were - the
    fragmenter puts a second L2CAP header in front, so the peer reads the
    length byte as the opcode. *)
Theorem smp_reply_framed_twice `{!Crypto} c d body c1 fuel ev : wf_conn c -> wf_conn d ->
  handle_smp c body = Ret c1 -> cn_tx_pending c = false -> cn_tx_pending c1 = true ->
  (25 <= cn_tx_pdu_max c <= 62)%nat ->
  exists c2 d', transfer (S fuel) c1 d ev = Ret (c2, d', ev) /\
    cn_tx_pending c2 = false /\
    cn_smp d' = cn_smp d /\ cn_pairing_in_progress d' = cn_pairing_in_progress d /\
    queued d' = queued d /\ cn_tx_pending d' = cn_tx_pending d /\
    cn_pending_control d' = cn_pending_control d.
Proof.
  intros Hc Hd E Hp Hp1 Hm. destruct (handle_smp_ok c body Hc) as (c1' & E' & Hw & Hx & Hs).
  assert (c1' = c1) as -> by (apply Ret_inj; congruence).
  destruct Hs as [[_ Hs]|(m & Hml & Hq & Hcid & H0 & _)]; [congruence|].
  destruct (smp_transfer c1 d m fuel ev Hw Hd Hq Hml Hcid H0 Hp1 ltac:(lia))
    as (c2 & p & ET & Hp2).
  exists c2, (set_rx_l2cap_len 0 (headed d p)). by repeat split.
Qed.

(** A response or notification queued while another is partly sent: the
    attribute path keeps the fragment offset. If the new message is shorter than
    what was already sent, the next fragment panics; otherwise the next fragment
    continues the old message with the new one's bytes, and the first bytes of
    the new message are never sent. *)
Theorem requeue_mid_message c msg : wf_conn c -> (0 < cn_tx_frag_offset c)%nat ->
  (1 <= cn_tx_pdu_max c <= 62)%nat -> (length msg <= 251)%nat ->
  exists c', queue_att c msg = Ret c' /\
    if (length msg <? cn_tx_frag_offset c)%nat then tx_fragment c' = Panic
    else exists c2 n p, tx_fragment c' = Ret (c2, n) /\
      DataPdu_decode (take n (cn_tx_buf c2)) = Ret (Ok p) /\
      dp_llid p = LLID_DATA_CONTINUATION_OR_COMPLETE /\
      dp_payload p = take (cn_tx_pdu_max c) (drop (cn_tx_frag_offset c) msg).
Proof.
  intros Hc Ho Hx Hm. exists (with_att msg c).
  split; [by apply queue_att_Ret; [apply Hc|]|].
  destruct (Nat.ltb_spec (length msg) (cn_tx_frag_offset c)) as [Hl|Hl].
  { unfold tx_fragment, sub_usize. cbn [cn_tx_att_len cn_tx_frag_offset with_att
      set_tx_pending set_tx_att_len set_tx_att].
    by rewrite (proj2 (Nat.leb_gt _ _)) by lia. }
  pose proof (with_att_wf msg c Hc Hm) as Hw. pose proof (queued_with_att msg c) as Eq.
  assert (Eo : cn_tx_frag_offset (with_att msg c) = cn_tx_frag_offset c) by reflexivity.
  assert (El : cn_tx_att_len (with_att msg c) = length msg) by reflexivity.
  assert (Ex : cn_tx_pdu_max (with_att msg c) = cn_tx_pdu_max c) by reflexivity.
  generalize dependent (with_att msg c). intros c1 Hw Eq Eo El Ex.
  assert (En : (cn_tx_frag_offset c1 =? 0)%nat = false) by (apply Nat.eqb_neq; lia).
  assert (Hf : (frag_len c1 <= 62)%nat) by (unfold frag_len, frag_chunk;
    rewrite En, Ex; lia).
  destruct (tx_fragment_Ret c1 Hw ltac:(lia) Hf) as (b & -> & Hb & Hp).
  do 3 eexists. split; [reflexivity|].
  replace (cn_tx_buf (frag_sent b c1)) with b
    by (unfold frag_sent; cbv zeta; by destruct (_ <=? _)%nat).
  rewrite Hp, fragment_decode by (done || lia). split; [reflexivity|].
  cbn [dp_llid dp_payload]. unfold frag_llid, frag_payload, frag_chunk.
  rewrite En, Eq, El, Eo, Ex. split; [done|]. cbn [app].
  rewrite <- length_drop. apply take_min_length.
Qed.

