(* ===== verification/Frame.v ===== *)
(** What the upper layers leave alone ([src/hw/conn.rs]): whatever the
    attribute protocol, the credit-based channel, the security manager and the
    reassembly do with a fragment, the link layer's part of the connection
    (its parameters, channel, sequence bits, counters, cipher and buffers)
    stays as it is. *)

From stdpp Require Import base numbers list.
From S2P Require Import Prelude Errors Timers Pdu Events BondStore Crypto Smp Ccm Gatt.
From S2P Require Import Conn Att CocChannel SmpChannel L2cap.

(** The link layer's part of a connection. *)
Record Link := mkLink {
  lk_role : ConnRole;
  lk_access_addr : Z;
  lk_crc_init : Z;
  lk_interval : Z;
  lk_timeout : Z;
  lk_channel_map : list Z;
  lk_hop : Z;
  lk_channel : Z;
  lk_sn : bool;
  lk_nesn : bool;
  lk_anchor : Z;
  lk_accum : IntervalAccum;
  lk_tx_pdu_max : nat;
  lk_rx_pdu_max : nat;
  lk_last_rx : Z;
  lk_terminate_pending : bool;
  lk_tx_buf : list Z;
  lk_rx_buf : list Z;
  lk_event_counter : Z;
  lk_pending_update : option (Z * Z);
  lk_pending_update_instant : Z;
  lk_encrypted : bool;
  lk_packet_counter : Z;
  lk_ccm : Ccm
}.

Definition link (c : Conn) : Link :=
  mkLink (cn_role c) (cn_access_addr c) (cn_crc_init c) (cn_interval c) (cn_timeout c)
    (cn_channel_map c) (cn_hop c) (cn_channel c) (cn_sn c) (cn_nesn c) (cn_anchor c)
    (cn_accum c) (cn_tx_pdu_max c) (cn_rx_pdu_max c) (cn_last_rx c)
    (cn_terminate_pending c) (cn_tx_buf c) (cn_rx_buf c) (cn_event_counter c)
    (cn_pending_update c) (cn_pending_update_instant c) (cn_encrypted c)
    (cn_packet_counter c) (cn_ccm c).

(** A computation that, if it returns, leaves the part [v] of [c]. *)
Definition keeps {X A} (v : Conn -> X) (p : A -> Conn) (c : Conn) (m : outcome A) : Prop :=
  match m with Ret a => v (p a) = v c | Panic => True end.

Create Rewrite HintDb link.
Create HintDb frame discriminated.

(** ** The fields of the upper layers *)

Lemma link_rx_l2cap v c : link (set_rx_l2cap v c) = link c. Proof. reflexivity. Qed.
Lemma link_rx_l2cap_len v c : link (set_rx_l2cap_len v c) = link c.
Proof. reflexivity. Qed.
Lemma link_rx_l2cap_msg_len v c : link (set_rx_l2cap_msg_len v c) = link c.
Proof. reflexivity. Qed.
Lemma link_rx_l2cap_cid v c : link (set_rx_l2cap_cid v c) = link c.
Proof. reflexivity. Qed.
Lemma link_tx_att v c : link (set_tx_att v c) = link c. Proof. reflexivity. Qed.
Lemma link_tx_att_len v c : link (set_tx_att_len v c) = link c. Proof. reflexivity. Qed.
Lemma link_tx_frag_offset v c : link (set_tx_frag_offset v c) = link c.
Proof. reflexivity. Qed.
Lemma link_tx_pending v c : link (set_tx_pending v c) = link c. Proof. reflexivity. Qed.
Lemma link_tx_cid v c : link (set_tx_cid v c) = link c. Proof. reflexivity. Qed.
Lemma link_att_mtu v c : link (set_att_mtu v c) = link c. Proof. reflexivity. Qed.
Lemma link_coc v c : link (set_coc v c) = link c. Proof. reflexivity. Qed.
Lemma link_nus_cccd v c : link (set_nus_cccd v c) = link c. Proof. reflexivity. Qed.
Lemma link_rx_data v c : link (set_rx_data v c) = link c. Proof. reflexivity. Qed.
Lemma link_rx_data_len v c : link (set_rx_data_len v c) = link c.
Proof. reflexivity. Qed.
Lemma link_pending_request v c : link (set_pending_request v c) = link c.
Proof. reflexivity. Qed.
Lemma link_smp v c : link (set_smp v c) = link c. Proof. reflexivity. Qed.
Lemma link_want_encrypt v c : link (set_want_encrypt v c) = link c.
Proof. reflexivity. Qed.
Lemma link_pairing v c : link (set_pairing_in_progress v c) = link c.
Proof. reflexivity. Qed.
Lemma link_pending_control v c : link (set_pending_control v c) = link c.
Proof. reflexivity. Qed.
Lemma link_gatt_result v c : link (set_gatt_result v c) = link c.
Proof. reflexivity. Qed.
Lemma link_gatt_result_len v c : link (set_gatt_result_len v c) = link c.
Proof. reflexivity. Qed.
#[export] Hint Rewrite link_rx_l2cap link_rx_l2cap_len link_rx_l2cap_msg_len
  link_rx_l2cap_cid link_tx_att link_tx_att_len link_tx_frag_offset link_tx_pending
  link_tx_cid link_att_mtu link_coc link_nus_cccd link_rx_data link_rx_data_len
  link_pending_request link_smp link_want_encrypt link_pairing link_pending_control
  link_gatt_result link_gatt_result_len : link.

(** ** Composition *)

Section keeps.
Context {X : Type} (v : Conn -> X).

Lemma keeps_bind {A B} (p : B -> Conn) c (m : outcome A) (f : A -> outcome B) :
  (forall a, keeps v p c (f a)) -> keeps v p c (obind m f).
Proof. intros H. destruct m; [apply H|done]. Qed.

Lemma keeps_seq {A B} (q : A -> Conn) (p : B -> Conn) c1 c (m : outcome A)
    (f : A -> outcome B) :
  keeps v q c1 m -> v c1 = v c -> (forall a, v (q a) = v c -> keeps v p c (f a)) ->
  keeps v p c (obind m f).
Proof.
  destruct m as [a|]; [|done]. cbn [keeps obind]. intros H1 H2 H3. apply H3. congruence.
Qed.

Lemma keeps_from {A} (p : A -> Conn) c1 c (m : outcome A) :
  keeps v p c1 m -> v c1 = v c -> keeps v p c m.
Proof. destruct m; cbn [keeps]; congruence. Qed.

Lemma keeps_Ret {A} (p : A -> Conn) c m a : keeps v p c m -> m = Ret a -> v (p a) = v c.
Proof. by intros K ->. Qed.

End keeps.

(** Go through a computation's binds, branches and results. *)
Ltac link_eq := cbn [fst snd]; autorewrite with link; (reflexivity || assumption).
Ltac frame :=
  repeat first
    [ progress cbv zeta
    | match goal with
      | |- forall _, _ => intros
      | p : _ * _ |- _ => destruct p
      | |- keeps _ _ _ (obind _ _) =>
          eapply keeps_seq; [solve [eauto with frame nocore] | link_eq | ]
      | |- keeps _ _ _ (obind _ _) => apply keeps_bind
      | |- keeps _ _ _ (Ret _) => unfold keeps; link_eq
      | |- keeps _ _ _ (match ?x with _ => _ end) => destruct x
      | |- keeps _ _ _ Panic => exact I
      | |- ?v _ = ?v _ => link_eq
      | |- keeps _ _ _ _ =>
          eapply keeps_from; [solve [eauto with frame nocore] | link_eq]
      end ].

(** ** Queueing *)

Lemma queue_att_keeps c m : keeps link id c (queue_att c m).
Proof. unfold queue_att. frame. Qed.
Lemma queue_signaling_keeps c m : keeps link id c (queue_signaling c m).
Proof. unfold queue_signaling. frame. Qed.
Lemma queue_l2cap_keeps c m cid : keeps link id c (queue_l2cap c m cid).
Proof. unfold queue_l2cap. frame. Qed.
Lemma queue_encrypt_req_keeps c : keeps link id c (queue_encrypt_req c).
Proof. unfold queue_encrypt_req. frame. Qed.
#[export] Hint Resolve queue_att_keeps queue_signaling_keeps queue_l2cap_keeps
  queue_encrypt_req_keeps : frame.

(** ** The handlers *)

Lemma write_keeps c h v ev : keeps link (fun r => fst (fst r)) c (write c h v ev).
Proof. unfold write. frame. Qed.
Lemma notification_keeps c att : keeps link fst c (notification c att).
Proof. unfold notification. frame. Qed.
Lemma response_keeps c op att : keeps link id c (response c op att).
Proof. unfold response. apply keeps_seq with (q := id) (c1 := c); frame. Qed.
#[export] Hint Resolve write_keeps notification_keeps response_keeps : frame.

Lemma handle_att_keeps c att ev : keeps link fst c (handle_att c att ev).
Proof. unfold handle_att, write_request, write_command. frame. Qed.

Lemma handle_le_signaling_keeps c body : keeps link id c (handle_le_signaling c body).
Proof. unfold handle_le_signaling. frame. Qed.

Lemma rx_coc_sdu_keeps c body ev : keeps link fst c (rx_coc_sdu c body ev).
Proof. unfold rx_coc_sdu. frame. Qed.
#[export] Hint Resolve handle_att_keeps handle_le_signaling_keeps rx_coc_sdu_keeps : frame.

Section handlers.
Context `{!Crypto}.

Lemma smp_finish_keeps c out n complete : keeps link id c (smp_finish c out n complete).
Proof.
  unfold smp_finish. apply keeps_seq with (q := id) (c1 := c); frame.
Qed.
#[local] Hint Resolve smp_finish_keeps : frame.

Lemma handle_smp_keeps c body : keeps link id c (handle_smp c body).
Proof.
  unfold handle_smp, smp_security_request, smp_pairing_request, smp_pairing_response,
    smp_pairing_confirm, smp_pairing_random. frame.
Qed.
#[local] Hint Resolve handle_smp_keeps : frame.

Lemma l2cap_append_keeps c body ev : keeps link fst c (l2cap_append c body ev).
Proof. unfold l2cap_append. frame. Qed.
#[local] Hint Resolve l2cap_append_keeps : frame.

Lemma handle_l2cap_keeps c payload llid ev : keeps link fst c (handle_l2cap c payload llid ev).
Proof. unfold handle_l2cap. frame. Qed.

End handlers.
#[export] Hint Resolve handle_l2cap_keeps : frame.
