(* ===== verification/Radio.v ===== *)
(** The radio and the timer ([src/hw/radio.rs], [src/hw/timers.rs]): the
    registers the drivers write, the packets they put on the air, and the
    hardware they wait for.

    The hardware is an environment [Env]: what each read of the timer gives,
    whether the receiver has finished at each poll and with which checksum, and
    the bytes it has written from its packet pointer on by then. The drivers'
    state is a [World]: the registers, how much memory there is at the packet
    pointer, how often the hardware was read, and which slices were given to the
    transmitter under which registers. A driver's own busy wait for the radio to
    ramp up or to finish transmitting is taken to end.

    Nothing keeps the receiver within the buffer: [radio_init] lets it write as
    many bytes as an eight bit length field says, and a buffer may be shorter.
    A write past the end is a fault of its own, [Overrun], after which the memory
    is not what the program put there and nothing is said. *)

From stdpp Require Import base numbers list.
From S2P Require Import Prelude Errors Channels.

(** ** The hardware *)

Class Env := {
  env_now : nat -> Z;               (* the i-th capture of the timer *)
  env_compare : nat -> bool;        (* the i-th read of the compare event *)
  env_end : nat -> option bool;     (* the i-th poll: not finished, or CRC ok *)
  env_dma : nat -> list Z;          (* written by the i-th poll *)
  env_rssi : nat -> Z;              (* the signal strength sampled by then *)
  env_now_range i : 0 <= env_now i < 2 ^ 24;
  env_dma_bytes i : bytes (env_dma i);
  (* a byte S0, a length byte, and as many bytes as it says *)
  env_dma_max i : (length (env_dma i) <= 2 + 255)%nat
}.

(** A concrete environment: a timer that counts its reads, a compare event that
    has fired, and the same packet received, with a good checksum, at the first
    poll of every window. *)
#[refine] Definition packet_env (p : list Z) (Hp : bytes p) : Env := {|
  env_now i := Z.of_nat i mod 2 ^ 24;
  env_compare _ := true;
  env_end _ := Some true;
  env_dma _ := take 257 p;
  env_rssi _ := -40
|}.
Proof.
  - intros i. by apply Z.mod_pos_bound.
  - intros _. exact (bytes_take 257 p Hp).
  - intros _. exact (firstn_le_length 257 p).
Defined.

(** One where nothing is ever received, with the timer at [t]. *)
#[refine] Definition silent_env (t : Z) (Ht : 0 <= t < 2 ^ 24) : Env := {|
  env_now _ := t;
  env_compare _ := true;
  env_end _ := None;
  env_dma _ := [];
  env_rssi _ := -40
|}.
Proof.
  - intros _. exact Ht.
  - intros _. constructor.
  - intros _. cbn. lia.
Defined.

(** The radio's registers, as far as the drivers write them. *)
Inductive RadioMode : Type := Mode1M | Mode2M | ModeLR125 | ModeLR500.
Inductive Preamble : Type := Plen8 | Plen16 | PlenLong.

Record RadioRegs := mkRadioRegs {
  rg_mode : RadioMode;
  rg_s1len : Z;
  rg_plen : Preamble;
  rg_lflen : Z;
  rg_s0len : bool;
  rg_s1incl : bool;
  rg_maxlen : Z;
  rg_balen : Z;
  rg_statlen : Z;
  rg_big_endian : bool;
  rg_whiteen : bool;
  rg_crclen : Z;
  rg_crc_skipaddr : bool;
  rg_crcinit : Z;
  rg_crcpoly : Z;
  rg_base0 : Z;
  rg_prefix0 : Z;
  rg_txaddress : Z;
  rg_rxaddresses : Z;
  rg_frequency : Z;
  rg_datawhiteiv : Z;
  rg_txpower : Z
}.

(** The reset values. *)
Definition RadioRegs_reset : RadioRegs :=
  mkRadioRegs Mode1M 0 Plen8 0 false false 0 0 0 false false 0 false 0 0 0 0 0 0 2 0x40 0.

Definition RadioRegs_eta (s : RadioRegs) : RadioRegs :=
  mkRadioRegs (rg_mode s) (rg_s1len s) (rg_plen s) (rg_lflen s) (rg_s0len s) (rg_s1incl s)
    (rg_maxlen s) (rg_balen s) (rg_statlen s) (rg_big_endian s) (rg_whiteen s)
    (rg_crclen s) (rg_crc_skipaddr s) (rg_crcinit s) (rg_crcpoly s) (rg_base0 s)
    (rg_prefix0 s) (rg_txaddress s) (rg_rxaddresses s) (rg_frequency s)
    (rg_datawhiteiv s) (rg_txpower s).

Definition set_rg_mode : RadioMode -> RadioRegs -> RadioRegs :=
  ltac:(record_setter RadioRegs_eta rg_mode).
Definition set_rg_s1len : Z -> RadioRegs -> RadioRegs :=
  ltac:(record_setter RadioRegs_eta rg_s1len).
Definition set_rg_plen : Preamble -> RadioRegs -> RadioRegs :=
  ltac:(record_setter RadioRegs_eta rg_plen).
Definition set_rg_crcinit : Z -> RadioRegs -> RadioRegs :=
  ltac:(record_setter RadioRegs_eta rg_crcinit).
Definition set_rg_base0 : Z -> RadioRegs -> RadioRegs :=
  ltac:(record_setter RadioRegs_eta rg_base0).
Definition set_rg_prefix0 : Z -> RadioRegs -> RadioRegs :=
  ltac:(record_setter RadioRegs_eta rg_prefix0).
Definition set_rg_txaddress : Z -> RadioRegs -> RadioRegs :=
  ltac:(record_setter RadioRegs_eta rg_txaddress).
Definition set_rg_rxaddresses : Z -> RadioRegs -> RadioRegs :=
  ltac:(record_setter RadioRegs_eta rg_rxaddresses).
Definition set_rg_frequency : Z -> RadioRegs -> RadioRegs :=
  ltac:(record_setter RadioRegs_eta rg_frequency).
Definition set_rg_datawhiteiv : Z -> RadioRegs -> RadioRegs :=
  ltac:(record_setter RadioRegs_eta rg_datawhiteiv).
Definition set_rg_txpower : Z -> RadioRegs -> RadioRegs :=
  ltac:(record_setter RadioRegs_eta rg_txpower).

(** The timer's registers: its mode is timer or counter. *)
Record TimerRegs := mkTimerRegs {
  tg_timer_mode : bool;
  tg_prescaler : Z;
  tg_bits : Z;
  tg_running : bool
}.

Definition TimerRegs_reset : TimerRegs := mkTimerRegs true 4 16 false.

(** The drivers' state. *)
Record World := mkWorld {
  w_regs : RadioRegs;
  w_cc0 : Z;                              (* the armed compare value *)
  w_reads : nat;                          (* captures of the timer so far *)
  w_compares : nat;                       (* reads of the compare event *)
  w_polls : nat;                          (* polls of the receiver *)
  w_sent : list (RadioRegs * list Z);     (* slices transmitted, oldest first *)
  w_timer : TimerRegs;
  w_rx_room : nat                         (* bytes of the buffer to receive into *)
}.

Definition World_eta (s : World) : World :=
  mkWorld (w_regs s) (w_cc0 s) (w_reads s) (w_compares s) (w_polls s) (w_sent s)
    (w_timer s) (w_rx_room s).

Definition set_w_regs : RadioRegs -> World -> World := ltac:(record_setter World_eta w_regs).
Definition set_w_cc0 : Z -> World -> World := ltac:(record_setter World_eta w_cc0).
Definition set_w_reads : nat -> World -> World := ltac:(record_setter World_eta w_reads).
Definition set_w_compares : nat -> World -> World :=
  ltac:(record_setter World_eta w_compares).
Definition set_w_polls : nat -> World -> World := ltac:(record_setter World_eta w_polls).
Definition set_w_sent : list (RadioRegs * list Z) -> World -> World :=
  ltac:(record_setter World_eta w_sent).
Definition set_w_timer : TimerRegs -> World -> World := ltac:(record_setter World_eta w_timer).
Definition set_w_rx_room : nat -> World -> World :=
  ltac:(record_setter World_eta w_rx_room).

(** ** The radio driver *)

(** Power levels, those that only some chips have included, and the dBm value of
    their register field. *)
Inductive TxPower : Type :=
| Neg40Dbm | Neg30Dbm | Neg20Dbm | Neg16Dbm | Neg12Dbm | Neg8Dbm | Neg4Dbm | ZeroDbm
| Pos3Dbm | Pos4Dbm | Pos2Dbm | Pos5Dbm | Pos6Dbm | Pos7Dbm | Pos8Dbm.

Definition txpower_field (p : TxPower) : Z :=
  match p with
  | Neg40Dbm => -40 | Neg30Dbm => -30 | Neg20Dbm => -20 | Neg16Dbm => -16
  | Neg12Dbm => -12 | Neg8Dbm => -8 | Neg4Dbm => -4 | ZeroDbm => 0 | Pos3Dbm => 3
  | Pos4Dbm => 4 | Pos2Dbm => 2 | Pos5Dbm => 5 | Pos6Dbm => 6 | Pos7Dbm => 7
  | Pos8Dbm => 8
  end.

Inductive Phy : Type := Ble1Mbit | Ble2Mbit | BleCodedS8 | BleCodedS2.

Definition set_phy (phy : Phy) (w : World) : World :=
  let r := w_regs w in
  let r :=
    match phy with
    | Ble1Mbit => set_rg_plen Plen8 (set_rg_s1len 0 (set_rg_mode Mode1M r))
    | Ble2Mbit => set_rg_plen Plen16 (set_rg_s1len 8 (set_rg_mode Mode2M r))
    | BleCodedS8 => set_rg_plen PlenLong (set_rg_s1len 8 (set_rg_mode ModeLR125 r))
    | BleCodedS2 => set_rg_plen PlenLong (set_rg_s1len 8 (set_rg_mode ModeLR500 r))
    end in
  set_w_regs r w.

Definition set_access_address (aa : Z) (w : World) : World :=
  let '(base, prefix) := access_address_to_base_prefix aa in
  let r := w_regs w in
  let r := set_rg_base0 base r in
  let r := set_rg_prefix0 prefix r in
  let r := set_rg_txaddress 0 r in
  let r := set_rg_rxaddresses 1 r in
  set_w_regs r w.

Definition set_channel (channel : Z) (w : World) : World * result unit Error :=
  match channel_frequency channel with
  | Ok f =>
      let freq := f - 2400 in
      let r := w_regs w in
      let r := set_rg_frequency (u8 freq) r in
      let r := set_rg_datawhiteiv (0x40 .| (channel .& 0x3F)) r in
      (set_w_regs r w, Ok tt)
  | Err e => (w, Err e)
  end.

Definition set_crc_init (init : Z) (w : World) : World :=
  set_w_regs (set_rg_crcinit init (w_regs w)) w.

Definition set_tx_power (power : TxPower) (w : World) : World :=
  set_w_regs (set_rg_txpower (txpower_field power) (w_regs w)) w.

(** [write] sets the fields it does not name to their reset value. *)
Definition radio_init (w : World) : World :=
  let r := w_regs w in
  let r := mkRadioRegs Mode1M 0 Plen8 8 true false 255 3 0 false true 3 true 0x555555 0x65B
             (rg_base0 r) (rg_prefix0 r) (rg_txaddress r) (rg_rxaddresses r)
             (rg_frequency r) (rg_datawhiteiv r) (rg_txpower r) in
  let w := set_w_regs r w in
  let w := set_access_address ADV_ACCESS_ADDRESS w in
  let w := set_tx_power ZeroDbm w in
  fst (set_channel (default 0 (ADV_CHANNELS !! 0%nat)) w).

(** The packet pointer is set to the slice. The radio does not know the slice's
    length: what it sends is [aired]. *)
Definition transmit (pdu : list Z) (w : World) : World :=
  set_w_sent (w_sent w ++ [(w_regs w, pdu)]) w.

(** What the radio sends of a slice with [beyond] after it in memory: S0, the
    length byte, and as many bytes as that one says. *)
Definition aired (pdu beyond : list Z) : list Z :=
  take (2 + Z.to_nat (nth 1 pdu 0%Z)) (pdu ++ beyond).

(** The receiver runs, with its packet pointer at the buffer; the hardware fills
    it, whatever its length. *)
Definition receive_start (buf : list Z) (w : World) : World :=
  set_w_rx_room (length buf) w.
Definition receive_cancel (w : World) : World := w.

(** [BtTimer::init]; from here on the environment's captures count. *)
Definition timer_init (w : World) : World :=
  let r := w_timer w in
  let r := mkTimerRegs true (tg_prescaler r) (tg_bits r) (tg_running r) in
  let r := mkTimerRegs (tg_timer_mode r) 9 (tg_bits r) (tg_running r) in
  let r := mkTimerRegs (tg_timer_mode r) (tg_prescaler r) 24 (tg_running r) in
  let r := mkTimerRegs (tg_timer_mode r) (tg_prescaler r) (tg_bits r) true in
  set_w_timer r w.

Section drivers.
Context `{!Env}.

(** The receive buffer after the hardware has written [d] to its front. *)
Definition dma (d buf : list Z) : list Z := d ++ drop (length d) buf.

(** The buffer as the poll sees it, and the result. *)
Definition receive_poll (buf : list Z) (w : World)
    : run (World * list Z * result (option nat) Error) :=
  let i := w_polls w in
  if (w_rx_room w <? length (env_dma i))%nat then Fault Overrun else
  let buf := dma (env_dma i) buf in
  let w := set_w_polls (S i) w in
  match env_end i with
  | None => Done (w, buf, Ok None)
  | Some crc_ok =>
      do* b1 := idx buf 1 in
      let pdu_len := (2 + Z.to_nat ((b1 .>> 1) .& 0x3F))%nat in
      if negb crc_ok then Done (w, buf, Err CrcMismatch)
      else Done (w, buf, Ok (Some pdu_len))
  end.

(** The last sample. *)
Definition rssi (w : World) : Z := env_rssi (w_polls w).

(** ** The timer driver *)

Definition now (w : World) : World * Z :=
  (set_w_reads (S (w_reads w)) w, env_now (w_reads w)).

Definition set_compare (value : Z) (w : World) : World := set_w_cc0 value w.

Definition compare_pending (w : World) : World * bool :=
  (set_w_compares (S (w_compares w)) w, env_compare (w_compares w)).

Definition clear_compare (w : World) : World := w.

(** [while !timer.compare_pending() {}] *)
Fixpoint wait_compare (fuel : nat) (w : World) : run World :=
  match fuel with
  | O => OutOfFuel
  | S fuel =>
      let '(w, p) := compare_pending w in
      if p then Done w else wait_compare fuel w
  end.

(** ** Lemmas *)

Lemma dma_length d buf : (length d <= length buf)%nat -> length (dma d buf) = length buf.
Proof. unfold dma. rewrite length_app, length_drop. lia. Qed.

Lemma dma_bytes d buf : bytes d -> bytes buf -> bytes (dma d buf).
Proof. intros Hd Hb. unfold dma. apply bytes_app. split; [done|]. by apply bytes_drop. Qed.

(** A packet with no room in the buffer overwrites what is after it. *)
Lemma receive_poll_overruns buf w : (w_rx_room w < length (env_dma (w_polls w)))%nat ->
  receive_poll buf w = Fault Overrun.
Proof. intros Hr%Nat.ltb_lt. unfold receive_poll. by rewrite Hr. Qed.

Lemma receive_poll_Done buf w : (2 <= length buf)%nat -> w_rx_room w = length buf ->
  let i := w_polls w in
  let buf' := dma (env_dma i) buf in
  (length (env_dma i) <= length buf)%nat ->
  receive_poll buf w = Done (set_w_polls (S i) w, buf',
    match env_end i with
    | None => Ok None
    | Some false => Err CrcMismatch
    | Some true => Ok (Some (2 + Z.to_nat ((nth 1 buf' 0%Z .>> 1) .& 0x3F))%nat)
    end).
Proof.
  intros Hb Hr i buf' Hd. unfold receive_poll. fold i. fold buf'.
  rewrite Hr, (proj2 (Nat.ltb_ge _ _)) by done.
  destruct (env_end i) as [ok|]; [|done].
  assert (Hl : (1 < length buf')%nat) by (unfold buf'; rewrite dma_length; lia).
  destruct (lookup_lt_is_Some_2 buf' 1 Hl) as [x Hx].
  rewrite (idx_Some _ _ _ Hx), lift_Ret, rbind_Done, nth_lookup, Hx. by destruct ok.
Qed.

End drivers.

(** The radio's channel: its frequency and whitening follow the index. *)
Lemma set_channel_Ok ch w : 0 <= ch <= 39 ->
  exists f, channel_frequency ch = Ok f /\ 2402 <= f <= 2480 /\
  set_channel ch w = (set_w_regs (set_rg_datawhiteiv (0x40 + ch)
    (set_rg_frequency (f - 2400) (w_regs w))) w, Ok tt).
Proof.
  intros Hch. destruct (channel_frequency_total ch Hch) as [f Ef].
  pose proof (channel_frequency_Ok ch f Ef). exists f. split; [done|]. split; [done|].
  unfold set_channel. rewrite Ef, u8_id by (ranges; lia).
  replace (0x40 .| (ch .& 0x3F)) with (0x40 + ch); [done|].
  change 0x3F with (Z.ones 6). rewrite Z.land_ones, Z.mod_small by lia.
  rewrite Z.lor_comm. change 0x40 with (Z.shiftl 1 6).
  rewrite lor_shiftl_add by lia. change (Z.shiftl 1 6) with (2 ^ 6 * 1). lia.
Qed.
