(* ===== verification/LinkLayer.v ===== *)
(** The link layer of a connection ([src/hw/conn.rs]): control PDUs, the
    encrypted and plain transmit and receive paths, and a connection event in
    either role, over the radio and the timer of [Radio.v]. *)

From stdpp Require Import base numbers list.
From S2P Require Import Prelude Errors Channels Timers Pdu Events BondStore Crypto Smp.
From S2P Require Import Ccm Gatt Conn Att CocChannel SmpChannel L2cap Radio.

(** ** The source's definitions *)

(** A data packet's first bytes in the transmit buffer. *)
Definition put_header (self : Conn) (llid len : Z) : outcome Conn :=
  let! b := set_idx (cn_tx_buf self) 0 (ll_header self llid) in
  let! b := set_idx b 1 len in
  Ret (set_tx_buf b self).

Section link_layer.
Context `{Hcrypto : Crypto, Hccm : CcmHw, Henv : Env}.

Definition tx (self : Conn) (w : World) (len : nat) : outcome (Conn * World) :=
  if cn_encrypted self then
    let direction := match cn_role self with
      | Master => LL_NONCE_MASTER_TO_SLAVE
      | Slave => LL_NONCE_SLAVE_TO_MASTER
      end in
    let! ccm := Ccm_setup (cn_ccm self) (smp_stk (cn_smp self)) (cn_packet_counter self)
                  direction in
    let! (ccm, buf, ok) := Ccm_process ccm false (cn_tx_buf self) len in
    let self := set_tx_buf buf (set_ccm ccm self) in
    if ok then
      let! p := slice_to (cn_tx_buf self) (len + LL_MIC_LEN) in
      Ret (self, transmit p w)
    else Ret (self, w)
  else
    let! p := slice_to (cn_tx_buf self) len in
    Ret (self, transmit p w).

Definition rx (self : Conn) (len : nat) : outcome (Conn * bool) :=
  if cn_encrypted self then
    let direction := match cn_role self with
      | Master => LL_NONCE_SLAVE_TO_MASTER
      | Slave => LL_NONCE_MASTER_TO_SLAVE
      end in
    let! ccm := Ccm_setup (cn_ccm self) (smp_stk (cn_smp self)) (cn_packet_counter self)
                  direction in
    let! (ccm, buf, ok) := Ccm_process ccm true (cn_rx_buf self) len in
    Ret (set_rx_buf buf (set_ccm ccm self), ok)
  else Ret (self, true).

Definition respond (self : Conn) (w : World) : outcome (Conn * World) :=
  match cn_pending_control self with
  | Some ctrl =>
      let self := set_pending_control None self in
      let plen := 18%nat in
      let! self := put_header self LLID_CONTROL (u8 (Z.of_nat plen)) in
      let! c := slice_to ctrl plen in
      let! b := copy_at (cn_tx_buf self) 2 (2 + plen) c in
      tx (set_tx_buf b self) w (2 + plen)
  | None =>
      if cn_tx_pending self then
        let! (self, total) := tx_fragment self in
        let self := set_sn (negb (cn_sn self)) self in
        tx self w total
      else
        let! self := put_header self LLID_DATA_COMPLETE 0 in
        tx self w 2
  end.

(** The packet that ends a connection. *)
Definition send_terminate (self : Conn) (w : World) : outcome (Conn * World) :=
  let! self := put_header self LLID_CONTROL 2 in
  let! b := set_idx (cn_tx_buf self) 2 LL_CONTROL_TERMINATE_IND in
  let! b := set_idx b 3 0x13 in
  let! p := slice_to b 4 in
  Ret (set_tx_buf b self, transmit p w).

(** *** Control PDUs *)

(** The arms of [handle_ll_control] that transmit at once. *)
Definition send_version (self : Conn) (w : World) : outcome (Conn * World) :=
  let! self := put_header self LLID_CONTROL 4 in
  let! b := set_idx (cn_tx_buf self) 2 LL_CONTROL_VERSION_IND in
  let! b := set_idx b 3 0x0C in
  let! b := set_idx b 4 0xFF in
  let! b := set_idx b 5 0xFF in
  let! b := set_idx b 6 0x00 in
  let! b := set_idx b 7 0x00 in
  let! p := slice_to b 8 in
  Ret (set_peer_version_ok true (set_tx_buf b self), transmit p w).

Definition send_features (self : Conn) (w : World) : outcome (Conn * World) :=
  let! self := put_header self LLID_CONTROL 9 in
  let! b := set_idx (cn_tx_buf self) 2 LL_CONTROL_FEATURE_RSP in
  let! b := fill_at b 3 11 0 in
  let! p := slice_to b 11 in
  Ret (set_tx_buf b self, transmit p w).

Definition start_encryption (self : Conn) (w : World) : outcome (Conn * World) :=
  let! self := put_header self LLID_CONTROL 1 in
  let! b := set_idx (cn_tx_buf self) 2 LL_CONTROL_START_ENC_RSP in
  let! b := set_idx b 3 0 in
  let! (self, w) := tx (set_tx_buf b self) w 3 in
  Ret (set_packet_counter 0 (set_encrypted true self), w).

(** The data lengths of a length request or response. *)
Definition set_lengths (self : Conn) (payload : list Z) : outcome Conn :=
  let! max_tx := u16_at payload 1 in
  let! max_rx := u16_at payload 5 in
  let self := set_tx_pdu_max (Nat.min (Z.to_nat max_tx) LL_PDU_PAYLOAD_MAX) self in
  Ret (set_rx_pdu_max (Nat.min (Z.to_nat max_rx) LL_PDU_PAYLOAD_MAX) self).

(** A 19 byte control answer with its first bytes given. *)
Definition control_rsp (l : list Z) : outcome (list Z) :=
  copy_at (replicate 19 0) 0 (length l) l.

Definition handle_ll_control (self : Conn) (payload : list Z) (w : World)
    : outcome (Conn * World * result unit DisconnectReason) :=
  if (length payload =? 0)%nat then Ret (self, w, Ok tt) else
  let! op := idx payload 0 in
  if op =? LL_CONTROL_TERMINATE_IND then Ret (self, w, Err RemoteTerminate)
  else if op =? LL_CONTROL_VERSION_IND then
    let! (self, w) := send_version self w in Ret (self, w, Ok tt)
  else if (op =? LL_CONTROL_FEATURE_REQ) || (op =? LL_CONTROL_FEATURE_RSP) then
    let! (self, w) := send_features self w in Ret (self, w, Ok tt)
  else if op =? LL_CONTROL_ENCRYPT_REQ then
    let! rsp := control_rsp [LL_CONTROL_ENCRYPT_RSP] in
    Ret (set_want_encrypt true (set_pending_control (Some rsp) self), w, Ok tt)
  else if op =? LL_CONTROL_ENCRYPT_RSP then
    let! req := control_rsp [LL_CONTROL_START_ENC_REQ] in
    Ret (set_pending_control (Some req) self, w, Ok tt)
  else if op =? LL_CONTROL_START_ENC_REQ then
    let! (self, w) := start_encryption self w in Ret (self, w, Ok tt)
  else if op =? LL_CONTROL_START_ENC_RSP then
    Ret (set_packet_counter 0 (set_encrypted true self), w, Ok tt)
  else if op =? LL_CONTROL_LENGTH_REQ then
    let! self := set_lengths self payload in
    let! rsp := control_rsp ([LL_CONTROL_LENGTH_RSP] ++
      u16_to_le (Z.of_nat LL_PDU_PAYLOAD_MAX) ++ u16_to_le 2120 ++
      u16_to_le (Z.of_nat LL_PDU_PAYLOAD_MAX) ++ u16_to_le 2120) in
    Ret (set_pending_control (Some rsp) self, w, Ok tt)
  else if op =? LL_CONTROL_LENGTH_RSP then
    let! self := set_lengths self payload in Ret (self, w, Ok tt)
  else if op =? LL_CONTROL_PING_REQ then
    let! rsp := control_rsp [LL_CONTROL_PING_RSP] in
    Ret (set_pending_control (Some rsp) self, w, Ok tt)
  else if op =? LL_CONTROL_PHY_REQ then
    let! rsp := control_rsp [LL_CONTROL_PHY_RSP; 0; 0x01; 0x01; 0x01] in
    Ret (set_pending_control (Some rsp) self, w, Ok tt)
  else if op =? LL_CONTROL_CONNECTION_UPDATE_REQ then
    if (10 <=? length payload)%nat then
      let! interval := u16_at payload 3 in
      let! timeout := u16_at payload 7 in
      let! instant := u16_at payload 9 in
      let self := set_pending_update (Some (interval, timeout)) self in
      Ret (set_pending_update_instant instant self, w, Ok tt)
    else Ret (self, w, Ok tt)
  else
    let! rsp := control_rsp [LL_CONTROL_UNKNOWN_RSP; op] in
    Ret (set_pending_control (Some rsp) self, w, Ok tt).

(** *** Listening *)

Inductive Heard : Type :=
| Nothing                 (* the window closed, a bad CRC or a bad MIC *)
| Garbled                 (* a packet that does not decode *)
| HeardPdu (p : DataPdu).

(** The inner loop of a connection event: poll until a packet ends or the
    window closes. *)
Fixpoint listen (fuel : nat) (self : Conn) (w : World) (listen_until : Z)
    : run (Conn * World * Heard) :=
  match fuel with
  | O => OutOfFuel
  | S fuel =>
      let* (w, buf, r) := receive_poll (cn_rx_buf self) w in
      let self := set_rx_buf buf self in
      match r with
      | Ok (Some len) =>
          do* (self, ok) := rx self len in
          if negb ok then Done (self, receive_cancel w, Nothing)
          else
            do* bs := slice_to (cn_rx_buf self) len in
            do* d := DataPdu_decode bs in
            match d with
            | Ok p => Done (self, w, HeardPdu p)
            | Err _ => Done (self, w, Garbled)
            end
      | Ok None =>
          let '(w, t) := now w in
          if listen_until <=? t then Done (self, receive_cancel w, Nothing)
          else listen fuel self w listen_until
      | Err _ => Done (self, receive_cancel w, Nothing)
      end
  end.

(** Open the window, and listen. *)
Definition open_window (fuel : nat) (self : Conn) (w : World)
    : run (Conn * World * Heard) :=
  let '(w, t) := now w in
  let listen_until := wrapping_add32 t (timeout_ticks 2000) in
  let w := set_compare listen_until w in
  let w := receive_start (cn_rx_buf self) w in
  listen fuel self w listen_until.

(** *** The slave's event *)

(** The sequence bit of the peer is taken over. *)
Definition take_sn (self : Conn) (sn : bool) : Conn :=
  if negb (eqb sn (cn_nesn self)) then set_nesn sn self else self.

(** A packet: the state and the event, or why the connection ended. *)
Definition handle_pdu (self : Conn) (w : World) (pdu : DataPdu) (ev : ConnEvent)
    : outcome (Conn * World * result ConnEvent DisconnectReason) :=
  let plen := Nat.min (length (dp_payload pdu)) 64 in
  let! d := slice_to (dp_payload pdu) plen in
  let! payload := copy_at (replicate 64 0) 0 plen d in
  let! body := slice_to payload plen in
  if (plen =? 0)%nat then Ret (take_sn self (dp_sn pdu), w, Ok ev)
  else if dp_llid pdu =? LLID_CONTROL then
    let self := take_sn self (dp_sn pdu) in
    let! (self, w, r) := handle_ll_control self body w in
    match r with
    | Ok _ => let! op := idx payload 0 in Ret (self, w, Ok (EvControl op))
    | Err reason => Ret (self, w, Err reason)
    end
  else
    let self := take_sn self (dp_sn pdu) in
    let! (self, ev) := handle_l2cap self body (dp_llid pdu) ev in
    Ret (self, w, Ok ev).

(** How the packets of an event end. *)
Inductive SlaveEnd : Type :=
| Returned (r : result ConnEvent Error)    (* [event] returns here *)
| Finished (received : bool) (ev : ConnEvent).

(** The outer loop, [n] packets more at most. *)
Fixpoint slave_packets (n fuel : nat) (self : Conn) (w : World) (ev : ConnEvent)
    : run (Conn * World * SlaveEnd) :=
  match n with
  | O => Done (self, w, Finished true ev)
  | S n =>
      let* (self, w, h) := open_window fuel self w in
      match h with
      | Garbled => Done (self, w, Returned (Err InvalidPdu))
      | Nothing => Done (self, w, Finished false ev)
      | HeardPdu pdu =>
          let '(w, t) := now w in
          let self := set_last_rx t self in
          do* (self, w, r) := handle_pdu self w pdu ev in
          match r with
          | Err reason => Done (self, w, Returned (Ok (EvDisconnected reason)))
          | Ok ev =>
              if negb (dp_md pdu) then Done (self, w, Finished true ev)
              else slave_packets n fuel self w ev
          end
      end
  end.

Definition event_slave (fuel : nat) (self : Conn) (w : World)
    : run (Conn * World * result ConnEvent Error) :=
  let* (self, w, e) := slave_packets 4 fuel self w EvIdle in
  match e with
  | Returned r => Done (self, w, r)
  | Finished received ev =>
      if negb received then Done (self, w, Ok EvIdle)
      else if cn_terminate_pending self then
        do* (self, w) := send_terminate self w in
        Done (self, w, Ok (EvDisconnected HostTerminate))
      else
        do* (self, w) := respond self w in
        Done (self, w, Ok ev)
  end.

(** *** The master's event *)

(** Its inner loop decodes and handles in place. *)
Definition master_pdu (self : Conn) (w : World) (len : nat) (ev : ConnEvent)
    : outcome (Conn * World * ConnEvent) :=
  let '(w, t) := now w in
  let self := set_last_rx t self in
  let! bs := slice_to (cn_rx_buf self) len in
  let! d := DataPdu_decode bs in
  match d with
  | Err _ => Ret (self, w, ev)
  | Ok pdu =>
      let plen := Nat.min (length (dp_payload pdu)) 64 in
      let! d := slice_to (dp_payload pdu) plen in
      let! payload := copy_at (replicate 64 0) 0 plen d in
      let self := take_sn self (dp_sn pdu) in
      if (0 <? plen)%nat then
        if dp_llid pdu =? LLID_CONTROL then
          if bool_decide (head (dp_payload pdu) = Some LL_CONTROL_TERMINATE_IND)
          then Ret (self, w, EvDisconnected RemoteTerminate)
          else let! op := idx payload 0 in Ret (self, w, EvControl op)
        else
          let! body := slice_to payload plen in
          let! (self, ev) := handle_l2cap self body (dp_llid pdu) ev in
          Ret (self, w, ev)
      else Ret (self, w, ev)
  end.

Fixpoint master_listen (fuel : nat) (self : Conn) (w : World) (listen_until : Z)
    : run (Conn * World * ConnEvent) :=
  match fuel with
  | O => OutOfFuel
  | S fuel =>
      let* (w, buf, r) := receive_poll (cn_rx_buf self) w in
      let self := set_rx_buf buf self in
      match r with
      | Ok (Some len) =>
          do* (self, ok) := rx self len in
          if negb ok then Done (self, receive_cancel w, EvIdle)
          else lift (master_pdu self w len EvIdle)
      | Ok None =>
          let '(w, t) := now w in
          if listen_until <=? t then Done (self, receive_cancel w, EvIdle)
          else master_listen fuel self w listen_until
      | Err _ => Done (self, receive_cancel w, EvIdle)
      end
  end.

Definition event_master (fuel : nat) (self : Conn) (w : World)
    : run (Conn * World * result ConnEvent Error) :=
  if cn_terminate_pending self then
    do* (self, w) := send_terminate self w in
    Done (self, w, Ok (EvDisconnected HostTerminate))
  else
    do* (self, w) := respond self w in
    let '(w, t) := now w in
    let listen_until := wrapping_add32 t (timeout_ticks 2000) in
    let w := set_compare listen_until w in
    let w := receive_start (cn_rx_buf self) w in
    let* (self, w, ev) := master_listen fuel self w listen_until in
    Done (self, w, Ok ev).

(** *** The event *)

(** The counters, a due update, the next anchor and the next channel. *)
Definition event_prepare (self : Conn) : outcome Conn :=
  let self := set_event_counter (u16 (cn_event_counter self + 1)) self in
  let self :=
    if cn_encrypted self
    then set_packet_counter (u64 (cn_packet_counter self + 1)) self else self in
  let self :=
    match cn_pending_update self with
    | Some (interval, timeout) =>
        if cn_event_counter self =? cn_pending_update_instant self then
          set_accum IntervalAccum_new_125ms
            (set_timeout timeout (set_interval interval self))
        else self
    | None => self
    end in
  let! (accum, ticks) := IntervalAccum_next (cn_accum self) (cn_interval self) in
  let self := set_accum accum self in
  let self := set_anchor (wrapping_add32 (cn_anchor self) ticks) self in
  let! ch := next_channel (cn_channel self) (cn_hop self) (cn_channel_map self) in
  Ret (Conn.set_channel ch self).

Definition event (fuel : nat) (self : Conn) (w : World)
    : run (Conn * World * result ConnEvent Error) :=
  do* self := event_prepare self in
  let w := set_access_address (cn_access_addr self) w in
  let w := set_crc_init (cn_crc_init self) w in
  match Radio.set_channel (cn_channel self) w with
  | (w, Err e) => Done (self, w, Err e)
  | (w, Ok _) =>
      if decide (cn_role self = Master) then
        let w := set_compare (cn_anchor self) w in
        let* w := wait_compare fuel w in
        let w := clear_compare w in
        event_master fuel self w
      else event_slave fuel self w
  end.

End link_layer.
