(* ===== verification/LinkInv.v ===== *)
(** The invariant of a connection, link layer included, and that every step of
    a connection event ([src/hw/conn.rs], [event]) keeps it, whatever is
    received. *)

From stdpp Require Import base numbers list.
From S2P Require Import Prelude Errors Channels Timers Pdu Events BondStore Crypto Smp.
From S2P Require Import Ccm Gatt Conn Att CocChannel SmpChannel L2cap Frame Radio.
From S2P Require Import LinkLayer.

(** ** The invariant *)

(** What the link layer's part of a connection is bounded by; a connection
    starts on the advertising channel it was made on. *)
Record link_ok (l : Link) : Prop := {
  lo_map : bytes (lk_channel_map l) /\ length (lk_channel_map l) = 5%nat;
  lo_hop : 0 <= lk_hop l < 32;
  lo_channel : 0 <= lk_channel l <= 39;
  lo_interval : is_u16 (lk_interval l);
  lo_accum : wf_accum (lk_accum l) /\ rate (lk_accum l) = 1250;
  lo_update : forall i t, lk_pending_update l = Some (i, t) -> is_u16 i /\ is_u16 t;
  lo_counter : is_u16 (lk_event_counter l);
  lo_anchor : is_u32 (lk_anchor l);
  lo_timeout : is_u16 (lk_timeout l);
  lo_last_rx : 0 <= lk_last_rx l < 2 ^ 24;
  lo_rx : bytes (lk_rx_buf l)
}.

Record wf_link (c : Conn) : Prop := {
  wl_conn : wf_conn c;
  wl_link : link_ok (link c)
}.

(** The last step of a computation that, if it returns, gives a well-formed
    connection. *)
Definition safe {A} (p : A -> Conn) (m : outcome A) : Prop :=
  match m with Ret a => wf_link (p a) | Panic => True end.
Definition safe_run {A} (p : A -> Conn) (m : run A) : Prop :=
  match m with Done a => wf_link (p a) | _ => True end.

Create HintDb link discriminated.

(** ** Fields *)

(** As [wf_conn_by], for the whole invariant. *)
Ltac wf_link_by t :=
  match goal with
  | H : wf_link ?c |- wf_link _ =>
      let Hc := fresh in let Hl := fresh in
      destruct H as [Hc Hl]; constructor; [first [exact Hc | wf_conn_by t]|];
      first [exact Hl | destruct Hl; constructor; first [eassumption | t]]
  end.

Lemma wl_tx_buf c b : wf_link c -> length b = 64%nat -> wf_link (set_tx_buf b c).
Proof. intros Hc Hb. wf_link_by ltac:(exact Hb). Qed.
Lemma wl_rx_buf c b : wf_link c -> length b = 64%nat -> bytes b -> wf_link (set_rx_buf b c).
Proof. intros Hc Hb Hy. wf_link_by ltac:(first [exact Hb | exact Hy]). Qed.
Lemma wl_ccm c k : wf_link c -> wf_ccm k -> wf_link (set_ccm k c).
Proof. intros Hc Hk. wf_link_by ltac:(exact Hk). Qed.
Lemma wl_sn c b : wf_link c -> wf_link (set_sn b c).
Proof. intros Hc. wf_link_by fail. Qed.
Lemma wl_nesn c b : wf_link c -> wf_link (set_nesn b c).
Proof. intros Hc. wf_link_by fail. Qed.
Lemma wl_last_rx c t : wf_link c -> 0 <= t < 2 ^ 24 -> wf_link (set_last_rx t c).
Proof. intros Hc Ht. wf_link_by ltac:(exact Ht). Qed.
Lemma wl_no_control c : wf_link c -> wf_link (set_pending_control None c).
Proof. intros Hc. wf_link_by ltac:(discriminate). Qed.
Lemma wl_control c r : wf_link c -> length r = 19%nat ->
  wf_link (set_pending_control (Some r) c).
Proof. intros Hc Hr. wf_link_by ltac:(intros ? [= <-]; exact Hr). Qed.
Lemma wl_want_encrypt c b : wf_link c -> wf_link (set_want_encrypt b c).
Proof. intros Hc. wf_link_by fail. Qed.
Lemma wl_peer_version c b : wf_link c -> wf_link (set_peer_version_ok b c).
Proof. intros Hc. wf_link_by fail. Qed.
Lemma wl_encrypted c b : wf_link c -> wf_link (set_encrypted b c).
Proof. intros Hc. wf_link_by fail. Qed.
Lemma wl_packet_counter c n : wf_link c -> wf_link (set_packet_counter n c).
Proof. intros Hc. wf_link_by fail. Qed.
Lemma wl_tx_pdu_max c n : wf_link c -> wf_link (set_tx_pdu_max n c).
Proof. intros Hc. wf_link_by fail. Qed.
Lemma wl_rx_pdu_max c n : wf_link c -> wf_link (set_rx_pdu_max n c).
Proof. intros Hc. wf_link_by fail. Qed.
Lemma wl_timeout c n : wf_link c -> is_u16 n -> wf_link (set_timeout n c).
Proof. intros Hc Hn. wf_link_by ltac:(exact Hn). Qed.
Lemma wl_update_instant c n : wf_link c -> wf_link (set_pending_update_instant n c).
Proof. intros Hc. wf_link_by fail. Qed.
Lemma wl_interval c n : wf_link c -> is_u16 n -> wf_link (set_interval n c).
Proof. intros Hc Hn. wf_link_by ltac:(exact Hn). Qed.
Lemma wl_accum c a : wf_link c -> wf_accum a -> rate a = 1250 -> wf_link (set_accum a c).
Proof. intros Hc Hn Hr. wf_link_by ltac:(exact (conj Hn Hr)). Qed.
Lemma wl_anchor c a : wf_link c -> is_u32 a -> wf_link (set_anchor a c).
Proof. intros Hc Hn. wf_link_by ltac:(exact Hn). Qed.
Lemma wl_event_counter c a : wf_link c -> is_u16 a -> wf_link (set_event_counter a c).
Proof. intros Hc Hn. wf_link_by ltac:(exact Hn). Qed.
Lemma wl_channel c ch : wf_link c -> 0 <= ch <= 39 -> wf_link (Conn.set_channel ch c).
Proof. intros Hc Hn. wf_link_by ltac:(exact Hn). Qed.
Lemma wl_update c i t : wf_link c -> is_u16 i -> is_u16 t ->
  wf_link (set_pending_update (Some (i, t)) c).
Proof. intros Hc Hi Ht. wf_link_by ltac:(intros ? ? [= <- <-]; exact (conj Hi Ht)). Qed.
#[export] Hint Resolve wl_tx_buf wl_rx_buf wl_ccm wl_sn wl_nesn wl_last_rx wl_no_control
  wl_control wl_want_encrypt wl_peer_version wl_encrypted wl_packet_counter wl_tx_pdu_max
  wl_rx_pdu_max wl_timeout wl_update_instant : link.

(** Link-layer state untouched by the upper layers. *)
Lemma wf_link_intro c : wf_conn c -> link_ok (link c) -> wf_link c.
Proof. by constructor. Qed.

Lemma handle_l2cap_safe `{!Crypto} c payload llid ev : wf_link c ->
  safe fst (handle_l2cap c payload llid ev).
Proof.
  intros [Hc Hl]. pose proof (handle_l2cap_keeps c payload llid ev) as K.
  pose proof (handle_l2cap_total c payload llid ev Hc) as T.
  destruct (l2cap_bad c payload llid); [by rewrite T|].
  destruct T as (c' & ev' & E & Hw). rewrite E in K |- *. unfold keeps in K. cbn [fst] in K.
  apply wf_link_intro; cbn [fst]; [exact Hw|]. by rewrite K.
Qed.

(** ** Sending *)

(** A packet written to the front of the transmit buffer. *)
Definition with_packet (p : list Z) (c : Conn) : Conn :=
  set_tx_buf (p ++ drop (length p) (cn_tx_buf c)) c.

Lemma with_packet_wf p c : wf_link c -> (length p <= 64)%nat -> wf_link (with_packet p c).
Proof.
  intros Hc Hp. apply wl_tx_buf; [done|]. pose proof (wf_tx_buf c (wl_conn c Hc)). len.
Qed.
#[export] Hint Resolve with_packet_wf : link.

Lemma put_header_Ret c llid n : length (cn_tx_buf c) = 64%nat ->
  put_header c llid n = Ret (with_packet [ll_header c llid; n] c).
Proof.
  intros Hb. unfold put_header. rewrite set_idx_first, obind_Ret by lia.
  rewrite set_idx_append, obind_Ret by (done || len). by rewrite drop_drop.
Qed.

(** The control packets sent at once. *)
Definition control_packet (c : Conn) (len : Z) (body : list Z) : list Z :=
  [ll_header c LLID_CONTROL; len] ++ body.

Ltac sends :=
  rewrite put_header_Ret, obind_Ret by done;
  unfold with_packet; cbn [cn_tx_buf set_tx_buf]; writes; rewrite !drop_drop;
  rewrite slice_to_Ret, obind_Ret by len; rewrite take_app_le, take_ge by (cbn; lia); done.

Lemma send_terminate_Ret c w : length (cn_tx_buf c) = 64%nat ->
  let p := control_packet c 2 [LL_CONTROL_TERMINATE_IND; 0x13] in
  send_terminate c w = Ret (with_packet p c, transmit p w).
Proof.
  intros Hb p. unfold send_terminate. sends. Qed.

Lemma send_version_Ret c w : length (cn_tx_buf c) = 64%nat ->
  let p := control_packet c 4 [LL_CONTROL_VERSION_IND; 0x0C; 0xFF; 0xFF; 0; 0] in
  send_version c w = Ret (set_peer_version_ok true (with_packet p c), transmit p w).
Proof.
  intros Hb p. unfold send_version. sends. Qed.

Lemma send_features_Ret c w : length (cn_tx_buf c) = 64%nat ->
  let p := control_packet c 9 (LL_CONTROL_FEATURE_RSP :: replicate 8 0) in
  send_features c w = Ret (with_packet p c, transmit p w).
Proof.
  intros Hb p. unfold send_features, fill_at. sends. Qed.

(** *** The cipher *)

Section link_layer.
Context `{Hcrypto : Crypto, Hccm : CcmHw}.

(** The directions a role sends and receives in. *)
Definition tx_direction (r : ConnRole) : Z :=
  match r with Master => LL_NONCE_MASTER_TO_SLAVE | Slave => LL_NONCE_SLAVE_TO_MASTER end.
Definition rx_direction (r : ConnRole) : Z :=
  match r with Master => LL_NONCE_SLAVE_TO_MASTER | Slave => LL_NONCE_MASTER_TO_SLAVE end.

(** The configuration block for a packet buffer, under the connection's key and
    counter. *)
Definition link_block (c : Conn) (dir : Z) (b : list Z) : list Z :=
  ccm_block (smp_stk (cn_smp c)) (cn_packet_counter c) dir (nth 0 b 0%Z) (nth 1 b 0%Z).

Lemma link_block_wf c dir b k r : wf_conn c -> wf_ccm (mkCcm (link_block c dir b) k r).
Proof.
  intros Hc. destruct (wf_conn_smp c Hc) as (_&_&_&_&_&_&_&_& Hk &_).
  unfold wf_ccm, link_block, ccm_block. cbn [ccm_cfg]. rewrite !length_app, Hk. done.
Qed.

Lemma cipher_Ret c dec dir b len : wf_conn c -> length b = 64%nat ->
  (let! ccm := Ccm_setup (cn_ccm c) (smp_stk (cn_smp c)) (cn_packet_counter c) dir in
   Ccm_process ccm dec b len) =
  Ret (mkCcm (link_block c dir b) (ccm_scratch (cn_ccm c)) (ccm_off dec (link_block c dir b)),
       fst (ccm_run dec (link_block c dir b) b),
       negb (snd (ccm_run dec (link_block c dir b) b))).
Proof.
  intros Hc Hb. destruct (wf_conn_smp c Hc) as (_&_&_&_&_&_&_&_& Hk &_).
  rewrite Ccm_setup_Ret, obind_Ret by (apply Hc || done).
  destruct b as [|b0 [|b1 b]]; [done..|].
  by rewrite (Ccm_process_Ret _ (smp_stk (cn_smp c)) (cn_packet_counter c) dir dec b0 b1).
Qed.

(** A packet of [n] bytes in the transmit buffer goes out: as it is, or
    encrypted and longer by the integrity check; if the cipher raises its error
    event it does not. *)
Definition tx_sent (c : Conn) (w : World) (n : nat) : Conn * World :=
  if cn_encrypted c then
    let k := link_block c (tx_direction (cn_role c)) (cn_tx_buf c) in
    let '(b, err) := ccm_run false k (cn_tx_buf c) in
    (set_tx_buf b (set_ccm (mkCcm k (ccm_scratch (cn_ccm c)) (ccm_off false k)) c),
     if err then w else transmit (take (n + LL_MIC_LEN) b) w)
  else (c, transmit (take n (cn_tx_buf c)) w).

(** Whether the packet, with its integrity check, fits the buffer. *)
Definition tx_fits (c : Conn) (n : nat) : Prop :=
  (n + (if cn_encrypted c then LL_MIC_LEN else 0) <= 64)%nat.

Lemma slice_to_cases {A} (l : list A) n :
  slice_to l n = if (n <=? length l)%nat then Ret (take n l) else Panic.
Proof.
  destruct (Nat.leb_spec n (length l)); [by apply slice_to_Ret|].
  unfold slice_to, slice. rewrite (proj2 (Nat.leb_gt n _)) by done. by rewrite andb_false_r.
Qed.

Lemma tx_cases c w n : wf_conn c ->
  tx c w n = Ret (tx_sent c w n) \/ tx c w n = Panic /\ ~ tx_fits c n.
Proof.
  unfold tx_fits, tx, tx_sent. intros Hc. pose proof (wf_tx_buf c Hc) as Hb.
  destruct (cn_encrypted c).
  2: { rewrite slice_to_cases, Hb. destruct (Nat.leb_spec n 64); [by left|].
       right. split; [done|lia]. }
  set (k := link_block _ _ _). cbv zeta.
  change (match cn_role c with Master => _ | Slave => _ end)
    with (tx_direction (cn_role c)).
  pose proof (cipher_Ret c false (tx_direction (cn_role c)) (cn_tx_buf c) n Hc Hb) as E.
  fold k in E. pose proof (ccm_run_length false k (cn_tx_buf c)) as Hl.
  destruct (Ccm_setup _ _ _ _) as [k'|]; [|done]. cbn [obind] in E |- *.
  rewrite E. cbn [obind]. destruct (ccm_run _ _ _) as [b err]. cbn [fst snd] in *.
  destruct err; cbn [negb]; [by left|].
  change (cn_tx_buf (set_tx_buf b _)) with b. rewrite slice_to_cases, Hl, Hb.
  destruct (Nat.leb_spec (n + LL_MIC_LEN) 64); [by left|]. right. split; [done|lia].
Qed.

Lemma tx_Ret c w n : wf_conn c -> tx_fits c n -> tx c w n = Ret (tx_sent c w n).
Proof. intros Hc Hn. by destruct (tx_cases c w n Hc) as [E|[_ []]]. Qed.

Lemma tx_sent_wf c w n : wf_link c -> wf_link (fst (tx_sent c w n)).
Proof.
  intros Hc. unfold tx_sent. destruct (cn_encrypted c); [|exact Hc].
  pose proof (ccm_run_length false (link_block c (tx_direction (cn_role c)) (cn_tx_buf c))
    (cn_tx_buf c)) as Hl.
  destruct (ccm_run _ _ _) as [b err]. cbn [fst] in *.
  apply wl_tx_buf; [|by rewrite Hl; apply Hc]. apply wl_ccm; [done|].
  by apply link_block_wf, wl_conn.
Qed.

Lemma tx_safe c w n : wf_link c -> safe fst (tx c w n).
Proof.
  intros Hc. destruct (tx_cases c w n (wl_conn c Hc)) as [E|[E _]]; rewrite E; [|done].
  by apply tx_sent_wf.
Qed.

(** A received packet, decrypted in place. *)
Definition rx_done (c : Conn) : Conn * bool :=
  if cn_encrypted c then
    let k := link_block c (rx_direction (cn_role c)) (cn_rx_buf c) in
    let '(b, err) := ccm_run true k (cn_rx_buf c) in
    (set_rx_buf b (set_ccm (mkCcm k (ccm_scratch (cn_ccm c)) (ccm_off true k)) c), negb err)
  else (c, true).

Lemma rx_Ret c n : wf_conn c -> rx c n = Ret (rx_done c).
Proof.
  unfold rx, rx_done. intros Hc. pose proof (wf_rx_buf c Hc) as Hb.
  destruct (cn_encrypted c); [|done]. set (k := link_block _ _ _). cbv zeta.
  change (match cn_role c with Master => _ | Slave => _ end)
    with (rx_direction (cn_role c)).
  pose proof (cipher_Ret c true (rx_direction (cn_role c)) (cn_rx_buf c) n Hc Hb) as E.
  fold k in E. destruct (Ccm_setup _ _ _ _) as [k'|]; [|done]. cbn [obind] in E |- *.
  rewrite E. cbn [obind]. by destruct (ccm_run _ _ _).
Qed.

Lemma rx_done_wf c : wf_link c -> wf_link (fst (rx_done c)).
Proof.
  intros Hc. unfold rx_done. destruct (cn_encrypted c); [|exact Hc]. cbv zeta.
  set (k := link_block _ _ _). pose proof (ccm_run_length true k (cn_rx_buf c)) as Hl.
  pose proof (ccm_run_bytes true k (cn_rx_buf c) (lo_rx _ (wl_link c Hc))) as Hy.
  destruct (ccm_run _ _ _) as [b err]. cbn [fst] in *.
  apply wl_rx_buf; [|by rewrite Hl; apply Hc|done]. apply wl_ccm; [done|].
  by apply link_block_wf, wl_conn.
Qed.

(** *** The answer of an event *)

Lemma frag_sent_link b c : wf_link c -> length b = 64%nat -> wf_link (frag_sent b c).
Proof.
  intros Hc Hb. apply wf_link_intro; [apply frag_sent_wf; [apply Hc|done]|].
  destruct (wl_link c Hc). unfold frag_sent. cbv zeta.
  destruct (_ <=? _)%nat; constructor; eassumption.
Qed.

Lemma tx_fragment_safe c : wf_link c -> safe fst (tx_fragment c).
Proof.
  intros Hc. destruct (Nat.le_gt_cases (cn_tx_frag_offset c) (cn_tx_att_len c)) as [Ho|Ho].
  - destruct (Nat.le_gt_cases (frag_len c) 62) as [Hf|Hf].
    + destruct (tx_fragment_Ret c (wl_conn c Hc) Ho Hf) as (b & -> & Hb & _).
      by apply frag_sent_link.
    + by rewrite tx_fragment_Panic by (apply Hc || done).
  - unfold tx_fragment, sub_usize. by rewrite (proj2 (Nat.leb_gt _ _)) by lia.
Qed.

(** The pending control packet, as it goes out. *)
Definition with_control (ctrl : list Z) (c : Conn) : Conn :=
  with_packet (control_packet c 18 (take 18 ctrl)) (set_pending_control None c).

Definition with_empty (c : Conn) : Conn :=
  with_packet [ll_header c LLID_DATA_COMPLETE; 0] c.

Lemma respond_control c w ctrl : wf_conn c -> cn_pending_control c = Some ctrl ->
  respond c w = Ret (tx_sent (with_control ctrl c) w 20).
Proof.
  intros Hc E. unfold respond. rewrite E. cbv zeta.
  pose proof (wf_tx_buf c Hc) as Hb. pose proof (wf_pending_control c Hc ctrl E) as Hl.
  assert (Hw : wf_conn (set_pending_control None c))
    by (wf_conn_by ltac:(discriminate)).
  rewrite put_header_Ret, obind_Ret by exact Hb.
  rewrite slice_to_Ret, obind_Ret by lia. change (u8 (Z.of_nat 18)) with 18.
  change (ll_header (set_pending_control None c) LLID_CONTROL)
    with (ll_header c LLID_CONTROL).
  unfold with_packet at 1. cbn [cn_tx_buf set_tx_buf set_pending_control].
  assert (Hk : length (take 18 ctrl) = 18%nat) by len.
  rewrite copy_at_append, obind_Ret by len. rewrite drop_drop.
  assert (Hp : length (control_packet c 18 (take 18 ctrl)) = 20%nat)
    by (unfold control_packet; len).
  assert (Ew : set_tx_buf (([ll_header c LLID_CONTROL; 18] ++ take 18 ctrl) ++
      drop (length [ll_header c LLID_CONTROL; 18] + (2 + 18 - 2)) (cn_tx_buf c))
      (with_packet [ll_header c LLID_CONTROL; 18] (set_pending_control None c)) =
    with_control ctrl c).
  { unfold with_control, with_packet. by rewrite Hp. }
  rewrite Ew. apply tx_Ret.
  - unfold with_control, with_packet. revert Hp.
    generalize (control_packet c 18 (take 18 ctrl)). intros p Hp.
    wf_conn_by ltac:(cbn; len).
  - unfold tx_fits. destruct (cn_encrypted _); unfold LL_MIC_LEN; lia.
Qed.

Lemma respond_safe c w : wf_link c -> safe fst (respond c w).
Proof.
  intros Hc. destruct (cn_pending_control c) as [ctrl|] eqn:E.
  { rewrite (respond_control _ _ ctrl) by (apply Hc || done).
    apply tx_sent_wf, with_packet_wf; [by apply wl_no_control|].
    unfold control_packet. len. }
  unfold respond. rewrite E. destruct (cn_tx_pending c).
  - pose proof (tx_fragment_safe c Hc) as T. destruct (tx_fragment c) as [[c1 n]|]; [|done].
    apply tx_safe, wl_sn, T.
  - rewrite put_header_Ret, obind_Ret by apply Hc.
    apply tx_safe, with_packet_wf; [done|cbn; lia].
Qed.

(** ** Control PDUs *)

(** A control answer in its 19 bytes. *)
Definition rsp19 (l : list Z) : list Z := l ++ replicate (19 - length l) 0.

Lemma control_rsp_Ret l : (length l <= 19)%nat -> control_rsp l = Ret (rsp19 l).
Proof.
  intros Hl. unfold control_rsp. rewrite copy_at_first by len. by rewrite drop_replicate.
Qed.

(** The answer a control PDU asks for, sent with the event's response. *)
Definition control_answer (payload : list Z) : option (list Z) :=
  let op := nth 0 payload 0%Z in
  if op =? LL_CONTROL_ENCRYPT_REQ then Some [LL_CONTROL_ENCRYPT_RSP]
  else if op =? LL_CONTROL_ENCRYPT_RSP then Some [LL_CONTROL_START_ENC_REQ]
  else if op =? LL_CONTROL_LENGTH_REQ then
    Some (LL_CONTROL_LENGTH_RSP :: [251; 0; 72; 8; 251; 0; 72; 8])
  else if op =? LL_CONTROL_PING_REQ then Some [LL_CONTROL_PING_RSP]
  else if op =? LL_CONTROL_PHY_REQ then Some [LL_CONTROL_PHY_RSP; 0; 1; 1; 1]
  else if existsb (Z.eqb op) [LL_CONTROL_TERMINATE_IND; LL_CONTROL_VERSION_IND;
    LL_CONTROL_FEATURE_REQ; LL_CONTROL_FEATURE_RSP; LL_CONTROL_START_ENC_REQ;
    LL_CONTROL_START_ENC_RSP; LL_CONTROL_LENGTH_RSP; LL_CONTROL_CONNECTION_UPDATE_REQ]
  then None
  else Some [LL_CONTROL_UNKNOWN_RSP; op].

(** A control PDU too short for what the handler reads. *)
Definition control_bad (payload : list Z) : bool :=
  let op := nth 0 payload 0%Z in
  negb (length payload =? 0)%nat &&
  (((op =? LL_CONTROL_LENGTH_REQ) || (op =? LL_CONTROL_LENGTH_RSP))
     && (length payload <? 7)%nat
   || (op =? LL_CONTROL_CONNECTION_UPDATE_REQ) && (length payload =? 10)%nat).

Definition lengths_set (payload : list Z) (c : Conn) : Conn :=
  set_rx_pdu_max (Nat.min (Z.to_nat (le16 payload 5)) LL_PDU_PAYLOAD_MAX)
    (set_tx_pdu_max (Nat.min (Z.to_nat (le16 payload 1)) LL_PDU_PAYLOAD_MAX) c).

Definition version_packet (c : Conn) : list Z :=
  control_packet c 4 [LL_CONTROL_VERSION_IND; 0x0C; 0xFF; 0xFF; 0; 0].
Definition features_packet (c : Conn) : list Z :=
  control_packet c 9 (LL_CONTROL_FEATURE_RSP :: replicate 8 0).

(** What a control PDU does. *)
Definition controlled (c : Conn) (payload : list Z) (w : World) : Conn * World :=
  let op := nth 0 payload 0%Z in
  let c := match control_answer payload with
    | Some r => set_pending_control (Some (rsp19 r)) c
    | None => c
    end in
  if op =? LL_CONTROL_VERSION_IND then
    (set_peer_version_ok true (with_packet (version_packet c) c),
     transmit (version_packet c) w)
  else if (op =? LL_CONTROL_FEATURE_REQ) || (op =? LL_CONTROL_FEATURE_RSP) then
    (with_packet (features_packet c) c, transmit (features_packet c) w)
  else if op =? LL_CONTROL_ENCRYPT_REQ then (set_want_encrypt true c, w)
  else if op =? LL_CONTROL_START_ENC_REQ then
    let '(c, w) :=
      tx_sent (with_packet (control_packet c 1 [LL_CONTROL_START_ENC_RSP; 0]) c) w 3 in
    (set_packet_counter 0 (set_encrypted true c), w)
  else if op =? LL_CONTROL_START_ENC_RSP then
    (set_packet_counter 0 (set_encrypted true c), w)
  else if (op =? LL_CONTROL_LENGTH_REQ) || (op =? LL_CONTROL_LENGTH_RSP) then
    (lengths_set payload c, w)
  else if (op =? LL_CONTROL_CONNECTION_UPDATE_REQ) && (10 <? length payload)%nat then
    (set_pending_update_instant (le16 payload 9)
       (set_pending_update (Some (le16 payload 3, le16 payload 7)) c), w)
  else (c, w).

Lemma set_lengths_Ret c payload :
  set_lengths c payload =
  if (length payload <? 7)%nat then Panic else Ret (lengths_set payload c).
Proof.
  unfold set_lengths. destruct (Nat.ltb_spec (length payload) 7) as [H7|H7].
  - destruct (Nat.le_gt_cases (length payload) 2).
    + by rewrite u16_at_Panic by lia.
    + by rewrite u16_at_Ret, obind_Ret, u16_at_Panic by lia.
  - by rewrite !u16_at_Ret by lia.
Qed.

Lemma start_encryption_Ret c w : wf_link c ->
  start_encryption c w = Ret (
    let '(c, w) :=
      tx_sent (with_packet (control_packet c 1 [LL_CONTROL_START_ENC_RSP; 0]) c) w 3 in
    (set_packet_counter 0 (set_encrypted true c), w)).
Proof.
  intros Hc. pose proof (wf_tx_buf c (wl_conn c Hc)) as Hb. unfold start_encryption.
  rewrite put_header_Ret, obind_Ret by done. unfold with_packet at 1.
  cbn [cn_tx_buf set_tx_buf]. writes. rewrite !drop_drop.
  pose proof (with_packet_wf (control_packet c 1 [LL_CONTROL_START_ENC_RSP; 0]) c Hc
    ltac:(cbn; lia)) as Hw.
  match goal with |- context [tx ?x w 3] =>
    change x with (with_packet (control_packet c 1 [LL_CONTROL_START_ENC_RSP; 0]) c) end.
  rewrite tx_Ret, obind_Ret; [|exact (wl_conn _ Hw)|].
  - by destruct (tx_sent _ _ _).
  - unfold tx_fits. destruct (cn_encrypted _); unfold LL_MIC_LEN; lia.
Qed.

Ltac op_case op E k := destruct (Z.eqb_spec op k) as [E|E];
  [rewrite E; cbn [Z.eqb Pos.eqb orb andb existsb negb];
   rewrite ?andb_false_r; cbn [orb andb negb] |].

Lemma handle_ll_control_Ret c payload w : wf_link c ->
  handle_ll_control c payload w =
  if control_bad payload then Panic
  else Ret (controlled c payload w,
            if nth 0 payload 0 =? LL_CONTROL_TERMINATE_IND
            then Err RemoteTerminate else Ok tt).
Proof.
  intros Hc. pose proof (wf_tx_buf c (wl_conn c Hc)) as Hb.
  destruct (Nat.eqb_spec (length payload) 0) as [El|Hl].
  { apply length_zero_iff_nil in El as ->. reflexivity. }
  unfold handle_ll_control, control_bad, controlled, control_answer.
  rewrite (proj2 (Nat.eqb_neq _ _)), idx_nth, obind_Ret by lia.
  set (op := nth 0 payload 0). cbv zeta. cbn [negb andb].
  unfold LL_CONTROL_CONNECTION_UPDATE_REQ, LL_CONTROL_TERMINATE_IND,
    LL_CONTROL_ENCRYPT_REQ, LL_CONTROL_ENCRYPT_RSP, LL_CONTROL_START_ENC_REQ,
    LL_CONTROL_START_ENC_RSP, LL_CONTROL_FEATURE_REQ, LL_CONTROL_FEATURE_RSP,
    LL_CONTROL_VERSION_IND, LL_CONTROL_PING_REQ, LL_CONTROL_LENGTH_REQ,
    LL_CONTROL_LENGTH_RSP, LL_CONTROL_PHY_REQ.
  op_case op E2 2; [done|].
  op_case op E12 12.
  { by rewrite send_version_Ret. }
  destruct ((op =? 8) || (op =? 9)) eqn:E8.
  { assert (op = 8 \/ op = 9) as [E9|E9] by lia; rewrite E9;
      cbn [Z.eqb Pos.eqb orb andb existsb negb]; by rewrite send_features_Ret. }
  op_case op E3 3; [done|].
  op_case op E4 4; [done|].
  op_case op E5 5.
  { rewrite start_encryption_Ret by done. rewrite obind_Ret. by destruct (tx_sent _ _ _). }
  op_case op E6 6; [done|].
  op_case op E14 20.
  { rewrite set_lengths_Ret. by destruct (_ <? 7)%nat. }
  op_case op E15 21.
  { rewrite set_lengths_Ret. by destruct (_ <? 7)%nat. }
  op_case op E18 18; [done|].
  op_case op E22 22; [done|].
  op_case op E0 0.
  { destruct (Nat.leb_spec 10 (length payload)) as [H10|H10].
    - do 2 rewrite u16_at_Ret, obind_Ret by lia.
      destruct (Nat.eqb_spec (length payload) 10) as [H11|H11].
      + by rewrite u16_at_Panic by lia.
      + rewrite u16_at_Ret, obind_Ret, (proj2 (Nat.ltb_lt 10 _)) by lia. done.
    - rewrite (proj2 (Nat.eqb_neq _ _)), (proj2 (Nat.ltb_ge 10 _)) by lia. done. }
  apply orb_false_iff in E8 as [E8%Z.eqb_neq E9%Z.eqb_neq]. cbn [existsb].
  rewrite !(proj2 (Z.eqb_neq _ _)) by done. cbn [orb andb].
  rewrite control_rsp_Ret by (cbn; lia). done.
Qed.

Lemma rsp19_length l : (length l <= 19)%nat -> length (rsp19 l) = 19%nat.
Proof. intros Hl. unfold rsp19. len. Qed.

Lemma control_answer_wf c payload : wf_link c ->
  wf_link (match control_answer payload with
           | Some r => set_pending_control (Some (rsp19 r)) c
           | None => c
           end).
Proof.
  intros Hc. unfold control_answer. cbv zeta.
  repeat case_match; simplify_eq; try done; apply wl_control; try done;
    by apply rsp19_length; cbn; lia.
Qed.

Lemma controlled_wf c payload w : wf_link c -> bytes payload ->
  wf_link (fst (controlled c payload w)).
Proof.
  intros Hc0 Hp. unfold controlled. pose proof (control_answer_wf c payload Hc0) as Hc.
  generalize dependent (match control_answer payload with
    | Some r => set_pending_control (Some (rsp19 r)) c | None => c end).
  intros c1 Hc. cbv zeta.
  destruct (_ =? _); [by apply wl_peer_version, with_packet_wf; [|cbn; lia]|].
  destruct (_ || _); [by apply with_packet_wf; [|cbn; lia]|].
  destruct (_ =? _); [by apply wl_want_encrypt|].
  destruct (_ =? _).
  { pose proof (tx_sent_wf (with_packet (control_packet c1 1 [LL_CONTROL_START_ENC_RSP; 0])
      c1) w 3) as T. destruct (tx_sent _ _ _).
    apply wl_packet_counter, wl_encrypted, T, with_packet_wf; [done|cbn; lia]. }
  destruct (_ =? _); [by apply wl_packet_counter, wl_encrypted|].
  destruct (_ || _); [by apply wl_rx_pdu_max, wl_tx_pdu_max|].
  destruct (_ && _); [|done].
  apply wl_update_instant, wl_update; [done|by apply le16_range..].
Qed.

(** ** Receiving *)

Lemma DataPdu_decode_bytes bs p : bytes bs -> DataPdu_decode bs = Ret (Ok p) ->
  bytes (dp_payload p).
Proof.
  intros Hb. destruct bs as [|b0 [|b1 bs]]; [done..|]. rewrite DataPdu_decode_cons.
  inversion_clear Hb as [|? ? _ Hb']. inversion_clear Hb'. destruct (_ =? _); [|done].
  by intros [= <-].
Qed.

Lemma handle_pdu_safe c w pdu ev : wf_link c -> bytes (dp_payload pdu) ->
  safe (fun r => fst (fst r)) (handle_pdu c w pdu ev).
Proof.
  intros Hc Hp. unfold handle_pdu. cbv zeta.
  set (n := Nat.min _ 64). assert (Hn : (n <= 64)%nat) by (unfold n; lia).
  rewrite slice_to_Ret, obind_Ret by (unfold n; lia).
  assert (Hl : length (take n (dp_payload pdu)) = n) by (unfold n; len).
  assert (Hb : bytes (take n (dp_payload pdu))) by (by apply bytes_take).
  generalize dependent (take n (dp_payload pdu)). intros d Hl Hb.
  rewrite copy_at_first, obind_Ret by (done || len).
  rewrite slice_to_Ret, obind_Ret by len. rewrite take_app_le, take_ge by lia.
  assert (Ht : wf_link (take_sn c (dp_sn pdu)))
    by (unfold take_sn; case_match; auto with link).
  destruct (n =? 0)%nat eqn:E0; [done|]. destruct (_ =? _).
  - rewrite handle_ll_control_Ret by done. destruct (control_bad d); [done|].
    rewrite obind_Ret. pose proof (controlled_wf _ d w Ht Hb) as Hw.
    destruct (controlled _ d w) as [c1 w1]. destruct (_ =? _); [exact Hw|].
    apply Nat.eqb_neq in E0. rewrite idx_nth, obind_Ret by len. exact Hw.
  - pose proof (handle_l2cap_safe _ d (dp_llid pdu) ev Ht) as S.
    by destruct (handle_l2cap _ _ _ _) as [[c1 ev1]|].
Qed.

End link_layer.

(** ** Connection events *)

Section events.
Context `{Hcrypto : Crypto, Hccm : CcmHw, Henv : Env}.

(** A poll fills the receive buffer from its front. *)
Definition polled (c : Conn) (w : World) : Conn :=
  set_rx_buf (dma (env_dma (w_polls w)) (cn_rx_buf c)) c.

(** What the receiver has written by the next poll is longer than a connection's
    receive buffer. *)
Definition overran (w : World) : bool := (64 <? length (env_dma (w_polls w)))%nat.

Lemma polled_length c w : wf_link c -> overran w = false ->
  (length (env_dma (w_polls w)) <= length (cn_rx_buf c))%nat.
Proof. intros Hc Ho%Nat.ltb_ge. by rewrite (wf_rx_buf c (wl_conn c Hc)). Qed.

Lemma polled_wf c w : wf_link c -> overran w = false -> wf_link (polled c w).
Proof.
  intros Hc Ho. pose proof (wf_rx_buf c (wl_conn c Hc)).
  apply wl_rx_buf; [done|by rewrite dma_length by (by apply polled_length)|].
  apply dma_bytes; [apply env_dma_bytes|apply (lo_rx _ (wl_link c Hc))].
Qed.

(** The length the poll reports, when it reports a packet. *)
Definition polled_len (c : Conn) (w : World) : nat :=
  (2 + Z.to_nat ((nth 1 (cn_rx_buf (polled c w)) 0%Z .>> 1) .& 0x3F))%nat.

Lemma poll_cases c w : wf_link c -> w_rx_room w = 64%nat ->
  receive_poll (cn_rx_buf c) w =
  if overran w then Fault Overrun else
  Done (set_w_polls (S (w_polls w)) w, cn_rx_buf (polled c w),
       match env_end (w_polls w) with
       | None => Ok None
       | Some false => Err CrcMismatch
       | Some true => Ok (Some (polled_len c w))
       end).
Proof.
  intros Hc Hr. pose proof (wf_rx_buf c (wl_conn c Hc)) as Hl.
  destruct (overran w) eqn:Eo.
  - apply receive_poll_overruns. rewrite Hr. by apply Nat.ltb_lt.
  - apply receive_poll_Done; [lia|congruence|by apply polled_length].
Qed.

(** One turn of the slave's loop. *)
Lemma listen_S fuel c w deadline : wf_link c -> w_rx_room w = 64%nat ->
  listen (S fuel) c w deadline =
  if overran w then Fault Overrun else
  let c1 := polled c w in
  let w1 := set_w_polls (S (w_polls w)) w in
  match env_end (w_polls w) with
  | Some true =>
      let '(c2, ok) := rx_done c1 in
      if negb ok then Done (c2, w1, Nothing)
      else if (polled_len c w <=? 64)%nat then
        do* d := DataPdu_decode (take (polled_len c w) (cn_rx_buf c2)) in
        match d with
        | Ok p => Done (c2, w1, HeardPdu p)
        | Err _ => Done (c2, w1, Garbled)
        end
      else Fault Panicking
  | Some false => Done (c1, w1, Nothing)
  | None =>
      let w2 := set_w_reads (S (w_reads w)) w1 in
      if deadline <=? env_now (w_reads w) then Done (c1, w2, Nothing)
      else listen fuel c1 w2 deadline
  end.
Proof.
  intros Hc Hr0. cbn [listen]. rewrite poll_cases by done.
  destruct (overran w) eqn:Eo; [done|]. rewrite rbind_Done. cbv zeta.
  change (set_rx_buf (cn_rx_buf (polled c w)) c) with (polled c w).
  pose proof (polled_wf c w Hc Eo) as Hp. destruct (env_end (w_polls w)) as [[]|]; [|done..].
  rewrite rx_Ret, lift_Ret, rbind_Done by apply Hp.
  pose proof (rx_done_wf _ Hp) as Hr. destruct (rx_done (polled c w)) as [c2 ok].
  cbn [fst] in Hr. destruct ok; cbn [negb]; [|done].
  rewrite slice_to_cases, (wf_rx_buf c2 (wl_conn _ Hr)). by destruct (_ <=? _)%nat.
Qed.

(** What a window gives: a well-formed connection and a packet of bytes. *)
Definition heard_ok (m : run (Conn * World * Heard)) : Prop :=
  match m with
  | Done (c, _, h) =>
      wf_link c /\ match h with HeardPdu p => bytes (dp_payload p) | _ => True end
  | _ => True
  end.

Lemma listen_ok fuel c w deadline : wf_link c -> w_rx_room w = 64%nat ->
  heard_ok (listen fuel c w deadline).
Proof.
  revert c w. induction fuel as [|fuel IH]; intros c w Hc Hm; [done|].
  rewrite listen_S by done. destruct (overran w) eqn:Eo; [done|]. cbv zeta.
  pose proof (polled_wf c w Hc Eo) as Hp.
  destruct (env_end (w_polls w)) as [[]|]; [|done|].
  - pose proof (rx_done_wf _ Hp) as Hr. destruct (rx_done (polled c w)) as [c2 []];
      cbn [negb fst] in *; [|done].
    destruct (_ <=? 64)%nat; [|done].
    destruct (DataPdu_decode _) as [[p|e]|] eqn:E; [|done..].
    split; [exact Hr|]. eapply DataPdu_decode_bytes; [|exact E].
    apply bytes_take, (lo_rx _ (wl_link _ Hr)).
  - destruct (_ <=? _); [done|]. by apply IH.
Qed.

Lemma open_window_ok fuel c w : wf_link c -> heard_ok (open_window fuel c w).
Proof. intros Hc. apply listen_ok; [done|]. exact (wf_rx_buf c (wl_conn c Hc)). Qed.

Lemma lift_safe {A} (p : A -> Conn) m : safe p m -> safe_run p (lift m).
Proof. by destruct m. Qed.

Lemma rbind_safe {A B} (q : A -> Conn) (p : B -> Conn) (m : run A) (f : A -> run B) :
  safe_run q m -> (forall a, wf_link (q a) -> safe_run p (f a)) -> safe_run p (rbind m f).
Proof. destruct m; [|done..]. intros H1 H2. by apply H2. Qed.

Lemma slave_packets_safe n fuel c w ev : wf_link c ->
  safe_run (fun r => fst (fst r)) (slave_packets n fuel c w ev).
Proof.
  revert c w ev. induction n as [|n IH]; intros c w ev Hc; [exact Hc|].
  cbn [slave_packets]. pose proof (open_window_ok fuel c w Hc) as Ho.
  destruct (open_window fuel c w) as [[[c1 w1] h]| |]; [|done..].
  destruct Ho as [H1 Hb]. cbn [rbind]. destruct h as [| |pdu]; [exact H1..|].
  cbn [now]. cbv zeta.
  apply rbind_safe with (q := fun r => fst (fst r)).
  { by apply lift_safe, handle_pdu_safe; [apply wl_last_rx, env_now_range|]. }
  intros [[c2 w3] r] H2. destruct r as [ev'|e]; [|exact H2].
  destruct (negb _); [exact H2|]. by apply IH.
Qed.

Lemma event_slave_safe fuel c w : wf_link c ->
  safe_run (fun r => fst (fst r)) (event_slave fuel c w).
Proof.
  intros Hc. unfold event_slave. eapply rbind_safe; [by apply slave_packets_safe|].
  intros [[c1 w1] e] H1. cbn [fst] in H1. destruct e as [r|[] ev]; cbn [negb]; [exact H1| |exact H1].
  destruct (cn_terminate_pending c1).
  - rewrite send_terminate_Ret by apply H1. apply with_packet_wf; [done|cbn; lia].
  - apply rbind_safe with (q := fst); [by apply lift_safe, respond_safe|].
    by intros [c2 w2] H2.
Qed.

Lemma master_pdu_safe c w n ev : wf_link c ->
  safe (fun r => fst (fst r)) (master_pdu c w n ev).
Proof.
  intros Hc. unfold master_pdu. cbn [now]. cbv zeta.
  assert (Hl : wf_link (set_last_rx (env_now (w_reads w)) c))
    by (apply wl_last_rx, env_now_range; done).
  generalize dependent (set_last_rx (env_now (w_reads w)) c). clear c Hc. intros c Hc.
  rewrite slice_to_cases. destruct (_ <=? _)%nat; [|done]. rewrite obind_Ret.
  destruct (DataPdu_decode _) as [[pdu|e]|]; [|exact Hc|done]. rewrite obind_Ret.
  set (k := Nat.min _ 64). assert (Hk : (k <= 64)%nat) by (unfold k; lia).
  rewrite slice_to_Ret, obind_Ret by (unfold k; lia).
  assert (Hd : length (take k (dp_payload pdu)) = k) by (unfold k; len).
  generalize dependent (take k (dp_payload pdu)). intros d Hd.
  rewrite copy_at_first, obind_Ret by (done || len).
  assert (Ht : wf_link (take_sn c (dp_sn pdu)))
    by (unfold take_sn; case_match; auto with link).
  destruct (Nat.ltb_spec 0 k) as [H0|H0]; [|exact Ht]. destruct (_ =? _).
  - destruct (bool_decide _); [exact Ht|]. by rewrite idx_nth, obind_Ret by len.
  - rewrite slice_to_Ret, obind_Ret by len.
    pose proof (handle_l2cap_safe _ (take k (d ++ drop k (replicate 64 0)))
      (dp_llid pdu) ev Ht) as S.
    by destruct (handle_l2cap _ _ _ _) as [[c1 ev1]|].
Qed.

Lemma master_listen_safe fuel c w deadline : wf_link c -> w_rx_room w = 64%nat ->
  safe_run (fun r => fst (fst r)) (master_listen fuel c w deadline).
Proof.
  revert c w. induction fuel as [|fuel IH]; intros c w Hc Hm; [done|].
  cbn [master_listen]. rewrite poll_cases by done. destruct (overran w) eqn:Eo; [done|].
  rewrite rbind_Done. cbv zeta.
  change (set_rx_buf (cn_rx_buf (polled c w)) c) with (polled c w).
  pose proof (polled_wf c w Hc Eo) as Hp. destruct (env_end (w_polls w)) as [[]|]; [|done|].
  - rewrite rx_Ret, lift_Ret, rbind_Done by apply Hp.
    pose proof (rx_done_wf _ Hp) as Hr. destruct (rx_done (polled c w)) as [c2 []];
      cbn [negb fst] in *; [|exact Hr]. by apply lift_safe, master_pdu_safe.
  - cbn [now]. destruct (_ <=? _); [exact Hp|]. by apply IH.
Qed.

Lemma event_master_safe fuel c w : wf_link c ->
  safe_run (fun r => fst (fst r)) (event_master fuel c w).
Proof.
  intros Hc. unfold event_master. destruct (cn_terminate_pending c).
  - rewrite send_terminate_Ret by apply Hc. apply with_packet_wf; [done|cbn; lia].
  - apply rbind_safe with (q := fst); [by apply lift_safe, respond_safe|].
    intros [c1 w1] H1. destruct (now w1) as [w2 t]. cbv zeta.
    eapply rbind_safe.
    { apply master_listen_safe; [exact H1|]. exact (wf_rx_buf c1 (wl_conn c1 H1)). }
    by intros [[c2 w3] ev] H2.
Qed.

(** ** The event *)

Lemma next_channel_Ret cur hop map : 0 <= cur -> 0 <= hop -> cur + hop < 256 ->
  bytes map -> length map = 5%nat ->
  exists k, next_channel cur hop map = Ret (probe ((cur + hop) mod 37) k).
Proof.
  intros Hc Hh Hs Hb Hl. unfold next_channel. rewrite add_u8_Ret, obind_Ret by lia.
  assert (Ht : 0 <= (cur + hop) mod 37 < 37) by (by apply Z.mod_pos_bound).
  destruct (next_channel_loop_spec 37 0 _ map Hb Hl Ht) as (k & _ & E & _).
  replace (probe ((cur + hop) mod 37) 0) with ((cur + hop) mod 37) in E
    by (unfold probe; rewrite Z.add_0_r; by rewrite (Z.mod_small _ _ Ht)).
  rewrite E. by exists k.
Qed.

(** Whether the pending update takes effect at the next event. *)
Definition update_due (c : Conn) : option (Z * Z) :=
  match cn_pending_update c with
  | Some u => if u16 (cn_event_counter c + 1) =? cn_pending_update_instant c
              then Some u else None
  | None => None
  end.

(** The connection with the parameters of the next event. *)
Definition updated (c : Conn) : Conn :=
  match update_due c with
  | Some (i, t) => set_accum IntervalAccum_new_125ms (set_timeout t (set_interval i c))
  | None => c
  end.

Lemma updated_wf c : wf_link c -> wf_link (updated c).
Proof.
  intros Hc. unfold updated, update_due.
  destruct (cn_pending_update c) as [[i t]|] eqn:E; [|done]. destruct (_ =? _); [|done].
  destruct (lo_update _ (wl_link c Hc) i t E) as [Hi Ht].
  apply wl_accum; [|apply wf_accum_new|done]. apply wl_timeout; [by apply wl_interval|done].
Qed.

(** The connection counts one more event. *)
Definition counted (c : Conn) : Conn :=
  let c := set_event_counter (u16 (cn_event_counter c + 1)) c in
  if cn_encrypted c then set_packet_counter (u64 (cn_packet_counter c + 1)) c else c.

(** The next anchor and the next channel. *)
Definition tuned (a : IntervalAccum) (ticks ch : Z) (c : Conn) : Conn :=
  Conn.set_channel ch
    (set_anchor (wrapping_add32 (cn_anchor c) ticks) (set_accum a c)).

Lemma event_prepare_unfold c : event_prepare c =
  let c1 := counted (updated c) in
  let! (a, ticks) := IntervalAccum_next (cn_accum c1) (cn_interval c1) in
  let! ch := next_channel (cn_channel c) (cn_hop c) (cn_channel_map c) in
  Ret (tuned a ticks ch c1).
Proof.
  unfold event_prepare, counted, updated, update_due. cbv zeta. destruct c.
  cbn -[u16 u64 IntervalAccum_next next_channel Z.add wrapping_add32 Z.eqb
    IntervalAccum_new_125ms].
  destruct cn_encrypted, cn_pending_update as [[i t]|]; try destruct (_ =? _); reflexivity.
Qed.

Lemma counted_wf c : wf_link c -> wf_link (counted c).
Proof.
  intros Hc. unfold counted. cbv zeta.
  assert (wf_link (set_event_counter (u16 (cn_event_counter c + 1)) c)).
  { apply wl_event_counter; [done|]. unfold u16, is_u16. by apply Z.mod_pos_bound. }
  by destruct (cn_encrypted _); [apply wl_packet_counter|].
Qed.

Lemma counted_fields c :
  cn_accum (counted c) = cn_accum c /\ cn_interval (counted c) = cn_interval c /\
  cn_timeout (counted c) = cn_timeout c /\ cn_anchor (counted c) = cn_anchor c /\
  cn_event_counter (counted c) = u16 (cn_event_counter c + 1) /\
  cn_packet_counter (counted c) =
    (if cn_encrypted c then u64 (cn_packet_counter c + 1) else cn_packet_counter c).
Proof.
  unfold counted. cbv zeta.
  change (cn_encrypted (set_event_counter _ c)) with (cn_encrypted c).
  by destruct (cn_encrypted c).
Qed.

(** Preparing an event succeeds: the next tick count is exact, and the channel
    is the one hopping selects. *)
Lemma event_prepare_Ret c : wf_link c -> exists a ticks k,
  let c1 := updated c in
  let ch := probe ((cn_channel c + cn_hop c) mod 37) k in
  event_prepare c = Ret (tuned a ticks ch (counted c1)) /\
  next_channel (cn_channel c) (cn_hop c) (cn_channel_map c) = Ret ch /\
  wf_accum a /\ rate a = 1250 /\ 0 <= ticks < 2 ^ 22 /\
  32 * ticks + ia_frac a = ia_frac (cn_accum c1) + cn_interval c1 * 1250.
Proof.
  intros Hc. pose proof (updated_wf c Hc) as Hu.
  destruct (wl_link _ Hc) as [[Hm Hl] Hh Hch _ _ _ _ _ _ _ _].
  destruct (wl_link _ Hu) as [_ _ _ Hi [Ha Hr] _ _ _ _ _ _].
  cbn [link lk_hop lk_channel lk_channel_map lk_interval lk_accum] in *.
  destruct (IntervalAccum_next_spec _ _ Ha Hi) as (a & t & Ea & Wa & Ra & Ht & Es).
  destruct (next_channel_Ret (cn_channel c) (cn_hop c) (cn_channel_map c)) as [k Ek];
    [lia..|done|done|].
  exists a, t, k. cbv zeta. rewrite Hr in *. split; [|done].
  rewrite event_prepare_unfold. cbv zeta.
  destruct (counted_fields (updated c)) as (-> & -> & _).
  by rewrite Ea, obind_Ret, Ek, obind_Ret.
Qed.

Lemma tuned_wf a ticks ch c : wf_link c -> wf_accum a -> rate a = 1250 -> 0 <= ch <= 39 ->
  wf_link (tuned a ticks ch c).
Proof.
  intros Hc Ha Hr Hch. apply wl_channel; [|done]. apply wl_anchor; [by apply wl_accum|].
  unfold wrapping_add32, u32, is_u32. by apply Z.mod_pos_bound.
Qed.

Lemma event_prepare_safe c : wf_link c -> safe id (event_prepare c).
Proof.
  intros Hc. destruct (event_prepare_Ret c Hc) as (a & t & k & -> & _ & Ha & Hr & _).
  pose proof (probe_range ((cn_channel c + cn_hop c) mod 37) k).
  apply tuned_wf; [by apply counted_wf, updated_wf|done|done|lia].
Qed.

Lemma event_safe fuel c w : wf_link c ->
  safe_run (fun r => fst (fst r)) (event fuel c w).
Proof.
  intros Hc. unfold event. apply rbind_safe with (q := id).
  { by apply lift_safe, event_prepare_safe. }
  intros c1 H1. cbv zeta. destruct (Radio.set_channel _ _) as [w1 [u|e]]; [|exact H1].
  case_decide; [|by apply event_slave_safe].
  destruct (wait_compare _ _); [|done..]. by apply event_master_safe.
Qed.

Lemma Conn_new_link p ch now r : wf_connect p -> 0 <= ch <= 39 -> 0 <= now < 2 ^ 24 ->
  wf_link (Conn_new p ch now r).
Proof.
  intros (_ & _ & _ & _ & Hi & _ & Ht & Hm & Hl & Hh & _) Hch Hn.
  apply wf_link_intro; [apply Conn_new_wf|]. constructor; try done.
  - split; [apply wf_accum_new|done].
  - destruct r; [|unfold is_u32; cbn; lia]. cbn. unfold wrapping_add32, u32, is_u32.
    by apply Z.mod_pos_bound.
  - apply bytes_replicate_0.
Qed.

End events.

(** A fresh connection and a fresh world, for the examples. *)
Definition sample_connect : ConnectReqData :=
  mkConnectReqData 0x50655053 0x123456 1 0 24 0 200 [255; 255; 255; 255; 31] 13 2.
Definition sample_conn (r : ConnRole) : Conn := Conn_new sample_connect 37 0 r.
Definition sample_world : World := mkWorld RadioRegs_reset 0 0 0 0 [] TimerRegs_reset 0.

Lemma sample_connect_wf : wf_connect sample_connect.
Proof. repeat split; (done || bytes_eval). Qed.

Lemma sample_link r : wf_link (sample_conn r).
Proof. apply Conn_new_link; [apply sample_connect_wf|lia|lia]. Qed.
