(* ===== verification/LinkEvents.v ===== *)
(** Connection events ([src/hw/conn.rs]): what holds of a connection in every
    state it can reach, and what goes on the air. *)

From stdpp Require Import base numbers list relations.
From S2P Require Import Prelude Errors Channels Timers Pdu Events BondStore Crypto Smp.
From S2P Require Import Ccm Gatt Conn Att CocChannel SmpChannel L2cap Frame Radio.
From S2P Require Import LinkLayer LinkInv.

(** ** The host's operations keep the invariant *)

Lemma queue_notify_Ret c data : wf_conn c ->
  queue_notify c data =
    Ret (with_att ([0x1B] ++ u16_to_le HANDLE_TX_VALUE ++ take 244 data) c).
Proof.
  intros Hc. pose proof (wf_tx_att c Hc) as Ha. unfold queue_notify.
  change ATT_PAYLOAD_MAX with 244%nat. cbv zeta. rewrite slice_to_Ret, take_min_length by lia.
  assert (Hl : length (take 244 data) = Nat.min (length data) 244) by len.
  generalize dependent (take 244 data). intros d Hl. writes. rewrite !drop_drop.
  unfold with_att. rewrite !length_app, Hl, <- !app_assoc.
  replace (1 + (3 - 1 + (3 + Nat.min (length data) 244 - 3)))%nat
    with (3 + Nat.min (length data) 244)%nat by lia. done.
Qed.

Section reachable.
Context `{Hcrypto : Crypto, Hccm : CcmHw, Henv : Env}.

(** What the host's calls do with a connection: the calls of the application on
    the stack, the report of received data, and the peer's address when the
    connection is made. *)
Inductive host_step (c : Conn) : Conn -> Prop :=
| host_notify data c' : queue_notify c data = Ret c' -> host_step c c'
| host_terminate : host_step c (terminate c)
| host_peer a : host_step c (set_peer c a)
| host_open psm c' : l2cap_connect c psm = Ret c' -> host_step c c'
| host_send data c' r : l2cap_send c data = Ret (c', r) -> host_step c c'
| host_request att c' : gatt_send_request c att = Ret c' -> host_step c c'
| host_result c' r : gatt_take_result c = Ret (c', r) -> host_step c c'
| host_encrypt c' r : encrypt_conn c = Ret (c', r) -> host_step c c'
| host_pair c' : pair_conn c = Ret c' -> host_step c c'
| host_bond p l i : wf_bond (mkBondInfo p l i) ->
    host_step c (set_bond_store (RamBondStore_save (cn_bond_store c) p l i) c)
| host_read : host_step c (set_rx_data_len 0 c).

(** A step of a connection: an event in either role, under any hardware, or one
    of the host's operations. *)
Inductive conn_step (c : Conn) : Conn -> Prop :=
| step_event fuel w c' w' r : event fuel c w = Done (c', w', r) -> conn_step c c'
| step_host c' : host_step c c' -> conn_step c c'.

Lemma wf_link_frame c c' : wf_link c -> link c' = link c -> wf_conn c' -> wf_link c'.
Proof. intros [_ Hl] E Hw. apply wf_link_intro; [done|]. by rewrite E. Qed.

(** Every operation of the host leaves the link alone but for a termination. *)
Lemma queue_notify_keeps c data : keeps link id c (queue_notify c data).
Proof. unfold queue_notify. frame. Qed.
Lemma l2cap_connect_keeps c psm : keeps link id c (l2cap_connect c psm).
Proof. unfold l2cap_connect. frame. Qed.
Lemma l2cap_send_keeps c data : keeps link fst c (l2cap_send c data).
Proof. unfold l2cap_send. frame. Qed.
Lemma gatt_send_request_keeps c att : keeps link id c (gatt_send_request c att).
Proof. unfold gatt_send_request. frame. Qed.
Lemma gatt_take_result_keeps c : keeps link fst c (gatt_take_result c).
Proof. unfold gatt_take_result. frame. Qed.
Lemma pair_conn_keeps c : keeps link id c (pair_conn c).
Proof. unfold pair_conn. frame. Qed.
Lemma encrypt_conn_keeps c : keeps link fst c (encrypt_conn c).
Proof. unfold encrypt_conn. frame. Qed.

Lemma host_step_link c c' : host_step c c' ->
  link c' = link c \/ c' = terminate c.
Proof.
  intros Hs. destruct Hs as
    [data c' E| |a|psm c' E|data c' r E|att c' E|c' r E|c' r E|c' E|p l i Hb|];
    [left|by right|by left|left..|by left|by left].
  - exact (keeps_Ret link id _ _ _ (queue_notify_keeps c data) E).
  - exact (keeps_Ret link id _ _ _ (l2cap_connect_keeps c psm) E).
  - exact (keeps_Ret link fst _ _ _ (l2cap_send_keeps c data) E).
  - exact (keeps_Ret link id _ _ _ (gatt_send_request_keeps c att) E).
  - exact (keeps_Ret link fst _ _ _ (gatt_take_result_keeps c) E).
  - exact (keeps_Ret link fst _ _ _ (encrypt_conn_keeps c) E).
  - exact (keeps_Ret link id _ _ _ (pair_conn_keeps c) E).
Qed.

Lemma wl_smp c m : wf_link c -> wf_smp m -> wf_link (set_smp m c).
Proof. intros Hc Hm. wf_link_by ltac:(exact Hm). Qed.

(** Pairing, encryption and a saved bond. *)
Lemma pair_conn_Ret c : wf_link c -> exists c', pair_conn c = Ret c' /\ wf_link c'.
Proof.
  intros Hc. pose proof (wf_conn_smp c (wl_conn c Hc)) as Hm.
  assert (Hm1 : wf_smp (fst (build_pairing_request (cn_smp c)))).
  { destruct Hm as (?&?&?&?&?&?&?&?&?&?&?&?). by repeat split. }
  unfold pair_conn. case_decide.
  - destruct (build_pairing_request (cn_smp c)) as [m p] eqn:Ep. cbn [fst] in Hm1.
    assert (Hp : length p = 7%nat) by (unfold build_pairing_request in Ep; by simplify_eq).
    cbv zeta. writes. rewrite queue_l2cap_Ret; [|exact (wf_tx_att c (wl_conn c Hc))|len].
    eexists. split; [reflexivity|]. pose proof (wl_smp c m Hc Hm1) as [H1 H2].
    apply wf_link_intro; [apply with_message_wf; [exact H1|len]|exact H2].
  - eexists. split; [reflexivity|]. apply wl_smp; [done|].
    destruct Hm as (?&?&?&?&?&?&?&?&?&?&?&?). by repeat split.
Qed.

Lemma encrypt_conn_Ret c : wf_link c ->
  exists c' r, encrypt_conn c = Ret (c', r) /\ wf_link c'.
Proof.
  intros Hc. unfold encrypt_conn. destruct (negb _); [by eauto|].
  destruct (RamBondStore_find (cn_bond_store c) (cn_peer_addr c)) as [b|] eqn:Eb; [|by eauto].
  cbn [fmap option_fmap option_map]. rewrite queue_encrypt_req_Ret, obind_Ret.
  do 2 eexists. split; [reflexivity|].
  apply wl_want_encrypt, wl_control; [|done]. apply wl_smp; [done|].
  destruct (wf_conn_smp c (wl_conn c Hc)) as (?&?&?&?&?&?&?&?&?&?&?&?).
  assert (length (bi_ltk b) = 16%nat).
  { pose proof (wf_bonds c (wl_conn c Hc)) as Hb. unfold RamBondStore_find in Eb.
    revert Eb. induction Hb as [|[x|] l Hx Hl IH]; cbn [find_bond]; [done| |done].
    case_decide; [|done]. intros [= ->]. by destruct (Hx b eq_refl) as (_ & ? & _). }
  by repeat split.
Qed.

Lemma bond_saved_wf c p l i : wf_link c -> wf_bond (mkBondInfo p l i) ->
  wf_link (set_bond_store (RamBondStore_save (cn_bond_store c) p l i) c).
Proof.
  intros Hc Hb.
  assert (Hn : wf_slots (rbs_bonds (RamBondStore_save (cn_bond_store c) p l i))).
  { unfold RamBondStore_save. pose proof (wf_bonds c (wl_conn c Hc)) as Hw.
    destruct (save_slots _ _ _) as [z|] eqn:E; [|done]. by eapply save_slots_wf. }
  wf_link_by ltac:(exact Hn).
Qed.

Lemma host_step_wf c c' : wf_link c -> host_step c c' -> wf_link c'.
Proof.
  intros Hc Hs. pose proof (wl_conn c Hc) as Hw.
  destruct (host_step_link c c' Hs) as [El| ->]; [|by wf_link_by fail].
  destruct Hs as [data c' E| |a|psm c' E|data c' r E|att c' E|c' r E|c' r E|c' E|p l i Hb|].
  - apply (wf_link_frame c); [done..|]. rewrite queue_notify_Ret in E by done.
    apply Ret_inj in E as <-. apply with_att_wf; [done|len].
  - wf_link_by fail.
  - wf_link_by fail.
  - apply (wf_link_frame c); [done..|].
    destruct (l2cap_connect_Ret c psm Hw) as (c1 & E1 & H1 & _). congruence.
  - apply (wf_link_frame c); [done..|].
    rewrite l2cap_send_Ret in E by done. destruct (cn_coc c) as [k|] eqn:Ek; [|congruence].
    destruct (_ || _) eqn:Eb; [congruence|]. destruct (_ =? _); [congruence|].
    apply Ret_inj, pair_eq in E as [<- _]. apply orb_false_iff in Eb as [_ Hd%Nat.ltb_ge].
    apply with_message_wf; [|len]. apply set_coc_wf; [done|].
    intros k' [= <-]. exact (wf_coc c Hw k Ek).
  - apply (wf_link_frame c); [done..|].
    unfold gatt_send_request, queue_att in E. revert E. rewrite (wf_tx_att c Hw). cbv zeta.
    rewrite slice_to_Ret, obind_Ret, take_min_length by lia.
    assert (Hl : length (take 251 att) = Nat.min (length att) 251) by len.
    generalize dependent (take 251 att). intros d Hl. pose proof (wf_tx_att c Hw).
    writes. intros <-%Ret_inj. wf_conn_by ltac:(cbn; len).
  - apply (wf_link_frame c); [done..|]. pose proof (wf_gatt_result c Hw) as Hg.
    destruct (lookup_lt_is_Some_2 (cn_gatt_result c) 0) as [x Hx]; [lia|].
    rewrite (gatt_take_result_Ret c x Hx) in E. apply Ret_inj, pair_eq in E as [<- _].
    wf_conn_by ltac:(cbn; len).
  - destruct (encrypt_conn_Ret c Hc) as (c1 & r1 & E1 & H1). congruence.
  - destruct (pair_conn_Ret c Hc) as (c1 & E1 & H1). congruence.
  - by apply bond_saved_wf.
  - wf_link_by ltac:(cbn; lia).
Qed.

Lemma conn_step_wf c c' : wf_link c -> conn_step c c' -> wf_link c'.
Proof.
  intros Hc [fuel w c1 w' r E|c1 Hs]; [|by eapply host_step_wf].
  pose proof (event_safe fuel c w Hc) as S. by rewrite E in S.
Qed.

Lemma reachable_wf c c' : wf_link c -> rtc conn_step c c' -> wf_link c'.
Proof. intros Hc. induction 1; eauto using conn_step_wf. Qed.

End reachable.

(** ** What goes on the air *)

(** From one world to another, packets were sent under the radio's settings, and
    nothing else happened. *)
Definition sends (w w' : World) : Prop :=
  exists ps, w' = set_w_sent (w_sent w ++ map (pair (w_regs w)) ps) w.

(** Packets were sent, all under the same settings, and nothing else of the radio
    changed; the hardware may have been waited for. *)
Definition on_air (w w' : World) : Prop :=
  w_regs w' = w_regs w /\
  exists ps, w_sent w' = w_sent w ++ map (pair (w_regs w)) ps.

(** Either relation. *)
Class Airwaves (R : World -> World -> Prop) : Prop := {
  air_refl w : R w w;
  air_trans w1 w2 w3 : R w1 w2 -> R w2 w3 -> R w1 w3;
  air_transmit p w w' : R w w' -> R w (transmit p w')
}.

#[export] Instance sends_airwaves : Airwaves sends.
Proof.
  assert (T : forall w1 w2 w3, sends w1 w2 -> sends w2 w3 -> sends w1 w3).
  { intros w1 w2 w3 [p1 ->] [p2 ->]. exists (p1 ++ p2).
    cbn [w_sent w_regs set_w_sent]. by rewrite map_app, app_assoc. }
  split.
  - intros w. exists []. rewrite app_nil_r. by destruct w.
  - exact T.
  - intros p w w' H. apply (T _ _ _ H). by exists [p].
Qed.

#[export] Instance on_air_airwaves : Airwaves on_air.
Proof.
  assert (T : forall w1 w2 w3, on_air w1 w2 -> on_air w2 w3 -> on_air w1 w3).
  { intros w1 w2 w3 [R1 [p1 E1]] [R2 [p2 E2]]. split; [congruence|]. exists (p1 ++ p2).
    by rewrite E2, E1, R1, map_app, app_assoc. }
  split.
  - intros w. split; [done|]. exists []. by rewrite app_nil_r.
  - exact T.
  - intros p w w' H. apply (T _ _ _ H). split; [done|]. by exists [p].
Qed.

Lemma sends_on_air w w' : sends w w' -> on_air w w'.
Proof. intros [ps ->]. split; [done|]. by exists ps. Qed.

Lemma on_air_refl w : on_air w w.
Proof. apply air_refl. Qed.
Lemma on_air_trans w1 w2 w3 : on_air w1 w2 -> on_air w2 w3 -> on_air w1 w3.
Proof. apply air_trans. Qed.
Lemma on_air_transmit p w w' : on_air w w' -> on_air w (transmit p w').
Proof. apply air_transmit. Qed.
Lemma on_air_polls n w w' : on_air w w' -> on_air w (set_w_polls n w').
Proof. done. Qed.
Lemma on_air_reads n w w' : on_air w w' -> on_air w (set_w_reads n w').
Proof. done. Qed.
Lemma on_air_compares n w w' : on_air w w' -> on_air w (set_w_compares n w').
Proof. done. Qed.
Lemma on_air_compare v w w' : on_air w w' -> on_air w (Radio.set_compare v w').
Proof. done. Qed.
Lemma on_air_start b w w' : on_air w w' -> on_air w (receive_start b w').
Proof. done. Qed.
Lemma on_air_cancel w w' : on_air w w' -> on_air w (receive_cancel w').
Proof. done. Qed.

(** A computation whose world is so related to [w]. *)
Definition airs {A} (R : World -> World -> Prop) (p : A -> World) (w : World)
    (m : run A) : Prop :=
  match m with Done a => R w (p a) | _ => True end.

Lemma airs_mono {A} (R R' : World -> World -> Prop) (p : A -> World) w m :
  (forall w', R w w' -> R' w w') -> airs R p w m -> airs R' p w m.
Proof. destruct m; cbn; auto. Qed.

Lemma airs_pure {A B} R (p : B -> World) w (m : outcome A) (f : A -> run B) :
  (forall a, airs R p w (f a)) -> airs R p w (rbind (lift m) f).
Proof. destruct m; [|done]. intros H3. apply H3. Qed.

Lemma lift_obind {A B} (m : outcome A) (f : A -> outcome B) :
  lift (obind m f) = rbind (lift m) (fun a => lift (f a)).
Proof. by destruct m. Qed.

Section airwaves.
Context (R : World -> World -> Prop) {HR : Airwaves R}.

Lemma airs_bind {A B} (q : A -> World) (p : B -> World) w w1 (m : run A) (f : A -> run B) :
  airs R q w1 m -> R w w1 -> (forall a, R w (q a) -> airs R p w (f a)) ->
  airs R p w (rbind m f).
Proof.
  destruct m as [a| |]; [|done..]. intros H1 H2 H3. apply H3. exact (air_trans _ _ _ H2 H1).
Qed.

Lemma airs_from {A} (p : A -> World) w w1 (m : run A) :
  airs R p w1 m -> R w w1 -> airs R p w m.
Proof. destruct m; [|done..]. intros H1 H2. exact (air_trans _ _ _ H2 H1). Qed.

End airwaves.

Create HintDb air discriminated.
#[export] Hint Resolve on_air_refl on_air_transmit on_air_polls on_air_reads
  on_air_compares on_air_compare on_air_start on_air_cancel : air.

(** The settings of a connection's channel. *)
Definition tuned_to (c : Conn) (r : RadioRegs) : Prop :=
  rg_base0 r = u32 ((cn_access_addr c .& 0x00FFFFFF) .<< 8) /\
  rg_prefix0 r = u8 (cn_access_addr c .>> 24) /\
  rg_txaddress r = 0 /\ rg_rxaddresses r = 1 /\
  rg_crcinit r = cn_crc_init c /\
  channel_frequency (cn_channel c) = Ok (2400 + rg_frequency r) /\
  rg_datawhiteiv r = 0x40 + cn_channel c.

(** Go through a computation's binds, branches and results. *)
Ltac air :=
  repeat first
    [ progress cbv zeta
    | match goal with
      | |- forall _, _ => intros
      | p : _ * _ |- _ => destruct p
      | |- airs _ _ _ (lift (obind _ _)) => rewrite lift_obind
      | |- airs _ _ _ (lift (Ret _)) => rewrite lift_Ret
      | |- airs _ _ _ (lift Panic) => exact I
      | |- airs _ _ _ (lift (match ?x with _ => _ end)) => destruct x
      | |- airs _ _ _ (rbind _ _) =>
          eapply airs_bind; [typeclasses eauto | solve [eauto with air nocore]
                            | solve [eauto with air nocore] | ]
      | |- airs _ _ _ (rbind (lift _) _) => apply airs_pure
      | |- airs _ _ _ (Done _) => unfold airs; cbn [fst snd] in *; solve [eauto with air nocore]
      | |- airs _ _ _ (match ?x with _ => _ end) => destruct x
      | |- airs _ _ _ (let '(_, _) := ?x in _) => destruct x
      | |- airs _ _ _ (Fault _) => exact I
      | |- airs _ _ _ OutOfFuel => exact I
      | |- airs _ _ _ _ =>
          eapply airs_from; [typeclasses eauto | solve [eauto with air nocore]
                            | solve [eauto with air nocore]]
      end ].

Section pure.
Context (R : World -> World -> Prop) {HR : Airwaves R}.
Context `{Hcrypto : Crypto, Hccm : CcmHw}.

#[local] Lemma R_refl w : R w w. Proof. apply air_refl. Qed.
#[local] Lemma R_transmit p w w' : R w w' -> R w (transmit p w').
Proof. apply air_transmit. Qed.
#[local] Hint Resolve R_refl R_transmit : air.

Lemma tx_airs c w n : airs R snd w (lift (tx c w n)).
Proof. unfold tx. air. Qed.
#[local] Hint Resolve tx_airs : air.

Lemma respond_airs c w : airs R snd w (lift (respond c w)).
Proof. unfold respond. air. Qed.
Lemma send_terminate_airs c w : airs R snd w (lift (send_terminate c w)).
Proof. unfold send_terminate. air. Qed.
Lemma send_version_airs c w : airs R snd w (lift (send_version c w)).
Proof. unfold send_version. air. Qed.
Lemma send_features_airs c w : airs R snd w (lift (send_features c w)).
Proof. unfold send_features. air. Qed.
Lemma start_encryption_airs c w : airs R snd w (lift (start_encryption c w)).
Proof. unfold start_encryption. air. Qed.
#[local] Hint Resolve respond_airs send_terminate_airs send_version_airs
  send_features_airs start_encryption_airs : air.

Lemma handle_ll_control_airs c payload w :
  airs R (fun r => snd (fst r)) w (lift (handle_ll_control c payload w)).
Proof. unfold handle_ll_control. air. Qed.
#[local] Hint Resolve handle_ll_control_airs : air.

Lemma handle_pdu_airs c w pdu ev :
  airs R (fun r => snd (fst r)) w (lift (handle_pdu c w pdu ev)).
Proof. unfold handle_pdu. air. Qed.
#[local] Hint Resolve handle_pdu_airs : air.

End pure.

Section air.
Context `{Hcrypto : Crypto, Hccm : CcmHw, Henv : Env}.

#[local] Lemma respond_on_air c w : airs on_air snd w (lift (respond c w)).
Proof. apply respond_airs, _. Qed.
#[local] Lemma terminate_on_air c w : airs on_air snd w (lift (send_terminate c w)).
Proof. apply send_terminate_airs, _. Qed.
#[local] Lemma pdu_on_air c w pdu ev :
  airs on_air (fun r => snd (fst r)) w (lift (handle_pdu c w pdu ev)).
Proof. apply handle_pdu_airs, _. Qed.
#[local] Hint Resolve respond_on_air terminate_on_air pdu_on_air : air.

Lemma receive_poll_airs b w : airs on_air (fun r => fst (fst r)) w (receive_poll b w).
Proof. unfold receive_poll. air. Qed.
#[local] Hint Resolve receive_poll_airs : air.

Lemma listen_airs fuel c w t : airs on_air (fun r => snd (fst r)) w (listen fuel c w t).
Proof.
  revert c w. induction fuel as [|fuel IH]; intros c w; [done|]. cbn [listen now]. air.
Qed.
#[local] Hint Resolve listen_airs : air.

Lemma open_window_airs fuel c w : airs on_air (fun r => snd (fst r)) w (open_window fuel c w).
Proof. unfold open_window. cbn [now]. air. Qed.
#[local] Hint Resolve open_window_airs : air.

Lemma slave_packets_airs n fuel c w ev :
  airs on_air (fun r => snd (fst r)) w (slave_packets n fuel c w ev).
Proof.
  revert c w ev. induction n as [|n IH]; intros c w ev; cbn [slave_packets now]; air.
Qed.
#[local] Hint Resolve slave_packets_airs : air.

Lemma event_slave_airs fuel c w : airs on_air (fun r => snd (fst r)) w (event_slave fuel c w).
Proof. unfold event_slave. air. Qed.

Lemma master_pdu_airs c w n ev : airs on_air (fun r => snd (fst r)) w (lift (master_pdu c w n ev)).
Proof. unfold master_pdu. cbn [now]. air. Qed.
#[local] Hint Resolve master_pdu_airs : air.

Lemma master_listen_airs fuel c w t : airs on_air (fun r => snd (fst r)) w (master_listen fuel c w t).
Proof.
  revert c w. induction fuel as [|fuel IH]; intros c w; [done|].
  cbn [master_listen now]. air.
Qed.
#[local] Hint Resolve master_listen_airs : air.

Lemma event_master_airs fuel c w : airs on_air (fun r => snd (fst r)) w (event_master fuel c w).
Proof. unfold event_master. cbn [now]. air. Qed.

Lemma wait_compare_airs fuel w : airs on_air id w (wait_compare fuel w).
Proof.
  revert w. induction fuel as [|fuel IH]; intros w; [done|].
  cbn [wait_compare compare_pending]. air.
Qed.

(** The settings an event makes. *)
Definition tune (c : Conn) (w : World) : World :=
  fst (Radio.set_channel (cn_channel c)
    (set_crc_init (cn_crc_init c) (set_access_address (cn_access_addr c) w))).

Lemma tune_ok c w : 0 <= cn_channel c <= 39 ->
  Radio.set_channel (cn_channel c)
    (set_crc_init (cn_crc_init c) (set_access_address (cn_access_addr c) w)) =
    (tune c w, Ok tt) /\
  tuned_to c (w_regs (tune c w)) /\ w_sent (tune c w) = w_sent w.
Proof.
  intros Hch. unfold tune.
  destruct (set_channel_Ok (cn_channel c) (set_crc_init (cn_crc_init c)
    (set_access_address (cn_access_addr c) w)) Hch) as (f & Ef & Hf & E).
  rewrite E. split; [done|]. split; [|done]. repeat split; try done.
  cbn [fst w_regs set_w_regs rg_frequency set_rg_frequency set_rg_datawhiteiv].
  rewrite Ef. f_equal. lia.
Qed.

(** Everything after preparation happens under those settings. *)
Lemma event_airs fuel c w c1 : event_prepare c = Ret c1 -> 0 <= cn_channel c1 <= 39 ->
  airs on_air (fun r => snd (fst r)) (tune c1 w) (event fuel c w).
Proof.
  intros E Hch. unfold event. rewrite E, lift_Ret, rbind_Done. cbv zeta.
  destruct (tune_ok c1 w Hch) as [Et _]. rewrite Et. case_decide.
  - eapply airs_bind; [apply _|apply wait_compare_airs|apply on_air_compare, on_air_refl|].
    intros w1 H1.
    eapply airs_from; [apply _|apply event_master_airs|exact H1].
  - apply event_slave_airs.
Qed.

End air.

(** ** Properties *)

Section properties.
Context `{Hcrypto : Crypto, Hccm : CcmHw, Henv : Env}.


(** C12. The radio follows the connection: every packet an event puts on the
    air, data, control, termination or acknowledgement, in either role, is sent
    under the connection's access address, its CRC initialisation and the
    frequency and whitening of the channel that hopping selects for this
    event. *)
Theorem event_on_channel fuel c w c' w' r : wf_link c ->
  event fuel c w = Done (c', w', r) ->
  exists c1 regs ps, event_prepare c = Ret c1 /\ tuned_to c1 regs /\
    cn_access_addr c1 = cn_access_addr c /\ cn_crc_init c1 = cn_crc_init c /\
    next_channel (cn_channel c) (cn_hop c) (cn_channel_map c) = Ret (cn_channel c1) /\
    w_sent w' = w_sent w ++ map (pair regs) ps.
Proof.
  intros Hc E. destruct (event_prepare_Ret c Hc) as (a & t & k & Ep & En & _).
  set (c1 := tuned _ _ _ _) in *.
  assert (Hch : 0 <= cn_channel c1 <= 39).
  { pose proof (probe_range ((cn_channel c + cn_hop c) mod 37) k). cbn. lia. }
  destruct (tune_ok c1 w Hch) as (_ & Ht & Es).
  pose proof (event_airs fuel c w c1 Ep Hch) as A. rewrite E in A.
  destruct A as [Er [ps Ew]]. cbn [fst snd] in *.
  exists c1, (w_regs (tune c1 w)), ps. rewrite Es in Ew. split; [done|].
  split; [exact Ht|].
  assert (Hx : cn_access_addr c1 = cn_access_addr c /\ cn_crc_init c1 = cn_crc_init c).
  { change (cn_access_addr (counted (updated c)) = cn_access_addr c /\
      cn_crc_init (counted (updated c)) = cn_crc_init c).
    unfold counted, updated. cbv zeta. destruct (update_due c) as [[? ?]|];
      by destruct (cn_encrypted _). }
  destruct Hx as [-> ->]. by repeat split.
Qed.

End properties.

(** ** Examples *)

(** Where an acknowledgement is received at the first poll. *)
Definition ack_env : Env := packet_env [3; 0] ltac:(bytes_eval).
(** Where nothing is received and the timer is about to wrap. *)
Definition wrap_env : Env := silent_env 16777200 ltac:(lia).


Lemma event_on_channel_witness :
  match @event mask_crypto xor_ccm ack_env 1 (sample_conn Slave) sample_world with
  | Done (c', w', _) => length (w_sent w') = 1%nat /\
      exists regs ps, w_sent w' = map (pair regs) ps
  | _ => False
  end.
Proof.
  assert (E : match @event mask_crypto xor_ccm ack_env 1 (sample_conn Slave) sample_world with
    | Done (_, w', _) => length (w_sent w') = 1%nat | _ => False end) by (vm_compute; done).
  destruct (@event mask_crypto xor_ccm ack_env 1 (sample_conn Slave) sample_world)
    as [[[c' w'] r]| |] eqn:Ev; [|done..]. split; [exact E|].
  destruct (@event_on_channel mask_crypto xor_ccm ack_env 1 (sample_conn Slave) sample_world
    c' w' r (sample_link Slave) Ev) as (c1 & regs & ps & _ & _ & _ & _ & _ & Es).
  by exists regs, ps.
Defined.
