(* ===== verification/LinkTime.v ===== *)
(** The time of connection events ([src/hw/conn.rs]): when their windows close and
    events end, and what a packet too long for the receive buffer does. *)

From stdpp Require Import base numbers list relations.
From S2P Require Import Prelude Errors Channels Timers Pdu Events BondStore Crypto Smp.
From S2P Require Import Ccm Gatt Conn Att CocChannel SmpChannel L2cap Frame Radio.
From S2P Require Import LinkLayer LinkInv LinkEvents.

(** ** The listening window *)

Section window.
Context `{Hcrypto : Crypto, Hccm : CcmHw, Henv : Env}.

(** The window closes within [fuel] turns: by then a packet has ended, or the
    timer has been read at the deadline or later. *)
Definition window_closes (fuel : nat) (w : World) (deadline : Z) : Prop :=
  exists j, (j < fuel)%nat /\
    (env_end (w_polls w + j) <> None \/ deadline <= env_now (w_reads w + j)).

(** Nothing is ever received from here on. *)
Definition silent (w : World) : Prop := forall j, env_end (w_polls w + j) = None.

(** What the receiver writes always fits a connection's buffer. *)
Definition fitting : Prop := forall i, (length (env_dma i) <= 64)%nat.

Lemma fitting_overran w : fitting -> overran w = false.
Proof. intros Hf. apply Nat.ltb_ge, Hf. Qed.

Lemma lift_returns {A} (m : outcome A) : lift m <> OutOfFuel.
Proof. by destruct m. Qed.

Lemma rbind_returns {A B} (m : run A) (f : A -> run B) :
  m <> OutOfFuel -> (forall a, m = Done a -> f a <> OutOfFuel) -> rbind m f <> OutOfFuel.
Proof. destruct m; [|done..]. intros _ H. by apply H. Qed.

(** One turn later a window that has not closed yet still closes. *)
Lemma window_closes_later fuel w deadline : window_closes (S fuel) w deadline ->
  env_end (w_polls w) = None -> env_now (w_reads w) < deadline ->
  window_closes fuel (set_w_reads (S (w_reads w)) (set_w_polls (S (w_polls w)) w)) deadline.
Proof.
  intros (j & Hj & Hw) E Hd. destruct j as [|j].
  { rewrite !Nat.add_0_r in Hw. destruct Hw; [congruence|lia]. }
  exists j. split; [lia|]. cbn [w_polls w_reads set_w_polls set_w_reads].
  by rewrite !Nat.add_succ_r in Hw.
Qed.

Lemma listen_closes fuel c w deadline : wf_link c -> w_rx_room w = 64%nat ->
  window_closes fuel w deadline -> listen fuel c w deadline <> OutOfFuel.
Proof.
  revert c w. induction fuel as [|fuel IH]; intros c w Hc Hr Hw.
  { destruct Hw as (j & Hj & _). lia. }
  rewrite listen_S by done. destruct (overran w) eqn:Eo; [done|]. cbv zeta.
  pose proof (polled_wf c w Hc Eo) as Hp.
  destruct (env_end (w_polls w)) as [[]|] eqn:E; [| |]; try done.
  - destruct (rx_done _) as [c2 []]; cbn [negb]; [|done]. destruct (_ <=? 64)%nat; [|done].
    by destruct (DataPdu_decode _) as [[]|].
  - destruct (Z.leb_spec deadline (env_now (w_reads w))); [done|].
    apply IH; [done..|]. by apply window_closes_later.
Qed.

Lemma silent_later w : silent w ->
  silent (set_w_reads (S (w_reads w)) (set_w_polls (S (w_polls w)) w)).
Proof.
  intros Hs j. pose proof (Hs (S j)) as Ej. by rewrite Nat.add_succ_r in Ej.
Qed.

(** A deadline the timer cannot show: the window never closes. *)
Lemma listen_silent fuel c w deadline : wf_link c -> w_rx_room w = 64%nat -> fitting ->
  silent w -> 2 ^ 24 <= deadline -> listen fuel c w deadline = OutOfFuel.
Proof.
  intros Hc Hr Hf. revert c w Hc Hr. induction fuel as [|fuel IH]; intros c w Hc Hr Hs Hd;
    [done|].
  rewrite listen_S, fitting_overran by done. cbv zeta.
  pose proof (Hs 0%nat) as E. rewrite Nat.add_0_r in E. rewrite E.
  pose proof (env_now_range (w_reads w)). rewrite (proj2 (Z.leb_gt _ _)) by lia.
  apply IH; [|done| |done]; [by apply polled_wf, fitting_overran|by apply silent_later].
Qed.

(** The master's loop closes, or not, like the slave's. *)
Lemma master_listen_closes fuel c w deadline : wf_link c -> w_rx_room w = 64%nat ->
  window_closes fuel w deadline -> master_listen fuel c w deadline <> OutOfFuel.
Proof.
  revert c w. induction fuel as [|fuel IH]; intros c w Hc Hr Hw.
  { destruct Hw as (j & Hj & _). lia. }
  cbn [master_listen]. rewrite poll_cases by done. destruct (overran w) eqn:Eo; [done|].
  rewrite rbind_Done. cbv zeta.
  change (set_rx_buf (cn_rx_buf (polled c w)) c) with (polled c w).
  pose proof (polled_wf c w Hc Eo) as Hp.
  destruct (env_end (w_polls w)) as [[]|] eqn:E; [| |]; try done.
  - rewrite rx_Ret, lift_Ret, rbind_Done by apply Hp.
    destruct (rx_done _) as [c2 []]; cbn [negb]; [|done]. apply lift_returns.
  - cbn [now w_reads set_w_polls].
    destruct (Z.leb_spec deadline (env_now (w_reads w))); [done|].
    apply IH; [done..|]. by apply window_closes_later.
Qed.

Lemma master_listen_silent fuel c w deadline : wf_link c -> w_rx_room w = 64%nat -> fitting ->
  silent w -> 2 ^ 24 <= deadline -> master_listen fuel c w deadline = OutOfFuel.
Proof.
  intros Hc Hr Hf. revert c w Hc Hr. induction fuel as [|fuel IH]; intros c w Hc Hr Hs Hd;
    [done|].
  cbn [master_listen]. rewrite poll_cases, fitting_overran, rbind_Done by done. cbv zeta.
  change (set_rx_buf (cn_rx_buf (polled c w)) c) with (polled c w).
  pose proof (Hs 0%nat) as E. rewrite Nat.add_0_r in E. rewrite E. cbn [now w_reads set_w_polls].
  pose proof (env_now_range (w_reads w)). rewrite (proj2 (Z.leb_gt _ _)) by lia.
  apply IH; [|done| |done]; [by apply polled_wf, fitting_overran|by apply silent_later].
Qed.

Lemma window_deadline t : 0 <= t < 2 ^ 24 -> wrapping_add32 t (timeout_ticks 2000) = t + 63.
Proof.
  intros Ht. unfold wrapping_add32. change (timeout_ticks 2000) with 63.
  apply u32_id. unfold is_u32. lia.
Qed.

(** ** What a window uses of the hardware *)

(** At most [p] polls and [r] reads of the timer. *)
Definition spent (p r : nat) (w w' : World) : Prop :=
  (w_polls w <= w_polls w' <= w_polls w + p)%nat /\
  (w_reads w <= w_reads w' <= w_reads w + r)%nat.

Lemma spent_trans p1 r1 p2 r2 w1 w2 w3 : spent p1 r1 w1 w2 -> spent p2 r2 w2 w3 ->
  spent (p1 + p2) (r1 + r2) w1 w3.
Proof. unfold spent. lia. Qed.

Lemma sends_spent w w' : sends w w' -> spent 0 0 w w'.
Proof. intros [ps ->]. unfold spent. cbn. lia. Qed.

Lemma receive_poll_world buf w w' buf' r : receive_poll buf w = Done (w', buf', r) ->
  w' = set_w_polls (S (w_polls w)) w.
Proof.
  unfold receive_poll. destruct (_ <? _)%nat; [done|]. cbv zeta.
  destruct (env_end (w_polls w)) as [ok|]; [|by intros [= <-]].
  destruct (idx _ _); [|done]. cbn [lift rbind]. by destruct ok; intros [= <-].
Qed.

Lemma listen_spent fuel c w deadline c' w' h :
  listen fuel c w deadline = Done (c', w', h) -> spent fuel fuel w w'.
Proof.
  revert c w. induction fuel as [|fuel IH]; intros c w; [done|]. cbn [listen].
  destruct (receive_poll (cn_rx_buf c) w) as [[[w1 b] r]| |] eqn:Ep; [|done..].
  apply receive_poll_world in Ep as ->. cbn [rbind].
  assert (H1 : spent (S fuel) (S fuel) w (set_w_polls (S (w_polls w)) w))
    by (unfold spent; cbn; lia).
  destruct r as [[n|]|]; [| |by intros [= _ <- _]].
  - destruct (rx _ n) as [[c2 ok]|]; [|done]. cbn [lift rbind].
    destruct ok; cbn [negb]; [|by intros [= _ <- _]].
    destruct (slice_to _ _) as [bs|]; [|done]. cbn [lift rbind].
    destruct (DataPdu_decode bs) as [[p|e]|]; [|by intros [= _ <- _]|done].
    by intros [= _ <- _].
  - cbn [now]. destruct (_ <=? _); [intros [= _ <- _]; unfold spent; cbn; lia|].
    intros H2%IH. unfold spent in *. cbn in H2. lia.
Qed.

Lemma open_window_spent fuel c w c' w' h :
  open_window fuel c w = Done (c', w', h) -> spent fuel (S fuel) w w'.
Proof. intros H%listen_spent. unfold spent in *. cbn in H. lia. Qed.

Lemma handle_pdu_spent c w pdu ev c' w' r :
  handle_pdu c w pdu ev = Ret (c', w', r) -> spent 0 0 w w'.
Proof.
  intros E. apply sends_spent. pose proof (handle_pdu_airs sends c w pdu ev) as A.
  by rewrite E in A.
Qed.

End window.

(** ** How an event ends *)

Section ends.
Context `{Hcrypto : Crypto, Hccm : CcmHw, Henv : Env}.

(** The timer keeps up through [n] windows from here: whatever reading of it a
    window starts from, and at whatever poll, within [fuel] turns a packet ends or
    the timer shows 63 ticks more. Silence is enough, as long as the timer does
    not wrap within a window. *)
Definition keeps_up (n fuel : nat) (w : World) : Prop :=
  forall p r, (w_polls w <= p <= w_polls w + n * fuel)%nat ->
    (w_reads w <= r <= w_reads w + n * (2 + fuel))%nat ->
    exists j, (j < fuel)%nat /\
      (env_end (p + j) <> None \/ env_now r + 63 <= env_now (S r + j)).

(** The compare event fires within [fuel] reads. *)
Definition fires (fuel : nat) (w : World) : Prop :=
  exists j, (j < fuel)%nat /\ env_compare (w_compares w + j) = true.

Lemma keeps_up_window n fuel w : keeps_up (S n) fuel w ->
  window_closes fuel (set_w_reads (S (w_reads w)) w)
    (wrapping_add32 (env_now (w_reads w)) (timeout_ticks 2000)).
Proof.
  intros Ht. destruct (Ht (w_polls w) (w_reads w)) as (j & Hj & Hw); [lia..|].
  rewrite window_deadline by apply env_now_range. by exists j.
Qed.

Lemma keeps_up_later n fuel w w' : keeps_up (S n) fuel w -> spent fuel (2 + fuel) w w' ->
  keeps_up n fuel w'.
Proof. intros Ht [H1 H2] p r Hp Hr. apply Ht; lia. Qed.

Lemma room_started c w : wf_link c -> w_rx_room (receive_start (cn_rx_buf c) w) = 64%nat.
Proof. intros Hc. exact (wf_rx_buf c (wl_conn c Hc)). Qed.

Lemma open_window_returns n fuel c w : wf_link c -> keeps_up (S n) fuel w ->
  open_window fuel c w <> OutOfFuel.
Proof.
  intros Hc Ht. unfold open_window. cbn [now].
  apply listen_closes; [done|by apply room_started|]. exact (keeps_up_window n fuel w Ht).
Qed.

Lemma slave_packets_returns n fuel c w ev : wf_link c -> keeps_up n fuel w ->
  slave_packets n fuel c w ev <> OutOfFuel.
Proof.
  intros Hc Ht. revert c w ev Hc Ht. induction n as [|n IH]; intros c w ev Hc Ht; [done|].
  cbn [slave_packets]. apply rbind_returns; [by eapply open_window_returns|].
  intros [[c1 w1] h] E. pose proof (open_window_ok fuel c w Hc) as Ho. rewrite E in Ho.
  apply open_window_spent in E. destruct Ho as [H1 Hb]. destruct h as [| |pdu]; [done..|].
  cbn [now]. apply rbind_returns; [apply lift_returns|]. intros [[c2 w3] r] Eh.
  pose proof (handle_pdu_safe (set_last_rx (env_now (w_reads w1)) c1)
    (set_w_reads (S (w_reads w1)) w1) pdu ev
    (wl_last_rx _ _ H1 (env_now_range _)) Hb) as S.
  destruct (handle_pdu _ _ _ _) as [r'|] eqn:Er; [|done]. injection Eh as ->.
  apply handle_pdu_spent in Er. destruct r as [ev'|e]; [|done]. destruct (negb _); [done|].
  apply IH; [exact S|]. eapply keeps_up_later; [exact Ht|].
  unfold spent in *. cbn in Er. lia.
Qed.

Lemma wait_compare_returns fuel w : fires fuel w -> wait_compare fuel w <> OutOfFuel.
Proof.
  revert w. induction fuel as [|fuel IH]; intros w (j & Hj & E); [lia|].
  cbn [wait_compare compare_pending]. destruct (env_compare (w_compares w)) eqn:E0; [done|].
  apply IH. destruct j as [|j]; [rewrite Nat.add_0_r in E; congruence|].
  exists j. split; [lia|]. by rewrite Nat.add_succ_r in E.
Qed.

Lemma wait_compare_world fuel w w' : wait_compare fuel w = Done w' ->
  exists n, w' = set_w_compares n w.
Proof.
  revert w. induction fuel as [|fuel IH]; intros w; [done|].
  cbn [wait_compare compare_pending]. destruct (env_compare _).
  - intros [= <-]. by eexists.
  - intros [n ->]%IH. by eexists.
Qed.

Lemma respond_world c w c' w' : respond c w = Ret (c', w') ->
  exists ps, w' = set_w_sent (w_sent w ++ map (pair (w_regs w)) ps) w.
Proof. intros E. pose proof (respond_airs sends c w) as A. by rewrite E in A. Qed.

Lemma respond_wf c w c' w' : wf_link c -> respond c w = Ret (c', w') -> wf_link c'.
Proof. intros Hc E. pose proof (respond_safe c w Hc) as S. by rewrite E in S. Qed.

(** Settings of the radio do not touch the reads and polls. *)
Lemma tune_counts c w : w_polls (tune c w) = w_polls w /\ w_reads (tune c w) = w_reads w /\
  w_compares (tune c w) = w_compares w.
Proof.
  unfold tune, set_channel. by destruct (channel_frequency (cn_channel c)).
Qed.

(** An event, prepared and tuned, in its two roles. *)
Lemma event_split fuel c w : wf_link c -> exists c1,
  event_prepare c = Ret c1 /\ wf_link c1 /\ cn_role c1 = cn_role c /\
  cn_terminate_pending c1 = cn_terminate_pending c /\
  event fuel c w =
    if decide (cn_role c = Master) then
      let* w2 := wait_compare fuel (Radio.set_compare (cn_anchor c1) (tune c1 w)) in
      event_master fuel c1 w2
    else event_slave fuel c1 (tune c1 w).
Proof.
  intros Hc. destruct (event_prepare_Ret c Hc) as (a & t & k & E & _).
  pose proof (event_prepare_safe c Hc) as S. rewrite E in S.
  set (c1 := tuned a t _ _) in *. exists c1. split; [done|]. split; [exact S|].
  assert (Hx : cn_role c1 = cn_role c /\ cn_terminate_pending c1 = cn_terminate_pending c).
  { change (cn_role (counted (updated c)) = cn_role c /\
      cn_terminate_pending (counted (updated c)) = cn_terminate_pending c).
    unfold counted, updated. cbv zeta. destruct (update_due c) as [[? ?]|];
      by destruct (cn_encrypted _). }
  destruct Hx as [Hr Hp]. split; [done|]. split; [done|].
  unfold event. rewrite E, lift_Ret, rbind_Done. cbv zeta.
  destruct (tune_ok c1 w (lo_channel _ (wl_link c1 S))) as [-> _]. by rewrite Hr.
Qed.

(** The window of a fresh event closes in time, or never. *)
Lemma event_returns fuel c w : wf_link c ->
  keeps_up 4 fuel w -> (cn_role c = Master -> fires fuel w) -> event fuel c w <> OutOfFuel.
Proof.
  intros Hc Ht Hf. destruct (event_split fuel c w Hc) as (c1 & _ & H1 & _ & _ & ->).
  destruct (tune_counts c1 w) as (Ep & Er & Ec). case_decide as Hm.
  - apply rbind_returns.
    { apply wait_compare_returns. destruct (Hf Hm) as (j & Hj & E). exists j.
      split; [done|]. by cbn; rewrite Ec. }
    intros w2 [n ->]%wait_compare_world. unfold event_master.
    destruct (cn_terminate_pending c1).
    { apply rbind_returns; [apply lift_returns|]. by intros [c3 w3] _. }
    apply rbind_returns; [apply lift_returns|]. intros [c3 w3] E.
    destruct (respond c1 _) as [[c4 w4]|] eqn:Es; [|done]. injection E as -> ->.
    pose proof (respond_wf _ _ _ _ H1 Es) as S.
    apply respond_world in Es as [ps ->]. cbn [now]. apply rbind_returns.
    + apply master_listen_closes; [exact S|exact (room_started c3 _ S)|].
      cbn [w_reads set_w_sent set_w_compares Radio.set_compare set_w_cc0]. rewrite Er.
      destruct (keeps_up_window 3 fuel w Ht) as (j & Hj & Hw). exists j.
      split; [done|]. by cbn in Hw |- *; rewrite Ep.
    + by intros [[c5 w5] ev] _.
  - unfold event_slave. apply rbind_returns.
    { apply slave_packets_returns; [done|]. unfold keeps_up. by rewrite Ep, Er. }
    intros [[c3 w3] e] _. destruct e as [r|received ev]; [done|].
    destruct (negb received); [done|]. destruct (cn_terminate_pending c3);
      (apply rbind_returns; [apply lift_returns|by intros [c4 w4] _]).
Qed.

Lemma event_hangs fuel c w : wf_link c -> fitting -> silent w ->
  2 ^ 24 <= env_now (w_reads w) + 63 ->
  cn_role c = Slave \/ cn_terminate_pending c = false ->
  forall x, event fuel c w <> Done x.
Proof.
  intros Hc Hf Hs Hd Hrole x. destruct (event_split fuel c w Hc) as (c1 & _ & H1 & _ & Ept & ->).
  destruct (tune_counts c1 w) as (Ep & Er & Ec).
  assert (Hw : wrapping_add32 (env_now (w_reads w)) (timeout_ticks 2000) =
    env_now (w_reads w) + 63) by apply window_deadline, env_now_range.
  case_decide as Hm.
  - destruct Hrole as [Hr|Hr]; [congruence|].
    destruct (wait_compare _ _) as [w2| |] eqn:Ew; [|done..].
    apply wait_compare_world in Ew as [n ->]. unfold event_master. rewrite Ept, Hr.
    cbn [rbind]. destruct (respond c1 _) as [[c3 w3]|] eqn:Es; [|done].
    pose proof (respond_wf _ _ _ _ H1 Es) as S.
    apply respond_world in Es as [ps ->]. cbn [lift rbind now].
    cbn [w_reads set_w_sent set_w_compares Radio.set_compare set_w_cc0]. rewrite Er, Hw.
    rewrite master_listen_silent; [done|exact S|exact (room_started c3 _ S)|done| |done].
    intros j. cbn. rewrite Ep. apply Hs.
  - unfold event_slave. cbn [slave_packets]. unfold open_window. cbn [now].
    rewrite Er, Hw. rewrite listen_silent; [done|done|by apply room_started|done| |done].
    intros j. cbn. rewrite Ep. apply Hs.
Qed.

End ends.

(** ** Packets longer than the receive buffer *)

Section overrun.
Context `{Hcrypto : Crypto, Hccm : CcmHw, Henv : Env}.

(** From here, the hardware waits [k] polls, within the buffer and before the
    deadline, and then writes past its end. *)
Definition hears_long (k : nat) (w : World) (deadline : Z) : Prop :=
  (forall j, (j < k)%nat -> env_end (w_polls w + j) = None /\
     env_now (w_reads w + j) < deadline /\ (length (env_dma (w_polls w + j)) <= 64)%nat) /\
  (64 < length (env_dma (w_polls w + k)))%nat.

Lemma listen_overruns fuel k c w deadline : wf_link c -> w_rx_room w = 64%nat ->
  (k < fuel)%nat -> hears_long k w deadline -> listen fuel c w deadline = Fault Overrun.
Proof.
  revert k c w. induction fuel as [|fuel IH]; intros k c w Hc Hr Hk [Hj Hl]; [lia|].
  rewrite listen_S by done. destruct k as [|k].
  { rewrite Nat.add_0_r in Hl. apply Nat.ltb_lt in Hl. unfold overran. by rewrite Hl. }
  destruct (Hj 0%nat) as (He & Hd & Hn); [lia|]. rewrite !Nat.add_0_r in He, Hd, Hn.
  assert (Eo : overran w = false) by (by apply Nat.ltb_ge).
  rewrite Eo, He. cbv zeta. rewrite (proj2 (Z.leb_gt _ _)) by done.
  apply IH with k; [by apply polled_wf|done|lia|]. split.
  - intros j H. cbn [w_polls w_reads set_w_polls set_w_reads].
    specialize (Hj (S j) ltac:(lia)). by rewrite !Nat.add_succ_r in Hj.
  - cbn [w_polls set_w_polls set_w_reads]. by rewrite Nat.add_succ_r in Hl.
Qed.

Lemma rbind_within {A B} (m : run A) (f : A -> run B) :
  m <> Fault Overrun -> (forall a, m = Done a -> f a <> Fault Overrun) ->
  rbind m f <> Fault Overrun.
Proof. destruct m as [a|f'|]; cbn [rbind]; [auto| |done]. intros H _ [= E]. by rewrite E in H. Qed.

Lemma lift_within {A} (m : outcome A) : lift m <> Fault Overrun.
Proof. by destruct m. Qed.

Lemma receive_poll_within c w : wf_link c -> w_rx_room w = 64%nat -> fitting ->
  receive_poll (cn_rx_buf c) w <> Fault Overrun.
Proof. intros Hc Hr Hf. by rewrite poll_cases, fitting_overran. Qed.

Lemma listen_within fuel c w deadline : wf_link c -> w_rx_room w = 64%nat -> fitting ->
  listen fuel c w deadline <> Fault Overrun.
Proof.
  intros Hc Hr Hf. revert c w Hc Hr. induction fuel as [|fuel IH]; intros c w Hc Hr; [done|].
  rewrite listen_S, fitting_overran by done. cbv zeta.
  pose proof (polled_wf c w Hc (fitting_overran w Hf)) as Hp.
  destruct (env_end (w_polls w)) as [[]|]; [|done|].
  - destruct (rx_done _) as [c2 []]; cbn [negb]; [|done]. destruct (_ <=? 64)%nat; [|done].
    by destruct (DataPdu_decode _) as [[]|].
  - destruct (_ <=? _); [done|]. by apply IH.
Qed.

Lemma slave_packets_within n fuel c w ev : wf_link c -> fitting ->
  slave_packets n fuel c w ev <> Fault Overrun.
Proof.
  intros Hc Hf. revert c w ev Hc. induction n as [|n IH]; intros c w ev Hc; [done|].
  cbn [slave_packets]. apply rbind_within; [by apply listen_within, Hf; [|apply room_started]|].
  intros [[c1 w1] h] E. pose proof (open_window_ok fuel c w Hc) as Ho.
  rewrite E in Ho. destruct Ho as [H1 Hb]. destruct h as [| |pdu]; [done..|]. cbn [now].
  apply rbind_within; [apply lift_within|]. intros [[c2 w3] r] Eh.
  pose proof (handle_pdu_safe (set_last_rx (env_now (w_reads w1)) c1)
    (set_w_reads (S (w_reads w1)) w1) pdu ev (wl_last_rx _ _ H1 (env_now_range _)) Hb) as S.
  destruct (handle_pdu _ _ _ _) as [r'|]; [|done]. injection Eh as ->.
  destruct r as [ev'|e]; [|done]. destruct (negb _); [done|]. by apply IH.
Qed.

Lemma master_listen_within fuel c w deadline : wf_link c -> w_rx_room w = 64%nat -> fitting ->
  master_listen fuel c w deadline <> Fault Overrun.
Proof.
  intros Hc Hr Hf. revert c w Hc Hr. induction fuel as [|fuel IH]; intros c w Hc Hr; [done|].
  cbn [master_listen]. rewrite poll_cases, fitting_overran, rbind_Done by done. cbv zeta.
  change (set_rx_buf (cn_rx_buf (polled c w)) c) with (polled c w).
  pose proof (polled_wf c w Hc (fitting_overran w Hf)) as Hp.
  destruct (env_end (w_polls w)) as [[]|]; [|done|].
  - apply rbind_within; [apply lift_within|]. intros [c2 ok] _.
    destruct ok; cbn [negb]; [apply lift_within|done].
  - cbn [now]. destruct (_ <=? _); [done|]. by apply IH.
Qed.

Lemma wait_compare_within fuel w f : wait_compare fuel w <> Fault f.
Proof.
  revert w. induction fuel as [|fuel IH]; intros w; [done|].
  cbn [wait_compare compare_pending]. destruct (env_compare _); [done|apply IH].
Qed.

Lemma event_within fuel c w : wf_link c -> fitting -> event fuel c w <> Fault Overrun.
Proof.
  intros Hc Hf. destruct (event_split fuel c w Hc) as (c1 & _ & H1 & _ & _ & ->).
  assert (Hsend : forall m : outcome (Conn * World), (let* (self, w) := lift m in
    Done (self, w, Ok (EvDisconnected HostTerminate))) <> @Fault (Conn * World * result ConnEvent Error) Overrun).
  { intros m. apply rbind_within; [apply lift_within|by intros [] _]. }
  case_decide.
  - apply rbind_within; [apply wait_compare_within|]. intros w2 _. unfold event_master.
    destruct (cn_terminate_pending c1); [apply Hsend|].
    apply rbind_within; [apply lift_within|]. intros [c3 w3] E.
    destruct (respond c1 w2) as [[c4 w4]|] eqn:Es; [|done]. injection E as -> ->.
    pose proof (respond_wf _ _ _ _ H1 Es) as S. cbn [now]. apply rbind_within.
    + by apply master_listen_within, Hf; [|exact (room_started c3 w3 S)].
    + by intros [[c5 w5] ev] _.
  - unfold event_slave. apply rbind_within; [by apply slave_packets_within|].
    intros [[c3 w3] e] _. destruct e as [r|received ev]; [done|].
    destruct (negb received); [done|]. destruct (cn_terminate_pending c3); [apply Hsend|].
    apply rbind_within; [apply lift_within|by intros [c4 w4] _].
Qed.

End overrun.

(** ** Properties *)

Section properties.
Context `{Hcrypto : Crypto, Hccm : CcmHw, Henv : Env}.

(** C15. Connection events end, but for the wrap of the timer: an event of a
    well-formed connection, in either role, comes to an end when the timer keeps
    up through its windows, four at most, and, for a master, the compare event
    fires; nothing needs to be received, since in silence the deadline ends a
    window. But the timer has 24 bits and the deadline 32: an event whose first
    window opens in the last 63 ticks before the timer wraps, with nothing
    received, never completes, whatever the fuel; only a master that terminates
    opens no window. *)
Theorem event_terminates c w : wf_link c ->
  (forall fuel, keeps_up 4 fuel w -> (cn_role c = Master -> fires fuel w) ->
     event fuel c w <> OutOfFuel) /\
  (silent w -> fitting -> 2 ^ 24 <= env_now (w_reads w) + 63 ->
   cn_role c = Slave \/ cn_terminate_pending c = false ->
     forall fuel x, event fuel c w <> Done x).
Proof.
  intros Hc. split.
  - intros fuel. by apply event_returns.
  - intros Hs Hf Ht Hr fuel. by apply event_hangs.
Qed.


End properties.

(** ** Examples *)

(** Nothing is received and the timer counts its reads. *)
#[refine] Definition ticking_env : Env := {|
  env_now i := (20 * Z.of_nat i) mod 2 ^ 24;
  env_compare i := Nat.ltb 2 i;
  env_end _ := None;
  env_dma _ := [];
  env_rssi _ := -90
|}.
Proof.
  - intros i. by apply Z.mod_pos_bound.
  - intros _. constructor.
  - intros _. cbn. lia.
Defined.

(** In silence the deadline ends the window; before the wrap nothing does. *)
Lemma event_terminates_witness :
  @event mask_crypto xor_ccm ticking_env 8 (sample_conn Master) sample_world <> OutOfFuel /\
  @event mask_crypto xor_ccm ticking_env 8 (sample_conn Slave) sample_world <> OutOfFuel /\
  forall fuel x, @event mask_crypto xor_ccm wrap_env fuel (sample_conn Slave) sample_world <> Done x.
Proof.
  assert (K : @keeps_up ticking_env 4 8 sample_world).
  { intros p r _ Hr. exists 5%nat. split; [lia|]. right. cbn in Hr |- *.
    change (2 ^ 24) with 16777216. rewrite !Z.mod_small by lia. lia. }
  split; [|split].
  - apply (@event_terminates mask_crypto xor_ccm ticking_env _ sample_world (sample_link Master));
      [exact K|]. intros _. exists 3%nat. split; [lia|]. reflexivity.
  - apply (@event_terminates mask_crypto xor_ccm ticking_env _ sample_world (sample_link Slave));
      [exact K|done].
  - apply (@event_terminates mask_crypto xor_ccm wrap_env _ sample_world (sample_link Slave)).
    + intros j. reflexivity.
    + intros i. cbn. lia.
    + cbn. lia.
    + by left.
Defined.

