(* ===== verification/LinkHistory.v ===== *)
(** The history of a connection ([src/hw/conn.rs]): events with everything they
    hear and send, in either role, and what the host does in between; where the
    anchors of a history lie and when an update takes effect. *)

From stdpp Require Import base numbers list relations.
From S2P Require Import Prelude Errors Channels Timers Pdu Events BondStore Crypto Smp.
From S2P Require Import Ccm Gatt Conn Att CocChannel SmpChannel L2cap Frame Radio.
From S2P Require Import LinkLayer LinkInv LinkEvents LinkTime.

(** ** What the packets of an event leave alone *)

(** The role, the parameters, the schedule and the hopping. *)
Definition timing_of (l : Link) : ConnRole * Z * Z * Z * IntervalAccum * Z * Z * Z * list Z :=
  (lk_role l, lk_interval l, lk_timeout l, lk_anchor l, lk_accum l, lk_event_counter l,
   lk_channel l, lk_hop l, lk_channel_map l).
Definition timing (c : Conn) := timing_of (link c).

(** Whether the link is encrypted, and the packet counter. *)
Definition crypt (c : Conn) : bool * Z := (cn_encrypted c, cn_packet_counter c).

(** What everything but a control PDU leaves alone. *)
Definition steady (c : Conn) := (timing c, crypt c).

Create HintDb steady discriminated.

Lemma take_sn_steady c b : steady (take_sn c b) = steady c.
Proof. unfold take_sn. by destruct (negb _). Qed.

(** Go through a computation's binds, branches and results. *)
Ltac steady_eq := cbn [fst snd]; solve [reflexivity | eassumption
  | etransitivity; [apply take_sn_steady|reflexivity]].
Ltac steady := repeat first
    [ progress cbv zeta
    | match goal with
      | |- forall _, _ => intros
      | p : _ * _ |- _ => destruct p
      | |- keeps _ _ _ (obind _ _) =>
          eapply keeps_seq; [solve [eauto with steady nocore] | steady_eq | ]
      | |- keeps _ _ _ (obind _ _) => apply keeps_bind
      | |- keeps _ _ _ (Ret _) => unfold keeps; steady_eq
      | |- keeps _ _ _ (match ?x with _ => _ end) => destruct x
      | |- keeps _ _ _ Panic => exact I
      | |- keeps _ _ _ _ =>
          eapply keeps_from; [solve [eauto with steady nocore] | steady_eq]
      end ].

Section body.
Context `{Hcrypto : Crypto, Hccm : CcmHw, Henv : Env}.

Lemma put_header_steady c a b : keeps steady id c (put_header c a b).
Proof. unfold put_header. steady. Qed.
#[local] Hint Resolve put_header_steady : steady.
Lemma tx_steady c w n : keeps steady fst c (tx c w n).
Proof. unfold tx. steady. Qed.
Lemma rx_steady c n : keeps steady fst c (rx c n).
Proof. unfold rx. steady. Qed.
Lemma tx_fragment_steady c : keeps steady fst c (tx_fragment c).
Proof. unfold tx_fragment. steady. by destruct (_ <=? _)%nat. Qed.
#[local] Hint Resolve tx_steady rx_steady tx_fragment_steady : steady.
Lemma respond_steady c w : keeps steady fst c (respond c w).
Proof. unfold respond. steady. Qed.
Lemma terminate_steady c w : keeps steady fst c (send_terminate c w).
Proof. unfold send_terminate. steady. Qed.
Lemma send_version_steady c w : keeps steady fst c (send_version c w).
Proof. unfold send_version. steady. Qed.
Lemma send_features_steady c w : keeps steady fst c (send_features c w).
Proof. unfold send_features. steady. Qed.
Lemma set_lengths_steady c w : keeps steady id c (set_lengths c w).
Proof. unfold set_lengths. steady. Qed.
Lemma handle_l2cap_steady c p llid ev : keeps steady fst c (handle_l2cap c p llid ev).
Proof.
  pose proof (handle_l2cap_keeps c p llid ev) as K. destruct (handle_l2cap _ _ _ _); [|done].
  exact (f_equal (fun l => (timing_of l, (lk_encrypted l, lk_packet_counter l))) K).
Qed.
#[local] Hint Resolve respond_steady terminate_steady send_version_steady
  send_features_steady set_lengths_steady handle_l2cap_steady : steady.
Lemma master_pdu_steady c w n ev : keeps steady (fun r => fst (fst r)) c (master_pdu c w n ev).
Proof. unfold master_pdu. cbn [now]. steady. Qed.

(** The schedule is as given, and the counter too unless encryption was started,
    which clears it. *)
Definition kept (x : Conn) (c : Conn) : Prop :=
  timing c = timing x /\ (crypt c = crypt x \/ crypt c = (true, 0)).

Lemma steady_kept x c c' : kept x c -> steady c' = steady c -> kept x c'.
Proof. intros [Ht Hk] [= E1 E2 E3 E4 E5 E6 E7 E8 E9 F1 F2]. split.
  - unfold timing, timing_of in *. cbn [link lk_role lk_interval lk_timeout lk_anchor lk_accum
      lk_event_counter lk_channel lk_hop lk_channel_map] in *. congruence.
  - unfold crypt in *. by rewrite F1, F2.
Qed.

Lemma keeps_kept {A} x (p : A -> Conn) c m a : kept x c -> keeps steady p c m ->
  m = Ret a -> kept x (p a).
Proof. intros Hk K E. by eapply steady_kept, (keeps_Ret steady p). Qed.

Lemma handle_ll_control_kept x c payload w c' w' r : kept x c ->
  handle_ll_control c payload w = Ret (c', w', r) -> kept x c'.
Proof.
  intros Hk. unfold handle_ll_control. destruct (_ =? 0)%nat; [by intros [= <- _ _]|].
  destruct (idx payload 0) as [op|]; [|done]. cbn [obind].
  assert (Hclear : forall c1, kept x c1 -> kept x (set_packet_counter 0 (set_encrypted true c1))).
  { intros c1 [H1 _]. split; [exact H1|by right]. }
  destruct (_ =? _); [by intros [= <- _ _]|].
  destruct (_ =? _).
  { destruct (send_version c w) as [[c1 w1]|] eqn:E; [|done]. intros [= <- _ _].
    exact (keeps_kept x fst c _ (c1, w1) Hk (send_version_steady c w) E). }
  destruct (_ || _).
  { destruct (send_features c w) as [[c1 w1]|] eqn:E; [|done]. intros [= <- _ _].
    exact (keeps_kept x fst c _ (c1, w1) Hk (send_features_steady c w) E). }
  destruct (_ =? _); [destruct (control_rsp _); [|done]; intros [= <- _ _]; exact Hk|].
  destruct (_ =? _); [destruct (control_rsp _); [|done]; intros [= <- _ _]; exact Hk|].
  destruct (_ =? _).
  { unfold start_encryption.
    destruct (put_header c _ _) as [c1|] eqn:E1; [|done]. cbn [obind].
    pose proof (keeps_kept x id c _ c1 Hk (put_header_steady c _ _) E1) as K1.
    destruct (set_idx (cn_tx_buf c1) 2 _) as [b|]; [|done]. cbn [obind].
    destruct (set_idx b 3 0) as [b'|]; [|done]. cbn [obind].
    destruct (tx (set_tx_buf b' c1) w 3) as [[c2 w2]|] eqn:E2; [|done]. intros [= <- _ _].
    apply Hclear. exact (keeps_kept x fst (set_tx_buf b' c1) _ (c2, w2) K1 (tx_steady _ w 3) E2). }
  destruct (_ =? _); [intros [= <- _ _]; by apply Hclear|].
  destruct (_ =? _).
  { destruct (set_lengths c payload) as [c1|] eqn:E; [|done]. cbn [obind].
    destruct (control_rsp _); [|done]. intros [= <- _ _].
    exact (keeps_kept x id c _ c1 Hk (set_lengths_steady c payload) E). }
  destruct (_ =? _).
  { destruct (set_lengths c payload) as [c1|] eqn:E; [|done]. intros [= <- _ _].
    exact (keeps_kept x id c _ c1 Hk (set_lengths_steady c payload) E). }
  destruct (_ =? _); [destruct (control_rsp _); [|done]; intros [= <- _ _]; exact Hk|].
  destruct (_ =? _); [destruct (control_rsp _); [|done]; intros [= <- _ _]; exact Hk|].
  destruct (_ =? _).
  { destruct (_ <=? _)%nat; [|by intros [= <- _ _]].
    destruct (u16_at payload 3); [|done]. cbn [obind].
    destruct (u16_at payload 7); [|done]. cbn [obind].
    destruct (u16_at payload 9); [|done]. intros [= <- _ _]. exact Hk. }
  destruct (control_rsp _); [|done]. intros [= <- _ _]. exact Hk.
Qed.

Lemma handle_pdu_kept x c w pdu ev c' w' r : kept x c ->
  handle_pdu c w pdu ev = Ret (c', w', r) -> kept x c'.
Proof.
  intros Hk. unfold handle_pdu. cbv zeta.
  assert (Ht : kept x (take_sn c (dp_sn pdu)))
    by (eapply steady_kept; [exact Hk|apply take_sn_steady]).
  destruct (slice_to (dp_payload pdu) _) as [d|]; [|done]. cbn [obind].
  destruct (copy_at _ 0 _ d) as [payload|]; [|done]. cbn [obind].
  destruct (slice_to payload _) as [body|]; [|done]. cbn [obind].
  destruct (_ =? 0)%nat; [by intros [= <- _ _]|]. destruct (_ =? _).
  - destruct (handle_ll_control _ _ _) as [[[c1 w1] q]|] eqn:E; [|done]. cbn [obind].
    apply (handle_ll_control_kept x) in E; [|exact Ht].
    destruct q; [|by intros [= <- _ _]]. destruct (idx payload 0); [|done].
    by intros [= <- _ _].
  - destruct (handle_l2cap _ _ _ _) as [[c1 ev1]|] eqn:E; [|done]. intros [= <- _ _].
    exact (keeps_kept x fst _ _ (c1, ev1) Ht (handle_l2cap_steady _ _ _ _) E).
Qed.

(** The same, of a computation with fuel. *)
Definition keeps_run {A} (x : Conn) (p : A -> Conn) (m : run A) : Prop :=
  match m with Done a => kept x (p a) | _ => True end.

Lemma keeps_run_seq {A B} x (q : A -> Conn) (p : B -> Conn) (m : run A) (f : A -> run B) :
  keeps_run x q m -> (forall a, kept x (q a) -> keeps_run x p (f a)) ->
  keeps_run x p (rbind m f).
Proof. destruct m as [a| |]; [|done..]. intros H1 H2. by apply H2. Qed.

Lemma keeps_run_lift {A} x (p : A -> Conn) c m : kept x c -> keeps steady p c m ->
  keeps_run x p (lift m).
Proof. intros Hk K. destruct m as [a|]; [|done]. by eapply steady_kept. Qed.

Lemma listen_kept x fuel c w t : kept x c ->
  keeps_run x (fun r => fst (fst r)) (listen fuel c w t).
Proof.
  revert c w. induction fuel as [|fuel IH]; intros c w Hk; [done|]. cbn [listen].
  destruct (receive_poll _ w) as [[[w1 b] r]| |]; [|done..]. cbn [rbind].
  assert (Hb : kept x (set_rx_buf b c)) by (by eapply steady_kept).
  destruct r as [[n|]|]; [|cbn [now]; destruct (_ <=? _); [done|by apply IH]|done].
  eapply keeps_run_seq; [eapply keeps_run_lift; [exact Hb|apply rx_steady]|].
  intros [c2 ok] H2. destruct ok; cbn [negb]; [|exact H2].
  destruct (slice_to _ _); [|done]. cbn [lift rbind].
  destruct (DataPdu_decode _) as [[p|e]|]; [exact H2..|done].
Qed.

Lemma slave_packets_kept x n fuel c w ev : kept x c ->
  keeps_run x (fun r => fst (fst r)) (slave_packets n fuel c w ev).
Proof.
  revert c w ev. induction n as [|n IH]; intros c w ev Hk; [done|]. cbn [slave_packets].
  eapply keeps_run_seq; [by apply listen_kept|]. intros [[c1 w1] h] H1.
  destruct h as [| |pdu]; [exact H1..|]. cbn [now].
  destruct (handle_pdu _ _ pdu ev) as [[[c2 w2] r]|] eqn:E; [|done]. cbn [lift rbind].
  apply (handle_pdu_kept x) in E; [|by eapply steady_kept]. destruct r as [ev'|e]; [|exact E].
  destruct (negb _); [exact E|by apply IH].
Qed.

Lemma event_slave_kept x fuel c w : kept x c ->
  keeps_run x (fun r => fst (fst r)) (event_slave fuel c w).
Proof.
  intros Hk. unfold event_slave. eapply keeps_run_seq; [by apply slave_packets_kept|].
  intros [[c1 w1] e] H1. destruct e as [r|received ev]; [exact H1|].
  destruct (negb received); [exact H1|]. destruct (cn_terminate_pending c1);
    (eapply keeps_run_seq; [eapply keeps_run_lift;
       [exact H1|first [apply terminate_steady|apply respond_steady]]|by intros [c2 w2] H2]).
Qed.

Lemma master_listen_kept x fuel c w t : kept x c ->
  keeps_run x (fun r => fst (fst r)) (master_listen fuel c w t).
Proof.
  revert c w. induction fuel as [|fuel IH]; intros c w Hk; [done|]. cbn [master_listen].
  destruct (receive_poll _ w) as [[[w1 b] r]| |]; [|done..]. cbn [rbind].
  assert (Hb : kept x (set_rx_buf b c)) by (by eapply steady_kept).
  destruct r as [[n|]|]; [|cbn [now]; destruct (_ <=? _); [done|by apply IH]|done].
  eapply keeps_run_seq; [eapply keeps_run_lift; [exact Hb|apply rx_steady]|].
  intros [c2 ok] H2. destruct ok; cbn [negb]; [|exact H2].
  eapply keeps_run_lift; [exact H2|apply master_pdu_steady].
Qed.

Lemma event_master_kept x fuel c w : kept x c ->
  keeps_run x (fun r => fst (fst r)) (event_master fuel c w).
Proof.
  intros Hk. unfold event_master. destruct (cn_terminate_pending c).
  - eapply keeps_run_seq; [eapply keeps_run_lift; [exact Hk|apply terminate_steady]|].
    by intros [c2 w2] H2.
  - eapply keeps_run_seq; [eapply keeps_run_lift; [exact Hk|apply respond_steady]|].
    intros [c1 w1] H1. cbn [now].
    eapply keeps_run_seq; [by apply master_listen_kept|]. by intros [[c2 w2] ev] H2.
Qed.

(** An event leaves the schedule its preparation made, and the counter, unless it
    starts encryption. *)
Lemma event_kept fuel c w c' w' r : wf_link c -> event fuel c w = Done (c', w', r) ->
  exists c1, event_prepare c = Ret c1 /\ kept c1 c'.
Proof.
  intros Hc. destruct (event_split fuel c w Hc) as (c1 & E & _ & _ & _ & ->).
  intros Ev. exists c1. split; [done|].
  assert (Hk : kept c1 c1) by (split; [done|by left]). destruct (decide _).
  - destruct (wait_compare _ _) as [w2| |]; [|done..].
    pose proof (event_master_kept c1 fuel c1 w2 Hk) as T. cbn [rbind] in Ev. by rewrite Ev in T.
  - pose proof (event_slave_kept c1 fuel c1 (tune c1 w) Hk) as T. by rewrite Ev in T.
Qed.

Lemma event_timing fuel c w c' w' r : wf_link c -> event fuel c w = Done (c', w', r) ->
  exists c1, event_prepare c = Ret c1 /\ timing c' = timing c1.
Proof. intros Hc E. destruct (event_kept _ _ _ _ _ _ Hc E) as (c1 & Ep & Ht & _). eauto. Qed.

End body.

(** ** Histories *)

Section history.
Context `{Hcrypto : Crypto, Hccm : CcmHw, Henv : Env}.

(** [n] events from [c], with operations of the host in between; each event
    leaves the connection related to what it was by [P]. *)
Inductive history (P : Conn -> Conn -> Prop) (c : Conn) : nat -> Conn -> Prop :=
| history_nil : history P c 0 c
| history_event n c1 fuel w c2 w' r : history P c n c1 ->
    event fuel c1 w = Done (c2, w', r) -> P c1 c2 -> history P c (S n) c2
| history_host n c1 c2 : history P c n c1 -> host_step c1 c2 -> history P c n c2.

Lemma history_wf P c n c' : wf_link c -> history P c n c' -> wf_link c'.
Proof.
  intros Hc. induction 1 as [|n c1 fuel w c2 w' r _ IH E _|n c1 c2 _ IH Hs]; [done|..].
  - pose proof (event_safe fuel c1 w IH) as S. by rewrite E in S.
  - by eapply host_step_wf.
Qed.

(** The history of [a + 1 + b] events, cut at an event. *)
Lemma history_cut P c n c' a b : history P c n c' -> n = (a + S b)%nat ->
  exists c1 fuel w c2 w' r, history P c a c1 /\ event fuel c1 w = Done (c2, w', r) /\
    P c1 c2 /\ history P c2 b c'.
Proof.
  intros H. revert b.
  induction H as [|n c1 fuel w c2 w' r H1 IH E Hp|n c1 c2 H1 IH Hs]; intros b Hn; [lia|..].
  - destruct b as [|b].
    + assert (n = a) as -> by lia. exists c1, fuel, w, c2, w', r.
      split; [done|]. split; [done|]. split; [done|]. constructor.
    + destruct (IH b ltac:(lia)) as (x & f' & v & y & v' & s & X1 & X2 & X3 & X4).
      exists x, f', v, y, v', s. do 3 (split; [done|]). by eapply history_event.
  - destruct (IH b Hn) as (x & f' & v & y & v' & s & X1 & X2 & X3 & X4).
    exists x, f', v, y, v', s. do 3 (split; [done|]). by eapply history_host.
Qed.

(** The pending update and its instant. *)
Definition update_of (c : Conn) : option (Z * Z) * Z :=
  (cn_pending_update c, cn_pending_update_instant c).

(** No other update is heard in an event. *)
Definition same_update (c c' : Conn) : Prop := update_of c' = update_of c.

Lemma host_step_schedule c c' : host_step c c' ->
  timing c' = timing c /\ update_of c' = update_of c.
Proof.
  intros Hs. destruct (host_step_link c c' Hs) as [E| ->]; [|done].
  unfold timing. rewrite E. split; [done|].
  exact (f_equal (fun l => (lk_pending_update l, lk_pending_update_instant l)) E).
Qed.

(** [T] ticks from [c] to [c'], [U] 32nds of a tick having passed. *)
Definition ticked (T U : Z) (c c' : Conn) : Prop :=
  cn_anchor c' = u32 (cn_anchor c + T) /\
  32 * T + ia_frac (cn_accum c') = ia_frac (cn_accum c) + U.

Lemma ticked_anchor T U c c' : wf_link c' -> ticked T U c c' ->
  cn_anchor c' = u32 (cn_anchor c + (ia_frac (cn_accum c) + U) / 32).
Proof.
  intros Hc [-> E]. destruct (lo_accum _ (wl_link c' Hc)) as [[Hf _] _].
  cbn [link lk_accum] in Hf. do 2 f_equal.
  apply Z.div_unique with (ia_frac (cn_accum c')); lia.
Qed.

Lemma u32_add a b : u32 (u32 a + b) = u32 (a + b).
Proof. unfold u32. by rewrite Zplus_mod_idemp_l. Qed.

Lemma u16_add a b : u16 (u16 a + b) = u16 (a + b).
Proof. unfold u16. by rewrite Zplus_mod_idemp_l. Qed.

(** The interval and the timeout of the next event. *)
Definition next_params (c : Conn) : Z * Z :=
  match update_due c with Some p => p | None => (cn_interval c, cn_timeout c) end.

(** What an event does to the schedule. *)
Lemma event_step fuel c w c' w' r : wf_link c -> event fuel c w = Done (c', w', r) ->
  wf_link c' /\ cn_event_counter c' = u16 (cn_event_counter c + 1) /\
  (cn_interval c', cn_timeout c') = next_params c /\ exists T,
  cn_anchor c' = u32 (cn_anchor c + T) /\
  32 * T + ia_frac (cn_accum c') =
    (if update_due c is Some _ then 0 else ia_frac (cn_accum c)) + cn_interval c' * 1250.
Proof.
  intros Hc Ev. pose proof (event_safe fuel c w Hc) as S. rewrite Ev in S.
  split; [exact S|]. destruct (event_timing _ _ _ _ _ _ Hc Ev) as (c1 & E & T).
  destruct (event_prepare_Ret c Hc) as (a & t & k & E1 & _ & Ha & Hr & _ & Es).
  rewrite E in E1. apply Ret_inj in E1 as ->. cbv zeta in T.
  injection T as _ Ti To Ta Tc Te _ _ _. rewrite Ti, To, Ta, Tc, Te.
  destruct (counted_fields (updated c)) as (_ & Fi & Ft & Fa & Fc & _).
  cbn [tuned cn_event_counter cn_interval cn_timeout cn_anchor cn_accum
    Conn.set_channel set_anchor set_accum]. rewrite Fi, Ft, Fa, Fc.
  unfold wrapping_add32, next_params, updated in *.
  destruct (update_due c) as [[i u]|]; (split; [done|]); (split; [done|]); by exists t.
Qed.

(** Events at which no update is due. *)
Lemma history_quiet n c c' : wf_link c -> history same_update c n c' ->
  (forall k, (k < n)%nat -> cn_pending_update c = None \/
     u16 (cn_event_counter c + Z.of_nat k + 1) <> cn_pending_update_instant c) ->
  update_of c' = update_of c /\
  cn_event_counter c' = u16 (cn_event_counter c + Z.of_nat n) /\
  cn_interval c' = cn_interval c /\ cn_timeout c' = cn_timeout c /\
  exists T, ticked T (Z.of_nat n * cn_interval c * 1250) c c'.
Proof.
  intros Hc H. induction H as [|n c1 fuel w c2 w' r H1 IH E Hp|n c1 c2 H1 IH Hs]; intros Hk.
  - split; [done|]. change (Z.of_nat 0) with 0. rewrite Z.add_0_r.
    split; [symmetry; apply u16_id, (lo_counter _ (wl_link c Hc))|].
    do 2 (split; [done|]). exists 0. split; [|lia]. rewrite Z.add_0_r.
    symmetry. apply u32_id, (lo_anchor _ (wl_link c Hc)).
  - destruct IH as (U1 & C1 & I1 & O1 & T1 & A1 & F1); [intros k Hkn; apply Hk; lia|].
    pose proof (history_wf _ _ _ _ Hc H1) as W1.
    destruct (event_step _ _ _ _ _ _ W1 E) as (W2 & C2 & P2 & T2 & A2 & F2).
    assert (Hd : update_due c1 = None).
    { injection U1 as Up Ui. unfold update_due. rewrite Up, Ui, C1, u16_add.
      destruct (Hk n ltac:(lia)) as [->|Hn]; [done|]. destruct (cn_pending_update c); [|done].
      by rewrite (proj2 (Z.eqb_neq _ _)). }
    unfold next_params in P2. rewrite Hd in P2, F2. injection P2 as P2 Q2.
    split; [congruence|]. split.
    { rewrite C2, C1, u16_add. f_equal. lia. }
    split; [congruence|]. split; [congruence|]. exists (T1 + T2). split.
    + rewrite A2, A1, u32_add. f_equal. lia.
    + rewrite P2, I1 in F2. lia.
  - destruct (IH Hk) as (U1 & C1 & I1 & O1 & T1 & A1 & F1).
    destruct (host_step_schedule c1 c2 Hs) as [T U].
    injection T as _ Ti To Ta Tc Te _ _ _. rewrite Ti, To, Te.
    split; [congruence|]. do 3 (split; [done|]). exists T1. unfold ticked.
    by rewrite Ta, Tc.
Qed.

End history.

(** ** Property *)

Section properties.
Context `{Hcrypto : Crypto, Hccm : CcmHw, Henv : Env}.

(** The anchor [n] events after [c], of the interval [c] has. *)
Definition anchor_after (n : nat) (c : Conn) : Z :=
  u32 (cn_anchor c + (ia_frac (cn_accum c) + Z.of_nat n * cn_interval c * 1250) / 32).

Lemma history_early n c c' : wf_link c -> history same_update c n c' ->
  (forall k, (k < n)%nat -> cn_pending_update c = None \/
     u16 (cn_event_counter c + Z.of_nat k + 1) <> cn_pending_update_instant c) ->
  cn_interval c' = cn_interval c /\ cn_timeout c' = cn_timeout c /\
  cn_anchor c' = anchor_after n c.
Proof.
  intros Hc H Hk. destruct (history_quiet n c c' Hc H Hk) as (_ & _ & Hi & Ht & T & Ha).
  split; [done|]. split; [done|]. apply (ticked_anchor T); [|done]. by eapply history_wf.
Qed.

(** C13. Anchors never drift and updates happen at their instant, over the whole
    history of a connection: complete events in either role, whatever they hear
    and send and whatever the host does in between, as long as no other update is
    heard. From a connection in any state, with the fraction of a tick its
    accumulator carries: without a pending update the parameters stay and after
    [n] events the anchor lies [n] intervals on, rounded down to a tick (modulo
    2^32); with an update for [k] events ahead the same holds of the first
    [k - 1] events, and from event [k] on, for 65536 events, the parameters are
    the new ones, and the anchor lies as many new intervals after anchor [k - 1]
    as there were events since, rounded down, the old fraction being dropped. *)
Theorem update_at_instant c n c' : wf_link c -> history same_update c n c' ->
  match cn_pending_update c with
  | None =>
      cn_interval c' = cn_interval c /\ cn_timeout c' = cn_timeout c /\
      cn_anchor c' = anchor_after n c
  | Some (i, t) => forall k, (1 <= k)%nat -> Z.of_nat k <= 65536 ->
      cn_pending_update_instant c = u16 (cn_event_counter c + Z.of_nat k) ->
      ((n < k)%nat ->
         cn_interval c' = cn_interval c /\ cn_timeout c' = cn_timeout c /\
         cn_anchor c' = anchor_after n c) /\
      ((k <= n)%nat -> Z.of_nat n < Z.of_nat k + 65536 ->
         cn_interval c' = i /\ cn_timeout c' = t /\
         cn_anchor c' =
           u32 (anchor_after (k - 1) c + Z.of_nat (n - k + 1) * i * 1250 / 32))
  end.
Proof.
  intros Hc H. destruct (cn_pending_update c) as [[i t]|] eqn:Ep.
  2: { apply history_early; auto. }
  intros k Hk1 Hk2 Hinst.
  pose proof (lo_counter _ (wl_link c Hc)) as Hr. cbn [link lk_event_counter] in Hr.
  unfold is_u16 in Hr.
  assert (Hlt : forall j, (j < k - 1)%nat ->
    u16 (cn_event_counter c + Z.of_nat j + 1) <> cn_pending_update_instant c).
  { intros j Hj. rewrite Hinst. unfold u16. intros E. Z.div_mod_to_equations. lia. }
  split.
  { intros Hn. apply history_early; [done..|]. intros j Hj. right. apply Hlt. lia. }
  intros Hn Hn2.
  destruct (history_cut _ c n c' (k - 1) (n - k) H ltac:(lia))
    as (c1 & fuel & w & c2 & w' & r & H1 & E & Hp & H2).
  pose proof (history_wf _ _ _ _ Hc H1) as W1.
  destruct (history_quiet _ _ _ Hc H1) as (U1 & C1 & I1 & T1 & T & A1);
    [intros j Hj; right; by apply Hlt|].
  pose proof (ticked_anchor _ _ _ _ W1 A1) as B1. fold (anchor_after (k - 1) c) in B1.
  destruct (event_step _ _ _ _ _ _ W1 E) as (W2 & C2 & P2 & T2 & A2 & F2).
  pose proof U1 as U. injection U as Up Ui.
  assert (Hd : update_due c1 = Some (i, t)).
  { unfold update_due. rewrite Up, Ep, Ui, C1, u16_add, Hinst.
    replace (cn_event_counter c + Z.of_nat (k - 1) + 1)
      with (cn_event_counter c + Z.of_nat k) by lia. by rewrite Z.eqb_refl. }
  unfold next_params in P2. rewrite Hd in P2, F2. injection P2 as P2 Q2.
  unfold same_update in Hp. rewrite U1 in Hp. injection Hp as Vp Vi.
  destruct (history_quiet _ _ _ W2 H2) as (_ & _ & I3 & T3 & T' & A3 & F3).
  { intros j Hj. right. rewrite Vi, Hinst, C2, C1, !u16_add. unfold u16. intros X.
    Z.div_mod_to_equations. lia. }
  pose proof (history_wf _ _ _ _ W2 H2) as W3.
  split; [congruence|]. split; [congruence|]. rewrite A3, A2, B1, !u32_add. f_equal.
  destruct (lo_accum _ (wl_link c' W3)) as [[Hfr _] _]. cbn [link lk_accum] in Hfr.
  rewrite P2 in F2, F3.
  replace (Z.of_nat (n - k + 1) * i * 1250 / 32) with (T2 + T'); [lia|].
  apply Z.div_unique with (ia_frac (cn_accum c')); [lia|].
  replace (Z.of_nat (n - k + 1)) with (Z.of_nat (n - k) + 1) by lia. lia.
Qed.

End properties.

(** ** Example *)

(** The events of a slave that is acknowledged, one after the other. *)
Fixpoint acked_events (n : nat) (c : Conn) : run Conn :=
  match n with
  | O => Done c
  | S n =>
      let* c := acked_events n c in
      let* (c, _, _) := @event mask_crypto xor_ccm ack_env 1 c sample_world in
      Done c
  end.

(** An update for the sixth event, on a connection that has had one. *)
Definition sample_update : Conn :=
  set_pending_update_instant 7 (set_pending_update (Some (80, 400))
    (match acked_events 1 (sample_conn Slave) with
     | Done c => c | _ => sample_conn Slave end)).

Lemma acked_history n c c' : acked_events n c = Done c' ->
  (forall k c1, (k <= n)%nat -> acked_events k c = Done c1 -> update_of c1 = update_of c) ->
  @history mask_crypto xor_ccm ack_env same_update c n c'.
Proof.
  revert c'. induction n as [|n IH]; intros c' E Hu.
  { injection E as <-. constructor. }
  pose proof E as E0. cbn [acked_events] in E.
  destruct (acked_events n c) as [c1| |] eqn:E1; [|done..]. cbn [rbind] in E.
  destruct (event 1 c1 sample_world) as [[[c2 w'] r]| |] eqn:E2; [|done..].
  injection E as <-. eapply history_event; [|exact E2|].
  - apply IH; [done|]. intros k c3 Hk. apply Hu. lia.
  - unfold same_update. rewrite (Hu (S n) c2), (Hu n c1); [done|lia|done|lia|done].
Qed.

Lemma update_at_instant_witness :
  ia_frac (cn_accum sample_update) = 16 /\
  exists c', @history mask_crypto xor_ccm ack_env same_update sample_update 7 c' /\
    cn_interval c' = 80 /\ cn_timeout c' = 400 /\
    cn_anchor c' = cn_anchor sample_update + 4688 + 6250.
Proof.
  split; [vm_compute; reflexivity|].
  destruct (acked_events 7 sample_update) as [c'| |] eqn:E;
    [|exfalso; vm_compute in E; discriminate E..].
  assert (H : @history mask_crypto xor_ccm ack_env same_update sample_update 7 c').
  { apply acked_history; [exact E|]. intros k c1 Hk.
    do 8 (destruct k as [|k]; [intros E1; vm_compute in E1; by injection E1 as <-|]). lia. }
  exists c'. split; [exact H|].
  assert (Hw : wf_link sample_update).
  { apply wl_update_instant, wl_update; [|split; lia..].
    destruct (acked_events 1 (sample_conn Slave)) as [c1| |] eqn:E1; [|apply sample_link..].
    eapply (@history_wf mask_crypto xor_ccm ack_env same_update); [apply (sample_link Slave)|].
    apply acked_history; [exact E1|]. intros k c2 Hk.
    do 2 (destruct k as [|k]; [intros E2; vm_compute in E2; by injection E2 as <-|]). lia. }
  destruct (@update_at_instant mask_crypto xor_ccm ack_env sample_update 7 c' Hw H 6%nat)
    as [_ (Hi & Ht & Ha)]; [lia|lia|vm_compute; reflexivity|lia|lia|].
  split; [exact Hi|]. split; [exact Ht|]. rewrite Ha. vm_compute. reflexivity.
Defined.
