(* ===== verification/LinkControl.v ===== *)
(** Control PDUs ([src/hw/conn.rs], [handle_ll_control] and [respond]): what each
    opcode changes, what is sent at once and what with the event's response. *)

From stdpp Require Import base numbers list.
From S2P Require Import Prelude Errors Channels Timers Pdu Events BondStore Crypto Smp.
From S2P Require Import Ccm Gatt Conn Att CocChannel SmpChannel L2cap Frame Radio.
From S2P Require Import LinkLayer LinkInv LinkEvents LinkTime LinkHistory.

(** ** Specification *)

(** The opcodes that turn encryption on. *)
Definition starts_encryption (op : Z) : bool :=
  (op =? LL_CONTROL_START_ENC_REQ) || (op =? LL_CONTROL_START_ENC_RSP).

(** The opcodes that set the data lengths. *)
Definition sets_lengths (op : Z) : bool :=
  (op =? LL_CONTROL_LENGTH_REQ) || (op =? LL_CONTROL_LENGTH_RSP).

Section control.
Context `{Hccm : CcmHw}.

(** What the transmitter is given for the first [n] bytes of a packet [p] in front
    of the transmit buffer: those bytes, or on an encrypted link what the cipher
    makes of the buffer, with four bytes more, unless it reports an error. *)
Definition link_sends (c : Conn) (p : list Z) (n : nat) : list (list Z) :=
  let buf := p ++ drop (length p) (cn_tx_buf c) in
  if cn_encrypted c then
    let '(b, err) := ccm_run false (link_block c (tx_direction (cn_role c)) buf) buf in
    if err then [] else [take (n + 4) b]
  else [take n buf].

(** What is sent at once: our version, no features, the start of encryption. *)
Definition control_sent (c : Conn) (payload : list Z) : list (list Z) :=
  let op := nth 0 payload 0 in
  if op =? LL_CONTROL_VERSION_IND then
    [[ll_header c LLID_CONTROL; 4; LL_CONTROL_VERSION_IND; 0x0C; 0xFF; 0xFF; 0; 0]]
  else if (op =? LL_CONTROL_FEATURE_REQ) || (op =? LL_CONTROL_FEATURE_RSP) then
    [[ll_header c LLID_CONTROL; 9; LL_CONTROL_FEATURE_RSP; 0; 0; 0; 0; 0; 0; 0; 0]]
  else if op =? LL_CONTROL_START_ENC_REQ then
    link_sends c [ll_header c LLID_CONTROL; 1; LL_CONTROL_START_ENC_RSP; 0] 3
  else [].

(** [c'] with what control PDUs may change put back as it is in [c]. *)
Definition control_frame (c c' : Conn) : Conn :=
  set_tx_buf (cn_tx_buf c) (set_ccm (cn_ccm c)
    (set_pending_control (cn_pending_control c) (set_want_encrypt (cn_want_encrypt c)
      (set_peer_version_ok (cn_peer_version_ok c) (set_encrypted (cn_encrypted c)
        (set_packet_counter (cn_packet_counter c) (set_tx_pdu_max (cn_tx_pdu_max c)
          (set_rx_pdu_max (cn_rx_pdu_max c) (set_pending_update (cn_pending_update c)
            (set_pending_update_instant (cn_pending_update_instant c) c')))))))))).

(** What a control PDU leaves in the connection. *)
Record control_effect (c : Conn) (payload : list Z) (c' : Conn) : Prop := {
  ce_control : cn_pending_control c' =
    match control_answer payload with
    | Some a => Some (rsp19 a)
    | None => cn_pending_control c
    end;
  ce_want : cn_want_encrypt c' =
    cn_want_encrypt c || (nth 0 payload 0 =? LL_CONTROL_ENCRYPT_REQ);
  ce_version : cn_peer_version_ok c' =
    cn_peer_version_ok c || (nth 0 payload 0 =? LL_CONTROL_VERSION_IND);
  ce_encrypted : cn_encrypted c' = cn_encrypted c || starts_encryption (nth 0 payload 0);
  ce_counter : cn_packet_counter c' =
    (if starts_encryption (nth 0 payload 0) then 0 else cn_packet_counter c);
  ce_lengths : (cn_tx_pdu_max c', cn_rx_pdu_max c') =
    (if sets_lengths (nth 0 payload 0)
     then (Nat.min (Z.to_nat (le16 payload 1)) 251, Nat.min (Z.to_nat (le16 payload 5)) 251)
     else (cn_tx_pdu_max c, cn_rx_pdu_max c));
  ce_update : update_of c' =
    (if (nth 0 payload 0 =? LL_CONTROL_CONNECTION_UPDATE_REQ) && (10 <? length payload)%nat
     then (Some (le16 payload 3, le16 payload 7), le16 payload 9)
     else update_of c);
  ce_rest : control_frame c c' = c
}.

(** ** Lemmas *)

Lemma tx_sent_world c p w n : snd (tx_sent (with_packet p c) w n) =
  set_w_sent (w_sent w ++ map (pair (w_regs w)) (link_sends c p n)) w.
Proof.
  unfold tx_sent, link_sends. cbv zeta.
  change (cn_encrypted (with_packet p c)) with (cn_encrypted c).
  change (cn_role (with_packet p c)) with (cn_role c).
  change (cn_tx_buf (with_packet p c)) with (p ++ drop (length p) (cn_tx_buf c)).
  change (link_block (with_packet p c)) with (link_block c).
  destruct (cn_encrypted c); [|done].
  destruct (ccm_run _ _ _) as [b []]; [|done]. cbn [snd map]. rewrite app_nil_r.
  by destruct w.
Qed.

Lemma nothing_sent w : w = set_w_sent (w_sent w ++ map (pair (w_regs w)) []) w.
Proof. cbn. rewrite app_nil_r. by destruct w. Qed.

Lemma tx_sent_frame c w n : exists b k, fst (tx_sent c w n) = set_tx_buf b (set_ccm k c).
Proof.
  unfold tx_sent. destruct (cn_encrypted c).
  - destruct (ccm_run _ _ _) as [b err]. by do 2 eexists.
  - exists (cn_tx_buf c), (cn_ccm c). by destruct c.
Qed.

(** An effect for a known opcode, field by field. *)
Ltac effect E :=
  constructor; unfold control_answer, starts_encryption, sets_lengths; rewrite ?E;
  cbn [Z.eqb Pos.eqb orb andb existsb]; rewrite ?orb_false_r, ?orb_true_r;
  first [reflexivity | match goal with |- control_frame ?c _ = ?c => by destruct c end].

(** The case of one opcode, and the others. *)
Ltac on_op payload k E :=
  destruct (Z.eqb_spec (nth 0 payload 0) k) as [E|];
  [unfold controlled, control_answer, control_sent; rewrite E;
   cbn [Z.eqb Pos.eqb orb andb existsb] |].

(** What the handler's specification does to state and air, for each opcode. *)
Lemma controlled_effect c payload w :
  control_effect c payload (fst (controlled c payload w)) /\
  snd (controlled c payload w) =
    set_w_sent (w_sent w ++ map (pair (w_regs w)) (control_sent c payload)) w.
Proof.
  on_op payload LL_CONTROL_VERSION_IND E; [split; [effect E|done]|].
  on_op payload LL_CONTROL_FEATURE_REQ E; [split; [effect E|done]|].
  on_op payload LL_CONTROL_FEATURE_RSP E; [split; [effect E|done]|].
  on_op payload LL_CONTROL_ENCRYPT_REQ E; [split; [effect E|apply nothing_sent]|].
  on_op payload LL_CONTROL_ENCRYPT_RSP E; [split; [effect E|apply nothing_sent]|].
  on_op payload LL_CONTROL_START_ENC_RSP E; [split; [effect E|apply nothing_sent]|].
  on_op payload LL_CONTROL_LENGTH_REQ E; [split; [effect E|apply nothing_sent]|].
  on_op payload LL_CONTROL_LENGTH_RSP E; [split; [effect E|apply nothing_sent]|].
  on_op payload LL_CONTROL_PING_REQ E; [split; [effect E|apply nothing_sent]|].
  on_op payload LL_CONTROL_PHY_REQ E; [split; [effect E|apply nothing_sent]|].
  on_op payload LL_CONTROL_TERMINATE_IND E; [split; [effect E|apply nothing_sent]|].
  on_op payload LL_CONTROL_START_ENC_REQ E.
  { pose proof (tx_sent_world c [ll_header c LLID_CONTROL; 1; LL_CONTROL_START_ENC_RSP; 0] w 3)
      as Hw.
    destruct (tx_sent_frame (with_packet (control_packet c 1 [LL_CONTROL_START_ENC_RSP; 0]) c)
      w 3) as (b & k & Hc).
    change (control_packet c 1 [LL_CONTROL_START_ENC_RSP; 0])
      with [ll_header c LLID_CONTROL; 1; LL_CONTROL_START_ENC_RSP; 0] in *.
    destruct (tx_sent _ w 3) as [c1 w1]. cbn [fst snd] in *. subst c1 w1.
    split; [effect E|done]. }
  on_op payload LL_CONTROL_CONNECTION_UPDATE_REQ E.
  { destruct (10 <? length payload)%nat eqn:El; (split; [|apply nothing_sent]);
      constructor; unfold control_answer, starts_encryption, sets_lengths; rewrite ?E, ?El;
      cbn [Z.eqb Pos.eqb orb andb existsb]; rewrite ?orb_false_r;
      first [reflexivity|by destruct c]. }
  assert (Hsnd : forall k, nth 0 payload 0 <> k -> (nth 0 payload 0 =? k) = false)
    by (intros k; apply Z.eqb_neq).
  unfold controlled, control_answer, control_sent. cbn [existsb].
  rewrite !Hsnd by done. cbn [orb andb]. split; [|apply nothing_sent].
  constructor; unfold control_answer, starts_encryption, sets_lengths; cbn [existsb];
    rewrite ?Hsnd by done; cbn [orb andb]; rewrite ?orb_false_r;
    first [reflexivity|by destruct c].
Qed.

End control.

(** ** Property *)

Section properties.
Context `{Hcrypto : Crypto, Hccm : CcmHw}.

(** C27. Control PDUs: the handler panics exactly on a length request or response
    of fewer than seven bytes and on a connection update of exactly ten; it ends
    the connection exactly on a termination. Otherwise it changes exactly what
    [control_effect] says: the pending answer of the table [control_answer] (an
    unknown opcode gets an unknown-response with it), the data lengths (ours the
    peer's first value, the other its third, at most 251), the update and its
    instant, encryption, which starts on either start-encryption PDU with the
    packet counter back at zero, also when the link is encrypted already and with
    no check of a key; and it transmits exactly [control_sent]: our version, an
    empty feature set, or the start-encryption response. The pending answer goes
    out with the event's response, in a PDU of 18 bytes, ahead of any data. *)
Theorem control_answered c payload w : wf_link c -> bytes payload ->
  (handle_ll_control c payload w = Panic <-> control_bad payload = true) /\
  (forall c' w' r, handle_ll_control c payload w = Ret (c', w', r) ->
     wf_link c' /\ control_effect c payload c' /\
     r = (if nth 0 payload 0 =? LL_CONTROL_TERMINATE_IND then Err RemoteTerminate else Ok tt) /\
     w' = set_w_sent (w_sent w ++ map (pair (w_regs w)) (control_sent c payload)) w) /\
  (forall a w1, cn_pending_control c = Some a -> exists c2, cn_pending_control c2 = None /\
     respond c w1 = Ret (c2, set_w_sent (w_sent w1 ++ map (pair (w_regs w1))
       (link_sends c ([ll_header c LLID_CONTROL; 18] ++ take 18 a) 20)) w1)).
Proof.
  intros Hc Hp. rewrite handle_ll_control_Ret by done. split; [|split].
  - by destruct (control_bad payload).
  - destruct (control_bad payload); [done|]. intros c' w' r [Ec <-]%Ret_inj%pair_eq.
    pose proof (controlled_wf c payload w Hc Hp) as Hw.
    pose proof (controlled_effect c payload w) as [He Hs]. rewrite Ec in Hw, He, Hs.
    split; [exact Hw|]. by split.
  - intros a w1 E. rewrite (respond_control _ _ a) by (apply Hc || done).
    pose proof (tx_sent_world (set_pending_control None c)
      ([ll_header c LLID_CONTROL; 18] ++ take 18 a) w1 20) as Hw.
    destruct (tx_sent_frame (with_control a c) w1 20) as (b & k & Hf).
    change (with_packet ([ll_header c LLID_CONTROL; 18] ++ take 18 a)
      (set_pending_control None c)) with (with_control a c) in Hw.
    destruct (tx_sent (with_control a c) w1 20) as [c2 w2]. cbn [fst snd] in *.
    subst c2 w2. eexists. split; [|reflexivity]. reflexivity.
Qed.

End properties.

(** ** Example *)

(** A length request and its answer on the air; one too short. *)
Lemma control_answered_witness :
  (exists c2, @handle_ll_control xor_ccm (sample_conn Slave)
     [LL_CONTROL_LENGTH_REQ; 27; 0; 72; 1; 60; 0; 72; 1] sample_world = Ret (c2, sample_world, Ok tt) /\
   cn_tx_pdu_max c2 = 27%nat /\ cn_rx_pdu_max c2 = 60%nat /\
   exists c3 w3, @respond xor_ccm c2 sample_world = Ret (c3, w3) /\
     map snd (w_sent w3) = [[6; 18; LL_CONTROL_LENGTH_RSP; 251; 0; 72; 8; 251; 0; 72; 8;
       0; 0; 0; 0; 0; 0; 0; 0; 0]]) /\
  @handle_ll_control xor_ccm (sample_conn Slave)
    [LL_CONTROL_LENGTH_REQ; 27; 0; 72; 8; 27] sample_world = Panic.
Proof.
  split.
  - destruct (@control_answered xor_ccm (sample_conn Slave)
      [LL_CONTROL_LENGTH_REQ; 27; 0; 72; 1; 60; 0; 72; 1] sample_world (sample_link Slave)
      ltac:(bytes_eval)) as (_ & H & _).
    destruct (handle_ll_control (sample_conn Slave) _ sample_world) as [[[c2 w2] r]|] eqn:E;
      [|exfalso; vm_compute in E; discriminate E].
    destruct (H c2 w2 r eq_refl) as (Hw & He & -> & ->). exists c2.
    split; [done|]. pose proof (ce_lengths _ _ _ He) as Hl.
    pose proof (ce_control _ _ _ He) as Ha. injection Hl as H1 H2.
    split; [exact H1|]. split; [exact H2|].
    destruct (@control_answered xor_ccm c2 [] sample_world Hw ltac:(bytes_eval))
      as (_ & _ & R). destruct (R _ sample_world Ha) as (c3 & _ & E3).
    eexists c3, _. split; [exact E3|].
    assert (Hn : cn_encrypted c2 = false /\ ll_header c2 LLID_CONTROL = 6).
    { vm_compute in E. injection E as <-. by split. }
    destruct Hn as [Hn Hh]. unfold link_sends. rewrite Hn, Hh. reflexivity.
  - apply (@control_answered xor_ccm (sample_conn Slave)
      [LL_CONTROL_LENGTH_REQ; 27; 0; 72; 8; 27] sample_world (sample_link Slave));
      [bytes_eval|reflexivity].
Defined.
