(* ===== verification/LinkPlain.v ===== *)
(** Connection events before encryption ([src/hw/conn.rs], [src/hw/radio.rs],
    [src/ll/pdu.rs]): the length the radio driver reads from the second header
    byte and the length the data PDU decoder reads from it are different bits,
    and what that means for what a connection can hear. *)

From stdpp Require Import base numbers list.
From S2P Require Import Prelude Errors Channels Timers Pdu Events BondStore Crypto Smp.
From S2P Require Import Ccm Gatt Conn Att CocChannel SmpChannel L2cap Frame Radio.
From S2P Require Import LinkLayer LinkInv LinkEvents LinkTime.

(** ** What a connection knows of its peer *)

(** Everything a received packet with a payload may change. *)
Record Receiver := mkReceiver {
  rv_encrypted : bool;
  rv_want_encrypt : bool;
  rv_smp : Smp;
  rv_pairing_in_progress : bool;
  rv_rx_data : list Z;
  rv_rx_data_len : nat;
  rv_rx_l2cap : list Z;
  rv_rx_l2cap_len : nat;
  rv_rx_l2cap_msg_len : nat;
  rv_rx_l2cap_cid : Z;
  rv_coc : option Coc;
  rv_att_mtu : Z;
  rv_nus_cccd : Z;
  rv_gatt_result : list Z;
  rv_gatt_result_len : nat;
  rv_pending_request : bool;
  rv_peer_version_ok : bool;
  rv_tx_pdu_max : nat;
  rv_rx_pdu_max : nat;
  rv_pending_update : option (Z * Z);
  rv_pending_update_instant : Z
}.

Definition receiver (c : Conn) : Receiver :=
  mkReceiver (cn_encrypted c) (cn_want_encrypt c) (cn_smp c) (cn_pairing_in_progress c)
    (cn_rx_data c) (cn_rx_data_len c) (cn_rx_l2cap c) (cn_rx_l2cap_len c)
    (cn_rx_l2cap_msg_len c) (cn_rx_l2cap_cid c) (cn_coc c) (cn_att_mtu c)
    (cn_nus_cccd c) (cn_gatt_result c) (cn_gatt_result_len c) (cn_pending_request c)
    (cn_peer_version_ok c) (cn_tx_pdu_max c) (cn_rx_pdu_max c) (cn_pending_update c)
    (cn_pending_update_instant c).

(** ** The two lengths *)

(** They agree on a byte only when both are 0 or both are 63. *)
Lemma length_bits_table : forall_below 256 (fun b =>
  implb ((b .>> 1) .& 0x3F =? b .& 0x3F)
    (((b .>> 1) .& 0x3F =? 0) || ((b .>> 1) .& 0x3F =? 63))) = true.
Proof. vm_compute. reflexivity. Qed.

Lemma length_bits b : is_u8 b -> (b .>> 1) .& 0x3F = b .& 0x3F ->
  (b .>> 1) .& 0x3F = 0 \/ (b .>> 1) .& 0x3F = 63.
Proof.
  intros Hb E. pose proof (forall_below_spec 256 _ length_bits_table b Hb) as T.
  cbv beta in T. rewrite E in T |- *. rewrite Z.eqb_refl in T. cbn [implb] in T. lia.
Qed.

(** A decoded packet of the length the radio reports is empty, or longer than
    the receive buffer. *)
Lemma decode_reported b n p : bytes b -> length b = 64%nat ->
  n = (2 + Z.to_nat ((nth 1 b 0%Z .>> 1) .& 0x3F))%nat -> (n <= 64)%nat ->
  DataPdu_decode (take n b) = Ret (Ok p) -> dp_payload p = [].
Proof.
  intros Hb Hl Hn Hn64. destruct b as [|b0 [|b1 b]]; [done..|]. cbn [nth] in Hn.
  inversion_clear Hb as [|? ? _ Hb']. inversion_clear Hb' as [|? ? H1 _].
  subst n. cbn [take Nat.add]. rewrite DataPdu_decode_cons. cbn [length] in Hl.
  assert (Hr : 0 <= (b1 .>> 1) .& 0x3F < 64).
  { change 0x3F with (Z.ones 6). rewrite Z.land_ones by lia. by apply Z.mod_pos_bound. }
  rewrite length_take, Nat.min_l, Z2Nat.id by lia.
  destruct (Z.eqb_spec ((b1 .>> 1) .& 0x3F) (b1 .& 0x3F)) as [E|E]; [|done].
  destruct (length_bits b1 H1 E) as [Z0|Z63].
  - rewrite Z0. intros [= <-]. done.
  - rewrite Z63 in Hn64. lia.
Qed.

(** What keeps the hardware and the driver within the buffer: what is received
    fits it, and a packet has a header whose length bits are not all set. *)
Definition framed_air `{Env} : Prop :=
  fitting /\ forall i, env_end i = Some true -> exists b0 b1 l,
    env_dma i = b0 :: b1 :: l /\ (b1 .>> 1) .& 0x3F <> 63.

(** ** The window *)

Section plain.
Context `{Hcrypto : Crypto, Hccm : CcmHw, Henv : Env}.

Lemma polled_len_fits c w : wf_link c -> framed_air -> env_end (w_polls w) = Some true ->
  (polled_len c w <= 64)%nat.
Proof.
  intros Hc [_ Hf] E. destruct (Hf _ E) as (b0 & b1 & l & El & Hb).
  unfold polled_len, polled, dma. cbn [cn_rx_buf set_rx_buf]. rewrite El. cbn [app nth].
  assert (Hr : 0 <= (b1 .>> 1) .& 0x3F < 64).
  { change 0x3F with (Z.ones 6). rewrite Z.land_ones by lia. by apply Z.mod_pos_bound. }
  lia.
Qed.

Lemma rx_done_plain c : cn_encrypted c = false -> rx_done c = (c, true).
Proof. unfold rx_done. by intros ->. Qed.

(** A window on a plain connection hears at most an empty packet, and changes
    only the receive buffer. *)
Definition deaf (c : Conn) (m : run (Conn * World * Heard)) : Prop :=
  match m with
  | Done (c', _, h) =>
      c' = set_rx_buf (cn_rx_buf c') c /\
      match h with HeardPdu p => dp_payload p = [] | _ => True end
  | Fault _ => ~ framed_air
  | OutOfFuel => True
  end.

Lemma polled_same c w : polled c w = set_rx_buf (cn_rx_buf (polled c w)) c.
Proof. reflexivity. Qed.

Lemma overran_not_framed w : overran w = true -> ~ framed_air.
Proof. intros Ho [Hf _]. by rewrite fitting_overran in Ho. Qed.

Lemma listen_deaf fuel c w t : wf_link c -> w_rx_room w = 64%nat -> cn_encrypted c = false ->
  deaf c (listen fuel c w t).
Proof.
  revert c w. induction fuel as [|fuel IH]; intros c w Hc Hr He; [done|].
  rewrite listen_S by done. destruct (overran w) eqn:Eo; [by apply (overran_not_framed w)|].
  cbv zeta. pose proof (polled_wf c w Hc Eo) as Hp.
  destruct (env_end (w_polls w)) as [[]|] eqn:E; [| done |].
  - rewrite rx_done_plain by done. cbn [negb].
    destruct (Nat.leb_spec (polled_len c w) 64) as [Hn|Hn].
    + destruct (DataPdu_decode _) as [[p|e]|] eqn:Ed; [|done|].
      * split; [done|]. eapply decode_reported; [..|exact Ed]; try done.
        -- apply (lo_rx _ (wl_link _ Hp)).
        -- apply Hp.
      * exfalso. revert Ed. unfold polled_len.
        pose proof (wf_rx_buf _ (wl_conn _ Hp)) as Hl.
        destruct (cn_rx_buf (polled c w)) as [|b0 [|b1 b]]; [done..|].
        cbn [take Nat.add]. rewrite DataPdu_decode_cons. by destruct (_ =? _).
    + intros Hf. pose proof (polled_len_fits c w Hc Hf E). lia.
  - destruct (_ <=? _); [done|].
    pose proof (IH (polled c w) (set_w_reads (S (w_reads w))
      (set_w_polls (S (w_polls w)) w)) Hp Hr He) as D.
    destruct (listen _ _ _ _) as [[[c' w'] h]| |]; [|exact D|done].
    destruct D as [Ec Eh]. split; [|exact Eh]. by rewrite Ec.
Qed.

(** The fields an empty packet changes. *)
Definition heard_empty (c c' : Conn) : Prop :=
  exists b sn t, c' = set_rx_buf b (set_nesn sn (set_last_rx t c)).

Lemma heard_empty_refl c : heard_empty c c.
Proof. exists (cn_rx_buf c), (cn_nesn c), (cn_last_rx c). by destruct c. Qed.

Lemma heard_empty_trans c1 c2 c3 : heard_empty c1 c2 -> heard_empty c2 c3 ->
  heard_empty c1 c3.
Proof. intros (b1 & s1 & t1 & ->) (b2 & s2 & t2 & ->). by exists b2, s2, t2. Qed.

Lemma heard_buf c b : heard_empty c (set_rx_buf b c).
Proof. exists b, (cn_nesn c), (cn_last_rx c). by destruct c. Qed.

Lemma heard_packet c b sn t :
  heard_empty c (take_sn (set_last_rx t (set_rx_buf b c)) sn).
Proof.
  unfold take_sn. destruct (negb _).
  - by exists b, sn, t.
  - exists b, (cn_nesn c), t. by destruct c.
Qed.

(** An empty packet is handled by its sequence bit alone. *)
Lemma handle_pdu_empty c w pdu ev : dp_payload pdu = [] ->
  handle_pdu c w pdu ev = Ret (take_sn c (dp_sn pdu), w, Ok ev).
Proof. intros E. unfold handle_pdu. by rewrite E. Qed.

Definition plain_packets (c : Conn) (ev : ConnEvent)
    (m : run (Conn * World * SlaveEnd)) : Prop :=
  match m with
  | Done (c', _, e) =>
      heard_empty c c' /\
      match e with
      | Returned r => r = Err InvalidPdu
      | Finished _ ev' => ev' = ev
      end
  | Fault _ => ~ framed_air
  | OutOfFuel => True
  end.

Lemma open_window_deaf fuel c w : wf_link c -> cn_encrypted c = false ->
  deaf c (open_window fuel c w).
Proof. intros Hc He. apply listen_deaf; [done|by apply room_started|done]. Qed.

Lemma slave_packets_plain n fuel c w ev : wf_link c -> cn_encrypted c = false ->
  plain_packets c ev (slave_packets n fuel c w ev).
Proof.
  revert c w. induction n as [|n IH]; intros c w Hc He.
  { split; [apply heard_empty_refl|done]. }
  cbn [slave_packets]. pose proof (open_window_deaf fuel c w Hc He) as D.
  pose proof (open_window_ok fuel c w Hc) as O.
  destruct (open_window fuel c w) as [[[c1 w1] h]| |]; [|exact D|done]. cbn [rbind].
  destruct D as [E1 Eh], O as [H1 _].
  destruct h as [| |pdu]; [split; [rewrite E1; apply heard_buf|done]..|].
  cbn [now]. rewrite handle_pdu_empty, lift_Ret, rbind_Done by done.
  set (c2 := take_sn _ _).
  assert (Hh : heard_empty c c2) by (unfold c2; rewrite E1; apply heard_packet).
  destruct (negb _); [by split|].
  assert (H2 : wf_link c2).
  { unfold c2, take_sn. destruct (negb _); auto using wl_nesn, wl_last_rx, env_now_range. }
  assert (He2 : cn_encrypted c2 = false) by (destruct Hh as (? & ? & ? & ->); exact He).
  pose proof (IH c2 (set_w_reads (S (w_reads w1)) w1) H2 He2) as P.
  destruct (slave_packets _ _ _ _ _) as [[[c3 w3] e]| |]; [|exact P|done].
  destruct P as [P1 P2]. split; [by eapply heard_empty_trans|exact P2].
Qed.

(** What the event sends leaves what is known of the peer alone. *)
Lemma respond_receiver c w : wf_link c -> cn_encrypted c = false ->
  keeps receiver fst c (respond c w).
Proof.
  intros Hc He. destruct (cn_pending_control c) as [ctrl|] eqn:E.
  { rewrite (respond_control _ _ ctrl) by (apply Hc || done). unfold tx_sent.
    change (cn_encrypted (with_control ctrl c)) with (cn_encrypted c). by rewrite He. }
  unfold respond. rewrite E. destruct (cn_tx_pending c).
  - destruct (Nat.le_gt_cases (cn_tx_frag_offset c) (cn_tx_att_len c)) as [Ho|Ho].
    2: { unfold tx_fragment, sub_usize. by rewrite (proj2 (Nat.leb_gt _ _)) by lia. }
    destruct (Nat.le_gt_cases (frag_len c) 62) as [Hf|Hf].
    2: { by rewrite tx_fragment_Panic by (apply Hc || done). }
    destruct (tx_fragment_Ret c (wl_conn c Hc) Ho Hf) as (b & -> & Hb & _).
    rewrite obind_Ret. cbv zeta. unfold tx.
    assert (Er : receiver (set_sn (negb (cn_sn (frag_sent b c))) (frag_sent b c)) =
      receiver c) by (unfold frag_sent; cbv zeta; by destruct (_ <=? _)%nat).
    pose proof (f_equal rv_encrypted Er) as Ee. cbn [rv_encrypted receiver] in Ee.
    rewrite Ee, He. destruct (slice_to _ _); [exact Er|done].
  - rewrite put_header_Ret, obind_Ret by apply Hc. unfold tx.
    change (cn_encrypted (with_packet _ c)) with (cn_encrypted c). rewrite He.
    by destruct (slice_to _ _).
Qed.

(** The pending fragment, if any, fits. *)
Definition sendable (c : Conn) : Prop :=
  cn_pending_control c = None -> cn_tx_pending c = true ->
  (cn_tx_frag_offset c <= cn_tx_att_len c)%nat /\ (frag_len c <= 62)%nat.

Lemma respond_plain_returns c w : wf_link c -> cn_encrypted c = false -> sendable c ->
  respond c w <> Panic.
Proof.
  intros Hc He Hs. destruct (cn_pending_control c) as [ctrl|] eqn:E.
  { by rewrite (respond_control _ _ ctrl) by (apply Hc || done). }
  unfold respond. rewrite E. destruct (cn_tx_pending c) eqn:Ep.
  - destruct (Hs E Ep) as [Ho Hf].
    destruct (tx_fragment_Ret c (wl_conn c Hc) Ho Hf) as (b & -> & Hb & _).
    rewrite obind_Ret. cbv zeta.
    assert (Hw : wf_link (set_sn (negb (cn_sn (frag_sent b c))) (frag_sent b c)))
      by (by apply wl_sn, frag_sent_link).
    rewrite tx_Ret; [done|apply Hw|]. unfold tx_fits.
    assert (cn_encrypted (set_sn (negb (cn_sn (frag_sent b c))) (frag_sent b c)) = false)
      as -> by (unfold frag_sent; cbv zeta; by destruct (_ <=? _)%nat).
    rewrite (frag_payload_length c (wl_conn c Hc) Ho).
    unfold frag_len in Hf. destruct (_ =? 0)%nat; lia.
  - rewrite put_header_Ret, obind_Ret by apply Hc.
    assert (Hw : wf_link (with_packet [ll_header c LLID_DATA_COMPLETE; 0] c))
      by (apply with_packet_wf; [done|cbn; lia]).
    rewrite tx_Ret; [done|apply Hw|]. unfold tx_fits.
    destruct (cn_encrypted _); unfold LL_MIC_LEN; lia.
Qed.

(** How a plain event can end. *)
Definition plain_end (r : result ConnEvent Error) : Prop :=
  r = Ok EvIdle \/ r = Ok (EvDisconnected HostTerminate) \/ r = Err InvalidPdu.

Definition plain_event (c : Conn) (m : run (Conn * World * result ConnEvent Error)) : Prop :=
  match m with
  | Done (c', _, r) => receiver c' = receiver c /\ plain_end r
  | Fault _ => ~ (framed_air /\ sendable c)
  | OutOfFuel => True
  end.

Lemma heard_empty_same c c' : heard_empty c c' ->
  receiver c' = receiver c /\ (sendable c -> sendable c').
Proof. by intros (b & s & t & ->). Qed.

Lemma respond_plain c w : wf_link c -> cn_encrypted c = false ->
  match lift (respond c w) with
  | Done (c', _) => receiver c' = receiver c
  | Fault _ => ~ sendable c
  | OutOfFuel => True
  end.
Proof.
  intros Hc He. pose proof (respond_receiver c w Hc He) as K.
  pose proof (respond_plain_returns c w Hc He) as P.
  destruct (respond c w) as [[c' w']|]; [exact K|]. intros Hs. by apply (P Hs).
Qed.

Lemma event_slave_plain fuel c w : wf_link c -> cn_encrypted c = false ->
  plain_event c (event_slave fuel c w).
Proof.
  intros Hc He. unfold event_slave. pose proof (slave_packets_plain 4 fuel c w EvIdle Hc He) as P.
  pose proof (slave_packets_safe 4 fuel c w EvIdle Hc) as S.
  destruct (slave_packets _ _ _ _ _) as [[[c1 w1] e]| |];
    [|intros [Hf _]; exact (P Hf)|done].
  destruct P as [P1 P2]. cbn [rbind safe_run fst] in *.
  destruct (heard_empty_same c c1 P1) as [R1 S1].
  assert (He1 : cn_encrypted c1 = false) by (pose proof (f_equal rv_encrypted R1) as E;
    cbn in E; congruence).
  destruct e as [r|received ev].
  { subst r. split; [exact R1|]. right; by right. }
  subst ev. destruct received; cbn [negb]; [|by split; [|left]].
  destruct (cn_terminate_pending c1).
  { rewrite send_terminate_Ret by apply S. split; [exact R1|]. right; by left. }
  pose proof (respond_plain c1 w1 S He1) as Q.
  destruct (lift (respond c1 w1)) as [[c2 w2]| |]; cbn [rbind].
  - split; [congruence|by left].
  - intros [_ Hs]. exact (Q (S1 Hs)).
  - done.
Qed.

Lemma master_pdu_plain c w n ev : wf_link c -> cn_encrypted c = false ->
  n = (2 + Z.to_nat ((nth 1 (cn_rx_buf c) 0%Z .>> 1) .& 0x3F))%nat ->
  match master_pdu c w n ev with
  | Ret (c', _, ev') => receiver c' = receiver c /\ ev' = ev
  | Panic => (64 < n)%nat
  end.
Proof.
  intros Hc He En. unfold master_pdu. cbn [now]. cbv zeta.
  change (cn_rx_buf (set_last_rx _ c)) with (cn_rx_buf c).
  pose proof (wf_rx_buf c (wl_conn c Hc)) as Hl.
  rewrite slice_to_cases, Hl. destruct (Nat.leb_spec n 64) as [Hn|Hn]; [|exact Hn].
  rewrite obind_Ret. destruct (DataPdu_decode _) as [[pdu|e]|] eqn:Ed.
  - assert (Ep : dp_payload pdu = []).
    { eapply decode_reported; [apply (lo_rx _ (wl_link _ Hc))|done|exact En|done|exact Ed]. }
    rewrite obind_Ret, Ep. cbn [length Nat.min slice_to slice Nat.leb andb].
    unfold take_sn. by destruct (negb _).
  - done.
  - exfalso. revert Ed. subst n. destruct (cn_rx_buf c) as [|b0 [|b1 b]]; [done..|].
    cbn [take Nat.add]. rewrite DataPdu_decode_cons. by destruct (_ =? _).
Qed.

Lemma master_listen_plain fuel c w t : wf_link c -> w_rx_room w = 64%nat ->
  cn_encrypted c = false ->
  match master_listen fuel c w t with
  | Done (c', _, ev) => receiver c' = receiver c /\ ev = EvIdle
  | Fault _ => ~ framed_air
  | OutOfFuel => True
  end.
Proof.
  revert c w. induction fuel as [|fuel IH]; intros c w Hc Hr He; [done|].
  cbn [master_listen]. rewrite poll_cases by done.
  destruct (overran w) eqn:Eo; [by apply (overran_not_framed w)|].
  rewrite rbind_Done. cbv zeta.
  change (set_rx_buf (cn_rx_buf (polled c w)) c) with (polled c w).
  pose proof (polled_wf c w Hc Eo) as Hp.
  destruct (env_end (w_polls w)) as [[]|] eqn:E; [|done|].
  - rewrite rx_Ret, lift_Ret, rbind_Done by apply Hp. rewrite rx_done_plain by done.
    cbn [negb].
    pose proof (master_pdu_plain (polled c w) (set_w_polls (S (w_polls w)) w)
      (polled_len c w) EvIdle Hp He eq_refl) as P.
    destruct (master_pdu _ _ _ _) as [[[c1 w1] ev]|]; [exact P|].
    intros Hf. pose proof (polled_len_fits c w Hc Hf E). lia.
  - cbn [now]. destruct (_ <=? _); [done|].
    pose proof (IH (polled c w) (set_w_reads (S (w_reads w))
      (set_w_polls (S (w_polls w)) w)) Hp Hr He) as P.
    exact P.
Qed.

Lemma event_master_plain fuel c w : wf_link c -> cn_encrypted c = false ->
  plain_event c (event_master fuel c w).
Proof.
  intros Hc He. unfold event_master. destruct (cn_terminate_pending c).
  { rewrite send_terminate_Ret by apply Hc. split; [done|]. right; by left. }
  pose proof (respond_plain c w Hc He) as Q. pose proof (respond_safe c w Hc) as S.
  destruct (respond c w) as [[c1 w1]|]; [|by intros [_ Hs]]. cbn [lift rbind safe fst now] in *.
  assert (He1 : cn_encrypted c1 = false) by (pose proof (f_equal rv_encrypted Q) as E;
    cbn in E; congruence).
  match goal with |- context [master_listen fuel c1 ?w2 ?t] =>
    pose proof (master_listen_plain fuel c1 w2 t S (room_started c1 w1 S) He1) as P;
    destruct (master_listen fuel c1 w2 t) as [[[c2 w3] ev]| |] end.
  - destruct P as [P ->]. split; [congruence|by left].
  - by intros [Hf _].
  - done.
Qed.

Lemma prepared_same c c1 : wf_link c -> event_prepare c = Ret c1 ->
  wf_link c1 /\ receiver c1 = receiver c /\ (sendable c -> sendable c1) /\
  0 <= cn_channel c1 <= 39.
Proof.
  intros Hc E. pose proof (event_prepare_safe c Hc) as S. rewrite E in S.
  destruct (event_prepare_Ret c Hc) as (a & t & k & Ep & _). rewrite E in Ep.
  apply Ret_inj in Ep as ->. split; [exact S|].
  assert (receiver (counted (updated c)) = receiver c /\
    (sendable c -> sendable (counted (updated c)))) as [R Hs].
  { unfold counted, updated. cbv zeta. destruct (update_due c) as [[i t']|];
      by destruct (cn_encrypted _). }
  split; [exact R|]. split; [exact Hs|]. apply (lo_channel _ (wl_link _ S)).
Qed.

(** ** Properties *)


End plain.

