(* ===== verification/LinkCrypt.v ===== *)
(** Payload encryption over a connection ([src/hw/conn.rs] [tx], [rx] and
    [event], [src/hw/ccm.rs]): what the two ends of an encrypted link hand to the
    cipher, over their histories. *)

From stdpp Require Import base numbers list.
From S2P Require Import Prelude Errors Channels Timers Addr Pdu Events Crypto Smp Ccm Gatt Conn Att.
From S2P Require Import CocChannel SmpChannel L2cap Frame Radio LinkLayer LinkInv LinkEvents.
From S2P Require Import LinkTime LinkHistory.

(** ** The configuration block *)

(** Five bytes of the counter go into the block. *)
Lemma counter_bytes_inj a b : take 5 (u64_to_le a) = take 5 (u64_to_le b) ->
  a mod 2 ^ 40 = b mod 2 ^ 40.
Proof.
  change (2 ^ 40) with (4294967296 * 256). rewrite !Z.rem_mul_r by lia.
  unfold u64_to_le. cbn [take u32_to_le app]. intros [= E0 E1 E2 E3 E4].
  rewrite E4. f_equal. rewrite <- (u32_le_roundtrip (a mod 4294967296)),
    <- (u32_le_roundtrip (b mod 4294967296)) by (by apply Z.mod_pos_bound).
  unfold u32_from_le. congruence.
Qed.

(** The block determines the key, the counter's low 40 bits, the direction and
    the header. *)
Lemma ccm_block_inj k n d x y k' n' d' x' y' : length k = length k' ->
  ccm_block k n d x y = ccm_block k' n' d' x' y' ->
  k = k' /\ n mod 2 ^ 40 = n' mod 2 ^ 40 /\ d = d' /\ x = x' /\ y = y'.
Proof.
  intros Hk E. unfold ccm_block in E. apply app_inj_1 in E as [-> E]; [|done].
  apply app_inj_1 in E as [_ E]; [|done]. apply app_inj_1 in E as [E1 E]; [|done].
  apply counter_bytes_inj in E1. cbn [app replicate] in E. by injection E as -> -> ->.
Qed.

(** The two bytes of a packet that go into the block. *)
Definition header (b : list Z) : Z * Z := (nth 0 b 0, nth 1 b 0).

Section crypt.
Context `{Hccm : CcmHw}.

(** The block the cipher last ran under. *)
Definition block_used (c : Conn) : list Z := cg_cnfptr (ccm_regs (cn_ccm c)).

Lemma tx_block c w n c' w' : wf_conn c -> cn_encrypted c = true ->
  tx c w n = Ret (c', w') ->
  block_used c' = link_block c (tx_direction (cn_role c)) (cn_tx_buf c).
Proof.
  intros Hc He E. destruct (tx_cases c w n Hc) as [R|[R _]]; rewrite R in E; [|done].
  unfold tx_sent in E. rewrite He in E. cbv zeta in E.
  destruct (ccm_run _ _ _) as [b err]. by injection E as <- _.
Qed.

Lemma rx_block c n c' ok : wf_conn c -> cn_encrypted c = true ->
  rx c n = Ret (c', ok) ->
  block_used c' = link_block c (rx_direction (cn_role c)) (cn_rx_buf c).
Proof.
  intros Hc He. rewrite rx_Ret by done. unfold rx_done. rewrite He. cbv zeta.
  destruct (ccm_run _ _ _) as [b err]. by intros [= <- _].
Qed.

(** ** Both ends count together *)

(** Two ends of an encrypted link that count together. *)
Definition in_step (m c : Conn) : Prop :=
  cn_role m = Master /\ cn_role c = Slave /\
  cn_encrypted m = true /\ cn_encrypted c = true /\
  cn_packet_counter m = cn_packet_counter c.

Lemma prepare_crypt c c' : wf_link c -> cn_encrypted c = true -> event_prepare c = Ret c' ->
  cn_role c' = cn_role c /\ cn_encrypted c' = true /\ cn_smp c' = cn_smp c /\
  cn_packet_counter c' = u64 (cn_packet_counter c + 1).
Proof.
  intros Hc He E. destruct (event_prepare_Ret c Hc) as (a & t & k & E1 & _).
  rewrite E in E1. apply Ret_inj in E1 as ->.
  assert (Eu : cn_encrypted (updated c) = true /\ cn_role (updated c) = cn_role c /\
    cn_smp (updated c) = cn_smp c /\ cn_packet_counter (updated c) = cn_packet_counter c)
    by (unfold updated; destruct (update_due c) as [[??]|]; done).
  destruct Eu as (Ee & <- & <- & <-). unfold counted. cbv zeta.
  change (cn_encrypted (set_event_counter _ (updated c))) with (cn_encrypted (updated c)).
  by rewrite Ee.
Qed.

(** Under the same key, blocks agree exactly for the same counter (in 40 bits),
    direction and header. *)
Lemma link_block_eq m c d d' b b' : wf_conn m -> wf_conn c ->
  smp_stk (cn_smp m) = smp_stk (cn_smp c) -> cn_packet_counter m = cn_packet_counter c ->
  link_block m d b = link_block c d' b' <-> d = d' /\ header b = header b'.
Proof.
  intros Hm Hc Ek En. unfold link_block, header. rewrite Ek, En. split.
  - intros (_ & _ & -> & -> & ->)%ccm_block_inj; done.
  - intros [-> [= -> ->]]. done.
Qed.

(** Whatever the keys, another counter or another direction makes another
    block. *)
Lemma link_block_differs c c' d d' b b' : wf_conn c -> wf_conn c' ->
  d <> d' \/ cn_packet_counter c mod 2 ^ 40 <> cn_packet_counter c' mod 2 ^ 40 ->
  link_block c d b <> link_block c' d' b'.
Proof.
  intros Hc Hc' Hn E. destruct (wf_conn_smp c Hc) as (_&_&_&_&_&_&_&_& Hk &_).
  destruct (wf_conn_smp c' Hc') as (_&_&_&_&_&_&_&_& Hk' &_). unfold link_block in E.
  apply ccm_block_inj in E as (_ & En & Ed & _); [|congruence]. by destruct Hn.
Qed.

Lemma u64_mod40 x : u64 x mod 2 ^ 40 = x mod 2 ^ 40.
Proof.
  unfold u64. change 18446744073709551616 with (2 ^ 40 * 2 ^ 24).
  rewrite Z.rem_mul_r by lia. rewrite Z.mul_comm, Z_mod_plus_full. by apply Zmod_mod.
Qed.

(** Fewer than 2^40 events apart, the counter has moved on. *)
Lemma counters_apart p i j : 0 <= i < j -> j - i < 2 ^ 40 -> (p + i) mod 2 ^ 40 <> (p + j) mod 2 ^ 40.
Proof.
  intros Hi Hj E.
  assert ((j - i) mod 2 ^ 40 = 0).
  { replace (j - i) with ((p + j) - (p + i)) by lia. rewrite Zminus_mod, E, Z.sub_diag. done. }
  rewrite Z.mod_small in * by lia. lia.
Qed.

End crypt.

(** ** The counter over a history *)

Section counter.
Context `{Hcrypto : Crypto, Hccm : CcmHw, Henv : Env}.

(** An event of an encrypted connection counts, or restarts encryption. *)
Lemma event_crypt fuel c w c' w' r : wf_link c -> cn_encrypted c = true ->
  event fuel c w = Done (c', w', r) ->
  cn_role c' = cn_role c /\ cn_encrypted c' = true /\
  (cn_packet_counter c' = u64 (cn_packet_counter c + 1) \/ cn_packet_counter c' = 0).
Proof.
  intros Hc He E. destruct (event_kept _ _ _ _ _ _ Hc E) as (c1 & Ep & Ht & Hk).
  destruct (prepare_crypt c c1 Hc He Ep) as (R & Y & _ & P).
  injection Ht as Er _. split; [congruence|]. unfold crypt in Hk. rewrite Y, P in Hk.
  destruct Hk as [[= -> ->]|[= -> ->]]; auto.
Qed.

(** Encryption is not restarted in the event. *)
Definition undisturbed (_ c' : Conn) : Prop := cn_packet_counter c' <> 0.

Lemma host_step_crypt c c' : host_step c c' ->
  cn_role c' = cn_role c /\ crypt c' = crypt c.
Proof.
  intros Hs. destruct (host_step_link c c' Hs) as [E| ->]; [|done].
  pose proof (f_equal (fun l => (lk_role l, lk_encrypted l, lk_packet_counter l)) E) as F.
  injection F as F1 F2 F3. unfold crypt. cbn in F1, F2, F3. by rewrite F1, F2, F3.
Qed.

(** Without a restart the counter is the number of events. *)
Lemma history_crypt n c c' : wf_link c -> cn_encrypted c = true ->
  history undisturbed c n c' ->
  cn_role c' = cn_role c /\ cn_encrypted c' = true /\
  cn_packet_counter c' =
    (if (n =? 0)%nat then cn_packet_counter c else u64 (cn_packet_counter c + Z.of_nat n)).
Proof.
  intros Hc He H. induction H as [|n c1 fuel w c2 w' r H1 IH E Hp|n c1 c2 H1 IH Hs]; [done|..].
  - destruct IH as (R1 & Y1 & P1). pose proof (history_wf _ _ _ _ Hc H1) as W1.
    destruct (event_crypt _ _ _ _ _ _ W1 Y1 E) as (R2 & Y2 & [P2|P2]); [|by destruct Hp].
    split; [congruence|]. split; [done|]. rewrite P2, P1. cbn [Nat.eqb].
    destruct (Nat.eqb_spec n 0) as [->|]; [done|]. unfold u64.
    rewrite Zplus_mod_idemp_l. f_equal. lia.
  - destruct IH as (R1 & Y1 & P1). destruct (host_step_crypt _ _ Hs) as [R2 [= Y2 P2]].
    rewrite R2, Y2, P2. by repeat split.
Qed.

Lemma history_mod40 n c c' : wf_link c -> cn_encrypted c = true ->
  history undisturbed c n c' ->
  cn_packet_counter c' mod 2 ^ 40 = (cn_packet_counter c + Z.of_nat n) mod 2 ^ 40.
Proof.
  intros Hc He H. destruct (history_crypt n c c' Hc He H) as (_ & _ & ->).
  destruct (Nat.eqb_spec n 0) as [->|]; [by rewrite Z.add_0_r|apply u64_mod40].
Qed.

End counter.

(** ** The blocks of an event *)

(** Two ciphers agree on the blocks with counter [k], and with counter zero, which
    a start of encryption leads to. *)
Definition same_under (k : Z) (A B : CcmHw) : Prop :=
  forall dec key n d x y p, n = k \/ n = 0 ->
    @ccm_run A dec (ccm_block key n d x y) p = @ccm_run B dec (ccm_block key n d x y) p.

Section blocks.
Context `{Hcrypto : Crypto, Henv : Env}.
Context (k : Z) (A B : CcmHw) (Hsame : same_under k A B).

(** The connection is well formed and its counter is the event's, or zero. *)
Definition counts (c : Conn) : Prop :=
  wf_link c /\ (cn_encrypted c = true -> cn_packet_counter c = k \/ cn_packet_counter c = 0).

Lemma run_same c dec d b : counts c -> cn_encrypted c = true -> forall p,
  @ccm_run A dec (link_block c d b) p = @ccm_run B dec (link_block c d b) p.
Proof. intros [_ Hk] He p. apply Hsame. by apply Hk. Qed.

Lemma tx_same c w n : counts c -> @tx A c w n = @tx B c w n.
Proof.
  intros Hc. pose proof (wl_conn c (proj1 Hc)) as Hw. pose proof (wf_tx_buf c Hw) as Hb.
  unfold tx. destruct (cn_encrypted c) eqn:He; [|done].
  set (d := match cn_role c with Master => _ | Slave => _ end). cbv zeta.
  pose proof (@cipher_Ret A c false d (cn_tx_buf c) n Hw Hb) as EA.
  pose proof (@cipher_Ret B c false d (cn_tx_buf c) n Hw Hb) as EB.
  rewrite run_same in EA by done. rewrite <- EB in EA.
  destruct (Ccm_setup _ _ _ _) as [k'|]; cbn [obind] in EA |- *; [by rewrite EA|reflexivity].
Qed.

Lemma rx_done_same c : counts c -> @rx_done A c = @rx_done B c.
Proof.
  intros Hc. unfold rx_done. destruct (cn_encrypted c) eqn:He; [|done].
  by rewrite run_same by done.
Qed.

Lemma steady_counts c c' : counts c -> wf_link c' -> crypt c' = crypt c -> counts c'.
Proof. intros [_ Hk] Hw [= E1 E2]. split; [done|]. by rewrite E1, E2. Qed.

Lemma respond_same c w : counts c -> @respond A c w = @respond B c w.
Proof.
  intros Hc. pose proof (wf_tx_buf c (wl_conn c (proj1 Hc))) as Hb. unfold respond.
  destruct (cn_pending_control c) as [ctrl|] eqn:E.
  - cbv zeta. rewrite put_header_Ret, !obind_Ret by exact Hb.
    destruct (slice_to ctrl 18) as [p|] eqn:Ep; cbn [obind]; [|reflexivity].
    destruct (copy_at _ 2 (2 + 18) p) as [b|] eqn:Eb; cbn [obind]; [|reflexivity].
    apply tx_same. apply (steady_counts c); [done| |done].
    apply copy_at_length in Eb. apply wl_tx_buf.
    + apply with_packet_wf; [by apply wl_no_control; destruct Hc|cbn; lia].
    + rewrite Eb. unfold with_packet. cbn [cn_tx_buf set_tx_buf set_pending_control]. len.
  - destruct (cn_tx_pending c).
    + pose proof (tx_fragment_safe c (proj1 Hc)) as S. pose proof (tx_fragment_steady c) as K.
      destruct (tx_fragment c) as [[c1 n]|]; cbn [obind]; [|reflexivity]. cbv zeta.
      apply tx_same. apply (steady_counts c); [done|by apply wl_sn|].
      exact (f_equal snd K).
    + rewrite put_header_Ret, !obind_Ret by exact Hb. apply tx_same.
      apply (steady_counts c); [done| |done]. by apply with_packet_wf; [destruct Hc|cbn; lia].
Qed.

Lemma handle_ll_control_same c payload w : counts c ->
  @handle_ll_control A c payload w = @handle_ll_control B c payload w.
Proof.
  intros Hc. rewrite (@handle_ll_control_Ret A), (@handle_ll_control_Ret B) by apply Hc.
  destruct (control_bad payload); [done|]. f_equal. f_equal. unfold controlled.
  set (c1 := match control_answer payload with Some r => _ | None => c end).
  assert (H1 : counts c1).
  { apply (steady_counts c); [done|apply control_answer_wf, Hc|].
    unfold c1. by destruct (control_answer payload). }
  assert (E : @tx_sent A (with_packet (control_packet c1 1 [LL_CONTROL_START_ENC_RSP; 0]) c1) w 3 =
    @tx_sent B (with_packet (control_packet c1 1 [LL_CONTROL_START_ENC_RSP; 0]) c1) w 3).
  { set (c2 := with_packet _ c1).
    assert (H2 : counts c2)
      by (apply (steady_counts c1); [done|apply with_packet_wf; [by destruct H1|cbn; lia]|done]).
    unfold tx_sent. destruct (cn_encrypted c2) eqn:He; [|done]. by rewrite run_same by done. }
  by rewrite E.
Qed.

Lemma handle_pdu_same c w pdu ev : counts c ->
  @handle_pdu _ A c w pdu ev = @handle_pdu _ B c w pdu ev.
Proof.
  intros Hc. unfold handle_pdu. cbv zeta.
  destruct (slice_to (dp_payload pdu) _) as [d|]; cbn [obind]; [|reflexivity].
  destruct (copy_at _ 0 _ d) as [payload|]; cbn [obind]; [|reflexivity].
  destruct (slice_to payload _) as [body|]; cbn [obind]; [|reflexivity].
  destruct (_ =? 0)%nat; [reflexivity|]. destruct (_ =? _); [|reflexivity].
  rewrite handle_ll_control_same; [reflexivity|]. unfold take_sn. destruct (negb _); [|done].
  apply (steady_counts c); [done|by apply wl_nesn; destruct Hc|done].
Qed.

Lemma kept_counts x c : cn_encrypted x = true -> cn_packet_counter x = k -> wf_link c ->
  kept x c -> counts c.
Proof.
  intros He Hx Hw [_ [[= E1 E2]|[= E1 E2]]]; (split; [done|intros _]); [left|by right].
  congruence.
Qed.

Lemma polled_counts c w : counts c -> overran w = false -> counts (polled c w).
Proof. intros Hc Ho. apply (steady_counts c); [done|by apply polled_wf; destruct Hc|done]. Qed.

Lemma listen_same fuel c w t : counts c -> w_rx_room w = 64%nat ->
  @listen A _ fuel c w t = @listen B _ fuel c w t.
Proof.
  revert c w. induction fuel as [|fuel IH]; intros c w Hc Hr; [done|].
  rewrite (@listen_S A), (@listen_S B) by (apply Hc || done). destruct (overran w) eqn:Eo; [done|]. cbv zeta.
  pose proof (polled_counts c w Hc Eo) as Hp.
  destruct (env_end (w_polls w)) as [[]|]; [by rewrite rx_done_same|reflexivity|].
  destruct (_ <=? _); [reflexivity|by apply IH].
Qed.

Lemma open_window_same fuel c w : counts c ->
  @open_window A _ fuel c w = @open_window B _ fuel c w.
Proof. intros Hc. apply listen_same; [done|]. apply room_started, Hc. Qed.

(** From here on, the events of [x], whose counter is [k]. *)
Context (x : Conn) (Hx : cn_encrypted x = true) (Hk : cn_packet_counter x = k).

Lemma slave_packets_same n fuel c w ev : wf_link c -> kept x c ->
  @slave_packets _ A _ n fuel c w ev = @slave_packets _ B _ n fuel c w ev.
Proof.
  revert c w ev. induction n as [|n IH]; intros c w ev Hc Hkc; [reflexivity|].
  cbn [slave_packets]. pose proof (kept_counts x c Hx Hk Hc Hkc) as H0.
  rewrite open_window_same by done.
  pose proof (open_window_ok (Hccm := B) fuel c w Hc) as Ho.
  pose proof (listen_kept (Hccm := B) x fuel c _ _ Hkc :
    keeps_run x (fun r => fst (fst r)) (@open_window B _ fuel c w)) as Hl.
  destruct (@open_window B _ fuel c w) as [[[c1 w1] h]| |]; cbn [rbind];
    [|reflexivity..].
  destruct Ho as [H1 Hb]. cbn [keeps_run fst] in Hl.
  destruct h as [| |pdu]; [reflexivity..|]. cbn [now]. cbv zeta.
  set (c2 := set_last_rx _ c1). set (w2 := set_w_reads _ w1).
  assert (K2 : kept x c2) by (by eapply steady_kept).
  assert (W2 : wf_link c2) by (apply wl_last_rx, env_now_range; done).
  rewrite handle_pdu_same by (by apply (kept_counts x)).
  pose proof (handle_pdu_safe (Hccm := B) c2 w2 pdu ev W2 Hb) as S.
  destruct (@handle_pdu _ B c2 w2 pdu ev) as [[[c3 w3] r]|] eqn:E3; cbn [lift rbind];
    [|reflexivity].
  apply (handle_pdu_kept (Hccm := B) x) in E3; [|done].
  destruct r as [ev'|e]; [|reflexivity]. destruct (negb _); [reflexivity|]. by apply IH.
Qed.

Lemma event_slave_same fuel c w : wf_link c -> kept x c ->
  @event_slave _ A _ fuel c w = @event_slave _ B _ fuel c w.
Proof.
  intros Hc Hkc. unfold event_slave. rewrite slave_packets_same by done.
  pose proof (slave_packets_safe (Hccm := B) 4 fuel c w EvIdle Hc) as S.
  pose proof (slave_packets_kept (Hccm := B) x 4 fuel c w EvIdle Hkc) as K.
  destruct (@slave_packets _ B _ 4 fuel c w EvIdle) as [[[c1 w1] e]| |]; cbn [rbind];
    [|reflexivity..].
  destruct e as [r|received ev]; [reflexivity|]. destruct (negb received); [reflexivity|].
  destruct (cn_terminate_pending c1); [reflexivity|].
  by rewrite respond_same by (by apply (kept_counts x)).
Qed.

Lemma master_listen_same fuel c w t : counts c -> w_rx_room w = 64%nat ->
  @master_listen _ A _ fuel c w t = @master_listen _ B _ fuel c w t.
Proof.
  revert c w. induction fuel as [|fuel IH]; intros c w Hc Hr; [reflexivity|].
  cbn [master_listen]. rewrite !poll_cases by (apply Hc || done).
  destruct (overran w) eqn:Eo; [reflexivity|]. rewrite !rbind_Done. cbv zeta.
  change (set_rx_buf (cn_rx_buf (polled c w)) c) with (polled c w).
  pose proof (polled_counts c w Hc Eo) as Hp.
  destruct (env_end (w_polls w)) as [[]|]; [|reflexivity|].
  - rewrite (@rx_Ret A), (@rx_Ret B), rx_done_same by (done || apply wl_conn, Hp). reflexivity.
  - cbn [now]. destruct (_ <=? _); [reflexivity|by apply IH].
Qed.

Lemma event_master_same fuel c w : wf_link c -> kept x c ->
  @event_master _ A _ fuel c w = @event_master _ B _ fuel c w.
Proof.
  intros Hc Hkc. unfold event_master. destruct (cn_terminate_pending c); [reflexivity|].
  rewrite respond_same by (by apply (kept_counts x)).
  pose proof (respond_wf (Hccm := B) c w) as S. pose proof (respond_steady (Hccm := B) c w) as K.
  destruct (@respond B c w) as [[c1 w1]|]; cbn [lift rbind]; [|reflexivity].
  specialize (S c1 w1 Hc eq_refl). cbn [keeps fst] in K.
  assert (K1 : kept x c1) by (by eapply steady_kept). cbn [now].
  rewrite master_listen_same; [reflexivity|by apply (kept_counts x)|].
  exact (room_started c1 w1 S).
Qed.

End blocks.

(** An event of an encrypted connection runs the cipher under its own counter or
    under zero, and no other: what another cipher does elsewhere has no effect. *)
Lemma event_same_under `{Hcrypto : Crypto, Henv : Env} (A B : CcmHw) fuel c w :
  wf_link c -> cn_encrypted c = true -> same_under (u64 (cn_packet_counter c + 1)) A B ->
  @event _ A _ fuel c w = @event _ B _ fuel c w.
Proof.
  intros Hc He Hs. destruct (event_split (Hccm := A) fuel c w Hc) as (c1 & E & H1 & Er & _ & ->).
  destruct (event_split (Hccm := B) fuel c w Hc) as (c1' & E' & _ & _ & _ & ->).
  rewrite E in E'. apply Ret_inj in E' as <-.
  destruct (prepare_crypt c c1 Hc He E) as (_ & Y & _ & P).
  assert (K : kept c1 c1) by (split; [done|by left]). case_decide.
  - destruct (wait_compare _ _) as [w2| |]; cbn [rbind]; [|reflexivity..].
    by apply (event_master_same _ A B Hs c1 Y P).
  - by apply (event_slave_same _ A B Hs c1 Y P).
Qed.

(** ** Property *)


(** ** Example *)

(** Two ends that share a key, after encryption has started, and one event of
    each, in which an empty packet is received. *)
Definition sample_ciphered (r : ConnRole) : Conn := set_encrypted true (sample_conn r).

Definition ciphered_event (r : ConnRole) : run Conn :=
  let* (c, _, _) := @event mask_crypto xor_ccm ack_env 1 (sample_ciphered r) sample_world in
  Done c.

Lemma ciphered_history r c : ciphered_event r = Done c -> cn_packet_counter c = 1 ->
  @history mask_crypto xor_ccm ack_env undisturbed (sample_ciphered r) 1 c.
Proof.
  unfold ciphered_event. intros E Hn.
  destruct (event 1 (sample_ciphered r) sample_world) as [[[c1 w'] e]| |] eqn:Ev; [|done..].
  injection E as <-. eapply history_event; [constructor|exact Ev|].
  unfold undisturbed. by rewrite Hn.
Qed.

