(* ===== verification/Ble.v ===== *)
(** The stack ([src/hw/ble.rs]): its state, and the operations of the
    application that start and stop its activities, configure it and use a
    connection. What the activities do is in [Advertiser.v], [Scanner.v] and
    [Driver.v]. *)

From stdpp Require Import base numbers list.
From S2P Require Import Prelude Errors Channels Timers Addr Ad Pdu Events EventQueue.
From S2P Require Import BondStore Crypto Smp Ccm Gatt Conn Att CocChannel SmpChannel L2cap.
From S2P Require Import Radio LinkLayer.

(** ** The state *)

Definition EVENT_QUEUE_LEN : nat := 8.
Definition RX_PDU_MAX : nat := 257.
Definition SCAN_REQ_WINDOW_MICROS : Z := 300.
Definition CONNECT_REQ_WINDOW_MICROS : Z := 90000.

Inductive AdvState : Type := AdvIdle | AdvRunning | AdvStopPending.

#[export] Instance AdvState_eq_dec : EqDecision AdvState.
Proof. solve_decision. Defined.

Inductive ScanState : Type := ScanIdle | ScanRunning | ScanStopPending.

#[export] Instance ScanState_eq_dec : EqDecision ScanState.
Proof. solve_decision. Defined.

(** The radio, the timer and the cipher block are the [World] the operations
    thread. *)
Record Ble := mkBle {
  b_adv_accum : IntervalAccum;
  b_scan_accum : IntervalAccum;
  b_adv_state : AdvState;
  b_scan_state : ScanState;
  b_adv_params : AdvParams;
  b_scan_params : ScanParams;
  b_adv_data : list Z;
  b_adv_data_len : nat;
  b_scan_rsp : list Z;
  b_scan_rsp_len : nat;
  b_own_addr : list Z;
  b_own_addr_type : AddrType;
  b_adv_channel_idx : nat;
  b_scan_channel_idx : nat;
  b_scan_cycle_start : Z;
  b_conn : option Conn;
  b_connect_target : option (list Z);
  b_connect_target_type : AddrType;
  b_last_radio_channel : option Z;
  b_accept_list : AcceptList;
  b_irk : option (list Z);
  b_periodic_sync : option PeriodicSync;
  b_tx_buf : list Z;
  b_tx_pdu_len : nat;
  b_rx_buf : list Z;
  b_rx_pdu_len : nat;
  b_events : EventRing BleEvent
}.

Definition Ble_eta (s : Ble) : Ble :=
  mkBle (b_adv_accum s) (b_scan_accum s) (b_adv_state s) (b_scan_state s)
    (b_adv_params s) (b_scan_params s) (b_adv_data s) (b_adv_data_len s)
    (b_scan_rsp s) (b_scan_rsp_len s) (b_own_addr s) (b_own_addr_type s)
    (b_adv_channel_idx s) (b_scan_channel_idx s) (b_scan_cycle_start s) (b_conn s)
    (b_connect_target s) (b_connect_target_type s) (b_last_radio_channel s)
    (b_accept_list s) (b_irk s) (b_periodic_sync s) (b_tx_buf s) (b_tx_pdu_len s)
    (b_rx_buf s) (b_rx_pdu_len s) (b_events s).

Definition set_b_adv_accum : IntervalAccum -> Ble -> Ble :=
  ltac:(record_setter Ble_eta b_adv_accum).
Definition set_b_scan_accum : IntervalAccum -> Ble -> Ble :=
  ltac:(record_setter Ble_eta b_scan_accum).
Definition set_b_adv_state : AdvState -> Ble -> Ble :=
  ltac:(record_setter Ble_eta b_adv_state).
Definition set_b_scan_state : ScanState -> Ble -> Ble :=
  ltac:(record_setter Ble_eta b_scan_state).
Definition set_b_adv_params : AdvParams -> Ble -> Ble :=
  ltac:(record_setter Ble_eta b_adv_params).
Definition set_b_scan_params : ScanParams -> Ble -> Ble :=
  ltac:(record_setter Ble_eta b_scan_params).
Definition set_b_adv_data : list Z -> Ble -> Ble :=
  ltac:(record_setter Ble_eta b_adv_data).
Definition set_b_adv_data_len : nat -> Ble -> Ble :=
  ltac:(record_setter Ble_eta b_adv_data_len).
Definition set_b_scan_rsp : list Z -> Ble -> Ble :=
  ltac:(record_setter Ble_eta b_scan_rsp).
Definition set_b_scan_rsp_len : nat -> Ble -> Ble :=
  ltac:(record_setter Ble_eta b_scan_rsp_len).
Definition set_b_own_addr : list Z -> Ble -> Ble :=
  ltac:(record_setter Ble_eta b_own_addr).
Definition set_b_own_addr_type : AddrType -> Ble -> Ble :=
  ltac:(record_setter Ble_eta b_own_addr_type).
Definition set_b_adv_channel_idx : nat -> Ble -> Ble :=
  ltac:(record_setter Ble_eta b_adv_channel_idx).
Definition set_b_scan_channel_idx : nat -> Ble -> Ble :=
  ltac:(record_setter Ble_eta b_scan_channel_idx).
Definition set_b_scan_cycle_start : Z -> Ble -> Ble :=
  ltac:(record_setter Ble_eta b_scan_cycle_start).
Definition set_b_conn : option Conn -> Ble -> Ble :=
  ltac:(record_setter Ble_eta b_conn).
Definition set_b_connect_target : option (list Z) -> Ble -> Ble :=
  ltac:(record_setter Ble_eta b_connect_target).
Definition set_b_connect_target_type : AddrType -> Ble -> Ble :=
  ltac:(record_setter Ble_eta b_connect_target_type).
Definition set_b_last_radio_channel : option Z -> Ble -> Ble :=
  ltac:(record_setter Ble_eta b_last_radio_channel).
Definition set_b_accept_list : AcceptList -> Ble -> Ble :=
  ltac:(record_setter Ble_eta b_accept_list).
Definition set_b_irk : option (list Z) -> Ble -> Ble :=
  ltac:(record_setter Ble_eta b_irk).
Definition set_b_periodic_sync : option PeriodicSync -> Ble -> Ble :=
  ltac:(record_setter Ble_eta b_periodic_sync).
Definition set_b_tx_buf : list Z -> Ble -> Ble :=
  ltac:(record_setter Ble_eta b_tx_buf).
Definition set_b_tx_pdu_len : nat -> Ble -> Ble :=
  ltac:(record_setter Ble_eta b_tx_pdu_len).
Definition set_b_rx_buf : list Z -> Ble -> Ble :=
  ltac:(record_setter Ble_eta b_rx_buf).
Definition set_b_rx_pdu_len : nat -> Ble -> Ble :=
  ltac:(record_setter Ble_eta b_rx_pdu_len).
Definition set_b_events : EventRing BleEvent -> Ble -> Ble :=
  ltac:(record_setter Ble_eta b_events).

Definition Ble_init : Ble :=
  mkBle IntervalAccum_new IntervalAccum_new AdvIdle ScanIdle AdvParams_default
    ScanParams_default (replicate LEGACY_AD_DATA_MAX_LEN 0) 0
    (replicate LEGACY_AD_DATA_MAX_LEN 0) 0 (replicate 6 0) Public 0 0 0 None None Public None
    AcceptList_new None None (replicate RX_PDU_MAX 0) 0 (replicate RX_PDU_MAX 0) 0
    (ring_new EVENT_QUEUE_LEN).

(** [new]: both drivers are initialised. *)
Definition Ble_new (w : World) : Ble * World := (Ble_init, timer_init (radio_init w)).

(** The channel of the last listen. *)
Definition radio_last_channel (self : Ble) : option Z := b_last_radio_channel self.

(** ** Events *)

Definition push_event (self : Ble) (evt : BleEvent) : outcome Ble :=
  let! r := ring_push EVENT_QUEUE_LEN (b_events self) evt in
  Ret (set_b_events r self).

Definition next_event (self : Ble) : outcome (Ble * option BleEvent) :=
  let! (r, evt) := ring_next EVENT_QUEUE_LEN (b_events self) in
  Ret (set_b_events r self, evt).

(** ** Configuration *)

Definition gap_address_set (self : Ble) (addr : list Z) (addr_type : AddrType) : Ble :=
  set_b_own_addr_type addr_type (set_b_own_addr addr self).

Definition gap_adv_set_configure (self : Ble) (adv_data scan_rsp_data : list Z)
    : outcome (Ble * result unit Error) :=
  if (LEGACY_AD_DATA_MAX_LEN <? length adv_data)%nat
     || (LEGACY_AD_DATA_MAX_LEN <? length scan_rsp_data)%nat
  then Ret (self, Err InvalidLength) else
  let! d := copy_at (b_adv_data self) 0 (length adv_data) adv_data in
  let self := set_b_adv_data_len (length adv_data) (set_b_adv_data d self) in
  let! d := copy_at (b_scan_rsp self) 0 (length scan_rsp_data) scan_rsp_data in
  let self := set_b_scan_rsp_len (length scan_rsp_data) (set_b_scan_rsp d self) in
  Ret (self, Ok tt).

Definition gap_accept_list_add (self : Ble) (addr : list Z) (addr_type : AddrType)
    : outcome (Ble * bool) :=
  let! (l, r) := AcceptList_add (b_accept_list self) addr addr_type in
  Ret (set_b_accept_list l self, r).

Definition gap_accept_list_clear (self : Ble) : Ble :=
  set_b_accept_list (AcceptList_clear (b_accept_list self)) self.

Definition gap_accept_list_len (self : Ble) : nat := AcceptList_len (b_accept_list self).

Definition gap_privacy_set (self : Ble) (irk : list Z) : Ble := set_b_irk (Some irk) self.

Definition gap_tx_power_set (self : Ble) (w : World) (power : TxPower) : Ble * World :=
  (self, set_tx_power power w).

Definition adv_pdu_snapshot (self : Ble) : outcome (list Z) :=
  slice_to (b_tx_buf self) (b_tx_pdu_len self).

(** ** Starting and stopping *)

Section gap.
Context `{Hcrypto : Crypto, Henv : Env}.

Definition gap_rotate_rpa (self : Ble) (w : World) : outcome (Ble * World * bool) :=
  match b_irk self with
  | None => Ret (self, w, false)
  | Some irk =>
      let '(w, t) := now w in
      let prand := t .& 0x00FFFFFF in
      let! rpa := generate_rpa irk prand in
      let self := set_b_own_addr rpa self in
      Ret (set_b_own_addr_type RandomPrivateResolvable self, w, true)
  end.

(** The scheduler's time, and whether a tick is due. *)
Definition timer_now (_self : Ble) (w : World) : World * Z := now w.
Definition timer_compare_pending (_self : Ble) (w : World) : World * bool := compare_pending w.

(** Arm the compare [ticks] from now. *)
Definition arm (w : World) (ticks : Z) : World :=
  let '(w, t) := now w in set_compare (wrapping_add32 t ticks) w.

Definition gap_adv_start (self : Ble) (w : World) (params : AdvParams)
    : outcome (Ble * World * result unit Error) :=
  if negb (bool_decide (b_adv_state self = AdvIdle)) then Ret (self, w, Err AlreadyRunning)
  else if (adp_interval_min params <? 32) || (16384 <? adp_interval_min params)
  then Ret (self, w, Err InvalidParam)
  else if adp_interval_max params <? adp_interval_min params
  then Ret (self, w, Err InvalidParam)
  else if adp_channel_map params .& 7 =? 0 then Ret (self, w, Err InvalidParam)
  else if bool_decide (adp_adv_type params = ConnectableDirected)
          && bool_decide (adp_peer_addr params = None)
  then Ret (self, w, Err InvalidParam)
  else
    let self := set_b_adv_params params self in
    let self := set_b_own_addr_type (adp_own_addr_type params) self in
    let self := set_b_adv_channel_idx 0 self in
    let! (accum, ticks) := IntervalAccum_next IntervalAccum_new (adp_interval_min params) in
    let self := set_b_adv_accum accum self in
    let w := arm w ticks in
    let self := set_b_adv_state AdvRunning self in
    let! self := push_event self AdvStarted in
    Ret (self, w, Ok tt).

Definition gap_adv_stop (self : Ble) : Ble * result unit Error :=
  match b_adv_state self with
  | AdvRunning => (set_b_adv_state AdvStopPending self, Ok tt)
  | AdvStopPending => (self, Ok tt)
  | AdvIdle => (self, Err NotRunning)
  end.

Definition gap_scan_start (self : Ble) (w : World) (params : ScanParams)
    : outcome (Ble * World * result unit Error) :=
  if negb (bool_decide (b_scan_state self = ScanIdle))
  then Ret (self, w, Err AlreadyRunning)
  else if (scp_interval params <? 4) || (16384 <? scp_interval params)
  then Ret (self, w, Err InvalidParam)
  else if (scp_window params <? 4) || (16384 <? scp_window params)
  then Ret (self, w, Err InvalidParam)
  else if scp_interval params <? scp_window params then Ret (self, w, Err InvalidParam)
  else
    let self := set_b_scan_params params self in
    let self := set_b_own_addr_type (scp_own_addr_type params) self in
    let self := set_b_scan_channel_idx 0 self in
    let! (accum, ticks) := IntervalAccum_next IntervalAccum_new (scp_interval params) in
    let self := set_b_scan_accum accum self in
    let w := arm w ticks in
    let self := set_b_scan_state ScanRunning self in
    let! self := push_event self ScanStarted in
    Ret (self, w, Ok tt).

Definition gap_scan_stop (self : Ble) : Ble * result unit Error :=
  match b_scan_state self with
  | ScanRunning => (set_b_scan_state ScanStopPending self, Ok tt)
  | ScanStopPending => (self, Ok tt)
  | ScanIdle => (self, Err NotRunning)
  end.

Definition gap_connect (self : Ble) (w : World) (target : list Z) (target_type : AddrType)
    : outcome (Ble * World * result unit Error) :=
  if negb (bool_decide (b_scan_state self = ScanIdle))
  then Ret (self, w, Err AlreadyRunning)
  else
    let self := set_b_connect_target (Some target) self in
    let self := set_b_connect_target_type target_type self in
    let params := mkScanParams false 100 90 (scp_own_addr_type ScanParams_default)
                    (scp_filter_policy ScanParams_default) in
    gap_scan_start self w params.

End gap.

(** ** The connection's operations *)

(** [self.conn.as_mut().ok_or(Error::NotRunning)?] and an operation on it. *)
Definition on_conn (self : Ble) (f : Conn -> outcome (Conn * result unit Error))
    : outcome (Ble * result unit Error) :=
  match b_conn self with
  | None => Ret (self, Err NotRunning)
  | Some conn =>
      let! (conn, r) := f conn in Ret (set_b_conn (Some conn) self, r)
  end.

(** An operation that cannot fail. *)
Definition on_conn_ok (self : Ble) (f : Conn -> outcome Conn)
    : outcome (Ble * result unit Error) :=
  on_conn self (fun conn => let! conn := f conn in Ret (conn, Ok tt)).

Definition gap_encrypt (self : Ble) : outcome (Ble * result unit Error) :=
  on_conn self encrypt_conn.

Definition gap_bond_save (self : Ble) (peer ltk : list Z) (irk : option (list Z)) : Ble :=
  match b_conn self with
  | Some conn =>
      let s := RamBondStore_save (cn_bond_store conn) peer ltk irk in
      set_b_conn (Some (set_bond_store s conn)) self
  | None => self
  end.

Definition gap_bond_find (self : Ble) (peer : list Z) : option BondInfo :=
  match b_conn self with
  | Some conn => RamBondStore_find (cn_bond_store conn) peer
  | None => None
  end.

Definition conn_is_master (self : Ble) : bool :=
  match b_conn self with
  | Some conn => bool_decide (cn_role conn = Master)
  | None => false
  end.

Definition conn_rx_data (self : Ble) : outcome (list Z) :=
  match b_conn self with
  | Some conn => slice_to (cn_rx_data conn) (cn_rx_data_len conn)
  | None => Ret []
  end.

Definition conn_send (self : Ble) (data : list Z) : outcome (Ble * result unit Error) :=
  on_conn_ok self (fun conn => queue_notify conn data).

Definition ble_l2cap_connect (self : Ble) (psm : Z) : outcome (Ble * result unit Error) :=
  on_conn_ok self (fun conn => l2cap_connect conn psm).

Definition ble_l2cap_send (self : Ble) (data : list Z) : outcome (Ble * result unit Error) :=
  on_conn self (fun conn => l2cap_send conn data).

Definition gap_pair (self : Ble) : outcome (Ble * result unit Error) :=
  on_conn_ok self pair_conn.

Definition gatt_discover_primary_services (self : Ble)
    : outcome (Ble * result unit Error) :=
  on_conn_ok self (fun conn =>
    let req := replicate 7 0 in
    let! req := set_idx req 0 0x10 in
    let! req := copy_at req 1 3 (u16_to_le 0x2800) in
    let! req := copy_at req 3 5 (u16_to_le 0x0001) in
    let! req := copy_at req 5 7 (u16_to_le 0xFFFF) in
    gatt_send_request conn req).

Definition gatt_discover_characteristics (self : Ble) (start last : Z)
    : outcome (Ble * result unit Error) :=
  on_conn_ok self (fun conn =>
    let req := replicate 7 0 in
    let! req := set_idx req 0 0x08 in
    let! req := copy_at req 1 3 (u16_to_le 0x2803) in
    let! req := copy_at req 3 5 (u16_to_le start) in
    let! req := copy_at req 5 7 (u16_to_le last) in
    gatt_send_request conn req).

Definition gatt_read (self : Ble) (handle : Z) : outcome (Ble * result unit Error) :=
  on_conn_ok self (fun conn =>
    let req := replicate 3 0 in
    let! req := set_idx req 0 0x0A in
    let! req := copy_at req 1 3 (u16_to_le handle) in
    gatt_send_request conn req).

Definition gatt_write (self : Ble) (handle : Z) (data : list Z)
    : outcome (Ble * result unit Error) :=
  on_conn_ok self (fun conn =>
    let req := replicate 23 0 in
    let! req := set_idx req 0 0x12 in
    let! req := copy_at req 1 3 (u16_to_le handle) in
    let n := Nat.min (length data) 20 in
    let! d := slice_to data n in
    let! req := copy_at req 3 (3 + n) d in
    let! req := slice_to req (3 + n) in
    gatt_send_request conn req).

Definition gatt_subscribe (self : Ble) (cccd_handle : Z)
    : outcome (Ble * result unit Error) :=
  on_conn_ok self (fun conn =>
    let req := replicate 5 0 in
    let! req := set_idx req 0 0x12 in
    let! req := copy_at req 1 3 (u16_to_le cccd_handle) in
    let! req := copy_at req 3 5 (u16_to_le 0x0001) in
    gatt_send_request conn req).

Definition gatt_poll (self : Ble) : outcome (Ble * option (Z * list Z * nat)) :=
  match b_conn self with
  | None => Ret (self, None)
  | Some conn =>
      let! (conn, (op, buf, len)) := gatt_take_result conn in
      let self := set_b_conn (Some conn) self in
      Ret (self, if (0 <? len)%nat then Some (op, buf, len) else None)
  end.

Definition gap_terminate (self : Ble) : Ble * result unit Error :=
  match b_conn self with
  | Some conn => (set_b_conn (Some (terminate conn)) self, Ok tt)
  | None => (self, Err NotRunning)
  end.
