(* ===== verification/BleInv.v ===== *)
(** The stack's invariant ([src/hw/ble.rs]): what holds of [Ble] between any two
    of its operations, and that the operations that configure it, start and stop
    its activities and take its events keep it and do not panic. *)

From stdpp Require Import base numbers list.
From S2P Require Import Prelude Errors Channels Timers Addr Ad Pdu Events EventQueue Hci.
From S2P Require Import BondStore Crypto Smp Ccm Gatt Conn Att CocChannel SmpChannel L2cap.
From S2P Require Import Frame Radio LinkLayer LinkInv LinkEvents Ble.

(** ** Computations that do not panic *)

(** It returns, and the result satisfies [P]. *)
Definition gives {A} (m : outcome A) (P : A -> Prop) : Prop :=
  match m with Ret a => P a | Panic => False end.

(** It does not panic, the receiver stays within its buffer, and if the
    computation ends the result satisfies [P]. *)
Definition runs {A} (m : run A) (P : A -> Prop) : Prop :=
  match m with Done a => P a | Fault _ => False | OutOfFuel => True end.

Lemma gives_exists {A} (m : outcome A) P : gives m P -> exists a, m = Ret a /\ P a.
Proof. destruct m; cbn; [eauto|done]. Qed.

Lemma gives_bind {A B} (m : outcome A) (f : A -> outcome B) P Q :
  gives m P -> (forall a, P a -> gives (f a) Q) -> gives (obind m f) Q.
Proof. destruct m; cbn; [eauto|done]. Qed.

Lemma gives_mono {A} (m : outcome A) (P Q : A -> Prop) :
  gives m P -> (forall a, P a -> Q a) -> gives m Q.
Proof. destruct m; cbn; [eauto|done]. Qed.

Lemma runs_bind {A B} (m : run A) (f : A -> run B) P Q :
  runs m P -> (forall a, P a -> runs (f a) Q) -> runs (rbind m f) Q.
Proof. destruct m; cbn; [eauto|done..]. Qed.

Lemma runs_lift {A B} (m : outcome A) (f : A -> run B) P Q :
  gives m P -> (forall a, P a -> runs (f a) Q) -> runs (rbind (lift m) f) Q.
Proof. destruct m; cbn; [eauto|done]. Qed.

Lemma runs_of {A} (m : outcome A) (P : A -> Prop) : gives m P -> runs (lift m) P.
Proof. by destruct m. Qed.

Lemma runs_mono {A} (m : run A) (P Q : A -> Prop) :
  runs m P -> (forall a, P a -> Q a) -> runs m Q.
Proof. destruct m; cbn; [eauto|done..]. Qed.

Lemma runs_iff {A} (m : run A) (P : A -> Prop) :
  runs m P <-> (forall f, m <> Fault f) /\ forall a, m = Done a -> P a.
Proof.
  destruct m as [a|f|]; cbn [runs]; split; try done.
  - intros H. split; [done|]. by intros b [= <-].
  - intros [_ H]. by apply H.
  - by intros [[]%(fun H => H f eq_refl) _].
Qed.

(** ** The invariant *)

Definition wf_adv (p : AdvParams) : Prop :=
  is_u16 (adp_interval_min p) /\ (forall a, adp_peer_addr p = Some a -> is_addr a).

Definition wf_scan (p : ScanParams) : Prop :=
  is_u16 (scp_interval p) /\ is_u16 (scp_window p).

Definition wf_sync (y : PeriodicSync) : Prop :=
  is_u16 (ps_units y) /\ 0 <= ps_frac y < 32.

Record wf_ble (s : Ble) : Prop := {
  wb_accums : wf_accum (b_adv_accum s) /\ wf_accum (b_scan_accum s);
  wb_adv : wf_adv (b_adv_params s) /\
    (adp_adv_type (b_adv_params s) = ConnectableDirected ->
     adp_peer_addr (b_adv_params s) <> None);
  wb_scan : wf_scan (b_scan_params s);
  wb_adv_data : length (b_adv_data s) = 31%nat /\ (b_adv_data_len s <= 31)%nat;
  wb_scan_rsp : length (b_scan_rsp s) = 31%nat /\ (b_scan_rsp_len s <= 31)%nat;
  wb_own_addr : is_addr (b_own_addr s);
  wb_adv_idx : (b_adv_channel_idx s < 3)%nat;
  wb_conn : forall c, b_conn s = Some c -> wf_link c;
  wb_target : forall a, b_connect_target s = Some a -> is_addr a;
  wb_last : forall ch, b_last_radio_channel s = Some ch -> 37 <= ch <= 39;
  wb_accept : al_wf (b_accept_list s);
  wb_sync : forall y, b_periodic_sync s = Some y -> wf_sync y;
  wb_tx : length (b_tx_buf s) = 257%nat /\ (b_tx_pdu_len s <= 257)%nat;
  wb_rx : length (b_rx_buf s) = 257%nat /\ bytes (b_rx_buf s) /\
    (b_rx_pdu_len s <= 257)%nat;
  wb_events : ring_ok EVENT_QUEUE_LEN (b_events s) /\
    forall i e, events (b_events s) !! i = Some (Some e) -> event_wf e
}.

(** After a change of fields: what did not change, and [t] for what did. *)
Ltac wf_ble_by t :=
  match goal with
  | H : wf_ble ?s |- wf_ble _ =>
      destruct H; constructor; first [assumption | t]
  end.

Lemma Ble_init_wf : wf_ble Ble_init.
Proof.
  constructor; cbn [Ble_init b_adv_accum b_scan_accum b_adv_params b_scan_params
    b_adv_data b_adv_data_len b_scan_rsp b_scan_rsp_len b_own_addr b_adv_channel_idx
    b_conn b_connect_target b_last_radio_channel b_accept_list b_periodic_sync b_tx_buf
    b_tx_pdu_len b_rx_buf b_rx_pdu_len b_events].
  - split; apply wf_accum_new.
  - by repeat split.
  - by repeat split.
  - split; [done|lia].
  - split; [done|lia].
  - done.
  - lia.
  - done.
  - done.
  - done.
  - apply AcceptList_new_wf.
  - done.
  - split; [done|lia].
  - split; [done|]. split; [apply bytes_replicate_0|lia].
  - split; [apply ring_new_ok; cbv; lia|]. intros i e H.
    unfold ring_new in H. cbn [events] in H. apply lookup_replicate in H as [H _]. done.
Qed.

(** ** Events *)

Lemma push_event_Ret s e : wf_ble s -> event_wf e ->
  exists r, push_event s e = Ret (set_b_events r s) /\
    ring_push EVENT_QUEUE_LEN (b_events s) e = Ret r /\ wf_ble (set_b_events r s).
Proof.
  intros Hs He. destruct (wb_events s Hs) as [Hr Hw]. unfold push_event.
  destruct (ring_push_ok _ _ e Hr) as (r & E & Hr'). rewrite E. exists r.
  split; [done|]. split; [done|]. wf_ble_by idtac. split; [done|].
  cbn [b_events set_b_events]. revert E. unfold ring_push, set_idx.
  destruct (_ <? _)%nat; [|done]. intros <-%Ret_inj. cbn [events].
  intros i x [[<- [[= <-] _]]|[_ H]]%list_lookup_insert_Some; [done|]. by eapply Hw.
Qed.

Lemma push_event_ok s e : wf_ble s -> event_wf e -> gives (push_event s e) wf_ble.
Proof. intros Hs He. by destruct (push_event_Ret s e Hs He) as (r & -> & _ & H). Qed.

(** How many events are pending, at most. *)
Definition pending (s : Ble) : nat := length (filter (.≠ None) (events (b_events s))).

Lemma next_event_Ret s : wf_ble s ->
  exists s' e, next_event s = Ret (s', e) /\ (exists r, s' = set_b_events r s) /\ wf_ble s' /\
  match e with
  | Some e => event_wf e /\ (pending s' < pending s)%nat
  | None => s' = s
  end.
Proof.
  intros Hs. destruct (wb_events s Hs) as [(Hl & Hh & Ht) Hw]. unfold next_event, ring_next.
  destruct (lookup_lt_is_Some_2 (events (b_events s)) (event_tail (b_events s)))
    as [x Hx]; [lia|].
  rewrite (idx_Some _ _ _ Hx), obind_Ret. rewrite set_idx_Ret, obind_Ret by lia.
  assert (Hnew : forall h t, (h < 8)%nat -> (t < 8)%nat ->
    wf_ble (set_b_events (mkEventRing (<[event_tail (b_events s):=None]>
      (events (b_events s))) h t) s)).
  { intros h t H1 H2. wf_ble_by idtac. unfold ring_ok.
    cbn [b_events set_b_events events event_head event_tail]. split; [split; [by rewrite length_insert|by split]|].
    intros i e [[_ [? _]]|[_ H]]%list_lookup_insert_Some; [done|]. by eapply Hw. }
  destruct x as [e|]; cbn [obind]; do 2 eexists; (split; [reflexivity|]);
    (split; [by eexists|]).
  - split; [apply Hnew; [done|apply Nat.mod_upper_bound; lia]|]. split; [by eapply Hw|].
    unfold pending. cbn [b_events set_b_events events].
    rewrite <- (take_drop_middle _ _ _ Hx) at 2.
    rewrite insert_take_drop by lia. rewrite !filter_app.
    rewrite (filter_cons_False (.≠ None) None), (filter_cons_True (.≠ None) (Some e)) by naive_solver.
    rewrite !length_app. cbn [length]. lia.
  - split; [by apply Hnew|]. rewrite list_insert_id by done. by destruct s as [], b_events.
Qed.

(** ** Configuration and activities *)

Section gap.
Context `{Hcrypto : Crypto, Henv : Env}.

Lemma gap_address_set_wf s a t : wf_ble s -> is_addr a -> wf_ble (gap_address_set s a t).
Proof. intros Hs Ha. by wf_ble_by idtac. Qed.

(** The prefix of a buffer of 31 replaced. *)
Lemma copy_31 (l d : list Z) : length l = 31%nat -> (length d <= 31)%nat ->
  exists l', copy_at l 0 (length d) d = Ret l' /\ length l' = 31%nat /\ take (length d) l' = d.
Proof.
  intros Hl Hd. rewrite copy_at_first by lia. eexists. split; [done|].
  split; [len|]. apply take_app_length.
Qed.

(** Configuration stores both, or refuses and changes nothing. *)
Lemma gap_adv_set_configure_ok s d r : wf_ble s ->
  gives (gap_adv_set_configure s d r) (fun '(s', e) => wf_ble s' /\
    if (31 <? length d)%nat || (31 <? length r)%nat then s' = s /\ e = Err InvalidLength
    else e = Ok tt /\ take (b_adv_data_len s') (b_adv_data s') = d /\
      take (b_scan_rsp_len s') (b_scan_rsp s') = r).
Proof.
  intros Hs. unfold gap_adv_set_configure. change LEGACY_AD_DATA_MAX_LEN with 31%nat.
  destruct (Nat.ltb_spec 31 (length d)), (Nat.ltb_spec 31 (length r)); try done.
  cbn [orb]. destruct (copy_31 (b_adv_data s) d) as (l & -> & Hl & El);
    [apply wb_adv_data, Hs|done|]. rewrite obind_Ret. cbv zeta.
  match goal with |- context [copy_at (b_scan_rsp ?x)] =>
    change (b_scan_rsp x) with (b_scan_rsp s) end.
  destruct (copy_31 (b_scan_rsp s) r) as (l' & -> & Hl' & El');
    [apply wb_scan_rsp, Hs|done|]. rewrite obind_Ret. split; [|done].
  by wf_ble_by idtac.
Qed.

Lemma gap_accept_list_add_ok s a t : wf_ble s ->
  gives (gap_accept_list_add s a t) (fun r => wf_ble (fst r)).
Proof.
  intros Hs. unfold gap_accept_list_add.
  destruct (AcceptList_add_spec _ a t (wb_accept s Hs)) as (l' & b & -> & Hl & _).
  cbn. by wf_ble_by idtac.
Qed.

Lemma gap_accept_list_clear_wf s : wf_ble s -> wf_ble (gap_accept_list_clear s).
Proof.
  intros Hs. destruct (AcceptList_clear_spec _ (wb_accept s Hs)) as [Hl _].
  by wf_ble_by idtac.
Qed.

Lemma gap_privacy_set_wf s k : wf_ble s -> wf_ble (gap_privacy_set s k).
Proof. intros Hs. by wf_ble_by idtac. Qed.

Lemma gap_rotate_rpa_ok s w : wf_ble s ->
  gives (gap_rotate_rpa s w) (fun r => wf_ble (fst (fst r))).
Proof.
  intros Hs. unfold gap_rotate_rpa. destruct (b_irk s) as [irk|]; [|done].
  cbn [now]. destruct (generate_rpa_Ret irk (env_now (w_reads w) .& 0x00FFFFFF))
    as (p0 & p1 & p2 & -> & _). rewrite obind_Ret. cbn.
  pose proof (ah_hash_length irk [p0; p1; p2]).
  wf_ble_by idtac. unfold is_addr. cbn. len.
Qed.

(** The first interval of an activity. *)
Lemma first_interval u : is_u16 u -> exists a,
  IntervalAccum_next IntervalAccum_new u = Ret (a, u * 625 / 32) /\ wf_accum a.
Proof.
  intros Hu. destruct (IntervalAccum_next_spec IntervalAccum_new u)
    as (a & t & -> & Ha & _ & _ & Hf); [apply wf_accum_new|done|].
  exists a. split; [|done]. do 2 f_equal. destruct Ha as [Ha _].
  change (rate IntervalAccum_new) with 625 in Hf.
  change (ia_frac IntervalAccum_new) with 0 in Hf.
  apply Z.div_unique with (ia_frac a); lia.
Qed.

(** When a start of advertising is refused. *)
Definition adv_refused (s : Ble) (p : AdvParams) : bool :=
  negb (bool_decide (b_adv_state s = AdvIdle)) ||
  (adp_interval_min p <? 32) || (16384 <? adp_interval_min p) ||
  (adp_interval_max p <? adp_interval_min p) || (adp_channel_map p .& 7 =? 0) ||
  (bool_decide (adp_adv_type p = ConnectableDirected) &&
   bool_decide (adp_peer_addr p = None)).

(** What a start leaves: nothing but an error, or the activity running, its
    first event an interval after now, and the rest of the stack as it was. *)
Lemma gap_adv_start_ok s w p : wf_ble s -> wf_adv p ->
  gives (gap_adv_start s w p) (fun '(s', w', r) => wf_ble s' /\
    if adv_refused s p then s' = s /\ w' = w /\ exists e, r = Err e
    else r = Ok tt /\ b_adv_state s' = AdvRunning /\ b_adv_params s' = p /\
      b_adv_channel_idx s' = 0%nat /\ b_own_addr s' = b_own_addr s /\
      b_own_addr_type s' = adp_own_addr_type p /\
      b_adv_data s' = b_adv_data s /\ b_adv_data_len s' = b_adv_data_len s /\
      w' = set_compare (u32 (env_now (w_reads w) + adp_interval_min p * 625 / 32))
             (fst (now w))).
Proof.
  intros Hs [Hi Hp]. unfold gap_adv_start, adv_refused.
  assert (Hno : forall e, gives (Ret (s, w, Err e)) (fun '(s', w', r) => wf_ble s' /\
    s' = s /\ w' = w /\ exists e : Error, r = @Err unit Error e))
    by (intros e; cbn; eauto).
  case_bool_decide as Hst; cbn [negb orb]; [|apply Hno].
  destruct ((adp_interval_min p <? 32) || _); cbn [orb]; [apply Hno|].
  destruct (adp_interval_max p <? _); cbn [orb]; [apply Hno|].
  destruct (_ =? 0); cbn [orb]; [apply Hno|].
  destruct (bool_decide (adp_adv_type p = _) && _) eqn:Hd; [apply Hno|]. cbv zeta.
  destruct (first_interval (adp_interval_min p) Hi) as (a & -> & Ha). rewrite obind_Ret.
  unfold arm. cbn [now].
  set (s1 := set_b_adv_state AdvRunning _).
  assert (Hs1 : wf_ble s1).
  { wf_ble_by idtac.
    - split; [exact Ha|]. by destruct wb_accums0.
    - split; [by split|]. cbn. intros Hc Hn. rewrite Hc, Hn in Hd. done.
    - cbn. lia. }
  destruct (push_event_Ret s1 AdvStarted Hs1 I) as (r & -> & _ & Hs2). rewrite obind_Ret.
  split; [exact Hs2|]. by do 8 (split; [done|]).
Qed.

Lemma gap_adv_stop_wf s : wf_ble s -> wf_ble (fst (gap_adv_stop s)).
Proof. intros Hs. unfold gap_adv_stop. destruct (b_adv_state s); [done|by wf_ble_by idtac|done]. Qed.

Lemma gap_scan_start_ok s w p : wf_ble s -> wf_scan p ->
  gives (gap_scan_start s w p) (fun '(s', w', r) => wf_ble s' /\
    match r with
    | Err _ => s' = s /\ w' = w
    | Ok _ => b_scan_state s = ScanIdle /\ b_scan_state s' = ScanRunning /\
        b_scan_params s' = p /\ 4 <= scp_window p <= scp_interval p /\
        b_scan_channel_idx s' = 0%nat /\
        w_cc0 w' = u32 (env_now (w_reads w) + scp_interval p * 625 / 32)
    end).
Proof.
  intros Hs [Hi Hp]. unfold gap_scan_start.
  case_bool_decide as Hst; cbn [negb]; [|done].
  destruct (_ || _); [done|].
  destruct (Z.ltb_spec (scp_window p) 4); [done|]. cbn [orb].
  destruct (Z.ltb_spec 16384 (scp_window p)); [done|].
  destruct (Z.ltb_spec (scp_interval p) (scp_window p)); [done|]. cbv zeta.
  destruct (first_interval (scp_interval p) Hi) as (a & -> & Ha). rewrite obind_Ret. unfold arm. cbn [now].
  set (s1 := set_b_scan_state ScanRunning _).
  assert (Hs1 : wf_ble s1).
  { wf_ble_by idtac.
    - split; [by destruct wb_accums0|exact Ha].
    - by split. }
  destruct (push_event_Ret s1 ScanStarted Hs1 I) as (r & -> & _ & Hs2). rewrite obind_Ret.
  split; [exact Hs2|]. by do 5 (split; [done|]).
Qed.

Lemma gap_scan_stop_wf s : wf_ble s -> wf_ble (fst (gap_scan_stop s)).
Proof. intros Hs. unfold gap_scan_stop. destruct (b_scan_state s); [done|by wf_ble_by idtac|done]. Qed.

Lemma gap_connect_ok s w a t : wf_ble s -> is_addr a ->
  gives (gap_connect s w a t) (fun r => wf_ble (fst (fst r))).
Proof.
  intros Hs Ha. unfold gap_connect. destruct (negb _); [done|]. cbv zeta.
  eapply gives_mono; [apply gap_scan_start_ok; [|by split]|].
  - wf_ble_by idtac. by intros ? [= <-].
  - intros [[s' w'] r] [H _]. exact H.
Qed.

End gap.

(** ** The connection's operations *)

Section conn_ops.
Context `{Hcrypto : Crypto, Hccm : CcmHw, Henv : Env}.

Lemma set_b_conn_wf s c : wf_ble s -> wf_link c -> wf_ble (set_b_conn (Some c) s).
Proof. intros Hs Hc. wf_ble_by idtac. cbn. by intros ? [= <-]. Qed.

Lemma set_b_conn_None_wf s : wf_ble s -> wf_ble (set_b_conn None s).
Proof. intros Hs. by wf_ble_by idtac. Qed.

(** Without a connection an operation fails and changes nothing; with one it
    keeps the invariant if it does so for the connection. *)
Lemma on_conn_gives s f : wf_ble s ->
  (forall c, wf_link c -> gives (f c) (fun r => wf_link (fst r))) ->
  gives (on_conn s f) (fun '(s', r) => wf_ble s' /\
    (b_conn s = None -> s' = s /\ r = Err NotRunning)).
Proof.
  intros Hs Hf. unfold on_conn. destruct (b_conn s) as [c|] eqn:Ec; [|done].
  eapply gives_bind; [apply Hf, (wb_conn s Hs c Ec)|].
  intros [c' r] Hc. split; [by apply set_b_conn_wf|done].
Qed.

Lemma on_conn_ok_gives s f : wf_ble s ->
  (forall c, wf_link c -> gives (f c) wf_link) ->
  gives (on_conn_ok s f) (fun '(s', r) => wf_ble s' /\
    r = (match b_conn s with None => Err NotRunning | Some _ => Ok tt end)).
Proof.
  intros Hs Hf. unfold on_conn_ok, on_conn. destruct (b_conn s) as [c|] eqn:Ec; [|done].
  pose proof (Hf c (wb_conn s Hs c Ec)) as H. destruct (f c) as [c'|]; [|done].
  rewrite !obind_Ret. split; [by apply set_b_conn_wf|done].
Qed.

Lemma gives_step c (m : outcome Conn) : wf_link c ->
  (exists c', m = Ret c') -> (forall c', m = Ret c' -> host_step c c') -> gives m wf_link.
Proof.
  intros Hc [c' E] Hm. rewrite E. exact (host_step_wf c c' Hc (Hm c' E)).
Qed.

Lemma request_gives c att : wf_link c -> (length att <= 251)%nat ->
  gives (gatt_send_request c att) wf_link.
Proof.
  intros Hc Ha. apply (gives_step c); [done| |intros; by eapply host_request].
  unfold gatt_send_request.
  rewrite queue_att_Ret; [by eexists|apply wf_tx_att, wl_conn, Hc|done].
Qed.

Lemma conn_send_ok s data : wf_ble s ->
  gives (conn_send s data) (fun '(s', r) => wf_ble s' /\
    r = (match b_conn s with None => Err NotRunning | Some _ => Ok tt end)).
Proof.
  intros Hs. apply on_conn_ok_gives; [done|]. intros c Hc. apply (gives_step c); [done| |].
  - rewrite queue_notify_Ret by apply Hc. by eexists.
  - intros c'. by apply host_notify.
Qed.

Lemma ble_l2cap_connect_ok s psm : wf_ble s ->
  gives (ble_l2cap_connect s psm) (fun r => wf_ble (fst r)).
Proof.
  intros Hs. eapply gives_mono.
  - apply on_conn_ok_gives; [done|]. intros c Hc. apply (gives_step c); [done| |].
    + destruct (l2cap_connect_Ret c psm) as (c' & -> & _); [apply Hc|]. by eexists.
    + intros c'. by apply host_open.
  - by intros [s' r] [H _].
Qed.

Lemma ble_l2cap_send_ok s data : wf_ble s ->
  gives (ble_l2cap_send s data) (fun r => wf_ble (fst r)).
Proof.
  intros Hs. eapply gives_mono; [apply on_conn_gives; [done|]|by intros [s' r] [H _]].
  intros c Hc. rewrite l2cap_send_Ret by apply Hc.
  match goal with |- gives (Ret ?x) _ => destruct x as [c' r] eqn:E end. cbn.
  apply (host_step_wf c c' Hc), (host_send c data c' r).
  rewrite l2cap_send_Ret by apply Hc. by rewrite E.
Qed.

Lemma gatt_discover_primary_services_ok s : wf_ble s ->
  gives (gatt_discover_primary_services s) (fun r => wf_ble (fst r)).
Proof.
  intros Hs. eapply gives_mono; [apply on_conn_ok_gives; [done|]|by intros [s' r] [H _]].
  intros c Hc. cbv zeta. writes. apply request_gives; [done|cbn; lia].
Qed.

Lemma gatt_discover_characteristics_ok s a b : wf_ble s ->
  gives (gatt_discover_characteristics s a b) (fun r => wf_ble (fst r)).
Proof.
  intros Hs. eapply gives_mono; [apply on_conn_ok_gives; [done|]|by intros [s' r] [H _]].
  intros c Hc. cbv zeta. writes. apply request_gives; [done|cbn; lia].
Qed.

Lemma gatt_read_ok s h : wf_ble s -> gives (gatt_read s h) (fun r => wf_ble (fst r)).
Proof.
  intros Hs. eapply gives_mono; [apply on_conn_ok_gives; [done|]|by intros [s' r] [H _]].
  intros c Hc. cbv zeta. writes. apply request_gives; [done|cbn; lia].
Qed.

Lemma gatt_write_ok s h d : wf_ble s -> gives (gatt_write s h d) (fun r => wf_ble (fst r)).
Proof.
  intros Hs. eapply gives_mono; [apply on_conn_ok_gives; [done|]|by intros [s' r] [H _]].
  intros c Hc. cbv zeta. writes. rewrite slice_to_Ret by len. writes.
  rewrite slice_to_Ret by len. rewrite obind_Ret. apply request_gives; [done|len].
Qed.

Lemma gatt_subscribe_ok s h : wf_ble s ->
  gives (gatt_subscribe s h) (fun r => wf_ble (fst r)).
Proof.
  intros Hs. eapply gives_mono; [apply on_conn_ok_gives; [done|]|by intros [s' r] [H _]].
  intros c Hc. cbv zeta. writes. apply request_gives; [done|cbn; lia].
Qed.

Lemma gatt_poll_ok s : wf_ble s -> gives (gatt_poll s) (fun r => wf_ble (fst r)).
Proof.
  intros Hs. unfold gatt_poll. destruct (b_conn s) as [c|] eqn:Ec; [|done].
  pose proof (wb_conn s Hs c Ec) as Hc.
  pose proof (wf_gatt_result c (wl_conn c Hc)) as Hg.
  destruct (lookup_lt_is_Some_2 (cn_gatt_result c) 0) as [x Hx]; [lia|].
  pose proof (gatt_take_result_Ret c x Hx) as E. rewrite E, obind_Ret.
  apply set_b_conn_wf; [done|]. exact (host_step_wf c _ Hc (host_result c _ _ E)).
Qed.

Lemma gap_terminate_wf s : wf_ble s -> wf_ble (fst (gap_terminate s)).
Proof.
  intros Hs. unfold gap_terminate. destruct (b_conn s) as [c|] eqn:Ec; [|done].
  apply set_b_conn_wf; [done|].
  exact (host_step_wf c _ (wb_conn s Hs c Ec) (host_terminate c)).
Qed.

(** Encryption takes the key saved for the peer; the queued request follows. *)
Lemma gap_encrypt_ok s : wf_ble s -> gives (gap_encrypt s) (fun r => wf_ble (fst r)).
Proof.
  intros Hs. eapply gives_mono; [apply on_conn_gives; [done|]|by intros [s' r] [H _]].
  intros c Hc. by destruct (encrypt_conn_Ret c Hc) as (c' & r & -> & H).
Qed.

Lemma gap_bond_save_wf s p l i : wf_ble s -> wf_bond (mkBondInfo p l i) ->
  wf_ble (gap_bond_save s p l i).
Proof.
  intros Hs Hb. unfold gap_bond_save. destruct (b_conn s) as [c|] eqn:Ec; [|done].
  apply set_b_conn_wf; [done|]. by apply bond_saved_wf; [apply (wb_conn s Hs)|].
Qed.

Lemma gap_pair_ok s : wf_ble s -> gives (gap_pair s) (fun r => wf_ble (fst r)).
Proof.
  intros Hs. eapply gives_mono; [apply on_conn_ok_gives; [done|]|by intros [s' r] [H _]].
  intros c Hc. by destruct (pair_conn_Ret c Hc) as (c' & -> & H).
Qed.

Lemma conn_rx_data_ok s : wf_ble s -> gives (conn_rx_data s) (fun d => (length d <= 244)%nat).
Proof.
  intros Hs. unfold conn_rx_data. destruct (b_conn s) as [c|] eqn:Ec; [|cbn; lia].
  pose proof (wb_conn s Hs c Ec) as [Hc _]. pose proof (wf_rx_data c Hc).
  pose proof (wf_rx_data_len c Hc). rewrite slice_to_Ret by lia. cbn. len.
Qed.

End conn_ops.
