(* ===== verification/Advertiser.v ===== *)
(** Advertising ([src/hw/ble.rs], [adv_tick]): one advertising event on one
    primary channel, the packets it sends, what it listens for, and how a
    connection request makes a connection. *)

From stdpp Require Import base numbers list.
From S2P Require Import Prelude Errors Channels Timers Addr Ad Pdu Events EventQueue.
From S2P Require Import BondStore Crypto Smp Ccm Gatt Conn Att CocChannel SmpChannel L2cap.
From S2P Require Import Radio LinkLayer Ble.

(** ** The source's definitions *)

(** The loop over the channel map. *)
Fixpoint pick_adv_channel (n : nat) (map : Z) (ch_idx : nat) (channel : Z)
    : outcome (nat * Z) :=
  match n with
  | O => Ret (ch_idx, channel)
  | S n =>
      if negb (map .& (1 .<< Z.of_nat ch_idx) =? 0) then Ret (ch_idx, channel)
      else
        let ch_idx := ((ch_idx + 1) mod 3)%nat in
        let! channel := idx ADV_CHANNELS ch_idx in
        pick_adv_channel n map ch_idx channel
  end.

(** Encode into the transmit buffer, and note the length. *)
Definition encode_tx (self : Ble) (p : AdvPdu) (tx_add rx_add : bool)
    : outcome (Ble * nat) :=
  let! (b, len) := unwrap (encode_typed p (b_tx_buf self) tx_add rx_add) in
  Ret (set_b_tx_buf b self, len).

Definition build_adv_pdu (self : Ble) : outcome Ble :=
  let tx_add := is_random (b_own_addr_type self) in
  let! pdu :=
    match adp_adv_type (b_adv_params self) with
    | ConnectableDirected =>
        match adp_peer_addr (b_adv_params self) with
        | Some peer => Ret (AdvDirectInd (b_own_addr self) peer)
        | None => Panic
        end
    | ConnectableUndirected =>
        let! d := slice_to (b_adv_data self) (b_adv_data_len self) in
        Ret (AdvInd (b_own_addr self) d)
    | ScannableUndirected =>
        let! d := slice_to (b_adv_data self) (b_adv_data_len self) in
        Ret (AdvScanInd (b_own_addr self) d)
    | NonConnectableUndirected =>
        let! d := slice_to (b_adv_data self) (b_adv_data_len self) in
        Ret (AdvNonconnInd (b_own_addr self) d)
    end in
  let! (self, len) := encode_tx self pdu tx_add false in
  Ret (set_b_tx_pdu_len len self).

Definition build_ext_adv_pdu (self : Ble) : outcome Ble :=
  let aux := mkAuxPtr 0 5 0 in
  let mode := match adp_adv_type (b_adv_params self) with
    | ConnectableUndirected => 1
    | ScannableUndirected => 2
    | _ => 0
    end in
  let tx_add := is_random (b_own_addr_type self) in
  let! (self, len) := encode_tx self (AdvExtInd (b_own_addr self) mode (0, 0) aux) tx_add false in
  Ret (set_b_tx_pdu_len len self).

Section advertiser.
Context `{Henv : Env}.

(** [while self.timer.now() < deadline {}] *)
Fixpoint wait_until (fuel : nat) (w : World) (deadline : Z) : run World :=
  match fuel with
  | O => OutOfFuel
  | S fuel =>
      let '(w, t) := now w in
      if t <? deadline then wait_until fuel w deadline else Done w
  end.

(** The end of both auxiliary transmissions: wait, send on channel 0, and tune
    back. *)
Definition transmit_on_0 (fuel : nat) (self : Ble) (w : World) (len : nat) : run World :=
  let '(w, t) := now w in
  let deadline := wrapping_add32 t (timeout_ticks 200) in
  let w := set_compare deadline w in
  let* w := wait_until fuel w deadline in
  let w := clear_compare w in
  let w := fst (set_channel 0 w) in
  do* p := slice_to (b_tx_buf self) len in
  let w := transmit p w in
  do* ch := idx ADV_CHANNELS 0 in
  Done (fst (set_channel ch w)).

(** The PDU [transmit_aux_adv] sends. *)
Definition aux_adv_pdu (self : Ble) : outcome AdvPdu :=
  let data := replicate 36 0 in
  let n := Nat.min (b_adv_data_len self) 36 in
  let! d := slice_to (b_adv_data self) n in
  let! data := copy_at data 0 n d in
  let! d := slice_to data n in
  if adp_periodic (b_adv_params self) then
    let info := mkPeriodicAdvInfo (0, 0) (adp_periodic_interval (b_adv_params self))
                  (if is_random (b_own_addr_type self) then 1 else 0) in
    let ehs := replicate 40 0 in
    let! ehs := set_idx ehs 0 0 in
    let! ehs := set_idx ehs 1 EXT_AD_PERIODIC in
    let! ehs := copy_at ehs 2 7 (PeriodicAdvInfo_encode info) in
    let! e := slice_to ehs 7 in
    Ret (AuxAdvExtIndWithEh (b_own_addr self) (0, 0) e d)
  else Ret (AuxAdvExtInd (b_own_addr self) (0, 0) 0x00 d).

Definition transmit_aux_adv (fuel : nat) (self : Ble) (w : World) : run (Ble * World) :=
  let tx_add := is_random (b_own_addr_type self) in
  do* pdu := aux_adv_pdu self in
  do* (self, len) := encode_tx self pdu tx_add false in
  let* w := transmit_on_0 fuel self w len in
  Done (self, w).

Definition transmit_periodic_adv (fuel : nat) (self : Ble) (w : World)
    : run (Ble * World) :=
  let tx_add := is_random (b_own_addr_type self) in
  do* (self, len) := encode_tx self (PeriodicAdv 0 (0, 0)) tx_add false in
  let* w := transmit_on_0 fuel self w len in
  Done (self, w).

(** The loop of [radio_window]. *)
Fixpoint window_loop (fuel : nat) (self : Ble) (w : World) (accept_mask deadline : Z)
    : run (Ble * World * bool) :=
  match fuel with
  | O => OutOfFuel
  | S fuel =>
      let* (w, buf, r) := receive_poll (b_rx_buf self) w in
      let self := set_b_rx_buf buf self in
      match r with
      | Ok (Some len) =>
          let self := set_b_rx_pdu_len len self in
          if (2 <=? b_rx_pdu_len self)%nat then
            do* b0 := idx (b_rx_buf self) 0 in
            let pdu_type := b0 .& 0x0F in
            Done (self, w, negb (accept_mask .& (1 .<< pdu_type) =? 0))
          else Done (self, w, false)
      | Ok None =>
          let '(w, t) := now w in
          if deadline <=? t then Done (self, receive_cancel w, false)
          else window_loop fuel self w accept_mask deadline
      | Err _ => Done (self, w, false)
      end
  end.

Definition radio_window (fuel : nat) (self : Ble) (w : World) (accept_mask micros : Z)
    : run (Ble * World * bool) :=
  let '(w, t) := now w in
  let deadline := wrapping_add32 t (timeout_ticks micros) in
  let w := receive_start (b_rx_buf self) w in
  window_loop fuel self w accept_mask deadline.

(** A scan response with the given address. *)
Definition send_scan_rsp (self : Ble) (w : World) (addr : list Z)
    : outcome (Ble * World) :=
  let tx_add := is_random (b_own_addr_type self) in
  let! d := slice_to (b_scan_rsp self) (b_scan_rsp_len self) in
  let! (self, len) := encode_tx self (ScanRsp addr d) tx_add false in
  let! p := slice_to (b_tx_buf self) len in
  Ret (self, transmit p w).

Definition listen_for_scan_req (fuel : nat) (self : Ble) (w : World)
    : run (Ble * World) :=
  let* (self, w, ok) := radio_window fuel self w (1 .<< PDU_SCAN_REQ) SCAN_REQ_WINDOW_MICROS in
  if ok && (0 <? b_scan_rsp_len self)%nat
  then lift (send_scan_rsp self w (b_own_addr self))
  else Done (self, w).

(** A connection request makes a connection. *)
Definition accept_connect (self : Ble) (w : World) (channel : Z) (init_addr ll_data : list Z)
    : outcome (Ble * World) :=
  let! r := ConnectReqData_decode ll_data in
  match r with
  | Ok params =>
      let '(w, t) := now w in
      let self := set_b_conn (Some (Conn_new params channel t Slave)) self in
      let self := set_b_adv_state AdvIdle self in
      let! self := push_event self (Connected params) in
      let! self := push_event self (ConnectReqReceived init_addr params) in
      Ret (self, w)
  | Err _ => Ret (self, w)
  end.

(** What a packet the advertiser received makes it do. *)
Definition handle_adv_rx (self : Ble) (w : World) (channel : Z)
    : outcome (Ble * World) :=
  let! bs := slice_to (b_rx_buf self) (b_rx_pdu_len self) in
  let! r := AdvPdu_decode bs in
  match r with
  | Ok (ScanReq _ adv_addr) =>
      if (0 <? b_scan_rsp_len self)%nat then send_scan_rsp self w adv_addr
      else Ret (self, w)
  | Ok (ConnectReq init_addr _ ll_data) => accept_connect self w channel init_addr ll_data
  | _ => Ret (self, w)
  end.

Definition listen_for_scan_and_connect (fuel : nat) (self : Ble) (w : World) (channel : Z)
    : run (Ble * World) :=
  let accept := (1 .<< PDU_SCAN_REQ) .| (1 .<< PDU_CONNECT_REQ) in
  let* (self, w, ok) := radio_window fuel self w accept CONNECT_REQ_WINDOW_MICROS in
  if negb ok then Done (self, w) else lift (handle_adv_rx self w channel).

(** What follows the first packet of an event. *)
Definition after_adv (fuel : nat) (self : Ble) (w : World) (channel : Z)
    : run (Ble * World) :=
  if adp_extended (b_adv_params self) then
    let* (self, w) := transmit_aux_adv fuel self w in
    if adp_periodic (b_adv_params self) then transmit_periodic_adv fuel self w
    else Done (self, w)
  else
    match adp_adv_type (b_adv_params self) with
    | ConnectableUndirected | ConnectableDirected =>
        listen_for_scan_and_connect fuel self w channel
    | ScannableUndirected => listen_for_scan_req fuel self w
    | NonConnectableUndirected => Done (self, w)
    end.

Definition adv_tick (fuel : nat) (self : Ble) (w : World) : run (Ble * World) :=
  match b_adv_state self with
  | AdvIdle => Done (self, w)
  | AdvStopPending =>
      let w := clear_compare w in
      let self := set_b_adv_state AdvIdle self in
      do* self := push_event self AdvStopped in
      Done (self, w)
  | AdvRunning =>
      let w := clear_compare w in
      let ch_idx := b_adv_channel_idx self in
      do* channel := idx ADV_CHANNELS ch_idx in
      do* (ch_idx, channel) :=
        pick_adv_channel 3 (adp_channel_map (b_adv_params self)) ch_idx channel in
      let self := set_b_adv_channel_idx ((ch_idx + 1) mod 3)%nat self in
      let w := fst (set_channel channel w) in
      do* self :=
        if adp_extended (b_adv_params self) then build_ext_adv_pdu self
        else build_adv_pdu self in
      do* p := slice_to (b_tx_buf self) (b_tx_pdu_len self) in
      let w := transmit p w in
      let* (self, w) := after_adv fuel self w channel in
      do* (accum, ticks) :=
        IntervalAccum_next (b_adv_accum self) (adp_interval_min (b_adv_params self)) in
      let self := set_b_adv_accum accum self in
      Done (self, arm w ticks)
  end.

(** ** The blocking loop *)

(** The callback may use the stack and the hardware, and has a state of its
    own. *)
Section forever.
Context {S : Type} (on_event : Ble -> World -> S -> BleEvent -> run (Ble * World * S)).

Fixpoint drain_events (fuel : nat) (self : Ble) (w : World) (s : S) : run (Ble * World * S) :=
  match fuel with
  | O => OutOfFuel
  | Datatypes.S fuel =>
      do* (self, evt) := next_event self in
      match evt with
      | Some evt =>
          let* (self, w, s) := on_event self w s evt in
          drain_events fuel self w s
      | None => Done (self, w, s)
      end
  end.

Fixpoint adv_forever (fuel : nat) (self : Ble) (w : World) (s : S) : run (Ble * World * S) :=
  match fuel with
  | O => OutOfFuel
  | Datatypes.S fuel' =>
      let* w := wait_compare fuel' w in
      let* (self, w) := adv_tick fuel' self w in
      let* (self, w, s) := drain_events fuel' self w s in
      if bool_decide (b_adv_state self = AdvIdle) then Done (self, w, s)
      else adv_forever fuel' self w s
  end.

End forever.
End advertiser.
