(* ===== verification/AdvInv.v ===== *)
(** Advertising, proved: an advertising event never panics and keeps the stack's
    invariant, what it puts on the air first, and on which channel. *)

From stdpp Require Import base numbers list.
From S2P Require Import Prelude Errors Channels Timers Addr Ad Pdu Events EventQueue Hci.
From S2P Require Import BondStore Crypto Smp Ccm Gatt Conn Att CocChannel SmpChannel L2cap.
From S2P Require Import Frame Radio LinkLayer LinkInv LinkEvents Ble BleInv Advertiser.

(** ** Packets *)

(** The bytes of an advertising packet. *)
Definition packet (p : AdvPdu) (tx rx : bool) : list Z :=
  AdvHdr_encode (header_of p tx rx) ++ payload_of p.

Lemma packet_length p tx rx : length (packet p tx rx) = (2 + length (payload_of p))%nat.
Proof. unfold packet. rewrite length_app, AdvHdr_encode_length. done. Qed.

(** The length the receiver takes from the header is the packet's. *)
Lemma packet_header p tx rx : (length (payload_of p) <= 63)%nat ->
  exists b0 b1, packet p tx rx = b0 :: b1 :: payload_of p /\
    AdvHdr_decode b0 b1 = Ok (header_of p tx rx) /\
    Z.to_nat ((b1 .>> 1) .& 0x3F) = length (payload_of p) /\
    b0 .& 0x0F = pdu_type p.
Proof.
  intros Hl. destruct (AdvHdr_roundtrip (header_of p tx rx)) as (b0 & b1 & E & D).
  { apply pdu_type_range. }
  { cbn. lia. }
  exists b0, b1. unfold packet. rewrite E. split; [done|]. split; [done|].
  unfold AdvHdr_decode in D. destruct (7 <? _); [done|].
  injection D as D1 _ _ _ D2. rewrite D2. split; [lia|done].
Qed.

Lemma packet_decodes p tx rx : wf_pdu p -> (length (payload_of p) <= 63)%nat ->
  AdvPdu_decode (packet p tx rx) = Ret (Ok (reads_as p)).
Proof.
  intros Hp Hl. destruct (packet_header p tx rx Hl) as (b0 & b1 & E & D & _).
  rewrite E, AdvPdu_decode_header, D. cbn [header_of ah_len ah_pdu_type].
  rewrite Z.eqb_refl. by apply decode_payload_of.
Qed.

Section heard.
Context `{Henv : Env}.

(** Whatever the hardware writes fits the stack's receive buffer: its 257 bytes are
    as many as a packet can have. *)
Lemma dma_fits (buf : list Z) i : length buf = 257%nat -> (length (env_dma i) <= length buf)%nat.
Proof. intros ->. apply env_dma_max. Qed.

(** What the radio sends of a packet begins with it, for its length byte, which is
    the length shifted past the address type, says at least as many bytes. *)
Lemma aired_packet p tx rx beyond : (length (payload_of p) <= 63)%nat ->
  aired (packet p tx rx) beyond = packet p tx rx ++
    take (length (payload_of p) + Nat.b2n (sent_rx p rx)) beyond.
Proof.
  intros Hl. pose proof (packet_length p tx rx) as Hn.
  assert (E : Z.to_nat (nth 1 (packet p tx rx) 0) =
    (2 * length (payload_of p) + Nat.b2n (sent_rx p rx))%nat).
  { unfold packet, AdvHdr_encode, header_of. cbn [nth app ah_rx_add ah_len].
    change 0x3F with (Z.ones 6). rewrite Z.land_ones, Z.mod_small by lia.
    rewrite u8_id by (rewrite Z.shiftl_mul_pow2 by lia; ranges; lia).
    rewrite lor_shiftl_add by (destruct (sent_rx p rx); cbn; lia).
    destruct (sent_rx p rx); cbn; lia. }
  unfold aired. rewrite E, take_app, Hn, take_ge by lia. do 2 f_equal. lia.
Qed.

(** A packet that ends well is received as it was sent, with what followed it on
    the air after it. *)
Lemma receive_packet buf w p tx rx beyond : env_end (w_polls w) = Some true ->
  env_dma (w_polls w) = packet p tx rx ++ beyond -> (length (payload_of p) <= 63)%nat ->
  length buf = 257%nat -> w_rx_room w = 257%nat ->
  exists buf', receive_poll buf w = Done (set_w_polls (S (w_polls w)) w, buf',
    Ok (Some (length (packet p tx rx)))) /\
    take (length (packet p tx rx)) buf' = packet p tx rx /\ length buf' = 257%nat.
Proof.
  intros He Hd Hl Hb Hr. pose proof (dma_fits buf (w_polls w) Hb) as Hf.
  rewrite receive_poll_Done, He by (lia || congruence).
  destruct (packet_header p tx rx Hl) as (b0 & b1 & E & _ & Hn & _).
  eexists. split; [|split].
  - do 4 f_equal. rewrite Hd, E. unfold dma. cbn [nth app]. rewrite Hn.
    by rewrite <- E, packet_length.
  - rewrite Hd. unfold dma. rewrite <- app_assoc. apply take_app_length.
  - by rewrite dma_length.
Qed.

End heard.

(** ** Channels *)

(** The channel an event uses, as an index: the first in the map, from the
    next one on. *)
Definition adv_slot (map : Z) (i : nat) : nat :=
  let at_ k := ((i + k) mod 3)%nat in
  if Z.testbit map (Z.of_nat (at_ 0%nat)) then at_ 0%nat
  else if Z.testbit map (Z.of_nat (at_ 1%nat)) then at_ 1%nat
  else at_ 2%nat.

Lemma low_bits m : m .& 7 <> 0 ->
  Z.testbit m 0 = true \/ Z.testbit m 1 = true \/ Z.testbit m 2 = true.
Proof.
  intros H. destruct (Z.testbit m 0) eqn:E0; [by left|].
  destruct (Z.testbit m 1) eqn:E1; [by right; left|].
  destruct (Z.testbit m 2) eqn:E2; [by right; right|]. destruct H.
  apply Z.bits_inj'. intros j Hj. rewrite Z.land_spec, Z.bits_0.
  destruct (decide (j < 3)).
  - assert (j = 0 \/ j = 1 \/ j = 2) as [->|[->| ->]] by lia; [by rewrite E0|by rewrite E1|by rewrite E2].
  - change 7 with (Z.ones 3). rewrite Z.ones_spec_high by lia. apply andb_false_r.
Qed.

(** The loop over the map finds it; a map without channels changes nothing. *)
Lemma pick_adv_channel_Ret m i ch : (i < 3)%nat -> idx ADV_CHANNELS i = Ret ch ->
  exists j, pick_adv_channel 3 m i ch = Ret (j, 37 + Z.of_nat j) /\ (j < 3)%nat /\
    (m .& 7 <> 0 -> j = adv_slot m i /\ Z.testbit m (Z.of_nat j) = true).
Proof.
  intros Hi Hc. cbn [pick_adv_channel]. rewrite !land_bit, !negb_involutive by lia.
  destruct i as [|[|[|i]]]; [..|lia]; injection Hc as <-;
    unfold adv_slot; cbn -[Z.testbit Z.land Z.of_nat];
    change (Z.of_nat 0) with 0; change (Z.of_nat 1) with 1; change (Z.of_nat 2) with 2;
    pose proof (low_bits m) as Hb;
    destruct (Z.testbit m 0) eqn:E0, (Z.testbit m 1) eqn:E1, (Z.testbit m 2) eqn:E2;
    cbn -[Z.testbit Z.land];
    (lazymatch goal with |- exists _, Ret (?k, _) = _ /\ _ => exists k end;
      split; [reflexivity|]; split; [lia|]; intros H;
      first [split; [reflexivity|first [exact E0|exact E1|exact E2]]
            |exfalso; destruct (Hb H) as [?|[?|?]]; done]).
Qed.

(** ** The packets of an event *)

(** The first packet. *)
Definition adv_pdu (s : Ble) : AdvPdu :=
  let p := b_adv_params s in
  let d := take (b_adv_data_len s) (b_adv_data s) in
  if adp_extended p then
    AdvExtInd (b_own_addr s)
      (match adp_adv_type p with
       | ConnectableUndirected => 1 | ScannableUndirected => 2 | _ => 0
       end) (0, 0) (mkAuxPtr 0 5 0)
  else
    match adp_adv_type p with
    | ConnectableDirected => AdvDirectInd (b_own_addr s) (default [] (adp_peer_addr p))
    | ConnectableUndirected => AdvInd (b_own_addr s) d
    | ScannableUndirected => AdvScanInd (b_own_addr s) d
    | NonConnectableUndirected => AdvNonconnInd (b_own_addr s) d
    end.

(** The bytes of it. *)
Definition adv_packet (s : Ble) : list Z :=
  packet (adv_pdu s) (is_random (b_own_addr_type s)) false.

Lemma adv_pdu_wf s : wf_ble s -> wf_pdu (adv_pdu s) /\ (length (payload_of (adv_pdu s)) <= 37)%nat /\
  reads_as (adv_pdu s) = adv_pdu s.
Proof.
  intros Hs. pose proof (wb_own_addr s Hs) as Ha. destruct (wb_adv_data s Hs) as [_ Hd].
  destruct (wb_adv s Hs) as [[_ Hp] Hdir]. unfold adv_pdu. cbv zeta.
  destruct (adp_extended _).
  { split; [|split; [|done]]; cbn [payload_of]; unfold is_addr in *.
    - split; [done|]. unfold wf_aux_ptr. cbn. lia.
    - cbn. len. }
  unfold is_addr in *.
  destruct (adp_adv_type _) eqn:Et; cbn [wf_pdu payload_of reads_as]; unfold is_addr.
  2: { destruct (adp_peer_addr _) as [a|]; [|by destruct (Hdir eq_refl)].
       cbn [from_option id]. pose proof (Hp a eq_refl). split; [done|]. split; [len|done]. }
  all: split; [done|]; split; [len|done].
Qed.

(** Encoding into the transmit buffer. *)
Lemma encode_tx_Ret s p tx rx : wf_ble s -> encodable p -> (length (payload_of p) <= 63)%nat ->
  exists b, encode_tx s p tx rx = Ret (set_b_tx_buf b s, length (packet p tx rx)) /\
    take (length (packet p tx rx)) b = packet p tx rx /\
    (length (packet p tx rx) <= 65)%nat /\ length b = 257%nat.
Proof.
  intros Hs Hp Hl. destruct (wb_tx s Hs) as [Ht _]. unfold encode_tx.
  rewrite encode_typed_spec, Ht by done. change (257 <? 2)%nat with false.
  rewrite (proj2 (Nat.ltb_ge _ _)) by lia. cbv iota.
  destruct (Nat.ltb_spec 257 (2 + length (payload_of p))); [lia|].
  cbn [unwrap obind]. rewrite <- (packet_length p tx rx).
  pose proof (packet_length p tx rx) as L. unfold packet in *. rewrite app_assoc.
  eexists. split; [reflexivity|]. rewrite take_app_length. split; [done|]. split; [lia|]. len.
Qed.

(** The transmit buffer may hold anything of its length. *)
Lemma set_tx_wf s b n : wf_ble s -> length b = 257%nat -> (n <= 257)%nat ->
  wf_ble (set_b_tx_pdu_len n (set_b_tx_buf b s)).
Proof. intros Hs Hb Hn. wf_ble_by idtac. by split. Qed.

Lemma set_tx_buf_wf s b : wf_ble s -> length b = 257%nat -> wf_ble (set_b_tx_buf b s).
Proof. intros Hs Hb. pose proof (wb_tx s Hs) as [_ Hn]. wf_ble_by idtac. by split. Qed.

(** The first packet is built, and the length noted. *)
Lemma build_first s : wf_ble s -> exists b,
  (if adp_extended (b_adv_params s) then build_ext_adv_pdu s else build_adv_pdu s) =
    Ret (set_b_tx_pdu_len (length (adv_packet s)) (set_b_tx_buf b s)) /\
  take (length (adv_packet s)) b = adv_packet s /\ length b = 257%nat /\
  (length (adv_packet s) <= 65)%nat.
Proof.
  intros Hs. destruct (adv_pdu_wf s Hs) as (Hw & Hl & _).
  destruct (encode_tx_Ret s (adv_pdu s) (is_random (b_own_addr_type s)) false Hs)
    as (b & E & Et & Hn & Hb); [by apply wf_encodable|lia|].
  exists b. split; [|done]. unfold adv_packet. revert E.
  generalize (length (packet (adv_pdu s) (is_random (b_own_addr_type s)) false)).
  intros n E. destruct (wb_adv_data s Hs) as [Hd Hdl]. destruct (wb_adv s Hs) as [_ Hdir].
  unfold build_ext_adv_pdu, build_adv_pdu. cbv zeta. revert E. unfold adv_pdu.
  destruct (adp_extended _).
  { destruct (adp_adv_type _); intros ->; reflexivity. }
  destruct (adp_adv_type _).
  2: { destruct (adp_peer_addr _) as [a|]; [|by destruct (Hdir eq_refl)].
       intros E. cbn [from_option id obind] in *. by rewrite E. }
  all: intros E; rewrite slice_to_Ret, !obind_Ret by lia; cbv zeta in E; by rewrite E.
Qed.

(** ** Later packets and listening *)

Section listen.
Context `{Hcrypto : Crypto, Hccm : CcmHw, Henv : Env}.

(** The buffer after a poll. *)
Lemma polled_rx_wf s w : wf_ble s ->
  wf_ble (set_b_rx_buf (dma (env_dma (w_polls w)) (b_rx_buf s)) s).
Proof.
  intros Hs. destruct (wb_rx s Hs) as (Hl & Hb & Hn). wf_ble_by idtac.
  cbn [b_rx_buf set_b_rx_buf b_rx_pdu_len].
  rewrite dma_length by (by apply dma_fits). split; [done|].
  split; [|done]. apply dma_bytes; [apply env_dma_bytes|done].
Qed.

Lemma set_rx_len_wf s n : wf_ble s -> (n <= 257)%nat -> wf_ble (set_b_rx_pdu_len n s).
Proof. intros Hs Hn. destruct (wb_rx s Hs) as (? & ? & _). wf_ble_by idtac. by split. Qed.

(** A poll of the receiver keeps the invariant; a packet is at most 65 bytes. *)
Lemma poll_runs s w : wf_ble s -> w_rx_room w = 257%nat ->
  runs (receive_poll (b_rx_buf s) w) (fun '(w', buf, r) =>
    wf_ble (set_b_rx_buf buf s) /\ (on_air w w' /\ w_rx_room w' = 257%nat) /\
    forall n, r = Ok (Some n) -> (2 <= n <= 65)%nat).
Proof.
  intros Hs Hr. destruct (wb_rx s Hs) as (Hl & _).
  rewrite receive_poll_Done by (lia || (by apply dma_fits) || congruence).
  split; [by apply polled_rx_wf|].
  split; [split; [apply on_air_polls, on_air_refl|exact Hr]|].
  destruct (env_end _) as [[]|]; [|done..]. intros n [= <-].
  assert (0 <= (nth 1 (dma (env_dma (w_polls w)) (b_rx_buf s)) 0%Z .>> 1) .& 0x3F < 64); [|lia].
  change 0x3F with (Z.ones 6). rewrite Z.land_ones by lia. by apply Z.mod_pos_bound.
Qed.

Definition ok_world (w : World) (r : Ble * World) : Prop :=
  wf_ble (fst r) /\ on_air w (snd r).

Lemma window_loop_runs fuel s w mask deadline : wf_ble s -> w_rx_room w = 257%nat ->
  runs (window_loop fuel s w mask deadline) (fun '(s', w', ok) =>
    wf_ble s' /\ on_air w w').
Proof.
  revert s w. induction fuel as [|fuel IH]; intros s w Hs Hm; [done|]. cbn [window_loop].
  eapply runs_bind; [by apply poll_runs|]. intros [[w' buf] r] (H1 & [H2 H5] & H3). cbv zeta.
  destruct r as [[n|]|e]; [| |done].
  - specialize (H3 n eq_refl).
    assert (H4 : wf_ble (set_b_rx_pdu_len n (set_b_rx_buf buf s)))
      by (apply set_rx_len_wf; [done|lia]).
    destruct (_ <=? _)%nat; [|done]. destruct (wb_rx _ H4) as (Hl & _).
    destruct (idx_lt (b_rx_buf (set_b_rx_pdu_len n (set_b_rx_buf buf s))) 0) as [x ->];
      [lia|]. done.
  - cbn [now]. destruct (_ <=? _); [done|].
    eapply runs_mono; [by apply IH|]. intros [[s2 w2] ok] [H4 H6]. split; [done|].
    exact (on_air_trans _ _ _ (on_air_reads _ _ _ H2) H6).
Qed.

Lemma radio_window_runs fuel s w mask micros : wf_ble s ->
  runs (radio_window fuel s w mask micros) (fun '(s', w', ok) => wf_ble s' /\ on_air w w').
Proof.
  intros Hs. unfold radio_window. cbn [now].
  eapply runs_mono; [apply window_loop_runs; [done|exact (proj1 (wb_rx s Hs))]|].
  intros [[s' w'] ok] [H1 H2]. split; [done|].
  exact (on_air_trans _ _ _ (on_air_start _ _ _ (on_air_reads _ _ _ (on_air_refl w))) H2).
Qed.

Lemma send_scan_rsp_gives s w a : wf_ble s -> is_addr a ->
  gives (send_scan_rsp s w a) (ok_world w).
Proof.
  intros Hs Ha. unfold send_scan_rsp. cbv zeta. destruct (wb_scan_rsp s Hs) as [Hl Hn].
  rewrite slice_to_Ret, obind_Ret by lia.
  set (p := ScanRsp a (take (b_scan_rsp_len s) (b_scan_rsp s))).
  destruct (encode_tx_Ret s p (is_random (b_own_addr_type s)) false Hs)
    as (b & E & Et & Hn' & Hb); [done|unfold p, is_addr in *; cbn [payload_of]; len|].
  rewrite E, obind_Ret. cbn [b_tx_buf set_b_tx_buf]. rewrite slice_to_Ret, obind_Ret by lia.
  split; [by apply set_tx_buf_wf|]. apply on_air_transmit, on_air_refl.
Qed.

Lemma listen_for_scan_req_runs fuel s w : wf_ble s ->
  runs (listen_for_scan_req fuel s w) (ok_world w).
Proof.
  intros Hs. unfold listen_for_scan_req. eapply runs_bind; [by apply radio_window_runs|].
  intros [[s1 w1] ok] [H1 H2]. destruct (_ && _); [|done].
  apply runs_of. eapply gives_mono; [apply send_scan_rsp_gives, wb_own_addr; done|].
  intros r [H3 H4]. split; [done|]. exact (on_air_trans _ _ _ H2 H4).
Qed.

End listen.

(** ** Extended advertising *)

(** More was sent. *)
Definition sent_more (w w' : World) : Prop := exists l, w_sent w' = w_sent w ++ l.

Lemma sent_more_refl w : sent_more w w.
Proof. exists []. by rewrite app_nil_r. Qed.

Lemma sent_more_trans w1 w2 w3 : sent_more w1 w2 -> sent_more w2 w3 -> sent_more w1 w3.
Proof. intros [l1 E1] [l2 E2]. exists (l1 ++ l2). by rewrite E2, E1, app_assoc. Qed.

Lemma on_air_more w w' : on_air w w' -> sent_more w w'.
Proof. intros [_ [ps E]]. by eexists. Qed.

Lemma sent_set_channel ch w : w_sent (fst (Radio.set_channel ch w)) = w_sent w.
Proof. unfold Radio.set_channel. by destruct (channel_frequency ch). Qed.

Section ext.
Context `{Hcrypto : Crypto, Hccm : CcmHw, Henv : Env}.

Lemma wait_until_more fuel w deadline :
  runs (wait_until fuel w deadline) (sent_more w).
Proof.
  revert w. induction fuel as [|fuel IH]; intros w; [done|]. cbn [wait_until now].
  destruct (_ <? _); [|exact (sent_more_refl w)].
  eapply runs_mono; [apply IH|]. by intros w' H.
Qed.

Lemma transmit_on_0_runs fuel s w n : wf_ble s -> (n <= 257)%nat ->
  runs (transmit_on_0 fuel s w n) (sent_more w).
Proof.
  intros Hs Hn. destruct (wb_tx s Hs) as [Ht _]. unfold transmit_on_0. cbn [now].
  eapply runs_bind; [apply wait_until_more|]. intros w1 [l E1]. cbv zeta.
  rewrite slice_to_Ret, lift_Ret, rbind_Done by lia.
  change (idx ADV_CHANNELS 0) with (@Ret Z 37). rewrite lift_Ret, rbind_Done. cbn [runs].
  exists (l ++ [(w_regs (fst (Radio.set_channel 0 (clear_compare w1))), take n (b_tx_buf s))]).
  rewrite sent_set_channel. unfold transmit. cbn [w_sent set_w_sent].
  rewrite sent_set_channel. change (w_sent (clear_compare w1)) with (w_sent w1). by rewrite E1, <- app_assoc.
Qed.

Lemma aux_adv_pdu_gives s : wf_ble s ->
  gives (aux_adv_pdu s) (fun p => encodable p /\ (length (payload_of p) <= 63)%nat).
Proof.
  intros Hs. destruct (wb_adv_data s Hs) as [Hd Hn]. pose proof (wb_own_addr s Hs) as Ha.
  unfold aux_adv_pdu. cbv zeta. rewrite Nat.min_l by lia.
  rewrite slice_to_Ret, obind_Ret, copy_at_first, obind_Ret by len.
  rewrite slice_to_Ret, obind_Ret by len.
  assert (Hl : length (take (b_adv_data_len s) (take (b_adv_data_len s) (b_adv_data s) ++
    drop (b_adv_data_len s) (replicate 36 0))) = b_adv_data_len s) by len.
  generalize dependent (take (b_adv_data_len s) (take (b_adv_data_len s) (b_adv_data s) ++
    drop (b_adv_data_len s) (replicate 36 0))). intros d Hl.
  destruct (adp_periodic _).
  - unfold PeriodicAdvInfo_encode. writes.
    rewrite slice_to_Ret, obind_Ret by len. cbn [gives encodable payload_of].
    unfold is_addr, adi_bytes in *. split.
    + split; [done|]. by do 2 eexists.
    + len.
  - cbn [gives encodable wf_pdu payload_of adi_bytes]. unfold is_addr in *. split; [done|len].
Qed.

Definition fine (w : World) (r : Ble * World) : Prop :=
  wf_ble (fst r) /\ sent_more w (snd r).

Lemma transmit_aux_adv_runs fuel s w : wf_ble s ->
  runs (transmit_aux_adv fuel s w) (fine w).
Proof.
  intros Hs. unfold transmit_aux_adv. cbv zeta.
  eapply runs_lift; [by apply aux_adv_pdu_gives|]. intros p [Hp Hl].
  destruct (encode_tx_Ret s p (is_random (b_own_addr_type s)) false Hs Hp Hl)
    as (b & -> & _ & Hn & Hb). rewrite lift_Ret, rbind_Done.
  assert (H1 : wf_ble (set_b_tx_buf b s)) by (by apply set_tx_buf_wf).
  eapply runs_bind; [apply transmit_on_0_runs; [done|lia]|]. intros w1 Hw. by split.
Qed.

Lemma transmit_periodic_adv_runs fuel s w : wf_ble s ->
  runs (transmit_periodic_adv fuel s w) (fine w).
Proof.
  intros Hs. unfold transmit_periodic_adv. cbv zeta.
  destruct (encode_tx_Ret s (PeriodicAdv 0 (0, 0)) (is_random (b_own_addr_type s)) false Hs)
    as (b & -> & _ & Hn & Hb); [done|cbn; lia|]. rewrite lift_Ret, rbind_Done.
  assert (H1 : wf_ble (set_b_tx_buf b s)) by (by apply set_tx_buf_wf).
  eapply runs_bind; [apply transmit_on_0_runs; [done|lia]|]. intros w1 Hw. by split.
Qed.

(** ** Connection requests *)

(** What the decoder makes of received bytes. *)
Lemma decoded_packet bs : bytes bs -> exists r, AdvPdu_decode bs = Ret r /\
  match r with Ok p => wf_pdu p /\ (is_legacy p = true -> bytes (payload_of p)) | Err _ => True end.
Proof.
  intros Hb. destruct bs as [|b0 [|b1 payload]]; [by eexists..|].
  rewrite AdvPdu_decode_header. destruct (AdvHdr_decode b0 b1) as [h|e]; [|by eexists].
  destruct (_ =? _); [|by eexists].
  assert (Hp : bytes payload) by (apply (bytes_drop 2) in Hb; exact Hb).
  destruct (decode_payload_total (ah_pdu_type h) payload Hp) as (r & -> & Hr).
  exists r. split; [done|]. destruct r as [p|e]; [|done].
  destruct Hr as (Hw & _ & Hl). split; [done|]. intros H. by rewrite (Hl H).
Qed.

(** Twenty-two bytes are well-formed parameters. *)
Lemma connect_data_decodes ll : length ll = 22%nat -> bytes ll ->
  exists d, ConnectReqData_decode ll = Ret (Ok d) /\ wf_connect d.
Proof.
  intros Hl Hb. pose proof (connect_data_total ll Hb) as H. rewrite Hl in H.
  destruct H as (d & E & Hd & _). eauto.
Qed.

(** The slave's connection: its first channel is the one the request came on,
    and its parameters are the request's; who it was meant for is not looked
    at. *)
Lemma accept_connect_Ret s w ch a ll d : wf_ble s -> 0 <= ch <= 39 ->
  ConnectReqData_decode ll = Ret (Ok d) -> wf_connect d ->
  exists r, accept_connect s w ch a ll =
    Ret (set_b_events r (set_b_adv_state AdvIdle
      (set_b_conn (Some (Conn_new d ch (env_now (w_reads w)) Slave)) s)), fst (now w)) /\
    wf_ble (set_b_events r (set_b_adv_state AdvIdle
      (set_b_conn (Some (Conn_new d ch (env_now (w_reads w)) Slave)) s))).
Proof.
  intros Hs Hch E Hd. unfold accept_connect. rewrite E, obind_Ret. cbn [now fst].
  set (s1 := set_b_adv_state _ _). assert (H1 : wf_ble s1).
  { assert (Hc : wf_link (Conn_new d ch (env_now (w_reads w)) Slave)).
    { by apply Conn_new_link, env_now_range. }
    unfold s1. pose proof (set_b_conn_wf s _ Hs Hc). by wf_ble_by idtac. }
  destruct (push_event_Ret s1 (Connected d) H1 I) as (r1 & -> & _ & H2). rewrite obind_Ret.
  destruct (push_event_Ret _ (ConnectReqReceived a d) H2 I) as (r2 & E2 & _ & H3).
  rewrite E2, obind_Ret. by exists r2.
Qed.

(** A received packet is decoded, answered or turned into a connection. *)
Lemma handle_adv_rx_gives s w ch : wf_ble s -> 0 <= ch <= 39 ->
  gives (handle_adv_rx s w ch) (ok_world w).
Proof.
  intros Hs Hch. destruct (wb_rx s Hs) as (Hl & Hb & Hn). unfold handle_adv_rx.
  rewrite slice_to_Ret, obind_Ret by lia.
  destruct (decoded_packet (take (b_rx_pdu_len s) (b_rx_buf s))) as (r & -> & Hr);
    [by apply bytes_take|]. rewrite obind_Ret.
  assert (Hstay : gives (Ret (s, w)) (ok_world w)) by (split; [done|apply on_air_refl]).
  destruct r as [[| | |sa aa| |ia aa ll| | | | |]|e]; try exact Hstay.
  - destruct (_ <? _)%nat; [|exact Hstay]. destruct Hr as ((_ & Ha) & _).
    by apply send_scan_rsp_gives.
  - destruct Hr as ((_ & _ & Hll) & Hbl). specialize (Hbl eq_refl). cbn [payload_of] in Hbl.
    destruct (connect_data_decodes ll Hll) as (d & Ed & Hd).
    { apply bytes_app in Hbl as [_ Hbl]. by apply bytes_app in Hbl as [_ ?]. }
    destruct (accept_connect_Ret s w ch ia ll d Hs Hch Ed Hd) as (r & -> & H1).
    split; [exact H1|exact (on_air_reads _ w w (on_air_refl w))].
Qed.

Lemma listen_for_scan_and_connect_runs fuel s w ch : wf_ble s -> 0 <= ch <= 39 ->
  runs (listen_for_scan_and_connect fuel s w ch) (ok_world w).
Proof.
  intros Hs Hch. unfold listen_for_scan_and_connect. cbv zeta.
  eapply runs_bind; [by apply radio_window_runs|].
  intros [[s1 w1] ok] [H1 H2]. destruct (negb ok); [done|].
  apply runs_of. eapply gives_mono; [by apply handle_adv_rx_gives|].
  intros r [H3 H4]. split; [done|]. exact (on_air_trans _ _ _ H2 H4).
Qed.

(** What follows the first packet: with legacy advertising, under the same
    settings of the radio. *)
Lemma after_adv_runs fuel s w ch : wf_ble s -> 0 <= ch <= 39 ->
  runs (after_adv fuel s w ch) (fun r => fine w r /\
    (adp_extended (b_adv_params s) = false -> on_air w (snd r))).
Proof.
  intros Hs Hch. unfold after_adv. destruct (adp_extended _).
  - eapply runs_bind; [by apply transmit_aux_adv_runs|]. intros [s1 w1] [H1 H2].
    destruct (adp_periodic _); [|by split].
    eapply runs_mono; [by apply transmit_periodic_adv_runs|]. intros r [H3 H4].
    split; [|done]. split; [done|]. exact (sent_more_trans _ _ _ H2 H4).
  - assert (Hok : forall m, runs m (ok_world w) ->
      runs m (fun r => fine w r /\ (false = false -> on_air w (snd r)))).
    { intros m Hm. eapply runs_mono; [exact Hm|]. intros r [H1 H2].
      split; [|done]. split; [done|]. by apply on_air_more. }
    destruct (adp_adv_type _); apply Hok.
    + by apply listen_for_scan_and_connect_runs.
    + by apply listen_for_scan_and_connect_runs.
    + by apply listen_for_scan_req_runs.
    + split; [done|apply on_air_refl].
Qed.

(** The settings of an advertising channel. *)
Definition on_adv_channel (j : nat) (w : World) (r : RadioRegs) : Prop :=
  exists f, channel_frequency (37 + Z.of_nat j) = Ok f /\
    r = set_rg_datawhiteiv (0x40 + (37 + Z.of_nat j))
          (set_rg_frequency (f - 2400) (w_regs w)).

(** An event of a running advertiser. *)
Lemma adv_tick_running fuel s w : wf_ble s -> b_adv_state s = AdvRunning ->
  runs (adv_tick fuel s w) (fun '(s', w') => wf_ble s' /\
    exists j regs rest, (j < 3)%nat /\
    (adp_channel_map (b_adv_params s) .& 7 <> 0 ->
     j = adv_slot (adp_channel_map (b_adv_params s)) (b_adv_channel_idx s) /\
     Z.testbit (adp_channel_map (b_adv_params s)) (Z.of_nat j) = true) /\
    on_adv_channel j w regs /\
    w_sent w' = w_sent w ++ (regs, adv_packet s) :: rest /\
    (adp_extended (b_adv_params s) = false -> Forall (fun x => fst x = regs) rest)).
Proof.
  intros Hs Hrun. unfold adv_tick. rewrite Hrun. cbv zeta.
  change (clear_compare w) with w. pose proof (wb_adv_idx s Hs) as Hi.
  destruct (idx_lt ADV_CHANNELS (b_adv_channel_idx s)) as [ch0 E0]; [exact Hi|].
  rewrite E0, lift_Ret, rbind_Done.
  destruct (pick_adv_channel_Ret (adp_channel_map (b_adv_params s)) _ ch0 Hi E0)
    as (j & Ep & Hj & Hslot). rewrite Ep, lift_Ret, rbind_Done.
  set (s1 := set_b_adv_channel_idx _ s).
  assert (H1 : wf_ble s1).
  { wf_ble_by idtac. apply (Nat.mod_upper_bound (j + 1) 3). lia. }
  change (adp_extended (b_adv_params s)) with (adp_extended (b_adv_params s1)).
  destruct (build_first s1 H1) as (b & Eb & Et & Hb & Hlen). rewrite Eb, lift_Ret, rbind_Done.
  set (s2 := set_b_tx_pdu_len _ _). cbn [s2 b_tx_buf b_tx_pdu_len set_b_tx_pdu_len set_b_tx_buf].
  rewrite slice_to_Ret, lift_Ret, rbind_Done by lia. rewrite Et.
  assert (H2 : wf_ble s2) by (apply set_tx_wf; [done..|lia]).
  destruct (set_channel_Ok (37 + Z.of_nat j) w) as (f & Ef & _ & Ec); [lia|].
  rewrite Ec. cbn [fst]. set (regs := set_rg_datawhiteiv _ _).
  set (w1 := transmit _ _).
  assert (E1 : w_sent w1 = w_sent w ++ [(regs, adv_packet s)]) by done.
  eapply runs_bind; [apply (after_adv_runs fuel s2 w1 (37 + Z.of_nat j)); [done|lia]|].
  intros [s3 w3] [[H3 [rest Er]] Hair]. cbn [fst snd] in *.
  destruct (IntervalAccum_next_spec (b_adv_accum s3) (adp_interval_min (b_adv_params s3)))
    as (a & t & -> & Ha & _); [apply (wb_accums s3 H3)|apply (wb_adv s3 H3)|].
  rewrite lift_Ret, rbind_Done. cbn [runs]. split.
  { pose proof (proj2 (wb_accums s3 H3)). wf_ble_by idtac. by split. }
  exists j, regs, rest. split; [done|]. split; [done|]. split; [by exists f|].
  change (w_sent (arm w3 t)) with (w_sent w3). rewrite Er, E1, <- app_assoc. split; [done|].
  intros Hext. destruct (Hair Hext) as [_ [ps Eps]]. rewrite Er in Eps.
  apply app_inv_head in Eps. rewrite Eps. apply Forall_map, Forall_true. done.
Qed.

(** An event in any state. *)
Lemma adv_tick_runs fuel s w : wf_ble s -> runs (adv_tick fuel s w) (fun r => wf_ble (fst r)).
Proof.
  intros Hs. destruct (b_adv_state s) eqn:E.
  - unfold adv_tick. by rewrite E.
  - eapply runs_mono; [by apply adv_tick_running|]. by intros [s' w'] [H _].
  - unfold adv_tick. rewrite E.
    eapply runs_lift; [apply push_event_ok; [|exact I]|].
    { by wf_ble_by idtac. }
    by intros s' H.
Qed.

End ext.
