(* ===== verification/Scanner.v ===== *)
(** Scanning ([src/hw/ble.rs], [scan_tick]): one listen on one primary channel,
    the reports it makes, active scanning, following auxiliary packets and
    periodic advertising, and initiating a connection. *)

From stdpp Require Import base numbers list.
From S2P Require Import Prelude Errors Channels Timers Addr Ad Pdu Events EventQueue.
From S2P Require Import BondStore Crypto Smp Ccm Gatt Conn Att CocChannel SmpChannel L2cap.
From S2P Require Import Radio LinkLayer Ble Advertiser.

(** ** The source's definitions *)

(** The parameters [send_connect_req] offers. *)
Definition offered : ConnectReqData :=
  mkConnectReqData (0x8E89BED6 .^ 0x12345678) 0x654321 1 0 24 0 2000
    [0xFF; 0xFF; 0xFF; 0xFF; 0x1F] 13 2.

(** How often the busy polls of [periodic_tick] and [follow_aux] poll. *)
Definition PERIODIC_SPINS : nat := Z.to_nat 40001.
Definition AUX_SPINS : nat := Z.to_nat 200001.

Section scanner.
Context `{Henv : Env}.

Definition send_connect_req (self : Ble) (w : World) : outcome (Ble * World) :=
  match b_connect_target self with
  | None => Ret (self, w)
  | Some target =>
      let ll := offered in
      let! r := ConnectReqData_encode ll (replicate 22 0) in
      match r with
      | Err _ => Ret (self, w)
      | Ok (llbuf, _) =>
          let rx_add := is_random (b_connect_target_type self) in
          let! r := encode_typed (ConnectReq (b_own_addr self) target llbuf) (b_tx_buf self)
                      (is_random (b_own_addr_type self)) rx_add in
          match r with
          | Err _ => Ret (self, w)
          | Ok (b, len) =>
              let self := set_b_tx_buf b self in
              let! p := slice_to (b_tx_buf self) len in
              let w := transmit p w in
              let self := set_b_connect_target None self in
              let '(w, t) := now w in
              let channel := default 37 (radio_last_channel self) in
              let conn := Conn_new ll channel t Master in
              let conn := set_peer conn target in
              let self := set_b_conn (Some conn) self in
              let self := set_b_scan_state ScanIdle self in
              let! self := push_event self (Connected ll) in
              Ret (self, w)
          end
      end
  end.

(** A busy poll of at most [n] turns: the buffer and the packet's length. *)
Fixpoint spin_poll (n : nat) (buf : list Z) (w : World)
    : run (World * list Z * option nat) :=
  match n with
  | O => Done (w, buf, None)
  | S n =>
      let* (w, buf, r) := receive_poll buf w in
      match r with
      | Ok (Some len) => Done (w, buf, Some len)
      | Ok None => spin_poll n buf w
      | Err _ => Done (w, buf, None)
      end
  end.

Definition handle_periodic_aux (self : Ble) (w : World) (channel : Z) (payload : list Z)
    : outcome (Ble * World) :=
  if (length payload <? 15)%nat then Ret (self, w) else
  let! p := slice payload 10 15 in
  let! info := PeriodicAdvInfo_decode p in
  match info with
  | Some info =>
      let '(w, t) := now w in
      let sync := mkPeriodicSync channel (pi_interval info) 0 t in
      let next_event := ps_next_event sync in
      let! (sync, delta) := PeriodicSync_next_interval sync in
      let sync := mkPeriodicSync (ps_channel sync) (ps_units sync) (ps_frac sync)
                    (wrapping_add32 next_event delta) in
      let self := set_b_periodic_sync (Some sync) self in
      let! self := push_event self (PeriodicSynced channel (pi_interval info)) in
      Ret (self, w)
  | None => Ret (self, w)
  end.

Definition periodic_tick (self : Ble) (w : World) : run (Ble * World) :=
  match b_periodic_sync self with
  | None => Done (self, w)
  | Some sync =>
      let '(w, t) := now w in
      if t <? ps_next_event sync then Done (self, w) else
      let next_event := ps_next_event sync in
      do* (sync, delta) := PeriodicSync_next_interval sync in
      let sync := mkPeriodicSync (ps_channel sync) (ps_units sync) (ps_frac sync)
                    (wrapping_add32 next_event delta) in
      let self := set_b_periodic_sync (Some sync) self in
      let w := fst (set_channel (ps_channel sync) w) in
      let w := receive_start (b_rx_buf self) w in
      let* (w, buf, r) := spin_poll PERIODIC_SPINS (b_rx_buf self) w in
      let self := set_b_rx_buf buf self in
      do* self :=
        match r with
        | Some len =>
            let! bs := slice_to (b_rx_buf self) len in
            let! d := AdvPdu_decode bs in
            match d with
            | Ok (PeriodicAdv _ adi) => push_event self (PeriodicAdvReceived adi (rssi w))
            | _ => Ret self
            end
        | None => Ret self
        end in
      Done (self, receive_cancel w)
  end.

(** The address, the data in a 40 byte buffer and their length. *)
Definition aux_found (self : Ble) (w : World) (channel : Z) (len : nat)
    (addr : list Z) (ext_type : Z) (data : list Z)
    : outcome (Ble * World * option (list Z * list Z * nat)) :=
  let is_periodic := ext_type =? EXT_AD_PERIODIC in
  let out := replicate 40 0 in
  let n := Nat.min (length data) 40 in
  let! d := slice_to data n in
  let! out := copy_at out 0 n d in
  let raw := replicate 64 0 in
  let raw_len := Nat.min len 64 in
  let! d := slice_to (b_rx_buf self) raw_len in
  let! raw := copy_at raw 0 raw_len d in
  let! (self, w) :=
    if is_periodic then
      let! p := slice_to raw raw_len in
      handle_periodic_aux self w channel p
    else Ret (self, w) in
  Ret (self, w, Some (addr, out, n)).

(** Nothing was found: the receiver goes off, and back to the first channel. *)
Definition aux_lost (self : Ble) (w : World)
    : outcome (Ble * World * option (list Z * list Z * nat)) :=
  let w := receive_cancel w in
  let! ch := idx ADV_CHANNELS 0 in
  Ret (self, fst (set_channel ch w), None).

Definition follow_aux (fuel : nat) (self : Ble) (w : World) (ptr : AuxPtr)
    : run (Ble * World * option (list Z * list Z * nat)) :=
  match set_channel (ap_channel ptr) w with
  | (w, Err _) => Done (self, w, None)
  | (w, Ok _) =>
      let '(w, t) := now w in
      let deadline := wrapping_add32 t (timeout_ticks 300) in
      let w := set_compare deadline w in
      let* w := wait_until fuel w deadline in
      let w := clear_compare w in
      let w := receive_start (b_rx_buf self) w in
      let* (w, buf, r) := spin_poll AUX_SPINS (b_rx_buf self) w in
      let self := set_b_rx_buf buf self in
      match r with
      | Some len =>
          do* bs := slice_to (b_rx_buf self) len in
          do* d := AdvPdu_decode bs in
          match d with
          | Ok (AuxAdvExtInd adv_addr _ ext_type data) =>
              lift (aux_found self w (ap_channel ptr) len adv_addr ext_type data)
          | _ => lift (aux_lost self w)
          end
      | None => lift (aux_lost self w)
      end
  end.

(** Report a packet: the first 31 bytes of its data. *)
Definition report_scan (self : Ble) (rssi : Z) (addr : list Z) (adv_type : Z)
    (data : list Z) (len : nat) : outcome Ble :=
  let buf := replicate 31 0 in
  let data_len := Nat.min len 31 in
  let! d := slice_to data data_len in
  let! buf := copy_at buf 0 data_len d in
  let! a := BtAddr_parse addr in
  push_event self (ScanReport addr (ba_addr_type a) adv_type rssi buf data_len).

(** The loop of [listen_for_scan_rsp]. *)
Fixpoint scan_rsp_loop (fuel : nat) (self : Ble) (w : World) (deadline : Z)
    : run (Ble * World) :=
  match fuel with
  | O => OutOfFuel
  | S fuel =>
      let* (w, buf, r) := receive_poll (b_rx_buf self) w in
      let self := set_b_rx_buf buf self in
      match r with
      | Ok (Some len) =>
          do* bs := slice_to (b_rx_buf self) len in
          do* d := AdvPdu_decode bs in
          match d with
          | Ok (ScanRsp adv_addr data) =>
              do* self :=
                report_scan self (rssi w) adv_addr PDU_SCAN_RSP data (length data) in
              Done (self, w)
          | _ => Done (self, w)
          end
      | Ok None =>
          let '(w, t) := now w in
          if deadline <=? t then Done (self, receive_cancel w)
          else scan_rsp_loop fuel self w deadline
      | Err _ => Done (self, w)
      end
  end.

Definition listen_for_scan_rsp (fuel : nat) (self : Ble) (w : World) : run (Ble * World) :=
  let '(w, t) := now w in
  let deadline := wrapping_add32 t (timeout_ticks SCAN_REQ_WINDOW_MICROS) in
  let w := receive_start (b_rx_buf self) w in
  scan_rsp_loop fuel self w deadline.

Definition respond_scan_req (fuel : nat) (self : Ble) (w : World) : run (Ble * World) :=
  do* adv_addr := slice (b_rx_buf self) 2 8 in
  let tx_add := is_random (b_own_addr_type self) in
  do* a := BtAddr_parse adv_addr in
  let rx_add := is_random (ba_addr_type a) in
  do* r := encode_typed (ScanReq (b_own_addr self) adv_addr) (b_tx_buf self) tx_add rx_add in
  match r with
  | Err _ => Done (self, w)
  | Ok (b, len) =>
      let self := set_b_tx_buf b self in
      do* p := slice_to (b_tx_buf self) len in
      listen_for_scan_rsp fuel self (transmit p w)
  end.

(** The legacy arm of [handle_scan_pdu], to its end. *)
Definition handle_scan_legacy (fuel : nat) (self : Ble) (w : World) (rssi : Z) (pdu : AdvPdu)
    (addr data : list Z) : run (Ble * World) :=
  if bool_decide (b_connect_target self = Some addr) then lift (send_connect_req self w)
  else
    do* filtered :=
      if bool_decide (scp_filter_policy (b_scan_params self) = AcceptListPolicy) then
        let! a := BtAddr_parse addr in
        let! c := AcceptList_contains (b_accept_list self) addr (ba_addr_type a) in
        Ret (negb c)
      else Ret false in
    if filtered : bool then Done (self, w)
    else
      do* self := report_scan self rssi addr (pdu_type pdu) data (length data) in
      if scp_active (b_scan_params self) then respond_scan_req fuel self w
      else Done (self, w).

Definition handle_scan_pdu (fuel : nat) (self : Ble) (w : World) : run (Ble * World) :=
  let rssi := rssi w in
  do* bs := slice_to (b_rx_buf self) (b_rx_pdu_len self) in
  do* d := AdvPdu_decode bs in
  match d with
  | Ok (AdvInd addr data as pdu) | Ok (AdvScanInd addr data as pdu) =>
      handle_scan_legacy fuel self w rssi pdu addr data
  | Ok (AdvExtInd addr _ _ ptr) =>
      let* (self, w, aux) := follow_aux fuel self w ptr in
      match aux with
      | Some (_, aux_data, aux_len) =>
          do* self := report_scan self rssi addr PDU_ADV_EXT_IND aux_data aux_len in
          Done (self, w)
      | None => Done (self, w)
      end
  | _ => Done (self, w)
  end.

(** The loop of [scan_tick]. *)
Fixpoint scan_loop (fuel : nat) (self : Ble) (w : World) (deadline : Z)
    : run (Ble * World) :=
  match fuel with
  | O => OutOfFuel
  | S fuel' =>
      let* (w, buf, r) := receive_poll (b_rx_buf self) w in
      let self := set_b_rx_buf buf self in
      match r with
      | Ok (Some len) => handle_scan_pdu fuel (set_b_rx_pdu_len len self) w
      | Ok None =>
          let '(w, t) := now w in
          if deadline <=? t then Done (self, receive_cancel w)
          else scan_loop fuel' self w deadline
      | Err _ => Done (self, w)
      end
  end.

(** The listen on one channel. *)
Definition scan_listen (fuel : nat) (self : Ble) (w : World) : run (Ble * World) :=
  let '(self, w) :=
    if (b_scan_channel_idx self =? 0)%nat then
      let '(w, t) := now w in (set_b_scan_cycle_start t self, w)
    else (self, w) in
  do* channel := idx ADV_CHANNELS (b_scan_channel_idx self) in
  let self := set_b_scan_channel_idx (b_scan_channel_idx self + 1) self in
  let self := set_b_last_radio_channel (Some channel) self in
  let w := fst (set_channel channel w) in
  do* wt := window_ticks (scp_window (b_scan_params self)) in
  let per_channel := wt / 3 in
  let '(w, t) := now w in
  let deadline := wrapping_add32 t per_channel in
  let w := set_compare deadline w in
  let w := receive_start (b_rx_buf self) w in
  scan_loop fuel self w deadline.

Definition scan_tick (fuel : nat) (self : Ble) (w : World) : run (Ble * World) :=
  if bool_decide (b_scan_state self = ScanIdle) then Done (self, w) else
  let* (self, w) := periodic_tick self w in
  let w := clear_compare w in
  if bool_decide (b_scan_state self = ScanStopPending) then
    let self := set_b_scan_state ScanIdle self in
    do* self := push_event self ScanStopped in
    Done (self, w)
  else if (3 <=? b_scan_channel_idx self)%nat then
    let self := set_b_scan_channel_idx 0 self in
    do* (accum, ticks) :=
      IntervalAccum_next (b_scan_accum self) (scp_interval (b_scan_params self)) in
    let self := set_b_scan_accum accum self in
    Done (self, set_compare (wrapping_add32 (b_scan_cycle_start self) ticks) w)
  else scan_listen fuel self w.

Section forever.
Context {S : Type} (on_event : Ble -> World -> S -> BleEvent -> run (Ble * World * S)).

Fixpoint scan_forever (fuel : nat) (self : Ble) (w : World) (s : S) : run (Ble * World * S) :=
  match fuel with
  | O => OutOfFuel
  | Datatypes.S fuel' =>
      let* w := wait_compare fuel' w in
      let* (self, w) := scan_tick fuel' self w in
      let* (self, w, s) := drain_events on_event fuel' self w s in
      if bool_decide (b_scan_state self = ScanIdle) then Done (self, w, s)
      else scan_forever fuel' self w s
  end.

End forever.
End scanner.
