(* ===== verification/ScanInv.v ===== *)
(** Scanning, proved: a listen never panics and keeps the stack's invariant,
    whatever is received; what a packet is reported as, and the connection a
    connection request makes. *)

From stdpp Require Import base numbers list.
From S2P Require Import Prelude Errors Channels Timers Addr Ad Pdu Events EventQueue Hci.
From S2P Require Import BondStore Crypto Smp Ccm Gatt Conn Att CocChannel SmpChannel L2cap.
From S2P Require Import Frame Radio LinkLayer LinkInv LinkEvents Ble BleInv.
From S2P Require Import Advertiser AdvInv Scanner.

Section scan.
Context `{Hcrypto : Crypto, Hccm : CcmHw, Henv : Env}.

(** ** Reports *)

(** What is reported: the first 31 bytes of the data, and an address type that
    is read off the address and is never public. *)
Definition the_report (rssi : Z) (a : list Z) (t : AddrType) (kind : Z) (d : list Z) : BleEvent :=
  ScanReport a t kind rssi (take 31 d ++ replicate (31 - length d) 0) (Nat.min (length d) 31).

Definition parsed_type (a : list Z) : AddrType :=
  match BtAddr_parse a with Ret b => ba_addr_type b | Panic => Public end.

Lemma BtAddr_parse_type a : is_addr a ->
  exists b, BtAddr_parse a = Ret b /\ ba_addr_type b = parsed_type a /\
    parsed_type a <> Public.
Proof.
  intros Ha. unfold is_addr in Ha. unfold parsed_type, BtAddr_parse.
  destruct (idx_lt a 5) as [x ->]; [lia|]. rewrite obind_Ret.
  eexists. split; [done|]. split; [done|]. cbn [ba_addr_type].
  case_match; [done|]. by case_match.
Qed.

Lemma report_scan_Ret s rssi a kind data n : wf_ble s -> is_addr a -> (n <= length data)%nat ->
  exists r, report_scan s rssi a kind data n = Ret (set_b_events r s) /\
    ring_push EVENT_QUEUE_LEN (b_events s)
      (the_report rssi a (parsed_type a) kind (take n data)) = Ret r /\
    wf_ble (set_b_events r s).
Proof.
  intros Hs Ha Hn. unfold report_scan. cbv zeta. rewrite slice_to_Ret, obind_Ret by lia.
  rewrite copy_at_first, obind_Ret by len.
  destruct (BtAddr_parse_type a Ha) as (b & Eb & Et & _). rewrite Eb, obind_Ret, Et.
  set (e := ScanReport _ _ _ _ _ _).
  assert (Ee : e = the_report rssi a (parsed_type a) kind (take n data)).
  { unfold e, the_report. rewrite length_take, drop_replicate. f_equal; [|lia].
    f_equal; [rewrite take_take; f_equal; lia|f_equal; lia]. }
  rewrite <- Ee. destruct (push_event_Ret s e Hs) as (r & E1 & E2 & H1).
  { unfold e. cbn [event_wf]. split; [exact Ha|]. split; [len|lia]. }
  by exists r.
Qed.

(** ** Connecting *)

Lemma offered_wf : wf_connect offered.
Proof. unfold wf_connect, offered. cbn -[Z.lxor]. ranges. repeat split; try lia; try (vm_compute; congruence). repeat constructor; unfold is_u8; lia. Qed.

(** The request that is sent. *)
Definition connect_pdu (s : Ble) (target : list Z) : AdvPdu :=
  ConnectReq (b_own_addr s) target (connect_bytes offered).

Definition connect_packet (s : Ble) (target : list Z) : list Z :=
  packet (connect_pdu s target) (is_random (b_own_addr_type s))
    (is_random (b_connect_target_type s)).

Lemma connect_pdu_wf s target : wf_ble s -> is_addr target ->
  wf_pdu (connect_pdu s target) /\ length (payload_of (connect_pdu s target)) = 34%nat.
Proof.
  intros Hs Ht. pose proof (wb_own_addr s Hs) as Ha. unfold is_addr in *.
  split; [done|]. cbn [connect_pdu payload_of]. rewrite !length_app, Ha, Ht. done.
Qed.

(** The master's connection. *)
Definition master_conn (s : Ble) (now : Z) (target : list Z) : Conn :=
  set_peer (Conn_new offered (default 37 (b_last_radio_channel s)) now Master) target.

Lemma send_connect_req_Ret s w target : wf_ble s -> b_connect_target s = Some target ->
  exists s' r, send_connect_req s w = Ret (s', fst (now (transmit (connect_packet s target) w))) /\
    wf_ble s' /\ b_conn s' = Some (master_conn s (env_now (w_reads w)) target) /\
    b_scan_state s' = ScanIdle /\ b_connect_target s' = None /\
    ring_push EVENT_QUEUE_LEN (b_events s) (Connected offered) = Ret r /\ b_events s' = r.
Proof.
  intros Hs Et. pose proof (wb_target s Hs target Et) as Ht.
  destruct (connect_pdu_wf s target Hs Ht) as [Hw Hl].
  unfold send_connect_req. rewrite Et. cbv zeta.
  rewrite ConnectReqData_encode_Ret by done. rewrite length_replicate.
  change (22 <? 22)%nat with false. cbv iota. rewrite obind_Ret.
  rewrite filled by done. fold (connect_pdu s target).
  destruct (wb_tx s Hs) as [Htx _]. rewrite encode_typed_spec by (by apply wf_encodable).
  rewrite Htx, Hl. change (257 <? 2)%nat with false. change (63 <? 34)%nat with false.
  change (257 <? 2 + 34)%nat with false. cbv iota. rewrite obind_Ret, app_assoc.
  fold (packet (connect_pdu s target) (is_random (b_own_addr_type s))
    (is_random (b_connect_target_type s))). fold (connect_packet s target).
  assert (Hp : length (connect_packet s target) = 36%nat).
  { unfold connect_packet. by rewrite packet_length, Hl. }
  cbn [b_tx_buf set_b_tx_buf]. rewrite slice_to_Ret, obind_Ret by len.
  rewrite take_app_length' by (by rewrite Hp). cbn [now].
  set (s1 := set_b_scan_state ScanIdle _).
  assert (Hm : wf_link (master_conn s (env_now (w_reads w)) target)).
  { pose proof (env_now_range (w_reads w)).
    assert (Hc : wf_link (Conn_new offered (default 37 (b_last_radio_channel s))
      (env_now (w_reads w)) Master)).
    { apply Conn_new_link; [apply offered_wf| |lia].
      destruct (b_last_radio_channel s) as [ch|] eqn:E; cbn; [|lia].
      pose proof (wb_last s Hs ch E). lia. }
    exact (host_step_wf _ _ Hc (host_peer _ target)). }
  assert (H1 : wf_ble s1).
  { assert (H0 : wf_ble (set_b_connect_target None (set_b_tx_buf (connect_packet s target ++
      drop (2 + 34) (b_tx_buf s)) s))).
    { assert (H0 : wf_ble (set_b_tx_buf (connect_packet s target ++
        drop (2 + 34) (b_tx_buf s)) s)) by (apply set_tx_buf_wf; [done|len]).
      by wf_ble_by idtac. }
    pose proof (set_b_conn_wf _ _ H0 Hm) as H2. by wf_ble_by idtac. }
  destruct (push_event_Ret s1 (Connected offered) H1 I) as (r & -> & Er & H2).
  rewrite obind_Ret. by exists (set_b_events r s1), r.
Qed.

Lemma send_connect_req_gives s w : wf_ble s -> gives (send_connect_req s w) (fine w).
Proof.
  intros Hs. destruct (b_connect_target s) as [a|] eqn:E.
  - destruct (send_connect_req_Ret s w a Hs E) as (s' & r & -> & H & _).
    split; [exact H|]. by eexists.
  - unfold send_connect_req. rewrite E. split; [done|apply sent_more_refl].
Qed.

(** ** Busy polls *)

Lemma poll_buf_runs buf w : length buf = 257%nat -> bytes buf -> w_rx_room w = 257%nat ->
  runs (receive_poll buf w) (fun '(w', buf', r) =>
    length buf' = 257%nat /\ bytes buf' /\ (on_air w w' /\ w_rx_room w' = 257%nat) /\
    forall n, r = Ok (Some n) -> (2 <= n <= 65)%nat).
Proof.
  intros Hl Hb Hr. pose proof (dma_fits buf (w_polls w) Hl) as Hf.
  rewrite receive_poll_Done by (lia || congruence). cbn [runs]. rewrite dma_length by done.
  split; [done|]. split; [apply dma_bytes; [apply env_dma_bytes|done]|].
  split; [split; [apply on_air_polls, on_air_refl|exact Hr]|].
  destruct (env_end _) as [[]|]; [|done..]. intros n [= <-].
  assert (0 <= (nth 1 (dma (env_dma (w_polls w)) buf) 0%Z .>> 1) .& 0x3F < 64); [|lia].
  change 0x3F with (Z.ones 6). rewrite Z.land_ones by lia. by apply Z.mod_pos_bound.
Qed.

Lemma spin_poll_runs n buf w : length buf = 257%nat -> bytes buf -> w_rx_room w = 257%nat ->
  runs (spin_poll n buf w) (fun '(w', buf', r) =>
    length buf' = 257%nat /\ bytes buf' /\ on_air w w' /\
    forall len, r = Some len -> (2 <= len <= 65)%nat).
Proof.
  revert buf w. induction n as [|n IH]; intros buf w Hl Hb Hr; cbn [spin_poll].
  { split; [done|]. split; [done|]. split; [apply on_air_refl|done]. }
  eapply runs_bind; [by apply poll_buf_runs|]. intros [[w1 b1] r] (H1 & H2 & [H3 Hr1] & H4).
  destruct r as [[len|]|e].
  - split; [done|]. split; [done|]. split; [done|]. intros x [= <-]. by apply H4.
  - eapply runs_mono; [by apply IH|]. intros [[w2 b2] r2] (H5 & H6 & H7 & H8).
    split; [done|]. split; [done|]. split; [by apply (on_air_trans _ w1)|done].
  - by split.
Qed.

(** A new receive buffer. *)
Lemma set_rx_wf s buf : wf_ble s -> length buf = 257%nat -> bytes buf ->
  wf_ble (set_b_rx_buf buf s).
Proof. intros Hs Hl Hb. destruct (wb_rx s Hs) as (_ & _ & Hn). wf_ble_by idtac. by split. Qed.

(** ** Periodic advertising *)

Lemma next_interval_Ret y : wf_sync y -> exists y' t,
  PeriodicSync_next_interval y = Ret (y', t) /\ wf_sync y' /\
  ps_channel y' = ps_channel y /\ ps_units y' = ps_units y /\
  32 * t + ps_frac y' = ps_frac y + ps_units y * 1250 /\ 0 <= t < 2 ^ 22.
Proof.
  intros [Hu Hf]. unfold PeriodicSync_next_interval, is_u16 in *.
  rewrite !mul_u32_Ret, !obind_Ret by lia. rewrite add_u32_Ret, obind_Ret by lia.
  cbv zeta. rewrite add_u32_Ret, obind_Ret by (Z.div_mod_to_equations; lia).
  do 2 eexists. split; [done|]. unfold wf_sync, is_u16.
  cbn [ps_units ps_frac ps_channel]. do 2 (split; [(split; [done|by apply Z.mod_pos_bound]) || done|]).
  split; [done|]. split; Z.div_mod_to_equations; lia.
Qed.

Lemma set_sync_wf s y : wf_ble s -> wf_sync y -> wf_ble (set_b_periodic_sync (Some y) s).
Proof. intros Hs Hy. wf_ble_by idtac. cbn. by intros ? [= <-]. Qed.

Lemma handle_periodic_aux_gives s w ch p : wf_ble s -> bytes p ->
  gives (handle_periodic_aux s w ch p) (fine w).
Proof.
  intros Hs Hp. unfold handle_periodic_aux.
  destruct (Nat.ltb_spec (length p) 15); [split; [done|apply sent_more_refl]|].
  rewrite slice_Ret, obind_Ret by lia.
  assert (Hl : length (take (15 - 10) (drop 10 p)) = 5%nat) by len.
  assert (Hb : bytes (take (15 - 10) (drop 10 p))) by (by apply bytes_take, bytes_drop).
  generalize dependent (take (15 - 10) (drop 10 p)). intros q Hl Hb.
  do 5 (destruct q as [|? q]; [discriminate Hl|]). destruct q; [|discriminate Hl].
  cbn [PeriodicAdvInfo_decode length Nat.ltb Nat.leb idx lookup list_lookup obind now].
  cbv zeta. cbn [ps_next_event pi_interval].
  match goal with |- context [PeriodicSync_next_interval ?y] =>
    destruct (next_interval_Ret y) as (y' & t & -> & Hy & _) end.
  { split; [|cbn; lia]. do 5 (apply Forall_cons_1 in Hb as [? Hb]).
    by apply u16_from_le_range. }
  rewrite obind_Ret. eapply gives_bind; [apply push_event_ok; [apply set_sync_wf; [done|exact Hy]|exact I]|].
  intros s' H'. split; [exact H'|exact (sent_more_refl w)].
Qed.

(** What a received packet decodes to. *)
Lemma decode_rx s n : wf_ble s -> (n <= 257)%nat ->
  exists r, slice_to (b_rx_buf s) n = Ret (take n (b_rx_buf s)) /\
  AdvPdu_decode (take n (b_rx_buf s)) = Ret r /\
  match r with Ok p => wf_pdu p | Err _ => True end.
Proof.
  intros Hs Hn. destruct (wb_rx s Hs) as (Hl & Hb & _).
  destruct (decoded_packet (take n (b_rx_buf s))) as (r & E & Hr); [by apply bytes_take|].
  exists r. rewrite slice_to_Ret by lia. split; [done|]. split; [done|].
  by destruct r; [destruct Hr|].
Qed.

Lemma periodic_tick_runs s w : wf_ble s -> runs (periodic_tick s w) (fine w).
Proof.
  intros Hs. unfold periodic_tick. destruct (b_periodic_sync s) as [y|] eqn:Ey;
    [|split; [done|apply sent_more_refl]]. cbn [now].
  destruct (_ <? _); [split; [done|exact (sent_more_refl w)]|].
  destruct (next_interval_Ret y (wb_sync s Hs y Ey)) as (y' & t & -> & Hy & _).
  rewrite lift_Ret, rbind_Done. cbv zeta. set (s1 := set_b_periodic_sync _ s).
  assert (H1 : wf_ble s1) by (apply set_sync_wf; [done|exact Hy]).
  destruct (wb_rx s1 H1) as (Hl & Hb & _).
  eapply runs_bind; [by apply spin_poll_runs|]. intros [[w1 b1] r] (H2 & H3 & H4 & H5).
  assert (Hw : sent_more w w1).
  { apply on_air_more in H4. refine (sent_more_trans _ _ _ _ H4). exists [].
    cbn [receive_start w_sent set_w_rx_room]. rewrite sent_set_channel.
    by rewrite app_nil_r. }
  assert (H6 : wf_ble (set_b_rx_buf b1 s1)) by (by apply set_rx_wf).
  eapply (runs_lift _ _ wf_ble); [|intros s2 H7; by split].
  destruct r as [n|]; [|exact H6].
  destruct (decode_rx _ n H6) as (d & -> & E & _); [specialize (H5 n eq_refl); lia|].
  rewrite obind_Ret, E, obind_Ret.
  destruct d as [p|]; [|exact H6]. destruct p; try exact H6. by apply push_event_ok.
Qed.

(** The next event is kept on 32 bits and compared with a timer of 24: once it is
    past them no tick listens for it again. *)
Lemma periodic_stalls s w y : b_periodic_sync s = Some y -> 2 ^ 24 <= ps_next_event y ->
  periodic_tick s w = Done (s, fst (now w)).
Proof.
  intros Ey Hn. unfold periodic_tick. rewrite Ey. cbn [now fst].
  pose proof (env_now_range (w_reads w)). by rewrite (proj2 (Z.ltb_lt _ _)) by lia.
Qed.

(** ** Auxiliary packets *)

(** What [follow_aux] gives back: data in its buffer. *)
Definition aux_ok (w : World)
    (x : Ble * World * option (list Z * list Z * nat)) : Prop :=
  let '(s, w', r) := x in wf_ble s /\ sent_more w w' /\
  forall a d n, r = Some (a, d, n) -> length d = 40%nat /\ (n <= 40)%nat.

Lemma aux_found_gives s w ch n a t d : wf_ble s -> (n <= 257)%nat ->
  gives (aux_found s w ch n a t d) (aux_ok w).
Proof.
  intros Hs Hn. destruct (wb_rx s Hs) as (Hl & Hb & _). unfold aux_found. cbv zeta.
  rewrite slice_to_Ret, obind_Ret by lia. rewrite copy_at_first, obind_Ret by len.
  rewrite slice_to_Ret, obind_Ret by lia. rewrite copy_at_first, obind_Ret by len.
  set (raw := take (Nat.min n 64) (b_rx_buf s) ++ _).
  assert (Hraw : bytes raw /\ (Nat.min n 64 <= length raw)%nat).
  { unfold raw. split; [|len]. apply bytes_app. split; [by apply bytes_take|].
    apply bytes_drop, bytes_replicate_0. }
  eapply (gives_bind _ _ (fine w)).
  - destruct (t =? EXT_AD_PERIODIC); [|split; [done|apply sent_more_refl]].
    rewrite slice_to_Ret, obind_Ret by apply Hraw.
    apply handle_periodic_aux_gives; [done|]. apply bytes_take, Hraw.
  - intros [s1 w1] [H1 H2]. cbn [fst snd] in *. cbn [gives aux_ok].
    split; [done|]. split; [done|]. intros a' d' n' [= <- <- <-]. split; [len|lia].
Qed.

Lemma aux_lost_gives s w : wf_ble s -> gives (aux_lost s w) (aux_ok w).
Proof.
  intros Hs. unfold aux_lost. cbv zeta. change (idx ADV_CHANNELS 0) with (@Ret Z 37).
  rewrite obind_Ret. split; [done|]. split; [|done]. exists [].
  rewrite sent_set_channel. by rewrite app_nil_r.
Qed.

Lemma aux_ok_more w w' m : sent_more w w' -> runs m (aux_ok w') -> runs m (aux_ok w).
Proof.
  intros Hw Hm. eapply runs_mono; [exact Hm|]. intros [[s1 w1] r] (H1 & H2 & H3).
  split; [done|]. split; [exact (sent_more_trans _ _ _ Hw H2)|done].
Qed.

Lemma follow_aux_runs fuel s w ptr : wf_ble s -> runs (follow_aux fuel s w ptr) (aux_ok w).
Proof.
  intros Hs. unfold follow_aux. pose proof (sent_set_channel (ap_channel ptr) w) as Ec.
  destruct (Radio.set_channel (ap_channel ptr) w) as [w0 [u|e]]; cbn [fst] in Ec.
  2: { split; [done|]. split; [|done]. exists []. by rewrite Ec, app_nil_r. }
  assert (H0 : sent_more w w0) by (exists []; by rewrite Ec, app_nil_r).
  cbn [now]. eapply runs_bind; [apply wait_until_more|]. intros w1 H1. cbv zeta.
  assert (H2 : sent_more w w1) by exact (sent_more_trans _ _ _ H0 H1).
  destruct (wb_rx s Hs) as (Hl & Hb & _).
  eapply runs_bind; [by apply spin_poll_runs|]. intros [[w2 b2] r] (H3 & H4 & H5 & H6).
  assert (H7 : sent_more w w2) by exact (sent_more_trans _ _ _ H2 (on_air_more _ _ H5)).
  assert (H8 : wf_ble (set_b_rx_buf b2 s)) by (by apply set_rx_wf).
  apply (aux_ok_more w w2); [done|].
  destruct r as [n|]; [|by apply runs_of, aux_lost_gives].
  assert (Hn : (n <= 257)%nat) by (specialize (H6 n eq_refl); lia).
  destruct (decode_rx _ n H8 Hn) as (d & -> & E & _).
  rewrite lift_Ret, rbind_Done, E, lift_Ret, rbind_Done.
  destruct d as [p|]; [|by apply runs_of, aux_lost_gives].
  destruct p; apply runs_of; first [by apply aux_lost_gives|by apply aux_found_gives].
Qed.

(** ** Active scanning *)

Lemma scan_rsp_loop_runs fuel s w deadline : wf_ble s -> w_rx_room w = 257%nat ->
  runs (scan_rsp_loop fuel s w deadline) (fine w).
Proof.
  revert s w. induction fuel as [|fuel IH]; intros s w Hs Hm; [done|]. cbn [scan_rsp_loop].
  eapply runs_bind; [by apply poll_runs|]. intros [[w1 b1] r] (H1 & [H2 Hm1] & H3). cbv zeta.
  apply on_air_more in H2.
  destruct r as [[n|]|e]; [| |by split].
  - assert (Hn : (n <= 257)%nat) by (specialize (H3 n eq_refl); lia).
    destruct (decode_rx _ n H1 Hn) as (d & -> & E & Hd).
    rewrite lift_Ret, rbind_Done, E, lift_Ret, rbind_Done.
    destruct d as [p|]; [|by split]. destruct p as [| | | |a d| | | | | |]; try by split.
    destruct (report_scan_Ret _ (rssi w1) a PDU_SCAN_RSP d (length d) H1 Hd (le_n _))
      as (r & -> & _ & H4). rewrite lift_Ret, rbind_Done. by split.
  - cbn [now]. destruct (_ <=? _); [by split|].
    eapply runs_mono; [by apply IH|]. intros x [H4 H5]. split; [done|].
    exact (sent_more_trans _ _ _ H2 H5).
Qed.

Lemma respond_scan_req_runs fuel s w : wf_ble s -> runs (respond_scan_req fuel s w) (fine w).
Proof.
  intros Hs. unfold respond_scan_req. destruct (wb_rx s Hs) as (Hl & _).
  rewrite slice_Ret, lift_Ret, rbind_Done by lia.
  assert (Ha : is_addr (take (8 - 2) (drop 2 (b_rx_buf s)))) by (unfold is_addr; len).
  generalize dependent (take (8 - 2) (drop 2 (b_rx_buf s))). intros a Ha. cbv zeta.
  destruct (BtAddr_parse_type a Ha) as (b & -> & _ & _). rewrite lift_Ret, rbind_Done.
  pose proof (wb_own_addr s Hs) as Ho. destruct (wb_tx s Hs) as [Ht _].
  assert (Hp : length (payload_of (ScanReq (b_own_addr s) a)) = 12%nat).
  { cbn [payload_of]. unfold is_addr in *. len. }
  rewrite encode_typed_spec by (by apply wf_encodable). rewrite Ht, Hp.
  change (257 <? 2)%nat with false. change (63 <? 12)%nat with false.
  change (257 <? 2 + 12)%nat with false. cbv iota. rewrite lift_Ret, rbind_Done.
  cbn [b_tx_buf set_b_tx_buf]. rewrite slice_to_Ret, lift_Ret, rbind_Done.
  2: { rewrite length_app, AdvHdr_encode_length, length_app, Hp. len. }
  unfold listen_for_scan_rsp. cbn [now]. eapply runs_mono; [apply scan_rsp_loop_runs|].
  2: { exact (proj1 (wb_rx s Hs)). }
  - apply set_tx_buf_wf; [done|]. rewrite length_app, AdvHdr_encode_length, length_app, Hp. len.
  - intros x [H1 H2]. split; [done|]. refine (sent_more_trans _ _ _ _ H2). by eexists.
Qed.

(** ** The listen *)

Lemma handle_scan_legacy_runs fuel s w rssi p a d : wf_ble s -> is_addr a ->
  runs (handle_scan_legacy fuel s w rssi p a d) (fine w).
Proof.
  intros Hs Ha. unfold handle_scan_legacy.
  destruct (bool_decide _); [by apply runs_of, send_connect_req_gives|].
  eapply (runs_lift _ _ (fun _ => True)).
  - destruct (bool_decide _); [|done]. destruct (BtAddr_parse_type a Ha) as (b & -> & _).
    rewrite obind_Ret, AcceptList_contains_spec by (apply wb_accept; done). done.
  - intros [] _; [split; [done|apply sent_more_refl]|].
    destruct (report_scan_Ret s rssi a (pdu_type p) d (length d) Hs Ha (le_n _))
      as (r & -> & _ & H1). rewrite lift_Ret, rbind_Done.
    destruct (scp_active _); [by apply respond_scan_req_runs|].
    split; [done|apply sent_more_refl].
Qed.

Lemma handle_scan_pdu_runs fuel s w : wf_ble s -> runs (handle_scan_pdu fuel s w) (fine w).
Proof.
  intros Hs. unfold handle_scan_pdu. cbv zeta.
  destruct (decode_rx s (b_rx_pdu_len s) Hs (proj2 (proj2 (wb_rx s Hs)))) as (d & -> & E & Hd).
  rewrite lift_Ret, rbind_Done, E, lift_Ret, rbind_Done.
  assert (Hstay : runs (Done (s, w)) (fine w)) by (split; [done|apply sent_more_refl]).
  destruct d as [p|]; [|exact Hstay].
  destruct p as [a d|a b|a d|a b|a d|a b l|a d|a m adi x| | |]; try exact Hstay.
  - by apply handle_scan_legacy_runs.
  - by apply handle_scan_legacy_runs.
  - destruct Hd as [Ha _]. eapply runs_bind; [by apply follow_aux_runs|].
    intros [[s1 w1] [[[a' d'] n']|]] (H1 & H2 & H3); [|by split].
    destruct (H3 a' d' n' eq_refl) as [Hd Hn].
    destruct (report_scan_Ret s1 (rssi w) a PDU_ADV_EXT_IND d' n' H1 Ha) as (r & -> & _ & H4);
      [lia|]. rewrite lift_Ret, rbind_Done. by split.
Qed.

Lemma scan_loop_runs fuel s w deadline : wf_ble s -> w_rx_room w = 257%nat ->
  runs (scan_loop fuel s w deadline) (fine w).
Proof.
  revert s w. induction fuel as [|fuel IH]; intros s w Hs Hm; [done|]. cbn [scan_loop].
  eapply runs_bind; [by apply poll_runs|]. intros [[w1 b1] r] (H1 & [H2 Hm1] & H3). cbv zeta.
  apply on_air_more in H2.
  destruct r as [[n|]|e]; [| |by split].
  - eapply runs_mono.
    + apply handle_scan_pdu_runs, set_rx_len_wf; [done|]. specialize (H3 n eq_refl). lia.
    + intros x [H4 H5]. split; [done|]. exact (sent_more_trans _ _ _ H2 H5).
  - cbn [now]. destruct (_ <=? _); [by split|].
    eapply runs_mono; [by apply IH|]. intros x [H4 H5]. split; [done|].
    exact (sent_more_trans _ _ _ H2 H5).
Qed.

Lemma window_ticks_Ret u : is_u16 u -> exists t, window_ticks u = Ret t.
Proof.
  intros Hu. unfold window_ticks, TICKS_PER_UNIT, is_u16 in *.
  rewrite mul_u32_Ret, obind_Ret by lia. by eexists.
Qed.

Lemma scan_tick_runs fuel s w : wf_ble s -> runs (scan_tick fuel s w) (fine w).
Proof.
  intros Hs. unfold scan_tick. case_bool_decide; [split; [done|apply sent_more_refl]|].
  eapply runs_bind; [by apply periodic_tick_runs|]. intros [s1 w1] [H1 H2].
  cbn [fst snd] in *. change (clear_compare w1) with w1. cbv zeta.
  case_bool_decide.
  { assert (H3 : wf_ble (set_b_scan_state ScanIdle s1)) by (by wf_ble_by idtac).
    eapply runs_lift; [by apply push_event_ok|]. intros s2 H4. by split. }
  destruct (_ <=? _)%nat eqn:Ei.
  { destruct (IntervalAccum_next_spec (b_scan_accum s1) (scp_interval (b_scan_params s1)))
      as (a & t & E & Ha & _); [apply (wb_accums s1 H1)|apply (wb_scan s1 H1)|].
    cbn [b_scan_accum b_scan_params set_b_scan_channel_idx]. rewrite E, lift_Ret, rbind_Done.
    split; [|exact H2]. pose proof (proj1 (wb_accums s1 H1)). cbn [fst].
    wf_ble_by idtac. by split. }
  apply Nat.leb_gt in Ei. unfold scan_listen.
  set (x := if (b_scan_channel_idx s1 =? 0)%nat then _ else _).
  assert (Hx : wf_ble (fst x) /\ sent_more w (snd x) /\ (b_scan_channel_idx (fst x) < 3)%nat).
  { unfold x. destruct (_ =? _)%nat; [|done]. cbn [now fst snd].
    split; [by wf_ble_by idtac|done]. }
  destruct x as [s2 w2]. cbn [fst snd] in Hx. destruct Hx as (H3 & H4 & H5).
  destruct (idx_lt ADV_CHANNELS (b_scan_channel_idx s2) H5) as [ch Ech].
  rewrite Ech, lift_Ret, rbind_Done. cbv zeta.
  assert (Hch : 37 <= ch <= 39).
  { apply idx_Ret in Ech. destruct (b_scan_channel_idx s2) as [|[|[|]]]; cbn in Ech;
      simplify_eq; lia. }
  set (s3 := set_b_last_radio_channel _ _).
  assert (H6 : wf_ble s3).
  { unfold s3. wf_ble_by idtac. cbn. by intros ? [= <-]. }
  destruct (window_ticks_Ret (scp_window (b_scan_params s3))) as [wt ->];
    [apply (wb_scan s3 H6)|]. rewrite lift_Ret, rbind_Done. cbn [now].
  eapply runs_mono; [apply scan_loop_runs; [done|exact (proj1 (wb_rx s3 H6))]|].
  intros r [H7 H8]. split; [done|]. refine (sent_more_trans _ _ _ H4 (sent_more_trans _ _ _ _ H8)).
  exists []. cbn [w_sent set_w_reads]. rewrite app_nil_r.
  exact (sent_set_channel ch w2).
Qed.

End scan.
