(* ===== verification/Air.v ===== *)
(** Devices in range of each other ([src/hw/ble.rs]): what a scanner reports of an
    advertiser, and the two ends of a connection an initiator makes. Each device
    has its own hardware, that is its own [Env]. *)

From stdpp Require Import base numbers list.
From S2P Require Import Prelude Errors Channels Timers Addr Ad Pdu Events EventQueue Hci.
From S2P Require Import BondStore Crypto Smp Ccm Gatt Conn Att CocChannel SmpChannel L2cap.
From S2P Require Import Frame Radio LinkLayer LinkInv LinkEvents LinkTime LinkHistory Ble BleInv.
From S2P Require Import Advertiser AdvInv Scanner ScanInv.

(** ** Hearing a packet *)

Section hearing.
Context `{Henv : Env}.

(** A transmission of the slice [bs] ends at the [k]-th poll from here, before the
    deadline: what the sender's radio makes of [bs] and of what its memory holds
    beyond has been written. *)
Definition heard_at (k : nat) (w : World) (deadline : Z) (bs : list Z) : Prop :=
  (forall j, (j < k)%nat -> env_end (w_polls w + j) = None /\
     env_now (w_reads w + j) < deadline) /\
  env_end (w_polls w + k) = Some true /\
  exists beyond, env_dma (w_polls w + k) = aired bs beyond.

(** The receiver's state then. *)
Definition hearing (k : nat) (w w' : World) : Prop :=
  w_regs w' = w_regs w /\ w_sent w' = w_sent w /\ w_polls w' = S (w_polls w + k).

Lemma heard_at_later k w deadline bs : heard_at (S k) w deadline bs ->
  env_end (w_polls w) = None /\ env_now (w_reads w) < deadline /\
  heard_at k (set_w_reads (S (w_reads w)) (set_w_polls (S (w_polls w)) w)) deadline bs.
Proof.
  intros (Hj & He & Hd). destruct (Hj 0%nat) as [H1 H2]; [lia|].
  rewrite Nat.add_0_r in H1, H2. split; [done|]. split; [done|].
  unfold heard_at. cbn [w_polls w_reads set_w_polls set_w_reads].
  rewrite !Nat.add_succ_r in *. split; [|done].
  intros j H. specialize (Hj (S j) ltac:(lia)). by rewrite !Nat.add_succ_r in Hj.
Qed.

(** A scanner that hears a packet handles it. *)
Lemma scan_loop_hears fuel k s w deadline p tx rx : wf_ble s -> w_rx_room w = 257%nat ->
  (length (payload_of p) <= 63)%nat -> (k < fuel)%nat ->
  heard_at k w deadline (packet p tx rx) ->
  exists fuel' buf w', take (length (packet p tx rx)) buf = packet p tx rx /\
    hearing k w w' /\
    wf_ble (set_b_rx_pdu_len (length (packet p tx rx)) (set_b_rx_buf buf s)) /\
    scan_loop fuel s w deadline = handle_scan_pdu fuel'
      (set_b_rx_pdu_len (length (packet p tx rx)) (set_b_rx_buf buf s)) w'.
Proof.
  intros Hs Hm Hl. revert fuel s w Hs Hm.
  induction k as [|k IH]; intros [|fuel] s w Hs Hm Hf Hh; try lia.
  - destruct Hh as (_ & He & beyond & Hd). rewrite Nat.add_0_r in He, Hd.
    rewrite aired_packet in Hd by done.
    destruct (wb_rx s Hs) as (Hb & _). cbn [scan_loop].
    destruct (receive_packet (b_rx_buf s) w p tx rx _ He Hd Hl Hb Hm) as (buf & E & Et & Eb).
    pose proof (poll_runs s w Hs Hm) as P. rewrite E in *. destruct P as (H1 & _ & H2).
    rewrite rbind_Done. exists (S fuel), buf, (set_w_polls (S (w_polls w)) w).
    split; [done|]. split; [split; [done|]; split; [done|]; cbn; lia|].
    split; [|done]. apply set_rx_len_wf; [done|]. specialize (H2 _ eq_refl). lia.
  - destruct (heard_at_later k w deadline _ Hh) as (He & Hn & Hh'). cbn [scan_loop].
    destruct (wb_rx s Hs) as (Hb & _).
    rewrite receive_poll_Done, He by (lia || (by apply dma_fits) || congruence).
    rewrite rbind_Done. cbn [now]. cbv zeta.
    cbn [w_reads set_w_polls].
    rewrite (proj2 (Z.leb_gt _ _) Hn).
    destruct (IH fuel _ (set_w_reads (S (w_reads w)) (set_w_polls (S (w_polls w)) w))
      (polled_rx_wf s w Hs) Hm ltac:(lia) Hh')
      as (fuel' & buf & w' & H1 & (H2 & H3 & H4) & H5 & H6).
    exists fuel', buf, w'. split; [done|].
    split; [split; [done|]; split; [done|]; cbn in H4; lia|]. by split.
Qed.

(** A listening window that hears a packet accepts it by its type. *)
Lemma window_loop_hears fuel k s w mask deadline p tx rx : wf_ble s ->
  w_rx_room w = 257%nat ->
  (length (payload_of p) <= 63)%nat -> (k < fuel)%nat ->
  heard_at k w deadline (packet p tx rx) ->
  exists buf w', take (length (packet p tx rx)) buf = packet p tx rx /\ hearing k w w' /\
    wf_ble (set_b_rx_pdu_len (length (packet p tx rx)) (set_b_rx_buf buf s)) /\
    window_loop fuel s w mask deadline =
      Done (set_b_rx_pdu_len (length (packet p tx rx)) (set_b_rx_buf buf s), w',
            Z.testbit mask (pdu_type p)).
Proof.
  intros Hs Hm Hl. revert fuel s w Hs Hm.
  induction k as [|k IH]; intros [|fuel] s w Hs Hm Hf Hh; try lia.
  - destruct Hh as (_ & He & beyond & Hd). rewrite Nat.add_0_r in He, Hd.
    rewrite aired_packet in Hd by done.
    destruct (wb_rx s Hs) as (Hb & _). cbn [window_loop].
    destruct (receive_packet (b_rx_buf s) w p tx rx _ He Hd Hl Hb Hm) as (buf & E & Et & Eb).
    pose proof (poll_runs s w Hs Hm) as P. rewrite E in *. destruct P as (H1 & _ & H2).
    rewrite rbind_Done. specialize (H2 _ eq_refl). cbv zeta.
    cbn [b_rx_pdu_len set_b_rx_pdu_len b_rx_buf set_b_rx_buf].
    rewrite (proj2 (Nat.leb_le _ _)) by lia.
    destruct (packet_header p tx rx Hl) as (b0 & b1 & Ep & _ & _ & Ety).
    assert (E0 : idx buf 0 = Ret b0).
    { apply idx_Some. rewrite <- (take_drop (length (packet p tx rx)) buf), Et, Ep. done. }
    rewrite E0, lift_Ret, rbind_Done, Ety, land_bit, negb_involutive by apply pdu_type_range.
    exists buf, (set_w_polls (S (w_polls w)) w). split; [done|].
    split; [split; [done|]; split; [done|]; cbn; lia|].
    split; [|done]. apply set_rx_len_wf; [done|]. lia.
  - destruct (heard_at_later k w deadline _ Hh) as (He & Hn & Hh'). cbn [window_loop].
    destruct (wb_rx s Hs) as (Hb & _).
    rewrite receive_poll_Done, He by (lia || (by apply dma_fits) || congruence).
    rewrite rbind_Done. cbn [now]. cbv zeta. cbn [w_reads set_w_polls].
    rewrite (proj2 (Z.leb_gt _ _) Hn).
    destruct (IH fuel _ (set_w_reads (S (w_reads w)) (set_w_polls (S (w_polls w)) w))
      (polled_rx_wf s w Hs) Hm ltac:(lia) Hh')
      as (buf & w' & H1 & (H2 & H3 & H4) & H5 & H6).
    exists buf, w'. split; [done|].
    split; [split; [done|]; split; [done|]; cbn in H4; lia|]. by split.
Qed.

End hearing.

(** ** What the scanner and the advertiser make of it *)

Section roles.
Context `{Hcrypto : Crypto, Hccm : CcmHw, Henv : Env}.

(** The advertising data that is configured. *)
Definition adv_bytes (s : Ble) : list Z := take (b_adv_data_len s) (b_adv_data s).

(** An advertiser of scannable or connectable legacy packets. *)
Definition discoverable (s : Ble) : Prop :=
  adp_extended (b_adv_params s) = false /\
  (adp_adv_type (b_adv_params s) = ConnectableUndirected \/
   adp_adv_type (b_adv_params s) = ScannableUndirected).

Lemma adv_pdu_discoverable s : discoverable s ->
  adv_pdu s = (match adp_adv_type (b_adv_params s) with
               | ScannableUndirected => AdvScanInd | _ => AdvInd
               end) (b_own_addr s) (adv_bytes s).
Proof. intros [He Ht]. unfold adv_pdu, adv_bytes. rewrite He. by destruct Ht as [-> | ->]. Qed.

(** The scanner drops it: it is not on the accept list. *)
Definition filtered (s : Ble) (a : list Z) : bool :=
  bool_decide (scp_filter_policy (b_scan_params s) = AcceptListPolicy) &&
  negb (bool_decide ((parsed_type a, a) ∈ al_view (b_accept_list s))).

Lemma handle_scan_pdu_hears fuel s w a tx :
  wf_ble s -> wf_ble a -> discoverable a ->
  let p := packet (adv_pdu a) tx false in
  b_rx_pdu_len s = length p -> take (length p) (b_rx_buf s) = p ->
  handle_scan_pdu fuel s w =
    handle_scan_legacy fuel s w (rssi w) (adv_pdu a) (b_own_addr a) (adv_bytes a).
Proof.
  intros Hs Ha Hd p Hn Ht. destruct (adv_pdu_wf a Ha) as (Hw & Hl & Hr).
  unfold handle_scan_pdu. cbv zeta. destruct (wb_rx s Hs) as (Hb & _ & Hn').
  rewrite slice_to_Ret, lift_Ret, rbind_Done by lia. rewrite Hn, Ht.
  unfold p. rewrite packet_decodes, lift_Ret, rbind_Done, Hr by (done || lia).
  rewrite (adv_pdu_discoverable a Hd). by destruct (adp_adv_type _).
Qed.

(** A passive report, or nothing. *)
Lemma handle_scan_legacy_reports fuel s w rssi p a d : wf_ble s -> is_addr a ->
  b_connect_target s <> Some a -> scp_active (b_scan_params s) = false ->
  exists s', handle_scan_legacy fuel s w rssi p a d = Done (s', w) /\
  if filtered s a then s' = s
  else ring_push EVENT_QUEUE_LEN (b_events s)
         (the_report rssi a (parsed_type a) (pdu_type p) d) = Ret (b_events s').
Proof.
  intros Hs Ha Hc Hp. unfold handle_scan_legacy, filtered.
  rewrite bool_decide_eq_false_2 by done.
  destruct (BtAddr_parse_type a Ha) as (b & Eb & Et & _).
  destruct (report_scan_Ret s rssi a (pdu_type p) d (length d) Hs Ha (le_n _))
    as (r & Er & Ep & _). rewrite firstn_all in Ep.
  case_bool_decide; cbn [andb].
  - rewrite Eb, obind_Ret, Et, AcceptList_contains_spec by (apply wb_accept; done).
    rewrite obind_Ret, lift_Ret, rbind_Done.
    destruct (negb _); [by exists s|]. rewrite Er, lift_Ret, rbind_Done.
    change (b_scan_params (set_b_events r s)) with (b_scan_params s). rewrite Hp.
    by exists (set_b_events r s).
  - rewrite lift_Ret, rbind_Done, Er, lift_Ret, rbind_Done.
    change (b_scan_params (set_b_events r s)) with (b_scan_params s). rewrite Hp.
    by exists (set_b_events r s).
Qed.

(** A listening advertiser that hears a connection request becomes a slave. *)
Lemma connect_heard fuel k b w ch i target : wf_ble b -> wf_ble i -> is_addr target ->
  37 <= ch <= 39 -> (k < fuel)%nat ->
  heard_at k (fst (now w)) (wrapping_add32 (env_now (w_reads w)) 2813) (connect_packet i target) ->
  exists b' w' t, listen_for_scan_and_connect fuel b w ch = Done (b', w') /\
    0 <= t < 2 ^ 24 /\
    b_conn b' = Some (Conn_new offered ch t Slave) /\ b_adv_state b' = AdvIdle /\
    w_sent w' = w_sent w /\ wf_ble b'.
Proof.
  intros Hb Hi Ht Hch Hf Hh. destruct (connect_pdu_wf i target Hi Ht) as [Hw Hl].
  unfold connect_packet in Hh. set (tx := is_random _) in Hh. set (rx := is_random _) in Hh.
  unfold listen_for_scan_and_connect, radio_window. cbv zeta. cbn [now].
  change (timeout_ticks CONNECT_REQ_WINDOW_MICROS) with 2813.
  destruct (window_loop_hears fuel k b (receive_start (b_rx_buf b) (fst (now w)))
    ((1 .<< PDU_SCAN_REQ) .| (1 .<< PDU_CONNECT_REQ))
    (wrapping_add32 (env_now (w_reads w)) 2813) (connect_pdu i target) tx rx Hb)
    as (buf & w1 & Et & (_ & Hs & _) & Hb1 & E); [exact (proj1 (wb_rx b Hb))|lia|done|done|].
  cbn [now fst] in E. rewrite E, rbind_Done.
  cbn [connect_pdu pdu_type]. change (Z.testbit _ PDU_CONNECT_REQ) with true. cbn [negb].
  unfold handle_adv_rx.
  cbn [b_rx_buf b_rx_pdu_len set_b_rx_buf set_b_rx_pdu_len].
  destruct (wb_rx _ Hb1) as (Hlb & _ & Hln).
  cbn [b_rx_buf b_rx_pdu_len set_b_rx_buf set_b_rx_pdu_len] in Hlb, Hln.
  rewrite slice_to_Ret, obind_Ret, Et by lia.
  rewrite packet_decodes, obind_Ret by (done || lia). cbn [connect_pdu reads_as].
  destruct (connect_data_roundtrip offered (replicate 22 0) offered_wf) as (_ & _ & Ed).
  destruct (accept_connect_Ret _ w1 ch (b_own_addr i) _ _ Hb1 ltac:(lia) Ed offered_wf)
    as (r & -> & H1). cbn [lift].
  do 3 eexists. split; [reflexivity|]. split; [apply env_now_range|].
  split; [reflexivity|]. split; [reflexivity|]. split; [exact Hs|exact H1].
Qed.

End roles.

(** Bonds are kept by a connection: a new one, with either role, has none. *)
Lemma fresh_bonds p ch t r s peer :
  gap_bond_find (set_b_conn (Some (Conn_new p ch t r)) s) peer = None.
Proof. reflexivity. Qed.

(** ** Both ends hop together *)

(** What the two ends must agree on. *)
Definition same_link (m c : Conn) : Prop :=
  cn_access_addr m = cn_access_addr c /\ cn_crc_init m = cn_crc_init c /\
  cn_interval m = cn_interval c /\ cn_timeout m = cn_timeout c /\
  cn_channel_map m = cn_channel_map c /\ cn_hop m = cn_hop c /\
  cn_channel m = cn_channel c /\
  cn_pending_update m = None /\ cn_pending_update c = None.

Lemma event_prepare_hops c c' : wf_link c -> cn_pending_update c = None ->
  event_prepare c = Ret c' ->
  cn_access_addr c' = cn_access_addr c /\ cn_crc_init c' = cn_crc_init c /\
  cn_interval c' = cn_interval c /\ cn_timeout c' = cn_timeout c /\
  cn_channel_map c' = cn_channel_map c /\ cn_hop c' = cn_hop c /\
  cn_pending_update c' = None /\
  next_channel (cn_channel c) (cn_hop c) (cn_channel_map c) = Ret (cn_channel c').
Proof.
  intros Hc Hp E. destruct (event_prepare_Ret c Hc) as (a & t & k & E1 & En & _).
  rewrite E in E1. apply Ret_inj in E1 as ->.
  assert (Eu : updated c = c) by (unfold updated, update_due; by rewrite Hp).
  rewrite Eu in *. unfold counted. cbv zeta.
  destruct (cn_encrypted _); (repeat (split; [done|]); exact En).
Qed.

Lemma same_link_step m c : wf_link m -> wf_link c -> same_link m c -> exists m' c',
  event_prepare m = Ret m' /\ event_prepare c = Ret c' /\
  wf_link m' /\ wf_link c' /\ same_link m' c'.
Proof.
  intros Hm Hc (E1 & E2 & E3 & E4 & E5 & E6 & E7 & Pm & Pc).
  pose proof (event_prepare_safe m Hm) as Sm. pose proof (event_prepare_safe c Hc) as Sc.
  destruct (event_prepare_Ret m Hm) as (am & tm & km & Em & _).
  destruct (event_prepare_Ret c Hc) as (ac & tc & kc & Ec & _).
  rewrite Em in Sm. rewrite Ec in Sc. do 2 eexists. split; [exact Em|]. split; [exact Ec|].
  split; [exact Sm|]. split; [exact Sc|].
  destruct (event_prepare_hops m _ Hm Pm Em) as (M1 & M2 & M3 & M4 & M5 & M6 & M7 & M8).
  destruct (event_prepare_hops c _ Hc Pc Ec) as (C1 & C2 & C3 & C4 & C5 & C6 & C7 & C8).
  rewrite E5, E6, E7, C8 in M8. apply Ret_inj in M8.
  clear Em Ec Sm Sc. unfold same_link. repeat (split; [congruence|]). congruence.
Qed.

(** The preparations of [n] events, one after the other: what an event body does
    between two of them is not in it. *)
Fixpoint prepare_n (n : nat) (c : Conn) : outcome Conn :=
  match n with
  | O => Ret c
  | S n => let! c := prepare_n n c in event_prepare c
  end.

Lemma same_link_n n m c : wf_link m -> wf_link c -> same_link m c -> exists m' c',
  prepare_n n m = Ret m' /\ prepare_n n c = Ret c' /\
  wf_link m' /\ wf_link c' /\ same_link m' c'.
Proof.
  intros Hm Hc Hl. induction n as [|n IH]; [by exists m, c|].
  destruct IH as (m1 & c1 & E1 & E2 & H1 & H2 & H3). cbn [prepare_n].
  rewrite E1, E2, !obind_Ret. by apply same_link_step.
Qed.

(** No update is pending after an event. *)
Definition calm (_ c : Conn) : Prop := cn_pending_update c = None.

(** The channel [n] events on. *)
Fixpoint hops (n : nat) (ch hop : Z) (map : list Z) : outcome Z :=
  match n with
  | O => Ret ch
  | S n => let! ch := hops n ch hop map in next_channel ch hop map
  end.

(** Whatever the events and the host do, the channels are those. *)
Lemma calm_history `{Hcrypto : Crypto, Hccm : CcmHw, Henv : Env} c n c' :
  wf_link c -> cn_pending_update c = None -> history calm c n c' ->
  wf_link c' /\ cn_pending_update c' = None /\
  cn_interval c' = cn_interval c /\ cn_timeout c' = cn_timeout c /\
  cn_hop c' = cn_hop c /\ cn_channel_map c' = cn_channel_map c /\
  hops n (cn_channel c) (cn_hop c) (cn_channel_map c) = Ret (cn_channel c').
Proof.
  intros Hc Hp. induction 1 as [|n c1 fuel w c2 w' r _ IH E Hq|n c1 c2 _ IH Hs]; [done|..].
  - destruct IH as (W1 & P1 & I1 & T1 & H1 & M1 & C1).
    pose proof (event_safe fuel c1 w W1) as W2. rewrite E in W2.
    destruct (event_timing _ _ _ _ _ _ W1 E) as (c3 & Ep & T).
    destruct (event_prepare_hops c1 c3 W1 P1 Ep) as (_ & _ & I3 & T3 & M3 & H3 & _ & C3).
    injection T as _ Ti To _ _ _ Tc Th Tm.
    split; [exact W2|]. split; [exact Hq|]. do 4 (split; [congruence|]).
    cbn [hops]. rewrite C1, obind_Ret, <- H1, <- M1. congruence.
  - destruct IH as (W1 & P1 & I1 & T1 & H1 & M1 & C1).
    pose proof (host_step_wf _ _ W1 Hs) as W2.
    destruct (host_step_schedule _ _ Hs) as [T U].
    injection T as _ Ti To _ _ _ Tc Th Tm. injection U as Up _.
    split; [exact W2|]. do 5 (split; [congruence|]). congruence.
Qed.

(** ** Properties *)

(** C29. Advertising, on the air: every event of a running advertiser first sends
    the PDU its parameters ask for, with its address and data, encoded so that
    a receiver decodes exactly it; on the first enabled channel from the next
    one on, with that channel's frequency and whitening and the radio's other
    settings as they were; and with legacy advertising whatever it sends in
    answer goes out under the same settings. *)
Theorem adv_event_on_air `{Hcrypto : Crypto, Hccm : CcmHw, Henv : Env} fuel s w s' w' :
  wf_ble s -> b_adv_state s = AdvRunning -> adp_channel_map (b_adv_params s) .& 7 <> 0 ->
  adv_tick fuel s w = Done (s', w') ->
  let j := adv_slot (adp_channel_map (b_adv_params s)) (b_adv_channel_idx s) in
  Z.testbit (adp_channel_map (b_adv_params s)) (Z.of_nat j) = true /\
  AdvPdu_decode (adv_packet s) = Ret (Ok (adv_pdu s)) /\
  exists regs rest, on_adv_channel j w regs /\
    w_sent w' = w_sent w ++ (regs, adv_packet s) :: rest /\
    (adp_extended (b_adv_params s) = false -> Forall (fun x => fst x = regs) rest).
Proof.
  intros Hs Hr Hm E j. pose proof (adv_tick_running fuel s w Hs Hr) as R. rewrite E in R.
  destruct R as (_ & j' & regs & rest & _ & Hj & Hc & He & Hf).
  destruct (Hj Hm) as [-> Hb]. fold j in Hb, Hc. split; [exact Hb|]. split.
  - destruct (adv_pdu_wf s Hs) as (Hw & Hl & Hrd). unfold adv_packet.
    rewrite packet_decodes by (done || lia). by rewrite Hrd.
  - by exists regs, rest.
Qed.

(** C5. From advertiser to scanner: a passive scanner that hears, before the end
    of its listen, what a discoverable advertiser sent in an event reports that
    advertiser's address and exactly its configured data, with the PDU's type
    and the signal strength; unless its policy is the accept list and the
    address is not on it under the type read off the address, which is never
    public, whatever the advertiser said. *)
Theorem advertising_reported `{Hcrypto : Crypto, Hccm : CcmHw} (Ea Es : Env)
    fuel a wa a' wa' regs bs rest k fuels s w deadline :
  wf_ble a -> b_adv_state a = AdvRunning -> discoverable a ->
  adv_tick (Henv:=Ea) fuel a wa = Done (a', wa') ->
  w_sent wa' = w_sent wa ++ (regs, bs) :: rest ->
  wf_ble s -> scp_active (b_scan_params s) = false ->
  b_connect_target s <> Some (b_own_addr a) ->
  heard_at (Henv:=Es) k w deadline bs -> (k < fuels)%nat ->
  let addr := b_own_addr a in
  parsed_type addr <> Public /\
  exists s' w',
    scan_loop (Henv:=Es) fuels s (receive_start (b_rx_buf s) w) deadline = Done (s', w') /\
  if filtered s addr then b_events s' = b_events s
  else ring_push EVENT_QUEUE_LEN (b_events s)
    (the_report (@env_rssi Es (S (w_polls w + k))) addr (parsed_type addr)
       (pdu_type (adv_pdu a)) (adv_bytes a)) = Ret (b_events s').
Proof.
  intros Ha Hr Hd E Esent Hs Hp Ht Hh Hf addr.
  pose proof (adv_tick_running (Henv:=Ea) fuel a wa Ha Hr) as R. rewrite E in R.
  destruct R as (_ & j & regs' & rest' & _ & _ & _ & Es' & _).
  rewrite Esent in Es'. apply app_inv_head in Es'. injection Es' as _ -> _.
  destruct (adv_pdu_wf a Ha) as (_ & Hl & _). pose proof (wb_own_addr a Ha) as Hown.
  split; [by destruct (BtAddr_parse_type addr Hown) as (? & _ & _ & ?)|].
  destruct (scan_loop_hears (Henv:=Es) fuels k s (receive_start (b_rx_buf s) w) deadline
    (adv_pdu a) (is_random (b_own_addr_type a)) false Hs)
    as (f' & buf & w1 & Et & Hw1 & H1 & ->); [exact (proj1 (wb_rx s Hs))|lia|done|done|].
  rewrite (handle_scan_pdu_hears _ _ w1 a (is_random (b_own_addr_type a))) by done.
  match goal with |- context [handle_scan_legacy _ ?x _ _ _ _ _] => set (s1 := x) in * end.
  destruct (handle_scan_legacy_reports f' s1 w1 (rssi w1) (adv_pdu a) addr (adv_bytes a)
    H1 Hown Ht Hp) as (s' & El & Hres). fold addr. exists s', w1. split; [exact El|].
  destruct Hw1 as (_ & _ & Hpoll). unfold rssi in Hres. rewrite Hpoll in Hres.
  cbn [w_polls receive_start set_w_rx_room] in Hres.
  change (filtered s1 addr) with (filtered s addr) in Hres.
  destruct (filtered s addr); [by subst s'|exact Hres].
Qed.

(** C3. From initiator to slave: an initiator that hears the advertiser it was
    told to connect to, on the channel it listens on, answers with a connection
    request and is the master of a new connection; every advertiser listening on
    that channel that hears the request, the addressed one or any other, is then
    the slave; and the two ends agree on the access address, the CRC
    initialisation, the interval and the timeout, and at every event from then
    on select the same channel: prepared for event after event, and also at the
    end of any histories of as many complete events in which no update of the
    parameters is heard. *)
Theorem connection_agrees `{Hcrypto : Crypto, Hccm : CcmHw} (Ei Eb : Env)
    k fuel i w deadline a tx ch :
  wf_ble i -> wf_ble a -> discoverable a -> b_connect_target i = Some (b_own_addr a) ->
  b_last_radio_channel i = Some ch ->
  heard_at (Henv:=Ei) k w deadline (packet (adv_pdu a) tx false) -> (k < fuel)%nat ->
  exists i' w' m req,
    scan_loop (Henv:=Ei) fuel i (receive_start (b_rx_buf i) w) deadline = Done (i', w') /\
    w_sent w' = w_sent w ++ [(w_regs w, req)] /\
    b_conn i' = Some m /\ cn_role m = Master /\ b_scan_state i' = ScanIdle /\
  forall kb fuelb b wb, wf_ble b -> (kb < fuelb)%nat ->
    heard_at (Henv:=Eb) kb (fst (@now Eb wb))
      (wrapping_add32 (@env_now Eb (w_reads wb)) 2813) req ->
    exists b' wb' c, listen_for_scan_and_connect (Henv:=Eb) fuelb b wb ch = Done (b', wb') /\
      b_conn b' = Some c /\ cn_role c = Slave /\ b_adv_state b' = AdvIdle /\
      same_link m c /\
      (forall n, exists m' c', prepare_n n m = Ret m' /\ prepare_n n c = Ret c' /\
        same_link m' c') /\
      forall n m' c', history (Henv:=Ei) calm m n m' -> history (Henv:=Eb) calm c n c' ->
        cn_channel m' = cn_channel c' /\ cn_interval m' = cn_interval c' /\
        cn_timeout m' = cn_timeout c'.
Proof.
  intros Hi Ha Hd Ht Hlast Hh Hf. pose proof (wb_last i Hi ch Hlast) as Hch.
  destruct (adv_pdu_wf a Ha) as (_ & Hl & _). pose proof (wb_own_addr a Ha) as Hown.
  destruct (scan_loop_hears (Henv:=Ei) fuel k i (receive_start (b_rx_buf i) w) deadline
    (adv_pdu a) tx false Hi) as (f' & buf & w1 & Et & (Er & Es & _) & H1 & ->);
    [exact (proj1 (wb_rx i Hi))|lia|done|done|].
  cbn [w_regs w_sent receive_start set_w_rx_room] in Er, Es.
  rewrite (handle_scan_pdu_hears _ _ w1 a tx) by done.
  match goal with |- context [handle_scan_legacy _ ?x _ _ _ _ _] => set (s1 := x) in * end.
  unfold handle_scan_legacy. change (b_connect_target s1) with (b_connect_target i).
  rewrite bool_decide_eq_true_2 by done.
  destruct (send_connect_req_Ret (Henv:=Ei) s1 w1 (b_own_addr a) H1 Ht)
    as (i' & r & -> & Hi' & Ec & Est & _). cbn [lift].
  exists i', (fst (@now Ei (transmit (connect_packet s1 (b_own_addr a)) w1))),
    (master_conn s1 (@env_now Ei (w_reads w1)) (b_own_addr a)), (connect_packet s1 (b_own_addr a)).
  split; [done|]. split; [cbn; by rewrite Es, Er|]. split; [exact Ec|]. split; [done|].
  split; [done|]. intros kb fuelb b wb Hb Hkb Hhb.
  destruct (connect_heard (Henv:=Eb) fuelb kb b wb ch s1 (b_own_addr a) Hb H1 Hown Hch Hkb Hhb)
    as (b' & wb' & t & El & Htr & Eb' & Eidle & _ & Hb').
  exists b', wb', (Conn_new offered ch t Slave). split; [exact El|]. split; [exact Eb'|].
  split; [done|]. split; [exact Eidle|].
  assert (Hsame : same_link (master_conn s1 (@env_now Ei (w_reads w1)) (b_own_addr a))
    (Conn_new offered ch t Slave)).
  { unfold master_conn. change (b_last_radio_channel s1) with (b_last_radio_channel i).
    rewrite Hlast. repeat (split; [done|]). done. }
  split; [exact Hsame|]. pose proof (wb_conn i' Hi' _ Ec) as Wm.
  pose proof (wb_conn b' Hb' _ Eb') as Wc. split.
  - intros n. destruct (same_link_n n _ _ Wm Wc Hsame) as (m' & c' & E1 & E2 & _ & _ & E3).
    by exists m', c'.
  - intros n m' c' Hm Hn. pose proof Hsame as (_ & _ & S3 & S4 & S5 & S6 & S7 & Pm & Pc).
    destruct (calm_history (Henv:=Ei) _ n m' Wm Pm Hm) as (_ & _ & I1 & T1 & _ & _ & C1).
    destruct (calm_history (Henv:=Eb) _ n c' Wc Pc Hn) as (_ & _ & I2 & T2 & _ & _ & C2).
    rewrite S5, S6, S7, C2 in C1. apply Ret_inj in C1.
    split; [congruence|]. split; congruence.
Qed.

(** ** Examples *)

(** An advertiser with flags as its data. *)
Definition sample_adv : Ble :=
  set_b_own_addr [1; 2; 3; 4; 5; 0xC6] (set_b_adv_state AdvRunning (set_b_adv_data_len 3
    (set_b_adv_data ([2; 1; 6] ++ replicate 28 0) Ble_init))).

Lemma sample_adv_wf : wf_ble sample_adv.
Proof.
  pose proof Ble_init_wf. wf_ble_by idtac. split; [reflexivity|cbn; lia].
Qed.

Lemma sample_adv_discoverable : discoverable sample_adv.
Proof. split; [reflexivity|by left]. Qed.

(** Where its packet is in the air. *)
Definition adv_env : Env := packet_env (adv_packet sample_adv) ltac:(bytes_eval).

(** An initiator that wants it. *)
Definition sample_initiator : Ble :=
  set_b_last_radio_channel (Some 38) (set_b_connect_target (Some [1; 2; 3; 4; 5; 0xC6])
    (set_b_scan_state ScanRunning Ble_init)).

Lemma sample_initiator_wf : wf_ble sample_initiator.
Proof.
  pose proof Ble_init_wf.
  wf_ble_by ltac:(cbn; intros ? [= <-]; first [reflexivity|lia]).
Qed.

(** One that listens with a buffer of the stack's. *)
Definition listening_world : World := receive_start (b_rx_buf Ble_init) sample_world.

(** Where its connection request is. *)
Definition connect_env : Env :=
  packet_env (connect_packet sample_initiator [1; 2; 3; 4; 5; 0xC6]) ltac:(bytes_eval).

Lemma adv_event_on_air_witness :
  match @adv_tick ack_env 5 sample_adv sample_world with
  | Done (_, w') => exists regs rest, w_sent w' = (regs, adv_packet sample_adv) :: rest
  | _ => False
  end.
Proof.
  assert (E : match @adv_tick ack_env 5 sample_adv sample_world with
    | Done _ => True | _ => False end) by (vm_compute; exact I).
  destruct (@adv_tick ack_env 5 sample_adv sample_world) as [[s' w']| |] eqn:Et; [|done..].
  destruct (@adv_event_on_air mask_crypto xor_ccm ack_env 5 sample_adv sample_world s' w'
    sample_adv_wf eq_refl ltac:(vm_compute; discriminate) Et) as (_ & _ & regs & rest & _ & Es & _).
  by exists regs, rest.
Defined.

Lemma advertising_reported_witness :
  exists s' w', @scan_loop adv_env 1 Ble_init listening_world 100 = Done (s', w') /\
    ring_push EVENT_QUEUE_LEN (b_events Ble_init)
      (ScanReport [1; 2; 3; 4; 5; 0xC6] RandomStatic 0 (-40) ([2; 1; 6] ++ replicate 28 0) 3) =
    Ret (b_events s').
Proof.
  assert (E : match @adv_tick ack_env 5 sample_adv sample_world with
    | Done (_, w') => match w_sent w' with x :: _ => x.2 = adv_packet sample_adv | _ => False end
    | _ => False end) by (vm_compute; reflexivity).
  destruct (@adv_tick ack_env 5 sample_adv sample_world) as [[a' w']| |] eqn:Et; [|done..].
  destruct (w_sent w') as [|[regs bs] rest] eqn:Es; [done|]. cbn in E. subst bs.
  destruct (@advertising_reported mask_crypto xor_ccm ack_env adv_env 5 sample_adv sample_world
    a' w' regs (adv_packet sample_adv) rest 0 1 Ble_init sample_world 100
    sample_adv_wf eq_refl sample_adv_discoverable Et Es Ble_init_wf eq_refl
    ltac:(discriminate)) as (_ & s2 & w2 & El & H); [|lia|].
  - split; [lia|]. split; [done|]. by exists [].
  - exists s2, w2. split; [exact El|]. exact H.
Defined.

Lemma connection_agrees_witness :
  exists i' w' m, @scan_loop adv_env 1 sample_initiator listening_world 100 = Done (i', w') /\
    b_conn i' = Some m /\
  exists b' wb' c, @listen_for_scan_and_connect connect_env 1 sample_adv sample_world 38 =
    Done (b', wb') /\ b_conn b' = Some c /\
    exists m' c', prepare_n 100 m = Ret m' /\ prepare_n 100 c = Ret c' /\ same_link m' c'.
Proof.
  destruct (@connection_agrees mask_crypto xor_ccm adv_env connect_env 0 1 sample_initiator
    sample_world 100 sample_adv false 38 sample_initiator_wf sample_adv_wf
    sample_adv_discoverable eq_refl eq_refl) as (i' & w' & m & req & E & Es & Em & _ & _ & H);
    [|lia|].
  - split; [lia|]. split; [done|]. by exists [].
  - exists i', w', m. split; [exact E|]. split; [exact Em|].
    assert (Er : req = connect_packet sample_initiator [1; 2; 3; 4; 5; 0xC6]).
    { assert (X : match @scan_loop adv_env 1 sample_initiator
          (receive_start (b_rx_buf sample_initiator) sample_world) 100 with
        | Done (_, w') => w_sent w' = w_sent sample_world ++ [(w_regs sample_world,
            connect_packet sample_initiator [1; 2; 3; 4; 5; 0xC6])]
        | _ => False end) by (vm_compute; reflexivity).
      rewrite E, Es in X. by injection X. }
    destruct (H 0%nat 1%nat sample_adv sample_world sample_adv_wf) as (b' & wb' & c & H1 & H2 & _ & _ & _ & H3 & _);
      [lia| |].
    + rewrite Er. split; [lia|]. split; [done|]. by exists [].
    + exists b', wb', c. split; [exact H1|]. split; [exact H2|].
      destruct (H3 100%nat) as (m' & c' & ? & ? & ?). by exists m', c'.
Defined.
