(* ===== verification/Driver.v ===== *)
(** The connection driver ([src/hw/ble.rs], [conn_tick]): supervision, the
    connection event, and the events the application sees. *)

From stdpp Require Import base numbers list.
From S2P Require Import Prelude Errors Channels Timers Addr Ad Pdu Events EventQueue.
From S2P Require Import BondStore Crypto Smp Ccm Gatt Conn Att CocChannel SmpChannel L2cap.
From S2P Require Import Radio LinkLayer Ble Advertiser.

(** ** The source's definitions *)

Section driver.
Context `{Hcrypto : Crypto, Hccm : CcmHw, Henv : Env}.

(** Why the connection is over, or what its event was. *)
Definition conn_outcome (fuel : nat) (self : Ble) (w : World)
    : run (Ble * World * (DisconnectReason + ConnEvent)) :=
  match b_conn self with
  | None => Done (self, w, inl LocalError)
  | Some conn =>
      let timeout := cn_timeout conn in
      let '(w, t) := now w in
      let elapsed := wrapping_sub32 t (cn_last_rx conn) in
      do* limit := mul_u32 timeout 313 in
      if limit <=? elapsed then Done (self, w, inl SupervisionTimeout)
      else
        let* (conn, w, r) := event fuel conn w in
        let self := set_b_conn (Some conn) self in
        match r with
        | Ok (EvDisconnected reason) => Done (self, w, inl reason)
        | Ok other => Done (self, w, inr other)
        | Err _ => Done (self, w, inl LocalError)
        end
  end.

(** The link is closed. *)
Definition conn_closed (self : Ble) (w : World) (reason : DisconnectReason)
    : outcome (Ble * World * bool) :=
  let self := set_b_conn None self in
  let w := radio_init w in
  let! self := push_event self (Disconnected reason) in
  Ret (self, w, false).

(** The event goes to the application, and received data with it. *)
Definition conn_report (self : Ble) (ev : ConnEvent) : outcome Ble :=
  let! self :=
    match ev with
    | EvControl op => push_event self (LlControl op)
    | EvL2cap cid => push_event self (L2cap cid)
    | _ => Ret self
    end in
  match b_conn self with
  | Some conn =>
      if (0 <? cn_rx_data_len conn)%nat then
        push_event (set_b_conn (Some (set_rx_data_len 0 conn)) self) ConnData
      else Ret self
  | None => Ret self
  end.

Definition conn_tick (fuel : nat) (self : Ble) (w : World) : run (Ble * World * bool) :=
  let* (self, w, o) := conn_outcome fuel self w in
  match o with
  | inl reason => lift (conn_closed self w reason)
  | inr ev => do* self := conn_report self ev in Done (self, w, true)
  end.

Section forever.
Context {S : Type} (on_event : Ble -> World -> S -> BleEvent -> run (Ble * World * S)).

Fixpoint conn_forever (fuel : nat) (self : Ble) (w : World) (s : S) : run (Ble * World * S) :=
  match fuel with
  | O => OutOfFuel
  | Datatypes.S fuel' =>
      let* (self, w, open) := conn_tick fuel' self w in
      let* (self, w, s) := drain_events on_event fuel' self w s in
      if open : bool then conn_forever fuel' self w s else Done (self, w, s)
  end.

End forever.
End driver.
