(* ===== verification/DriverInv.v ===== *)
(** The connection driver, proved: supervision, which events reach the
    application, what is left of received data, and the stack's invariant. *)

From stdpp Require Import base numbers list.
From S2P Require Import Prelude Errors Channels Timers Addr Ad Pdu Events EventQueue Hci.
From S2P Require Import BondStore Crypto Smp Ccm Gatt Conn Att CocChannel SmpChannel L2cap.
From S2P Require Import Frame Radio LinkLayer LinkInv LinkEvents Ble BleInv Advertiser Driver.

(** ** Specification *)

(** Several events, one after the other. *)
Definition push_all (r : EventRing BleEvent) (es : list BleEvent)
    : outcome (EventRing BleEvent) :=
  foldl (fun m e => let! r := m in ring_push EVENT_QUEUE_LEN r e) (Ret r) es.

(** What a connection event is reported as, and received data after it. *)
Definition reports (ev : ConnEvent) (c : Conn) : list BleEvent :=
  match ev with
  | EvControl op => [LlControl op]
  | EvL2cap cid => [L2cap cid]
  | _ => []
  end ++ (if (0 <? cn_rx_data_len c)%nat then [ConnData] else []).

(** The connection has been silent for too long, as the driver computes it. *)
Definition expired (c : Conn) (t : Z) : bool :=
  (t <? cn_last_rx c) || (cn_timeout c * 313 <=? t - cn_last_rx c).

Section driver.
Context `{Hcrypto : Crypto, Hccm : CcmHw, Henv : Env}.

(** ** Lemmas *)

(** The driver's comparison is made on 32 bits, the timer has 24. *)
Lemma expired_spec c t : wf_link c -> 0 <= t < 2 ^ 24 ->
  mul_u32 (cn_timeout c) 313 = Ret (cn_timeout c * 313) /\
  (cn_timeout c * 313 <=? wrapping_sub32 t (cn_last_rx c)) = expired c t.
Proof.
  intros Hc Ht. pose proof (lo_timeout _ (wl_link c Hc)) as Hto.
  pose proof (lo_last_rx _ (wl_link c Hc)) as Hl. cbn [link lk_timeout lk_last_rx] in *.
  change (2 ^ 24) with 16777216 in *. unfold is_u16 in Hto. split; [apply mul_u32_Ret; lia|].
  unfold expired, wrapping_sub32, u32. destruct (Z.ltb_spec t (cn_last_rx c)); cbn [orb].
  - apply Z.leb_le. change (2 ^ 24) with 16777216 in *. Z.div_mod_to_equations. lia.
  - by rewrite Z.mod_small by lia.
Qed.

Lemma conn_closed_Ret s w reason : wf_ble s -> exists s' r,
  conn_closed s w reason = Ret (s', radio_init w, false) /\ wf_ble s' /\ b_conn s' = None /\
  ring_push EVENT_QUEUE_LEN (b_events s) (Disconnected reason) = Ret r /\ b_events s' = r.
Proof.
  intros Hs. unfold conn_closed. cbv zeta.
  destruct (push_event_Ret (set_b_conn None s) (Disconnected reason)) as (r & -> & E & H);
    [by apply set_b_conn_None_wf|done|]. rewrite obind_Ret.
  by exists (set_b_events r (set_b_conn None s)), r.
Qed.

(** Reporting an event of connection [c]: afterwards no data is left to read. *)
Lemma conn_report_Ret s ev c : wf_ble s -> b_conn s = Some c -> exists s',
  conn_report s ev = Ret s' /\ wf_ble s' /\ b_conn s' = Some (set_rx_data_len 0 c) /\
  push_all (b_events s) (reports ev c) = Ret (b_events s').
Proof.
  intros Hs Ec. unfold conn_report, reports.
  set (es := match ev with EvControl op => [LlControl op] | EvL2cap cid => [L2cap cid] | _ => [] end).
  assert (H : exists r, match ev with
      | EvControl op => push_event s (LlControl op)
      | EvL2cap cid => push_event s (L2cap cid)
      | _ => Ret s end = Ret (set_b_events r s) /\ wf_ble (set_b_events r s) /\
      push_all (b_events s) es = Ret r).
  { assert (Hst : exists r, Ret s = Ret (set_b_events r s) /\ wf_ble (set_b_events r s) /\
      push_all (b_events s) [] = Ret r) by (exists (b_events s); by destruct s).
    assert (Hp : forall e, event_wf e -> exists r, push_event s e = Ret (set_b_events r s) /\
      wf_ble (set_b_events r s) /\ push_all (b_events s) [e] = Ret r).
    { intros e He. destruct (push_event_Ret s e Hs He) as (r & E1 & E2 & H1).
      exists r. by rewrite E1. }
    destruct ev; first [exact Hst|by apply Hp]. }
  destruct H as (r & -> & H1 & E1). rewrite obind_Ret.
  change (b_conn (set_b_events r s)) with (b_conn s). rewrite Ec.
  pose proof (wb_conn s Hs c Ec) as Hc.
  destruct (Nat.ltb_spec 0 (cn_rx_data_len c)) as [H0|H0].
  - assert (H2 : wf_ble (set_b_conn (Some (set_rx_data_len 0 c)) (set_b_events r s))).
    { apply set_b_conn_wf; [done|]. exact (host_step_wf c _ Hc (host_read c)). }
    destruct (push_event_Ret _ ConnData H2 I) as (r2 & -> & E2 & H3).
    eexists. split; [done|]. split; [done|]. split; [done|].
    unfold push_all in *. rewrite foldl_app, E1. exact E2.
  - exists (set_b_events r s). split; [done|]. split; [done|]. rewrite app_nil_r.
    split; [|exact E1]. change (b_conn (set_b_events r s)) with (b_conn s). rewrite Ec.
    f_equal. replace 0%nat with (cn_rx_data_len c) by lia. by destruct c.
Qed.

(** A tick of a connection. *)
Lemma conn_tick_cases fuel s w c : wf_ble s -> b_conn s = Some c ->
  conn_tick fuel s w =
  if expired c (env_now (w_reads w)) then lift (conn_closed s (fst (now w)) SupervisionTimeout)
  else
    let* (c', w1, r) := event fuel c (fst (now w)) in
    let s1 := set_b_conn (Some c') s in
    match r with
    | Ok (EvDisconnected reason) => lift (conn_closed s1 w1 reason)
    | Ok ev => do* s2 := conn_report s1 ev in Done (s2, w1, true)
    | Err _ => lift (conn_closed s1 w1 LocalError)
    end.
Proof.
  intros Hs Ec. unfold conn_tick, conn_outcome. rewrite Ec. cbn [now fst].
  destruct (expired_spec c (env_now (w_reads w)) (wb_conn s Hs c Ec) (env_now_range _))
    as [Em Ee]. cbv zeta. rewrite Em, lift_Ret, rbind_Done, Ee.
  destruct (expired _ _); [done|].
  destruct (event fuel c _) as [[[c' w1] r]| |]; [|done..]. cbn [rbind].
  by destruct r as [[| | | |]|].
Qed.

(** What a tick leaves: a closed link, or an open one with its event reported. *)
Definition ticked_ok (fuel : nat) (s : Ble) (w : World) (x : Ble * World * bool) : Prop :=
  let '(s', w', open) := x in wf_ble s' /\
  if open then exists c c' ev, b_conn s = Some c /\
    event fuel c (fst (now w)) = Done (c', w', Ok ev) /\
    push_all (b_events s) (reports ev c') = Ret (b_events s') /\
    b_conn s' = Some (set_rx_data_len 0 c')
  else b_conn s' = None.

Lemma closed_ok fuel s w s1 w1 reason x : wf_ble s1 ->
  lift (conn_closed s1 w1 reason) = Done x -> ticked_ok fuel s w x.
Proof.
  intros H1. destruct (conn_closed_Ret s1 w1 reason H1) as (s2 & r & -> & H2 & H3 & _).
  by intros [= <-].
Qed.

Lemma conn_tick_ok fuel s w x : wf_ble s -> conn_tick fuel s w = Done x ->
  ticked_ok fuel s w x.
Proof.
  intros Hs. destruct (b_conn s) as [c|] eqn:Ec.
  2: { unfold conn_tick, conn_outcome. rewrite Ec, rbind_Done. by apply closed_ok. }
  rewrite (conn_tick_cases fuel s w c Hs Ec). destruct (expired _ _); [by apply closed_ok|].
  pose proof (event_safe fuel c (fst (now w)) (wb_conn s Hs c Ec)) as Sf.
  destruct (event fuel c _) as [[[c' w1] r]| |] eqn:Ee; [|done..].
  cbn [rbind safe_run fst] in *. cbv zeta. pose proof (set_b_conn_wf s c' Hs Sf) as H1.
  assert (Hrep : forall ev, r = Ok ev -> (do* s2 := conn_report (set_b_conn (Some c') s) ev in
    Done (s2, w1, true)) = Done x -> ticked_ok fuel s w x).
  { intros ev ->. destruct (conn_report_Ret _ ev c' H1 eq_refl) as (s2 & -> & H2 & H3 & H4).
    intros [= <-]. split; [done|]. by exists c, c', ev. }
  destruct r as [[| | | |]|]; [by apply Hrep..|by apply closed_ok|by apply closed_ok].
Qed.

(** ** Properties *)

(** C26. Supervision, exactly: a tick closes the link with a supervision timeout,
    before any event, when the time since the last packet reaches 313 ticks for
    each unit of the timeout, and also whenever the 24-bit timer has wrapped
    since the last packet, however recent that was; otherwise the connection
    event runs, and unless it ends the connection the link stays open. *)
Theorem supervision_exact fuel s w c : wf_ble s -> b_conn s = Some c ->
  let t := env_now (w_reads w) in
  if (t <? cn_last_rx c) || (cn_timeout c * 313 <=? t - cn_last_rx c) then
    exists s' r, conn_tick fuel s w = Done (s', radio_init (fst (now w)), false) /\
      b_conn s' = None /\
      ring_push EVENT_QUEUE_LEN (b_events s) (Disconnected SupervisionTimeout) = Ret r /\
      b_events s' = r
  else forall c' w1 r, event fuel c (fst (now w)) = Done (c', w1, r) ->
    match r with
    | Ok (EvDisconnected _) | Err _ =>
        exists s', conn_tick fuel s w = Done (s', radio_init w1, false) /\ b_conn s' = None
    | Ok _ => exists s' c2, conn_tick fuel s w = Done (s', w1, true) /\ b_conn s' = Some c2
    end.
Proof.
  intros Hs Ec t. rewrite (conn_tick_cases fuel s w c Hs Ec). fold t.
  change ((t <? cn_last_rx c) || _) with (expired c t). destruct (expired c t).
  - destruct (conn_closed_Ret s (fst (now w)) SupervisionTimeout Hs)
      as (s' & r & -> & _ & H2 & H3). by exists s', r.
  - intros c' w1 r E. pose proof (event_safe fuel c (fst (now w)) (wb_conn s Hs c Ec)) as Sf.
    rewrite E in *. cbn [rbind safe_run fst] in *. cbv zeta.
    pose proof (set_b_conn_wf s c' Hs Sf) as H1.
    assert (Hcl : forall reason, exists s',
      lift (conn_closed (set_b_conn (Some c') s) w1 reason) = Done (s', radio_init w1, false) /\
      b_conn s' = None).
    { intros reason. destruct (conn_closed_Ret _ w1 reason H1) as (s2 & r2 & -> & _ & H2 & _).
      by exists s2. }
    assert (Hrep : forall ev, exists s' c2, (do* s2 := conn_report (set_b_conn (Some c') s) ev in
      Done (s2, w1, true)) = Done (s', w1, true) /\ b_conn s' = Some c2).
    { intros ev. destruct (conn_report_Ret _ ev c' H1 eq_refl) as (s2 & -> & _ & H2 & _).
      by eauto. }
    destruct r as [[| | | |]|]; [apply Hrep..|apply Hcl|apply Hcl].
Qed.

(** Received data is announced and lost: a tick that keeps the link open
    reports the event's control PDU or channel, and then [ConnData] exactly when
    the connection holds data its peer wrote; but it has cleared the length by
    then, so after every such tick the application reads nothing. *)
Theorem conn_data_lost fuel s w s' w' : wf_ble s ->
  conn_tick fuel s w = Done (s', w', true) ->
  exists c c' ev, b_conn s = Some c /\ event fuel c (fst (now w)) = Done (c', w', Ok ev) /\
    push_all (b_events s) (reports ev c') = Ret (b_events s') /\
    conn_rx_data s' = Ret [].
Proof.
  intros Hs E. destruct (conn_tick_ok fuel s w _ Hs E) as (_ & c & c' & ev & H1 & H2 & H3 & H4).
  exists c, c', ev. split; [done|]. split; [done|]. split; [done|].
  unfold conn_rx_data. by rewrite H4.
Qed.

End driver.

(** ** Examples *)

(** A stack with a connection. *)
Definition connected (c : Conn) : Ble := set_b_conn (Some c) Ble_init.

(** A timer that has just wrapped. *)
Definition wrapped_env : Env := silent_env 5 ltac:(lia).

Lemma supervision_exact_witness :
  exists s', @conn_tick mask_crypto xor_ccm wrapped_env 10
    (connected (set_last_rx 16777000 (sample_conn Slave))) sample_world =
    Done (s', radio_init (fst (@now wrapped_env sample_world)), false) /\ b_conn s' = None.
Proof.
  assert (Hc : wf_link (set_last_rx 16777000 (sample_conn Slave)))
    by (apply wl_last_rx; [apply sample_link|lia]).
  destruct (@supervision_exact mask_crypto xor_ccm wrapped_env 10
    (connected (set_last_rx 16777000 (sample_conn Slave))) sample_world
    (set_last_rx 16777000 (sample_conn Slave))
    (set_b_conn_wf Ble_init _ Ble_init_wf Hc) eq_refl) as (s' & r & E & H & _).
  by exists s'.
Defined.

