(* ===== verification/Stack.v ===== *)
(** The stack as a whole: its invariant over every sequence of calls and ticks,
    the blocking loops with the application's callback, the HCI layer on top of
    it, and what the width of the timer does to it. *)

From stdpp Require Import base numbers list relations.
From S2P Require Import Prelude Errors Channels Timers Addr Ad Pdu Events EventQueue Hci.
From S2P Require Import BondStore Crypto Smp Ccm Gatt Conn Att CocChannel SmpChannel L2cap.
From S2P Require Import Frame Radio LinkLayer LinkInv LinkEvents LinkTime Ble BleInv.
From S2P Require Import Advertiser AdvInv Scanner ScanInv Air Driver DriverInv.

(** ** Calls and ticks *)

Section stack.
Context `{Hcrypto : Crypto, Hccm : CcmHw, Henv : Env}.

(** One call of the application, with arguments of their types, a wait for the
    compare event, or one tick. *)
Inductive ble_step : Ble * World -> Ble * World -> Prop :=
| do_address s w a t : is_addr a -> ble_step (s, w) (gap_address_set s a t, w)
| do_configure s w d r s' e : gap_adv_set_configure s d r = Ret (s', e) -> ble_step (s, w) (s', w)
| do_accept_add s w a t s' b : gap_accept_list_add s a t = Ret (s', b) -> ble_step (s, w) (s', w)
| do_accept_clear s w : ble_step (s, w) (gap_accept_list_clear s, w)
| do_privacy s w k : ble_step (s, w) (gap_privacy_set s k, w)
| do_rotate s w s' w' b : gap_rotate_rpa s w = Ret (s', w', b) -> ble_step (s, w) (s', w')
| do_tx_power s w p : ble_step (s, w) (gap_tx_power_set s w p)
| do_adv_start s w p s' w' e : wf_adv p -> gap_adv_start s w p = Ret (s', w', e) ->
    ble_step (s, w) (s', w')
| do_adv_stop s w : ble_step (s, w) (fst (gap_adv_stop s), w)
| do_scan_start s w p s' w' e : wf_scan p -> gap_scan_start s w p = Ret (s', w', e) ->
    ble_step (s, w) (s', w')
| do_scan_stop s w : ble_step (s, w) (fst (gap_scan_stop s), w)
| do_connect s w a t s' w' e : is_addr a -> gap_connect s w a t = Ret (s', w', e) ->
    ble_step (s, w) (s', w')
| do_encrypt s w s' e : gap_encrypt s = Ret (s', e) -> ble_step (s, w) (s', w)
| do_bond_save s w p l i : wf_bond (mkBondInfo p l i) -> ble_step (s, w) (gap_bond_save s p l i, w)
| do_next_event s w s' e : next_event s = Ret (s', e) -> ble_step (s, w) (s', w)
| do_send s w d s' e : conn_send s d = Ret (s', e) -> ble_step (s, w) (s', w)
| do_l2cap_connect s w p s' e : ble_l2cap_connect s p = Ret (s', e) -> ble_step (s, w) (s', w)
| do_l2cap_send s w d s' e : ble_l2cap_send s d = Ret (s', e) -> ble_step (s, w) (s', w)
| do_pair s w s' e : gap_pair s = Ret (s', e) -> ble_step (s, w) (s', w)
| do_services s w s' e : gatt_discover_primary_services s = Ret (s', e) -> ble_step (s, w) (s', w)
| do_characteristics s w a b s' e : gatt_discover_characteristics s a b = Ret (s', e) ->
    ble_step (s, w) (s', w)
| do_read s w h s' e : gatt_read s h = Ret (s', e) -> ble_step (s, w) (s', w)
| do_write s w h d s' e : gatt_write s h d = Ret (s', e) -> ble_step (s, w) (s', w)
| do_subscribe s w h s' e : gatt_subscribe s h = Ret (s', e) -> ble_step (s, w) (s', w)
| do_poll s w s' r : gatt_poll s = Ret (s', r) -> ble_step (s, w) (s', w)
| do_terminate s w : ble_step (s, w) (fst (gap_terminate s), w)
| do_wait fuel s w w' : wait_compare fuel w = Done w' -> ble_step (s, w) (s, w')
| do_adv_tick fuel s w s' w' : adv_tick fuel s w = Done (s', w') -> ble_step (s, w) (s', w')
| do_scan_tick fuel s w s' w' : scan_tick fuel s w = Done (s', w') -> ble_step (s, w) (s', w')
| do_conn_tick fuel s w s' w' b : conn_tick fuel s w = Done (s', w', b) ->
    ble_step (s, w) (s', w').

(** ** The invariant *)

Lemma gives_Ret {A} (m : outcome A) a P : m = Ret a -> gives m P -> P a.
Proof. by intros ->. Qed.

(** The result of a call, by the call's lemma. *)
Ltac called L :=
  match goal with
  | E : _ = Ret _ |- _ =>
      eapply gives_Ret in E; [|by apply L]; cbn [fst] in E; first [exact E|apply E]
  end.

Lemma ble_step_wf x y : wf_ble (fst x) -> ble_step x y -> wf_ble (fst y).
Proof.
  intros Hs Hst. destruct Hst; cbn [fst] in *.
  - by apply gap_address_set_wf.
  - called gap_adv_set_configure_ok.
  - called gap_accept_list_add_ok.
  - by apply gap_accept_list_clear_wf.
  - by apply gap_privacy_set_wf.
  - called gap_rotate_rpa_ok.
  - done.
  - called gap_adv_start_ok.
  - by apply gap_adv_stop_wf.
  - called gap_scan_start_ok.
  - by apply gap_scan_stop_wf.
  - called gap_connect_ok.
  - called gap_encrypt_ok.
  - by apply gap_bond_save_wf.
  - match goal with E : next_event _ = _ |- _ => rename E into En end.
    destruct (next_event_Ret s Hs) as (s1 & e1 & E & _ & H1 & _). rewrite E in En.
    by injection En as <- _.
  - called conn_send_ok.
  - called ble_l2cap_connect_ok.
  - called ble_l2cap_send_ok.
  - called gap_pair_ok.
  - called gatt_discover_primary_services_ok.
  - called gatt_discover_characteristics_ok.
  - called gatt_read_ok.
  - called gatt_write_ok.
  - called gatt_subscribe_ok.
  - called gatt_poll_ok.
  - by apply gap_terminate_wf.
  - done.
  - pose proof (adv_tick_runs fuel s w Hs) as R.
    by match goal with E : _ = Done _ |- _ => rewrite E in R end.
  - pose proof (scan_tick_runs fuel s w Hs) as R.
    match goal with E : _ = Done _ |- _ => rewrite E in R end. exact (proj1 R).
  - match goal with E : _ = Done _ |- _ => exact (proj1 (conn_tick_ok _ _ _ _ Hs E)) end.
Qed.
Lemma reachable_ble x y : wf_ble (fst x) -> rtc ble_step x y -> wf_ble (fst y).
Proof. intros Hs. induction 1; eauto using ble_step_wf. Qed.

Lemma runs_no_fault {A} (m : run A) P f : runs m P -> m <> Fault f.
Proof. by destruct m. Qed.

(** The calls that change the stack return: the ones on a connection too. *)
Definition calls_return (s : Ble) (w : World) : Prop :=
  (forall d r, gap_adv_set_configure s d r <> Panic) /\
  (forall a t, gap_accept_list_add s a t <> Panic) /\
  gap_rotate_rpa s w <> Panic /\
  (forall p, wf_adv p -> gap_adv_start s w p <> Panic) /\
  (forall p, wf_scan p -> gap_scan_start s w p <> Panic) /\
  (forall a t, is_addr a -> gap_connect s w a t <> Panic) /\
  next_event s <> Panic /\ adv_pdu_snapshot s <> Panic /\ conn_rx_data s <> Panic /\
  gap_encrypt s <> Panic /\ gap_pair s <> Panic /\ gatt_poll s <> Panic /\
  (forall d, conn_send s d <> Panic) /\ (forall p, ble_l2cap_connect s p <> Panic) /\
  (forall d, ble_l2cap_send s d <> Panic) /\ gatt_discover_primary_services s <> Panic /\
  (forall a b, gatt_discover_characteristics s a b <> Panic) /\
  (forall h, gatt_read s h <> Panic) /\ (forall h d, gatt_write s h d <> Panic) /\
  (forall h, gatt_subscribe s h <> Panic).

Lemma gives_returns {A} (m : outcome A) P : gives m P -> m <> Panic.
Proof. by destruct m. Qed.

Lemma wf_calls_return s w : wf_ble s -> calls_return s w.
Proof.
  intros Hs. unfold calls_return. repeat split; intros.
  - by eapply gives_returns, gap_adv_set_configure_ok.
  - by eapply gives_returns, gap_accept_list_add_ok.
  - by eapply gives_returns, gap_rotate_rpa_ok.
  - by eapply gives_returns, gap_adv_start_ok.
  - by eapply gives_returns, gap_scan_start_ok.
  - by eapply gives_returns, gap_connect_ok.
  - by destruct (next_event_Ret s Hs) as (? & ? & -> & _).
  - unfold adv_pdu_snapshot. destruct (wb_tx s Hs). by rewrite slice_to_Ret by lia.
  - by eapply gives_returns, conn_rx_data_ok.
  - by eapply gives_returns, gap_encrypt_ok.
  - by eapply gives_returns, gap_pair_ok.
  - by eapply gives_returns, gatt_poll_ok.
  - by eapply gives_returns, conn_send_ok.
  - by eapply gives_returns, ble_l2cap_connect_ok.
  - by eapply gives_returns, ble_l2cap_send_ok.
  - by eapply gives_returns, gatt_discover_primary_services_ok.
  - by eapply gives_returns, gatt_discover_characteristics_ok.
  - by eapply gives_returns, gatt_read_ok.
  - by eapply gives_returns, gatt_write_ok.
  - by eapply gives_returns, gatt_subscribe_ok.
Qed.

(** ** The blocking loops *)

Section forever.
Context {S : Type} (on_event : Ble -> World -> S -> BleEvent -> run (Ble * World * S)).

(** A callback that uses the stack as intended. *)
Hypothesis callback_ok : forall s w st e, wf_ble s -> event_wf e ->
  runs (on_event s w st e) (fun r => wf_ble (fst (fst r))).

Lemma wait_compare_runs fuel w : runs (wait_compare fuel w) (fun _ => True).
Proof.
  revert w. induction fuel as [|fuel IH]; intros w; [done|].
  cbn [wait_compare compare_pending]. destruct (env_compare _); [done|apply IH].
Qed.

Lemma drain_events_runs fuel s w st : wf_ble s ->
  runs (drain_events on_event fuel s w st) (fun r => wf_ble (fst (fst r))).
Proof.
  revert s w st. induction fuel as [|fuel IH]; intros s w st Hs; [done|].
  cbn [drain_events]. destruct (next_event_Ret s Hs) as (s1 & e & -> & _ & H1 & He).
  rewrite lift_Ret, rbind_Done. destruct e as [e|]; [|exact H1].
  eapply runs_bind; [apply callback_ok, He; exact H1|]. intros [[s2 w2] st2] H2. by apply IH.
Qed.

Lemma adv_forever_runs fuel s w st : wf_ble s ->
  runs (adv_forever on_event fuel s w st)
    (fun r => wf_ble (fst (fst r)) /\ b_adv_state (fst (fst r)) = AdvIdle).
Proof.
  revert s w st. induction fuel as [|fuel IH]; intros s w st Hs; [done|]. cbn [adv_forever].
  eapply runs_bind; [apply wait_compare_runs|].
  intros w1 _. eapply runs_bind; [by apply adv_tick_runs|]. intros [s2 w2] H2.
  eapply runs_bind; [by apply drain_events_runs|]. intros [[s3 w3] st3] H3.
  case_bool_decide; [by split|by apply IH].
Qed.

Lemma scan_forever_runs fuel s w st : wf_ble s ->
  runs (scan_forever on_event fuel s w st)
    (fun r => wf_ble (fst (fst r)) /\ b_scan_state (fst (fst r)) = ScanIdle).
Proof.
  revert s w st. induction fuel as [|fuel IH]; intros s w st Hs; [done|]. cbn [scan_forever].
  eapply runs_bind; [apply wait_compare_runs|].
  intros w1 _. eapply runs_bind; [by apply scan_tick_runs|]. intros [s2 w2] [H2 _].
  eapply runs_bind; [by apply drain_events_runs|]. intros [[s3 w3] st3] H3.
  case_bool_decide; [by split|by apply IH].
Qed.

End forever.
End stack.

(** ** The HCI layer's stack *)

Section host.
Context `{Hcrypto : Crypto, Hccm : CcmHw, Henv : Env}.

(** The calls the HCI layer makes, on the stack with its hardware. *)
Definition host_event (x : Ble * World) : outcome (Ble * World * option BleEvent) :=
  let! (s, e) := next_event (fst x) in Ret (s, snd x, e).
Definition host_configure (x : Ble * World) (d r : list Z)
    : outcome (Ble * World * result unit Error) :=
  let! (s, e) := gap_adv_set_configure (fst x) d r in Ret (s, snd x, e).
Definition host_advertise (x : Ble * World) (p : AdvParams)
    : outcome (Ble * World * result unit Error) := gap_adv_start (fst x) (snd x) p.
Definition host_scan (x : Ble * World) (p : ScanParams)
    : outcome (Ble * World * result unit Error) := gap_scan_start (fst x) (snd x) p.
Definition host_initiate (x : Ble * World) (a : list Z) (t : AddrType)
    : outcome (Ble * World * result unit Error) := gap_connect (fst x) (snd x) a t.

(** The stack is what the layer expects of it. *)
#[export] Program Instance stack_host : BleHost (Ble * World) := {
  host_next_event := host_event;
  host_conn_is_master x := conn_is_master (fst x);
  host_adv_set_configure := host_configure;
  host_adv_start := host_advertise;
  host_adv_stop x := (fst (gap_adv_stop (fst x)), snd x, snd (gap_adv_stop (fst x)));
  host_scan_start := host_scan;
  host_scan_stop x := (fst (gap_scan_stop (fst x)), snd x, snd (gap_scan_stop (fst x)));
  host_connect := host_initiate;
  host_inv x := wf_ble (fst x);
  host_pending x := pending (fst x)
}.
Next Obligation.
  intros [s w] Hs. unfold host_event. cbn [fst snd] in *.
  destruct (next_event_Ret s Hs) as (s1 & e & -> & _ & H1 & He). exists (s1, w), e.
  split; [done|]. split; [done|]. destruct e; [exact He|]. by subst s1.
Qed.
Next Obligation.
  intros [s w] d Hs Hd. unfold host_configure. cbn [fst snd] in *.
  destruct (gives_exists _ _ (gap_adv_set_configure_ok s d [] Hs)) as ([s1 e] & -> & H1 & _).
  by exists (s1, w), e.
Qed.
Next Obligation.
  intros [s w] Hs. unfold host_advertise. cbn [fst snd] in *.
  destruct (gives_exists _ _ (gap_adv_start_ok s w AdvParams_default Hs ltac:(by split)))
    as ([[s1 w1] e] & -> & H1 & _). by exists (s1, w1), e.
Qed.
Next Obligation. intros x Hs. by apply gap_adv_stop_wf. Qed.
Next Obligation.
  intros [s w] Hs. unfold host_scan. cbn [fst snd] in *.
  destruct (gives_exists _ _ (gap_scan_start_ok s w ScanParams_default Hs ltac:(by split)))
    as ([[s1 w1] e] & -> & H1 & _). by exists (s1, w1), e.
Qed.
Next Obligation. intros x Hs. by apply gap_scan_stop_wf. Qed.
Next Obligation.
  intros [s w] a t Hs Ha. unfold host_initiate. cbn [fst snd] in *.
  destruct (gives_exists _ _ (gap_connect_ok s w a t Hs Ha)) as ([[s1 w1] e] & -> & H1).
  by exists (s1, w1), e.
Qed.

(** One packet, and the events it leads to. *)
Definition serve_one (h : Hci) (x : Ble * World) (p : HciPacket) : run (Hci * (Ble * World)) :=
  do* (h, x) := on_packet h x p in tick h x.

Fixpoint serve (h : Hci) (x : Ble * World) (ps : list HciPacket)
    : run (Hci * (Ble * World)) :=
  match ps with
  | [] => Done (h, x)
  | p :: ps => let* (h, x) := serve_one h x p in serve h x ps
  end.

(** The transport's bytes, each packet served when its last byte has come. *)
Fixpoint serve_bytes (h : Hci) (x : Ble * World) (bs : list Z)
    : run (Hci * (Ble * World)) :=
  match bs with
  | [] => Done (h, x)
  | b :: bs =>
      do* (h, p) := Hci_feed h b in
      let* (h, x) := match p with Some p => serve_one h x p | None => Done (h, x) end in
      serve_bytes h x bs
  end.

(** What every packet the framer completes is: its buffer, and at least three
    bytes when it is a command. *)
Definition completed (p : HciPacket) : Prop :=
  length (hp_payload p) = 260%nat /\ (hp_len p <= 260)%nat /\
  (hp_packet_type p = HCI_COMMAND -> (3 <= hp_len p)%nat).

Lemma feed_arm_completes f b t hdr ex f' o : length (fr_buf f) = 260%nat ->
  feed_arm f b t hdr ex = Ret (f', o) ->
  length (fr_buf f') = 260%nat /\
  match o with
  | Some p => hp_packet_type p = t /\ length (hp_payload p) = 260%nat /\
      (hdr <= hp_len p <= 260)%nat
  | None => True
  end.
Proof.
  intros Hl. unfold feed_arm, set_idx. destruct (Nat.ltb_spec (fr_buf_len f) (length (fr_buf f)))
    as [Hi|]; [|done]. cbn [obind]. rewrite Hl in Hi.
  assert (Hb : length (<[fr_buf_len f:=b]> (fr_buf f)) = 260%nat) by (by rewrite length_insert).
  cbn [fr_buf_len fr_packet_type fr_expected fr_buf].
  destruct (_ =? hdr)%nat; [destruct (ex _) as [e|]; [|done]|]; cbn [obind fr_buf_len
    fr_packet_type fr_expected fr_buf]; destruct (_ && _) eqn:E; intros [= <- <-];
    (split; [exact Hb|]); try done;
    apply andb_true_iff in E as [E1%Nat.eqb_eq E2%Nat.leb_le];
    cbn [hp_packet_type hp_payload hp_len H4Framer_reset fr_buf fr_buf_len];
    (split; [done|]); (split; [exact Hb|]); lia.
Qed.

Lemma feed_completes f b f' o : length (fr_buf f) = 260%nat ->
  H4Framer_feed f b = Ret (f', o) ->
  length (fr_buf f') = 260%nat /\ match o with Some p => completed p | None => True end.
Proof.
  intros Hl. unfold H4Framer_feed.
  destruct (fr_packet_type f) as [t|]; [|destruct (_ || _); by intros [= <- <-]].
  destruct (t =? _); [|destruct (t =? _); [|destruct (t =? _); [|by intros [= <- <-]]]];
    intros [Hb Ho]%feed_arm_completes; (done || (split; [done|])); destruct o as [p|]; try done;
    destruct Ho as (Ht & Hp & Hn); (split; [done|]); (split; [lia|]); rewrite Ht; intros; (lia || done).
Qed.

Lemma on_packet_ok h (x : Ble * World) p : hci_ok h -> host_inv x -> completed p ->
  exists h' x', on_packet h x p = Ret (h', x') /\ hci_ok h' /\ host_inv x' /\
    hci_framer h' = hci_framer h.
Proof.
  intros Hh Hx (Hp & Hl & Hc). unfold on_packet.
  destruct (Z.eqb_spec (hp_packet_type p) HCI_COMMAND) as [Ht|].
  - specialize (Hc Ht). destruct (hp_payload p) as [|b0 [|b1 rest]] eqn:Ep; [done..|].
    destruct (handle_command_Ret h x p b0 b1 rest Hh Hx Ep)
      as (h' & x' & e & E & _ & _ & H1 & H2); [rewrite Ep; lia|].
    pose proof (handle_command_framer h x p) as F. rewrite E in F. by exists h', x'.
  - destruct (_ =? HCI_ACL_DATA); by exists h, x.
Qed.

Lemma serve_one_ok h x p : hci_ok h -> host_inv x -> completed p ->
  exists h' x', serve_one h x p = Done (h', x') /\ drained x' /\ hci_ok h' /\ host_inv x' /\
    hci_framer h' = hci_framer h.
Proof.
  intros Hh Hx Hp. unfold serve_one.
  destruct (on_packet_ok h x p Hh Hx Hp) as (h1 & x1 & -> & H1 & H2 & F1).
  rewrite lift_Ret, rbind_Done.
  destruct (hci_tick_drains h1 x1 H1 H2) as (h2 & x2 & -> & H3 & H4 & H5 & F2).
  exists h2, x2. repeat (split; [done|]). congruence.
Qed.

(** Serving bytes is framing them: it panics exactly when that does. *)
Lemma serve_bytes_ok bs h x : hci_ok h -> host_inv x -> drained x ->
  length (fr_buf (hci_framer h)) = 260%nat ->
  match feed_all (hci_framer h) bs with
  | Panic => serve_bytes h x bs = Fault Panicking
  | Ret (f, _) => exists h' x', serve_bytes h x bs = Done (h', x') /\ hci_framer h' = f /\
      drained x' /\ hci_ok h' /\ host_inv x'
  end.
Proof.
  revert h x. induction bs as [|b bs IH]; intros h x Hh Hx Hd Hl; [by exists h, x|].
  cbn [feed_all serve_bytes]. unfold Hci_feed.
  destruct (H4Framer_feed (hci_framer h) b) as [[f o]|] eqn:E; [|done].
  destruct (feed_completes _ _ _ _ Hl E) as [Hf Ho]. cbn [obind].
  rewrite lift_Ret, rbind_Done. set (h1 := mkHci f _ _ _ _ _ _).
  assert (H1 : hci_ok h1) by exact Hh.
  assert (Hstep : exists h2 x2, match o with Some p => serve_one h1 x p | None => Done (h1, x) end =
    Done (h2, x2) /\ drained x2 /\ hci_ok h2 /\ host_inv x2 /\ hci_framer h2 = f).
  { destruct o as [p|]; [by apply serve_one_ok|by exists h1, x]. }
  destruct Hstep as (h2 & x2 & -> & H2 & H3 & H4 & F). rewrite rbind_Done.
  specialize (IH h2 x2 H3 H4 H2 ltac:(by rewrite F)). rewrite F in IH.
  by destruct (feed_all f bs) as [[f' os]|].
Qed.

(** ** Advertising over HCI *)

(** The bytes of the command that sets the advertising data, and of the one that
    enables advertising. *)
Definition set_data_command (d : list Z) : list Z :=
  [0x08; 0x20; 32; Z.of_nat (length d)] ++ d ++ replicate (31 - length d) 0.
Definition enable_command : list Z := [0x0A; 0x20; 1; 1].

(** A command packet of these bytes, at the front of the packet's buffer. *)
Definition holds (p : HciPacket) (bs : list Z) : Prop :=
  hp_packet_type p = HCI_COMMAND /\ hp_len p = length bs /\
  exists rest, hp_payload p = bs ++ rest.

(** The layer's reads of a command. *)
Lemma command_fields p b0 b1 n params : holds p (b0 :: b1 :: n :: params) ->
  idx (hp_payload p) 0 = Ret b0 /\ idx (hp_payload p) 1 = Ret b1 /\
  slice (hp_payload p) 3 (hp_len p) = Ret params.
Proof.
  intros (_ & Hl & rest & Hp). rewrite Hl, Hp. split; [done|]. split; [done|].
  rewrite slice_Ret by len. f_equal. cbn [app drop length Nat.sub].
  by rewrite drop_0, Nat.sub_0_r, take_app_length.
Qed.

(** Setting the data: they are the stack's from then on. *)
Lemma set_data_served h s w p d : hci_ok h -> wf_ble s -> (length d <= 31)%nat ->
  holds p (set_data_command d) ->
  exists h' s', handle_command h (s, w) p = Ret (h', (s', w)) /\ hci_ok h' /\ wf_ble s' /\
    adv_bytes s' = d /\ b_adv_state s' = b_adv_state s /\ b_own_addr s' = b_own_addr s /\
    b_own_addr_type s' = b_own_addr_type s.
Proof.
  intros Hh Hs Hd Hp. destruct (command_fields p 0x08 0x20 32 _ Hp) as (E0 & E1 & E2).
  unfold handle_command. rewrite E0, E1, !obind_Ret, E2, obind_Ret. cbv zeta.
  set (params := Z.of_nat (length d) :: _).
  change (u8 _ =? OGF_HOST) with false. change (u8 _ =? OGF_LE) with true.
  change (_ =? OCF_LE_SET_ADV_DATA) with true. cbv iota.
  assert (Hl : length params = 32%nat) by (unfold params; len).
  unfold le_set_adv_data. rewrite (proj2 (Nat.leb_le _ _)) by lia.
  change (idx params 0) with (@Ret Z (Z.of_nat (length d))). rewrite obind_Ret.
  rewrite Nat2Z.id, Nat.min_l by lia. rewrite slice_Ret, obind_Ret by lia.
  replace (1 + length d - 1)%nat with (length d) by lia.
  change (drop 1 params) with (d ++ replicate (31 - length d) 0). rewrite take_app_length.
  rewrite copy_at_first, obind_Ret by len. rewrite slice_to_Ret, obind_Ret, take_app_length by len.
  cbn [host_adv_set_configure stack_host]. unfold host_configure. cbn [fst snd].
  pose proof (gap_adv_set_configure_ok s d [] Hs) as G.
  unfold gap_adv_set_configure in *. change LEGACY_AD_DATA_MAX_LEN with 31%nat in *.
  rewrite (proj2 (Nat.ltb_ge _ _) Hd) in *. cbn [length orb] in *.
  change (31 <? 0)%nat with false in *. cbv iota in *.
  destruct (copy_31 (b_adv_data s) d) as (l & El & Hl1 & _); [apply wb_adv_data, Hs|done|].
  rewrite El, obind_Ret in *. cbv zeta in *.
  match goal with |- context [copy_at (b_scan_rsp ?x)] =>
    change (b_scan_rsp x) with (b_scan_rsp s) in * end.
  destruct (copy_31 (b_scan_rsp s) []) as (l2 & El2 & _); [apply wb_scan_rsp, Hs|cbn; lia|].
  cbn [length] in El2. rewrite El2, !obind_Ret in *. destruct G as (H1 & _ & Ed & _).
  destruct (command_complete_Ret h 0x08 0x20 [] Hh) as (h' & e & -> & _ & Hh' & _);
    [cbn; lia|]. rewrite obind_Ret. do 2 eexists. split; [reflexivity|]. split; [done|]. split; [exact H1|]. split; [exact Ed|]. done.
Qed.

(** Enabling: the stack advertises with the default parameters. *)
Lemma enable_served h s w p : hci_ok h -> wf_ble s -> b_adv_state s = AdvIdle ->
  holds p enable_command ->
  exists h' s', handle_command h (s, w) p =
      Ret (h', (s', set_compare (u32 (env_now (w_reads w) + 3125)) (fst (now w)))) /\
    hci_ok h' /\ wf_ble s' /\ adv_bytes s' = adv_bytes s /\ b_adv_state s' = AdvRunning /\
    b_adv_params s' = AdvParams_default /\ b_adv_channel_idx s' = 0%nat /\
    b_own_addr s' = b_own_addr s /\ b_own_addr_type s' = Public.
Proof.
  intros Hh Hs Hi Hp. destruct (command_fields p 0x0A 0x20 1 [1] Hp) as (E0 & E1 & E2).
  unfold handle_command. rewrite E0, E1, !obind_Ret, E2, obind_Ret. cbv zeta.
  change (u8 _ =? OGF_HOST) with false. change (u8 _ =? OGF_LE) with true.
  change (_ =? OCF_LE_SET_ADV_DATA) with false. change (_ =? OCF_LE_SET_ADV_PARAMS) with false.
  change (_ =? OCF_LE_SET_ADV_ENABLE) with true. cbv iota.
  unfold le_set_adv_enable. change (first_is_1 [1]) with true. cbv iota.
  cbn [host_adv_start stack_host]. unfold host_advertise. cbn [fst snd].
  destruct (gives_exists _ _ (gap_adv_start_ok s w AdvParams_default Hs ltac:(by split)))
    as ([[s1 w1] e] & -> & H1 & H2). rewrite !obind_Ret.
  unfold adv_refused in H2. rewrite Hi in H2. cbn in H2.
  destruct H2 as (_ & H2 & H3 & H4 & H5 & H6 & H7 & H8 & ->).
  destruct (command_complete_Ret (set_hci_adv_enabled true h) 0x0A 0x20 [])
    as (h' & e' & -> & _ & Hh' & _); [by destruct Hh|cbn; lia|].
  rewrite obind_Ret. do 2 eexists. split; [reflexivity|]. unfold adv_bytes. rewrite H7, H8.
  by repeat (split; [done|]).
Qed.

(** Forwarding the stack's events takes them from its ring and changes nothing
    else of it. *)
Lemma stack_tick_loop fuel h s w : hci_ok h -> wf_ble s -> (pending s < fuel)%nat ->
  exists h' r, tick_loop fuel h (s, w) = Done (h', (set_b_events r s, w)) /\
    hci_ok h' /\ wf_ble (set_b_events r s).
Proof.
  revert h s. induction fuel as [|fuel IH]; intros h s Hh Hs Hf; [lia|].
  cbn [tick_loop host_next_event stack_host]. unfold host_event. cbn [fst snd].
  destruct (next_event_Ret s Hs) as (s1 & e & -> & [r ->] & H1 & He).
  rewrite obind_Ret, lift_Ret, rbind_Done.
  destruct e as [e|]; [|by exists h, r]. destruct He as [Hwf Hlt].
  destruct (tick_event_ok h (set_b_events r s, w) e Hh Hwf) as (h1 & -> & Hh1).
  rewrite lift_Ret, rbind_Done. destruct (IH h1 (set_b_events r s) Hh1 H1) as (h2 & r2 & E & H2 & H3);
    [lia|]. by exists h2, r2.
Qed.

End host.

(** ** The timer's wrap *)

Section wrap.
Context `{Hcrypto : Crypto, Hccm : CcmHw, Henv : Env}.

(** No time comes that the timer cannot show. *)
Lemma wait_until_wraps fuel w deadline : 2 ^ 24 <= deadline ->
  wait_until fuel w deadline = OutOfFuel.
Proof.
  intros Hd. revert w. induction fuel as [|fuel IH]; intros w; [done|]. cbn [wait_until now].
  pose proof (env_now_range (w_reads w)). rewrite (proj2 (Z.ltb_lt _ _)) by lia. apply IH.
Qed.

Lemma window_loop_wraps fuel s w mask deadline : wf_ble s -> w_rx_room w = 257%nat ->
  silent w -> 2 ^ 24 <= deadline -> window_loop fuel s w mask deadline = OutOfFuel.
Proof.
  revert s w. induction fuel as [|fuel IH]; intros s w Hs Hm Hq Hd; [done|]. cbn [window_loop].
  destruct (wb_rx s Hs) as (Hb & _). pose proof (Hq 0%nat) as H0. rewrite Nat.add_0_r in H0.
  rewrite receive_poll_Done, H0, rbind_Done by (lia || (by apply dma_fits) || congruence).
  cbn [now]. cbv zeta.
  pose proof (env_now_range (w_reads w)). cbn [w_reads set_w_polls].
  rewrite (proj2 (Z.leb_gt _ _)) by lia.
  apply IH; [by apply polled_rx_wf|done| |done].
  intros j. specialize (Hq (S j)). cbn [w_polls set_w_polls set_w_reads].
  by rewrite Nat.add_succ_r in Hq.
Qed.

Lemma window_loop_closes fuel s w mask deadline : wf_ble s -> w_rx_room w = 257%nat ->
  window_closes fuel w deadline -> window_loop fuel s w mask deadline <> OutOfFuel.
Proof.
  revert s w. induction fuel as [|fuel IH]; intros s w Hs Hm (j & Hj & Hw); [lia|].
  cbn [window_loop]. destruct (wb_rx s Hs) as (Hb & _).
  rewrite receive_poll_Done, rbind_Done by (lia || (by apply dma_fits) || congruence). cbv zeta.
  destruct (env_end (w_polls w)) as [[]|] eqn:E; [| |]; try done.
  - destruct (_ <=? _)%nat; [|done]. by destruct (idx _ _).
  - cbn [now w_reads set_w_polls]. destruct (Z.leb_spec deadline (env_now (w_reads w))); [done|].
    apply IH; [by apply polled_rx_wf|done|]. destruct j as [|j].
    { rewrite !Nat.add_0_r in Hw. destruct Hw; [congruence|lia]. }
    exists j. split; [lia|]. cbn [w_polls w_reads set_w_polls set_w_reads].
    by rewrite !Nat.add_succ_r in Hw.
Qed.

(** How long a legacy advertiser listens, in ticks. *)
Definition adv_window (t : AdvType) : Z :=
  match t with ScannableUndirected => 10 | _ => 2813 end.

(** Up to the first packet, and what follows it. *)
Lemma adv_tick_first fuel s w : wf_ble s -> b_adv_state s = AdvRunning ->
  exists s2 w2 ch, wf_ble s2 /\ b_adv_params s2 = b_adv_params s /\
    w_reads w2 = w_reads w /\ w_polls w2 = w_polls w /\
    adv_tick fuel s w =
      let* (s3, w3) := after_adv fuel s2 w2 ch in
      do* (accum, ticks) :=
        IntervalAccum_next (b_adv_accum s3) (adp_interval_min (b_adv_params s3)) in
      Done (set_b_adv_accum accum s3, arm w3 ticks).
Proof.
  intros Hs Hrun. unfold adv_tick. rewrite Hrun. cbv zeta.
  pose proof (wb_adv_idx s Hs) as Hi.
  destruct (idx_lt ADV_CHANNELS (b_adv_channel_idx s)) as [ch0 E0]; [exact Hi|].
  rewrite E0, lift_Ret, rbind_Done.
  destruct (pick_adv_channel_Ret (adp_channel_map (b_adv_params s)) _ ch0 Hi E0)
    as (j & Ep & Hj & _). rewrite Ep, lift_Ret, rbind_Done.
  set (s1 := set_b_adv_channel_idx _ s).
  assert (H1 : wf_ble s1).
  { wf_ble_by idtac. apply (Nat.mod_upper_bound (j + 1) 3). lia. }
  change (adp_extended (b_adv_params s)) with (adp_extended (b_adv_params s1)).
  destruct (build_first s1 H1) as (b & Eb & _ & Hb & Hlen). rewrite Eb, lift_Ret, rbind_Done.
  cbn [b_tx_buf b_tx_pdu_len set_b_tx_pdu_len set_b_tx_buf].
  rewrite slice_to_Ret, lift_Ret, rbind_Done by lia.
  destruct (set_channel_Ok (37 + Z.of_nat j) w) as (f & _ & _ & Ec); [lia|].
  change (clear_compare w) with w. rewrite Ec.
  do 3 eexists. split; [|split; [|split; [|split; [|reflexivity]]]]; try done.
  apply set_tx_wf; [done..|lia].
Qed.

(** A listening window and the wrap. *)
Lemma window_wraps fuel s w mask micros : wf_ble s ->
  let D := timeout_ticks micros in 0 <= D <= 2813 ->
  let t := env_now (w_reads w) in
  (window_closes fuel (fst (now w)) (t + D) -> radio_window fuel s w mask micros <> OutOfFuel) /\
  (2 ^ 24 <= t + D -> silent w -> radio_window fuel s w mask micros = OutOfFuel).
Proof.
  intros Hs D HD t. unfold radio_window. cbn [now]. fold D t.
  pose proof (env_now_range (w_reads w)) as Ht. fold t in Ht.
  unfold wrapping_add32. rewrite u32_id by (ranges; lia). split.
  - intros Hc. apply window_loop_closes; [done|exact (proj1 (wb_rx s Hs))|exact Hc].
  - intros Hd Hq. apply window_loop_wraps; [done|exact (proj1 (wb_rx s Hs))|exact Hq|exact Hd].
Qed.

Lemma after_adv_wraps fuel s w ch : wf_ble s ->
  adp_extended (b_adv_params s) = false ->
  adp_adv_type (b_adv_params s) <> NonConnectableUndirected ->
  let D := adv_window (adp_adv_type (b_adv_params s)) in
  let t := env_now (w_reads w) in
  (window_closes fuel (fst (now w)) (t + D) -> after_adv fuel s w ch <> OutOfFuel) /\
  (2 ^ 24 <= t + D -> silent w -> after_adv fuel s w ch = OutOfFuel).
Proof.
  intros Hs He Hn D t. unfold after_adv, D. rewrite He.
  assert (Hconn : let m := listen_for_scan_and_connect fuel s w ch in
    (window_closes fuel (fst (now w)) (t + 2813) -> m <> OutOfFuel) /\
    (2 ^ 24 <= t + 2813 -> silent w -> m = OutOfFuel)).
  { destruct (window_wraps fuel s w ((1 .<< PDU_SCAN_REQ) .| (1 .<< PDU_CONNECT_REQ))
      CONNECT_REQ_WINDOW_MICROS Hs) as [Hc Hw]; [cbv; split; discriminate|].
    unfold listen_for_scan_and_connect. cbv zeta. split.
    - intros H. specialize (Hc H). destruct (radio_window _ _ _ _ _) as [[[s3 w3] []]| |];
        [|done..]. cbn [rbind negb]. by destruct (handle_adv_rx _ _ _).
    - intros Hd Hq. by rewrite Hw. }
  destruct (adp_adv_type (b_adv_params s)); [exact Hconn..| |done].
  destruct (window_wraps fuel s w (1 .<< PDU_SCAN_REQ) SCAN_REQ_WINDOW_MICROS Hs)
    as [Hc Hw]; [cbv; split; discriminate|]. unfold listen_for_scan_req. split.
  - intros H. specialize (Hc H). destruct (radio_window _ _ _ _ _) as [[[s3 w3] ok]| |];
      [|done..]. cbn [rbind]. destruct (_ && _); [|done]. by destruct (send_scan_rsp _ _ _).
  - intros Hd Hq. by rewrite Hw.
Qed.

Lemma transmit_aux_wraps fuel s w : wf_ble s -> 2 ^ 24 <= env_now (w_reads w) + 7 ->
  transmit_aux_adv fuel s w = OutOfFuel.
Proof.
  intros Hs Hw. unfold transmit_aux_adv. cbv zeta.
  destruct (gives_exists _ _ (aux_adv_pdu_gives s Hs)) as (pdu & -> & He & Hl).
  rewrite lift_Ret, rbind_Done.
  destruct (encode_tx_Ret s pdu (is_random (b_own_addr_type s)) false Hs He Hl)
    as (b & -> & _). rewrite lift_Ret, rbind_Done. unfold transmit_on_0. cbn [now].
  change (timeout_ticks 200) with 7. pose proof (env_now_range (w_reads w)).
  rewrite wait_until_wraps; [done|]. unfold wrapping_add32. rewrite u32_id by (ranges; lia). lia.
Qed.

End wrap.

(** ** Properties *)

(** C1. The stack's invariant: from a fresh stack, whatever calls the application
    makes with arguments of their types and whatever ticks of advertising,
    scanning and connections happen under any hardware and any received
    packets, every buffer keeps its size, every length, index and parameter its
    bound, a connection its own invariant and the accept list and the event ring
    theirs; no call of the API panics in such a state; and no tick of
    advertising or scanning does, or writes past its receive buffer, which holds
    the longest packet. A connection tick is a step if it completes: one whose
    event panics or is sent a packet longer than the connection's own buffer has
    no state after it. *)
Theorem stack_invariant `{Hcrypto : Crypto, Hccm : CcmHw, Henv : Env} w s w' :
  rtc ble_step (Ble_new w) (s, w') ->
  wf_ble s /\ calls_return s w' /\
  forall fuel f, adv_tick fuel s w' <> Fault f /\ scan_tick fuel s w' <> Fault f.
Proof.
  intros Hst. assert (Hs : wf_ble s) by exact (reachable_ble (Ble_new w) (s, w') Ble_init_wf Hst).
  split; [done|]. split; [by apply wf_calls_return|]. intros fuel f. split.
  - eapply runs_no_fault, adv_tick_runs, Hs.
  - eapply runs_no_fault, scan_tick_runs, Hs.
Qed.

(** C28. The HCI layer and the stack together: whatever bytes a host sends, framing
    them and serving each packet when its last byte has come, on the real stack,
    forwarding the stack's events after each, panics exactly when framing alone
    does (as it does on long data packets, lemma [h4_acl_overflow]); otherwise
    every loop that forwards events ends, with no event of the stack left to give,
    and the invariants of both are kept. *)
Theorem hci_serves_stack `{Henv : Env} w bs :
  match feed_all H4Framer_new bs with
  | Panic => serve_bytes Hci_new (Ble_new w) bs = Fault Panicking
  | Ret (f, _) => exists h s w', serve_bytes Hci_new (Ble_new w) bs = Done (h, (s, w')) /\
      hci_framer h = f /\ next_event s = Ret (s, None) /\ hci_ok h /\ wf_ble s
  end.
Proof.
  pose proof (serve_bytes_ok bs Hci_new (Ble_new w) Hci_new_ok Ble_init_wf eq_refl eq_refl) as H.
  change (hci_framer Hci_new) with H4Framer_new in H.
  destruct (feed_all H4Framer_new bs) as [[f os]|]; [|exact H].
  destruct H as (h & [s w'] & E & F & Hd & H1 & H2). exists h, s, w'.
  split; [exact E|]. split; [exact F|]. split; [|by split].
  unfold drained in Hd. cbn [host_next_event stack_host] in Hd. unfold host_event in Hd.
  cbn [fst snd] in Hd. destruct (next_event s) as [[s' e]|]; [|done]. by injection Hd as -> ->.
Qed.

(** C6. From HCI command to the air: after a set-advertising-data command with up
    to 31 bytes and an enable command, the stack's next advertising event first
    sends, on channel 37, an undirected connectable PDU that decodes to exactly
    those bytes, from the all-zero address the stack was made with; the event
    is armed a hundred milliseconds of ticks after the command. *)
Theorem hci_advertises `{Hcrypto : Crypto, Hccm : CcmHw, Henv : Env} w d p1 p2 :
  (length d <= 31)%nat -> holds p1 (set_data_command d) -> holds p2 enable_command ->
  exists h s w', serve Hci_new (Ble_new w) [p1; p2] = Done (h, (s, w')) /\
    b_adv_state s = AdvRunning /\ w_cc0 w' = u32 (env_now (w_reads w) + 3125) /\
    let pdu := AdvInd (replicate 6 0) d in
    AdvPdu_decode (packet pdu false false) = Ret (Ok pdu) /\
    forall fuel s1 w1, adv_tick fuel s w' = Done (s1, w1) ->
      exists regs rest, on_adv_channel 0 w' regs /\
        w_sent w1 = w_sent w' ++ (regs, packet pdu false false) :: rest.
Proof.
  intros Hd Hp1 Hp2. unfold Ble_new. set (w0 := timer_init (radio_init w)). cbn [serve]. unfold serve_one, on_packet, tick.
  rewrite (proj1 Hp1), (proj1 Hp2). change (HCI_COMMAND =? HCI_COMMAND) with true. cbv iota.
  destruct (set_data_served Hci_new Ble_init w0 p1 d Hci_new_ok Ble_init_wf Hd Hp1)
    as (h1 & s1 & -> & Hh1 & H1 & D1 & S1 & A1 & T1). rewrite lift_Ret, rbind_Done.
  destruct (stack_tick_loop (Datatypes.S (host_pending (s1, w0))) h1 s1 w0
    Hh1 H1) as (h2 & r2 & -> & Hh2 & H2); [cbn; lia|]. rewrite rbind_Done.
  destruct (enable_served h2 (set_b_events r2 s1) w0 p2 Hh2 H2 S1 Hp2)
    as (h3 & s3 & -> & Hh3 & H3 & D3 & S3 & P3 & I3 & A3 & T3).
  rewrite lift_Ret, rbind_Done.
  set (w3 := set_compare _ _).
  destruct (stack_tick_loop (Datatypes.S (host_pending (s3, w3))) h3 s3 w3 Hh3 H3)
    as (h4 & r4 & -> & Hh4 & H4); [cbn; lia|]. rewrite rbind_Done.
  set (s4 := set_b_events r4 s3) in *. exists h4, s4, w3. split; [done|].
  split; [exact S3|]. split; [done|]. cbv zeta.
  assert (Ea : adv_packet s4 = packet (AdvInd (replicate 6 0) d) false false).
  { assert (Ep : adv_pdu s4 = AdvInd (replicate 6 0) d).
    { unfold adv_pdu. change (b_adv_params s4) with (b_adv_params s3). rewrite P3.
      cbn [adp_extended adp_adv_type AdvParams_default]. f_equal.
      - exact (eq_trans A3 A1).
      - exact (eq_trans D3 D1). }
    unfold adv_packet. rewrite Ep. change (b_own_addr_type s4) with (b_own_addr_type s3).
    by rewrite T3. }
  split.
  - rewrite packet_decodes; [done|reflexivity|]. cbn [payload_of]. len.
  - intros fuel s5 w5 E. pose proof (adv_tick_running fuel s4 w3 H4 S3) as R. rewrite E in R.
    destruct R as (_ & j & regs & rest & _ & Hj & Hc & Es & _).
    change (b_adv_params s4) with (b_adv_params s3) in Hj. rewrite P3 in Hj.
    change (b_adv_channel_idx s4) with (b_adv_channel_idx s3) in Hj. rewrite I3 in Hj.
    destruct Hj as [-> _]; [done|]. exists regs, rest. split; [exact Hc|]. by rewrite <- Ea.
Qed.

(** C25. Advertising and the timer's wrap: an advertising event that starts, with
    the timer at [t], early enough to end before the 24-bit timer wraps does
    end once its listening window closes; but within the last 7 ticks before the
    wrap an extended event never ends, and within the last 2813 (10 for a
    scannable advertiser) a legacy event with nothing to receive never ends
    either: the deadline is a time the timer never shows. *)
Theorem adv_event_wraps `{Hcrypto : Crypto, Hccm : CcmHw, Henv : Env} fuel s w :
  wf_ble s -> b_adv_state s = AdvRunning ->
  let t := env_now (w_reads w) in
  let p := b_adv_params s in
  if adp_extended p then 2 ^ 24 <= t + 7 -> adv_tick fuel s w = OutOfFuel
  else if decide (adp_adv_type p = NonConnectableUndirected)
  then adv_tick fuel s w <> OutOfFuel
  else
    (window_closes fuel (fst (now w)) (t + adv_window (adp_adv_type p)) ->
     adv_tick fuel s w <> OutOfFuel) /\
    (2 ^ 24 <= t + adv_window (adp_adv_type p) -> silent w -> adv_tick fuel s w = OutOfFuel).
Proof.
  intros Hs Hr t p.
  destruct (adv_tick_first fuel s w Hs Hr) as (s2 & w2 & ch & H2 & Ep & Er & Epo & ->).
  fold p in Ep. assert (Hend : forall m, m <> OutOfFuel ->
    (let* (s3, w3) := m in do* (accum, ticks) := IntervalAccum_next (b_adv_accum s3)
       (adp_interval_min (b_adv_params s3)) in Done (set_b_adv_accum accum s3, arm w3 ticks))
    <> OutOfFuel).
  { intros [[s3 w3]| |] Hm; [|done..]. cbn [rbind]. by destruct (IntervalAccum_next _ _) as [[]|]. }
  destruct (adp_extended p) eqn:Ee.
  { intros Hw. unfold after_adv. rewrite Ep, Ee, transmit_aux_wraps; [done..|by rewrite Er]. }
  case_decide as Hn.
  { apply Hend. unfold after_adv. by rewrite Ep, Ee, Hn. }
  rewrite <- Ep in Ee, Hn. destruct (after_adv_wraps fuel s2 w2 ch H2 Ee Hn) as [Hc Hw].
  rewrite Er, Ep in Hc, Hw. split.
  - intros (j & Hj & Hcl). apply Hend, Hc. exists j. split; [done|].
    cbn [now fst w_polls w_reads set_w_reads] in *. by rewrite Er, Epo.
  - intros Hd Hq. rewrite Hw; [done|done|]. intros j. rewrite Epo. apply Hq.
Qed.

(** ** Examples *)

Lemma stack_invariant_witness :
  exists s w', @rtc _ (@ble_step mask_crypto xor_ccm ack_env) (Ble_new sample_world) (s, w') /\
    b_adv_state s = AdvRunning /\ wf_ble s.
Proof.
  assert (E : match @gap_adv_start ack_env Ble_init (timer_init (radio_init sample_world)) AdvParams_default with
    | Ret (s, _, _) => b_adv_state s = AdvRunning | Panic => False end)
    by (vm_compute; reflexivity).
  destruct (@gap_adv_start ack_env Ble_init (timer_init (radio_init sample_world)) AdvParams_default)
    as [[[s w'] e]|] eqn:Es; [|done].
  assert (S : @rtc _ (@ble_step mask_crypto xor_ccm ack_env) (Ble_new sample_world) (s, w')).
  { apply rtc_once. eapply do_adv_start; [|exact Es]. by split. }
  exists s, w'. split; [exact S|]. split; [exact E|].
  apply (@stack_invariant mask_crypto xor_ccm ack_env sample_world s w' S).
Defined.

(** The two commands as the framer completes them. *)
Definition command_packet (bs : list Z) : HciPacket :=
  mkHciPacket HCI_COMMAND (bs ++ zeros (260 - length bs)) (length bs).

Lemma hci_advertises_witness :
  exists h s w', @serve ack_env Hci_new (Ble_new sample_world)
    [command_packet (set_data_command [2; 1; 6]); command_packet enable_command] =
    Done (h, (s, w')) /\ b_adv_state s = AdvRunning /\ w_cc0 w' = 3125.
Proof.
  destruct (@hci_advertises mask_crypto xor_ccm ack_env sample_world [2; 1; 6]
    (command_packet (set_data_command [2; 1; 6])) (command_packet enable_command))
    as (h & s & w' & E & H & Hc & _).
  - cbn. lia.
  - split; [reflexivity|]. split; [reflexivity|]. by eexists.
  - split; [reflexivity|]. split; [reflexivity|]. by eexists.
  - exists h, s, w'. split; [exact E|]. split; [exact H|]. rewrite Hc. reflexivity.
Defined.

Lemma adv_event_wraps_witness :
  @adv_tick wrap_env 1000 sample_adv sample_world = OutOfFuel.
Proof.
  pose proof (@adv_event_wraps mask_crypto xor_ccm wrap_env 1000 sample_adv sample_world
    sample_adv_wf eq_refl) as H.
  cbn [sample_adv b_adv_params set_b_own_addr set_b_adv_state set_b_adv_data_len
    set_b_adv_data Ble_init adp_extended AdvParams_default adp_adv_type decide] in H.
  apply H.
  - cbn. lia.
  - intros j. reflexivity.
Defined.
