(* ===== verification/AdvLive.v ===== *)
(** Advertising over several events ([src/hw/ble.rs], [adv_tick]): what an event
    leaves as it was, the rotation of the channels, and that every enabled
    channel has its turn. *)

From stdpp Require Import base numbers list.
From S2P Require Import Prelude Errors Channels Timers Addr Ad Pdu Events EventQueue Hci.
From S2P Require Import BondStore Crypto Smp Ccm Gatt Conn Att CocChannel SmpChannel L2cap.
From S2P Require Import Frame Radio LinkLayer LinkInv LinkEvents LinkTime Ble BleInv.
From S2P Require Import Advertiser AdvInv Scanner ScanInv Air Driver DriverInv Stack.

(** ** What an event leaves alone *)

(** If it ends, the result satisfies [P]. *)
Definition ends {A} (m : run A) (P : A -> Prop) : Prop :=
  match m with Done a => P a | _ => True end.

Lemma ends_bind {A B} (m : run A) (f : A -> run B) P Q :
  ends m P -> (forall a, P a -> ends (f a) Q) -> ends (rbind m f) Q.
Proof. destruct m; cbn; eauto. Qed.

Lemma ends_lift {A B} (m : outcome A) (f : A -> run B) P Q :
  ends (lift m) P -> (forall a, P a -> ends (f a) Q) -> ends (rbind (lift m) f) Q.
Proof. apply ends_bind. Qed.

Lemma ends_mono {A} (m : run A) (P Q : A -> Prop) :
  ends m P -> (forall a, P a -> Q a) -> ends m Q.
Proof. destruct m; cbn; eauto. Qed.

Lemma ends_any {A B} (m : run A) (f : A -> run B) Q :
  (forall a, ends (f a) Q) -> ends (rbind m f) Q.
Proof. destruct m; cbn; eauto. Qed.

(** What the application configured for advertising, and the next channel. *)
Definition adv_config (s : Ble) :=
  (b_adv_params s, b_adv_data s, b_adv_data_len s, b_own_addr s, b_own_addr_type s,
   b_adv_channel_idx s).

(** The configuration stays, and the advertiser goes on or has a connection. *)
Definition steady (s s' : Ble) : Prop :=
  adv_config s' = adv_config s /\
  (b_adv_state s' = b_adv_state s /\ b_conn s' = b_conn s \/
   b_adv_state s' = AdvIdle /\ is_Some (b_conn s')).

Lemma steady_refl s : steady s s.
Proof. split; [done|by left]. Qed.

Lemma steady_trans s1 s2 s3 : steady s1 s2 -> steady s2 s3 -> steady s1 s3.
Proof.
  intros [E1 H1] [E2 H2]. split; [congruence|].
  destruct H2 as [[H2 C2]|H2]; [|by right].
  destruct H1 as [[H1 C1]|[H1 C1]]; [left|right; rewrite C2]; split; congruence || done.
Qed.

(** A computation of the stack whose every end is steady. *)
Definition steadily {A} (p : A -> Ble) (s : Ble) (m : run A) : Prop :=
  ends m (fun a => steady s (p a)).

Lemma steadily_bind {A B} (q : A -> Ble) (p : B -> Ble) s (m : run A) (f : A -> run B) :
  steadily q s m -> (forall a, steadily p (q a) (f a)) -> steadily p s (rbind m f).
Proof.
  intros Hm Hf. eapply ends_bind; [exact Hm|]. intros a Ha.
  eapply ends_mono; [apply Hf|]. intros b. by apply steady_trans.
Qed.

(** Setters of what is neither configuration nor state. *)
Ltac same := split; [reflexivity | left; split; reflexivity].

Section steady.
Context `{Hcrypto : Crypto, Henv : Env}.

Lemma encode_tx_steady s p tx rx : steadily fst s (lift (encode_tx s p tx rx)).
Proof.
  unfold encode_tx. destruct (unwrap _) as [[b len]|]; [|done]. same.
Qed.

Lemma push_event_steady s e : steadily id s (lift (push_event s e)).
Proof. unfold push_event. destruct (ring_push _ _ _); [|done]. same. Qed.

Lemma transmit_aux_adv_steady fuel s w : steadily fst s (transmit_aux_adv fuel s w).
Proof.
  unfold transmit_aux_adv. cbv zeta. apply ends_any. intros pdu.
  eapply steadily_bind; [apply encode_tx_steady|]. intros [s1 len]. apply ends_any.
  intros w1. same.
Qed.

Lemma transmit_periodic_adv_steady fuel s w : steadily fst s (transmit_periodic_adv fuel s w).
Proof.
  unfold transmit_periodic_adv. cbv zeta.
  eapply steadily_bind; [apply encode_tx_steady|]. intros [s1 len]. apply ends_any.
  intros w1. same.
Qed.

Lemma window_loop_steady fuel s w mask deadline :
  steadily (fun r => fst (fst r)) s (window_loop fuel s w mask deadline).
Proof.
  revert s w. induction fuel as [|fuel IH]; intros s w; [done|]. cbn [window_loop].
  apply ends_any. intros [[w1 buf] [[len|]|e]].
  - cbv zeta. destruct (_ <=? _)%nat; [|same].
    apply ends_any. intros b0. same.
  - cbn [now]. cbv zeta. destruct (_ <=? _); [same|].
    eapply ends_mono; [apply IH|]. intros r. apply steady_trans. same.
  - same.
Qed.

Lemma send_scan_rsp_steady s w a : steadily fst s (lift (send_scan_rsp s w a)).
Proof.
  unfold send_scan_rsp. cbv zeta. rewrite lift_obind. apply ends_any. intros d.
  rewrite lift_obind. eapply steadily_bind; [apply encode_tx_steady|]. intros [s1 len].
  rewrite lift_obind. apply ends_any. intros p. same.
Qed.

Lemma accept_connect_steady s w ch init ll : steadily fst s (lift (accept_connect s w ch init ll)).
Proof.
  unfold accept_connect. rewrite lift_obind. apply ends_any.
  intros [params|e]; [|same]. cbn [now].
  set (s1 := set_b_adv_state AdvIdle _).
  assert (H1 : steady s s1) by (split; [done|]; right; split; [done|by eexists]).
  rewrite lift_obind. eapply ends_bind; [apply push_event_steady|]. intros s2 H2.
  rewrite lift_obind. eapply ends_bind; [apply push_event_steady|]. intros s3 H3.
  cbn [ends lift]. eapply steady_trans; [exact H1|]. by eapply steady_trans.
Qed.

Lemma radio_window_steady fuel s w mask micros :
  steadily (fun r => fst (fst r)) s (radio_window fuel s w mask micros).
Proof. apply window_loop_steady. Qed.

Lemma after_adv_steady fuel s w ch : steadily fst s (after_adv fuel s w ch).
Proof.
  unfold after_adv. destruct (adp_extended _).
  { eapply steadily_bind; [apply transmit_aux_adv_steady|]. intros [s1 w1]. cbn [fst].
    destruct (adp_periodic _); [apply transmit_periodic_adv_steady|same]. }
  assert (Hconn : steadily fst s (listen_for_scan_and_connect fuel s w ch)).
  { unfold listen_for_scan_and_connect. cbv zeta.
    eapply steadily_bind; [apply radio_window_steady|]. intros [[s1 w1] ok]. cbn [fst].
    destruct ok; cbn [negb]; [|same]. unfold handle_adv_rx.
    rewrite lift_obind. apply ends_any. intros bs. rewrite lift_obind. apply ends_any.
    intros [[]|e]; try same.
    - destruct (_ <? _)%nat; [apply send_scan_rsp_steady|same].
    - apply accept_connect_steady. }
  destruct (adp_adv_type _); [exact Hconn..| |same].
  unfold listen_for_scan_req. eapply steadily_bind; [apply radio_window_steady|].
  intros [[s1 w1] ok]. cbn [fst]. destruct (_ && _); [apply send_scan_rsp_steady|same].
Qed.

End steady.

(** ** The rotation *)

(** Three events from any position use every channel of the map. *)
Lemma three_slots m i k : (i < 3)%nat -> (k < 3)%nat -> Z.testbit m (Z.of_nat k) = true ->
  let j0 := adv_slot m i in
  let j1 := adv_slot m ((j0 + 1) mod 3) in
  let j2 := adv_slot m ((j1 + 1) mod 3) in
  k = j0 \/ k = j1 \/ k = j2.
Proof.
  intros Hi Hk. set (f := fun n => Z.testbit m (Z.of_nat n)). change (f k = true -> 
    let j0 := adv_slot m i in
    let j1 := adv_slot m ((j0 + 1) mod 3) in
    let j2 := adv_slot m ((j1 + 1) mod 3) in k = j0 \/ k = j1 \/ k = j2).
  assert (E : forall n, adv_slot m n =
    if f ((n + 0) mod 3)%nat then ((n + 0) mod 3)%nat
    else if f ((n + 1) mod 3)%nat then ((n + 1) mod 3)%nat else ((n + 2) mod 3)%nat) by done.
  clearbody f. cbv zeta. rewrite !E.
  destruct i as [|[|[|i]]]; [..|lia]; destruct k as [|[|[|k]]]; try lia; cbn;
    destruct (f 0%nat) eqn:E0, (f 1%nat) eqn:E1, (f 2%nat) eqn:E2; cbn;
    rewrite ?E0, ?E1, ?E2; cbn; rewrite ?E0, ?E1, ?E2; auto; discriminate.
Qed.

Section turns.
Context `{Hcrypto : Crypto, Hccm : CcmHw, Henv : Env}.

(** A packet with the settings of an advertising channel. *)
Definition on_channel (k : nat) (x : RadioRegs * list Z) : Prop :=
  exists f, channel_frequency (37 + Z.of_nat k) = Ok f /\
    rg_frequency (fst x) = f - 2400 /\ rg_datawhiteiv (fst x) = 0x40 + (37 + Z.of_nat k).

(** Between two worlds the packet [p] went out on channel [k]. *)
Definition went_out (k : nat) (p : list Z) (w w' : World) : Prop :=
  exists regs pre post, w_sent w' = w_sent w ++ pre ++ (regs, p) :: post /\
    on_channel k (regs, p).

(** What a later event keeps: the packet, and the map. *)
Definition same_adv (s s' : Ble) : Prop :=
  b_adv_params s' = b_adv_params s /\ adv_packet s' = adv_packet s.

Lemma adv_packet_config s s' : b_adv_params s' = b_adv_params s ->
  b_adv_data s' = b_adv_data s -> b_adv_data_len s' = b_adv_data_len s ->
  b_own_addr s' = b_own_addr s -> b_own_addr_type s' = b_own_addr_type s ->
  adv_packet s' = adv_packet s.
Proof. intros E1 E2 E3 E4 E5. unfold adv_packet, adv_pdu. by rewrite E1, E2, E3, E4, E5. Qed.

(** How an event of a running advertiser ends. *)
Definition turned (s s' : Ble) : Prop :=
  b_adv_state s' = AdvRunning /\ same_adv s s' /\
    b_adv_channel_idx s' =
      ((adv_slot (adp_channel_map (b_adv_params s)) (b_adv_channel_idx s) + 1) mod 3)%nat \/
  b_adv_state s' = AdvIdle /\ is_Some (b_conn s').

Lemma build_steady s :
  steadily id s (lift (if adp_extended (b_adv_params s) then build_ext_adv_pdu s
                       else build_adv_pdu s)).
Proof.
  destruct (adp_extended _).
  - unfold build_ext_adv_pdu. cbv zeta. rewrite lift_obind.
    eapply steadily_bind; [apply encode_tx_steady|]. intros [s1 len]. same.
  - unfold build_adv_pdu. cbv zeta. rewrite lift_obind. apply ends_any. intros pdu.
    rewrite lift_obind. eapply steadily_bind; [apply encode_tx_steady|]. intros [s1 len]. same.
Qed.

Lemma adv_tick_turns fuel s w : wf_ble s -> b_adv_state s = AdvRunning ->
  adp_channel_map (b_adv_params s) .& 7 <> 0 ->
  ends (adv_tick fuel s w) (fun r => turned s (fst r)).
Proof.
  intros Hs Hr Hm. unfold adv_tick. rewrite Hr. cbv zeta.
  pose proof (wb_adv_idx s Hs) as Hi.
  destruct (idx_lt ADV_CHANNELS (b_adv_channel_idx s)) as [ch0 E0]; [exact Hi|].
  rewrite E0, lift_Ret, rbind_Done.
  destruct (pick_adv_channel_Ret (adp_channel_map (b_adv_params s)) _ ch0 Hi E0)
    as (j & Ep & _ & Hj). rewrite Ep, lift_Ret, rbind_Done. destruct (Hj Hm) as [-> _].
  set (s1 := set_b_adv_channel_idx _ s).
  change (adp_extended (b_adv_params s)) with (adp_extended (b_adv_params s1)).
  eapply ends_bind; [apply build_steady|]. intros s2 H2. cbn [id] in H2.
  apply ends_any. intros p.
  eapply ends_bind; [apply after_adv_steady|]. intros [s3 w3] H3. cbn [fst] in H3.
  apply ends_any. intros [a t]. cbn [ends fst].
  destruct (steady_trans _ _ _ H2 H3) as [E H]. injection E as E1 E2 E3 E4 E5 E6.
  destruct H as [[H _]|H]; [left|by right].
  split; [by rewrite <- Hr|]. split; [|exact E6].
  split; [exact E1|]. by apply adv_packet_config.
Qed.

(** One event: the packet on the slot's channel, and the turn. *)
Lemma adv_tick_airs fuel s w : wf_ble s -> b_adv_state s = AdvRunning ->
  adp_channel_map (b_adv_params s) .& 7 <> 0 ->
  ends (adv_tick fuel s w) (fun '(s', w') => wf_ble s' /\ turned s s' /\
    went_out (adv_slot (adp_channel_map (b_adv_params s)) (b_adv_channel_idx s))
      (adv_packet s) w w').
Proof.
  intros Hs Hr Hm. pose proof (adv_tick_turns fuel s w Hs Hr Hm) as T.
  pose proof (adv_tick_running fuel s w Hs Hr) as R.
  destruct (adv_tick fuel s w) as [[s' w']| |]; [|done..]. cbn in *.
  destruct R as (H' & j & regs & rest & _ & Hj & (f & Ef & ->) & Es & _).
  destruct (Hj Hm) as [-> _]. split; [done|]. split; [done|].
  eexists _, [], rest. split; [exact Es|]. by exists f.
Qed.

End turns.

(** ** Events in a row *)

Section live.
Context `{Hcrypto : Crypto, Hccm : CcmHw, Henv : Env}.

Fixpoint adv_events (n fuel : nat) (s : Ble) (w : World) : run (Ble * World) :=
  match n with
  | O => Done (s, w)
  | S n => let* (s, w) := adv_tick fuel s w in adv_events n fuel s w
  end.

(** The event that starts from [s] listens for requests, or does not listen at
    all; its window closes within [fuel] turns. *)
Definition event_closes (fuel : nat) (s : Ble) (w : World) : Prop :=
  adp_adv_type (b_adv_params s) = NonConnectableUndirected \/
  window_closes fuel (fst (now w))
    (env_now (w_reads w) + adv_window (adp_adv_type (b_adv_params s))).

(** So it is for each of the [n] events. *)
Definition adv_timely (n fuel : nat) (s : Ble) (w : World) : Prop :=
  forall k s' w', (k < n)%nat -> adv_events k fuel s w = Done (s', w') ->
    event_closes fuel s' w'.

Lemma adv_timely_now n fuel s w : adv_timely (S n) fuel s w -> event_closes fuel s w.
Proof. intros H. by apply (H 0%nat s w); [lia|]. Qed.

Lemma adv_timely_next n fuel s w s1 w1 : adv_timely (S n) fuel s w ->
  adv_tick fuel s w = Done (s1, w1) -> adv_timely n fuel s1 w1.
Proof.
  intros H E k s' w' Hk Ek. apply (H (S k)); [lia|]. cbn [adv_events]. by rewrite E.
Qed.

Lemma adv_tick_idle fuel s w : b_adv_state s = AdvIdle -> adv_tick fuel s w = Done (s, w).
Proof. unfold adv_tick. by intros ->. Qed.

Lemma adv_events_idle n fuel s w : b_adv_state s = AdvIdle ->
  adv_events n fuel s w = Done (s, w).
Proof.
  intros Hi. induction n as [|n IH]; [done|]. cbn [adv_events].
  by rewrite adv_tick_idle, rbind_Done.
Qed.

(** A legacy event ends. *)
Lemma adv_tick_timely fuel s w : wf_ble s -> b_adv_state s = AdvRunning ->
  adp_extended (b_adv_params s) = false -> event_closes fuel s w ->
  adv_tick fuel s w <> OutOfFuel.
Proof.
  intros Hs Hr He Ht.
  destruct (adv_tick_first fuel s w Hs Hr) as (s2 & w2 & ch & H2 & Ep & Er & Epo & ->).
  apply rbind_returns.
  2:{ intros [s3 w3] _. apply rbind_returns; [apply lift_returns|]. by intros [a t] _. }
  destruct (decide (adp_adv_type (b_adv_params s2) = NonConnectableUndirected)) as [En|En].
  { unfold after_adv. by rewrite Ep, He, <- Ep, En. }
  apply after_adv_wraps; [done|by rewrite Ep|done|].
  destruct Ht as [Ht|(j & Hj & Hc)]; [by rewrite Ep in En|]. exists j. split; [done|].
  cbn [now fst w_polls w_reads set_w_reads] in *. by rewrite Er, Epo, Ep.
Qed.

(** The event as a step: it ends, having sent its packet, and the next event
    turns to the next channel unless there is a connection. *)
Lemma adv_tick_step fuel s w : wf_ble s -> b_adv_state s = AdvRunning ->
  adp_extended (b_adv_params s) = false -> adp_channel_map (b_adv_params s) .& 7 <> 0 ->
  event_closes fuel s w -> exists s' w', adv_tick fuel s w = Done (s', w') /\
    wf_ble s' /\ turned s s' /\
    went_out (adv_slot (adp_channel_map (b_adv_params s)) (b_adv_channel_idx s))
      (adv_packet s) w w'.
Proof.
  intros Hs Hr He Hm Ht. pose proof (adv_tick_timely fuel s w Hs Hr He Ht) as Hf.
  pose proof (adv_tick_airs fuel s w Hs Hr Hm) as A.
  pose proof (adv_tick_runs fuel s w Hs) as R.
  destruct (adv_tick fuel s w) as [[s' w']| |]; [|done..]. by exists s', w'.
Qed.

Lemma aired_before k p w w1 w2 : went_out k p w w1 ->
  (exists more, w_sent w2 = w_sent w1 ++ more) -> went_out k p w w2.
Proof.
  intros (regs & pre & post & E & H) [more E2]. exists regs, pre, (post ++ more).
  split; [|done]. rewrite E2, E. by rewrite <- !app_assoc.
Qed.

Lemma aired_after k p w w1 w2 : (exists more, w_sent w1 = w_sent w ++ more) ->
  went_out k p w1 w2 -> went_out k p w w2.
Proof.
  intros [more E1] (regs & pre & post & E & H). exists regs, (more ++ pre), post.
  split; [|done]. rewrite E, E1. by rewrite <- !app_assoc.
Qed.

Lemma aired_more k p w w1 : went_out k p w w1 -> exists more, w_sent w1 = w_sent w ++ more.
Proof. intros (regs & pre & post & E & _). by eexists. Qed.

(** What [n] events do: they end, and either a connection was made or the
    channels the rotation reached had the packet. *)
Fixpoint slots (n : nat) (m : Z) (i : nat) : list nat :=
  match n with
  | O => []
  | S n => let j := adv_slot m i in j :: slots n m ((j + 1) mod 3)
  end.

Lemma adv_events_air n fuel s w : wf_ble s -> b_adv_state s = AdvRunning ->
  adp_extended (b_adv_params s) = false -> adp_channel_map (b_adv_params s) .& 7 <> 0 ->
  adv_timely n fuel s w -> exists s' w', adv_events n fuel s w = Done (s', w') /\
    wf_ble s' /\ (exists more, w_sent w' = w_sent w ++ more) /\
    (is_Some (b_conn s') /\ b_adv_state s' = AdvIdle \/
     b_adv_state s' = AdvRunning /\ same_adv s s' /\
     Forall (fun k => went_out k (adv_packet s) w w')
       (slots n (adp_channel_map (b_adv_params s)) (b_adv_channel_idx s))).
Proof.
  revert s w. induction n as [|n IH]; intros s w Hs Hr He Hm Ht.
  { exists s, w. split; [done|]. split; [done|]. split; [by exists []; rewrite app_nil_r|].
    right. split; [done|]. by split. }
  destruct (adv_tick_step fuel s w Hs Hr He Hm (adv_timely_now n fuel s w Ht)) as (s1 & w1 & E & H1 & T & A).
  cbn [adv_events]. rewrite E, rbind_Done.
  pose proof (aired_more _ _ _ _ A) as M.
  destruct T as [(R1 & [P1 Q1] & I1)|[I1 C1]].
  2:{ exists s1, w1. rewrite adv_events_idle by done. split; [done|]. split; [done|].
      split; [exact M|]. by left. }
  destruct (IH s1 w1 H1 R1) as (s2 & w2 & E2 & H2 & M2 & D2);
    [by rewrite P1..|by eapply adv_timely_next|].
  exists s2, w2. split; [done|]. split; [done|]. split.
  { destruct M as [x Ex], M2 as [y Ey]. exists (x ++ y). by rewrite Ey, Ex, app_assoc. }
  destruct D2 as [D2|(R2 & [P2 Q2] & F2)]; [by left|right]. split; [done|].
  split; [split; congruence|]. cbn [slots]. constructor; [by eapply aired_before|].
  rewrite P1, I1, Q1 in F2. eapply Forall_impl; [exact F2|]. intros k. by apply aired_after.
Qed.

End live.

(** ** Property *)

(** C8. Advertising reaches every channel: within three events a running legacy
    advertiser either has a connection or has sent its packet on every channel
    its map enables, with that channel's frequency and whitening, whatever it
    received in between; and the three events do end when the timer's wrap
    catches none of their listening windows. A scanner that stays on any enabled
    channel is therefore sent the packet at least every third event. *)
Theorem advertising_reaches_channels `{Hcrypto : Crypto, Hccm : CcmHw, Henv : Env} fuel s w :
  wf_ble s -> b_adv_state s = AdvRunning -> adp_extended (b_adv_params s) = false ->
  adp_channel_map (b_adv_params s) .& 7 <> 0 -> adv_timely 3 fuel s w ->
  exists s' w', adv_events 3 fuel s w = Done (s', w') /\ wf_ble s' /\
    (is_Some (b_conn s') /\ b_adv_state s' = AdvIdle \/
     b_adv_state s' = AdvRunning /\
     forall k, (k < 3)%nat -> Z.testbit (adp_channel_map (b_adv_params s)) (Z.of_nat k) = true ->
       went_out k (adv_packet s) w w').
Proof.
  intros Hs Hr He Hm Ht.
  destruct (adv_events_air 3 fuel s w Hs Hr He Hm Ht) as (s' & w' & E & H' & _ & D).
  exists s', w'. split; [done|]. split; [done|].
  destruct D as [D|(R & _ & F)]; [by left|right]. split; [done|]. intros k Hk Hb.
  cbn [slots] in F. rewrite !Forall_cons in F. destruct F as (F0 & F1 & F2 & _).
  by destruct (three_slots _ (b_adv_channel_idx s) k (wb_adv_idx s Hs) Hk Hb) as [->|[->| ->]].
Qed.

(** ** Example *)

(** Where nothing is received, and the timer advances by 32 ms between two
    readings. *)
#[refine] Definition quiet_env : Env := {|
  env_now i := (1000 * Z.of_nat i) mod 2 ^ 24;
  env_compare _ := true;
  env_end _ := None;
  env_dma _ := [];
  env_rssi _ := -90
|}.
Proof.
  - intros i. by apply Z.mod_pos_bound.
  - intros _. constructor.
  - intros _. cbn. lia.
Defined.

Lemma quiet_closes s w : (w_reads w < 100)%nat -> @event_closes quiet_env 5 s w.
Proof.
  intros Hr. right. exists 2%nat. split; [lia|]. right.
  cbn [now fst w_reads set_w_reads env_now quiet_env].
  assert (adv_window (adp_adv_type (b_adv_params s)) <= 2813)
    by (unfold adv_window; destruct (adp_adv_type _); lia).
  rewrite !Z.mod_small by lia. lia.
Qed.

(** Whether a run read the timer fewer than a hundred times. *)
Definition early (m : run (Ble * World)) : bool :=
  match m with Done (_, w) => Nat.ltb (w_reads w) 100 | _ => true end.

Lemma early_reads m s w : m = Done (s, w) -> early m = Nat.ltb (w_reads w) 100.
Proof. by intros ->. Qed.

Lemma advertising_reaches_channels_witness :
  exists s' w', @adv_events quiet_env 3 5 sample_adv sample_world = Done (s', w') /\
    forall k, (k < 3)%nat -> went_out k (adv_packet sample_adv) sample_world w'.
Proof.
  destruct (@advertising_reaches_channels mask_crypto xor_ccm quiet_env 5 sample_adv
    sample_world sample_adv_wf eq_refl eq_refl ltac:(vm_compute; discriminate))
    as (s' & w' & E & _ & D).
  - intros k s' w' Hk E. apply quiet_closes, Nat.ltb_lt.
    destruct k as [|[|[|k]]]; [| | |lia];
      by rewrite <- (early_reads _ _ _ E); vm_compute.
  - exists s', w'. split; [exact E|]. destruct D as [[_ D]|[_ D]].
    + assert (X : match @adv_events quiet_env 3 5 sample_adv sample_world with
        | Done (s', _) => b_adv_state s' = AdvRunning | _ => False end) by (vm_compute; reflexivity).
      rewrite E, D in X. discriminate X.
    + intros k Hk. apply D; [exact Hk|]. destruct k as [|[|[|k]]]; [reflexivity..|lia].
Defined.
