(* ===== verification/Clock.v ===== *)
(** Time on air: what the tick arithmetic of [src/hw/timers.rs] and
    [src/hw/ble.rs] comes to in microseconds, on the timer as [BtTimer::init]
    has set it up. *)

From stdpp Require Import base numbers list.
From S2P Require Import Prelude Errors Channels Timers Addr Ad Pdu Events EventQueue Hci.
From S2P Require Import BondStore Crypto Smp Ccm Gatt Conn Att CocChannel SmpChannel L2cap.
From S2P Require Import Frame Radio LinkLayer LinkInv LinkEvents Ble BleInv.
From S2P Require Import Advertiser AdvInv Scanner ScanInv.

(** ** The length of a tick *)

(** A timer at [2^prescaler] cycles of the 16 MHz clock per tick; durations
    below are in sixteenths of a microsecond, so that both are integers. *)
Definition tick_len (r : TimerRegs) : Z := 2 ^ tg_prescaler r.
Definition sixteenths (micros : Z) : Z := 16 * micros.

(** The ticks [t] are the last ones that end within [d], or the first ones
    that reach it. *)
Definition rounds_down (r : TimerRegs) (t d : Z) : Prop :=
  t * tick_len r <= d < (t + 1) * tick_len r.
Definition rounds_up (r : TimerRegs) (t d : Z) : Prop :=
  (t - 1) * tick_len r < d <= t * tick_len r.

(** The timer counts [t] without wrapping. *)
Definition fits (r : TimerRegs) (t : Z) : Prop := 0 <= t < 2 ^ tg_bits r.

(** The total of the first [n] intervals of a periodic advertising train. *)
Fixpoint run_periodic (n : nat) (y : PeriodicSync) : outcome (PeriodicSync * Z) :=
  match n with
  | O => Ret (y, 0)
  | S n =>
      let! (y, t) := PeriodicSync_next_interval y in
      let! (y, ts) := run_periodic n y in
      Ret (y, t + ts)
  end.

(** ** Lemmas *)

Lemma timer_started w :
  let r := w_timer (snd (Ble_new w)) in
  tg_timer_mode r = true /\ tg_running r = true /\ tick_len r = sixteenths 32 /\ tg_bits r = 24.
Proof. done. Qed.

(** A total in 32nds of a tick, and what is carried. *)
Lemma div32_rounds_down r x : tick_len r = 512 -> rounds_down r (x / 32) (16 * x).
Proof.
  intros Et. unfold rounds_down. rewrite Et.
  pose proof (Z.mod_pos_bound x 32 ltac:(lia)). pose proof (Z.div_mod x 32 ltac:(lia)). lia.
Qed.

Lemma run_accum_floor a us : wf_accum a -> ia_frac a = 0 -> Forall is_u16 us ->
  exists a', run_accum a us = Ret (a', sum_list us * rate a / 32).
Proof.
  intros Ha H0 Hus. destruct (run_accum_spec us a Ha Hus) as (a' & t & E & [F _] & _ & Es).
  exists a'. rewrite E. do 2 f_equal. apply Z.div_unique with (ia_frac a'); lia.
Qed.

Lemma run_periodic_total n y : wf_sync y ->
  exists y' t, run_periodic n y = Ret (y', t) /\ wf_sync y' /\
    32 * t + ps_frac y' = ps_frac y + Z.of_nat n * ps_units y * 1250.
Proof.
  revert y. induction n as [|n IH]; intros y Hy.
  { exists y, 0. cbn [run_periodic]. split; [done|]. split; [done|]. lia. }
  destruct (next_interval_Ret y Hy) as (y1 & t1 & E1 & W1 & _ & U1 & S1 & _).
  destruct (IH y1 W1) as (y2 & t2 & E2 & W2 & S2).
  exists y2, (t1 + t2). cbn [run_periodic]. rewrite E1, obind_Ret, E2, obind_Ret.
  split; [done|]. split; [done|]. rewrite U1 in S2. lia.
Qed.

Lemma window_ticks_up u : is_u16 u ->
  exists t, window_ticks u = Ret t /\ 32 * (t - 1) < 625 * u <= 32 * t.
Proof.
  intros Hu. unfold window_ticks, TICKS_PER_UNIT, TICKS_PER_UNIT_DENOM. ranges.
  rewrite mul_u32_Ret, obind_Ret by lia. eexists. split; [done|].
  pose proof (div_ceil_spec (u * 625) 32). lia.
Qed.

(** ** Property *)

(** C14. Time is kept exactly: on the timer as the stack starts it, which runs with
    24 bits at a tick of 32 microseconds, (1) any sequence of advertising or
    scan intervals of 0.625 ms units, any sequence of connection intervals of
    1.25 ms units, and any number of intervals of a periodic train, add up to
    their exact duration less a fraction of one tick, so schedules never drift;
    (2) each single interval fits the timer; (3) a scan window and a timeout are
    their duration rounded up to the next tick, and fit the timer, the timeout
    up to 2^29 - 32 microseconds. No 32-bit operation overflows. *)
Theorem schedule_exact w :
  let r := w_timer (snd (Ble_new w)) in
  tg_timer_mode r = true /\ tg_running r = true /\
  (forall us, Forall is_u16 us ->
    (exists a t, run_accum IntervalAccum_new us = Ret (a, t) /\
       rounds_down r t (sixteenths (sum_list us * 625))) /\
    (exists a t, run_accum IntervalAccum_new_125ms us = Ret (a, t) /\
       rounds_down r t (sixteenths (sum_list us * 1250)))) /\
  (forall y n, wf_sync y -> ps_frac y = 0 ->
    exists y' t, run_periodic n y = Ret (y', t) /\
      rounds_down r t (sixteenths (Z.of_nat n * (ps_units y * 1250)))) /\
  (forall a u, wf_accum a -> is_u16 u ->
    exists a' t, IntervalAccum_next a u = Ret (a', t) /\ wf_accum a' /\ fits r t) /\
  (forall u, is_u16 u ->
    exists t, window_ticks u = Ret t /\ fits r t /\ rounds_up r t (sixteenths (u * 625))) /\
  (forall micros, 0 <= micros ->
    rounds_up r (timeout_ticks micros) (sixteenths micros) /\
    (micros <= 2 ^ 29 - 32 -> fits r (timeout_ticks micros))).
Proof.
  intros r. destruct (timer_started w) as (E1 & E2 & Et & Eb). fold r in E1, E2, Et, Eb.
  change (sixteenths 32) with 512 in Et.
  assert (Ef : forall t, fits r t <-> 0 <= t < 16777216) by (intros t; unfold fits; by rewrite Eb).
  unfold rounds_up, sixteenths. rewrite Et. clearbody r.
  do 2 (split; [done|]). split.
  { intros us Hus. destruct wf_accum_new as [W1 W2].
    destruct (run_accum_floor _ us W1 eq_refl Hus) as [a1 R1].
    destruct (run_accum_floor _ us W2 eq_refl Hus) as [a2 R2].
    split; [exists a1|exists a2]; eexists; (split; [eassumption|]); by apply div32_rounds_down. }
  split.
  { intros y n Hy H0. destruct (run_periodic_total n y Hy) as (y' & t & E & [_ F] & S).
    exists y', t. split; [done|]. replace t with (Z.of_nat n * (ps_units y * 1250) / 32).
    - by apply div32_rounds_down.
    - symmetry. apply Z.div_unique with (ps_frac y'); lia. }
  split.
  { intros a u Ha Hu. destruct (IntervalAccum_next_spec a u Ha Hu) as (a' & t & E & W & _ & B & _).
    exists a', t. split; [done|]. split; [done|]. apply Ef. lia. }
  split.
  { intros u Hu. destruct (window_ticks_up u Hu) as (t & E & B). exists t. ranges.
    rewrite Ef. split; [done|]. lia. }
  intros m Hm. pose proof (div_ceil_spec m 32 ltac:(lia) Hm). unfold timeout_ticks.
  rewrite Ef. lia.
Qed.

(** ** Example *)

(** Eight advertising intervals of 20 ms last 5000 ticks exactly; a scan window
    of 2.5 ms is one of 79 ticks. *)
Lemma schedule_exact_witness :
  (exists a t, run_accum IntervalAccum_new (repeat 32 8) = Ret (a, t) /\
     rounds_down (w_timer (snd (Ble_new sample_world))) t (sixteenths 160000)) /\
  window_ticks 4 = Ret 79.
Proof.
  destruct (schedule_exact sample_world) as (_ & _ & Ha & _ & _ & Hw & _). split.
  - apply (Ha (repeat 32 8)). repeat constructor; done.
  - destruct (Hw 4) as (t & E & _ & B); [done|]. rewrite E. f_equal.
    destruct B as [B1 B2]. change (tick_len _) with 512 in B1, B2.
    change (sixteenths (4 * 625)) with 40000 in B1, B2. lia.
Defined.
