(* ===== verification/Privacy.v ===== *)
(** Private advertising: the rotation of the own address
    ([src/hw/ble.rs] [gap_rotate_rpa], [src/ll/priv_.rs]) up to the packet on the
    air, and its resolution by who holds the key. *)

From stdpp Require Import base numbers list.
From S2P Require Import Prelude Errors Channels Timers Addr Ad Pdu Events EventQueue Hci.
From S2P Require Import BondStore Crypto Aes Smp Ccm Gatt Conn Att CocChannel SmpChannel L2cap.
From S2P Require Import Frame Radio LinkLayer LinkInv LinkEvents Ble BleInv.
From S2P Require Import Advertiser AdvInv Scanner ScanInv Air.

(** The advertiser's address in a PDU. *)
Definition adv_address (p : AdvPdu) : option (list Z) :=
  match p with
  | AdvInd a _ | AdvNonconnInd a _ | AdvScanInd a _ => Some a
  | AdvDirectInd a _ => Some a
  | AdvExtInd a _ _ _ => Some a
  | _ => None
  end.

Lemma adv_pdu_address s : adv_address (adv_pdu s) = Some (b_own_addr s).
Proof. unfold adv_pdu. cbv zeta. destruct (adp_extended _); [done|]. by destruct (adp_adv_type _). Qed.

Section privacy.
Context `{Hcrypto : Crypto, Hccm : CcmHw, Henv : Env}.

(** The stack with its own address replaced. *)
Definition with_rpa (irk addr : list Z) (s : Ble) : Ble :=
  set_b_own_addr_type RandomPrivateResolvable (set_b_own_addr addr (gap_privacy_set s irk)).

Lemma rotate_Ret s w irk addr :
  generate_rpa irk (env_now (w_reads w) .& 0x00FFFFFF) = Ret addr ->
  gap_rotate_rpa (gap_privacy_set s irk) w = Ret (with_rpa irk addr s, fst (now w), true).
Proof.
  intros E. unfold gap_rotate_rpa. cbn [b_irk gap_privacy_set set_b_irk now fst].
  by rewrite E, obind_Ret.
Qed.

Lemma with_rpa_wf irk addr s : wf_ble s -> length addr = 6%nat -> wf_ble (with_rpa irk addr s).
Proof.
  intros Hs Hl. unfold with_rpa. pose proof (gap_privacy_set_wf s irk Hs).
  by wf_ble_by idtac.
Qed.

(** Which PDUs mark their address as random. *)
Lemma marked_public s : sent_tx (adv_pdu s) true = false <->
  adp_extended (b_adv_params s) = false /\
  adp_adv_type (b_adv_params s) = NonConnectableUndirected.
Proof.
  unfold adv_pdu. cbv zeta.
  by destruct (adp_extended _), (adp_adv_type _); cbn; split; try intros [? ?].
Qed.

End privacy.

(** ** Property *)

(** C24. Private advertising: after a key is set, rotating succeeds, and the next event
    of a running advertiser starts with a PDU whose advertiser address parses as
    resolvable and resolves with that key; another key resolves it only if its
    hash of the random part is the same. The address is a function of the key
    and of one reading of the timer. The PDU marks the address as random, unless
    it is a legacy PDU that neither connects nor answers scans: that one marks
    it as public. *)
Theorem private_advertising `{Hcrypto : Crypto, Hccm : CcmHw, Henv : Env} fuel s w irk other :
  wf_ble s -> b_adv_state s = AdvRunning ->
  exists s1 addr, gap_rotate_rpa (gap_privacy_set s irk) w = Ret (s1, fst (now w), true) /\
    generate_rpa irk (env_now (w_reads w) .& 0x00FFFFFF) = Ret addr /\
    resolve_rpa irk addr = Ret true /\
    BtAddr_parse addr = Ret (mkBtAddr addr RandomPrivateResolvable) /\
    resolve_rpa other addr =
      Ret (bool_decide (ah_hash other (drop 3 addr) = ah_hash irk (drop 3 addr))) /\
    wf_ble s1 /\
    forall s2 w2, adv_tick fuel s1 (fst (now w)) = Done (s2, w2) ->
      exists regs b0 b1 bs rest h p, w_sent w2 = w_sent w ++ (regs, b0 :: b1 :: bs) :: rest /\
        AdvPdu_decode (b0 :: b1 :: bs) = Ret (Ok p) /\ adv_address p = Some addr /\
        AdvHdr_decode b0 b1 = Ok h /\
        (ah_tx_add h = false <-> adp_extended (b_adv_params s) = false /\
           adp_adv_type (b_adv_params s) = NonConnectableUndirected).
Proof.
  intros Hs Hr. set (t := env_now (w_reads w) .& 0x00FFFFFF).
  destruct (rpa_resolves irk t other) as (addr & E & Hl & R1 & R2 & R3).
  set (s1 := with_rpa irk addr s). exists s1, addr.
  pose proof (with_rpa_wf irk addr s Hs Hl) as H1.
  split; [by apply rotate_Ret|]. do 5 (split; [done|]). intros s2 w2 E2.
  pose proof (adv_tick_running fuel s1 (fst (now w)) H1 Hr) as T. rewrite E2 in T.
  destruct T as (_ & _ & regs & rest & _ & _ & _ & Es & _).
  destruct (adv_pdu_wf s1 H1) as (Hw & Hp & Hrd).
  destruct (packet_header (adv_pdu s1) true false) as (b0 & b1 & Ep & Ed & _); [lia|].
  exists regs, b0, b1, (payload_of (adv_pdu s1)), rest, (header_of (adv_pdu s1) true false),
    (adv_pdu s1).
  rewrite <- Ep. split; [exact Es|]. split; [by rewrite packet_decodes, Hrd by (done || lia)|].
  split; [by apply adv_pdu_address|]. split; [exact Ed|].
  cbn [header_of ah_tx_add]. exact (marked_public s1).
Qed.

(** ** Example *)

(** The key of a device that is advertising. *)
Definition sample_key : list Z := replicate 16 0x2B.

Lemma private_advertising_witness :
  exists s1 addr s2 w2 regs bs rest p,
    @gap_rotate_rpa aes_crypto ack_env (gap_privacy_set sample_adv sample_key) sample_world =
      Ret (s1, fst (@now ack_env sample_world), true) /\
    @resolve_rpa aes_crypto sample_key addr = Ret true /\
    @adv_tick ack_env 5 s1 (fst (@now ack_env sample_world)) = Done (s2, w2) /\
    w_sent w2 = (regs, bs) :: rest /\
    AdvPdu_decode bs = Ret (Ok p) /\ adv_address p = Some addr.
Proof.
  destruct (@private_advertising aes_crypto xor_ccm ack_env 5 sample_adv sample_world
    sample_key (replicate 16 0) sample_adv_wf eq_refl)
    as (s1 & addr & E & _ & R & _ & _ & _ & H).
  assert (X : match @gap_rotate_rpa aes_crypto ack_env (gap_privacy_set sample_adv sample_key)
      sample_world with
    | Ret (s1, w1, _) => match @adv_tick ack_env 5 s1 w1 with Done _ => True | _ => False end
    | Panic => False end) by (vm_compute; exact I).
  rewrite E in X.
  set (m := @adv_tick ack_env 5 s1 (fst (@now ack_env sample_world))) in *.
  destruct m as [[s2 w2]| |] eqn:Et; [|destruct X..]. unfold m in Et.
  destruct (H s2 w2 eq_refl) as (regs & b0 & b1 & bs & rest & h & p & Es & D & A & _).
  exists s1, addr, s2, w2, regs, (b0 :: b1 :: bs), rest, p.
  split; [exact E|]. split; [exact R|]. split; [exact Et|]. split; [exact Es|].
  split; [exact D|exact A].
Defined.
