(* ===== verification/HwTest.v ===== *)
(** The test application ([examples/hwtest/src/main.rs]): it advertises until a
    central connects, sends it a greeting, drives the connection and means to
    echo what it receives, and starts again. What it prints is a log; the start
    of the crystal oscillator and the debug channel are not modelled. *)

From stdpp Require Import base numbers list relations.
From S2P Require Import Prelude Errors Channels Timers Addr Ad Pdu Events EventQueue Hci.
From S2P Require Import BondStore Crypto Smp Ccm Gatt Conn Att CocChannel SmpChannel L2cap.
From S2P Require Import Frame Radio LinkLayer LinkInv LinkEvents Ble BleInv.
From S2P Require Import Advertiser AdvInv Scanner ScanInv Air Driver DriverInv Stack AdvLive.

(** ** The source's definitions *)

(** The lines it prints. *)
Inductive Line : Type :=
| Boot
| Advertising
| ConnectedTo (conn : ConnectReqData)
| Driving
| Rx (data : list Z)
| DisconnectedBy (reason : DisconnectReason)
| OtherEvent (e : BleEvent)
| Closed.

Definition adv_params : AdvParams :=
  let d := AdvParams_default in
  mkAdvParams 160 160 ConnectableUndirected (adp_own_addr_type d) (adp_peer_addr d)
    (adp_channel_map d) (adp_extended d) (adp_periodic d) (adp_periodic_interval d).

(** [b"hello from nrf-ble!"] *)
Definition hello : list Z :=
  [104; 101; 108; 108; 111; 32; 102; 114; 111; 109; 32; 110; 114; 102; 45; 98; 108; 101; 33].

Definition adv_data : list Z :=
  [0x02; 0x01; 0x06; 0x08; 0x09; 110; 114; 102; 45; 98; 108; 101].

Definition own_addr : list Z := [0x08; 0x25; 0x20; 0xEF; 0xBE; 0xC1].

Section hwtest.
Context `{Hcrypto : Crypto, Hccm : CcmHw, Henv : Env}.

(** The callbacks. *)
Definition on_adv_event (ble : Ble) (w : World) (log : list Line) (evt : BleEvent)
    : run (Ble * World * list Line) :=
  match evt with
  | Connected conn =>
      let log := log ++ [ConnectedTo conn] in
      do* (ble, _) := conn_send ble hello in
      Done (ble, w, log)
  | _ => Done (ble, w, log)
  end.

Definition on_conn_event (ble : Ble) (w : World) (log : list Line) (evt : BleEvent)
    : run (Ble * World * list Line) :=
  match evt with
  | ConnData =>
      do* data := conn_rx_data ble in
      let buf := replicate 20 0 in
      let n := length data in
      do* buf := copy_at buf 0 n data in
      do* line := slice_to buf n in
      let log := log ++ [Rx line] in
      do* echo := slice_to buf n in
      do* (ble, _) := conn_send ble echo in
      Done (ble, w, log)
  | Disconnected reason => Done (ble, w, log ++ [DisconnectedBy reason])
  | other => Done (ble, w, log ++ [OtherEvent other])
  end.

(** Up to the loop. *)
Definition boot (w : World) : outcome (Ble * World * list Line) :=
  let log := [Boot] in
  let '(ble, w) := Ble_new w in
  let ble := gap_address_set ble own_addr RandomStatic in
  let! (ble, r) := gap_adv_set_configure ble adv_data [] in
  let! _ := unwrap (Ret r) in
  Ret (ble, w, log).

(** One turn of the loop, whose connections call [on_conn]. *)
Section turn.
Context (on_conn : Ble -> World -> list Line -> BleEvent -> run (Ble * World * list Line)).

Definition turn_with (fuel : nat) (ble : Ble) (w : World) (log : list Line)
    : run (Ble * World * list Line) :=
  do* (ble, w, r) := gap_adv_start ble w adv_params in
  do* _ := unwrap (Ret r) in
  let log := log ++ [Advertising] in
  let* (ble, w, log) := adv_forever on_adv_event fuel ble w log in
  let log := log ++ [Driving] in
  let* (ble, w, log) := conn_forever on_conn fuel ble w log in
  let log := log ++ [Closed] in
  Done (ble, w, log).

(** [n] turns of it. *)
Fixpoint turns_with (n fuel : nat) (ble : Ble) (w : World) (log : list Line)
    : run (Ble * World * list Line) :=
  match n with
  | O => Done (ble, w, log)
  | S n => let* (ble, w, log) := turn_with fuel ble w log in turns_with n fuel ble w log
  end.

Definition main_with (n fuel : nat) (w : World) : run (Ble * World * list Line) :=
  do* (ble, w, log) := boot w in turns_with n fuel ble w log.

End turn.

(** The application. *)
Definition main : nat -> nat -> World -> run (Ble * World * list Line) :=
  main_with on_conn_event.

(** The same, with something else done when there is received data to print and
    echo. *)
Definition on_data (alarm : Ble -> World -> list Line -> run (Ble * World * list Line))
    (ble : Ble) (w : World) (log : list Line) (evt : BleEvent)
    : run (Ble * World * list Line) :=
  match evt, conn_rx_data ble with
  | ConnData, Ret (_ :: _) => alarm ble w log
  | _, _ => on_conn_event ble w log evt
  end.

(** ** Lemmas *)

(** The log shows no received byte. *)
Definition no_rx (log : list Line) : Prop :=
  Forall (fun l => match l with Rx d => d = [] | _ => True end) log.

Lemma no_rx_snoc log l : no_rx log -> (match l with Rx d => d = [] | _ => True end) ->
  no_rx (log ++ [l]).
Proof. intros H1 H2. apply Forall_app. by split; [|constructor]. Qed.

(** From the stack and the world [x], if it is well-formed: a run that ends does so
    by steps of the stack, and its result satisfies [P]; and it stops the device
    only at a connection tick, in a state those steps reach. *)
Definition stops (x : Ble * World) (f : fault) : Prop :=
  exists fuel s w, rtc ble_step x (s, w) /\ conn_tick fuel s w = Fault f.
Definition tracked {A} (x : Ble * World) (m : run (Ble * World * A)) (P : Ble -> A -> Prop) : Prop :=
  wf_ble (fst x) ->
  match m with
  | Done (s, w, a) => rtc ble_step x (s, w) /\ P s a
  | Fault f => stops x f
  | OutOfFuel => True
  end.

Lemma tracked_after {A} x y (m : run (Ble * World * A)) P :
  rtc ble_step x y -> tracked y m P -> tracked x m P.
Proof.
  intros Hxy Hm Hx. specialize (Hm (reachable_ble _ _ Hx Hxy)).
  destruct m as [[[s w] a]|f|]; [|destruct Hm as (n & s & w & H & E)|done].
  - destruct Hm as [H HP]. split; [by etrans|done].
  - exists n, s, w. split; [by etrans|done].
Qed.

Lemma tracked_step {A} x y (m : run (Ble * World * A)) P :
  ble_step x y -> tracked y m P -> tracked x m P.
Proof. intros H. by apply tracked_after, rtc_once. Qed.

Lemma tracked_done {A} s w (a : A) (P : Ble -> A -> Prop) :
  P s a -> tracked (s, w) (Done (s, w, a)) P.
Proof. by split. Qed.

Lemma tracked_bind {A B} x (m : run (Ble * World * A)) (f : Ble * World * A -> run (Ble * World * B))
    P Q :
  tracked x m P -> (forall s w a, P s a -> tracked (s, w) (f (s, w, a)) Q) ->
  tracked x (rbind m f) Q.
Proof.
  intros Hm Hf Hx. specialize (Hm Hx). destruct m as [[[s w] a]| |]; [|done..].
  destruct Hm as [H HP]. exact (tracked_after _ _ _ _ H (Hf s w a HP) Hx).
Qed.

(** A callback's greeting or echo. *)
Lemma sends {A} s w d (f : Ble * result unit Error -> run (Ble * World * A)) P :
  (forall s' r, conn_send s d = Ret (s', r) -> wf_ble s ->
     tracked (s', w) (f (s', r)) P) ->
  tracked (s, w) (rbind (lift (conn_send s d)) f) P.
Proof.
  intros Hf Hs. cbn [fst] in Hs.
  destruct (gives_exists _ _ (conn_send_ok s d Hs)) as ([s' r] & E & _).
  rewrite E, lift_Ret, rbind_Done. eapply tracked_step; [by eapply do_send| |exact Hs].
  by apply Hf.
Qed.

Lemma conn_send_keeps s d s' r : wf_ble s -> conn_send s d = Ret (s', r) ->
  conn_rx_data s = Ret [] -> conn_rx_data s' = Ret [] /\ b_adv_state s' = b_adv_state s.
Proof.
  intros Hs. unfold conn_send, on_conn_ok, on_conn, conn_rx_data.
  destruct (b_conn s) as [c|] eqn:Ec.
  - rewrite queue_notify_Ret by apply (wb_conn s Hs c Ec). rewrite !obind_Ret.
    by intros [= <- _] Hrx.
  - intros [= <- _] _. by rewrite Ec.
Qed.

(** A connection's callback that does on received data whatever it likes, where
    there is none. *)
Lemma on_data_mute alarm s w log e : conn_rx_data s = Ret [] ->
  on_data alarm s w log e = on_conn_event s w log e.
Proof. unfold on_data. intros ->. by destruct e. Qed.

(** During a connection: nothing to read, and none was printed. *)
Definition mute (s : Ble) (log : list Line) : Prop :=
  conn_rx_data s = Ret [] /\ no_rx log /\ b_adv_state s = AdvIdle.
Definition silent_log (_ : Ble) (log : list Line) : Prop := no_rx log.

Lemma on_adv_event_tracked s w log e : no_rx log ->
  tracked (s, w) (on_adv_event s w log e) silent_log.
Proof.
  intros Hl. destruct e; try by apply tracked_done. cbn [on_adv_event].
  apply sends. intros s' r _ _. apply tracked_done. by apply no_rx_snoc.
Qed.

Lemma on_conn_event_tracked s w log e : mute s log ->
  tracked (s, w) (on_conn_event s w log e) mute.
Proof.
  intros (Hr & Hl & Ha).
  destruct e; try (apply tracked_done; split; [done|]; split; [by apply no_rx_snoc|done]).
  cbn [on_conn_event]. rewrite Hr, lift_Ret, rbind_Done. cbn -[conn_send rbind lift].
  apply sends. intros s' r E Hs. destruct (conn_send_keeps s [] s' r Hs E Hr) as [R' A'].
  apply tracked_done. split; [done|]. split; [by apply no_rx_snoc|by rewrite A'].
Qed.

(** The events are given to a callback that keeps [K]. *)
Lemma drain_tracked on_event (K : Ble -> list Line -> Prop) fuel s w log :
  (forall r s log, K s log -> K (set_b_events r s) log) ->
  (forall s w log e, K s log -> tracked (s, w) (on_event s w log e) K) ->
  K s log -> tracked (s, w) (drain_events on_event fuel s w log) K.
Proof.
  intros Hr He. revert s w log. induction fuel as [|fuel IH]; intros s w log Hk Hs; [done|].
  cbn [drain_events]. destruct (next_event_Ret s Hs) as (s1 & e & E & (r & ->) & _).
  rewrite E, lift_Ret, rbind_Done.
  eapply tracked_step; [by eapply do_next_event| |exact Hs].
  destruct e as [e|]; [|by apply tracked_done, Hr].
  eapply tracked_bind; [by apply He, Hr|]. intros s2 w2 log2. apply IH.
Qed.

Lemma adv_forever_tracked fuel s w log : no_rx log ->
  tracked (s, w) (adv_forever on_adv_event fuel s w log)
    (fun s log => no_rx log /\ b_adv_state s = AdvIdle).
Proof.
  revert s w log. induction fuel as [|fuel IH]; intros s w log Hl Hs; [done|].
  cbn [adv_forever]. destruct (wait_compare fuel w) as [w1| |] eqn:Ew; cbn [rbind]; [|..|done].
  2: { pose proof (wait_compare_runs fuel w) as R. by rewrite Ew in R. }
  eapply tracked_step; [by eapply do_wait| |exact Hs].
  pose proof (adv_tick_runs fuel s w1 Hs) as R.
  destruct (adv_tick fuel s w1) as [[s2 w2]| |] eqn:Et; cbn [rbind]; [|done..].
  eapply tracked_step; [by eapply do_adv_tick|].
  eapply tracked_bind; [apply (drain_tracked _ silent_log); [done|..|exact Hl]|].
  { intros. by apply on_adv_event_tracked. }
  intros s3 w3 log3 H3. case_bool_decide; [by apply tracked_done|by apply IH].
Qed.

(** Callbacks that agree where it matters are called with the same results. *)
Lemma drain_agrees on1 on2 (K : Ble -> list Line -> Prop) fuel s w log :
  (forall r s log, K s log -> K (set_b_events r s) log) ->
  (forall s w log e, K s log -> tracked (s, w) (on1 s w log e) K) ->
  (forall s w log e, K s log -> on2 s w log e = on1 s w log e) ->
  wf_ble s -> K s log -> drain_events on2 fuel s w log = drain_events on1 fuel s w log.
Proof.
  intros Hr He Ha. revert s w log. induction fuel as [|fuel IH]; intros s w log Hs Hk; [done|].
  cbn [drain_events]. destruct (next_event_Ret s Hs) as (s1 & e & E & (r & ->) & H1 & _).
  rewrite E, lift_Ret, !rbind_Done. destruct e as [e|]; [|done].
  specialize (He (set_b_events r s) w log e (Hr r s log Hk) H1).
  rewrite Ha by (by apply Hr). destruct (on1 _ _ _ _) as [[[s2 w2] log2]| |]; [|done..].
  destruct He as [Hst Hk2]. rewrite !rbind_Done. apply IH; [|done].
  exact (reachable_ble (set_b_events r s, w) (s2, w2) H1 Hst).
Qed.

(** A tick leaves the advertiser alone. *)
Lemma push_event_adv s e : ends (lift (push_event s e)) (fun s' => b_adv_state s' = b_adv_state s).
Proof. unfold push_event. by destruct (ring_push _ _ _). Qed.

Lemma conn_tick_adv fuel s w :
  ends (conn_tick fuel s w) (fun r => b_adv_state (fst (fst r)) = b_adv_state s).
Proof.
  unfold conn_tick. eapply (ends_bind _ _ (fun r => b_adv_state (fst (fst r)) = b_adv_state s)).
  - unfold conn_outcome. destruct (b_conn s) as [c|]; [|done]. cbn [now]. cbv zeta.
    apply ends_any. intros l. destruct (_ <=? _); [done|]. apply ends_any.
    intros [[c' w1] [[]|]]; done.
  - intros [[s1 w1] [reason|ev]] E1; cbn [fst] in E1.
    + unfold conn_closed. cbv zeta. rewrite lift_obind.
      eapply ends_bind; [apply push_event_adv|]. intros s2 E2.
      cbn [ends lift fst]. rewrite E2. exact E1.
    + eapply (ends_bind _ _ (fun s' => b_adv_state s' = b_adv_state s)); [|done].
      unfold conn_report. rewrite lift_obind.
      eapply (ends_bind _ _ (fun s' => b_adv_state s' = b_adv_state s)).
      * destruct ev; try exact E1;
          (eapply ends_mono; [apply push_event_adv|]; intros s2 E2; congruence).
      * intros s2 E2. destruct (b_conn s2) as [c|]; [|done]. destruct (_ <? _)%nat; [|done].
        eapply ends_mono; [apply push_event_adv|]. intros s3 E3. by rewrite E3.
Qed.

(** After a tick there is nothing to read. *)
Lemma conn_tick_mute fuel s w s' w' open log : wf_ble s -> b_adv_state s = AdvIdle ->
  no_rx log -> conn_tick fuel s w = Done (s', w', open) -> wf_ble s' /\ mute s' log.
Proof.
  intros Hs Ha Hl E. pose proof (conn_tick_adv fuel s w) as A. rewrite E, Ha in A.
  pose proof (conn_tick_ok fuel s w _ Hs E) as [H' K]. split; [done|]. split; [|done].
  unfold conn_rx_data. destruct open; [destruct K as (c & c' & ev & _ & _ & _ & ->)|by rewrite K].
  done.
Qed.

Lemma drain_mute fuel s w log : mute s log ->
  tracked (s, w) (drain_events on_conn_event fuel s w log) mute.
Proof.
  intros Hm. apply (drain_tracked _ mute); [done|intros; by apply on_conn_event_tracked|done].
Qed.

Lemma conn_forever_agrees alarm fuel s w log : wf_ble s -> b_adv_state s = AdvIdle ->
  no_rx log ->
  conn_forever (on_data alarm) fuel s w log = conn_forever on_conn_event fuel s w log.
Proof.
  revert s w log. induction fuel as [|fuel IH]; intros s w log Hs Ha Hl; [done|].
  cbn [conn_forever]. destruct (conn_tick fuel s w) as [[[s1 w1] open]| |] eqn:E; [|done..].
  destruct (conn_tick_mute _ _ _ _ _ _ log Hs Ha Hl E) as [H1 Hm]. rewrite !rbind_Done.
  rewrite (drain_agrees on_conn_event (on_data alarm) mute);
    [|done|intros; by apply on_conn_event_tracked|
     intros ? ? ? ? [Hr _]; by apply on_data_mute|done|done].
  pose proof (drain_mute fuel s1 w1 log Hm H1) as D.
  destruct (drain_events on_conn_event fuel s1 w1 log) as [[[s2 w2] log2]| |]; [|done..].
  destruct D as [Hst (_ & L2 & A2)]. rewrite !rbind_Done. destruct open; [|done].
  apply IH; [|done..]. exact (reachable_ble (s1, w1) (s2, w2) H1 Hst).
Qed.

Lemma conn_forever_tracked fuel s w log : b_adv_state s = AdvIdle -> no_rx log ->
  tracked (s, w) (conn_forever on_conn_event fuel s w log) mute.
Proof.
  revert s w log. induction fuel as [|fuel IH]; intros s w log Ha Hl Hs; [done|].
  cbn [conn_forever].
  destruct (conn_tick fuel s w) as [[[s1 w1] open]| |] eqn:E; cbn [rbind]; [|intros; by exists fuel, s, w|done].
  destruct (conn_tick_mute _ _ _ _ _ _ log Hs Ha Hl E) as [_ Hm].
  eapply tracked_step; [by eapply do_conn_tick| |exact Hs].
  eapply tracked_bind; [by apply drain_mute|].
  intros s2 w2 log2 (R2 & L2 & A2). destruct open; [by apply IH|by apply tracked_done].
Qed.

Lemma adv_params_wf : wf_adv adv_params.
Proof. split; [split; [|done]|done]. by repeat split. Qed.

(** Starting to advertise, in a turn, succeeds. *)
Lemma turn_starts s w : wf_ble s -> b_adv_state s = AdvIdle -> exists s1 w1,
  gap_adv_start s w adv_params = Ret (s1, w1, Ok tt) /\ wf_ble s1.
Proof.
  intros Hs Ha. destruct (gives_exists _ _ (gap_adv_start_ok s w adv_params Hs adv_params_wf))
    as ([[s1 w1] r] & E & H1 & K).
  assert (Er : adv_refused s adv_params = false) by (unfold adv_refused; by rewrite Ha).
  rewrite Er in K. destruct K as (-> & _). by exists s1, w1.
Qed.

Lemma turn_tracked fuel s w log : b_adv_state s = AdvIdle -> no_rx log ->
  tracked (s, w) (turn_with on_conn_event fuel s w log) mute.
Proof.
  intros Ha Hl Hs. unfold turn_with.
  destruct (turn_starts s w Hs Ha) as (s1 & w1 & E & _). rewrite E, lift_Ret, rbind_Done.
  cbn [unwrap obind]. rewrite lift_Ret, rbind_Done.
  eapply tracked_step; [eapply do_adv_start; [apply adv_params_wf|exact E]| |exact Hs].
  eapply tracked_bind; [apply adv_forever_tracked; by apply no_rx_snoc|].
  intros s2 w2 log2 [L2 A2].
  eapply tracked_bind; [apply conn_forever_tracked; [done|by apply no_rx_snoc]|].
  intros s3 w3 log3 (R3 & L3 & A3). apply tracked_done. split; [done|].
  split; [by apply no_rx_snoc|done].
Qed.

Lemma turns_tracked n fuel s w log : b_adv_state s = AdvIdle -> no_rx log ->
  tracked (s, w) (turns_with on_conn_event n fuel s w log) (fun s log => no_rx log /\ b_adv_state s = AdvIdle).
Proof.
  revert s w log. induction n as [|n IH]; intros s w log Ha Hl; [by apply tracked_done|].
  cbn [turns_with]. eapply tracked_bind; [by apply turn_tracked|].
  intros s2 w2 log2 (_ & L2 & A2). by apply IH.
Qed.

Lemma turns_agree alarm n fuel s w log : wf_ble s -> b_adv_state s = AdvIdle -> no_rx log ->
  turns_with (on_data alarm) n fuel s w log = turns_with on_conn_event n fuel s w log.
Proof.
  revert s w log. induction n as [|n IH]; intros s w log Hs Ha Hl; [done|].
  cbn [turns_with].
  assert (E : turn_with (on_data alarm) fuel s w log = turn_with on_conn_event fuel s w log).
  { unfold turn_with. destruct (turn_starts s w Hs Ha) as (s1 & w1 & -> & H1).
    rewrite lift_Ret, !rbind_Done. cbn [unwrap obind]. rewrite lift_Ret, !rbind_Done.
    pose proof (adv_forever_tracked fuel s1 w1 (log ++ [Advertising])
      (no_rx_snoc log Advertising Hl I) H1) as T.
    destruct (adv_forever _ _ _ _ _) as [[[s2 w2] log2]| |]; [|done..].
    destruct T as [Hst [L2 A2]]. rewrite !rbind_Done.
    rewrite conn_forever_agrees; [done| |done|by apply no_rx_snoc].
    exact (reachable_ble (s1, w1) (s2, w2) H1 Hst). }
  rewrite E. pose proof (turn_tracked fuel s w log Ha Hl Hs) as T.
  destruct (turn_with on_conn_event fuel s w log) as [[[s2 w2] log2]| |]; [|done..].
  destruct T as [Hst (_ & L2 & A2)]. rewrite !rbind_Done. apply IH; [|done..].
  exact (reachable_ble (s, w) (s2, w2) Hs Hst).
Qed.

Lemma boot_Ret w : exists s w', boot w = Ret (s, w', [Boot]) /\
  rtc ble_step (Ble_new w) (s, w') /\ b_adv_state s = AdvIdle.
Proof.
  unfold boot. cbn [Ble_new]. set (s0 := gap_address_set Ble_init own_addr RandomStatic).
  assert (H0 : wf_ble s0) by (by apply gap_address_set_wf; [apply Ble_init_wf|]).
  destruct (gives_exists _ _ (gap_adv_set_configure_ok s0 adv_data [] H0))
    as ([s r] & E & H & K). cbn [length adv_data Nat.ltb Nat.leb orb] in K.
  destruct K as [-> _].
  assert (A : match gap_adv_set_configure s0 adv_data [] with
    | Ret (s, _) => b_adv_state s = AdvIdle | Panic => False end) by (vm_compute; reflexivity).
  rewrite E in A |- *. cbn [unwrap obind]. eexists _, _. split; [done|]. split; [|done].
  eapply rtc_l; [by apply (do_address Ble_init _ own_addr RandomStatic)|].
  eapply rtc_once, do_configure. exact E.
Qed.

End hwtest.

(** ** Property *)

(** C7. The test application never echoes: its handling of received data is dead
    code. Whatever is put in the place of printing and sending back data that is
    there, every run of the application is the same, in any number of turns of
    its loop, also one that waits for ever or stops; of a run that completes its
    turns the log has an empty line wherever data was announced. Nothing it
    unwraps is an error, and what stops it is a connection tick, by a panic or by
    a packet past the end of the connection's buffer, in a state the stack has
    reached by its calls and ticks. That the application gets on is not stated:
    it waits for a central, and for ever when a window meets the timer's wrap. *)
Theorem hwtest_never_echoes `{Hcrypto : Crypto, Hccm : CcmHw, Henv : Env} n fuel w :
  (forall alarm, main_with (on_data alarm) n fuel w = main n fuel w) /\
  match main n fuel w with
  | Done (ble, w', log) =>
      rtc ble_step (Ble_new w) (ble, w') /\ b_adv_state ble = AdvIdle /\ no_rx log
  | Fault f =>
      exists fuel' s w', rtc ble_step (Ble_new w) (s, w') /\ conn_tick fuel' s w' = Fault f
  | OutOfFuel => True
  end.
Proof.
  unfold main, main_with. destruct (boot_Ret w) as (s & w1 & -> & Hr & Ha).
  rewrite lift_Ret, !rbind_Done. pose proof (reachable_ble (Ble_new w) (s, w1) Ble_init_wf Hr) as Hs.
  assert (Hl : no_rx [Boot]) by repeat constructor. split.
  { intros alarm. by apply turns_agree. }
  pose proof (turns_tracked n fuel s w1 [Boot] Ha Hl) as T.
  apply (tracked_after _ _ _ _ Hr) in T. specialize (T Ble_init_wf).
  destruct (turns_with _ _ _ _ _ _) as [[[ble w2] log]| |]; [|exact T|done].
  destruct T as (H1 & H2 & H3). by split.
Qed.

(** ** Examples *)

(** The air has a central that asks for a connection at every turn and then says
    nothing an open connection understands: two turns. *)
Lemma hwtest_never_echoes_witness :
  exists ble w log, @main mask_crypto xor_ccm connect_env 2 20 sample_world = Done (ble, w, log) /\
    no_rx log /\ b_adv_state ble = AdvIdle /\
    (fun l => match l with DisconnectedBy r => Some r | _ => None end) <$> log =
      [None; None; None; None; Some LocalError; None; None; None; None; Some LocalError; None].
Proof.
  pose proof (@hwtest_never_echoes mask_crypto xor_ccm connect_env 2 20 sample_world) as H.
  assert (E : match @main mask_crypto xor_ccm connect_env 2 20 sample_world with
    | Done (_, _, log) =>
        (fun l => match l with DisconnectedBy r => Some r | _ => None end) <$> log =
        [None; None; None; None; Some LocalError; None; None; None; None; Some LocalError; None]
    | _ => False end) by (vm_compute; reflexivity).
  destruct (@main mask_crypto xor_ccm connect_env 2 20 sample_world) as [[[ble w] log]| |];
    [|destruct E..].
  destruct H as (_ & _ & H1 & H3). exists ble, w, log. split; [done|].
  split; [exact H3|]. split; [exact H1|exact E].
Defined.

(** Starting to advertise replaces the type of the address by the parameters'
    own: the application's random static address goes out marked as public. *)
Lemma hwtest_advertises_public :
  match boot sample_world with
  | Ret (ble, w, _) =>
      b_own_addr_type ble = RandomStatic /\
      match @gap_adv_start ack_env ble w adv_params with
      | Ret (ble, _, Ok _) => b_own_addr_type ble = Public /\
          BtAddr_parse (b_own_addr ble) = Ret (mkBtAddr own_addr RandomStatic)
      | _ => False
      end
  | Panic => False
  end.
Proof. vm_compute. by repeat split. Qed.
