(* ===== verification/Testing.v ===== *)
(** The language of the crate's own tests: assertions as computations that
    panic, as [assert!] and [assert_eq!] do. A test is an [outcome unit] that
    follows the body of the [#[test]] function; it passes when it returns. *)

From stdpp Require Import base numbers list strings.
From S2P Require Import Prelude.

Definition assert (b : bool) : outcome unit := if b then Ret tt else Panic.

Definition assert_eq {A} `{EqDecision A} (a b : A) : outcome unit :=
  assert (bool_decide (a = b)).

Definition assert_ne {A} `{EqDecision A} (a b : A) : outcome unit :=
  assert (negb (bool_decide (a = b))).

(** [Option::unwrap]. *)
Definition some {A} (o : option A) : outcome A :=
  match o with Some a => Ret a | None => Panic end.

(** [Result::is_err] and [is_ok]. *)
Definition is_err {A E} (r : result A E) : bool :=
  match r with Ok _ => false | Err _ => true end.
Definition is_ok {A E} (r : result A E) : bool := negb (is_err r).

(** A [for] loop whose body updates a state. *)
Fixpoint for_each {A S} (l : list A) (s : S) (body : A -> S -> outcome S) : outcome S :=
  match l with
  | [] => Ret s
  | x :: l => let! s := body x s in for_each l s body
  end.

(** A [for] loop of assertions. *)
Definition for_all {A} (l : list A) (body : A -> outcome unit) : outcome unit :=
  for_each l tt (fun x _ => body x).

(** [0..n] as numbers. *)
Definition range (n : nat) : list Z := Z.of_nat <$> seq 0 n.

(** A byte string literal. *)
Definition byte_str (s : string) : list Z :=
  (fun c => Z.of_N (Ascii.N_of_ascii c)) <$> String.list_ascii_of_string s.

Definition passes (t : outcome unit) : bool :=
  match t with Ret _ => true | Panic => false end.

(** A panic anywhere before the end is a failed test. *)
Lemma assert_eq_refl {A} `{EqDecision A} (a : A) : assert_eq a a = Ret tt.
Proof. unfold assert_eq. by rewrite bool_decide_eq_true_2. Qed.

Lemma passes_obind {A} (m : outcome A) f :
  passes (obind m f) = true <-> exists a, m = Ret a /\ passes (f a) = true.
Proof.
  destruct m as [a|]; cbn; split; try done; [by exists a|by intros (? & [= ->] & ?)|by intros (? & [=] & _)].
Qed.

Lemma passes_for_all {A} (l : list A) body :
  passes (for_all l body) = true <-> Forall (fun x => passes (body x) = true) l.
Proof.
  unfold for_all. induction l as [|x l IH]; cbn [for_each]; [by split|].
  rewrite passes_obind, Forall_cons. split.
  - intros ([] & E & H). rewrite E. split; [done|]. by apply IH.
  - intros [E H]. destruct (body x) as [[]|]; [|done]. exists tt. split; [done|]. by apply IH.
Qed.
