(* ===== verification/TestFormats.v ===== *)
(** The crate's unit tests of its formats and arithmetic, and its loopback
    integration test, run on the definitions: the [tests] modules of
    [src/gap/ad.rs], [src/ll/], [src/sim.rs], [src/hw/timers.rs] and
    [src/hw/ble.rs], and [tests/sim_loopback.rs]. *)

From stdpp Require Import base numbers list strings.
From S2P Require Import Prelude Errors Crc Whiten Sim Channels Timers Addr Ad Pdu Testing.

#[local] Open Scope Z_scope.
#[local] Open Scope rust_scope.

#[export] Instance AdEntry_eq_dec : EqDecision AdEntry.
Proof. solve_decision. Defined.
#[export] Instance AdvHdr_eq_dec : EqDecision AdvHdr.
Proof. solve_decision. Defined.
#[export] Instance AuxPtr_eq_dec : EqDecision AuxPtr.
Proof. solve_decision. Defined.
#[export] Instance PeriodicAdvInfo_eq_dec : EqDecision PeriodicAdvInfo.
Proof. solve_decision. Defined.
#[export] Instance AdvPdu_eq_dec : EqDecision AdvPdu.
Proof. solve_decision. Defined.
#[export] Instance DataPdu_eq_dec : EqDecision DataPdu.
Proof. solve_decision. Defined.
#[export] Instance ConnectReqData_eq_dec : EqDecision ConnectReqData.
Proof. solve_decision. Defined.
#[export] Instance RxPacket_eq_dec : EqDecision RxPacket.
Proof. solve_decision. Defined.
#[export] Instance result_eq_dec {A E} `{EqDecision A, EqDecision E} : EqDecision (result A E).
Proof. solve_decision. Defined.

(** ** Advertising data *)

(** [for entry in iter(..)]: the items until the iterator ends. *)
Fixpoint collect (fuel : nat) (it : AdIter) : outcome (list (result AdEntry Error)) :=
  match fuel with
  | O => Panic
  | S fuel =>
      let! (it, item) := AdIter_next it in
      match item with
      | None => Ret []
      | Some r => let! rs := collect fuel it in Ret (r :: rs)
      end
  end.

Definition test_build_and_parse_roundtrip : outcome unit :=
  let entries :=
    [mkAdEntry AD_TYPE_FLAGS [ad_flags_value true false true];
     mkAdEntry AD_TYPE_TX_POWER_LEVEL [0];
     mkAdEntry AD_TYPE_COMPLETE_NAME (byte_str "nrf-ble");
     mkAdEntry AD_TYPE_MANUFACTURER_SPECIFIC [0x59; 0x00; 0x01; 0x02]] in
  let! (buf, n) := unwrap (build entries (replicate 31 0)) in
  let! _ := assert (n <=? 31)%nat in
  let! s := slice_to buf n in
  let! items := collect 32 (iter s) in
  let! (parsed, count) :=
    for_each items (replicate 4 None, 0%nat) (fun entry '(parsed, count) =>
      let! e := unwrap (Ret entry) in
      let! parsed := set_idx parsed count (Some e) in
      Ret (parsed, (count + 1)%nat)) in
  let! _ := assert_eq count 4%nat in
  let! p0 := idx parsed 0 in
  let! parsed0 := some p0 in
  let! p2 := idx parsed 2 in
  let! parsed2 := some p2 in
  let! _ := assert_eq (ad_type parsed0) AD_TYPE_FLAGS in
  let! _ := assert_eq (ad_data parsed0) [0x06] in
  let! _ := assert_eq (ad_type parsed2) AD_TYPE_COMPLETE_NAME in
  assert_eq (ad_data parsed2) (byte_str "nrf-ble").

Definition test_truncated_entry_rejected : outcome unit :=
  let buf := [0x05; 0x09] ++ byte_str "nrf" in
  let! (_, item) := AdIter_next (iter buf) in
  let! r := some item in
  assert (is_err r).

Definition test_zero_length_entry_rejected : outcome unit :=
  let buf := [0x00; 0x01; 0x06] in
  let! (_, item) := AdIter_next (iter buf) in
  let! r := some item in
  assert (is_err r).

Definition test_build_reports_buffer_too_small : outcome unit :=
  let entries := [mkAdEntry AD_TYPE_COMPLETE_NAME
    (byte_str "a-very-long-name-that-does-not-fit")] in
  let! r := build entries (replicate 5 0) in
  assert (is_err r).

Definition test_empty_ad_is_valid : outcome unit :=
  let! (_, n) := unwrap (build [] (replicate 4 0)) in
  assert_eq n 0%nat.

Definition test_uuid16_entries_pack_le : outcome unit :=
  let entries := [mkAdEntry AD_TYPE_UUID16_COMPLETE [0x0D; 0x18]] in
  let! (buf, n) := unwrap (build entries (replicate 8 0)) in
  let! s := slice_to buf n in
  assert_eq s [0x03; 0x03; 0x0D; 0x18].

Definition ad_tests : list (outcome unit) :=
  [test_build_and_parse_roundtrip; test_truncated_entry_rejected;
   test_zero_length_entry_rejected; test_build_reports_buffer_too_small;
   test_empty_ad_is_valid; test_uuid16_entries_pack_le].

(** ** Addresses and the accept list *)

Definition test_parse_private_non_resolvable : outcome unit :=
  let! a := BtAddr_parse [0x01; 0x02; 0x03; 0x04; 0x05; 0x06] in
  assert_eq (ba_addr_type a) RandomPrivateNonResolvable.

Definition test_parse_random_static : outcome unit :=
  let! a := BtAddr_parse [0x01; 0x02; 0x03; 0x04; 0x05; 0xC1] in
  assert_eq (ba_addr_type a) RandomStatic.

Definition test_parse_random_private_resolvable : outcome unit :=
  let! a := BtAddr_parse [0x01; 0x02; 0x03; 0x04; 0x05; 0x40] in
  assert_eq (ba_addr_type a) RandomPrivateResolvable.

Definition test_tx_add_bit_reflects_type : outcome unit :=
  let! _ := assert (negb (BtAddr_tx_add_bit (BtAddr_from_bytes (replicate 6 0) Public))) in
  assert (BtAddr_tx_add_bit (BtAddr_from_bytes (replicate 6 0) RandomStatic)).

Definition test_add_and_contains : outcome unit :=
  let list := AcceptList_new in
  let! (list, ok) := AcceptList_add list (replicate 6 1) Public in
  let! _ := assert ok in
  let! c := AcceptList_contains list (replicate 6 1) Public in
  let! _ := assert c in
  let! c := AcceptList_contains list (replicate 6 1) RandomStatic in
  let! _ := assert (negb c) in
  let! c := AcceptList_contains list (replicate 6 2) Public in
  assert (negb c).

Definition test_duplicates_rejected : outcome unit :=
  let list := AcceptList_new in
  let! (list, ok) := AcceptList_add list (replicate 6 1) Public in
  let! _ := assert ok in
  let! (list, ok) := AcceptList_add list (replicate 6 1) Public in
  let! _ := assert (negb ok) in
  assert_eq (AcceptList_len list) 1%nat.

Definition test_capacity_limited : outcome unit :=
  let! list := for_each (range ACCEPT_LIST_MAX) AcceptList_new (fun i list =>
    let! (list, ok) := AcceptList_add list (replicate 6 (u8 i)) Public in
    let! _ := assert ok in
    Ret list) in
  let! (list, ok) := AcceptList_add list (replicate 6 0xFF) Public in
  let! _ := assert (negb ok) in
  assert_eq (AcceptList_len list) ACCEPT_LIST_MAX.

Definition test_clear_empties : outcome unit :=
  let! (list, _) := AcceptList_add AcceptList_new (replicate 6 1) Public in
  let list := AcceptList_clear list in
  assert (AcceptList_is_empty list).

Definition addr_tests : list (outcome unit) :=
  [test_parse_private_non_resolvable; test_parse_random_static;
   test_parse_random_private_resolvable; test_tx_add_bit_reflects_type;
   test_add_and_contains; test_duplicates_rejected; test_capacity_limited;
   test_clear_empties].

(** ** Channels *)

Definition test_adv_channel_frequencies : outcome unit :=
  let! f := unwrap (Ret (channel_frequency 37)) in
  let! _ := assert_eq f 2402 in
  let! f := unwrap (Ret (channel_frequency 38)) in
  let! _ := assert_eq f 2426 in
  let! f := unwrap (Ret (channel_frequency 39)) in
  assert_eq f 2480.

Definition test_data_channel_frequencies : outcome unit :=
  let! f := unwrap (Ret (channel_frequency 0)) in
  let! _ := assert_eq f 2404 in
  let! f := unwrap (Ret (channel_frequency 36)) in
  let! _ := assert_eq f 2476 in
  let! f := unwrap (Ret (channel_frequency 10)) in
  assert_eq f 2424.

Definition test_invalid_channel_rejected : outcome unit :=
  let! _ := assert (is_err (channel_frequency 40)) in
  assert (is_err (channel_frequency 255)).

Definition test_fixed_hop_cycles_all_channels : outcome unit :=
  let! (seen, _) := for_each (range 37) (replicate 37 false, 0) (fun _ '(seen, ch) =>
    let! ch := next_data_channel ch 13 in
    let! seen := set_idx seen (Z.to_nat ch) true in
    Ret (seen, ch)) in
  assert (forallb id seen).

Definition test_hop_table_entries_are_valid : outcome unit :=
  let! _ := assert_eq (length HOP_INCREMENTS) 20%nat in
  for_all HOP_INCREMENTS (fun hop => assert (hop <? 37)).

Definition test_preamble_for_adv_access_address : outcome unit :=
  let! _ := assert_eq (preamble_for_access_address ADV_ACCESS_ADDRESS) 0x55 in
  assert_eq (preamble_for_access_address 0x8E89BED7) 0xAA.

Definition test_base_prefix_split_matches_nrf52_layout : outcome unit :=
  let '(base, prefix) := access_address_to_base_prefix ADV_ACCESS_ADDRESS in
  let! _ := assert_eq base 0x89BED600 in
  assert_eq prefix 0x8E.

Definition channel_tests : list (outcome unit) :=
  [test_adv_channel_frequencies; test_data_channel_frequencies;
   test_invalid_channel_rejected; test_fixed_hop_cycles_all_channels;
   test_hop_table_entries_are_valid; test_preamble_for_adv_access_address;
   test_base_prefix_split_matches_nrf52_layout].

(** ** Checksums and whitening *)

Definition test_known_check_value : outcome unit :=
  assert_eq (crc24 (byte_str "123456789")) 0xC25A56.

(** The packet of the next three tests, with its checksum. *)
Definition crc_full : outcome (list Z) :=
  let pdu := [0x00; 0x0C; 0x01; 0x02; 0x03; 0x04; 0x05; 0x06] in
  let! buf := unwrap (append_crc pdu (replicate 3 0)) in
  let! full := copy_at (replicate 11 0) 0 8 pdu in
  copy_at full 8 11 buf.

Definition test_residue_is_zero_when_crc_appended : outcome unit :=
  let! full := crc_full in
  assert (check full).

Definition test_crc_detects_single_bit_flip : outcome unit :=
  let! full := crc_full in
  let! b := idx full 3 in
  let! full := set_idx full 3 (b .^ 0x80) in
  assert (negb (check full)).

Definition test_crc_detects_burst_errors : outcome unit :=
  let! full := crc_full in
  let! b := idx full 4 in
  let! full := set_idx full 4 (b .^ 0x3C) in
  assert (negb (check full)).

Definition test_crc_differs_per_payload : outcome unit :=
  assert_ne (crc24 (byte_str "aaaa")) (crc24 (byte_str "aaab")).

Definition test_crc_with_init_matches_connect_req_semantics : outcome unit :=
  let crc := crc24_with_init [0x00; 0x0C; 0x01] 0x654321 in
  assert_eq crc (crc24_with_init [0x00; 0x0C; 0x01] 0x654321).

Definition test_init_follows_ble_scheme : outcome unit :=
  let! _ := assert_eq (whitening_init 37) 0x65 in
  let! _ := assert_eq (whitening_init 0) 0x40 in
  assert_eq (whitening_init 39) 0x67.

Definition test_whiten_is_an_involution_for_all_adv_channels : outcome unit :=
  for_all [0; 17; 36; 37; 38; 39] (fun ch =>
    let data := [0x00; 0x0C; 0xAA; 0x55; 0xFF; 0x01; 0x80; 0x7E] in
    let original := data in
    let data := whiten data ch in
    let data := whiten data ch in
    assert_eq data original).

Definition test_different_channels_produce_different_output : outcome unit :=
  let a := [0x42; 0x13; 0x00; 0xFF] in
  assert_ne (whiten a 37) (whiten a 38).

Definition test_whitening_init_has_msb_set : outcome unit :=
  for_all (range 40) (fun ch =>
    let! _ := assert (negb (whitening_init ch .& 0x40 =? 0)) in
    assert (whitening_init ch .& 0x80 =? 0)).

Definition checksum_tests : list (outcome unit) :=
  [test_known_check_value; test_residue_is_zero_when_crc_appended;
   test_crc_detects_single_bit_flip; test_crc_detects_burst_errors;
   test_crc_differs_per_payload; test_crc_with_init_matches_connect_req_semantics;
   test_init_follows_ble_scheme; test_whiten_is_an_involution_for_all_adv_channels;
   test_different_channels_produce_different_output; test_whitening_init_has_msb_set].

(** ** Packet formats *)

Definition A1 : list Z := [0x01; 0x02; 0x03; 0x04; 0x05; 0x06].
Definition A2 : list Z := [0x06; 0x05; 0x04; 0x03; 0x02; 0x01].
Definition A3 : list Z := [0xAA; 0xBB; 0xCC; 0xDD; 0xEE; 0xFF].
Definition A4 : list Z := [0x11; 0x22; 0x33; 0x44; 0x55; 0x66].
Definition A5 : list Z := [0x77; 0x88; 0x99; 0xAA; 0xBB; 0xCC].

Definition test_adv_header_bit_layout : outcome unit :=
  let h := mkAdvHdr PDU_ADV_IND false false false 6 in
  let! _ := assert_eq (AdvHdr_encode h) [0x00; 0x0C] in
  let h := mkAdvHdr PDU_SCAN_REQ false true false 12 in
  let! _ := assert_eq (AdvHdr_encode h) [0x83; 0x18] in
  let! d := unwrap (Ret (AdvHdr_decode 0x83 0x18)) in
  assert_eq d h.

(** [pdu.encode(&mut [0; size])] and the bytes written. *)
Definition encoded (pdu : AdvPdu) (size : nat) : outcome (list Z * nat) :=
  let! (buf, n) := unwrap (AdvPdu_encode pdu (replicate size 0)) in
  let! s := slice_to buf n in
  Ret (s, n).

Definition test_adv_ind_roundtrip : outcome unit :=
  let data := [0x02; 0x01; 0x06; 0x03; 0x19; 0xC1; 0x03] in
  let pdu := AdvInd A1 data in
  let! (s, n) := encoded pdu 64 in
  let! _ := assert_eq n (2 + 6 + 7)%nat in
  let! decoded := unwrap (AdvPdu_decode s) in
  assert_eq decoded pdu.

Definition test_adv_ind_canonical_bytes : outcome unit :=
  let pdu := AdvInd A2 [0x00; 0x01; 0x02] in
  let! (s, _) := encoded pdu 64 in
  assert_eq s [0x00; 0x12; 0x06; 0x05; 0x04; 0x03; 0x02; 0x01; 0x00; 0x01; 0x02].

Definition test_scan_req_roundtrip : outcome unit :=
  let pdu := ScanReq A3 A1 in
  let! (s, n) := encoded pdu 64 in
  let! _ := assert_eq n 14%nat in
  let! d := unwrap (AdvPdu_decode s) in
  let! _ := assert_eq d pdu in
  assert_eq (pdu_type pdu) PDU_SCAN_REQ.

Definition test_connect_req_roundtrip : outcome unit :=
  let ll := mkConnectReqData 0x1234ABCD 0x654321 2 1 24 4 2000
    [0xFF; 0xFF; 0xFF; 0xFF; 0x1F] 13 2 in
  let! (llbuf, _) := unwrap (ConnectReqData_encode ll (replicate 22 0)) in
  let! d := unwrap (ConnectReqData_decode llbuf) in
  let! _ := assert_eq d ll in
  let pdu := ConnectReq A4 A5 llbuf in
  let! (s, n) := encoded pdu 64 in
  let! _ := assert_eq n 36%nat in
  let! d := unwrap (AdvPdu_decode s) in
  match d with
  | ConnectReq _ _ ll_data =>
      let! d := unwrap (ConnectReqData_decode ll_data) in
      assert_eq d ll
  | _ => Panic
  end.

Definition test_data_pdu_roundtrip : outcome unit :=
  let pdu := mkDataPdu LLID_CONTROL true false true [0x01; 0x02; 0x03] in
  let! (buf, n) := unwrap (DataPdu_encode pdu (replicate 64 0)) in
  let! s := slice_to buf n in
  let! _ := assert_eq s [0x16; 0x03; 0x01; 0x02; 0x03] in
  let! d := unwrap (DataPdu_decode s) in
  assert_eq d pdu.

Definition test_truncated_pdu_rejected : outcome unit :=
  let! r := AdvPdu_decode [0x00] in
  let! _ := assert (is_err r) in
  let! r := AdvPdu_decode [0x00; 0x0C; 0x01] in
  let! _ := assert (is_err r) in
  let! r := DataPdu_decode [0x00] in
  assert (is_err r).

Definition test_length_mismatch_rejected : outcome unit :=
  let! r := AdvPdu_decode [0x00; 0x0C; 0x01; 0x02; 0x03; 0x04; 0x05] in
  assert (is_err r).

Definition test_reserved_pdu_type_rejected : outcome unit :=
  let! r := AdvPdu_decode [0x08; 0x00] in
  assert (is_err r).

Definition test_aux_ptr_bit_layout : outcome unit :=
  let p := mkAuxPtr 5 511 1 in
  let e := AuxPtr_encode p in
  let! e0 := idx e 0 in
  let! e1 := idx e 1 in
  let! e2 := idx e 2 in
  let! _ := assert_eq p (AuxPtr_decode e0 e1 e2) in
  let! _ := assert_eq (e0 .& 0x3F) 5 in
  let! _ := assert_eq ((e0 .>> 6) .| (e1 .<< 2)) 511 in
  assert_eq (e2 .& 0x03) 1.

Definition test_adv_ext_ind_roundtrip : outcome unit :=
  let pdu := AdvExtInd (replicate 6 0xAA) 1 (0x12, 0x34) (mkAuxPtr 3 64 0) in
  let! (s, n) := encoded pdu 32 in
  let! _ := assert_eq n 14%nat in
  let! b0 := idx s 0 in
  let! _ := assert_eq (b0 .& 0x0F) PDU_ADV_EXT_IND in
  let! decoded := unwrap (AdvPdu_decode s) in
  assert_eq decoded pdu.

Definition test_aux_adv_ext_ind_roundtrip : outcome unit :=
  let data := [0x02; 0x01; 0x06; 0x05; 0x09] ++ byte_str "hello" in
  let pdu := AuxAdvExtInd (replicate 6 0xBB) (0x56, 0x78) 0x00 data in
  let! (s, n) := encoded pdu 40 in
  let! _ := assert_eq n (2 + 10 + 10)%nat in
  let! b := idx s 10 in
  let! _ := assert_eq b 1 in
  let! b := idx s 11 in
  let! _ := assert_eq b 0x00 in
  let! d := unwrap (AdvPdu_decode s) in
  match d with
  | AuxAdvExtInd _ _ _ d => assert_eq d data
  | _ => Panic
  end.

Definition test_periodic_info_roundtrip : outcome unit :=
  let info := mkPeriodicAdvInfo (0x11, 0x22) 640 1 in
  let enc := PeriodicAdvInfo_encode info in
  let! d := PeriodicAdvInfo_decode enc in
  let! _ := assert_eq d (Some info) in
  let! s := slice_to enc 4 in
  let! d := PeriodicAdvInfo_decode s in
  assert_eq d None.

Definition test_periodic_pdu_roundtrip : outcome unit :=
  let pdu := PeriodicAdv 0 (0xAA, 0xBB) in
  let! (s, n) := encoded pdu 16 in
  let! _ := assert_eq n 5%nat in
  let! _ := assert_eq s [0x07; 0x06; 0x00; 0xAA; 0xBB] in
  let! d := unwrap (AdvPdu_decode s) in
  match d with
  | PeriodicAdv adv_mode adi =>
      let! _ := assert_eq adv_mode 0 in
      assert_eq adi (0xAA, 0xBB)
  | _ => Panic
  end.

Definition test_aux_with_eh_roundtrip : outcome unit :=
  let info := mkPeriodicAdvInfo (0, 0) 100 1 in
  let! ehs := set_idx (replicate 7 0) 0 (1 + 5) in
  let! ehs := set_idx ehs 1 EXT_AD_PERIODIC in
  let! ehs := copy_at ehs 2 7 (PeriodicAdvInfo_encode info) in
  let pdu := AuxAdvExtIndWithEh (replicate 6 0xAA) (0, 0) ehs [0x02; 0x01; 0x06] in
  let! (s, n) := encoded pdu 32 in
  let! _ := assert_eq n (2 + 8 + 7 + 3)%nat in
  let! b := idx s 11 in
  let! _ := assert_eq b EXT_AD_PERIODIC in
  let! d := unwrap (AdvPdu_decode s) in
  match d with
  | AuxAdvExtInd _ _ ext_type data =>
      let! _ := assert_eq ext_type EXT_AD_PERIODIC in
      assert_eq data [0x02; 0x01; 0x06]
  | _ => Panic
  end.

Definition pdu_tests : list (outcome unit) :=
  [test_adv_header_bit_layout; test_adv_ind_roundtrip; test_adv_ind_canonical_bytes;
   test_scan_req_roundtrip; test_connect_req_roundtrip; test_data_pdu_roundtrip;
   test_truncated_pdu_rejected; test_length_mismatch_rejected;
   test_reserved_pdu_type_rejected; test_aux_ptr_bit_layout;
   test_adv_ext_ind_roundtrip; test_aux_adv_ext_ind_roundtrip;
   test_periodic_info_roundtrip; test_periodic_pdu_roundtrip;
   test_aux_with_eh_roundtrip].

(** ** The simulated radio *)

Definition test_loopback_roundtrip_preserves_pdu : outcome unit :=
  let pdu := [0x00; 0x12; 0x01; 0x02; 0x03; 0x04; 0x05; 0x06; 0x07; 0x08; 0x09; 0x0A] in
  let! rx := unwrap (loopback pdu 37) in
  let! s := slice_to (rx_pdu rx) (rx_len rx) in
  assert_eq s pdu.

Definition test_wrong_channel_fails_crc : outcome unit :=
  let pdu := [0x00; 0x0C; 0x01; 0x02; 0x03; 0x04; 0x05; 0x06] in
  let radio_tx := mkVirtualRadio 37 in
  let! packet := unwrap (transmit radio_tx pdu) in
  let radio_rx := mkVirtualRadio 38 in
  let! r := receive radio_rx packet in
  assert_eq r (Err CrcMismatch).

Definition test_bit_flip_in_air_fails_crc : outcome unit :=
  let pdu := [0x00; 0x0C; 0x01; 0x02; 0x03; 0x04; 0x05; 0x06] in
  let radio := mkVirtualRadio 39 in
  let! packet := unwrap (transmit radio pdu) in
  let! b := idx (pkt_bytes packet) 2 in
  let! bs := set_idx (pkt_bytes packet) 2 (b .^ 0x01) in
  let! r := receive radio (mkPacket (pkt_channel packet) bs (pkt_len packet)) in
  assert (is_err r).

(** *** The integration test *)

Definition ADV_ADDR : list Z := [0xAA; 0xBB; 0xCC; 0xDD; 0xEE; 0xFF].
Definition SCAN_ADDR : list Z := [0x11; 0x22; 0x33; 0x44; 0x55; 0x66].

Definition make_advertising_data : outcome (list Z * nat) :=
  let entries :=
    [mkAdEntry AD_TYPE_FLAGS [0x06]; mkAdEntry AD_TYPE_COMPLETE_NAME (byte_str "nrf-ble")] in
  unwrap (build entries (replicate 31 0)).

Definition test_advertiser_to_scanner_adv_ind_loopback : outcome unit :=
  let! (adv_data, adv_len) := make_advertising_data in
  let! sent := slice_to adv_data adv_len in
  let! (tx, _) := encoded (AdvInd ADV_ADDR sent) 39 in
  let! rx := unwrap (loopback tx 37) in
  let! s := slice_to (rx_pdu rx) (rx_len rx) in
  let! decoded := unwrap (AdvPdu_decode s) in
  match decoded with
  | AdvInd adv_addr data =>
      let! _ := assert_eq adv_addr ADV_ADDR in
      let! _ := assert_eq data sent in
      let! items := collect 32 (iter data) in
      let! entries := for_each items 0%nat (fun ad entries =>
        let! ad := unwrap (Ret ad) in
        let! _ :=
          if ad_type ad =? AD_TYPE_FLAGS then assert_eq (ad_data ad) [0x06]
          else if ad_type ad =? AD_TYPE_COMPLETE_NAME
          then assert_eq (ad_data ad) (byte_str "nrf-ble")
          else Panic in
        Ret (entries + 1)%nat) in
      assert_eq entries 2%nat
  | _ => Panic
  end.

(** Encode, transmit, receive and decode. *)
Definition over_the_air (tx_radio rx_radio : VirtualRadio) (pdu : AdvPdu) : outcome AdvPdu :=
  let! (s, _) := encoded pdu 39 in
  let! packet := unwrap (transmit tx_radio s) in
  let! rx := unwrap (receive rx_radio packet) in
  let! s := slice_to (rx_pdu rx) (rx_len rx) in
  unwrap (AdvPdu_decode s).

Definition test_scan_req_scan_rsp_exchange : outcome unit :=
  let tx_radio := mkVirtualRadio 38 in
  let rx_radio := mkVirtualRadio 38 in
  let! d := over_the_air tx_radio rx_radio (ScanReq SCAN_ADDR ADV_ADDR) in
  let! _ :=
    match d with
    | ScanReq scan_addr adv_addr =>
        let! _ := assert_eq scan_addr SCAN_ADDR in
        assert_eq adv_addr ADV_ADDR
    | _ => Panic
    end in
  let! d := over_the_air tx_radio rx_radio (ScanRsp ADV_ADDR (byte_str "rsp")) in
  match d with
  | ScanRsp adv_addr data =>
      let! _ := assert_eq adv_addr ADV_ADDR in
      assert_eq data (byte_str "rsp")
  | _ => Panic
  end.

Definition test_pdu_type_and_address_derivation : outcome unit :=
  let! addr := BtAddr_parse ADV_ADDR in
  let! _ := assert_eq (ba_addr_type addr) RandomStatic in
  assert (BtAddr_tx_add_bit addr).

Definition sim_tests : list (outcome unit) :=
  [test_loopback_roundtrip_preserves_pdu; test_wrong_channel_fails_crc;
   test_bit_flip_in_air_fails_crc; test_advertiser_to_scanner_adv_ind_loopback;
   test_scan_req_scan_rsp_exchange; test_pdu_type_and_address_derivation].

(** ** Intervals *)

Definition test_interval_ticks_are_exact : outcome unit :=
  let! (acc, t) := IntervalAccum_next IntervalAccum_new 32 in
  let! _ := assert_eq t 625 in
  let! (acc, t) := IntervalAccum_next acc 32 in
  assert_eq t 625.

Definition test_interval_ticks_follow_fractional_accumulation : outcome unit :=
  let! (_, total) := for_each (range 1000) (IntervalAccum_new, 0) (fun _ '(acc, total) =>
    let! (acc, t) := IntervalAccum_next acc 33 in
    Ret (acc, total + t)) in
  assert_eq total ((1000 * 33 * 625) / 32).

Definition test_max_interval_fits_timer : outcome unit :=
  let! (_, ticks) := IntervalAccum_next IntervalAccum_new 16384 in
  let! _ := assert_eq ticks 320000 in
  assert (ticks <? 1 .<< 24).

Definition test_window_ticks_round_up : outcome unit :=
  let! t := window_ticks 4 in
  let! _ := assert_eq t 79 in
  let! t := window_ticks 32 in
  assert_eq t 625.

Definition test_timeout_ticks_round_up : outcome unit :=
  let! _ := assert_eq (timeout_ticks 150) 5 in
  let! _ := assert_eq (timeout_ticks 160) 5 in
  assert_eq (timeout_ticks 0) 0.

Definition test_interval_accumulation_is_exact : outcome unit :=
  let sync := mkPeriodicSync 0 100 0 0 in
  let! (_, total) := for_each (range 16) (sync, 0) (fun _ '(sync, total) =>
    let! (sync, d) := PeriodicSync_next_interval sync in
    let sync := mkPeriodicSync (ps_channel sync) (ps_units sync) (ps_frac sync)
      (wrapping_add32 (ps_next_event sync) d) in
    Ret (sync, total + d)) in
  assert_eq total ((100 * 16 * 1250) / 32).

Definition test_odd_intervals_stay_drift_free : outcome unit :=
  let sync := mkPeriodicSync 0 33 0 0 in
  let! (_, total) := for_each (range 1000) (sync, 0) (fun _ '(sync, total) =>
    let! (sync, d) := PeriodicSync_next_interval sync in
    Ret (sync, total + d)) in
  assert_eq total ((1000 * 33 * 1250) / 32).

Definition interval_tests : list (outcome unit) :=
  [test_interval_ticks_are_exact; test_interval_ticks_follow_fractional_accumulation;
   test_max_interval_fits_timer; test_window_ticks_round_up;
   test_timeout_ticks_round_up; test_interval_accumulation_is_exact;
   test_odd_intervals_stay_drift_free].

(** ** The tests pass *)

Lemma ad_tests_pass : forallb passes ad_tests = true.
Proof. vm_compute. reflexivity. Qed.

Lemma addr_tests_pass : forallb passes addr_tests = true.
Proof. vm_compute. reflexivity. Qed.

Lemma channel_tests_pass : forallb passes channel_tests = true.
Proof. vm_compute. reflexivity. Qed.

Lemma checksum_tests_pass : forallb passes checksum_tests = true.
Proof. vm_compute. reflexivity. Qed.

Lemma pdu_tests_pass : forallb passes pdu_tests = true.
Proof. vm_compute. reflexivity. Qed.

Lemma sim_tests_pass : forallb passes sim_tests = true.
Proof. vm_compute. reflexivity. Qed.

Lemma interval_tests_pass : forallb passes interval_tests = true.
Proof. vm_compute. reflexivity. Qed.
