(* ===== verification/TestHost.v ===== *)
(** The crate's unit tests of its host side, run on the definitions: the HCI
    layer ([src/hci.rs]), bond records ([src/hw/bond_flash.rs]), and, over the
    AES of [Aes.v], address privacy ([src/ll/priv_.rs]) and pairing
    ([src/hw/smp.rs]). The last test of [smp.rs] compares with a
    point and a shared secret of P-256, which is an interface: it passes for any
    exchange with those values. *)

From stdpp Require Import base numbers list strings.
From S2P Require Import Prelude Errors EventQueue Hci BondStore Crypto Aes Smp SmpSc Testing.

#[local] Open Scope Z_scope.
#[local] Open Scope rust_scope.

(** ** HCI *)

(** [for b in bytes { if let Some(p) = f.feed(b) { out = Some(p) } }] *)
Definition feed_bytes (f : H4Framer) (bs : list Z)
    : outcome (H4Framer * option HciPacket) :=
  for_each bs (f, None) (fun b '(f, out) =>
    let! (f, p) := H4Framer_feed f b in
    Ret (f, match p with Some p => Some p | None => out end)).

Definition h4_bytes (packet_type : Z) (pkt : HciPacket) : outcome (list Z) :=
  let! bytes := set_idx (replicate 261 0) 0 packet_type in
  let! s := slice_to (hp_payload pkt) (hp_len pkt) in
  copy_at bytes 1 (1 + hp_len pkt) s.

Definition test_h4_frames_command_packets : outcome unit :=
  let f := H4Framer_new in
  let! pkt := HciPacket_command 0x08 0x000A [1] in
  let! bs := h4_bytes HCI_COMMAND pkt in
  let! (f, out) := feed_bytes f bs in
  let! p := some out in
  let! _ := assert_eq (hp_packet_type p) HCI_COMMAND in
  let! b0 := idx (hp_payload p) 0 in
  let! b1 := idx (hp_payload p) 1 in
  let! _ := assert_eq (b0 .| (b1 .<< 8)) 0x200A in
  let! b2 := idx (hp_payload p) 2 in
  assert_eq b2 1.

Definition test_h4_frames_event_packets : outcome unit :=
  let f := H4Framer_new in
  let! pkt := HciPacket_event 0x0E [1; 2; 3] in
  let! bs := h4_bytes HCI_EVENT pkt in
  let! (f, out) := feed_bytes f bs in
  let! p := some out in
  let! b0 := idx (hp_payload p) 0 in
  let! _ := assert_eq b0 0x0E in
  let! b2 := idx (hp_payload p) 2 in
  assert_eq b2 1.

Definition test_h4_frames_acl_packets : outcome unit :=
  let f := H4Framer_new in
  let! pkt := HciPacket_acl 0 [0x04; 0x00; 0x04; 0x00; 1; 2; 3] in
  let! bs := h4_bytes HCI_ACL_DATA pkt in
  let! (f, out) := feed_bytes f bs in
  let! p := some out in
  let! _ := assert_eq (hp_packet_type p) HCI_ACL_DATA in
  assert_eq (hp_len p) (4 + 7)%nat.

Definition is_none {A} (o : option A) : bool :=
  match o with Some _ => false | None => true end.

Definition test_hci_rejects_garbage_bytes : outcome unit :=
  let f := H4Framer_new in
  let! (f, p) := H4Framer_feed f 0x00 in
  let! _ := assert (is_none p) in
  let! (f, p) := H4Framer_feed f 0xAA in
  let! _ := assert (is_none p) in
  let! (f, p) := H4Framer_feed f 0xFF in
  assert (is_none p).

Definition test_event_queue_roundtrip : outcome unit :=
  let! hci := for_each (range 15) Hci_new (fun i hci =>
    let! p := HciPacket_event (u8 i) [u8 i] in
    Hci_push_event hci p) in
  let! hci := for_each (range 15) hci (fun i hci =>
    let! (hci, e) := Hci_next_event hci in
    let! evt := some e in
    let! b := idx (hp_payload evt) 0 in
    let! _ := assert_eq b (u8 i) in
    Ret hci) in
  let! (_, e) := Hci_next_event hci in
  assert (is_none e).

(** [while hci.next_event().is_some() { count += 1 }] *)
Fixpoint count_events (fuel : nat) (hci : Hci) (count : nat) : outcome nat :=
  match fuel with
  | O => Panic
  | S fuel =>
      let! (hci, e) := Hci_next_event hci in
      if is_none e then Ret count else count_events fuel hci (count + 1)%nat
  end.

Definition test_event_queue_never_exceeds_capacity : outcome unit :=
  let! hci := for_each (range 40) Hci_new (fun i hci =>
    let! p := HciPacket_event 0xEE [u8 i] in
    Hci_push_event hci p) in
  let! count := count_events 41 hci 0 in
  assert_eq count 16%nat.

Definition test_acl_packet_roundtrip : outcome unit :=
  let! pkt := HciPacket_acl 0x0042 [0x04; 0x00; 0x04; 0x00; 0x0A; 0x06; 0x00] in
  let! _ := assert_eq (hp_packet_type pkt) HCI_ACL_DATA in
  let! b0 := idx (hp_payload pkt) 0 in
  let! b1 := idx (hp_payload pkt) 1 in
  let! _ := assert_eq (b0 .| (b1 .<< 8)) 0x0042 in
  assert_eq (hp_len pkt) 11%nat.

Definition hci_tests : list (outcome unit) :=
  [test_h4_frames_command_packets; test_h4_frames_event_packets;
   test_h4_frames_acl_packets; test_hci_rejects_garbage_bytes;
   test_event_queue_roundtrip; test_event_queue_never_exceeds_capacity;
   test_acl_packet_roundtrip].

(** ** Bond records *)

Definition test_record_roundtrip : outcome unit :=
  let bond := mkBondInfo (replicate 6 0xAA) (replicate 16 0x11) (Some (replicate 16 0x22)) in
  let! rec := encode_record bond in
  let! _ := assert_eq (length rec) BOND_RECORD_LEN in
  let! d := decode_record rec in
  assert_eq d (Some bond).

Definition test_record_without_irk : outcome unit :=
  let bond := mkBondInfo [1; 2; 3; 4; 5; 6] (replicate 16 7) None in
  let! rec := encode_record bond in
  let! d := decode_record rec in
  assert_eq d (Some bond).

Definition test_empty_slot_decodes_to_none : outcome unit :=
  let rec := replicate BOND_RECORD_LEN 0 in
  let! d := decode_record rec in
  assert_eq d None.

Definition test_corrupted_trailer_decodes_to_none : outcome unit :=
  let bond := mkBondInfo (replicate 6 0xAA) (replicate 16 0x11) None in
  let! rec := encode_record bond in
  let! b := idx rec 40 in
  let! rec := set_idx rec 40 (b .^ 0xFF) in
  let! d := decode_record rec in
  assert_eq d None.

Definition bond_tests : list (outcome unit) :=
  [test_record_roundtrip; test_record_without_irk; test_empty_slot_decodes_to_none;
   test_corrupted_trailer_decodes_to_none].

(** ** Privacy and pairing, over AES *)

#[local] Existing Instance aes_crypto | 0.

Definition test_ah_matches_reference : outcome unit :=
  let irk := replicate 16 0 in
  let prand := [0x01; 0x02; 0x03] in
  let! h := ah irk prand in
  assert_eq h [0x96; 0x3C; 0xCC].

Definition test_generate_and_resolve_roundtrip : outcome unit :=
  let irk := replicate 16 0x11 in
  for_all [0; 1; 0x123456; 0xFFFFFF] (fun prand =>
    let! addr := generate_rpa irk prand in
    let! ok := resolve_rpa irk addr in
    assert ok).

Definition test_wrong_irk_does_not_resolve : outcome unit :=
  let irk := replicate 16 0x11 in
  let other := replicate 16 0x22 in
  let! addr := generate_rpa irk 0xABCDEF in
  let! ok := resolve_rpa other addr in
  assert (negb ok).

Definition test_rpa_has_random_type_bits : outcome unit :=
  let irk := replicate 16 0x11 in
  let! addr := generate_rpa irk 42 in
  let! b := idx addr 5 in
  assert_eq (b .>> 6) 1.

Definition test_c1_matches_reference : outcome unit :=
  let tk := replicate 16 0 in
  let! c := c1 tk (mkC1Inputs (replicate 16 0x01) (replicate 7 0x02) (replicate 7 0x03) 1 0
    (replicate 6 0x04) (replicate 6 0x05)) in
  assert_eq c [0xBD; 0xA1; 0xF6; 0xB0; 0xDE; 0x5F; 0x28; 0xB0;
               0xD6; 0x6E; 0x05; 0x32; 0xB9; 0xBA; 0xDE; 0xBA].

Definition test_s1_matches_reference : outcome unit :=
  let! s := s1 (replicate 16 0) (replicate 16 0x01) (replicate 16 0x02) in
  assert_eq s [0x97; 0x4B; 0xC0; 0x47; 0xDE; 0x83; 0x0A; 0x80;
               0x1A; 0x01; 0x4D; 0x94; 0x90; 0x9E; 0xE9; 0x85].

Definition test_pairing_exchange_roundtrip : outcome unit :=
  let '(a, req) := build_pairing_request Smp_new in
  let! (b, r) := handle_pairing_request Smp_new req in
  let! rsp := unwrap (Ret r) in
  let! (a, r) := handle_pairing_response a rsp in
  let! _ := unwrap (Ret r) in
  let ia := replicate 6 0xAA in
  let ra := replicate 6 0xBB in
  let! (a, conf_a) := build_confirm a 1 ia ra in
  let b := set_smp_ra ra (set_smp_ia ia (set_smp_iat 1 b)) in
  let! (b, r) := handle_confirm b conf_a in
  let! _ := unwrap (Ret r) in
  let! (b, conf_b) := build_confirm b 1 ia ra in
  let! (a, r) := handle_confirm a conf_b in
  let! _ := unwrap (Ret r) in
  let! rnd_a := build_random a in
  let! (b, r) := handle_random b rnd_a in
  let! rnd_b := unwrap (Ret r) in
  let! (a, r) := handle_random a rnd_b in
  let! _ := unwrap (Ret r) in
  let! _ := assert_eq (smp_stk a) (smp_stk b) in
  assert (negb (forallb (fun x => x =? 0) (smp_stk a))).

(** [hex32] and [hex16]. *)
Definition hex_digit (c : Ascii.ascii) : outcome Z :=
  let n := Z.of_N (Ascii.N_of_ascii c) in
  if (48 <=? n) && (n <=? 57) then Ret (n - 48)
  else if (97 <=? n) && (n <=? 102) then Ret (n - 87)
  else Panic.

Definition hex (len : nat) (h : string) : outcome (list Z) :=
  let cs := String.list_ascii_of_string h in
  for_each (seq 0 len) (replicate len 0) (fun i out =>
    let! a := idx cs (i * 2)%nat in
    let! b := idx cs (i * 2 + 1)%nat in
    let! x := hex_digit a in
    let! y := hex_digit b in
    set_idx out i (16 * x + y)).

Definition test_f5_matches_reference : outcome unit :=
  let! dhkey := hex 32 "5fd14503997d08fc21ec94741882e4ed665e1dba4ee4bdcc6cb61f1a177e9817" in
  let n1 := u8 <$> range 16 in
  let n2 := (fun i => u8 (i + 16)) <$> range 16 in
  let! a1 := set_idx (replicate 7 0xAA) 6 0 in
  let! a2 := set_idx (replicate 7 0xBB) 6 1 in
  let smp := set_smp_peer_nonce n2 (set_smp_sc_nonce n1 (set_smp_dhkey dhkey Smp_new)) in
  let! ltk := compute_ltk_sc smp n1 n2 a1 a2 in
  let! expected := hex 16 "36217fdd23fe9c5f8e401cfaaa464714" in
  assert_eq ltk expected.

Definition test_passkey_tk_layout : outcome unit :=
  let s := set_passkey Smp_new (Some 123456) in
  let! tk := tk s in
  let! h := slice_to tk 4 in
  let! _ := assert_eq h [0x40; 0xE2; 0x01; 0x00] in
  let! t := slice_from tk 4 in
  assert_eq t (replicate 12 0).

Definition smp_tests : list (outcome unit) :=
  [test_ah_matches_reference; test_generate_and_resolve_roundtrip;
   test_wrong_irk_does_not_resolve; test_rpa_has_random_type_bits;
   test_c1_matches_reference; test_s1_matches_reference;
   test_pairing_exchange_roundtrip; test_f5_matches_reference; test_passkey_tk_layout].

(** The test's secrets, and the shared secret it expects. *)
Definition secret_a : string := "1234567890123456789012345678901234567890123456789012345678901234".
Definition secret_b : string := "abcdefabcdefabcdefabcdefabcdefabcdefabcdefabcdefabcdefabcdefabcd".
Definition shared_ab : string := "5fd14503997d08fc21ec94741882e4ed665e1dba4ee4bdcc6cb61f1a177e9817".

Definition test_ecdh_and_f5_end_to_end `{!Crypto} : outcome unit :=
  let! sa := hex 32 secret_a in
  let! sb := hex 32 secret_b in
  let a := set_smp_own_private sa Smp_new in
  let b := set_smp_own_private sb Smp_new in
  let! pka := build_public_key a in
  let! pkb := build_public_key b in
  let! x := idx pka 0 in
  let! _ := assert_eq x SMP_PUBLIC_KEY in
  let! x := idx pka 1 in
  let! _ := assert_eq x 0xCA in
  let! (a, r) := handle_public_key a pkb in
  let! _ := unwrap (Ret r) in
  let! (b, r) := handle_public_key b pka in
  let! _ := unwrap (Ret r) in
  let! _ := assert_eq (smp_dhkey a) (smp_dhkey b) in
  let! k := hex 32 shared_ab in
  let! _ := assert_eq (smp_dhkey a) k in
  let! a1 := set_idx (replicate 7 0xAA) 6 0 in
  let! a2 := set_idx (replicate 7 0xBB) 6 1 in
  let a := set_smp_peer_nonce (replicate 16 9) (set_smp_sc_nonce (replicate 16 7) a) in
  let b := set_smp_peer_nonce (replicate 16 7) (set_smp_sc_nonce (replicate 16 9) b) in
  let n1 := replicate 16 7 in
  let n2 := replicate 16 9 in
  let! ka := compute_ltk_sc a n1 n2 a1 a2 in
  let! kb := compute_ltk_sc b n1 n2 a1 a2 in
  assert_eq ka kb.

(** ** The tests pass *)

Lemma hci_tests_pass : forallb passes hci_tests = true.
Proof. vm_compute. reflexivity. Qed.

Lemma bond_tests_pass : forallb passes bond_tests = true.
Proof. vm_compute. reflexivity. Qed.

Lemma smp_tests_pass : forallb passes smp_tests = true.
Proof. vm_compute. reflexivity. Qed.

(** With an exchange that has the values of the curve the test was made with. *)
Lemma ecdh_test_passes `{!Crypto} sa sb k :
  hex 32 secret_a = Ret sa -> hex 32 secret_b = Ret sb -> hex 32 shared_ab = Ret k ->
  p256_secret_ok sa = true -> p256_secret_ok sb = true ->
  p256_point_ok (p256_public sa) = true -> p256_point_ok (p256_public sb) = true ->
  p256_public sa !! 0%nat = Some 0xCA ->
  p256_ecdh sa (p256_public sb) = k -> p256_ecdh sb (p256_public sa) = k ->
  length sa = 32%nat -> length sb = 32%nat ->
  passes test_ecdh_and_f5_end_to_end = true.
Proof.
  intros Ea Eb Ek Sa Sb Pa Pb Hx Ka Kb La Lb. unfold test_ecdh_and_f5_end_to_end.
  rewrite Ea, Eb, !obind_Ret. cbv zeta.
  set (a := set_smp_own_private sa Smp_new). set (b := set_smp_own_private sb Smp_new).
  assert (Ha : wf_smp a) by (by repeat split). assert (Hb : wf_smp b) by (by repeat split).
  rewrite !build_public_key_Ret, !obind_Ret by done.
  assert (E : idx (announced a) 1 = Ret 0xCA) .
  { unfold idx, announced. change ((_ :: ?l) !! 1%nat) with (l !! 0%nat).
    change (smp_own_private a) with sa. by rewrite Hx. }
  change (idx (announced a) 0) with (Ret SMP_PUBLIC_KEY). rewrite obind_Ret.
  change (assert_eq SMP_PUBLIC_KEY SMP_PUBLIC_KEY) with (Ret tt). rewrite obind_Ret, E, obind_Ret.
  change (assert_eq 0xCA 0xCA) with (Ret tt). rewrite obind_Ret.
  rewrite !exchange_accepted by done. rewrite !obind_Ret. cbn [unwrap obind].
  change (smp_dhkey (paired_dh a ?p)) with (p256_ecdh sa p).
  change (smp_dhkey (paired_dh b ?p)) with (p256_ecdh sb p).
  change (smp_own_private a) with sa. change (smp_own_private b) with sb.
  rewrite Ka, Kb, assert_eq_refl, obind_Ret, Ek, obind_Ret, assert_eq_refl, obind_Ret.
  rewrite !set_idx_Ret, !obind_Ret by (cbn; lia).
  rewrite !compute_ltk_sc_Ret, !obind_Ret by done.
  change (smp_dhkey (set_smp_peer_nonce _ (set_smp_sc_nonce _ (paired_dh a ?p))))
    with (p256_ecdh sa p).
  change (smp_dhkey (set_smp_peer_nonce _ (set_smp_sc_nonce _ (paired_dh b ?p))))
    with (p256_ecdh sb p).
  by rewrite Ka, Kb, assert_eq_refl.
Qed.
