(* ===== verification/TestConn.v ===== *)
(** The crate's unit tests of a connection ([src/hw/conn.rs], its six test
    modules), run on the definitions. They build on the nRF targets only; here
    they are evaluated, over any hardware, which none of them reaches. *)

From stdpp Require Import base numbers list strings.
From S2P Require Import Prelude Errors Channels Timers Pdu Events BondStore Crypto Aes Smp.
From S2P Require Import Ccm Gatt Conn Att CocChannel SmpChannel L2cap Radio LinkLayer Testing.

#[local] Open Scope Z_scope.
#[local] Open Scope rust_scope.

#[export] Instance ConnEvent_eq_dec : EqDecision ConnEvent.
Proof. solve_decision. Defined.

(** [conn()] of every module; one of them is a master. *)
Definition test_conn (role : ConnRole) : Conn :=
  let params := mkConnectReqData 0x1234ABCD 0x654321 1 0 24 0 2000
    [0xFF; 0xFF; 0xFF; 0xFF; 0x1F] 13 2 in
  Conn_new params 37 0 role.

Definition conn : Conn := test_conn Slave.

(** ** The attribute server *)

Definition run_att (conn : Conn) (request : list Z) : outcome (Conn * list Z) :=
  let! att := copy_at (replicate 64 0) 0 (length request) request in
  let! a := slice_to att (length request) in
  let! (conn, _) := handle_att conn a EvIdle in
  let n := cn_tx_att_len conn in
  let! s := slice_to (cn_tx_att conn) n in
  let! out := copy_at (replicate 256 0) 0 n s in
  Ret (conn, out).

(** [assert_eq!(&l[a..b], v)] *)
Definition assert_slice (l : list Z) (a b : nat) (v : list Z) : outcome unit :=
  let! s := slice l a b in assert_eq s v.

(** [assert_eq!(l[i], v)] *)
Definition assert_at (l : list Z) (i : nat) (v : Z) : outcome unit :=
  let! x := idx l i in assert_eq x v.

Definition test_exchange_mtu : outcome unit :=
  let! (c, rsp) := run_att conn [0x02; 0x27; 0x00] in
  let! _ := assert_slice rsp 0 5 [0x03; 23; 0; 0; 0] in
  assert_at rsp 0 0x03.

Definition test_find_information_lists_handles : outcome unit :=
  let! (c, rsp) := run_att conn [0x04; 0x01; 0x00; 0xFF; 0xFF] in
  let! _ := assert_at rsp 0 0x05 in
  let! _ := assert_at rsp 1 0x02 in
  let! _ := assert_slice rsp 2 4 [0x01; 0x00] in
  assert_slice rsp 4 20 NUS_SERVICE_UUID.

Definition test_read_by_group_type_primary_service : outcome unit :=
  let! (c, rsp) := run_att conn [0x10; 0x00; 0x28; 0x01; 0x00; 0xFF; 0xFF] in
  let! _ := assert_at rsp 0 0x11 in
  let! _ := assert_at rsp 1 18 in
  let! _ := assert_slice rsp 2 4 [0x01; 0x00] in
  assert_slice rsp 4 20 NUS_SERVICE_UUID.

Definition test_read_by_type_characteristics : outcome unit :=
  let! (c, rsp) := run_att conn [0x08; 0x03; 0x28; 0x01; 0x00; 0xFF; 0xFF] in
  let! _ := assert_at rsp 0 0x09 in
  let! _ := assert_at rsp 1 21 in
  let! _ := assert_slice rsp 2 4 [0x02; 0x00] in
  let! _ := assert_at rsp 4 0x08 in
  let! _ := assert_slice rsp 5 7 [0x03; 0x00] in
  assert_slice rsp 7 23 NUS_RX_CHAR_UUID.

Definition test_write_rx_characteristic_reports_data : outcome unit :=
  let req := [0x12; 0x03; 0x00] ++ byte_str "hi" in
  let! att := copy_at (replicate 64 0) 0 (length req) req in
  let! a := slice_to att (length req) in
  let! (c, result) := handle_att conn a EvIdle in
  let! _ := assert_eq result EvData in
  let! _ := assert_slice (cn_rx_data c) 0 2 (byte_str "hi") in
  assert_at (cn_tx_att c) 0 0x13.

Definition test_write_cccd_enables_notifications : outcome unit :=
  let req := [0x12; 0x06; 0x00; 0x01; 0x00] in
  let! att := copy_at (replicate 64 0) 0 (length req) req in
  let! a := slice_to att (length req) in
  let! (c, _) := handle_att conn a EvIdle in
  assert_eq (cn_nus_cccd c) 0x01.

Definition test_read_cccd : outcome unit :=
  let! (c, rsp) := run_att (set_nus_cccd 1 conn) [0x0A; 0x06; 0x00] in
  assert_slice rsp 0 3 [0x0B; 0x01; 0x00].

Definition test_queue_notify_builds_att_pdu : outcome unit :=
  let! c := queue_notify conn (byte_str "ping") in
  let! _ := assert_at (cn_tx_att c) 0 0x1B in
  let! _ := assert_slice (cn_tx_att c) 1 3 [0x05; 0x00] in
  assert_slice (cn_tx_att c) 3 7 (byte_str "ping").

Definition test_channel_hopping_skips_unused_channels : outcome unit :=
  let! map := set_idx (replicate 5 0xFF) 0 0xFC in
  let! ch := next_channel 0 1 map in
  assert_eq ch 2.

Definition test_terminate_flag_sends_control_pdu : outcome unit :=
  let c := terminate conn in
  assert (cn_terminate_pending c).

Definition att_tests : list (outcome unit) :=
  [test_exchange_mtu; test_find_information_lists_handles;
   test_read_by_group_type_primary_service; test_read_by_type_characteristics;
   test_write_rx_characteristic_reports_data; test_write_cccd_enables_notifications;
   test_read_cccd; test_queue_notify_builds_att_pdu;
   test_channel_hopping_skips_unused_channels; test_terminate_flag_sends_control_pdu].

(** ** The client *)

Definition client_request (conn : Conn) (f : Conn -> outcome Conn)
    : outcome (Conn * list Z) :=
  let! conn := f conn in
  let n := cn_tx_att_len conn in
  let! s := slice_to (cn_tx_att conn) n in
  let! out := copy_at (replicate 32 0) 0 n s in
  Ret (conn, out).

Definition feed_response (conn : Conn) (rsp : list Z) : outcome Conn :=
  let! (conn, _) := handle_att conn rsp EvIdle in Ret conn.

Definition client : Conn := test_conn Master.

Definition test_discover_primary_services_request : outcome unit :=
  let att := [0x10; 0x00; 0x28; 0x01; 0x00; 0xFF; 0xFF] in
  let! (c, req) := client_request client (fun c => gatt_send_request c att) in
  assert_slice req 0 7 att.

Definition test_read_request_format : outcome unit :=
  let! (c, req) := client_request client (fun c =>
    gatt_send_request c [0x0A; 0x05; 0x00]) in
  assert_slice req 0 3 [0x0A; 0x05; 0x00].

Definition test_write_request_format : outcome unit :=
  let! (c, req) := client_request client (fun c =>
    let! r := set_idx (replicate 23 0) 0 0x12 in
    let! r := copy_at r 1 3 (u16_to_le 0x0003) in
    let! r := copy_at r 3 5 (byte_str "hi") in
    let! s := slice_to r 5 in
    gatt_send_request c s) in
  assert_slice req 0 5 ([0x12; 0x03; 0x00] ++ byte_str "hi").

Definition test_response_routing_stores_result : outcome unit :=
  let! c := gatt_send_request client [0x10; 0x00; 0x28; 0x01; 0x00; 0xFF; 0xFF] in
  let rsp := [0x11; 18; 0x01; 0x00; 0x9E; 0xCA; 0xDC; 0x24] in
  let! c := feed_response c rsp in
  let! (c, (op, buf, len)) := gatt_take_result c in
  let! _ := assert_eq op 0x11 in
  assert_slice buf 0 len rsp.

Definition test_notification_routed_as_data : outcome unit :=
  let! (c, result) := handle_att client ([0x1B; 0x05; 0x00] ++ byte_str "not") EvIdle in
  let! _ := assert_eq result EvData in
  assert_slice (cn_rx_data c) 0 3 (byte_str "not").

Definition test_response_clears_pending : outcome unit :=
  let! c := gatt_send_request client [0x0A; 0x05; 0x00] in
  let! _ := assert (cn_pending_request c) in
  let! c := feed_response c [0x0B; 0x01; 0x02; 0x03] in
  assert (negb (cn_pending_request c)).

Definition test_discovery_last_handle_parsing : outcome unit :=
  let rsp := [0x11; 18; 0x01; 0x00; 1; 2; 3; 4; 5; 6; 7; 8; 9; 10; 11; 12; 13; 14; 15; 16] in
  let! h := att_response_last_handle rsp in
  let! _ := assert_eq h (Some 0x0001) in
  let rsp2 := [0x09; 7; 0x02; 0x00; 1; 2; 3; 4; 5; 0x05; 0x00; 6; 7; 8; 9; 10] in
  let! h := att_response_last_handle rsp2 in
  let! _ := assert_eq h (Some 0x0005) in
  let! h := att_response_last_handle [0x09] in
  assert_eq h None.

Definition test_error_response_routed : outcome unit :=
  let! c := gatt_send_request client [0x0A; 0x05; 0x00] in
  let! c := feed_response c [0x01; 0x0A; 0x05; 0x00; 0x0A] in
  let! (c, (op, _, _)) := gatt_take_result c in
  assert_eq op 0x01.

Definition gatt_client_tests : list (outcome unit) :=
  [test_discover_primary_services_request; test_read_request_format;
   test_write_request_format; test_response_routing_stores_result;
   test_notification_routed_as_data; test_response_clears_pending;
   test_discovery_last_handle_parsing; test_error_response_routed].

(** ** The data path *)

Definition test_mtu_exchange_negotiates_min : outcome unit :=
  let! c := gatt_send_request conn [0x02; 0x10; 0x00] in
  let! (c, _) := handle_att c [0x03; 0x17; 0x00] EvIdle in
  let! _ := assert_eq (cn_att_mtu c) 23 in
  let c := set_att_mtu 247 c in
  let! c := gatt_send_request c [0x02; 0xF7; 0x00] in
  let! (c, _) := handle_att c [0x03; 0x27; 0x00] EvIdle in
  assert_eq (cn_att_mtu c) 39.

(** One fragment: its link identifier and its length byte. *)
Definition fragment (c : Conn) : outcome (Conn * Z * nat) :=
  let! (c, _) := tx_fragment c in
  let! b0 := idx (cn_tx_buf c) 0 in
  let! b1 := idx (cn_tx_buf c) 1 in
  Ret (c, b0 .& 3, Z.to_nat b1).

Definition test_long_att_pdu_fragments_across_events : outcome unit :=
  let! c := queue_att conn (replicate 60 0x42) in
  let! (c, llid, len) := fragment c in
  let! _ := assert_eq llid LLID_DATA_START in
  let! _ := assert_eq len (4 + 23)%nat in
  let! _ := assert (cn_tx_pending c) in
  let! (c, llid, len) := fragment c in
  let! _ := assert_eq llid LLID_DATA_CONTINUATION_OR_COMPLETE in
  let! _ := assert_eq len 27%nat in
  let! (c, llid, len) := fragment c in
  let! _ := assert_eq llid LLID_DATA_CONTINUATION_OR_COMPLETE in
  let! _ := assert_eq len 10%nat in
  assert (negb (cn_tx_pending c)).

Definition test_single_pdu_uses_complete_llid : outcome unit :=
  let! c := queue_att conn (replicate 10 0x42) in
  let! (c, llid, _) := fragment c in
  let! _ := assert_eq llid LLID_DATA_COMPLETE in
  assert (negb (cn_tx_pending c)).

Definition test_rx_reassembly_across_fragments : outcome unit :=
  let! f1 := copy_at (replicate 7 0) 0 2 (u16_to_le 5) in
  let! f1 := copy_at f1 2 4 (u16_to_le L2CAP_ATT_CID) in
  let! f1 := copy_at f1 4 7 [0x0A; 0x06; 0x00] in
  let! (c, result) := handle_l2cap conn f1 LLID_DATA_START EvIdle in
  let! _ := assert_eq (cn_rx_l2cap_len c) 3%nat in
  let! (c, result) := handle_l2cap c [0x01; 0x02] LLID_DATA_CONTINUATION_OR_COMPLETE result in
  let! _ := assert_eq (cn_rx_l2cap_len c) 0%nat in
  assert (cn_tx_pending c).

Definition test_read_blob_serves_offset : outcome unit :=
  let! (c, out) := run_att (set_nus_cccd 0 conn) [0x0C; 0x05; 0x00; 0x00; 0x00] in
  assert_at out 0 0x01.

(** *** Control PDUs *)

(** The hardware the control tests hand over, which stays silent. *)
#[local] Instance dummy_env : Env := silent_env 0 ltac:(lia).

Definition dummy : World := mkWorld RadioRegs_reset 0 0 0 0 [] TimerRegs_reset 0.

(** [c.handle_ll_control(..).unwrap()] *)
Definition control (c : Conn) (payload : list Z) : outcome Conn :=
  let! (c, _, r) := handle_ll_control c payload dummy in
  let! _ := unwrap (Ret r) in
  Ret c.

Definition test_dle_negotiation_updates_pdu_max : outcome unit :=
  let! req := set_idx (replicate 9 0) 0 LL_CONTROL_LENGTH_REQ in
  let! req := copy_at req 1 3 (u16_to_le 251) in
  let! req := copy_at req 3 5 (u16_to_le 2120) in
  let! req := copy_at req 5 7 (u16_to_le 251) in
  let! req := copy_at req 7 9 (u16_to_le 2120) in
  let! c := control conn req in
  let! _ := assert_eq (cn_tx_pdu_max c) 251%nat in
  assert (bool_decide (is_Some (cn_pending_control c))).

Definition data_path_tests : list (outcome unit) :=
  [test_mtu_exchange_negotiates_min; test_long_att_pdu_fragments_across_events;
   test_single_pdu_uses_complete_llid; test_rx_reassembly_across_fragments;
   test_dle_negotiation_updates_pdu_max; test_read_blob_serves_offset].

Definition test_ll_control_opcodes_match_spec : outcome unit :=
  let! _ := assert_eq LL_CONTROL_CONNECTION_UPDATE_REQ 0x00 in
  let! _ := assert_eq LL_CONTROL_TERMINATE_IND 0x02 in
  let! _ := assert_eq LL_CONTROL_ENCRYPT_REQ 0x03 in
  let! _ := assert_eq LL_CONTROL_ENCRYPT_RSP 0x04 in
  let! _ := assert_eq LL_CONTROL_START_ENC_REQ 0x05 in
  let! _ := assert_eq LL_CONTROL_START_ENC_RSP 0x06 in
  let! _ := assert_eq LL_CONTROL_UNKNOWN_RSP 0x07 in
  let! _ := assert_eq LL_CONTROL_FEATURE_REQ 0x08 in
  let! _ := assert_eq LL_CONTROL_FEATURE_RSP 0x09 in
  let! _ := assert_eq LL_CONTROL_VERSION_IND 0x0C in
  let! _ := assert_eq LL_CONTROL_PING_REQ 0x12 in
  let! _ := assert_eq LL_CONTROL_PING_RSP 0x13 in
  let! _ := assert_eq LL_CONTROL_LENGTH_REQ 0x14 in
  let! _ := assert_eq LL_CONTROL_LENGTH_RSP 0x15 in
  let! _ := assert_eq LL_CONTROL_PHY_REQ 0x16 in
  assert_eq LL_CONTROL_PHY_RSP 0x17.

Definition test_ping_is_answered_with_ping_rsp : outcome unit :=
  let! c := control conn [LL_CONTROL_PING_REQ] in
  let! rsp := some (cn_pending_control c) in
  assert_at rsp 0 LL_CONTROL_PING_RSP.

Definition test_unknown_opcode_gets_unknown_rsp : outcome unit :=
  let! c := control conn [0x7F] in
  let! rsp := some (cn_pending_control c) in
  let! _ := assert_at rsp 0 LL_CONTROL_UNKNOWN_RSP in
  assert_at rsp 1 0x7F.

Definition opcode_tests : list (outcome unit) :=
  [test_ll_control_opcodes_match_spec; test_ping_is_answered_with_ping_rsp;
   test_unknown_opcode_gets_unknown_rsp].

(** ** Credit-based channels *)

(** [u16::from_le_bytes([l[i], l[i + 1]])] compared. *)
Definition assert_u16 (l : list Z) (i : nat) (v : Z) : outcome unit :=
  let! a := idx l i in
  let! b := idx l (i + 1) in
  assert_eq (u16_from_le a b) v.

Definition test_open_request_builds_correct_message : outcome unit :=
  let! c := l2cap_connect conn 0x1234 in
  let! msg := slice_to (cn_tx_att c) (cn_tx_att_len c) in
  let! _ := assert_at msg 0 LE_CREDIT_BASED_CONNECTION_REQ in
  let! _ := assert_u16 msg 2 0x1234 in
  let! _ := assert_u16 msg 4 COC_LOCAL_CID in
  assert_eq (cn_tx_cid c) L2CAP_SIGNALING_CID.

(** The request of the peer in the next tests, with its credits. *)
Definition peer_open (credits : Z) : list Z :=
  [0x14; 0x00; 0x34; 0x12; 0x41; 0x00; 0xF7; 0x00; 0xFB; 0x00; credits; 0x00].

Definition test_peer_open_request_responds_and_opens : outcome unit :=
  let! c := handle_le_signaling conn (peer_open 0x08) in
  let! coc := some (cn_coc c) in
  let! _ := assert_eq (coc_psm coc) 0x1234 in
  let! _ := assert_eq (coc_peer_cid coc) 0x0041 in
  let! _ := assert_eq (coc_credits coc) 8 in
  let! rsp := slice_to (cn_tx_att c) (cn_tx_att_len c) in
  let! _ := assert_at rsp 0 LE_CREDIT_BASED_CONNECTION_RSP in
  assert_u16 rsp 4 COC_MTU.

Definition test_credit_flow_limits_sending : outcome unit :=
  let! c := handle_le_signaling conn (peer_open 0x01) in
  let! (c, r) := l2cap_send c (byte_str "hello") in
  let! _ := assert (is_ok r) in
  let! (c, r) := l2cap_send c (byte_str "world") in
  let! _ := assert (is_err r) in
  let! c := handle_le_signaling c [0x16; 0x00; 0x40; 0x00; 0x01; 0x00] in
  let! (c, r) := l2cap_send c (byte_str "again") in
  assert (is_ok r).

Definition test_sdu_framing_and_reassembly : outcome unit :=
  let! c := handle_le_signaling conn (peer_open 0x08) in
  let! frame := copy_at (replicate 10 0) 0 2 (u16_to_le 5) in
  let! frame := copy_at frame 2 7 (byte_str "hello") in
  let! (c, result) := rx_coc_sdu c frame EvIdle in
  let! _ := assert_eq result EvData in
  assert_slice (cn_rx_data c) 0 5 (byte_str "hello").

Definition test_multi_frame_sdu_assembled : outcome unit :=
  let! c := handle_le_signaling conn (peer_open 0x08) in
  let! frame := copy_at (replicate 7 0) 0 2 (u16_to_le 6) in
  let! frame := copy_at frame 2 7 (byte_str "hello") in
  let! (c, result) := rx_coc_sdu c frame EvIdle in
  let! _ := assert_eq result EvIdle in
  let! (c, result) := rx_coc_sdu c (byte_str "!") result in
  let! _ := assert_eq result EvData in
  assert_slice (cn_rx_data c) 0 6 (byte_str "hello!").

Definition coc_tests : list (outcome unit) :=
  [test_open_request_builds_correct_message; test_peer_open_request_responds_and_opens;
   test_credit_flow_limits_sending; test_sdu_framing_and_reassembly;
   test_multi_frame_sdu_assembled].

(** ** The tests pass *)

Lemma att_tests_pass : forallb passes att_tests = true.
Proof. vm_compute. reflexivity. Qed.

Lemma gatt_client_tests_pass : forallb passes gatt_client_tests = true.
Proof. vm_compute. reflexivity. Qed.

Lemma data_path_tests_pass : forallb passes data_path_tests = true.
Proof. vm_compute. reflexivity. Qed.

Lemma opcode_tests_pass : forallb passes opcode_tests = true.
Proof. vm_compute. reflexivity. Qed.

Lemma coc_tests_pass : forallb passes coc_tests = true.
Proof. vm_compute. reflexivity. Qed.
